(* ===== verification/_CoqProject ===== *)
-Q . S2P
Prelude.v
Effects.v
RadioTypes.v
State.v
Mem.v
RadioDriver.v
DriverProofs.v
RadioFw.v
Whitening.v
Packets.v
Chunks.v
LongTx.v
LongRx.v
TimeOnAir.v
Radio.v
RadioGeneric.v
Sigfox.v
Api.v
InStep.v
CTypes.v
TypedDriver.v
TypedStack.v
RadioProofs.v
RxProofs.v
GenericProofs.v
HalSubghz.v
Binary64.v
HalStubs.v
Cortex.v
NativeNode.v
NodeBuild.v
PingPong.v
PingPongProofs.v
PingPongEnd.v
AdvTrace.v
TraceModel.v
TraceFifo.v
TraceFaults.v
