(* ===== verification/Prelude.v ===== *)
(** * Verification of the native node of the LoRa simulator

    The simulator runs firmware written in C: a node of the simulation is a
    shared library that is built from the firmware and from the sources under
    src/simulator/native_node.  This development models those C sources and
    proves what makes them correct, and where they fail.  This file is the root
    and the prelude of the library.

    ** The program

    - src/simulator/native_node/native_node.c and radio_node.c: the blocking
      calls [sim_sleep], [sim_transmit_blocking] and [sim_receive_blocking] of a
      firmware.  The C code runs in one thread, the simulator in another; a call
      starts a task of the simulator and waits for its callback.
    - examples/native_ping_pong/firmware/main.c: a firmware on these calls, which
      two nodes run.  The radios that carry their packets are those of the
      simulator (native_node/radio_node.py, lora/radio.py).
    - native_node/stm32wl/radio_driver_stubs: the radio stack of the STM32WL.
      radio.c is the API of the application (the table [struct Radio_s]) with the
      handlers of interrupts and timers; it calls radio_driver.c, which turns
      each request into commands and register accesses of the sub-GHz radio; for
      FSK packets it calls radio_fw.c, which does in software the whitening, the
      CRC and the packets longer than the buffer of the radio.
    - native_node/stm32wl/hal_stubs: what replaces the vendor's HAL.
      stm32wlxx_hal_subghz.c simulates the radio peripheral's handle, its
      callbacks and commands; stm32_mem.c has the byte copies; stm32wlxx_hal.c
      maps delays and the tick count to the time of the simulation.  The
      processor itself is replaced in hal_headers/cmsis_compiler.h and core_cm4.h.
    - native_node/stm32_node.py, radio_node.py, native_node.py: the classes that
      compile the sources of a node into one library.
    - examples/native-stm32wl-phy-ping-pong/firmware/stm32_adv_trace.c with
      usart_if.c: the trace buffer of the STM32 example, a FIFO between the
      firmware and a DMA transfer.

    ** Files and sources

    - Prelude: machine integers as [Z] with their conversions ([u8], [u16], [u32],
      [i8], [i16], [i32]), [byte_at], the macros DIVC and DIVR, and record update.
    - Effects: C functions as computations that return, [exit], reach
      undefined behaviour, or use up the fuel of a loop; the rules for invariants
      ([keeps], [yields]) shared by InStep, TypedDriver and TypedStack.
    - RadioTypes, State: the headers radio_driver.h, radio.h, radio_ex.h,
      radio_fw.h, radio_def.h; the globals of the three files of the radio stack
      as one record [Sys], whose [trace] is the sequence of interactions with
      the outside.
    - Mem: stm32_mem.c.  DriverProofs is about RadioDriver (radio_driver.c).
      RadioFw (radio_fw.c) has its theorems in Whitening, Packets and Chunks, and
      for the packets longer than the buffer of the radio in LongTx and LongRx.
      TimeOnAir, Radio, RadioGeneric and Api are parts of radio.c: the time on
      air, the API with its interrupts, the generic configurations, and the
      table of entry points.  Their theorems are in TimeOnAir, Sigfox,
      RadioProofs (modem, transmission), RxProofs (reception, the link between
      two nodes), GenericProofs, and, for all functions together, InStep and
      TypedStack (with the types in CTypes and the driver in TypedDriver).
    - HalSubghz: stm32wlxx_hal_subghz.c.  HalStubs: stm32wlxx_hal.c and
      stm32wlxx_hal_pwr.c, on the floating point arithmetic of Binary64.  Cortex:
      cmsis_compiler.h, cmsis_compiler.c and the interrupt controller of core_cm4.h.
    - NativeNode: native_node.c and radio_node.c.  NodeBuild: the C files that
      stm32_node.py and its base classes collect for a node.  PingPong: main.c of native_ping_pong as an interaction tree,
      and two nodes with their radios as a transition system; its theorems are in
      PingPongProofs and PingPongEnd.  AdvTrace: stm32_adv_trace.c and usart_if.c; TraceModel: its
      interleaving with the interrupt; theorems in TraceFifo and TraceFaults.

    A definition has the name of the C function or type it translates.  A long
    function is cut into definitions, one per case of a switch or per phase; a
    function that two threads run, at its atomic actions.

    ** What the theorems show

    - End to end.  A LoRa payload handed to [RadioSend] on one node is what the
      interrupt of another reports to its application ([lora_link]); an FSK payload
      packed by [RFW_TransmitInit] is what the reception reads
      ([short_packet_roundtrip]), and one with a burst of errors is reported as an
      error, and nothing else ([corrupted_packet_rejected]).  A long packet is written to the circular
      buffer of the radio as one stream, no byte of which is overwritten before it
      is sent, if the radio sends two bytes or more between two firings of the timer
      and does not run dry ([long_packet_stream]); a receiver hands its payload to
      the application, if no chunk ends within the CRC field, up to the report,
      which ends the process of the simulator ([long_packet_reception]); a long packet with a burst of errors is rejected,
      but its chunks have been handed over by then
      ([corrupted_long_packet_rejected]).
    - Invariants.  [OperatingMode] and [PacketType] are what the radio was last
      commanded, over every sequence of entry points without the two that start an
      unmodulated carrier ([reachable_status]; [carrier_out_of_step] for these two).
      A check of the model: over every sequence of all entry points, no integer
      leaves its C type ([reachable_typed]).
    - Codes.  The CRC is a polynomial remainder and detects bursts, the whitening
      is an involution independent of the chunks with an LFSR of maximal period,
      the Sigfox encoding is differential, the time on air is the formula of the
      data sheet rounded up.
    - Functional behaviour of the configurations ([lora_tx_config], [lora_rx_setup],
      [rfw_init_outcome]), of the commands with arithmetic (frequency, power with the
      settings of the amplifiers, symbol time-out, random numbers) and of the
      interrupts ([interrupts_call_once]), and the termination of the mutual recursion and of
      the busy wait.
    - Concurrency.  The blocking calls return the result of their own task and
      terminate, in every interleaving in which the guard of
      [sim_wait_transmit_finished] does not fire; the trace buffer is a FIFO in every
      interleaving ([trace_fifo]), and it drains when no new message is started
      ([accepted_trace_drains]).
    - Two nodes.  In the regular interleavings the ping-pong firmwares exchange their
      messages in order for as long as the simulation lasts ([ping_pong_exchange]),
      and when a packet is lost both end in a reception that nothing answers
      ([lost_packet_silences]); in all interleavings they return when the simulation
      ends ([simulation_end_stops_nodes]).
    - The platform.  The registration of callbacks implements a map from callback
      identifiers to functions; a delay moves a running simulation by exactly its
      milliseconds, or to its end, and the tick count is at most one behind
      ([delay_and_tick]);
      the replacement of the bit instructions ([position_of_lowest_bit]), the
      nesting of critical sections and the round trip of priorities
      ([priority_roundtrip]); the files that a node is built from
      ([node_sources]).
    - Failures, each as a theorem: the inverted guard of
      [sim_wait_transmit_finished] ([transmit_guard_inverted]), the stall of the trace buffer after a refused
      message, the 256 bytes of every formatted message, the handle of the HAL that
      never becomes ready, the shifted chunks, the overrun of the buffer when a long
      packet is sent too slowly, the CRC byte that an application gets when a chunk of a
      long packet splits the CRC field ([split_crc_rejected]), the overflow of the time on air, the interrupt
      controller in memory that only remembers the last interrupt of a register
      ([nvic_reads_last_write]), the FSK paths that end the process, the carrier that
      is not recorded, the disagreement of the two LoRa configurations.

    ** Assumptions and bounds

    - The outside of the radio stack is the class [Env] of State: what the HAL
      (of which the sources have no reading functions), the timer server, the
      board support package and the application answer is an arbitrary function
      of the interactions so far.  A theorem that needs a radio which holds a
      packet says so ([radio_holds]); the invariants need an application that
      does not write the variables of the stack.  [Config] has the macros of
      radio_conf.h that select code; [default_config] has the simulator's values.
    - Fuel.  The loop of [SUBGRF_SetLoRaSymbNumTimeout] has fuel 4, as three rounds
      empty a byte; [RadioSetModem] and [RadioSetPublicNetwork] have two levels,
      and [modem_and_network] shows that they always return.  The two busy
      waits ([RFW_PollRxBytes], the carrier sense) take their fuel as an argument;
      [poll_rx_bytes_terminates] bounds what the first one needs when the clock
      advances, and the second is not reached in the simulator ([fsk_unsupported]).
    - LongTx and LongRx: the packet timer fires once for each start.  The radio
      reads back its registers, and sends or receives at any pace within bounds
      that the records [radio_sends] and [radio_receives] state: it neither runs
      dry nor laps its buffer, and the CRC field is never split.  The fuel is a bound
      on the firings, half the packet or its length.
    - Binary64: an operation has a relative error of one [ulp], 2^-52, where rounding to
      nearest has half of it; four operations leave less than half a microsecond in
      the 49 days that a [uint32_t] of milliseconds counts.  The inputs of the
      lemmas are positive and normal, which the numbers of the clock are.
    - NativeNode: accesses of the volatile flags are sequentially consistent, a
      started task ends and calls its callback once, in the simulator's thread;
      condition variables may wake up spuriously.
    - PingPong: a program is run from one blocking call to the next with fuel 20,
      which all control points of the firmware reach; the simulated time stands
      still meanwhile.  Tasks, packets and calls of the two nodes are interleaved;
      the exchange is about the regular runs, in which the guard does not find the
      transmission of its own call and the odd node listens before the even one
      sends, as it does a second earlier.  The end of the simulation is about all.
    - TraceModel: one writer; the critical sections are atomic; the UART raises
      one interrupt per transfer and reads the bytes no later than that.
      [TRACE_Send] is one step, since the lock it takes keeps the interrupt and
      the writer apart.

    ** Not modelled

    - The headers of the vendor under hal_headers and old, but for Cortex: register
      maps and inline accesses that the stubs do not use, which are most of the C
      lines.  The functions of core_cm4.h on SCB, SysTick, ITM and FPU access
      addresses outside of every object ([core_registers_outside]).
    - The stubs of power and clocks that have empty bodies or return constants.
    - The Python simulator, but for the clock, the two client radios of PingPong and
      the collection of sources; the initialisation of clocks, UART and DMA; the
      two STM32 example programs, of which one calls functions that are not in
      the repository.
    - Message texts of [sim_error]; the debug macros that are compiled out. *)

From Stdlib Require Export ZArith Lia ZifyBool.
From stdpp Require Export base list strings numbers gmap.

#[global] Open Scope Z_scope.

(** ** Machine integers

    A C integer is the integer [Z] it denotes.  Conversions to a fixed width
    are written where the source converts, implicitly or by a cast. *)

Definition u8 (z : Z) : Z := z mod 2 ^ 8.
Definition u16 (z : Z) : Z := z mod 2 ^ 16.
Definition u32 (z : Z) : Z := z mod 2 ^ 32.
Definition i8 (z : Z) : Z := (z + 2 ^ 7) mod 2 ^ 8 - 2 ^ 7.
Definition i16 (z : Z) : Z := (z + 2 ^ 15) mod 2 ^ 16 - 2 ^ 15.
Definition i32 (z : Z) : Z := (z + 2 ^ 31) mod 2 ^ 32 - 2 ^ 31.

(** The values of the C types. *)
Definition is_u8 (z : Z) : Prop := 0 <= z < 256.
Definition is_u16 (z : Z) : Prop := 0 <= z < 65536.
Definition is_u32 (z : Z) : Prop := 0 <= z < 4294967296.
Definition is_i8 (z : Z) : Prop := -128 <= z < 128.
Definition is_i16 (z : Z) : Prop := -32768 <= z < 32768.
#[global] Instance is_u8_dec z : Decision (is_u8 z) := _.

(** [( uint8_t )( ( v >> n ) & 0xFF )] *)
Definition byte_at (n v : Z) : Z := u8 (Z.land (Z.shiftr v n) 0xFF).

(** C conditions are integers; [b2z] is the conversion of a [bool]. *)
Definition b2z (b : bool) : Z := if b then 1 else 0.

Create HintDb width.

Lemma u8_range z : 0 <= u8 z < 256.
Proof. unfold u8. apply Z.mod_pos_bound. lia. Qed.
Lemma u16_range z : 0 <= u16 z < 65536.
Proof. unfold u16. apply Z.mod_pos_bound. lia. Qed.
Lemma u32_range z : 0 <= u32 z < 4294967296.
Proof. unfold u32. apply Z.mod_pos_bound. lia. Qed.
Lemma i8_range z : -128 <= i8 z < 128.
Proof. unfold i8. pose proof (Z.mod_pos_bound (z + 2 ^ 7) (2 ^ 8) eq_refl). lia. Qed.
Lemma i32_range z : -2147483648 <= i32 z < 2147483648.
Proof. unfold i32. pose proof (Z.mod_pos_bound (z + 2 ^ 31) (2 ^ 32) eq_refl). lia. Qed.

Lemma u8_small z : 0 <= z < 256 → u8 z = z.
Proof. intros. apply Z.mod_small. lia. Qed.
Lemma u16_small z : 0 <= z < 65536 → u16 z = z.
Proof. intros. apply Z.mod_small. lia. Qed.
Lemma u32_small z : 0 <= z < 4294967296 → u32 z = z.
Proof. intros. apply Z.mod_small. lia. Qed.
Lemma i8_small z : -128 <= z < 128 → i8 z = z.
Proof. intros. unfold i8. rewrite Z.mod_small; lia. Qed.
Lemma i32_small z : -2147483648 <= z < 2147483648 → i32 z = z.
Proof. intros. unfold i32. rewrite Z.mod_small; lia. Qed.

Lemma byte_at_spec n v : 0 <= n → byte_at n v = (v / 2 ^ n) mod 256.
Proof.
  intros Hn. unfold byte_at, u8. change 0xFF with (Z.ones 8).
  rewrite Z.land_ones by lia. rewrite Z.shiftr_div_pow2 by done.
  now rewrite Z.mod_mod.
Qed.

Lemma byte_at_range n v : 0 <= byte_at n v < 256.
Proof. apply u8_range. Qed.

#[export] Hint Resolve u8_range u16_range u32_range i8_range byte_at_range : width.

(** Big-endian value of a byte list: how the radio reads a multi-byte field. *)
Definition be_val (l : list Z) : Z := fold_left (λ acc b, 256 * acc + b) l 0.

Lemma mod_step v m : 0 < m → 256 * ((v / 256) mod m) + v mod 256 = v mod (256 * m).
Proof. intros. rewrite Z.rem_mul_r by lia. lia. Qed.

Lemma be_val_16 v : be_val [byte_at 8 v; byte_at 0 v] = v mod 2 ^ 16.
Proof.
  unfold be_val; cbn [fold_left]. rewrite !byte_at_spec by lia.
  rewrite Z.div_1_r, Z.mul_0_r, Z.add_0_l. change (2 ^ 8) with 256.
  now rewrite (mod_step v 256) by lia.
Qed.

(** Two bytes put together with [|] and [<<]. *)
Lemma be_lor a b : 0 <= b < 256 → Z.lor (Z.shiftl a 8) b = 256 * a + b.
Proof.
  intros Hb. rewrite <- Z.add_nocarry_lor; [rewrite Z.shiftl_mul_pow2 by lia; lia|].
  rewrite <- (Z.mod_small b (2 ^ 8)) by done. apply Z.bits_inj'. intros n Hn.
  rewrite Z.land_spec, Z.bits_0, Z.shiftl_spec by done. destruct (Z.lt_ge_cases n 8).
  - now rewrite (Z.testbit_neg_r a) by lia.
  - rewrite Z.mod_pow2_bits_high by lia. apply andb_false_r.
Qed.

Lemma be_val_24 v :
  be_val [byte_at 16 v; byte_at 8 v; byte_at 0 v] = v mod 2 ^ 24.
Proof.
  unfold be_val; cbn [fold_left]. rewrite !byte_at_spec by lia.
  rewrite Z.div_1_r, Z.mul_0_r, Z.add_0_l. change (2 ^ 16) with (256 * 256).
  rewrite <- Z.div_div by lia. change (2 ^ 8) with 256.
  rewrite (mod_step (v / 256) 256) by lia. now rewrite mod_step by lia.
Qed.

Lemma be_val_32 v :
  be_val [byte_at 24 v; byte_at 16 v; byte_at 8 v; byte_at 0 v] = v mod 2 ^ 32.
Proof.
  unfold be_val; cbn [fold_left]. rewrite !byte_at_spec by lia.
  rewrite Z.div_1_r, Z.mul_0_r, Z.add_0_l.
  change (2 ^ 24) with (256 * (256 * 256)). change (2 ^ 16) with (256 * 256).
  rewrite <- !Z.div_div by lia. change (2 ^ 8) with 256.
  rewrite (mod_step (v / 256 / 256) 256) by lia.
  rewrite (mod_step (v / 256)) by lia. now rewrite mod_step by lia.
Qed.

(** ** The rounding macros of radio.c and radio_fw.c, at [uint32_t]

    [DIVC( X, N )] is [( ( X ) + ( N ) - 1 ) / ( N )] and [DIVR( X, N )] is
    [( ( X ) + ( N >> 1 ) ) / ( N )]; both operands of the divisions in the
    source are 32 bits wide and unsigned. *)
Definition DIVC (x n : Z) : Z := u32 (u32 (x + n) - 1) / n.
Definition DIVR (x n : Z) : Z := u32 (x + Z.shiftr n 1) / n.

Lemma DIVC_exact x n :
  0 < n → 0 <= x → x + n <= 2 ^ 32 - 1 → DIVC x n = (x + n - 1) / n.
Proof.
  intros. unfold DIVC. rewrite (u32_small (x + n)) by lia.
  rewrite u32_small by lia. done.
Qed.

Lemma fold_left_keeps {A B} (P : A → Prop) (f : A → B → A) l :
  (∀ a b, P a → P (f a b)) → ∀ a, P a → P (fold_left f l a).
Proof. intros Hf. induction l as [|b l IH]; intros a Ha; [done|]. cbn. auto. Qed.

(** A property of all numbers of a range, by evaluation. *)
Lemma range_cases n (P : Z → bool) :
  forallb P (seqZ 0 n) = true → ∀ z, 0 <= z < n → P z = true.
Proof.
  rewrite forallb_forall. intros H z Hz. apply H. apply list_elem_of_In, elem_of_seqZ. lia.
Qed.

Lemma byte_cases (P : Z → bool) :
  forallb P (seqZ 0 256) = true → ∀ z, 0 <= z < 256 → P z = true.
Proof. apply range_cases. Qed.

(** Closes a decidable closed goal by evaluating its decision procedure. *)
Ltac by_computation := apply (bool_decide_unpack _); vm_compute; exact I.

(** ** Record update

    [r <| f := v |>] is [r] with field [f] set to [v]; [r <| f ; g := v |>]
    updates field [g] of the record in field [f].  A record type gives its eta
    expansion as an instance of [Eta]; the update of a field is found by
    abstracting the projection in it. *)
Class Eta (R : Type) := eta_expand : R → R.
Class Field {R T : Type} (proj : R → T) := modify : (T → T) → R → R.
Arguments modify {R T} proj {_} _ _ /.

Ltac field_update proj :=
  lazymatch type of proj with
  | ?R → ?T =>
      let e := eval hnf in (@eta_expand R _) in
      let p := eval pattern proj in e in
      lazymatch p with
      | ?F proj =>
          let t := eval cbv beta in
            (fun (f : T → T) (r : R) => F (fun x => f (proj x)) r) in
          exact t
      end
  end.

#[export] Hint Extern 1 (@Field _ _ ?proj) => field_update proj : typeclass_instances.

#[warnings="-postfix-notation-not-level-1"]
Notation "r <| f := v |>" := (modify f (λ _, v) r)
  (at level 12, f at level 9, left associativity, only parsing).
#[warnings="-postfix-notation-not-level-1"]
Notation "r <| f ; g := v |>" := (modify f (λ x, modify g (λ _, v) x) r)
  (at level 12, f at level 9, g at level 9, left associativity, only parsing).
#[warnings="-postfix-notation-not-level-1"]
Notation "r <| f ; g ; h := v |>" :=
  (modify f (λ x, modify g (λ y, modify h (λ _, v) y) x) r)
  (at level 12, f at level 9, g at level 9, h at level 9, left associativity, only parsing).
