(* ===== verification/Effects.v ===== *)
(** * Effects of the C code: state, [exit(1)], undefined behaviour, fuel.

    A C function is a computation over the program state: it returns, ends the
    process (as [sim_error] of native_node.c does), reaches behaviour the C
    standard leaves undefined (a null or out-of-range access), or, for a loop
    with fuel, is cut short.  Every outcome keeps the state it was reached in. *)

From S2P Require Import Prelude.
From Stdlib Require Import String.

Inductive Outcome (S A : Type) : Type :=
| Ret (a : A) (s : S)
| Exit (msg : string) (s : S)
| Undef (why : string) (s : S)
| Spin (s : S).
Arguments Ret {S A} _ _.
Arguments Exit {S A} _ _.
Arguments Undef {S A} _ _.
Arguments Spin {S A} _.

Definition M (S A : Type) : Type := S → Outcome S A.

#[export] Instance M_ret S : MRet (M S) := λ A a s, Ret a s.
#[export] Instance M_bind S : MBind (M S) := λ A B f m s,
  match m s with
  | Ret a s' => f a s'
  | Exit e s' => Exit e s'
  | Undef e s' => Undef e s'
  | Spin s' => Spin s'
  end.

Section Operations.
Context {S : Type}.
Definition get_state : M S S := λ s, Ret s s.
Definition gets {A} (f : S → A) : M S A := λ s, Ret (f s) s.
Definition update (f : S → S) : M S unit := λ s, Ret tt (f s).
Definition skip : M S unit := λ s, Ret tt s.
Definition exit_with {A} (msg : string) : M S A := λ s, Exit msg s.
Definition undefined {A} (why : string) : M S A := λ s, Undef why s.
Definition spin {A} : M S A := λ s, Spin s.
(** [if( b ) m] *)
Definition when (b : bool) (m : M S unit) : M S unit := if b then m else skip.
(** A partial computation whose failure is undefined behaviour. *)
Definition defined {A} (why : string) (o : option A) : M S A :=
  match o with Some a => mret a | None => undefined why end.
End Operations.

(** ** Reasoning rules *)

Definition final {S A} (o : Outcome S A) : S :=
  match o with Ret _ s | Exit _ s | Undef _ s | Spin s => s end.

(** [wp m Q X s]: from [s], [m] returns in a state satisfying [Q] or exits the
    process in one satisfying [X]; it neither runs out of fuel nor reaches
    undefined behaviour. *)
Definition wp {S A} (m : M S A) (Q : A → S → Prop) (X : string → S → Prop) (s : S) : Prop :=
  match m s with
  | Ret a s' => Q a s'
  | Exit e s' => X e s'
  | Undef _ _ | Spin _ => False
  end.

(** [keeps I m]: whatever its outcome, [m] leaves [I] true. *)
Definition keeps {S A} (I : S → Prop) (m : M S A) : Prop := ∀ s, I s → I (final (m s)).

Section Rules.
Context {S : Type}.
Implicit Types I : S → Prop.

Lemma bind_Ret {A B} (m : M S A) (f : A → M S B) s a s' :
  m s = Ret a s' → (m ≫= f) s = f a s'.
Proof. intros H. unfold mbind, M_bind. now rewrite H. Qed.

Lemma bind_Exit {A B} (m : M S A) (f : A → M S B) s e s' :
  m s = Exit e s' → (m ≫= f) s = Exit e s'.
Proof. intros H. unfold mbind, M_bind. now rewrite H. Qed.

Lemma bind_assoc {A B C} (m : M S A) (f : A → M S B) (g : B → M S C) s :
  ((m ≫= f) ≫= g) s = (m ≫= λ a, f a ≫= g) s.
Proof. unfold mbind, M_bind. now destruct (m s). Qed.

Lemma wp_ret {A} (a : A) (Q : A → S → Prop) X s :
  Q a s → wp (mret (M := M S) a) Q X s.
Proof. done. Qed.

Lemma wp_bind {A B} (m : M S A) (f : A → M S B) Q X s :
  wp m (λ a s', wp (f a) Q X s') X s → wp (m ≫= f) Q X s.
Proof. unfold wp, mbind, M_bind. now destruct (m s). Qed.

Lemma wp_conseq {A} (m : M S A) (Q Q' : A → S → Prop) (X X' : string → S → Prop) s :
  wp m Q X s → (∀ a s', Q a s' → Q' a s') → (∀ e s', X e s' → X' e s') → wp m Q' X' s.
Proof. unfold wp. destruct (m s); eauto. Qed.

Lemma keeps_ret {A} I (a : A) : keeps I (mret (M := M S) a).
Proof. intros s H. exact H. Qed.
Lemma keeps_bind {A B} I (m : M S A) (f : A → M S B) :
  keeps I m → (∀ a, keeps I (f a)) → keeps I (m ≫= f).
Proof.
  intros Hm Hf s Hs. unfold mbind, M_bind. specialize (Hm s Hs).
  destruct (m s); [apply Hf|..]; done.
Qed.
Lemma keeps_get I : keeps I get_state.
Proof. intros s H. exact H. Qed.
Lemma keeps_gets {A} I (f : S → A) : keeps I (gets f).
Proof. intros s H. exact H. Qed.
Lemma keeps_update I f : (∀ s, I s → I (f s)) → keeps I (update f).
Proof. intros H s Hs. apply H, Hs. Qed.
Lemma keeps_skip I : keeps I skip.
Proof. intros s H. exact H. Qed.
Lemma keeps_exit {A} I msg : keeps I (exit_with (A := A) msg).
Proof. intros s H. exact H. Qed.
Lemma keeps_undefined {A} I why : keeps I (undefined (A := A) why).
Proof. intros s H. exact H. Qed.
Lemma keeps_spin {A} I : keeps I (spin (A := A)).
Proof. intros s H. exact H. Qed.
Lemma keeps_when I b m : keeps I m → keeps I (when b m).
Proof. intros H. destruct b; [exact H | apply keeps_skip]. Qed.
Lemma keeps_defined {A} I why (o : option A) : keeps I (defined why o).
Proof. destruct o; [apply keeps_ret | apply keeps_undefined]. Qed.
Lemma keeps_if {A} I (b : bool) (m n : M S A) :
  keeps I m → keeps I n → keeps I (if b then m else n).
Proof. now destruct b. Qed.
End Rules.

(** [yields I P m]: [m] keeps [I], and the values it returns satisfy [P]. *)
Definition yields {S A} (I : S → Prop) (P : A → Prop) (m : M S A) : Prop :=
  ∀ s, I s → match m s with Ret a s' => P a ∧ I s' | o => I (final o) end.

Section Yields.
Context {S : Type}.
Implicit Types I : S → Prop.

Lemma yields_keeps {A} I (P : A → Prop) (m : M S A) : yields I P m → keeps I m.
Proof. intros H s Hs. specialize (H s Hs). destruct (m s); [apply H|..]; exact H. Qed.
Lemma keeps_yields {A} I (m : M S A) : keeps I m → yields I (λ _, True) m.
Proof. intros H s Hs. specialize (H s Hs). destruct (m s); [split|..]; done. Qed.
Lemma yields_conseq {A} I (P Q : A → Prop) (m : M S A) :
  yields I P m → (∀ a, P a → Q a) → yields I Q m.
Proof. intros H HPQ s Hs. specialize (H s Hs). destruct (m s); [destruct H|..]; auto. Qed.
Lemma yields_ret {A} I (P : A → Prop) (a : A) : P a → yields I P (mret a).
Proof. intros Ha s Hs. by split. Qed.
Lemma yields_bind {A B} I (P : A → Prop) (Q : B → Prop) (m : M S A) (f : A → M S B) :
  yields I P m → (∀ a, P a → yields I Q (f a)) → yields I Q (m ≫= f).
Proof.
  intros Hm Hf s Hs. unfold mbind, M_bind. specialize (Hm s Hs).
  destruct (m s); [destruct Hm; by apply Hf|..]; done.
Qed.
(** What is read from the state is known to come from it. *)
Lemma yields_gets {A B} I (Q : B → Prop) (g : S → A) (f : A → M S B) :
  (∀ s, I s → yields I Q (f (g s))) → yields I Q (gets g ≫= f).
Proof. intros H s Hs. by apply H. Qed.
Lemma yields_get {B} I (Q : B → Prop) (f : S → M S B) :
  (∀ s, I s → yields I Q (f s)) → yields I Q (get_state ≫= f).
Proof. intros H s Hs. by apply H. Qed.
Lemma yields_gets_ret {A} I (P : A → Prop) (g : S → A) :
  (∀ s, I s → P (g s)) → yields I P (gets g).
Proof. intros H s Hs. split; [by apply H | done]. Qed.
Lemma yields_mret {A B} I (Q : B → Prop) (a : A) (f : A → M S B) :
  yields I Q (f a) → yields I Q (mret a ≫= f).
Proof. done. Qed.
Lemma yields_update I (P : unit → Prop) f :
  P tt → (∀ s, I s → I (f s)) → yields I P (update f).
Proof. intros Ht H s Hs. split; [done | by apply H]. Qed.
Lemma yields_skip I (P : unit → Prop) : P tt → yields I P skip.
Proof. intros H s Hs. by split. Qed.
Lemma yields_exit {A} I (P : A → Prop) msg : yields I P (exit_with msg).
Proof. intros s Hs. exact Hs. Qed.
Lemma yields_undefined {A} I (P : A → Prop) why : yields I P (undefined why).
Proof. intros s Hs. exact Hs. Qed.
Lemma yields_spin {A} I (P : A → Prop) : yields I P spin.
Proof. intros s Hs. exact Hs. Qed.
Lemma yields_defined {A B} I (Q : B → Prop) why (o : option A) (f : A → M S B) :
  (∀ a, o = Some a → yields I Q (f a)) → yields I Q (defined why o ≫= f).
Proof. destruct o as [a|]; intros H; [by apply H | apply yields_undefined]. Qed.
Lemma yields_defined_ret {A} I (P : A → Prop) why (o : option A) :
  (∀ a, o = Some a → P a) → yields I P (defined why o).
Proof. destruct o as [a|]; intros H; [by apply yields_ret, H | apply yields_undefined]. Qed.
Lemma yields_when I (P : unit → Prop) b m : P tt → yields I P m → yields I P (when b m).
Proof. destruct b; [done|]. intros H _. by apply yields_skip. Qed.
End Yields.

Create HintDb keeps.
#[export] Hint Resolve keeps_ret keeps_bind keeps_get keeps_gets keeps_skip keeps_exit
  keeps_undefined keeps_spin keeps_when keeps_defined keeps_if : keeps.

(** Case analysis on the scrutinee of a computation. *)
Ltac keeps_step :=
  lazymatch goal with
  | |- keeps _ (match ?x with _ => _ end) => destruct x
  | |- keeps _ _ => solve [eauto with keeps] || eapply keeps_bind
  | |- ∀ _, keeps _ _ => intro
  end.
Ltac solve_keeps := intros; repeat keeps_step.
