(* ===== verification/RadioTypes.v ===== *)
(** * Constants and enumerations of the radio driver headers.

    Sources: radio_driver.h, radio_conf.h, radio_ex.h, radio_def.h, radio.h,
    radio_fw.h, stm32wlxx_hal_subghz.h and stm32wlxx_hal_def.h.  An enumeration
    that the source only uses through its constants is an inductive type with
    the source's constructors (and a [_code] function when its value is written
    to the radio); one that the source casts integers into, or stores in a byte
    of a command, is its integer, with one constant per enumerator. *)

From S2P Require Import Prelude.

(** ** Register map and constants of radio_driver.h *)
Definition RFO_LP : Z := 1.
Definition RFO_HP : Z := 2.
Definition RADIO_WAKEUP_TIME : Z := 3.
Definition AUTO_RX_TX_OFFSET : Z := 2.
Definition CRC_IBM_SEED : Z := 0xFFFF.
Definition CRC_CCITT_SEED : Z := 0x1D0F.
Definition CRC_POLYNOMIAL_IBM : Z := 0x8005.
Definition CRC_POLYNOMIAL_CCITT : Z := 0x1021.
Definition REG_LR_CRCSEEDBASEADDR : Z := 0x06BC.
Definition REG_LR_CRCPOLYBASEADDR : Z := 0x06BE.
Definition REG_LR_WHITSEEDBASEADDR_MSB : Z := 0x06B8.
Definition REG_LR_WHITSEEDBASEADDR_LSB : Z := 0x06B9.
Definition REG_LR_PACKETPARAMS : Z := 0x0704.
Definition REG_LR_PAYLOADLENGTH : Z := 0x0702.
Definition REG_LR_SYNCH_TIMEOUT : Z := 0x0706.
Definition REG_LR_SYNCWORDBASEADDRESS : Z := 0x06C0.
Definition REG_LR_SYNCWORD : Z := 0x0740.
Definition LORA_MAC_PRIVATE_SYNCWORD : Z := 0x1424.
Definition LORA_MAC_PUBLIC_SYNCWORD : Z := 0x3444.
Definition RANDOM_NUMBER_GENERATORBASEADDR : Z := 0x0819.
Definition REG_ANA_LNA : Z := 0x08E2.
Definition REG_ANA_MIXER : Z := 0x08E5.
Definition REG_RX_GAIN : Z := 0x08AC.
Definition REG_BIT_SYNC : Z := 0x06AC.
Definition REG_DRV_CTRL : Z := 0x091F.
Definition REG_XTA_TRIM : Z := 0x0911.
Definition REG_XTB_TRIM : Z := 0x0912.
Definition REG_OCP : Z := 0x08E7.
Definition REG_TX_CLAMP : Z := 0x08D8.
Definition SUBGHZ_RAM_RAMPUPH : Z := 0x00F0.
Definition SUBGHZ_RAM_RAMPUPL : Z := 0x00F1.
Definition SUBGHZ_RAM_RAMPDNH : Z := 0x00F2.
Definition SUBGHZ_RAM_RAMPDNL : Z := 0x00F3.
Definition SUBGHZ_RAM_FRAMELIMH : Z := 0x00F4.
Definition SUBGHZ_RAM_FRAMELIML : Z := 0x00F5.
Definition SUBGHZ_GBSYNCR : Z := REG_BIT_SYNC.
Definition SUBGHZ_GCFORH : Z := 0x06B0.
Definition SUBGHZ_GCFORL : Z := 0x06B1.
Definition SUBGHZ_GPKTCTL1R : Z := 0x06B4.
Definition SUBGHZ_GPKTCTL1AR : Z := REG_LR_WHITSEEDBASEADDR_MSB.
Definition SUBGHZ_GWHITEINIRL : Z := REG_LR_WHITSEEDBASEADDR_LSB.
Definition SUBGHZ_GRTXPLDLEN : Z := 0x06BB.
Definition SUBGHZ_GCRCINIRH : Z := REG_LR_CRCSEEDBASEADDR.
Definition SUBGHZ_GCRCINIRL : Z := 0x06BD.
Definition SUBGHZ_GCRCPOLRH : Z := REG_LR_CRCPOLYBASEADDR.
Definition SUBGHZ_GCRCPOLRL : Z := 0x06BF.
Definition SUBGHZ_GSYNCR0 : Z := REG_LR_SYNCWORDBASEADDRESS.
Definition SUBGHZ_GSYNCR1 : Z := 0x06C1.
Definition SUBGHZ_GSYNCR2 : Z := 0x06C2.
Definition SUBGHZ_GSYNCR3 : Z := 0x06C3.
Definition SUBGHZ_GSYNCR4 : Z := 0x06C4.
Definition SUBGHZ_GSYNCR5 : Z := 0x06C5.
Definition SUBGHZ_GSYNCR6 : Z := 0x06C6.
Definition SUBGHZ_GSYNCR7 : Z := 0x06C7.
Definition SUBGHZ_GNODEADDR : Z := 0x06CD.
Definition SUBGHZ_GBCASTADDR : Z := 0x06CE.
Definition SUBGHZ_GAFCR : Z := 0x06D1.
Definition SUBGHZ_LPLDLENR : Z := REG_LR_PAYLOADLENGTH.
Definition SUBGHZ_LSYNCTIMEOUTR : Z := REG_LR_SYNCH_TIMEOUT.
Definition SUBGHZ_LIQPOLR : Z := 0x0736.
Definition SUBGHZ_LSYNCRH : Z := REG_LR_SYNCWORD.
Definition SUBGHZ_LSYNCRL : Z := 0x0741.
Definition SUBGHZ_TXADRPTR : Z := 0x0802.
Definition SUBGHZ_RXADRPTR : Z := 0x0803.
Definition SUBGHZ_BWSELR : Z := 0x0807.
Definition SUBGHZ_RNGR3 : Z := RANDOM_NUMBER_GENERATORBASEADDR.
Definition SUBGHZ_RNGR2 : Z := 0x081A.
Definition SUBGHZ_RNGR1 : Z := 0x081B.
Definition SUBGHZ_RNGR0 : Z := 0x081C.
Definition SUBGHZ_SDCFG0R : Z := 0x0889.
Definition SUBGHZ_AGCRSSICTL0R : Z := 0x089B.
Definition SUBGHZ_AGCCFG : Z := 0x08A3.
Definition SUBGHZ_RXGAINCR : Z := REG_RX_GAIN.
Definition SUBGHZ_AGCGFORSTCFGR : Z := 0x08B8.
Definition SUBGHZ_AGCGFORSTPOWTHR : Z := 0x08B9.
Definition SUBGHZ_TXCLAMPR : Z := REG_TX_CLAMP.
Definition SUBGHZ_PAOCPR : Z := REG_OCP.
Definition SUBGHZ_RTCCTLR : Z := 0x0902.
Definition SUBGHZ_RTCPRDR2 : Z := 0x0903.
Definition SUBGHZ_RTCPRDR1 : Z := 0x0904.
Definition SUBGHZ_RTCPRDR0 : Z := 0x0905.
Definition SUBGHZ_HSEINTRIMR : Z := REG_XTA_TRIM.
Definition SUBGHZ_HSEOUTTRIMR : Z := REG_XTB_TRIM.
Definition SUBGHZ_SMPSC0R : Z := 0x0916.
Definition SUBGHZ_PCR : Z := 0x091A.
Definition SUBGHZ_SMPSC2R : Z := 0x0923.
Definition SUBGHZ_EVENTMASKR : Z := 0x0944.
Definition SMPS_DRV_20 : Z := Z.shiftl 0x0 1.
Definition SMPS_DRV_40 : Z := Z.shiftl 0x1 1.
Definition SMPS_DRV_60 : Z := Z.shiftl 0x2 1.
Definition SMPS_DRV_100 : Z := Z.shiftl 0x3 1.
Definition SMPS_DRV_MASK : Z := Z.shiftl 0x3 1.

(** ** Enumerations the source stores in integers or casts integers into *)
(** [RadioRampTimes_t] (radio_driver.h) *)
Definition RADIO_RAMP_10_US : Z := 0x00.
Definition RADIO_RAMP_20_US : Z := 0x01.
Definition RADIO_RAMP_40_US : Z := 0x02.
Definition RADIO_RAMP_80_US : Z := 0x03.
Definition RADIO_RAMP_200_US : Z := 0x04.
Definition RADIO_RAMP_800_US : Z := 0x05.
Definition RADIO_RAMP_1700_US : Z := 0x06.
Definition RADIO_RAMP_3400_US : Z := 0x07.

(** [RadioLoRaCadSymbols_t] (radio_driver.h) *)
Definition LORA_CAD_01_SYMBOL : Z := 0x00.
Definition LORA_CAD_02_SYMBOL : Z := 0x01.
Definition LORA_CAD_04_SYMBOL : Z := 0x02.
Definition LORA_CAD_08_SYMBOL : Z := 0x03.
Definition LORA_CAD_16_SYMBOL : Z := 0x04.

(** [RadioCadExitModes_t] (radio_driver.h) *)
Definition LORA_CAD_ONLY : Z := 0x00.
Definition LORA_CAD_RX : Z := 0x01.
Definition LORA_CAD_LBT : Z := 0x10.

(** [RadioModShapings_t] (radio_driver.h) *)
Definition MOD_SHAPING_OFF : Z := 0x00.
Definition MOD_SHAPING_G_BT_03 : Z := 0x08.
Definition MOD_SHAPING_G_BT_05 : Z := 0x09.
Definition MOD_SHAPING_G_BT_07 : Z := 0x0A.
Definition MOD_SHAPING_G_BT_1 : Z := 0x0B.
Definition MOD_SHAPING_DBPSK : Z := 0x16.

(** [RadioRxBandwidth_t] (radio_driver.h) *)
Definition RX_BW_4800 : Z := 0x1F.
Definition RX_BW_5800 : Z := 0x17.
Definition RX_BW_7300 : Z := 0x0F.
Definition RX_BW_9700 : Z := 0x1E.
Definition RX_BW_11700 : Z := 0x16.
Definition RX_BW_14600 : Z := 0x0E.
Definition RX_BW_19500 : Z := 0x1D.
Definition RX_BW_23400 : Z := 0x15.
Definition RX_BW_29300 : Z := 0x0D.
Definition RX_BW_39000 : Z := 0x1C.
Definition RX_BW_46900 : Z := 0x14.
Definition RX_BW_58600 : Z := 0x0C.
Definition RX_BW_78200 : Z := 0x1B.
Definition RX_BW_93800 : Z := 0x13.
Definition RX_BW_117300 : Z := 0x0B.
Definition RX_BW_156200 : Z := 0x1A.
Definition RX_BW_187200 : Z := 0x12.
Definition RX_BW_234300 : Z := 0x0A.
Definition RX_BW_312000 : Z := 0x19.
Definition RX_BW_373600 : Z := 0x11.
Definition RX_BW_467000 : Z := 0x09.

(** [RadioLoRaSpreadingFactors_t] (radio_driver.h) *)
Definition LORA_SF5 : Z := 0x05.
Definition LORA_SF6 : Z := 0x06.
Definition LORA_SF7 : Z := 0x07.
Definition LORA_SF8 : Z := 0x08.
Definition LORA_SF9 : Z := 0x09.
Definition LORA_SF10 : Z := 0x0A.
Definition LORA_SF11 : Z := 0x0B.
Definition LORA_SF12 : Z := 0x0C.

(** [RadioLoRaBandwidths_t] (radio_driver.h) *)
Definition LORA_BW_500 : Z := 6.
Definition LORA_BW_250 : Z := 5.
Definition LORA_BW_125 : Z := 4.
Definition LORA_BW_062 : Z := 3.
Definition LORA_BW_041 : Z := 10.
Definition LORA_BW_031 : Z := 2.
Definition LORA_BW_020 : Z := 9.
Definition LORA_BW_015 : Z := 1.
Definition LORA_BW_010 : Z := 8.
Definition LORA_BW_007 : Z := 0.

(** [RadioLoRaCodingRates_t] (radio_driver.h) *)
Definition LORA_CR_4_5 : Z := 0x01.
Definition LORA_CR_4_6 : Z := 0x02.
Definition LORA_CR_4_7 : Z := 0x03.
Definition LORA_CR_4_8 : Z := 0x04.

(** [RadioPreambleDetection_t] (radio_driver.h) *)
Definition RADIO_PREAMBLE_DETECTOR_OFF : Z := 0x00.
Definition RADIO_PREAMBLE_DETECTOR_08_BITS : Z := 0x04.
Definition RADIO_PREAMBLE_DETECTOR_16_BITS : Z := 0x05.
Definition RADIO_PREAMBLE_DETECTOR_24_BITS : Z := 0x06.
Definition RADIO_PREAMBLE_DETECTOR_32_BITS : Z := 0x07.

(** [RadioAddressComp_t] (radio_driver.h) *)
Definition RADIO_ADDRESSCOMP_FILT_OFF : Z := 0x00.
Definition RADIO_ADDRESSCOMP_FILT_NODE : Z := 0x01.
Definition RADIO_ADDRESSCOMP_FILT_NODE_BROAD : Z := 0x02.

(** [RadioPacketLengthModes_t] (radio_driver.h) *)
Definition RADIO_PACKET_FIXED_LENGTH : Z := 0x00.
Definition RADIO_PACKET_VARIABLE_LENGTH : Z := 0x01.

(** [RadioCrcTypes_t] (radio_driver.h) *)
Definition RADIO_CRC_OFF : Z := 0x01.
Definition RADIO_CRC_1_BYTES : Z := 0x00.
Definition RADIO_CRC_2_BYTES : Z := 0x02.
Definition RADIO_CRC_1_BYTES_INV : Z := 0x04.
Definition RADIO_CRC_2_BYTES_INV : Z := 0x06.
Definition RADIO_CRC_2_BYTES_IBM : Z := 0xF1.
Definition RADIO_CRC_2_BYTES_CCIT : Z := 0xF2.

(** [RadioDcFree_t] (radio_driver.h) *)
Definition RADIO_DC_FREE_OFF : Z := 0x00.
Definition RADIO_DC_FREEWHITENING : Z := 0x01.

(** [RadioLoRaPacketLengthsMode_t] (radio_driver.h) *)
Definition LORA_PACKET_VARIABLE_LENGTH : Z := 0x00.
Definition LORA_PACKET_FIXED_LENGTH : Z := 0x01.
Definition LORA_PACKET_EXPLICIT : Z := LORA_PACKET_VARIABLE_LENGTH.
Definition LORA_PACKET_IMPLICIT : Z := LORA_PACKET_FIXED_LENGTH.

(** [RadioLoRaCrcModes_t] (radio_driver.h) *)
Definition LORA_CRC_ON : Z := 0x01.
Definition LORA_CRC_OFF : Z := 0x00.

(** [RadioLoRaIQModes_t] (radio_driver.h) *)
Definition LORA_IQ_NORMAL : Z := 0x00.
Definition LORA_IQ_INVERTED : Z := 0x01.

(** [RadioTcxoCtrlVoltage_t] (radio_driver.h) *)
Definition TCXO_CTRL_1_6V : Z := 0x00.
Definition TCXO_CTRL_1_7V : Z := 0x01.
Definition TCXO_CTRL_1_8V : Z := 0x02.
Definition TCXO_CTRL_2_2V : Z := 0x03.
Definition TCXO_CTRL_2_4V : Z := 0x04.
Definition TCXO_CTRL_2_7V : Z := 0x05.
Definition TCXO_CTRL_3_0V : Z := 0x06.
Definition TCXO_CTRL_3_3V : Z := 0x07.

(** [RadioIrqMasks_t] (radio_driver.h) *)
Definition IRQ_RADIO_NONE : Z := 0x0000.
Definition IRQ_TX_DONE : Z := 0x0001.
Definition IRQ_RX_DONE : Z := 0x0002.
Definition IRQ_PREAMBLE_DETECTED : Z := 0x0004.
Definition IRQ_SYNCWORD_VALID : Z := 0x0008.
Definition IRQ_HEADER_VALID : Z := 0x0010.
Definition IRQ_HEADER_ERROR : Z := 0x0020.
Definition IRQ_CRC_ERROR : Z := 0x0040.
Definition IRQ_CAD_CLEAR : Z := 0x0080.
Definition IRQ_CAD_DETECTED : Z := 0x0100.
Definition IRQ_RX_TX_TIMEOUT : Z := 0x0200.
Definition IRQ_RADIO_ALL : Z := 0xFFFF.

(** [RADIO_LoRaSpreadingFactors_t] (radio_ex.h) *)
Definition RADIO_LORA_SF5 : Z := 0x05.
Definition RADIO_LORA_SF6 : Z := 0x06.
Definition RADIO_LORA_SF7 : Z := 0x07.
Definition RADIO_LORA_SF8 : Z := 0x08.
Definition RADIO_LORA_SF9 : Z := 0x09.
Definition RADIO_LORA_SF10 : Z := 0x0A.
Definition RADIO_LORA_SF11 : Z := 0x0B.
Definition RADIO_LORA_SF12 : Z := 0x0C.

(** [RADIO_LoRaBandwidths_t] (radio_ex.h) *)
Definition RADIO_LORA_BW_500 : Z := 6.
Definition RADIO_LORA_BW_250 : Z := 5.
Definition RADIO_LORA_BW_125 : Z := 4.
Definition RADIO_LORA_BW_062 : Z := 3.
Definition RADIO_LORA_BW_041 : Z := 10.
Definition RADIO_LORA_BW_031 : Z := 2.
Definition RADIO_LORA_BW_020 : Z := 9.
Definition RADIO_LORA_BW_015 : Z := 1.
Definition RADIO_LORA_BW_010 : Z := 8.
Definition RADIO_LORA_BW_007 : Z := 0.

(** [RADIO_LoRaPacketLengthsMode_t] (radio_ex.h) *)
Definition RADIO_LORA_PACKET_VARIABLE_LENGTH : Z := 0x00.
Definition RADIO_LORA_PACKET_FIXED_LENGTH : Z := 0x01.
Definition RADIO_LORA_PACKET_EXPLICIT : Z := RADIO_LORA_PACKET_VARIABLE_LENGTH.
Definition RADIO_LORA_PACKET_IMPLICIT : Z := RADIO_LORA_PACKET_FIXED_LENGTH.

(** [RADIO_Ld_Opt_t] (radio_ex.h) *)
Definition RADIO_LORA_LOWDR_OPT_OFF : Z := 0x00.
Definition RADIO_LORA_LOWDR_OPT_ON : Z := 0x01.
Definition RADIO_LORA_LOWDR_OPT_AUTO : Z := 0x02.

(** [RADIO_FSK_PacketLengthModes_t] (radio_ex.h) *)
Definition RADIO_FSK_PACKET_FIXED_LENGTH : Z := 0x00.
Definition RADIO_FSK_PACKET_VARIABLE_LENGTH : Z := 0x01.
Definition RADIO_FSK_PACKET_2BYTES_LENGTH : Z := 0x02.

(** [RADIO_FSK_CrcTypes_t] (radio_ex.h) *)
Definition RADIO_FSK_CRC_OFF : Z := 0x01.
Definition RADIO_FSK_CRC_1_BYTES : Z := 0x00.
Definition RADIO_FSK_CRC_2_BYTES : Z := 0x02.
Definition RADIO_FSK_CRC_1_BYTES_INV : Z := 0x04.
Definition RADIO_FSK_CRC_2_BYTES_INV : Z := 0x06.
Definition RADIO_FSK_CRC_2_BYTES_IBM : Z := 0xF1.
Definition RADIO_FSK_CRC_2_BYTES_CCIT : Z := 0xF2.

(** [RADIO_FSK_DcFree_t] (radio_ex.h) *)
Definition RADIO_FSK_DC_FREE_OFF : Z := 0x00.
Definition RADIO_FSK_DC_FREEWHITENING : Z := 0x01.
Definition RADIO_FSK_DC_IBM_WHITENING : Z := 0x02.

(** ** Build constants of radio_conf.h, which override the defaults of the .c files *)
Definition SMPS_DRIVE_SETTING_DEFAULT : Z := SMPS_DRV_40.
Definition SMPS_DRIVE_SETTING_MAX : Z := SMPS_DRV_60.
Definition XTAL_FREQ : Z := 32000000.
Definition XTAL_DEFAULT_CAP_VALUE : Z := 0x20.
Definition TCXO_CTRL_VOLTAGE : Z := TCXO_CTRL_1_7V.
Definition RF_WAKEUP_TIME : Z := 1.
Definition DCDC_ENABLE : Z := 1.

(** ** Enumerations whose values only ever come from their constants *)
Inductive RadioStandbyModes_t : Set :=
| STDBY_RC
| STDBY_XOSC.
#[export] Instance RadioStandbyModes_t_eq_dec : EqDecision RadioStandbyModes_t.
Proof. solve_decision. Defined.
Definition RadioStandbyModes_t_code (x : RadioStandbyModes_t) : Z :=
  match x with
  | STDBY_RC => 0x00
  | STDBY_XOSC => 0x01
  end.

Inductive RadioRegulatorMode_t : Set :=
| USE_LDO
| USE_DCDC.
#[export] Instance RadioRegulatorMode_t_eq_dec : EqDecision RadioRegulatorMode_t.
Proof. solve_decision. Defined.
Definition RadioRegulatorMode_t_code (x : RadioRegulatorMode_t) : Z :=
  match x with
  | USE_LDO => 0x00
  | USE_DCDC => 0x01
  end.

Inductive RadioPacketTypes_t : Set :=
| PACKET_TYPE_GFSK
| PACKET_TYPE_LORA
| PACKET_TYPE_BPSK
| PACKET_TYPE_GMSK
| PACKET_TYPE_NONE.
#[export] Instance RadioPacketTypes_t_eq_dec : EqDecision RadioPacketTypes_t.
Proof. solve_decision. Defined.
Definition RadioPacketTypes_t_code (x : RadioPacketTypes_t) : Z :=
  match x with
  | PACKET_TYPE_GFSK => 0x00
  | PACKET_TYPE_LORA => 0x01
  | PACKET_TYPE_BPSK => 0x02
  | PACKET_TYPE_GMSK => 0x03
  | PACKET_TYPE_NONE => 0x0F
  end.

Inductive RadioOperatingModes_t : Set :=
| MODE_SLEEP
| MODE_STDBY_RC
| MODE_STDBY_XOSC
| MODE_FS
| MODE_TX
| MODE_RX
| MODE_RX_DC
| MODE_CAD.
#[export] Instance RadioOperatingModes_t_eq_dec : EqDecision RadioOperatingModes_t.
Proof. solve_decision. Defined.

Inductive RFState_t : Set :=
| RFSWITCH_RX
| RFSWITCH_TX.
#[export] Instance RFState_t_eq_dec : EqDecision RFState_t.
Proof. solve_decision. Defined.

Inductive radio_status_t : Set :=
| RADIO_STATUS_OK
| RADIO_STATUS_UNSUPPORTED_FEATURE
| RADIO_STATUS_UNKNOWN_VALUE
| RADIO_STATUS_ERROR.
#[export] Instance radio_status_t_eq_dec : EqDecision radio_status_t.
Proof. solve_decision. Defined.

Inductive RadioModems_t : Set :=
| MODEM_FSK
| MODEM_LORA
| MODEM_MSK
| MODEM_BPSK
| MODEM_SIGFOX_TX
| MODEM_SIGFOX_RX.
#[export] Instance RadioModems_t_eq_dec : EqDecision RadioModems_t.
Proof. solve_decision. Defined.

Inductive RadioState_t : Set :=
| RF_IDLE
| RF_RX_RUNNING
| RF_TX_RUNNING
| RF_CAD.
#[export] Instance RadioState_t_eq_dec : EqDecision RadioState_t.
Proof. solve_decision. Defined.

Inductive GenericModems_t : Set :=
| GENERIC_FSK
| GENERIC_LORA
| GENERIC_BPSK
| GENERIC_MSK.
#[export] Instance GenericModems_t_eq_dec : EqDecision GenericModems_t.
Proof. solve_decision. Defined.

Inductive ConfigGenericRTx_t : Set :=
| CONFIG_RX
| CONFIG_TX.
#[export] Instance ConfigGenericRTx_t_eq_dec : EqDecision ConfigGenericRTx_t.
Proof. solve_decision. Defined.

Inductive HAL_StatusTypeDef : Set :=
| HAL_OK
| HAL_ERROR
| HAL_BUSY
| HAL_TIMEOUT.
#[export] Instance HAL_StatusTypeDef_eq_dec : EqDecision HAL_StatusTypeDef.
Proof. solve_decision. Defined.

Inductive HAL_SUBGHZ_StateTypeDef : Set :=
| HAL_SUBGHZ_STATE_RESET
| HAL_SUBGHZ_STATE_READY
| HAL_SUBGHZ_STATE_BUSY
| HAL_SUBGHZ_STATE_RESET_RF_READY.
#[export] Instance HAL_SUBGHZ_StateTypeDef_eq_dec : EqDecision HAL_SUBGHZ_StateTypeDef.
Proof. solve_decision. Defined.

Inductive HAL_SUBGHZ_CadStatusTypeDef : Set :=
| HAL_SUBGHZ_CAD_CLEAR
| HAL_SUBGHZ_CAD_DETECTED.
#[export] Instance HAL_SUBGHZ_CadStatusTypeDef_eq_dec : EqDecision HAL_SUBGHZ_CadStatusTypeDef.
Proof. solve_decision. Defined.

Inductive HAL_SUBGHZ_CallbackIDTypeDef : Set :=
| HAL_SUBGHZ_TX_COMPLETE_CB_ID
| HAL_SUBGHZ_RX_COMPLETE_CB_ID
| HAL_SUBGHZ_PREAMBLE_DETECTED_CB_ID
| HAL_SUBGHZ_SYNCWORD_VALID_CB_ID
| HAL_SUBGHZ_HEADER_VALID_CB_ID
| HAL_SUBGHZ_HEADER_ERROR_CB_ID
| HAL_SUBGHZ_CRC_ERROR_CB_ID
| HAL_SUBGHZ_RX_TX_TIMEOUT_CB_ID
| HAL_SUBGHZ_MSPINIT_CB_ID
| HAL_SUBGHZ_MSPDEINIT_CB_ID
| HAL_SUBGHZ_LR_FHSS_HOP_CB_ID.
#[export] Instance HAL_SUBGHZ_CallbackIDTypeDef_eq_dec : EqDecision HAL_SUBGHZ_CallbackIDTypeDef.
Proof. solve_decision. Defined.

Inductive SUBGHZ_RadioSetCmd_t : Set :=
| RADIO_SET_SLEEP
| RADIO_SET_STANDBY
| RADIO_SET_FS
| RADIO_SET_TX
| RADIO_SET_RX
| RADIO_SET_RXDUTYCYCLE
| RADIO_SET_CAD
| RADIO_SET_TXCONTINUOUSWAVE
| RADIO_SET_TXCONTINUOUSPREAMBLE
| RADIO_SET_PACKETTYPE
| RADIO_SET_RFFREQUENCY
| RADIO_SET_TXPARAMS
| RADIO_SET_PACONFIG
| RADIO_SET_CADPARAMS
| RADIO_SET_BUFFERBASEADDRESS
| RADIO_SET_MODULATIONPARAMS
| RADIO_SET_PACKETPARAMS
| RADIO_RESET_STATS
| RADIO_CFG_DIOIRQ
| RADIO_CLR_IRQSTATUS
| RADIO_CALIBRATE
| RADIO_CALIBRATEIMAGE
| RADIO_SET_REGULATORMODE
| RADIO_SET_TCXOMODE
| RADIO_SET_TXFALLBACKMODE
| RADIO_SET_RFSWITCHMODE
| RADIO_SET_STOPRXTIMERONPREAMBLE
| RADIO_SET_LORASYMBTIMEOUT
| RADIO_CLR_ERROR.
#[export] Instance SUBGHZ_RadioSetCmd_t_eq_dec : EqDecision SUBGHZ_RadioSetCmd_t.
Proof. solve_decision. Defined.
Definition SUBGHZ_RadioSetCmd_t_code (x : SUBGHZ_RadioSetCmd_t) : Z :=
  match x with
  | RADIO_SET_SLEEP => 0x84
  | RADIO_SET_STANDBY => 0x80
  | RADIO_SET_FS => 0xC1
  | RADIO_SET_TX => 0x83
  | RADIO_SET_RX => 0x82
  | RADIO_SET_RXDUTYCYCLE => 0x94
  | RADIO_SET_CAD => 0xC5
  | RADIO_SET_TXCONTINUOUSWAVE => 0xD1
  | RADIO_SET_TXCONTINUOUSPREAMBLE => 0xD2
  | RADIO_SET_PACKETTYPE => 0x8A
  | RADIO_SET_RFFREQUENCY => 0x86
  | RADIO_SET_TXPARAMS => 0x8E
  | RADIO_SET_PACONFIG => 0x95
  | RADIO_SET_CADPARAMS => 0x88
  | RADIO_SET_BUFFERBASEADDRESS => 0x8F
  | RADIO_SET_MODULATIONPARAMS => 0x8B
  | RADIO_SET_PACKETPARAMS => 0x8C
  | RADIO_RESET_STATS => 0x00
  | RADIO_CFG_DIOIRQ => 0x08
  | RADIO_CLR_IRQSTATUS => 0x02
  | RADIO_CALIBRATE => 0x89
  | RADIO_CALIBRATEIMAGE => 0x98
  | RADIO_SET_REGULATORMODE => 0x96
  | RADIO_SET_TCXOMODE => 0x97
  | RADIO_SET_TXFALLBACKMODE => 0x93
  | RADIO_SET_RFSWITCHMODE => 0x9D
  | RADIO_SET_STOPRXTIMERONPREAMBLE => 0x9F
  | RADIO_SET_LORASYMBTIMEOUT => 0xA0
  | RADIO_CLR_ERROR => 0x07
  end.

Inductive SUBGHZ_RadioGetCmd_t : Set :=
| RADIO_GET_STATUS
| RADIO_GET_PACKETTYPE
| RADIO_GET_RXBUFFERSTATUS
| RADIO_GET_PACKETSTATUS
| RADIO_GET_RSSIINST
| RADIO_GET_STATS
| RADIO_GET_IRQSTATUS
| RADIO_GET_ERROR.
#[export] Instance SUBGHZ_RadioGetCmd_t_eq_dec : EqDecision SUBGHZ_RadioGetCmd_t.
Proof. solve_decision. Defined.
Definition SUBGHZ_RadioGetCmd_t_code (x : SUBGHZ_RadioGetCmd_t) : Z :=
  match x with
  | RADIO_GET_STATUS => 0xC0
  | RADIO_GET_PACKETTYPE => 0x11
  | RADIO_GET_RXBUFFERSTATUS => 0x13
  | RADIO_GET_PACKETSTATUS => 0x14
  | RADIO_GET_RSSIINST => 0x15
  | RADIO_GET_STATS => 0x10
  | RADIO_GET_IRQSTATUS => 0x12
  | RADIO_GET_ERROR => 0x17
  end.

