(* ===== verification/State.v ===== *)
(** * The program state and its environment.

    The C structures of radio_driver.h, radio_ex.h, radio.c and radio_fw.c, the
    globals of the three translation units of the radio stack as one record
    [Sys], the interactions with the world outside the sources as events
    [HalEvent], and the world itself as the class [Env]: every answer it gives
    is an arbitrary function of the history of the interactions so far. *)

From S2P Require Import Prelude Effects RadioTypes.

(** ** Modulation, packet and status structures (radio_driver.h) *)

Record GfskModulation := mkGfskModulation {
  gm_BitRate : Z; gm_Fdev : Z; gm_ModulationShaping : Z; gm_Bandwidth : Z }.
Record BpskModulation := mkBpskModulation { bm_BitRate : Z; bm_ModulationShaping : Z }.
Record LoRaModulation := mkLoRaModulation {
  lm_SpreadingFactor : Z; lm_Bandwidth : Z; lm_CodingRate : Z; lm_LowDatarateOptimize : Z }.
Record ModulationParams_t := mkModulationParams {
  mp_PacketType : RadioPacketTypes_t;
  mp_Gfsk : GfskModulation; mp_Bpsk : BpskModulation; mp_LoRa : LoRaModulation }.

Record GfskPacket := mkGfskPacket {
  gp_PreambleLength : Z; gp_PreambleMinDetect : Z; gp_SyncWordLength : Z; gp_AddrComp : Z;
  gp_HeaderType : Z; gp_PayloadLength : Z; gp_CrcLength : Z; gp_DcFree : Z }.
Record BpskPacket := mkBpskPacket { bp_PayloadLength : Z }.
Record LoRaPacket := mkLoRaPacket {
  lp_PreambleLength : Z; lp_HeaderType : Z; lp_PayloadLength : Z; lp_CrcMode : Z;
  lp_InvertIQ : Z }.
Record PacketParams_t := mkPacketParams {
  pp_PacketType : RadioPacketTypes_t;
  pp_Gfsk : GfskPacket; pp_Bpsk : BpskPacket; pp_LoRa : LoRaPacket }.

Record GfskStatus := mkGfskStatus {
  gs_RxStatus : Z; gs_RssiAvg : Z; gs_RssiSync : Z; gs_FreqError : Z }.
Record LoRaStatus := mkLoRaStatus {
  ls_RssiPkt : Z; ls_SnrPkt : Z; ls_SignalRssiPkt : Z; ls_FreqError : Z }.
Record PacketStatus_t := mkPacketStatus {
  ps_packetType : RadioPacketTypes_t; ps_Gfsk : GfskStatus; ps_LoRa : LoRaStatus }.

(** The fields of [RadioPhyStatus_t], [CalibrationParams_t] and [SleepParams_t]. *)
Record RadioPhyStatus_t := mkRadioPhyStatus { CmdStatus : Z; ChipMode : Z }.
Record CalibrationParams_t := mkCalibrationParams {
  ImgEnable : bool; ADCBulkPEnable : bool; ADCBulkNEnable : bool; ADCPulseEnable : bool;
  PLLEnable : bool; RC13MEnable : bool; RC64KEnable : bool }.
Record SleepParams_t := mkSleepParams { WarmStart : bool; Reset_ : bool; WakeUpRTC : bool }.

(** ** Generic configurations (radio_ex.h) *)

Record generic_param_rx_lora_t := mk_rx_lora {
  rxl_StopTimerOnPreambleDetect : Z; rxl_SpreadingFactor : Z; rxl_Bandwidth : Z;
  rxl_Coderate : Z; rxl_LowDatarateOptimize : Z; rxl_PreambleLen : Z; rxl_LengthMode : Z;
  rxl_MaxPayloadLength : Z; rxl_CrcMode : Z; rxl_IqInverted : Z }.
Record generic_param_rx_fsk_t := mk_rx_fsk {
  rxf_StopTimerOnPreambleDetect : Z; rxf_Bandwidth : Z; rxf_BitRate : Z; rxf_PreambleLen : Z;
  rxf_SyncWord : list Z; rxf_MaxPayloadLength : Z; rxf_CrcPolynomial : Z; rxf_CrcSeed : Z;
  rxf_whiteSeed : Z; rxf_SyncWordLength : Z; rxf_PreambleMinDetect : Z;
  rxf_ModulationShaping : Z; rxf_AddrComp : Z; rxf_LengthMode : Z; rxf_CrcLength : Z;
  rxf_Whitening : Z }.
Record RxConfigGeneric_t := mkRxConfigGeneric {
  rx_fsk : generic_param_rx_fsk_t; rx_lora : generic_param_rx_lora_t }.

Record generic_param_tx_lora_t := mk_tx_lora {
  txl_SpreadingFactor : Z; txl_Bandwidth : Z; txl_Coderate : Z; txl_LowDatarateOptimize : Z;
  txl_PreambleLen : Z; txl_LengthMode : Z; txl_CrcMode : Z; txl_IqInverted : Z }.
(** The fields that [generic_param_tx_fsk_t] and [generic_param_tx_msk_t]
    share, at the same offsets; the former has [FrequencyDeviation] after them. *)
Record generic_param_tx_msk_t := mk_tx_msk {
  txm_BitRate : Z; txm_PreambleLen : Z; txm_SyncWord : list Z; txm_CrcPolynomial : Z;
  txm_CrcSeed : Z; txm_whiteSeed : Z; txm_SyncWordLength : Z; txm_ModulationShaping : Z;
  txm_HeaderType : Z; txm_CrcLength : Z; txm_Whitening : Z }.
Record generic_param_tx_fsk_t := mk_tx_fsk {
  txf_msk : generic_param_tx_msk_t; txf_FrequencyDeviation : Z }.
(** A C union: one member is active. *)
Inductive TxConfigGeneric_t :=
| tx_fsk (c : generic_param_tx_fsk_t)
| tx_lora (c : generic_param_tx_lora_t)
| tx_bpsk (BitRate : Z)
| tx_msk (c : generic_param_tx_msk_t).

(** ** Timers, callbacks, board interface *)

(** The [TimerEvent_t] objects of the program, by their address. *)
Inductive TimerEvent_t := TxTimeoutTimer | RxTimeoutTimer | RFWPacket_Timer.
(** The functions passed to [TimerInit]. *)
Inductive TimerCallback :=
| RadioOnTxTimeoutIrq_cb | RadioOnRxTimeoutIrq_cb
| RFW_GetPayloadTimerEvent_cb | RFW_TransmitLongPacket_NewTxChunkTimerEvent_cb.

(** [RadioEvents_t] of radio_def.h: which of the callbacks are not [NULL]. *)
Record RadioEvents_t := mkRadioEvents {
  ev_TxDone : bool; ev_TxTimeout : bool; ev_RxDone : bool; ev_RxTimeout : bool;
  ev_RxError : bool; ev_CadDone : bool }.

(** Calls of the application: the callbacks of [RadioEvents_t] and the chunk
    callbacks of a long packet. *)
Inductive AppCall :=
| App_TxDone
| App_TxTimeout
| App_RxDone (payload : list Z) (size rssi LoraSnr_FskCfo : Z)
| App_RxTimeout
| App_RxError
| App_CadDone (channelActivityDetected : bool)
| App_StoreChunk (chunk : list Z)
| App_GetNextChunk (buffer_size : Z).

(** Names of the board support package (radio_board_if.h is not part of the
    sources): antenna switch positions, power amplifier set-up, power queries. *)
Inductive RBI_Switch_TypeDef :=
| RBI_SWITCH_OFF | RBI_SWITCH_RX | RBI_SWITCH_RFO_LP | RBI_SWITCH_RFO_HP.
Inductive RBI_TxConfig := RBI_CONF_RFO_LP_HP | RBI_CONF_RFO_LP | RBI_CONF_RFO_HP | RBI_CONF_other.
Inductive RBI_RFOMaxPowerConfig_TypeDef := RBI_RFO_LP_MAXPOWER | RBI_RFO_HP_MAXPOWER.

Inductive ProbeLine := DBG_GPIO_RADIO_RX | DBG_GPIO_RADIO_TX.
Inductive ProbeLevel := SET | RST.

(** An interaction with the world outside radio.c, radio_driver.c, radio_fw.c. *)
Inductive HalEvent :=
| EvSubghzInit
| EvSetCmd (c : SUBGHZ_RadioSetCmd_t) (buf : list Z)
| EvGetCmd (c : SUBGHZ_RadioGetCmd_t) (n : nat)
| EvWriteRegisters (addr : Z) (data : list Z)
| EvReadRegisters (addr : Z) (n : nat)
| EvWriteBuffer (offset : Z) (data : list Z)
| EvReadBuffer (offset : Z) (n : nat)
| EvRBI_Init
| EvConfigRFSwitch (sw : RBI_Switch_TypeDef)
| EvDelay (ms : Z)
| EvTimerInit (t : TimerEvent_t) (cb : TimerCallback)
| EvTimerSetValue (t : TimerEvent_t) (value : Z)
| EvTimerStart (t : TimerEvent_t)
| EvTimerStop (t : TimerEvent_t)
| EvTimerGetCurrentTime
| EvTimerGetElapsedTime (past : Z)
| EvProbe (line : ProbeLine) (level : ProbeLevel)
| EvApp (c : AppCall).

(** ** Radio state: [SubgRf_t] of radio.c *)

Record SubgRf_t := mkSubgRf {
  Modem : RadioModems_t;
  RxContinuous : bool;
  TxTimeout : Z;
  RxTimeout : Z;
  PublicNetwork_Previous : bool;
  PublicNetwork_Current : bool;
  PacketParams : PacketParams_t;
  PacketStatus : PacketStatus_t;
  ModulationParams : ModulationParams_t;
  RadioIrq : Z;
  AntSwitchPaSelect : Z;
  RxDcPreambleDetectTimeout : Z }.

(** ** Firmware packet state: [RFwInit_t] and [RadioFw_t] of radio_fw.c *)

Record RFwInit_t := mkRFwInit {
  Enable : Z;
  PayloadLengthFieldSize : Z;
  CrcEnable : Z;
  CrcFieldSize : Z;
  CrcPolynomial : Z;
  CrcSeed : Z;
  CrcType : Z;
  WhiteSeed : Z;
  LongPacketMaxRxLength : Z;
  rfw_Modem : RadioModems_t;
  rfw_RadioEvents : option RadioEvents_t }.

Record RadioFw_t := mkRadioFw {
  Init : RFwInit_t;
  CrcLfsrState : Z;
  WhiteLfsrState : Z;
  rfw_PayloadLength : Z;
  LongPacketModeEnable : Z;
  LongPacketRemainingBytes : Z;
  RadioBufferOffset : Z;
  RxPayloadOffset : Z;
  RxLongPacketStoreChunkCb : bool;
  TxLongPacketGetNextChunkCb : bool;
  rfw_AntSwitchPaSelect : Z;
  BitRate : Z;
  rfw_RxTimeoutTimer : option TimerEvent_t;
  rfw_TxTimeoutTimer : option TimerEvent_t }.

(** ** Globals of radio_driver.c, radio.c and radio_fw.c *)

Record Sys := mkSys {
  OperatingMode : RadioOperatingModes_t;
  PacketType : RadioPacketTypes_t;
  LoRaHeaderType : Z;
  FrequencyError : Z;
  ImageCalibrated : bool;
  RadioOnDioIrqCb : bool;  (** is the handler set (it can only be [RadioOnDioIrq])? *)
  SubgRf : SubgRf_t;
  MaxPayloadLength : Z;
  RadioBuffer : list Z;
  RadioEvents : option RadioEvents_t;
  RFWPacket : RadioFw_t;
  ChunkBuffer : list Z;
  RxBuffer : list Z;
  trace : list HalEvent }.

#[export] Instance eta_GfskModulation : Eta GfskModulation := λ r, mkGfskModulation
  (gm_BitRate r) (gm_Fdev r) (gm_ModulationShaping r) (gm_Bandwidth r).
#[export] Instance eta_BpskModulation : Eta BpskModulation := λ r, mkBpskModulation
  (bm_BitRate r) (bm_ModulationShaping r).
#[export] Instance eta_LoRaModulation : Eta LoRaModulation := λ r, mkLoRaModulation
  (lm_SpreadingFactor r) (lm_Bandwidth r) (lm_CodingRate r) (lm_LowDatarateOptimize r).
#[export] Instance eta_ModulationParams : Eta ModulationParams_t := λ r, mkModulationParams
  (mp_PacketType r) (mp_Gfsk r) (mp_Bpsk r) (mp_LoRa r).
#[export] Instance eta_GfskPacket : Eta GfskPacket := λ r, mkGfskPacket
  (gp_PreambleLength r) (gp_PreambleMinDetect r) (gp_SyncWordLength r) (gp_AddrComp r)
  (gp_HeaderType r) (gp_PayloadLength r) (gp_CrcLength r) (gp_DcFree r).
#[export] Instance eta_BpskPacket : Eta BpskPacket := λ r, mkBpskPacket (bp_PayloadLength r).
#[export] Instance eta_LoRaPacket : Eta LoRaPacket := λ r, mkLoRaPacket
  (lp_PreambleLength r) (lp_HeaderType r) (lp_PayloadLength r) (lp_CrcMode r) (lp_InvertIQ r).
#[export] Instance eta_PacketParams : Eta PacketParams_t := λ r, mkPacketParams
  (pp_PacketType r) (pp_Gfsk r) (pp_Bpsk r) (pp_LoRa r).
#[export] Instance eta_SubgRf : Eta SubgRf_t := λ r, mkSubgRf
  (Modem r) (RxContinuous r) (TxTimeout r) (RxTimeout r) (PublicNetwork_Previous r)
  (PublicNetwork_Current r) (PacketParams r) (PacketStatus r) (ModulationParams r)
  (RadioIrq r) (AntSwitchPaSelect r) (RxDcPreambleDetectTimeout r).
#[export] Instance eta_RFwInit : Eta RFwInit_t := λ r, mkRFwInit
  (Enable r) (PayloadLengthFieldSize r) (CrcEnable r) (CrcFieldSize r) (CrcPolynomial r)
  (CrcSeed r) (CrcType r) (WhiteSeed r) (LongPacketMaxRxLength r) (rfw_Modem r)
  (rfw_RadioEvents r).
#[export] Instance eta_RadioFw : Eta RadioFw_t := λ r, mkRadioFw
  (Init r) (CrcLfsrState r) (WhiteLfsrState r) (rfw_PayloadLength r) (LongPacketModeEnable r)
  (LongPacketRemainingBytes r) (RadioBufferOffset r) (RxPayloadOffset r)
  (RxLongPacketStoreChunkCb r) (TxLongPacketGetNextChunkCb r) (rfw_AntSwitchPaSelect r)
  (BitRate r) (rfw_RxTimeoutTimer r) (rfw_TxTimeoutTimer r).
#[export] Instance eta_Sys : Eta Sys := λ r, mkSys
  (OperatingMode r) (PacketType r) (LoRaHeaderType r) (FrequencyError r) (ImageCalibrated r)
  (RadioOnDioIrqCb r) (SubgRf r) (MaxPayloadLength r) (RadioBuffer r) (RadioEvents r)
  (RFWPacket r) (ChunkBuffer r) (RxBuffer r) (trace r).

(** ** The state at boot: the initialisers of the globals, zeros otherwise *)

Definition boot_SubgRf : SubgRf_t :=
  mkSubgRf MODEM_FSK false 0 0 false false
    (mkPacketParams PACKET_TYPE_GFSK (mkGfskPacket 0 0 0 0 0 0 0 0) (mkBpskPacket 0)
       (mkLoRaPacket 0 0 0 0 0))
    (mkPacketStatus PACKET_TYPE_GFSK (mkGfskStatus 0 0 0 0) (mkLoRaStatus 0 0 0 0))
    (mkModulationParams PACKET_TYPE_GFSK (mkGfskModulation 0 0 0 0) (mkBpskModulation 0 0)
       (mkLoRaModulation 0 0 0 0))
    0 0 0.

Definition boot_RFWPacket : RadioFw_t :=
  mkRadioFw (mkRFwInit 0 0 0 0 0 0 0 0 0 MODEM_FSK None) 0 0 0 0 0 0 0 false false 0 0 None None.

Definition boot : Sys :=
  mkSys MODE_SLEEP PACKET_TYPE_GFSK 0 0 false false boot_SubgRf 255 (replicate 255 0) None
    boot_RFWPacket (replicate 255 0) (replicate 255 0) [].

(** Evaluates the projections and updates of the program state, and nothing else. *)
Ltac sys_simpl :=
  cbn [modify
       OperatingMode PacketType LoRaHeaderType FrequencyError ImageCalibrated RadioOnDioIrqCb
       SubgRf MaxPayloadLength RadioBuffer RadioEvents RFWPacket ChunkBuffer RxBuffer trace
       Modem RxContinuous TxTimeout RxTimeout PublicNetwork_Previous PublicNetwork_Current
       PacketParams PacketStatus ModulationParams RadioIrq AntSwitchPaSelect
       RxDcPreambleDetectTimeout
       mp_PacketType mp_Gfsk mp_Bpsk mp_LoRa pp_PacketType pp_Gfsk pp_Bpsk pp_LoRa
       Init CrcLfsrState WhiteLfsrState rfw_PayloadLength LongPacketModeEnable
       LongPacketRemainingBytes RadioBufferOffset RxPayloadOffset RxLongPacketStoreChunkCb
       TxLongPacketGetNextChunkCb rfw_AntSwitchPaSelect BitRate rfw_RxTimeoutTimer
       rfw_TxTimeoutTimer
       Enable PayloadLengthFieldSize CrcEnable CrcFieldSize CrcPolynomial CrcSeed CrcType
       WhiteSeed LongPacketMaxRxLength rfw_Modem rfw_RadioEvents].

(** ** Build configuration

    The macros of radio.c and radio_fw.c that "can be overridden in
    radio_conf.h".  The radio_conf.h of the sources defines none of them, so
    the simulator builds with [default_config]; the development covers every
    other build.  radio_fw.c rejects RFW_LONGPACKET_ENABLE without RFW_ENABLE. *)
Class Config := {
  RFW_ENABLE : bool;
  RFW_LONGPACKET_ENABLE : bool;
  RADIO_SIGFOX_ENABLE : bool;
  RADIO_GENERIC_CONFIG_ENABLE : bool;
  longpacket_needs_rfw : implb RFW_LONGPACKET_ENABLE RFW_ENABLE = true }.

Definition default_config : Config := {|
  RFW_ENABLE := false; RFW_LONGPACKET_ENABLE := false;
  RADIO_SIGFOX_ENABLE := true; RADIO_GENERIC_CONFIG_ENABLE := true;
  longpacket_needs_rfw := eq_refl |}.

(** A build with the firmware packet functions and the long packets. *)
Definition rfw_config : Config := {|
  RFW_ENABLE := true; RFW_LONGPACKET_ENABLE := true;
  RADIO_SIGFOX_ENABLE := true; RADIO_GENERIC_CONFIG_ENABLE := true;
  longpacket_needs_rfw := eq_refl |}.

(** ** The world outside the sources

    The sub-GHz peripheral behind the HAL, the board support package, the
    timer server, the debug unit and the application.  Byte answers are
    truncated to bytes where they are received; nothing else is assumed. *)
Class Env := {
  get_cmd_answer : list HalEvent → SUBGHZ_RadioGetCmd_t → nat → Z;
  register_answer : list HalEvent → Z → Z;
  rx_buffer_answer : list HalEvent → Z → Z;
  RBI_IsTCXO : Z;
  RBI_IsDCDC : Z;
  RBI_GetTxConfig : RBI_TxConfig;
  RBI_GetRFOMaxPowerConfig : RBI_RFOMaxPowerConfig_TypeDef → Z;
  current_time_answer : list HalEvent → Z;
  elapsed_time_answer : list HalEvent → Z → Z;
  LL_DBGMCU_GetRevisionID : Z;
  next_chunk_answer : list HalEvent → Z → list Z;
  app_reaction : AppCall → Sys → Sys }.

(** An environment in which a radio that holds [rx] has received [ptr] bytes,
    time advances with the interactions, and the application does nothing. *)
Definition quiet_env (rx : list Z) (ptr : list HalEvent → Z) : Env := {|
  get_cmd_answer _ _ _ := 0;
  register_answer tr _ := ptr tr;
  rx_buffer_answer _ i := rx !!! Z.to_nat i;
  RBI_IsTCXO := 0; RBI_IsDCDC := 0;
  RBI_GetTxConfig := RBI_CONF_RFO_LP_HP;
  RBI_GetRFOMaxPowerConfig m := match m with RBI_RFO_LP_MAXPOWER => 15 | RBI_RFO_HP_MAXPOWER => 22 end;
  current_time_answer tr := Z.of_nat (length tr);
  elapsed_time_answer tr t := Z.of_nat (length tr) - t;
  LL_DBGMCU_GetRevisionID := 0x1003;
  next_chunk_answer _ n := replicate (Z.to_nat n) 0;
  app_reaction _ s := s |}.

Section Interaction.
Context {env : Env}.

Definition emit (e : HalEvent) : M Sys unit := update (λ s, s <| trace := trace s ++ [e] |>).

Definition HAL_SUBGHZ_ExecSetCmd (c : SUBGHZ_RadioSetCmd_t) (buf : list Z) : M Sys unit :=
  emit (EvSetCmd c buf).
Definition HAL_SUBGHZ_ExecGetCmd (c : SUBGHZ_RadioGetCmd_t) (n : nat) : M Sys (list Z) :=
  tr ← gets trace;
  emit (EvGetCmd c n);;
  mret ((λ i, u8 (get_cmd_answer tr c i)) <$> seq 0 n).
Definition HAL_SUBGHZ_WriteRegisters (addr : Z) (data : list Z) : M Sys unit :=
  emit (EvWriteRegisters addr data).
Definition HAL_SUBGHZ_ReadRegisters (addr : Z) (n : nat) : M Sys (list Z) :=
  tr ← gets trace;
  emit (EvReadRegisters addr n);;
  mret ((λ i, u8 (register_answer tr (addr + Z.of_nat i))) <$> seq 0 n).
Definition HAL_SUBGHZ_WriteBuffer (offset : Z) (data : list Z) : M Sys unit :=
  emit (EvWriteBuffer offset data).
Definition HAL_SUBGHZ_ReadBuffer (offset : Z) (n : nat) : M Sys (list Z) :=
  tr ← gets trace;
  emit (EvReadBuffer offset n);;
  mret ((λ i, u8 (rx_buffer_answer tr (offset + Z.of_nat i))) <$> seq 0 n).

(** A call of the application: the event, then whatever the application does. *)
Definition call_app (c : AppCall) : M Sys unit :=
  emit (EvApp c);; update (app_reaction c).

(** Timer functions take a pointer to the timer. *)
Definition on_timer (t : option TimerEvent_t) (f : TimerEvent_t → HalEvent) : M Sys unit :=
  match t with
  | Some t => emit (f t)
  | None => undefined "timer function called with a null TimerEvent_t"
  end.
Definition TimerGetCurrentTime : M Sys Z :=
  tr ← gets trace; emit EvTimerGetCurrentTime;; mret (u32 (current_time_answer tr)).
Definition TimerGetElapsedTime (past : Z) : M Sys Z :=
  tr ← gets trace; emit (EvTimerGetElapsedTime past);; mret (u32 (elapsed_time_answer tr past)).
End Interaction.
