(* ===== verification/Mem.v ===== *)
(** * stm32_mem.c: byte copies, and the fixed buffers of the driver.

    [UTIL_MEM_cpy_8], [UTIL_MEM_cpyr_8] and [UTIL_MEM_set_8] run over a byte
    memory; an access outside the memory is undefined behaviour ([None]).  The
    rest of the development copies between buffers that are distinct C objects,
    with [buf_read] and [buf_write]; the theorems below justify it: on disjoint
    regions the copy loop is a block copy. *)

From S2P Require Import Prelude.

Abbreviation Memory := (gmap Z Z).

(** [while( size-- ) { *dst8++ = *src8++; }] *)
Fixpoint UTIL_MEM_cpy_8 (dst src : Z) (size : nat) (m : Memory) : option Memory :=
  match size with
  | O => Some m
  | S size =>
      match m !! src, m !! dst with
      | Some b, Some _ => UTIL_MEM_cpy_8 (dst + 1) (src + 1) size (<[dst := b]> m)
      | _, _ => None
      end
  end.

(** [while( size-- ) { *dst8-- = *src8++; }], from [dst8 = dst]. *)
Fixpoint cpyr_loop (dst src : Z) (size : nat) (m : Memory) : option Memory :=
  match size with
  | O => Some m
  | S size =>
      match m !! src, m !! dst with
      | Some b, Some _ => cpyr_loop (dst - 1) (src + 1) size (<[dst := b]> m)
      | _, _ => None
      end
  end.

Definition UTIL_MEM_cpyr_8 (dst src : Z) (size : nat) (m : Memory) : option Memory :=
  cpyr_loop (dst + (Z.of_nat size - 1)) src size m.

(** [while( size-- ) { *dst8++ = value; }] *)
Fixpoint UTIL_MEM_set_8 (dst value : Z) (size : nat) (m : Memory) : option Memory :=
  match size with
  | O => Some m
  | S size =>
      match m !! dst with
      | Some _ => UTIL_MEM_set_8 (dst + 1) value size (<[dst := value]> m)
      | None => None
      end
  end.

(** ** Buffers as C arrays *)

(** Reading [n] bytes at [off]; [None] when the range leaves the array. *)
Definition buf_read (buf : list Z) (off n : Z) : option (list Z) :=
  if (0 <=? off) && (0 <=? n) && (off + n <=? Z.of_nat (length buf))
  then Some (take (Z.to_nat n) (drop (Z.to_nat off) buf))
  else None.

(** Writing [src] at [off]. *)
Definition buf_write (buf : list Z) (off : Z) (src : list Z) : option (list Z) :=
  if (0 <=? off) && (off + Z.of_nat (length src) <=? Z.of_nat (length buf))
  then Some (take (Z.to_nat off) buf ++ src ++ drop (Z.to_nat off + length src) buf)
  else None.

#[global] Arguments buf_read : simpl never.
#[global] Arguments buf_write : simpl never.

(** ** Buffer lemmas *)

Lemma buf_read_length buf off n l :
  buf_read buf off n = Some l → Z.of_nat (length l) = n.
Proof.
  unfold buf_read. intros H. case_match eqn:E; [|done]. injection H as <-.
  rewrite length_take, length_drop. lia.
Qed.

Lemma buf_write_length buf off src buf' :
  buf_write buf off src = Some buf' → length buf' = length buf.
Proof.
  unfold buf_write. intros H. case_match eqn:E; [|done]. injection H as <-.
  rewrite !length_app, length_take, length_drop. lia.
Qed.

Lemma buf_write_Some buf off src :
  0 <= off → off + Z.of_nat (length src) <= Z.of_nat (length buf) →
  buf_write buf off src =
    Some (take (Z.to_nat off) buf ++ src ++ drop (Z.to_nat off + length src) buf).
Proof. intros. unfold buf_write. now rewrite (proj2 (andb_true_iff _ _)) by lia. Qed.

Lemma buf_read_Some buf off n :
  0 <= off → 0 <= n → off + n <= Z.of_nat (length buf) →
  buf_read buf off n = Some (take (Z.to_nat n) (drop (Z.to_nat off) buf)).
Proof. intros. unfold buf_read. case_match eqn:E; [done | lia]. Qed.

(** What was written is read back. *)
Lemma buf_read_write buf off src buf' :
  buf_write buf off src = Some buf' → buf_read buf' off (Z.of_nat (length src)) = Some src.
Proof.
  intros H. pose proof (buf_write_length _ _ _ _ H) as L.
  unfold buf_write in H. case_match eqn:E; [|done]. injection H as <-.
  rewrite buf_read_Some by lia. f_equal. rewrite Nat2Z.id.
  rewrite drop_app_length' by (rewrite length_take; lia).
  now rewrite take_app_length.
Qed.

(** A write leaves the bytes outside its range alone. *)
Lemma buf_write_lookup buf off src buf' i :
  buf_write buf off src = Some buf' →
  buf' !! i = if decide (Z.to_nat off ≤ i < Z.to_nat off + length src)%nat
              then src !! (i - Z.to_nat off)%nat else buf !! i.
Proof.
  unfold buf_write. intros H. case_match eqn:E; [|done]. injection H as <-.
  assert (length (take (Z.to_nat off) buf) = Z.to_nat off) as L by (rewrite length_take; lia).
  case_decide.
  - rewrite lookup_app_r by lia. rewrite lookup_app_l by lia. now rewrite L.
  - destruct (decide (i < Z.to_nat off)%nat).
    + rewrite lookup_app_l by lia. now rewrite lookup_take_lt.
    + rewrite lookup_app_r by lia. rewrite lookup_app_r by lia. rewrite lookup_drop.
      f_equal. lia.
Qed.

(** A buffer seen as three parts, of which the middle one is accessed. *)
Lemma buf_read_mid a b c off n :
  off = Z.of_nat (length a) → n = Z.of_nat (length b) → buf_read (a ++ b ++ c) off n = Some b.
Proof.
  intros -> ->. rewrite buf_read_Some by (rewrite ?length_app; lia).
  rewrite !Nat2Z.id, drop_app_length. now rewrite take_app_length.
Qed.

Lemma buf_write_mid a b c off src :
  off = Z.of_nat (length a) → length src = length b →
  buf_write (a ++ b ++ c) off src = Some (a ++ src ++ c).
Proof.
  intros -> Hl. rewrite buf_write_Some by (rewrite ?length_app; lia).
  rewrite !Nat2Z.id, take_app_length, Hl. do 3 f_equal.
  rewrite app_assoc. apply drop_app_length'. now rewrite length_app.
Qed.

(** ** The copy loops *)

(** The bytes of the regions a call touches are in memory. *)
Definition mapped (m : Memory) (p : Z) (size : nat) : Prop :=
  ∀ i, 0 <= i < Z.of_nat size → is_Some (m !! (p + i)).

Lemma mapped_tail m p size : mapped m p (S size) → mapped m (p + 1) size.
Proof. intros H i Hi. replace (p + 1 + i) with (p + (i + 1)) by lia. apply H. lia. Qed.

Lemma mapped_insert m p size k (b : Z) : mapped m p size → mapped (<[k := b]> m) p size.
Proof.
  intros H i Hi. destruct (decide (k = p + i)) as [->|Hne].
  - rewrite lookup_insert_eq. eauto.
  - rewrite lookup_insert_ne by done. now apply H.
Qed.

Lemma mapped_head m p size : mapped m p (S size) → is_Some (m !! p).
Proof. intros H. specialize (H 0). rewrite Z.add_0_r in H. apply H. lia. Qed.

(** Addresses outside the destination region are untouched. *)
Lemma cpy_frame size : ∀ dst src m m' p,
  UTIL_MEM_cpy_8 dst src size m = Some m' →
  p < dst ∨ dst + Z.of_nat size <= p → m' !! p = m !! p.
Proof.
  induction size as [|size IH]; intros dst src m m' p H Hp; cbn in H.
  - now injection H as <-.
  - repeat (case_match; try done). rewrite (IH _ _ _ _ p H) by lia.
    now rewrite lookup_insert_ne by lia.
Qed.

Lemma cpy_defined size : ∀ dst src m,
  mapped m dst size → mapped m src size → is_Some (UTIL_MEM_cpy_8 dst src size m).
Proof.
  induction size as [|size IH]; intros dst src m Hd Hs; cbn; [eauto|].
  destruct (mapped_head _ _ _ Hs) as [b ->]. destruct (mapped_head _ _ _ Hd) as [c ->].
  apply IH; now apply mapped_insert, mapped_tail.
Qed.

(** One pass of the forward copy: each byte is the source byte as it was, or,
    when the destination overlaps the source from above, a byte already copied. *)
Lemma cpy_step size : ∀ dst src m m',
  UTIL_MEM_cpy_8 dst src size m = Some m' →
  ∀ i, 0 <= i < Z.of_nat size →
  m' !! (dst + i) = if decide (dst <= src + i ∧ src < dst) then m' !! (src + i) else m !! (src + i).
Proof.
  induction size as [|size IH]; intros dst src m m' H i Hi; [lia|]. cbn in H.
  destruct (m !! src) as [b|] eqn:Es; [|done]. destruct (m !! dst) as [c|] eqn:Ed; [|done].
  destruct (decide (i = 0)) as [->|Hi0].
  - rewrite !Z.add_0_r. rewrite (cpy_frame _ _ _ _ _ dst H) by lia.
    rewrite lookup_insert_eq, decide_False by lia. done.
  - specialize (IH _ _ _ _ H (i - 1)).
    replace (dst + 1 + (i - 1)) with (dst + i) in IH by lia.
    replace (src + 1 + (i - 1)) with (src + i) in IH by lia.
    rewrite IH by lia. clear IH.
    destruct (decide (src + i = dst)) as [Heq|Hne].
    + rewrite Heq. rewrite (decide_True _ _ (P := dst <= dst ∧ src < dst)) by lia.
      rewrite (cpy_frame _ _ _ _ _ dst H) by lia.
      rewrite decide_False by lia. done.
    + rewrite lookup_insert_ne by done. repeat case_decide; try lia; done.
Qed.

(** C34: when the source does not start inside the part of memory the copy has
    already overwritten (the regions are disjoint, or the destination is at or
    below the source), [UTIL_MEM_cpy_8] is a block copy: every destination byte
    is the original source byte and the rest of memory is unchanged. *)
Theorem UTIL_MEM_cpy_8_block dst src size (m : Memory) :
  mapped m dst size → mapped m src size →
  (dst <= src ∨ src + Z.of_nat size <= dst) →
  ∃ m', UTIL_MEM_cpy_8 dst src size m = Some m' ∧
    ∀ p, m' !! p = if decide (dst <= p < dst + Z.of_nat size)
                   then m !! (src + (p - dst)) else m !! p.
Proof.
  intros Hd Hs Hov. destruct (cpy_defined size dst src m Hd Hs) as [m' Hm'].
  exists m'. split; [done|]. intros p. case_decide as Hp.
  - pose proof (cpy_step _ _ _ _ _ Hm' (p - dst)) as H.
    replace (dst + (p - dst)) with p in H by lia. rewrite H by lia.
    rewrite decide_False by lia. done.
  - apply (cpy_frame _ _ _ _ _ p Hm'). lia.
Qed.

(** Four bytes of memory. *)
Definition small_memory : Memory := {[ 0 := 10; 1 := 11; 2 := 12; 3 := 13 ]}.

Lemma small_memory_mapped p size :
  0 <= p → p + Z.of_nat size <= 4 → mapped small_memory p size.
Proof.
  intros H0 H4 i Hi. assert (p + i = 0 ∨ p + i = 1 ∨ p + i = 2 ∨ p + i = 3) as H by lia.
  destruct H as [->|[->|[->| ->]]]; eexists; reflexivity.
Qed.

Lemma UTIL_MEM_cpy_8_block_witness :
  ∃ m', UTIL_MEM_cpy_8 0 1 3 small_memory = Some m' ∧ m' !! 0 = Some 11 ∧ m' !! 3 = Some 13.
Proof.
  destruct (UTIL_MEM_cpy_8_block 0 1 3 small_memory) as (m' & E & Hm).
  - apply small_memory_mapped; lia.
  - apply small_memory_mapped; lia.
  - left. lia.
  - exists m'. split; [exact E|]. split; rewrite Hm; reflexivity.
Defined.

(** When the destination starts [d] bytes into the source region, the
    forward copy does not move the block: it repeats the first [d] source
    bytes with period [d]. *)
Theorem UTIL_MEM_cpy_8_overlap src d size (m : Memory) :
  0 < d → mapped m (src + d) size → mapped m src size →
  ∃ m', UTIL_MEM_cpy_8 (src + d) src size m = Some m' ∧
    ∀ i, 0 <= i < Z.of_nat size → m' !! (src + d + i) = m !! (src + i mod d).
Proof.
  intros Hd H1 H2. destruct (cpy_defined size (src + d) src m H1 H2) as [m' Hm'].
  exists m'. split; [done|]. intros i Hi. pose proof (cpy_step _ _ _ _ _ Hm') as Hstep.
  destruct Hi as [Hi0 Hi]. revert Hi. pattern i. apply Zlt_0_ind; [|done]. clear i Hi0.
  intros i IH Hi0 Hi. rewrite Hstep by lia. destruct (decide (src + d <= src + i ∧ src < src + d)) as [Hc|Hc].
  - replace (src + i) with (src + d + (i - d)) by lia. rewrite IH by lia.
    do 2 f_equal. now rewrite <- (Z.mod_add (i - d) 1 d), Z.mul_1_l, Z.sub_add by lia.
  - rewrite Z.mod_small by lia. done.
Qed.

Lemma UTIL_MEM_cpy_8_overlap_witness :
  ∃ m', UTIL_MEM_cpy_8 1 0 3 small_memory = Some m' ∧ m' !! 1 = Some 10 ∧ m' !! 3 = Some 10.
Proof.
  destruct (UTIL_MEM_cpy_8_overlap 0 1 3 small_memory) as (m' & E & Hm).
  - lia.
  - apply small_memory_mapped; lia.
  - apply small_memory_mapped; lia.
  - exists m'. split; [exact E|]. split; [exact (Hm 0 ltac:(lia)) | exact (Hm 2 ltac:(lia))].
Defined.

Lemma cpyr_frame size : ∀ dst src m m' p,
  cpyr_loop dst src size m = Some m' →
  dst < p ∨ p <= dst - Z.of_nat size → m' !! p = m !! p.
Proof.
  induction size as [|size IH]; intros dst src m m' p H Hp; cbn in H.
  - now injection H as <-.
  - repeat (case_match; try done). rewrite (IH _ _ _ _ p H) by lia.
    now rewrite lookup_insert_ne by lia.
Qed.

Lemma cpyr_spec size : ∀ dst src m,
  mapped m (dst - (Z.of_nat size - 1)) size → mapped m src size →
  (dst < src ∨ src + Z.of_nat size <= dst - (Z.of_nat size - 1)) →
  ∃ m', cpyr_loop dst src size m = Some m' ∧
    ∀ i, 0 <= i < Z.of_nat size → m' !! (dst - i) = m !! (src + i).
Proof.
  induction size as [|size IH]; intros dst src m Hd Hs Hov; cbn [cpyr_loop].
  - exists m. split; [done | lia].
  - destruct (mapped_head _ _ _ Hs) as [b Hb]. rewrite Hb.
    destruct (Hd (Z.of_nat size)) as [c Hc]; [lia|].
    replace (dst - (Z.of_nat (S size) - 1) + Z.of_nat size) with dst in Hc by lia. rewrite Hc.
    destruct (IH (dst - 1) (src + 1) (<[dst:=b]> m)) as (m' & Hm' & Hspec).
    + apply mapped_insert. intros i Hi. destruct (Hd i) as [x Hx]; [lia|].
      exists x. rewrite <- Hx. f_equal. lia.
    + apply mapped_insert, mapped_tail, Hs.
    + lia.
    + exists m'. split; [done|]. intros i Hi. destruct (decide (i = 0)) as [->|Hne].
      * rewrite Z.sub_0_r, Z.add_0_r, Hb, (cpyr_frame _ _ _ _ _ dst Hm') by lia.
        apply lookup_insert_eq.
      * specialize (Hspec (i - 1)). replace (dst - 1 - (i - 1)) with (dst - i) in Hspec by lia.
        replace (src + 1 + (i - 1)) with (src + i) in Hspec by lia.
        rewrite Hspec by lia. apply lookup_insert_ne. lia.
Qed.

(** On disjoint regions [UTIL_MEM_cpyr_8] stores the source block in the
    destination in reverse byte order. *)
Theorem UTIL_MEM_cpyr_8_reverse dst src size (m : Memory) :
  mapped m dst size → mapped m src size →
  (dst + Z.of_nat size <= src ∨ src + Z.of_nat size <= dst) →
  ∃ m', UTIL_MEM_cpyr_8 dst src size m = Some m' ∧
    ∀ i, 0 <= i < Z.of_nat size → m' !! (dst + i) = m !! (src + (Z.of_nat size - 1 - i)).
Proof.
  intros Hd Hs Hov. unfold UTIL_MEM_cpyr_8.
  destruct (cpyr_spec size (dst + (Z.of_nat size - 1)) src m) as (m' & Hm' & Hspec).
  - now replace (dst + (Z.of_nat size - 1) - (Z.of_nat size - 1)) with dst by lia.
  - done.
  - lia.
  - exists m'. split; [done|]. intros i Hi.
    rewrite <- Hspec by lia. f_equal. lia.
Qed.

Lemma UTIL_MEM_cpyr_8_reverse_witness :
  ∃ m', UTIL_MEM_cpyr_8 2 0 2 small_memory = Some m' ∧ m' !! 2 = Some 11 ∧ m' !! 3 = Some 10.
Proof.
  destruct (UTIL_MEM_cpyr_8_reverse 2 0 2 small_memory) as (m' & E & Hm).
  - apply small_memory_mapped; lia.
  - apply small_memory_mapped; lia.
  - right. lia.
  - exists m'. split; [exact E|]. split; [exact (Hm 0 ltac:(lia)) | exact (Hm 1 ltac:(lia))].
Defined.

Lemma set_spec size : ∀ dst value m,
  mapped m dst size →
  ∃ m', UTIL_MEM_set_8 dst value size m = Some m' ∧
    ∀ p, m' !! p = if decide (dst <= p < dst + Z.of_nat size) then Some value else m !! p.
Proof.
  induction size as [|size IH]; intros dst value m Hd; cbn [UTIL_MEM_set_8].
  - exists m. split; [done|]. intros p. rewrite decide_False by lia. done.
  - destruct (mapped_head _ _ _ Hd) as [b ->].
    destruct (IH (dst + 1) value (<[dst:=value]> m)) as (m' & Hm' & Hspec).
    { now apply mapped_insert, mapped_tail. }
    exists m'. split; [done|]. intros p. rewrite Hspec, lookup_insert.
    repeat case_decide; try lia; done.
Qed.
