(* ===== verification/RadioDriver.v ===== *)
(** * radio_driver.c: the commands of the sub-GHz radio.

    One definition per function of the source, in its order, over the state
    [Sys]; the calls into the HAL and the board support package are events.
    The interrupt callbacks of the file are in Radio.v, after the handler they
    call. *)

From S2P Require Import Prelude Effects RadioTypes State.

(** A byte read of a command or register answer; the answers have the length
    that was asked for. *)
Definition nth_byte (l : list Z) (n : nat) : Z := default 0 (l !! n).

Section Driver.
Context {env : Env}.

(** ** Access to the HAL *)

Definition SUBGRF_WriteRegister (addr data : Z) : M Sys unit :=
  HAL_SUBGHZ_WriteRegisters addr [data].

Definition SUBGRF_ReadRegister (addr : Z) : M Sys Z :=
  data ← HAL_SUBGHZ_ReadRegisters addr 1; mret (nth_byte data 0).

Definition SUBGRF_WriteRegisters (address : Z) (buffer : list Z) : M Sys unit :=
  HAL_SUBGHZ_WriteRegisters address buffer.

Definition SUBGRF_ReadRegisters (address : Z) (size : nat) : M Sys (list Z) :=
  HAL_SUBGHZ_ReadRegisters address size.

Definition SUBGRF_WriteBuffer (offset : Z) (buffer : list Z) : M Sys unit :=
  HAL_SUBGHZ_WriteBuffer offset buffer.

Definition SUBGRF_ReadBuffer (offset : Z) (size : nat) : M Sys (list Z) :=
  HAL_SUBGHZ_ReadBuffer offset size.

Definition SUBGRF_WriteCommand (Command : SUBGHZ_RadioSetCmd_t) (pBuffer : list Z) : M Sys unit :=
  HAL_SUBGHZ_ExecSetCmd Command pBuffer.

Definition SUBGRF_ReadCommand (Command : SUBGHZ_RadioGetCmd_t) (Size : nat) : M Sys (list Z) :=
  HAL_SUBGHZ_ExecGetCmd Command Size.

Definition Radio_SMPS_Set (level : Z) : M Sys unit := skip.

(** ** Operating modes *)

Definition SUBGRF_SetStandby (standbyConfig : RadioStandbyModes_t) : M Sys unit :=
  SUBGRF_WriteCommand RADIO_SET_STANDBY [RadioStandbyModes_t_code standbyConfig];;
  update (λ s, s <| OperatingMode :=
    if decide (standbyConfig = STDBY_RC) then MODE_STDBY_RC else MODE_STDBY_XOSC |>).

Definition SUBGRF_SetFs : M Sys unit :=
  SUBGRF_WriteCommand RADIO_SET_FS [];;
  update (λ s, s <| OperatingMode := MODE_FS |>).

Definition SUBGRF_SetTx (timeout : Z) : M Sys unit :=
  update (λ s, s <| OperatingMode := MODE_TX |>);;
  SUBGRF_WriteCommand RADIO_SET_TX [byte_at 16 timeout; byte_at 8 timeout; byte_at 0 timeout].

Definition SUBGRF_SetRx (timeout : Z) : M Sys unit :=
  update (λ s, s <| OperatingMode := MODE_RX |>);;
  SUBGRF_WriteCommand RADIO_SET_RX [byte_at 16 timeout; byte_at 8 timeout; byte_at 0 timeout].

Definition SUBGRF_SetRxBoosted (timeout : Z) : M Sys unit :=
  update (λ s, s <| OperatingMode := MODE_RX |>);;
  SUBGRF_WriteRegister REG_RX_GAIN 0x97;;
  SUBGRF_WriteCommand RADIO_SET_RX [byte_at 16 timeout; byte_at 8 timeout; byte_at 0 timeout].

Definition SUBGRF_SetRxDutyCycle (rxTime sleepTime : Z) : M Sys unit :=
  SUBGRF_WriteCommand RADIO_SET_RXDUTYCYCLE
    [byte_at 16 rxTime; byte_at 8 rxTime; byte_at 0 rxTime;
     byte_at 16 sleepTime; byte_at 8 sleepTime; byte_at 0 sleepTime];;
  update (λ s, s <| OperatingMode := MODE_RX_DC |>).

Definition SUBGRF_SetCad : M Sys unit :=
  SUBGRF_WriteCommand RADIO_SET_CAD [];;
  update (λ s, s <| OperatingMode := MODE_CAD |>).

Definition SUBGRF_SetTxContinuousWave : M Sys unit :=
  SUBGRF_WriteCommand RADIO_SET_TXCONTINUOUSWAVE [].

Definition SUBGRF_SetTxInfinitePreamble : M Sys unit :=
  SUBGRF_WriteCommand RADIO_SET_TXCONTINUOUSPREAMBLE [].

Definition SUBGRF_SetSleep (sleepConfig : SleepParams_t) : M Sys unit :=
  emit (EvConfigRFSwitch RBI_SWITCH_OFF);;
  Radio_SMPS_Set SMPS_DRIVE_SETTING_DEFAULT;;
  let value := Z.lor (Z.lor (Z.shiftl (b2z (WarmStart sleepConfig)) 2)
                            (Z.shiftl (b2z (Reset_ sleepConfig)) 1))
                     (b2z (WakeUpRTC sleepConfig)) in
  SUBGRF_WriteCommand RADIO_SET_SLEEP [u8 value];;
  update (λ s, s <| OperatingMode := MODE_SLEEP |>).

Definition SUBGRF_GetOperatingMode : M Sys RadioOperatingModes_t := gets OperatingMode.

(** ** Calibration and board set-up *)

Definition SUBGRF_Calibrate (calibParam : CalibrationParams_t) : M Sys unit :=
  let value :=
    Z.lor (Z.lor (Z.lor (Z.lor (Z.lor (Z.lor
      (Z.shiftl (b2z (ImgEnable calibParam)) 6)
      (Z.shiftl (b2z (ADCBulkPEnable calibParam)) 5))
      (Z.shiftl (b2z (ADCBulkNEnable calibParam)) 4))
      (Z.shiftl (b2z (ADCPulseEnable calibParam)) 3))
      (Z.shiftl (b2z (PLLEnable calibParam)) 2))
      (Z.shiftl (b2z (RC13MEnable calibParam)) 1))
      (b2z (RC64KEnable calibParam)) in
  SUBGRF_WriteCommand RADIO_CALIBRATE [u8 value].

Definition SUBGRF_CalibrateImage (freq : Z) : M Sys unit :=
  let calFreq :=
    if 900000000 <? freq then [0xE1; 0xE9]
    else if 850000000 <? freq then [0xD7; 0xDB]
    else if 770000000 <? freq then [0xC1; 0xC5]
    else if 460000000 <? freq then [0x75; 0x81]
    else if 425000000 <? freq then [0x6B; 0x6F]
    else [0x29; 0x2B] in
  SUBGRF_WriteCommand RADIO_CALIBRATEIMAGE calFreq.

Definition SUBGRF_SetTcxoMode (tcxoVoltage timeout : Z) : M Sys unit :=
  SUBGRF_WriteCommand RADIO_SET_TCXOMODE
    [u8 (Z.land tcxoVoltage 0x07);
     byte_at 16 timeout; byte_at 8 timeout; byte_at 0 timeout].

Definition SUBGRF_SetRegulatorMode : M Sys unit :=
  let mode := if (1 =? RBI_IsDCDC) && (1 =? DCDC_ENABLE) then USE_DCDC else USE_LDO in
  SUBGRF_WriteCommand RADIO_SET_REGULATORMODE [RadioRegulatorMode_t_code mode].

(** [calibParam.Value = 0x7F] *)
Definition calibParam_0x7F : CalibrationParams_t :=
  mkCalibrationParams true true true true true true true.

Definition SUBGRF_Init (dioIrq : bool) : M Sys unit :=
  when dioIrq (update (λ s, s <| RadioOnDioIrqCb := true |>));;
  emit EvSubghzInit;;
  Radio_SMPS_Set SMPS_DRIVE_SETTING_DEFAULT;;
  update (λ s, s <| ImageCalibrated := false |>);;
  SUBGRF_SetStandby STDBY_RC;;
  (if 1 =? RBI_IsTCXO then
     SUBGRF_SetTcxoMode TCXO_CTRL_VOLTAGE (Z.shiftl RF_WAKEUP_TIME 6);;
     SUBGRF_WriteRegister REG_XTA_TRIM 0x00;;
     SUBGRF_Calibrate calibParam_0x7F
   else
     SUBGRF_WriteRegister REG_XTA_TRIM XTAL_DEFAULT_CAP_VALUE;;
     SUBGRF_WriteRegister REG_XTB_TRIM XTAL_DEFAULT_CAP_VALUE);;
  SUBGRF_WriteRegister REG_DRV_CTRL (Z.shiftl 0x7 1);;
  emit EvRBI_Init;;
  update (λ s, s <| OperatingMode := MODE_STDBY_RC |>).

(** ** Payloads *)

Definition SUBGRF_SetPayload (payload : list Z) : M Sys unit :=
  SUBGRF_WriteBuffer 0x00 payload.

Definition SUBGRF_SendPayload (payload : list Z) (timeout : Z) : M Sys unit :=
  SUBGRF_SetPayload payload;; SUBGRF_SetTx timeout.

Definition SUBGRF_GetPacketType : M Sys RadioPacketTypes_t := gets PacketType.

(** Returns [(payloadLength, rxStartBufferPointer)]. *)
Definition SUBGRF_GetRxBufferStatus : M Sys (Z * Z) :=
  status ← SUBGRF_ReadCommand RADIO_GET_RXBUFFERSTATUS 2;
  ptype ← SUBGRF_GetPacketType;
  header ← gets LoRaHeaderType;
  payloadLength ←
    (if bool_decide (ptype = PACKET_TYPE_LORA) && (header =? LORA_PACKET_FIXED_LENGTH)
     then SUBGRF_ReadRegister REG_LR_PAYLOADLENGTH
     else mret (nth_byte status 0));
  mret (payloadLength, nth_byte status 1).

(** Returns the status, [*size] and the bytes read; [*size] is set even when
    the payload does not fit and nothing is read. *)
Definition SUBGRF_GetPayload (maxSize : Z) : M Sys (Z * Z * list Z) :=
  st ← SUBGRF_GetRxBufferStatus;
  let size := fst st in
  let offset := snd st in
  if maxSize <? size then mret (1, size, [])
  else
    buffer ← SUBGRF_ReadBuffer offset (Z.to_nat size);
    mret (0, size, buffer).

(** ** Sync word, CRC and whitening registers *)

Definition SUBGRF_SetSyncWord (syncWord : list Z) : M Sys unit :=
  SUBGRF_WriteRegisters REG_LR_SYNCWORDBASEADDRESS (take 8 syncWord).

Definition SUBGRF_SetCrcSeed (seed : Z) : M Sys unit :=
  ptype ← SUBGRF_GetPacketType;
  match ptype with
  | PACKET_TYPE_GFSK =>
      SUBGRF_WriteRegisters REG_LR_CRCSEEDBASEADDR [byte_at 8 seed; byte_at 0 seed]
  | _ => skip
  end.

Definition SUBGRF_SetCrcPolynomial (polynomial : Z) : M Sys unit :=
  ptype ← SUBGRF_GetPacketType;
  match ptype with
  | PACKET_TYPE_GFSK =>
      SUBGRF_WriteRegisters REG_LR_CRCPOLYBASEADDR [byte_at 8 polynomial; byte_at 0 polynomial]
  | _ => skip
  end.

Definition SUBGRF_SetWhiteningSeed (seed : Z) : M Sys unit :=
  ptype ← SUBGRF_GetPacketType;
  match ptype with
  | PACKET_TYPE_GFSK =>
      reg ← SUBGRF_ReadRegister REG_LR_WHITSEEDBASEADDR_MSB;
      let regValue := Z.land reg 0xFE in
      let regValue := u8 (Z.lor (Z.land (Z.shiftr seed 8) 0x01) regValue) in
      SUBGRF_WriteRegister REG_LR_WHITSEEDBASEADDR_MSB regValue;;
      SUBGRF_WriteRegister REG_LR_WHITSEEDBASEADDR_LSB (u8 seed)
  | _ => skip
  end.

(** The four bytes are stored at the address of a little-endian [uint32_t]. *)
Definition SUBGRF_GetRandom : M Sys Z :=
  regAnaLna ← SUBGRF_ReadRegister REG_ANA_LNA;
  SUBGRF_WriteRegister REG_ANA_LNA (u8 (Z.land regAnaLna (Z.lnot (Z.shiftl 1 0))));;
  regAnaMixer ← SUBGRF_ReadRegister REG_ANA_MIXER;
  SUBGRF_WriteRegister REG_ANA_MIXER (u8 (Z.land regAnaMixer (Z.lnot (Z.shiftl 1 7))));;
  SUBGRF_SetRx 0xFFFFFF;;
  number ← SUBGRF_ReadRegisters RANDOM_NUMBER_GENERATORBASEADDR 4;
  SUBGRF_SetStandby STDBY_RC;;
  SUBGRF_WriteRegister REG_ANA_LNA regAnaLna;;
  SUBGRF_WriteRegister REG_ANA_MIXER regAnaMixer;;
  mret (be_val (rev number)).

(** ** Reception and interrupt parameters *)

Definition SUBGRF_SetStopRxTimerOnPreambleDetect (enable : bool) : M Sys unit :=
  SUBGRF_WriteCommand RADIO_SET_STOPRXTIMERONPREAMBLE [b2z enable].

(** [while( mant > 31 ) { mant >>= 2; exp++; }]: three rounds empty a byte. *)
Fixpoint symb_loop (fuel : nat) (mant exp : Z) : option (Z * Z) :=
  match fuel with
  | O => None
  | S fuel => if 31 <? mant then symb_loop fuel (Z.shiftr mant 2) (u8 (exp + 1))
              else Some (mant, exp)
  end.

Definition SUBGRF_SetLoRaSymbNumTimeout (symbNum : Z) : M Sys unit :=
  SUBGRF_WriteCommand RADIO_SET_LORASYMBTIMEOUT [symbNum];;
  if 64 <=? symbNum then
    match symb_loop 4 (Z.shiftr symbNum 1) 0 with
    | Some (mant, exp) =>
        let reg := u8 (exp + Z.shiftl mant 3) in
        SUBGRF_WriteRegister REG_LR_SYNCH_TIMEOUT reg
    | None => spin
    end
  else skip.

Definition SUBGRF_SetRxTxFallbackMode (fallbackMode : Z) : M Sys unit :=
  SUBGRF_WriteCommand RADIO_SET_TXFALLBACKMODE [fallbackMode].

Definition SUBGRF_SetDioIrqParams (irqMask dio1Mask dio2Mask dio3Mask : Z) : M Sys unit :=
  SUBGRF_WriteCommand RADIO_CFG_DIOIRQ
    [byte_at 8 irqMask; byte_at 0 irqMask; byte_at 8 dio1Mask; byte_at 0 dio1Mask;
     byte_at 8 dio2Mask; byte_at 0 dio2Mask; byte_at 8 dio3Mask; byte_at 0 dio3Mask].

Definition SUBGRF_GetIrqStatus : M Sys Z :=
  irqStatus ← SUBGRF_ReadCommand RADIO_GET_IRQSTATUS 2;
  mret (u16 (Z.lor (Z.shiftl (nth_byte irqStatus 0) 8) (nth_byte irqStatus 1))).

Definition SUBGRF_ClearIrqStatus (irq : Z) : M Sys unit :=
  SUBGRF_WriteCommand RADIO_CLR_IRQSTATUS [byte_at 8 irq; byte_at 0 irq].

(** ** Frequency, packet type, power *)

(** The macro [SX_FREQ_TO_CHANNEL] of radio_driver.h. *)
Definition SX_FREQ_TO_CHANNEL (freq : Z) : Z := u32 (Z.shiftl freq 25 mod 2 ^ 64 / XTAL_FREQ).

Definition SUBGRF_SetRfFrequency (frequency : Z) : M Sys unit :=
  calibrated ← gets ImageCalibrated;
  when (negb calibrated)
    (SUBGRF_CalibrateImage frequency;;
     update (λ s, s <| ImageCalibrated := true |>));;
  let chan := SX_FREQ_TO_CHANNEL frequency in
  SUBGRF_WriteCommand RADIO_SET_RFFREQUENCY
    [byte_at 24 chan; byte_at 16 chan; byte_at 8 chan; byte_at 0 chan].

Definition SUBGRF_SetPacketType (packetType : RadioPacketTypes_t) : M Sys unit :=
  update (λ s, s <| PacketType := packetType |>);;
  when (bool_decide (packetType = PACKET_TYPE_GFSK)) (SUBGRF_WriteRegister REG_BIT_SYNC 0x00);;
  SUBGRF_WriteCommand RADIO_SET_PACKETTYPE [RadioPacketTypes_t_code packetType].

Definition SUBGRF_SetPaConfig (paDutyCycle hpMax deviceSel paLut : Z) : M Sys unit :=
  SUBGRF_WriteCommand RADIO_SET_PACONFIG [paDutyCycle; hpMax; deviceSel; paLut].

(** The power arithmetic of [SUBGRF_SetTxParams] for each amplifier: the PA
    configuration written and the power field, from the requested power. *)
Definition tx_power_lp (max_power power : Z) : (Z * Z * Z * Z) * Z :=
  let power := if max_power <? power then i8 max_power else power in
  let cfg_pow :=
    if max_power =? 14 then ((0x04, 0x00, 0x01, 0x01), i8 (0x0E - (max_power - power)))
    else if max_power =? 10 then ((0x01, 0x00, 0x01, 0x01), i8 (0x0D - (max_power - power)))
    else ((0x07, 0x00, 0x01, 0x01), i8 (0x0E - (max_power - power))) in
  let power := snd cfg_pow in
  (fst cfg_pow, if power <? -17 then -17 else power).

Definition tx_power_hp (max_power power : Z) : (Z * Z * Z * Z) * Z :=
  let power := if max_power <? power then i8 max_power else power in
  let cfg_pow :=
    if max_power =? 20 then ((0x03, 0x05, 0x00, 0x01), i8 (0x16 - (max_power - power)))
    else if max_power =? 17 then ((0x02, 0x03, 0x00, 0x01), i8 (0x16 - (max_power - power)))
    else if max_power =? 14 then ((0x02, 0x02, 0x00, 0x01), i8 (0x0E - (max_power - power)))
    else ((0x04, 0x07, 0x00, 0x01), i8 (0x16 - (max_power - power))) in
  let power := snd cfg_pow in
  (fst cfg_pow, if power <? -9 then -9 else power).

Definition SetPaConfig4 (c : Z * Z * Z * Z) : M Sys unit :=
  let '(paDutyCycle, hpMax, deviceSel, paLut) := c in
  SUBGRF_SetPaConfig paDutyCycle hpMax deviceSel paLut.

Definition SUBGRF_SetTxParams (paSelect power rampTime : Z) : M Sys unit :=
  power ←
    (if paSelect =? RFO_LP then
       let '(cfg, power) := tx_power_lp (RBI_GetRFOMaxPowerConfig RBI_RFO_LP_MAXPOWER) power in
       SetPaConfig4 cfg;;
       SUBGRF_WriteRegister REG_OCP 0x18;;
       mret power
     else
       clamp ← SUBGRF_ReadRegister REG_TX_CLAMP;
       SUBGRF_WriteRegister REG_TX_CLAMP (u8 (Z.lor clamp (Z.shiftl 0x0F 1)));;
       let '(cfg, power) := tx_power_hp (RBI_GetRFOMaxPowerConfig RBI_RFO_HP_MAXPOWER) power in
       SetPaConfig4 cfg;;
       SUBGRF_WriteRegister REG_OCP 0x38;;
       mret power);
  SUBGRF_WriteCommand RADIO_SET_TXPARAMS [u8 power; u8 rampTime].

Definition SUBGRF_SetRfTxPower (power : Z) : M Sys Z :=
  let paSelect :=
    match RBI_GetTxConfig with
    | RBI_CONF_RFO_LP_HP => if 15 <? power then RFO_HP else RFO_LP
    | RBI_CONF_RFO_LP => RFO_LP
    | RBI_CONF_RFO_HP => RFO_HP
    | RBI_CONF_other => RFO_LP
    end in
  SUBGRF_SetTxParams paSelect power RADIO_RAMP_40_US;;
  mret paSelect.

Definition SUBGRF_SetSwitch (paSelect : Z) (rxtx : RFState_t) : M Sys unit :=
  state ←
    match rxtx with
    | RFSWITCH_TX =>
        when (paSelect =? RFO_LP) (Radio_SMPS_Set SMPS_DRIVE_SETTING_MAX);;
        mret (if paSelect =? RFO_HP then RBI_SWITCH_RFO_HP
              else if paSelect =? RFO_LP then RBI_SWITCH_RFO_LP
              else RBI_SWITCH_RX)
    | RFSWITCH_RX => mret RBI_SWITCH_RX
    end;
  emit (EvConfigRFSwitch state).

Definition SUBGRF_GetRadioWakeUpTime : Z := RF_WAKEUP_TIME.

(** ** Modulation and packet parameters *)

(** "silently update radio packet type" *)
Definition sync_packet_type (t : RadioPacketTypes_t) : M Sys unit :=
  ptype ← gets PacketType;
  when (negb (bool_decide (ptype = t))) (SUBGRF_SetPacketType t).

(** [( 32 * XTAL_FREQ ) / BitRate], a division by zero when [BitRate] is 0. *)
Definition bitrate_field (BitRate : Z) : M Sys Z :=
  if BitRate =? 0 then undefined "division by a zero BitRate"
  else mret (u32 (32 * XTAL_FREQ / BitRate)).

Definition SUBGRF_SetModulationParams (p : ModulationParams_t) : M Sys unit :=
  sync_packet_type (mp_PacketType p);;
  match mp_PacketType p with
  | PACKET_TYPE_GFSK =>
      tempVal ← bitrate_field (gm_BitRate (mp_Gfsk p));
      let fdev := SX_FREQ_TO_CHANNEL (gm_Fdev (mp_Gfsk p)) in
      SUBGRF_WriteCommand RADIO_SET_MODULATIONPARAMS
        [byte_at 16 tempVal; byte_at 8 tempVal; byte_at 0 tempVal;
         u8 (gm_ModulationShaping (mp_Gfsk p)); u8 (gm_Bandwidth (mp_Gfsk p));
         byte_at 16 fdev; byte_at 8 fdev; byte_at 0 fdev]
  | PACKET_TYPE_BPSK =>
      tempVal ← bitrate_field (bm_BitRate (mp_Bpsk p));
      SUBGRF_WriteCommand RADIO_SET_MODULATIONPARAMS
        [byte_at 16 tempVal; byte_at 8 tempVal; byte_at 0 tempVal;
         u8 (bm_ModulationShaping (mp_Bpsk p))]
  | PACKET_TYPE_LORA =>
      SUBGRF_WriteCommand RADIO_SET_MODULATIONPARAMS
        [u8 (lm_SpreadingFactor (mp_LoRa p)); u8 (lm_Bandwidth (mp_LoRa p));
         u8 (lm_CodingRate (mp_LoRa p)); u8 (lm_LowDatarateOptimize (mp_LoRa p))]
  | PACKET_TYPE_GMSK =>
      tempVal ← bitrate_field (gm_BitRate (mp_Gfsk p));
      SUBGRF_WriteCommand RADIO_SET_MODULATIONPARAMS
        [byte_at 16 tempVal; byte_at 8 tempVal; byte_at 0 tempVal;
         u8 (gm_ModulationShaping (mp_Gfsk p)); u8 (gm_Bandwidth (mp_Gfsk p))]
  | PACKET_TYPE_NONE => skip
  end.

Definition SUBGRF_SetPacketParams (p : PacketParams_t) : M Sys unit :=
  sync_packet_type (pp_PacketType p);;
  match pp_PacketType p with
  | PACKET_TYPE_GMSK | PACKET_TYPE_GFSK =>
      let g := pp_Gfsk p in
      crcVal ←
        (if gp_CrcLength g =? RADIO_CRC_2_BYTES_IBM then
           SUBGRF_SetCrcSeed CRC_IBM_SEED;;
           SUBGRF_SetCrcPolynomial CRC_POLYNOMIAL_IBM;;
           mret RADIO_CRC_2_BYTES
         else if gp_CrcLength g =? RADIO_CRC_2_BYTES_CCIT then
           SUBGRF_SetCrcSeed CRC_CCITT_SEED;;
           SUBGRF_SetCrcPolynomial CRC_POLYNOMIAL_CCITT;;
           mret RADIO_CRC_2_BYTES_INV
         else mret (u8 (gp_CrcLength g)));
      SUBGRF_WriteCommand RADIO_SET_PACKETPARAMS
        [byte_at 8 (gp_PreambleLength g); u8 (gp_PreambleLength g);
         u8 (gp_PreambleMinDetect g); u8 (gp_SyncWordLength g); u8 (gp_AddrComp g);
         u8 (gp_HeaderType g); u8 (gp_PayloadLength g); crcVal; u8 (gp_DcFree g)]
  | PACKET_TYPE_BPSK =>
      SUBGRF_WriteCommand RADIO_SET_PACKETPARAMS [u8 (bp_PayloadLength (pp_Bpsk p))]
  | PACKET_TYPE_LORA =>
      let l := pp_LoRa p in
      update (λ s, s <| LoRaHeaderType := lp_HeaderType l |>);;
      SUBGRF_WriteCommand RADIO_SET_PACKETPARAMS
        [byte_at 8 (lp_PreambleLength l); u8 (lp_PreambleLength l); u8 (lp_HeaderType l);
         u8 (lp_PayloadLength l); u8 (lp_CrcMode l); u8 (lp_InvertIQ l)]
  | PACKET_TYPE_NONE => skip
  end.

Definition SUBGRF_SetCadParams (cadSymbolNum cadDetPeak cadDetMin cadExitMode cadTimeout : Z)
  : M Sys unit :=
  SUBGRF_WriteCommand RADIO_SET_CADPARAMS
    [u8 cadSymbolNum; cadDetPeak; cadDetMin; u8 cadExitMode;
     byte_at 16 cadTimeout; byte_at 8 cadTimeout; byte_at 0 cadTimeout];;
  update (λ s, s <| OperatingMode := MODE_CAD |>).

Definition SUBGRF_SetBufferBaseAddress (txBaseAddress rxBaseAddress : Z) : M Sys unit :=
  SUBGRF_WriteCommand RADIO_SET_BUFFERBASEADDRESS [txBaseAddress; rxBaseAddress].

(** ** Status *)

Definition SUBGRF_GetStatus : M Sys RadioPhyStatus_t :=
  stat ← SUBGRF_ReadCommand RADIO_GET_STATUS 1;
  let stat := nth_byte stat 0 in
  mret (mkRadioPhyStatus (Z.shiftr (Z.land stat (Z.shiftl 0x07 1)) 1)
                         (Z.shiftr (Z.land stat (Z.shiftl 0x07 4)) 4)).

Definition SUBGRF_GetRssiInst : M Sys Z :=
  buf ← SUBGRF_ReadCommand RADIO_GET_RSSIINST 1;
  mret (i8 (Z.shiftr (- nth_byte buf 0) 1)).

(** [RADIO_MEMSET8( pktStatus, 0, ... )], then the packet type. *)
Definition zero_status : PacketStatus_t :=
  mkPacketStatus PACKET_TYPE_NONE (mkGfskStatus 0 0 0 0) (mkLoRaStatus 0 0 0 0).

(** The result of writing through [pktStatus], whose value was [old]. *)
Definition SUBGRF_GetPacketStatus (old : PacketStatus_t) : M Sys PacketStatus_t :=
  status ← SUBGRF_ReadCommand RADIO_GET_PACKETSTATUS 3;
  ptype ← SUBGRF_GetPacketType;
  ferr ← gets FrequencyError;
  let st i := nth_byte status i in
  match ptype with
  | PACKET_TYPE_GFSK =>
      mret (mkPacketStatus ptype
              (mkGfskStatus (st 0%nat) (i8 (Z.shiftr (- st 2%nat) 1))
                            (i8 (Z.shiftr (- st 1%nat) 1)) 0)
              (ps_LoRa old))
  | PACKET_TYPE_LORA =>
      mret (mkPacketStatus ptype (ps_Gfsk old)
              (mkLoRaStatus (i8 (Z.shiftr (- st 0%nat) 1))
                            (i8 (Z.shiftr (i8 (st 1%nat) + 2) 2))
                            (i8 (Z.shiftr (- st 2%nat) 1)) ferr))
  | _ => mret zero_status
  end.

Definition SUBGRF_GetDeviceErrors : M Sys Z := mret 0.

Definition SUBGRF_ClearDeviceErrors : M Sys unit :=
  SUBGRF_WriteCommand RADIO_CLR_ERROR [0x00; 0x00].

Definition SUBGRF_GetFskBandwidthRegValue (bandwidth : Z) : M Sys Z :=
  exit_with "SUBGRF_GetFskBandwidthRegValue(): lora-simulator does not support FSK".

Definition SUBGRF_GetCFO (bitRate : Z) : M Sys Z :=
  exit_with "SUBGRF_GetCFO(): lora-simulator does not support FSK".
End Driver.
