(* ===== verification/DriverProofs.v ===== *)
(** * radio_driver.c: properties of the commands. *)

From S2P Require Import Prelude Effects RadioTypes State RadioDriver.

(** ** Outcomes of the primitive operations *)

Section Primitives.
Context {env : Env}.

Lemma emit_eq e s : emit e s = Ret tt (s <| trace := trace s ++ [e] |>).
Proof. reflexivity. Qed.

Lemma read_register_eq addr s :
  SUBGRF_ReadRegister addr s =
    Ret (u8 (register_answer (trace s) addr))
        (s <| trace := trace s ++ [EvReadRegisters addr 1] |>).
Proof.
  unfold SUBGRF_ReadRegister, HAL_SUBGHZ_ReadRegisters.
  erewrite bind_Ret by reflexivity. unfold nth_byte. cbn. now rewrite Z.add_0_r.
Qed.

(** [does m s es]: from [s], [m] returns and its only effects are the
    interactions [es]. *)
Definition does {A} (m : M Sys A) (s : Sys) (a : A) (es : list HalEvent) : Prop :=
  m s = Ret a (s <| trace := trace s ++ es |>).

Lemma does_bind {A B} (m : M Sys A) (f : A → M Sys B) s a es b es' :
  does m s a es → does (f a) (s <| trace := trace s ++ es |>) b es' →
  does (m ≫= f) s b (es ++ es').
Proof.
  unfold does. intros H H'. erewrite bind_Ret by exact H. rewrite H'. f_equal.
  sys_simpl. now rewrite app_assoc.
Qed.

Lemma does_emit e s : does (emit e) s tt [e].
Proof. reflexivity. Qed.

Lemma does_ret {A} (a : A) s : does (mret a) s a [].
Proof. unfold does. sys_simpl. rewrite app_nil_r. by destruct s. Qed.
End Primitives.

(** ** Multi-byte fields *)

(** A command with an argument of three bytes, most significant first. *)
Definition set24 (c : SUBGHZ_RadioSetCmd_t) (v : Z) : HalEvent :=
  EvSetCmd c [byte_at 16 v; byte_at 8 v; byte_at 0 v].

Lemma set24_decode v : be_val [byte_at 16 v; byte_at 8 v; byte_at 0 v] = v mod 2 ^ 24.
Proof. apply be_val_24. Qed.

(** The frequency that a channel number stands for is the multiple of the
    frequency step [XTAL_FREQ / 2 ^ 25] below the requested one. *)
Lemma channel_floor f :
  0 <= f < 4096000000 →
  0 <= SX_FREQ_TO_CHANNEL f < 2 ^ 32 ∧
  SX_FREQ_TO_CHANNEL f * XTAL_FREQ <= f * 2 ^ 25 < (SX_FREQ_TO_CHANNEL f + 1) * XTAL_FREQ.
Proof.
  intros Hf. unfold SX_FREQ_TO_CHANNEL. rewrite Z.shiftl_mul_pow2 by lia.
  rewrite (Z.mod_small (f * 2 ^ 25)) by lia. change XTAL_FREQ with 32000000.
  rewrite u32_small by (Z.to_euclidean_division_equations; lia).
  split; Z.to_euclidean_division_equations; lia.
Qed.

(** ** The amplifier settings *)

(** The settings of the amplifiers: the bytes of the PA configuration of an
    amplifier ([hp]: the high power one) for its maximal output power on the board,
    and the power to ask it for at this output. *)
Definition pa_settings (hp : bool) (max_power : Z) : list Z * Z :=
  match hp, max_power with
  | false, 14 => ([4; 0; 1; 1], 14)
  | false, 10 => ([1; 0; 1; 1], 13)
  | false, _ => ([7; 0; 1; 1], 14)
  | true, 20 => ([3; 5; 0; 1], 22)
  | true, 17 => ([2; 3; 0; 1], 22)
  | true, 14 => ([2; 2; 0; 1], 14)
  | true, _ => ([4; 7; 0; 1], 22)
  end.

(** The power to ask it for: as far below this as [power] is below the maximum, but
    not below what the amplifier can do. *)
Definition pa_power (hp : bool) (max_power power : Z) : Z :=
  Z.max (if hp then -9 else -17) (snd (pa_settings hp max_power) - Z.max 0 (max_power - power)).

Lemma tx_power_lp_eq max_power power :
  0 <= max_power <= 22 → -110 <= power < 128 →
  let '((duty, hp, device, lut), pw) := tx_power_lp max_power power in
  [duty; hp; device; lut] = fst (pa_settings false max_power) ∧ pw = pa_power false max_power power.
Proof.
  intros Hm Hp. unfold tx_power_lp, pa_power. cbv zeta. rewrite (i8_small max_power) by lia.
  assert (E : ∀ k p, 0xD <= k <= 0xE → -110 <= p <= max_power → i8 (k - (max_power - p)) = k - (max_power - p))
    by (intros; apply i8_small; lia).
  destruct (Z.eqb_spec max_power 14) as [->|]; [|destruct (Z.eqb_spec max_power 10) as [->|]].
  3: assert (pa_settings false max_power = ([7; 0; 1; 1], 14)) as ->
    by (destruct max_power as [|p|p]; [done| |done]; repeat (destruct p as [p|p|]; try done)).
  all: cbn [fst snd pa_settings]; (split; [reflexivity|]); rewrite E by (repeat case_match; lia);
    repeat case_match; lia.
Qed.

Lemma tx_power_hp_eq max_power power :
  0 <= max_power <= 22 → -110 <= power < 128 →
  let '((duty, hp, device, lut), pw) := tx_power_hp max_power power in
  [duty; hp; device; lut] = fst (pa_settings true max_power) ∧ pw = pa_power true max_power power.
Proof.
  intros Hm Hp. unfold tx_power_hp, pa_power. cbv zeta. rewrite (i8_small max_power) by lia.
  assert (E : ∀ k p, 0xE <= k <= 0x16 → -110 <= p <= max_power → i8 (k - (max_power - p)) = k - (max_power - p))
    by (intros; apply i8_small; lia).
  destruct (Z.eqb_spec max_power 20) as [->|]; [|destruct (Z.eqb_spec max_power 17) as [->|];
    [|destruct (Z.eqb_spec max_power 14) as [->|]]].
  4: assert (pa_settings true max_power = ([4; 7; 0; 1], 22)) as ->
    by (destruct max_power as [|p|p]; [done| |done]; repeat (destruct p as [p|p|]; try done)).
  all: cbn [fst snd pa_settings]; (split; [reflexivity|]); rewrite E by (repeat case_match; lia);
    repeat case_match; lia.
Qed.

Lemma pa_power_range max_power power :
  -9 <= pa_power true max_power power <= 22 ∧ -17 <= pa_power false max_power power <= 14.
Proof.
  assert (snd (pa_settings true max_power) <= 22 ∧ snd (pa_settings false max_power) <= 14) as [].
  { unfold pa_settings. repeat case_match; cbn; lia. }
  unfold pa_power. lia.
Qed.

(** ** The symbol timeout *)

Lemma symb_loop_decodes mant :
  32 <= mant < 128 →
  ∃ m e, symb_loop 4 mant 0 = Some (m, e) ∧ 8 <= m <= 31 ∧ e = 1 ∧
    m * 4 <= mant < (m + 1) * 4.
Proof.
  intros H. exists (mant / 4), 1.
  assert (8 <= mant / 4 <= 31) by (Z.to_euclidean_division_equations; lia).
  cbn [symb_loop]. rewrite (proj2 (Z.ltb_lt 31 mant)) by lia.
  rewrite Z.shiftr_div_pow2 by lia. change (2 ^ 2) with 4.
  rewrite (proj2 (Z.ltb_ge 31 (mant / 4))) by lia.
  split; [reflexivity|]. split; [done|]. split; [done|]. Z.to_euclidean_division_equations; lia.
Qed.

(** ** Properties *)

Section Commands.
Context {env : Env}.

Lemma does_read addr s :
  does (SUBGRF_ReadRegister addr) s (u8 (register_answer (trace s) addr)) [EvReadRegisters addr 1].
Proof. apply read_register_eq. Qed.

Lemma does_skip s : does skip s tt [].
Proof. unfold does, skip. rewrite app_nil_r. by destruct s. Qed.

Lemma does_when b m s es : does m s tt es → does (when b m) s tt (if b then es else []).
Proof. intros H. destruct b; [exact H | apply does_skip]. Qed.

(** The interactions that set up the power amplifier. *)
Definition power_event (e : HalEvent) : Prop :=
  match e with
  | EvSetCmd (RADIO_SET_PACONFIG | RADIO_SET_TXPARAMS) _
  | EvWriteRegisters _ _ | EvReadRegisters _ _ => True
  | _ => False
  end.

Lemma tx_params_does pa power ramp s :
  ∃ es, does (SUBGRF_SetTxParams pa power ramp) s tt es ∧ Forall power_event es.
Proof.
  unfold SUBGRF_SetTxParams. destruct (pa =? RFO_LP).
  - destruct (tx_power_lp _ power) as [[[[a b] c] d] p]. eexists. split.
    { refine (does_bind _ _ _ p [_; _] tt [_] _ (does_emit _ _)).
      refine (does_bind _ _ _ tt [_] p [_] (does_emit _ _) _).
      refine (does_bind _ _ _ tt [_] p [] (does_emit _ _) (does_ret _ _)). }
    repeat constructor.
  - destruct (tx_power_hp _ power) as [[[[a b] c] d] p]. eexists. split.
    { refine (does_bind _ _ _ p [_; _; _; _] tt [_] _ (does_emit _ _)).
      refine (does_bind _ _ _ _ [_] p [_; _; _] (does_read _ _) _).
      refine (does_bind _ _ _ tt [_] p [_; _] (does_emit _ _) _).
      refine (does_bind _ _ _ tt [_] p [_] (does_emit _ _) _).
      refine (does_bind _ _ _ tt [_] p [] (does_emit _ _) (does_ret _ _)). }
    repeat constructor.
Qed.

Lemma SetRfTxPower_does power s :
  ∃ pa es, does (SUBGRF_SetRfTxPower power) s pa es ∧ Forall power_event es.
Proof.
  unfold SUBGRF_SetRfTxPower.
  match goal with |- context [SUBGRF_SetTxParams ?pa power ?r] =>
    destruct (tx_params_does pa power r s) as (es & Hes & Hev); exists pa, (es ++ []) end.
  split; [refine (does_bind _ _ s tt es _ [] Hes _); apply does_ret | by rewrite app_nil_r].
Qed.

Lemma set_switch_does pa st s : ∃ sw, does (SUBGRF_SetSwitch pa st) s tt [EvConfigRFSwitch sw].
Proof.
  destruct st.
  - exists RBI_SWITCH_RX. exact (does_bind _ _ s RBI_SWITCH_RX [] tt [_] (does_ret _ _) (does_emit _ _)).
  - unfold SUBGRF_SetSwitch, Radio_SMPS_Set.
    set (sw := if pa =? RFO_HP then _ else _). exists sw.
    refine (does_bind _ _ s sw [] tt [_] _ (does_emit (EvConfigRFSwitch sw) _)).
    refine (does_bind _ _ s tt [] sw [] _ (does_ret _ _)).
    destruct (pa =? RFO_LP); apply does_skip.
Qed.

(** The time-outs of SetTx, SetRx, SetRxBoosted and SetRxDutyCycle reach the
    radio as 24 bit numbers, most significant byte first; each command is the
    last interaction and leaves the corresponding mode in [OperatingMode]. *)
Theorem timeout_commands (timeout sleepTime : Z) (s : Sys) :
  let at_ mode := s <| OperatingMode := mode |> in
  let b v := [byte_at 16 v; byte_at 8 v; byte_at 0 v] in
  SUBGRF_SetTx timeout s =
    Ret tt (at_ MODE_TX <| trace := trace s ++ [EvSetCmd RADIO_SET_TX (b timeout)] |>) ∧
  SUBGRF_SetRx timeout s =
    Ret tt (at_ MODE_RX <| trace := trace s ++ [EvSetCmd RADIO_SET_RX (b timeout)] |>) ∧
  SUBGRF_SetRxBoosted timeout s =
    Ret tt (at_ MODE_RX <| trace := trace s ++ [EvWriteRegisters REG_RX_GAIN [0x97];
                                                EvSetCmd RADIO_SET_RX (b timeout)] |>) ∧
  SUBGRF_SetRxDutyCycle timeout sleepTime s =
    Ret tt (at_ MODE_RX_DC <| trace := trace s ++
              [EvSetCmd RADIO_SET_RXDUTYCYCLE (b timeout ++ b sleepTime)] |>) ∧
  be_val (b timeout) = timeout mod 2 ^ 24 ∧ be_val (b sleepTime) = sleepTime mod 2 ^ 24.
Proof.
  cbv zeta. split; [reflexivity|]. split; [reflexivity|].
  split; [|split; [reflexivity | split; apply set24_decode]].
  unfold SUBGRF_SetRxBoosted. do 2 (erewrite bind_Ret by reflexivity).
  unfold SUBGRF_WriteCommand, HAL_SUBGHZ_ExecSetCmd. rewrite emit_eq. sys_simpl.
  now rewrite <- app_assoc.
Qed.

(** C32: [SUBGRF_SetRfFrequency] programs the channel number
    [floor( f * 2 ^ 25 / 32 MHz )] in four bytes, and calibrates the image for
    the band the first time only. *)
Theorem set_rf_frequency (f : Z) (s : Sys) :
  0 <= f < 4096000000 →
  ∃ band chan s',
    SUBGRF_SetRfFrequency f s = Ret tt s' ∧ ImageCalibrated s' = true ∧
    OperatingMode s' = OperatingMode s ∧
    trace s' = trace s ++ (if ImageCalibrated s then [] else [EvSetCmd RADIO_CALIBRATEIMAGE band])
                 ++ [EvSetCmd RADIO_SET_RFFREQUENCY chan] ∧
    (∀ s2, ImageCalibrated s2 = true → SUBGRF_SetRfFrequency f s2 =
       Ret tt (s2 <| trace := trace s2 ++ [EvSetCmd RADIO_SET_RFFREQUENCY chan] |>)) ∧
    be_val chan * XTAL_FREQ <= f * 2 ^ 25 < (be_val chan + 1) * XTAL_FREQ.
Proof.
  intros Hf. destruct (channel_floor f Hf) as [Hc Hfloor].
  set (chan := SX_FREQ_TO_CHANNEL f) in *.
  exists (if 900000000 <? f then [0xE1; 0xE9] else if 850000000 <? f then [0xD7; 0xDB]
          else if 770000000 <? f then [0xC1; 0xC5] else if 460000000 <? f then [0x75; 0x81]
          else if 425000000 <? f then [0x6B; 0x6F] else [0x29; 0x2B]),
    [byte_at 24 chan; byte_at 16 chan; byte_at 8 chan; byte_at 0 chan].
  rewrite be_val_32, Z.mod_small by lia.
  assert (Hcal : ∀ s2, ImageCalibrated s2 = true → SUBGRF_SetRfFrequency f s2 =
    Ret tt (s2 <| trace := trace s2 ++ [EvSetCmd RADIO_SET_RFFREQUENCY
              [byte_at 24 chan; byte_at 16 chan; byte_at 8 chan; byte_at 0 chan]] |>)).
  { intros s2 H2. unfold SUBGRF_SetRfFrequency. erewrite bind_Ret by reflexivity.
    rewrite H2. reflexivity. }
  destruct (ImageCalibrated s) eqn:Hs.
  - eexists. split; [apply Hcal, Hs|]. sys_simpl. auto.
  - eexists. split.
    { unfold SUBGRF_SetRfFrequency. erewrite bind_Ret by reflexivity. rewrite Hs. reflexivity. }
    sys_simpl. rewrite <- app_assoc. auto.
Qed.

(** What the board support package answers: power levels of the STM32WL. *)
Definition board_powers : Prop := ∀ m, 0 <= RBI_GetRFOMaxPowerConfig m <= 22.

Definition pa_maximum (hp : bool) : Z :=
  RBI_GetRFOMaxPowerConfig (if hp then RBI_RFO_HP_MAXPOWER else RBI_RFO_LP_MAXPOWER).

(** What an amplifier is sent for [power], after the interactions [tr]. *)
Definition amplifier_setup (hp : bool) (power rampTime : Z) (tr : list HalEvent) : list HalEvent :=
  let clamp := u8 (register_answer tr REG_TX_CLAMP) in
  (if hp then [EvReadRegisters REG_TX_CLAMP 1;
               EvWriteRegisters REG_TX_CLAMP [u8 (Z.lor clamp 0x1E)]] else []) ++
  [EvSetCmd RADIO_SET_PACONFIG (fst (pa_settings hp (pa_maximum hp)));
   EvWriteRegisters REG_OCP [if hp then 0x38 else 0x18];
   EvSetCmd RADIO_SET_TXPARAMS [u8 (pa_power hp (pa_maximum hp) power); u8 rampTime]].

(** The amplifier of the board for [power]. *)
Definition high_power (power : Z) : bool :=
  match RBI_GetTxConfig with
  | RBI_CONF_RFO_LP_HP => 15 <? power
  | RBI_CONF_RFO_HP => true
  | RBI_CONF_RFO_LP | RBI_CONF_other => false
  end.

Section Amplifier.
Context (Hboard : board_powers) (power : Z) (Hpower : -110 <= power < 128).

Lemma SetTxParams_does paSelect rampTime s :
  does (SUBGRF_SetTxParams paSelect power rampTime) s tt
    (amplifier_setup (negb (paSelect =? RFO_LP)) power rampTime (trace s)).
Proof.
  unfold SUBGRF_SetTxParams, amplifier_setup, pa_maximum. destruct (paSelect =? RFO_LP); cbn [negb app].
  - pose proof (tx_power_lp_eq _ power (Hboard RBI_RFO_LP_MAXPOWER) Hpower) as Hpa.
    destruct (tx_power_lp _ power) as [[[[duty hp] dev] lut] pw]. destruct Hpa as [<- <-].
    refine (does_bind _ _ _ pw [_; _] tt [_] _ (does_emit _ _)).
    refine (does_bind _ _ _ tt [_] pw [_] (does_emit _ _) _).
    refine (does_bind _ _ _ tt [_] pw [] (does_emit _ _) (does_ret _ _)).
  - pose proof (tx_power_hp_eq _ power (Hboard RBI_RFO_HP_MAXPOWER) Hpower) as Hpa.
    destruct (tx_power_hp _ power) as [[[[duty hp] dev] lut] pw]. destruct Hpa as [<- <-].
    refine (does_bind _ _ _ pw [_; _; _; _] tt [_] _ (does_emit _ _)).
    refine (does_bind _ _ _ _ [_] pw [_; _; _] (does_read _ _) _).
    refine (does_bind _ _ _ tt [_] pw [_; _] (does_emit _ _) _).
    refine (does_bind _ _ _ tt [_] pw [_] (does_emit _ _) _).
    refine (does_bind _ _ _ tt [_] pw [] (does_emit _ _) (does_ret _ _)).
Qed.

Lemma SetRfTxPower_setup s :
  does (SUBGRF_SetRfTxPower power) s (if high_power power then RFO_HP else RFO_LP)
    (amplifier_setup (high_power power) power RADIO_RAMP_40_US (trace s)).
Proof.
  unfold SUBGRF_SetRfTxPower, high_power. rewrite <- (app_nil_r (amplifier_setup _ _ _ _)).
  destruct RBI_GetTxConfig; [destruct (15 <? power)| | |];
    (refine (does_bind _ _ s tt _ _ [] (SetTxParams_does _ _ s) _); apply does_ret).
Qed.
End Amplifier.

(** C12: [SUBGRF_SetTxParams], for every amplifier, ramp time and power from -110 dBm
    on, sends the PA configuration that [pa_settings] has for the amplifier and the
    maximal power of the board, the over-current protection, for the high power
    amplifier the clamp of the erratum before, and a power as far below the full one
    as was asked for.  Whatever was asked for, the power is in the range of the
    amplifier: -17 to 14 dBm for the low power one and -9 to 22 dBm for the high
    power one. *)
Theorem tx_params_in_range (paSelect power rampTime : Z) (s : Sys) :
  board_powers → -110 <= power < 128 →
  let hp := negb (paSelect =? RFO_LP) in
  let clamp := u8 (register_answer (trace s) REG_TX_CLAMP) in
  ∃ pw, does (SUBGRF_SetTxParams paSelect power rampTime) s tt
      ((if hp then [EvReadRegisters REG_TX_CLAMP 1;
                    EvWriteRegisters REG_TX_CLAMP [u8 (Z.lor clamp 0x1E)]] else []) ++
       [EvSetCmd RADIO_SET_PACONFIG (fst (pa_settings hp (pa_maximum hp)));
        EvWriteRegisters REG_OCP [if hp then 0x38 else 0x18];
        EvSetCmd RADIO_SET_TXPARAMS [u8 pw; u8 rampTime]]) ∧
    pw = pa_power hp (pa_maximum hp) power ∧
    if hp then -9 <= pw <= 22 else -17 <= pw <= 14.
Proof.
  intros Hb Hp hp clamp. exists (pa_power hp (pa_maximum hp) power).
  split; [by apply SetTxParams_does|]. split; [done|].
  destruct (pa_power_range (pa_maximum hp) power) as [Hhp Hlp]. clearbody hp. by destruct hp.
Qed.

(** C33: the LoRa symbol time-out: the loop that finds the exponent ends within
    its fuel, and for 64 symbols or more the register holds a mantissa of five
    bits and an exponent that stand for a time-out, [mantissa * 2 ^ (2 * exp + 1)],
    less than eight symbols below the one asked for. *)
Theorem symb_num_timeout (symbNum : Z) (s : Sys) :
  0 <= symbNum < 256 →
  ∃ reg, does (SUBGRF_SetLoRaSymbNumTimeout symbNum) s tt
    (EvSetCmd RADIO_SET_LORASYMBTIMEOUT [symbNum] ::
     if 64 <=? symbNum then [EvWriteRegisters REG_LR_SYNCH_TIMEOUT [reg]] else []) ∧
  (64 <= symbNum →
   0 <= reg / 8 < 32 ∧
   let coded := reg / 8 * 2 ^ (2 * (reg mod 8) + 1) in coded <= symbNum < coded + 8).
Proof.
  intros Hs. unfold SUBGRF_SetLoRaSymbNumTimeout. destruct (64 <=? symbNum) eqn:E64.
  - destruct (symb_loop_decodes (Z.shiftr symbNum 1)) as (m & e & Hl & Hm & -> & Hd).
    { rewrite Z.shiftr_div_pow2 by lia. change (2 ^ 1) with 2.
      Z.to_euclidean_division_equations; lia. }
    rewrite Hl. exists (u8 (1 + Z.shiftl m 3)). split.
    { refine (does_bind _ _ _ tt [_] tt [_] (does_emit _ _) (does_emit _ _)). }
    intros _. rewrite Z.shiftr_div_pow2 in Hd by lia. change (2 ^ 1) with 2 in Hd.
    rewrite Z.shiftl_mul_pow2 by lia. change (2 ^ 3) with 8. rewrite u8_small by lia.
    replace ((1 + m * 8) / 8) with m by (Z.to_euclidean_division_equations; lia).
    replace ((1 + m * 8) mod 8) with 1 by (Z.to_euclidean_division_equations; lia).
    change (2 ^ (2 * 1 + 1)) with 8. cbv zeta.
    split; [lia|]. Z.to_euclidean_division_equations; lia.
  - exists 0. split; [|lia]. refine (does_bind _ _ _ tt [_] tt [] (does_emit _ _) (does_skip _)).
Qed.

(** The seed register of the whitening: its lowest bit is written, the others
    are kept. *)
Lemma whitening_msb reg bit :
  0 <= reg < 256 → 0 <= bit < 2 → u8 (Z.lor bit (Z.land reg 0xFE)) = 2 * (reg / 2) + bit.
Proof.
  intros Hr Hb. apply Z.eqb_eq. revert reg Hr.
  assert (bit = 0 ∨ bit = 1) as [->| ->] by lia; apply byte_cases; vm_compute; reflexivity.
Qed.

(** [SUBGRF_SetWhiteningSeed] stores the nine bits of the seed and keeps the
    other seven bits of the register that holds its first bit. *)
Theorem whitening_seed_bits (seed : Z) (s : Sys) :
  PacketType s = PACKET_TYPE_GFSK → 0 <= seed →
  let old := u8 (register_answer (trace s) REG_LR_WHITSEEDBASEADDR_MSB) in
  ∃ msb lsb, does (SUBGRF_SetWhiteningSeed seed) s tt
    [EvReadRegisters REG_LR_WHITSEEDBASEADDR_MSB 1;
     EvWriteRegisters REG_LR_WHITSEEDBASEADDR_MSB [msb];
     EvWriteRegisters REG_LR_WHITSEEDBASEADDR_LSB [lsb]] ∧
    0 <= msb < 256 ∧ 0 <= lsb < 256 ∧
    msb / 2 = old / 2 ∧ 256 * (msb mod 2) + lsb = seed mod 512.
Proof.
  intros Hp Hseed old. pose proof (u8_range (register_answer (trace s) REG_LR_WHITSEEDBASEADDR_MSB)) as Ho.
  fold old in Ho. set (bit := Z.land (Z.shiftr seed 8) 0x01).
  assert (Hbit : bit = (seed / 256) mod 2).
  { unfold bit. change 0x01 with (Z.ones 1). rewrite Z.land_ones, Z.shiftr_div_pow2 by lia. done. }
  exists (2 * (old / 2) + bit), (u8 seed). split.
  - unfold SUBGRF_SetWhiteningSeed.
    refine (does_bind _ _ _ PACKET_TYPE_GFSK [] tt [_; _; _] _ _).
    { unfold does, SUBGRF_GetPacketType, gets. rewrite Hp, app_nil_r. by destruct s. }
    rewrite app_nil_r. replace (s <| trace := trace s |>) with s by (by destruct s).
    refine (does_bind _ _ _ _ [_] tt [_; _] (does_read _ _) _). cbv zeta.
    fold old. fold bit. rewrite whitening_msb by (rewrite ?Hbit; Z.to_euclidean_division_equations; lia).
    refine (does_bind _ _ _ tt [_] tt [_] (does_emit _ _) (does_emit _ _)).
  - rewrite Hbit. unfold u8. change (2 ^ 8) with 256. Z.to_euclidean_division_equations; lia.
Qed.

Lemma clear_bit_0 v : 0 <= v < 256 → u8 (Z.land v (Z.lnot (Z.shiftl 1 0))) = v - v mod 2.
Proof. intros Hv. apply Z.eqb_eq. revert v Hv. apply byte_cases. vm_compute. reflexivity. Qed.
Lemma clear_bit_7 v : 0 <= v < 256 → u8 (Z.land v (Z.lnot (Z.shiftl 1 7))) = v mod 128.
Proof. intros Hv. apply Z.eqb_eq. revert v Hv. apply byte_cases. vm_compute. reflexivity. Qed.

(** [SUBGRF_GetRandom] takes the random number in the receive mode, with
    the low noise amplifier and the mixer changed, and gives both registers the
    values back that it read from them; the radio is left in standby. *)
Theorem get_random_restores (s : Sys) :
  ∃ lna mixer number s',
    let lna' := lna - lna mod 2 in
    let mixer' := mixer mod 128 in
    SUBGRF_GetRandom s = Ret number s' ∧
    lna = u8 (register_answer (trace s) REG_ANA_LNA) ∧
    mixer = u8 (register_answer (trace s ++ [EvReadRegisters REG_ANA_LNA 1;
                                   EvWriteRegisters REG_ANA_LNA [lna']]) REG_ANA_MIXER) ∧
    trace s' = trace s ++
      [EvReadRegisters REG_ANA_LNA 1; EvWriteRegisters REG_ANA_LNA [lna'];
       EvReadRegisters REG_ANA_MIXER 1; EvWriteRegisters REG_ANA_MIXER [mixer'];
       EvSetCmd RADIO_SET_RX [0xFF; 0xFF; 0xFF];
       EvReadRegisters RANDOM_NUMBER_GENERATORBASEADDR 4;
       EvSetCmd RADIO_SET_STANDBY [RadioStandbyModes_t_code STDBY_RC];
       EvWriteRegisters REG_ANA_LNA [lna]; EvWriteRegisters REG_ANA_MIXER [mixer]] ∧
    OperatingMode s' = MODE_STDBY_RC ∧ 0 <= number < 2 ^ 32.
Proof.
  set (lna := u8 (register_answer (trace s) REG_ANA_LNA)).
  set (mixer := u8 (register_answer (trace s ++ [EvReadRegisters REG_ANA_LNA 1;
         EvWriteRegisters REG_ANA_LNA [lna - lna mod 2]]) REG_ANA_MIXER)).
  exists lna, mixer. eexists _, _. cbv zeta. split.
  { unfold SUBGRF_GetRandom.
    erewrite bind_Ret by apply read_register_eq. cbv beta. fold lna.
    rewrite clear_bit_0 by apply u8_range.
    erewrite bind_Ret by reflexivity. erewrite bind_Ret by apply read_register_eq. cbv beta. sys_simpl.
    rewrite <- app_assoc. cbn [app]. fold mixer. rewrite clear_bit_7 by apply u8_range.
    do 3 (erewrite bind_Ret by reflexivity). do 3 (erewrite bind_Ret by reflexivity). reflexivity. }
  split; [reflexivity|]. split; [reflexivity|]. sys_simpl. rewrite <- !app_assoc.
  split; [reflexivity|]. split; [reflexivity|].
  unfold be_val. cbn [fmap list_fmap seq rev app fold_left].
  repeat match goal with |- context [u8 ?x] => let H := fresh in
    pose proof (u8_range x) as H; revert H; generalize (u8 x); intros ? ? end. lia.
Qed.
End Commands.

(** ** Concrete instances *)

Lemma set_rf_frequency_witness :
  ∃ s', SUBGRF_SetRfFrequency 868000000 boot = Ret tt s' ∧ ImageCalibrated s' = true ∧
    trace s' = [EvSetCmd RADIO_CALIBRATEIMAGE [0xD7; 0xDB];
                EvSetCmd RADIO_SET_RFFREQUENCY [0x36; 0x40; 0; 0]].
Proof.
  destruct (set_rf_frequency 868000000 boot) as (band & chan & s' & E & Hc & _).
  { split; reflexivity || discriminate. }
  exists s'. split; [exact E|]. split; [exact Hc|].
  assert (H : final (SUBGRF_SetRfFrequency 868000000 boot) = s') by (rewrite E; reflexivity).
  rewrite <- H. vm_compute. reflexivity.
Defined.

(** 100 dBm from the high power amplifier of a board for 22 dBm. *)
Lemma tx_params_in_range_witness :
  let env := quiet_env [] (λ _, 0) in
  ∃ pw, -9 <= pw <= 22 ∧
    trace (final (SUBGRF_SetTxParams RFO_HP 100 0 boot)) =
      [EvReadRegisters REG_TX_CLAMP 1; EvWriteRegisters REG_TX_CLAMP [0x1E];
       EvSetCmd RADIO_SET_PACONFIG [4; 7; 0; 1]; EvWriteRegisters REG_OCP [0x38];
       EvSetCmd RADIO_SET_TXPARAMS [u8 pw; 0]].
Proof.
  intros env.
  destruct (tx_params_in_range (env := env) RFO_HP 100 0 boot) as (pw & E & _ & Hr).
  { intros []; split; discriminate. }
  { split; reflexivity || discriminate. }
  exists pw. split; [exact Hr|]. rewrite E. reflexivity.
Defined.

Lemma symb_num_timeout_witness :
  ∃ reg, let coded := reg / 8 * 2 ^ (2 * (reg mod 8) + 1) in
    trace (final (SUBGRF_SetLoRaSymbNumTimeout 200 boot)) =
      [EvSetCmd RADIO_SET_LORASYMBTIMEOUT [200]; EvWriteRegisters REG_LR_SYNCH_TIMEOUT [reg]] ∧
    coded <= 200 < coded + 8.
Proof.
  destruct (symb_num_timeout 200 boot) as (reg & E & H).
  { split; reflexivity || discriminate. }
  exists reg. split; [rewrite E; reflexivity|]. destruct H as [_ H]; [discriminate | exact H].
Defined.

Lemma whitening_seed_bits_witness :
  let env := quiet_env [] (λ _, 0xA4) in
  ∃ msb lsb, trace (final (SUBGRF_SetWhiteningSeed 0x1FF boot)) =
    [EvReadRegisters REG_LR_WHITSEEDBASEADDR_MSB 1;
     EvWriteRegisters REG_LR_WHITSEEDBASEADDR_MSB [msb];
     EvWriteRegisters REG_LR_WHITSEEDBASEADDR_LSB [lsb]] ∧ 256 * (msb mod 2) + lsb = 0x1FF.
Proof.
  intros env.
  destruct (whitening_seed_bits (env := env) 0x1FF boot) as (msb & lsb & E & _ & _ & _ & H).
  { reflexivity. }
  { discriminate. }
  exists msb, lsb. split; [rewrite E; reflexivity | exact H].
Defined.
