(* ===== verification/RadioFw.v ===== *)
(** * radio_fw.c: packets handled by the firmware (whitening, CRC, long packets).

    The definitions follow the source function by function.  A build without
    RFW_ENABLE (the default of the simulator) replaces the bodies as the
    preprocessor does.  [ChunkBuffer] and [RxBuffer] are arrays of 255 bytes:
    an access outside them, a call through a null pointer and a division by a
    zero bit rate are undefined behaviour. *)

From S2P Require Import Prelude Effects RadioTypes State Mem RadioDriver.

Definition RADIO_BUF_SIZE : Z := 255.
Definition LONGPACKET_CHUNK_LENGTH_BYTES : Z := 128.

(** ** Whitening: a nine bit LFSR *)

(** [msb = ((state >> 5) & 1) ^ ((state >> 0) & 1); state = (msb << 8) | (state >> 1)] *)
Definition white_step (state : Z) : Z :=
  let msb := Z.lxor (Z.land (Z.shiftr state 5) 0x1) (Z.land (Z.shiftr state 0) 0x1) in
  u16 (Z.lor (Z.shiftl msb 8) (Z.shiftr state 1)).

(** The eight steps after a byte. *)
Definition white_next (state : Z) : Z := Nat.iter 8 white_step state.

Definition white_byte (state b : Z) : Z := u8 (Z.lxor b (Z.land state 0xFF)).

(** The loop of [RFW_WhiteRun] over the payload: the bytes and the new state. *)
Fixpoint white_run (state : Z) (payload : list Z) {struct payload} : list Z * Z :=
  match payload with
  | [] => ([], state)
  | b :: rest =>
      let '(out, state') := white_run (white_next state) rest in
      (white_byte state b :: out, state')
  end.

(** ** CRC *)

(** One round of the loop of [RFW_CrcRun1Byte] on [(Crc, DataByte)]. *)
Definition crc_round (Polynomial : Z) (cd : Z * Z) : Z * Z :=
  let '(Crc, DataByte) := cd in
  let Crc' :=
    if negb (Z.lxor (Z.shiftr (Z.land Crc 0x8000) 8) (Z.land DataByte 0x80) =? 0)
    then u16 (Z.lxor (u16 (Z.shiftl Crc 1)) Polynomial)
    else u16 (Z.shiftl Crc 1) in
  (Crc', u8 (Z.shiftl DataByte 1)).

Definition RFW_CrcRun1Byte (Crc DataByte Polynomial : Z) : Z :=
  fst (Nat.iter 8 (crc_round Polynomial) (Crc, DataByte)).

(** The loop of [RFW_CrcRun] over the payload. *)
Definition crc_run (Polynomial crc : Z) (payload : list Z) : Z :=
  fold_left (λ crc b, RFW_CrcRun1Byte crc b Polynomial) payload crc.

(** [CrcResult[0]], [CrcResult[1]]: the state, complemented unless the type is
    IBM, most significant byte first. *)
Definition crc_result (CrcType crc : Z) : list Z :=
  let crc := if CrcType =? RADIO_FSK_CRC_2_BYTES_IBM then crc else u16 (Z.lnot crc) in
  [u8 (Z.shiftr crc 8); u8 (Z.land crc 0xFF)].

Section Firmware.
Context {cfg : Config} {env : Env}.

Definition upd_rfw (f : RadioFw_t → RadioFw_t) : M Sys unit :=
  update (λ s, s <| RFWPacket := f (RFWPacket s) |>).

(** ** Buffers *)

Definition read_chunk (off n : Z) : M Sys (list Z) :=
  buf ← gets ChunkBuffer;
  defined "read outside ChunkBuffer" (buf_read buf off n).
Definition write_chunk (off : Z) (src : list Z) : M Sys unit :=
  buf ← gets ChunkBuffer;
  buf' ← defined "write outside ChunkBuffer" (buf_write buf off src);
  update (λ s, s <| ChunkBuffer := buf' |>).
Definition write_rx (off : Z) (src : list Z) : M Sys unit :=
  buf ← gets RxBuffer;
  buf' ← defined "write outside RxBuffer" (buf_write buf off src);
  update (λ s, s <| RxBuffer := buf' |>).

(** ** Seeds and runs *)

Definition RFW_WhiteInitState (seed : Z) : M Sys unit :=
  upd_rfw (λ f, f <| Init ; WhiteSeed := seed |>).

Definition RFW_WhiteSetState : M Sys unit :=
  upd_rfw (λ f, f <| WhiteLfsrState := WhiteSeed (Init f) |>).

Definition RFW_CrcInitState (polynomial seed type : Z) : M Sys unit :=
  upd_rfw (λ f, f <| Init ; CrcPolynomial := polynomial |> <| Init ; CrcSeed := seed |>
                  <| Init ; CrcType := type |>).

Definition RFW_CrcSetState : M Sys unit :=
  upd_rfw (λ f, f <| CrcLfsrState := CrcSeed (Init f) |>).

(** [RFW_WhiteRun( &RFWPacket, &ChunkBuffer[off], size )] *)
Definition RFW_WhiteRun (off size : Z) : M Sys unit :=
  payload ← read_chunk off size;
  f ← gets RFWPacket;
  let '(out, state) := white_run (WhiteLfsrState f) payload in
  write_chunk off out;;
  upd_rfw (λ f, f <| WhiteLfsrState := state |>).

(** [RFW_CrcRun( &RFWPacket, &ChunkBuffer[off], size, CrcResult )] *)
Definition RFW_CrcRun (off size : Z) : M Sys (list Z) :=
  payload ← read_chunk off size;
  f ← gets RFWPacket;
  let crc := crc_run (CrcPolynomial (Init f)) (CrcLfsrState f) payload in
  upd_rfw (λ f, f <| CrcLfsrState := crc |>);;
  mret (crc_result (CrcType (Init f)) crc).

(** ** Calls through pointers *)

Definition call_event (sel : RadioEvents_t → bool) (c : AppCall) : M Sys unit :=
  f ← gets RFWPacket;
  match rfw_RadioEvents (Init f) with
  | Some ev => if sel ev then call_app c else undefined "call of a null callback"
  | None => undefined "null RadioEvents"
  end.

(** The application sets the pointer it is given to at least [n] bytes. *)
Definition get_next_chunk (n : Z) : M Sys (list Z) :=
  tr ← gets trace;
  call_app (App_GetNextChunk n);;
  defined "chunk shorter than requested" (buf_read (next_chunk_answer tr n) 0 n).

(** A division by the bit rate. *)
Definition by_BitRate (div : Z → Z) : M Sys Z :=
  f ← gets RFWPacket;
  if BitRate f =? 0 then undefined "division by a zero BitRate" else mret (div (BitRate f)).

(** ** Configuration *)

(** [config->TxConfig->fsk]: the common part of the fsk and msk members. *)
Definition tx_as_fsk (c : TxConfigGeneric_t) : option generic_param_tx_msk_t :=
  match c with
  | tx_fsk f => Some (txf_msk f)
  | tx_msk m => Some m
  | tx_lora _ | tx_bpsk _ => None
  end.

(** [ConfigGeneric_t] with its [rtx] tag. *)
Inductive ConfigGeneric_t :=
| CONFIG_TX_of (TxConfig : TxConfigGeneric_t)
| CONFIG_RX_of (RxConfig : RxConfigGeneric_t).

(** The locals of [RFW_Init], after recording the bit rate and the timer. *)
Definition RFW_Init_read (config : ConfigGeneric_t) (TimeoutTimerEvent : TimerEvent_t)
  : M Sys (Z * Z * Z * Z * Z * Z) :=
  match config with
  | CONFIG_TX_of c =>
      m ← defined "fsk member of another configuration" (tx_as_fsk c);
      upd_rfw (λ f, f <| BitRate := txm_BitRate m |>
                      <| rfw_TxTimeoutTimer := Some TimeoutTimerEvent |>);;
      mret (txm_HeaderType m, txm_CrcLength m, 0, txm_whiteSeed m, txm_CrcPolynomial m,
            txm_CrcSeed m)
  | CONFIG_RX_of c =>
      let m := rx_fsk c in
      upd_rfw (λ f, f <| BitRate := rxf_BitRate m |>
                      <| rfw_RxTimeoutTimer := Some TimeoutTimerEvent |>);;
      mret (rxf_LengthMode m, rxf_CrcLength m, rxf_MaxPayloadLength m, rxf_whiteSeed m,
            rxf_CrcPolynomial m, rxf_CrcSeed m)
  end.

Definition RFW_Init (config : ConfigGeneric_t) (events : option RadioEvents_t)
    (TimeoutTimerEvent : TimerEvent_t) : M Sys Z :=
  if negb RFW_ENABLE then mret (-1)
  else
    locals ← RFW_Init_read config TimeoutTimerEvent;
    let '(HeaderType, CrcLength, RxMaxPayloadLength, whiteSeed, CrcPolynomial, CrcSeed) :=
      locals in
    match events with
    | Some ev =>
        if negb (ev_RxError ev) then mret (-1)
        else
          upd_rfw (λ f, f <| Init ; rfw_RadioEvents := Some ev |>);;
          if (HeaderType =? RADIO_FSK_PACKET_2BYTES_LENGTH) && negb RFW_LONGPACKET_ENABLE
          then mret (-1)
          else
            upd_rfw (λ f, f
              <| Init ; PayloadLengthFieldSize :=
                   if HeaderType =? RADIO_FSK_PACKET_2BYTES_LENGTH then 2 else 1 |>
              <| Init ; LongPacketMaxRxLength := u16 RxMaxPayloadLength |>
              <| Init ; CrcEnable := if CrcLength =? RADIO_FSK_CRC_OFF then 0 else 1 |>
              <| Init ; CrcFieldSize := if CrcLength =? RADIO_FSK_CRC_OFF then 0 else 2 |>);;
            RFW_WhiteInitState whiteSeed;;
            RFW_CrcInitState CrcPolynomial CrcSeed CrcLength;;
            upd_rfw (λ f, f <| Init ; Enable := 1 |>);;
            emit (EvTimerInit RFWPacket_Timer RFW_GetPayloadTimerEvent_cb);;
            mret 0
    | None => mret (-1)
    end.

Definition RFW_DeInit : M Sys unit :=
  when RFW_ENABLE (upd_rfw (λ f, f <| Init ; Enable := 0 |>)).

Definition RFW_Is_Init : M Sys Z :=
  if RFW_ENABLE then gets (λ s, Enable (Init (RFWPacket s))) else mret 0.

Definition RFW_Is_LongPacketModeEnabled : M Sys Z :=
  if RFW_ENABLE then gets (λ s, LongPacketModeEnable (RFWPacket s)) else mret 0.

Definition RFW_SetAntSwitch (AntSwitch : Z) : M Sys unit :=
  when RFW_ENABLE (upd_rfw (λ f, f <| rfw_AntSwitchPaSelect := AntSwitch |>)).

Definition RFW_SetRadioModem (m : RadioModems_t) : M Sys unit :=
  when RFW_ENABLE (upd_rfw (λ f, f <| Init ; rfw_Modem := m |>)).

(** ** Short packets, transmission *)

(** The caller's buffer is an array of its own length; the packet that is
    written back is longer than the payload that was in it. *)
Definition RFW_TransmitInit (inOutBuffer : list Z) (size : Z) : M Sys (Z * list Z * Z) :=
  if negb RFW_ENABLE then mret (-1, inOutBuffer, 0)
  else
    f ← gets RFWPacket;
    let lenSize := PayloadLengthFieldSize (Init f) in
    let crcSize := CrcFieldSize (Init f) in
    if RADIO_BUF_SIZE <? size + lenSize + crcSize then mret (-1, inOutBuffer, 0)
    else
      payload ← defined "read outside the caller's buffer" (buf_read inOutBuffer 0 size);
      write_chunk lenSize payload;;
      write_chunk 0 (if lenSize =? 1 then [size] else [0; size]);;
      when (CrcEnable (Init f) =? 1)
        (RFW_CrcSetState;;
         crc ← RFW_CrcRun 0 (size + lenSize);
         write_chunk (size + lenSize) (take (Z.to_nat crcSize) crc));;
      RFW_WhiteSetState;;
      RFW_WhiteRun 0 (size + lenSize + crcSize);;
      let outSize := u8 (size + lenSize + crcSize) in
      packet ← read_chunk 0 outSize;
      out ← defined "write outside the caller's buffer" (buf_write inOutBuffer 0 packet);
      upd_rfw (λ f, f <| LongPacketModeEnable := 0 |>);;
      mret (0, out, outSize).

(** ** Reception *)

Definition RFW_ReceiveInit : M Sys Z :=
  if negb RFW_ENABLE then mret (-1)
  else
    SUBGRF_SetDioIrqParams (u16 (Z.land IRQ_RADIO_ALL (Z.lnot IRQ_RX_DONE)))
      (u16 (Z.land IRQ_RADIO_ALL (Z.lnot IRQ_RX_DONE))) IRQ_RADIO_NONE IRQ_RADIO_NONE;;
    RFW_WhiteSetState;;
    RFW_CrcSetState;;
    upd_rfw (λ f, f <| RxPayloadOffset := 0 |> <| LongPacketModeEnable := 0 |>);;
    mret 0.

Definition RFW_DeInit_TxLongPacket : M Sys unit :=
  when RFW_LONGPACKET_ENABLE
    (reg ← SUBGRF_ReadRegister SUBGHZ_GPKTCTL1AR;
     SUBGRF_WriteRegister SUBGHZ_GPKTCTL1AR (u8 (Z.land reg (Z.lnot 0x02)));;
     SUBGRF_WriteRegister SUBGHZ_GRTXPLDLEN 0xFF).

(** [while( ( reg_buff_ptr - reg_buff_ptr_ref ) < bytes )]: the difference is
    an [int] compared with a [uint32_t]. *)
Fixpoint poll_loop (fuel : nat) (now timeout bytes ref ptr : Z) : M Sys Z :=
  match fuel with
  | O => spin
  | S fuel =>
      if u32 (ptr - ref) <? bytes then
        ptr ← SUBGRF_ReadRegister SUBGHZ_RXADRPTR;
        elapsed ← TimerGetElapsedTime now;
        if timeout <? elapsed then mret (-1)
        else poll_loop fuel now timeout bytes ref ptr
      else mret 0
  end.

Definition RFW_PollRxBytes (fuel : nat) (bytes : Z) : M Sys Z :=
  now ← TimerGetCurrentTime;
  ref ← SUBGRF_ReadRegister SUBGHZ_RXADRPTR;
  timeout ← by_BitRate (DIVC (u32 (bytes * 8 * 1000)));
  poll_loop fuel now timeout bytes ref ref.

(** Returns the status and [*PayloadLength] (unset on failure). *)
Definition RFW_GetPacketLength (fuel : nat) : M Sys (option Z) :=
  f ← gets RFWPacket;
  let lenSize := PayloadLengthFieldSize (Init f) in
  st ← RFW_PollRxBytes fuel lenSize;
  if negb (st =? 0) then mret None
  else
    bytes ← SUBGRF_ReadBuffer 0 (Z.to_nat lenSize);
    write_chunk 0 bytes;;
    RFW_WhiteRun 0 lenSize;;
    when (CrcEnable (Init f) =? 1) (_ ← RFW_CrcRun 0 lenSize; skip);;
    if lenSize =? 1 then
      b ← read_chunk 0 1;
      mret (Some (nth_byte b 0))
    else
      b ← read_chunk 0 2;
      mret (Some (Z.lor (Z.shiftl (nth_byte b 0) 8) (nth_byte b 1))).

(** The time before the (next) chunk is read, in [RFW_ReceivePayload]. *)
Definition receive_timeout (packet_length BitRate : Z) : Z :=
  if packet_length <? LONGPACKET_CHUNK_LENGTH_BYTES then
    u32 (DIVC (u32 (packet_length * 8 * 1000)) BitRate + 2)
  else if packet_length <? 3 * LONGPACKET_CHUNK_LENGTH_BYTES / 2 then
    DIVR (u32 (packet_length * 8 * 1000) / 2) BitRate
  else DIVR (LONGPACKET_CHUNK_LENGTH_BYTES * 8 * 1000) BitRate.

Definition RFW_ReceivePayload (fuel : nat) : M Sys unit :=
  if negb RFW_ENABLE then skip
  else
    len ← RFW_GetPacketLength fuel;
    match len with
    | Some PayloadLength =>
        f ← gets RFWPacket;
        let packet_length := PayloadLength + CrcFieldSize (Init f) in
        upd_rfw (λ f, f <| rfw_PayloadLength := PayloadLength |>
                        <| LongPacketRemainingBytes := u16 packet_length |>
                        <| RadioBufferOffset := PayloadLengthFieldSize (Init f) |>);;
        if LongPacketMaxRxLength (Init f) <? PayloadLength then
          SUBGRF_SetStandby STDBY_RC;;
          call_event ev_RxError App_RxError
        else
          timeout ← by_BitRate (receive_timeout packet_length);
          emit (EvTimerSetValue RFWPacket_Timer timeout);;
          emit (EvTimerStart RFWPacket_Timer)
    | None =>
        SUBGRF_SetStandby STDBY_RC;;
        call_event ev_RxTimeout App_RxTimeout
    end.

(** [if( CrcEnable == 1 ) RFW_CrcRun( ..., crc_result )]; [crc_result] is
    otherwise not initialised and not significant. *)
Definition crc_if_enabled (off size : Z) : M Sys (list Z) :=
  f ← gets RFWPacket;
  if CrcEnable (Init f) =? 1 then RFW_CrcRun off size else mret [0; 0].

(** [( int8_t ) DIVR( cfo, 1000 )]: a signed division. *)
Definition cfo_khz (cfo : Z) : Z := i8 (Z.quot (cfo + 500) 1000).

(** The CRC check and the report at the end of [RFW_GetPayload]. *)
Definition RFW_GetPayload_report (Length : Z) (crc : list Z) : M Sys unit :=
  f ← gets RFWPacket;
  on_timer (rfw_RxTimeoutTimer f) EvTimerStop;;
  c0 ← read_chunk (Length - 2) 1;
  (** [&&] reads the second byte only when the first one matches. *)
  crc_ok ←
    (if nth_byte crc 0 =? nth_byte c0 0 then
       c1 ← read_chunk (Length - 1) 1; mret (nth_byte crc 1 =? nth_byte c1 0)
     else mret false);
  (if crc_ok || (CrcEnable (Init f) =? 0) then
     rssi_sync ← SUBGRF_ReadRegister 0x06CA;
     cfo ← SUBGRF_GetCFO (BitRate f);
     rx ← gets RxBuffer;
     call_event ev_RxDone
       (App_RxDone (take (Z.to_nat (RxPayloadOffset f)) rx) (RxPayloadOffset f)
                   (i16 (- Z.shiftr rssi_sync 1)) (cfo_khz cfo))
   else call_event ev_RxError App_RxError);;
  emit (EvProbe DBG_GPIO_RADIO_RX RST).

(** The chunk without the CRC goes to the application or to [RxBuffer]. *)
Definition RFW_GetPayload_store (Length : Z) (crc : list Z) : M Sys unit :=
  f ← gets RFWPacket;
  let crcSize := CrcFieldSize (Init f) in
  if LongPacketModeEnable f =? 1 then
    chunk ← read_chunk 0 (Length - crcSize);
    (if RxLongPacketStoreChunkCb f then call_app (App_StoreChunk chunk)
     else undefined "null RxLongPacketStoreChunkCb");;
    RFW_GetPayload_report Length crc
  else if RxPayloadOffset f + Length - crcSize <? RADIO_BUF_SIZE then
    chunk ← read_chunk 0 (Length - crcSize);
    write_rx (RxPayloadOffset f) chunk;;
    upd_rfw (λ f, f <| RxPayloadOffset := u16 (RxPayloadOffset f + (Length - crcSize)) |>);;
    RFW_GetPayload_report Length crc
  else call_event ev_RxError App_RxError.

Definition RFW_GetPayload (Offset Length : Z) : M Sys unit :=
  SUBGRF_SetStandby STDBY_RC;;
  bytes ← SUBGRF_ReadBuffer Offset (Z.to_nat Length);
  write_chunk 0 bytes;;
  RFW_WhiteRun 0 Length;;
  f ← gets RFWPacket;
  crc ← crc_if_enabled 0 (Length - CrcFieldSize (Init f));
  RFW_GetPayload_store Length crc.

(** The time before the next chunk, in [RFW_GetPayloadProcess]. *)
Definition next_chunk_timeout (remaining BitRate : Z) : Z :=
  if remaining <? LONGPACKET_CHUNK_LENGTH_BYTES then
    u32 (DIVC (remaining * 8 * 1000) BitRate + 2)
  else if remaining <? (3 * LONGPACKET_CHUNK_LENGTH_BYTES) / 2 then
    DIVR ((remaining / 2) * 8 * 1000) BitRate
  else DIVR (LONGPACKET_CHUNK_LENGTH_BYTES * 8 * 1000) BitRate.

(** An intermediate chunk that is not reported to the application.  The
    source tests [RxPayloadOffset += size < RADIO_BUF_SIZE]: [<] binds
    tighter than [+=], so the offset is incremented by the truth value. *)
Definition store_intermediate (size : Z) : M Sys bool :=
  upd_rfw (λ f, f <| RxPayloadOffset :=
                       u16 (RxPayloadOffset f + b2z (size <? RADIO_BUF_SIZE)) |>);;
  f ← gets RFWPacket;
  if negb (RxPayloadOffset f =? 0) then
    chunk ← read_chunk 0 size;
    write_rx (RxPayloadOffset f) chunk;;
    upd_rfw (λ f, f <| RxPayloadOffset := u16 (RxPayloadOffset f + size) |>);;
    mret true
  else
    SUBGRF_SetStandby STDBY_RC;;
    call_event ev_RxError App_RxError;;
    mret false.

Definition RFW_GetPayloadProcess : M Sys unit :=
  read_ptr ← SUBGRF_ReadRegister SUBGHZ_RXADRPTR;
  f ← gets RFWPacket;
  let size := u8 (read_ptr - RadioBufferOffset f) in
  if size <? LongPacketRemainingBytes f then
    upd_rfw (λ f, f <| LongPacketRemainingBytes := u16 (LongPacketRemainingBytes f - size) |>);;
    SUBGRF_WriteRegister SUBGHZ_GRTXPLDLEN (u8 (read_ptr - 1));;
    bytes ← SUBGRF_ReadBuffer (RadioBufferOffset f) (Z.to_nat size);
    write_chunk 0 bytes;;
    upd_rfw (λ f, f <| RadioBufferOffset := u8 (RadioBufferOffset f + size) |>);;
    RFW_WhiteRun 0 size;;
    when (CrcEnable (Init f) =? 1) (_ ← RFW_CrcRun 0 size; skip);;
    stored ←
      (if LongPacketModeEnable f =? 1 then
         chunk ← read_chunk 0 size;
         (if RxLongPacketStoreChunkCb f then call_app (App_StoreChunk chunk)
          else undefined "null RxLongPacketStoreChunkCb");;
         mret true
       else store_intermediate size);
    if stored : bool then
      f ← gets RFWPacket;
      timeout ← by_BitRate (next_chunk_timeout (LongPacketRemainingBytes f));
      emit (EvTimerSetValue RFWPacket_Timer timeout);;
      emit (EvTimerStart RFWPacket_Timer)
    else skip
  else
    when (LongPacketRemainingBytes f <? CrcFieldSize (Init f))
      (upd_rfw (λ f, f <| LongPacketRemainingBytes := CrcFieldSize (Init f) |>));;
    f ← gets RFWPacket;
    let size := u8 (LongPacketRemainingBytes f) in
    upd_rfw (λ f, f <| LongPacketRemainingBytes := 0 |>);;
    RFW_GetPayload (RadioBufferOffset f) size.

Definition RFW_GetPayloadTimerEvent : M Sys unit := RFW_GetPayloadProcess.

(** ** Long packets *)

(** [( payload_size > ( 1 << ( 8 * PayloadLengthFieldSize ) ) - 1 )] and the
    other conditions under which [RFW_TransmitLongPacket] returns -1. *)
Definition long_packet_rejected (cb : bool) (payload_size : Z) (f : RadioFw_t) : bool :=
  negb cb
  || (Z.shiftl 1 (8 * PayloadLengthFieldSize (Init f)) - 1 <? payload_size)
  || (Enable (Init f) =? 0)
  || (LL_DBGMCU_GetRevisionID <? 0x1003).

(** [(chunk_size, crc_size)] of the first chunk. *)
Definition first_chunk_sizes (payload_size : Z) (i : RFwInit_t) : Z * Z :=
  let total_size := payload_size + PayloadLengthFieldSize i + CrcFieldSize i in
  if RADIO_BUF_SIZE <? total_size then
    if total_size <? RADIO_BUF_SIZE + CrcFieldSize i
    then (u8 (RADIO_BUF_SIZE - PayloadLengthFieldSize i - CrcFieldSize i), 0)
    else (u8 (RADIO_BUF_SIZE - PayloadLengthFieldSize i), 0)
  else (u8 payload_size, CrcFieldSize i).

(** The first chunk, with the length field and, when the packet fits the radio,
    the CRC: from the callback of the application to the radio. *)
Definition send_first_chunk (payload_size chunk_size crc_size : Z) : M Sys unit :=
  f ← gets RFWPacket;
  let lenSize := PayloadLengthFieldSize (Init f) in
  write_chunk 0 (if lenSize =? 1 then [u8 payload_size]
                 else [byte_at 8 payload_size; byte_at 0 payload_size]);;
  app_chunk ← get_next_chunk chunk_size;
  write_chunk lenSize app_chunk;;
  when (CrcEnable (Init f) =? 1)
    (RFW_CrcSetState;;
     crc ← RFW_CrcRun 0 (lenSize + chunk_size);
     write_chunk (lenSize + chunk_size) (take (Z.to_nat crc_size) crc));;
  RFW_WhiteSetState;;
  RFW_WhiteRun 0 (lenSize + chunk_size + crc_size);;
  SUBGRF_WriteRegister SUBGHZ_GRTXPLDLEN (u8 (lenSize + chunk_size + crc_size));;
  SUBGRF_WriteRegister SUBGHZ_TXADRPTR 0;;
  packet ← read_chunk 0 (u8 (lenSize + chunk_size + crc_size));
  SUBGRF_SendPayload packet 0.

(** The timers of a packet that does not fit the radio, and its infinite
    sequence mode. *)
Definition arm_next_chunk (timeout : Z) : M Sys unit :=
  chunk_timeout ← by_BitRate (λ r, LONGPACKET_CHUNK_LENGTH_BYTES * 8 * 1000 / r);
  emit (EvTimerInit RFWPacket_Timer RFW_TransmitLongPacket_NewTxChunkTimerEvent_cb);;
  emit (EvTimerSetValue RFWPacket_Timer chunk_timeout);;
  emit (EvTimerStart RFWPacket_Timer);;
  reg ← SUBGRF_ReadRegister SUBGHZ_GPKTCTL1AR;
  SUBGRF_WriteRegister SUBGHZ_GPKTCTL1AR (Z.lor reg 0x02);;
  f ← gets RFWPacket;
  on_timer (rfw_RxTimeoutTimer f) (λ t, EvTimerSetValue t timeout);;
  on_timer (rfw_RxTimeoutTimer f) EvTimerStart.

(** The [MODEM_FSK] and [MODEM_MSK] case of [RFW_TransmitLongPacket]. *)
Definition RFW_TransmitLongPacket_start (payload_size timeout : Z) : M Sys unit :=
  f ← gets RFWPacket;
  let total_size :=
    payload_size + PayloadLengthFieldSize (Init f) + CrcFieldSize (Init f) in
  upd_rfw (λ f, f <| RadioBufferOffset := 0 |> <| LongPacketModeEnable := 1 |>
                  <| LongPacketRemainingBytes := u16 total_size |>
                  <| rfw_PayloadLength := u16 total_size |>);;
  let '(chunk_size, crc_size) := first_chunk_sizes payload_size (Init f) in
  send_first_chunk payload_size chunk_size crc_size;;
  when (RADIO_BUF_SIZE <? total_size) (arm_next_chunk timeout).

Definition RFW_TransmitLongPacket (payload_size timeout : Z) (cb : bool) : M Sys Z :=
  if negb RFW_LONGPACKET_ENABLE then mret (-1)
  else
    f ← gets RFWPacket;
    if long_packet_rejected cb payload_size f then mret (-1)
    else
      upd_rfw (λ f, f <| TxLongPacketGetNextChunkCb := true |>);;
      SUBGRF_SetDioIrqParams (Z.lor IRQ_TX_DONE IRQ_RX_TX_TIMEOUT)
        (Z.lor IRQ_TX_DONE IRQ_RX_TX_TIMEOUT) IRQ_RADIO_NONE IRQ_RADIO_NONE;;
      emit (EvProbe DBG_GPIO_RADIO_TX SET);;
      SUBGRF_SetSwitch (rfw_AntSwitchPaSelect f) RFSWITCH_TX;;
      match rfw_Modem (Init f) with
      | MODEM_FSK | MODEM_MSK =>
          if Enable (Init f) =? 1 then
            RFW_TransmitLongPacket_start payload_size timeout;; mret 0
          else mret (-1)
      | MODEM_LORA | MODEM_BPSK | MODEM_SIGFOX_TX => mret (-2)
      | MODEM_SIGFOX_RX => mret 0
      end.

Definition RFW_ReceiveLongPacket (boosted_mode timeout : Z) (cb : bool) : M Sys Z :=
  if negb RFW_LONGPACKET_ENABLE then mret (-1)
  else
    f ← gets RFWPacket;
    if negb cb || (Enable (Init f) =? 0) then mret (-1)
    else
      upd_rfw (λ f, f <| RxLongPacketStoreChunkCb := true |>);;
      SUBGRF_SetDioIrqParams (Z.lor IRQ_SYNCWORD_VALID IRQ_RX_TX_TIMEOUT)
        (Z.lor IRQ_SYNCWORD_VALID IRQ_RX_TX_TIMEOUT) IRQ_RADIO_NONE IRQ_RADIO_NONE;;
      SUBGRF_SetSwitch (rfw_AntSwitchPaSelect f) RFSWITCH_RX;;
      upd_rfw (λ f, f <| RadioBufferOffset := 0 |>);;
      RFW_WhiteSetState;;
      RFW_CrcSetState;;
      SUBGRF_WriteRegister SUBGHZ_GRTXPLDLEN 255;;
      SUBGRF_WriteRegister SUBGHZ_RXADRPTR 0;;
      upd_rfw (λ f, f <| LongPacketModeEnable := 1 |>);;
      when (negb (timeout =? 0))
        (on_timer (rfw_RxTimeoutTimer f) (λ t, EvTimerSetValue t timeout);;
         on_timer (rfw_RxTimeoutTimer f) EvTimerStart);;
      emit (EvProbe DBG_GPIO_RADIO_RX SET);;
      (if boosted_mode =? 1 then SUBGRF_SetRxBoosted 0xFFFFFF else SUBGRF_SetRx 0xFFFFFF);;
      mret 0.

(** The chunk of [RFW_TransmitLongPacket_TxChunkProcess]: the remaining count
    after the bytes sent, then [(chunk_size, crc_size)] and whether another
    chunk follows. *)
Definition next_tx_chunk (remaining bytes_sent bytes_loaded crcSize : Z) : Z * Z * bool :=
  if 256 <? remaining then
    (if 256 + crcSize <? remaining then bytes_sent else u8 (bytes_sent - crcSize), 0, true)
  else
    (if bytes_loaded <? remaining then u8 (remaining - bytes_loaded) else crcSize,
     crcSize, false).

(** From the callback of the application to the radio. *)
Definition load_tx_chunk (write_ptr chunk_size crc_size : Z) : M Sys unit :=
  f ← gets RFWPacket;
  app_chunk ←
    (if TxLongPacketGetNextChunkCb f then get_next_chunk (u8 (chunk_size - crc_size))
     else undefined "null TxLongPacketGetNextChunkCb");
  (** [RADIO_MEMCPY8] takes the difference as a [uint16_t]. *)
  (if u16 (chunk_size - crc_size) =? u8 (chunk_size - crc_size)
   then write_chunk 0 app_chunk
   else undefined "copy outside ChunkBuffer");;
  when (CrcEnable (Init f) =? 1)
    (crc ← RFW_CrcRun 0 (chunk_size - crc_size);
     write_chunk (chunk_size - crc_size) (take (Z.to_nat crc_size) crc));;
  RFW_WhiteRun 0 chunk_size;;
  packet ← read_chunk 0 chunk_size;
  SUBGRF_WriteBuffer write_ptr packet;;
  SUBGRF_WriteRegister SUBGHZ_GRTXPLDLEN (u8 (chunk_size + write_ptr)).

Definition RFW_TransmitLongPacket_TxChunkProcess : M Sys unit :=
  read_ptr ← SUBGRF_ReadRegister SUBGHZ_TXADRPTR;
  write_ptr ← SUBGRF_ReadRegister SUBGHZ_GRTXPLDLEN;
  f ← gets RFWPacket;
  let bytes_sent := u8 (read_ptr - RadioBufferOffset f) in
  let bytes_loaded := u8 (write_ptr - read_ptr) in
  upd_rfw (λ f, f <| RadioBufferOffset := u8 (RadioBufferOffset f + bytes_sent) |>
                  <| LongPacketRemainingBytes :=
                       u16 (LongPacketRemainingBytes f - bytes_sent) |>);;
  f ← gets RFWPacket;
  let '(chunk_size, crc_size, more) :=
    next_tx_chunk (LongPacketRemainingBytes f) bytes_sent bytes_loaded
                  (CrcFieldSize (Init f)) in
  (if more : bool then
     timeout ← by_BitRate (DIVR (chunk_size * 8 * 1000));
     emit (EvTimerSetValue RFWPacket_Timer timeout);;
     emit (EvTimerStart RFWPacket_Timer)
   else upd_rfw (λ f, f <| LongPacketRemainingBytes := 0 |>));;
  load_tx_chunk write_ptr chunk_size crc_size.

Definition RFW_TransmitLongPacket_NewTxChunkTimerEvent : M Sys unit :=
  RFW_TransmitLongPacket_TxChunkProcess.
End Firmware.
