(* ===== verification/Whitening.v ===== *)
(** * radio_fw.c: properties of the whitening and of the CRC.

    The whitening is the exclusive or of the payload with the output of a nine
    bit LFSR: it is undone by running it again from the same seed, chunk by
    chunk or at once, and its LFSR has the maximal period 511.  The CRC is the
    remainder of a polynomial division over GF(2), which detects every error
    confined to two consecutive bytes. *)

From S2P Require Import Prelude Effects RadioTypes State Mem RadioDriver RadioFw.

#[global] Arguments white_next : simpl never.
#[global] Arguments white_step : simpl never.
#[global] Arguments RFW_CrcRun1Byte : simpl never.

(** ** Whitening *)

(** The bytes a payload is combined with. *)
Fixpoint keystream (state : Z) (n : nat) {struct n} : list Z :=
  match n with
  | O => []
  | S n => Z.land state 0xFF :: keystream (white_next state) n
  end.

Lemma is_u8_land s : is_u8 (Z.land s 0xFF).
Proof.
  change 0xFF with (Z.ones 8). rewrite Z.land_ones by lia.
  apply Z.mod_pos_bound. lia.
Qed.

Lemma log2_byte b : 0 < b < 256 → Z.log2 b < 8.
Proof. intros. apply Z.log2_lt_pow2; lia. Qed.

Lemma is_u8_lxor a b : is_u8 a → is_u8 b → is_u8 (Z.lxor a b).
Proof.
  unfold is_u8. intros Ha Hb.
  assert (0 <= Z.lxor a b) by (apply Z.lxor_nonneg; lia).
  split; [done|]. destruct (decide (Z.lxor a b = 0)) as [->|Hne]; [lia|].
  change 256 with (2 ^ 8). apply Z.log2_lt_pow2; [lia|].
  pose proof (Z.log2_lxor a b ltac:(lia) ltac:(lia)).
  destruct (decide (a = 0)) as [->|]; destruct (decide (b = 0)) as [->|].
  - done.
  - rewrite Z.lxor_0_l in *. apply log2_byte. lia.
  - rewrite Z.lxor_0_r in *. apply log2_byte. lia.
  - pose proof (log2_byte a). pose proof (log2_byte b). lia.
Qed.

Lemma white_byte_xor s b : is_u8 b → white_byte s b = Z.lxor b (Z.land s 0xFF).
Proof.
  intros Hb. unfold white_byte. apply u8_small.
  apply is_u8_lxor; [done | apply is_u8_land].
Qed.

Lemma white_byte_involutive s b : is_u8 b → white_byte s (white_byte s b) = b.
Proof.
  intros Hb. rewrite (white_byte_xor s b) by done.
  rewrite white_byte_xor by (apply is_u8_lxor; [done | apply is_u8_land]).
  now rewrite Z.lxor_assoc, Z.lxor_nilpotent, Z.lxor_0_r.
Qed.

Lemma white_run_cons s b p :
  white_run s (b :: p) =
    (white_byte s b :: fst (white_run (white_next s) p), snd (white_run (white_next s) p)).
Proof. cbn [white_run]. now destruct (white_run (white_next s) p). Qed.

Lemma white_run_state p : ∀ s, snd (white_run s p) = Nat.iter (length p) white_next s.
Proof.
  induction p as [|b p IH]; intros s; [done|].
  rewrite white_run_cons. cbn [snd length]. rewrite IH. symmetry. apply Nat.iter_succ_r.
Qed.

Lemma white_run_length p : ∀ s, length (fst (white_run s p)) = length p.
Proof.
  induction p as [|b p IH]; intros s; [done|].
  rewrite white_run_cons. cbn [fst length]. now rewrite IH.
Qed.

Lemma white_run_bytes p : ∀ s, Forall is_u8 (fst (white_run s p)).
Proof.
  induction p as [|b p IH]; intros s; [constructor|].
  rewrite white_run_cons. constructor; [apply u8_range | apply IH].
Qed.

Lemma white_run_app p q s :
  white_run s (p ++ q) =
    (fst (white_run s p) ++ fst (white_run (snd (white_run s p)) q),
     snd (white_run (snd (white_run s p)) q)).
Proof.
  revert s. induction p as [|b p IH]; intros s; cbn [app].
  - cbn [white_run fst snd app]. now destruct (white_run s q).
  - rewrite !white_run_cons, IH. done.
Qed.

Lemma white_run_xor p : ∀ s,
  Forall is_u8 p → fst (white_run s p) = zip_with Z.lxor p (keystream s (length p)).
Proof.
  induction p as [|b p IH]; intros s Hp; [done|]. inversion Hp; subst.
  rewrite white_run_cons. cbn [fst length keystream zip_with].
  now rewrite IH, white_byte_xor.
Qed.

Lemma white_run_undo p : ∀ s,
  Forall is_u8 p → white_run s (fst (white_run s p)) = (p, snd (white_run s p)).
Proof.
  induction p as [|b p IH]; intros s Hp; [done|]. inversion Hp; subst.
  rewrite white_run_cons. cbn [fst snd]. rewrite white_run_cons, IH by done. cbn [fst snd].
  now rewrite white_byte_involutive.
Qed.

(** The first time a run of the LFSR from [s] comes back to [s]. *)
Fixpoint return_time (fuel : nat) (s cur : Z) {struct fuel} : option nat :=
  match fuel with
  | O => None
  | S fuel => let cur := white_step cur in
              if cur =? s then Some 1%nat else S <$> return_time fuel s cur
  end.

Lemma return_time_spec fuel : ∀ s cur n,
  return_time fuel s cur = Some n →
  Nat.iter n white_step cur = s ∧
  ∀ k, (0 < k < n)%nat → Nat.iter k white_step cur ≠ s.
Proof.
  induction fuel as [|fuel IH]; intros s cur n H; [done|]. cbn [return_time] in H.
  destruct (white_step cur =? s) eqn:E.
  - injection H as <-. split; [cbn; lia | lia].
  - destruct (return_time fuel s (white_step cur)) as [m|] eqn:Em; [|done].
    injection H as <-. destruct (IH _ _ _ Em) as [H1 H2]. split.
    + now rewrite Nat.iter_succ_r.
    + intros [|[|k]] Hk; [lia | cbn; lia |].
      rewrite Nat.iter_succ_r. apply H2. lia.
Qed.

(** All the states but zero return after 511 steps and not before. *)
Lemma return_times :
  forallb (λ n, bool_decide (return_time 511 (Z.of_nat n) (Z.of_nat n) = Some 511%nat))
    (seq 1 511) = true.
Proof. vm_compute. reflexivity. Qed.

(** [RFW_WhiteRun] called on one chunk after the other. *)
Fixpoint white_chunks (state : Z) (chunks : list (list Z)) {struct chunks} : list (list Z) :=
  match chunks with
  | [] => []
  | c :: rest => fst (white_run state c) :: white_chunks (snd (white_run state c)) rest
  end.

Lemma white_chunks_concat cs : ∀ s,
  concat (white_chunks s cs) = fst (white_run s (concat cs)).
Proof.
  induction cs as [|c cs IH]; intros s; [done|].
  cbn [white_chunks concat]. now rewrite IH, white_run_app.
Qed.

(** ** CRC: bit by bit

    [RFW_CrcRun1Byte] is eight steps of the register, on the bits of the byte
    from the most significant one. *)

Section Crc.
Context (P : Z).
Hypothesis P_range : 0 <= P < 65536.

Definition crc_bit (c : Z) (b : bool) : Z :=
  if xorb (Z.testbit c 15) b then Z.lxor (u16 (Z.shiftl c 1)) P else u16 (Z.shiftl c 1).

(** The bits of a byte, most significant first. *)
Definition bits8 (b : Z) : list bool := Z.testbit b <$> [7; 6; 5; 4; 3; 2; 1; 0].
Definition bits_of (payload : list Z) : list bool := payload ≫= bits8.

Lemma testbit_high n c : 0 <= n → 0 <= c < 2 ^ n → ∀ i, n <= i → Z.testbit c i = false.
Proof.
  intros Hn Hc i Hi. destruct (decide (c = 0)) as [->|]; [apply Z.bits_0|].
  apply Z.bits_above_log2; [lia|]. assert (Z.log2 c < n); [|lia].
  apply Z.log2_lt_pow2; lia.
Qed.

Lemma is_u16_bits c : 0 <= c → (∀ i, 16 <= i → Z.testbit c i = false) → is_u16 c.
Proof.
  intros Hc H. split; [done|]. destruct (decide (c = 0)) as [->|]; [lia|].
  change 65536 with (2 ^ 16). apply Z.log2_lt_pow2; [lia|].
  destruct (decide (16 <= Z.log2 c)) as [Hl|]; [|lia].
  specialize (H _ Hl). rewrite Z.bit_log2 in H by lia. done.
Qed.

Lemma is_u16_lxor a b : is_u16 a → is_u16 b → is_u16 (Z.lxor a b).
Proof.
  intros Ha Hb. apply is_u16_bits.
  - apply Z.lxor_nonneg. unfold is_u16 in *. lia.
  - intros i Hi. now rewrite Z.lxor_spec, !(testbit_high 16) by (unfold is_u16 in *; lia).
Qed.

Lemma crc_bit_range c b : is_u16 (crc_bit c b).
Proof.
  unfold crc_bit. pose proof (u16_range (Z.shiftl c 1)).
  case_match; [apply is_u16_lxor|]; unfold is_u16 in *; lia.
Qed.

(** The bits of a register that was shifted. *)
Lemma u16_shiftl_testbit c i :
  0 <= i → Z.testbit (u16 (Z.shiftl c 1)) i = (i <? 16) && Z.testbit c (i - 1).
Proof.
  intros Hi. unfold u16. destruct (i <? 16) eqn:E.
  - rewrite Z.mod_pow2_bits_low by lia. rewrite Z.shiftl_spec by done. done.
  - rewrite Z.mod_pow2_bits_high by lia. done.
Qed.

Lemma is_u8_testbit_high b i : is_u8 b → 8 <= i → Z.testbit b i = false.
Proof. unfold is_u8. intros. apply (testbit_high 8); lia. Qed.

Lemma land_pow2 b k : 0 <= k → Z.land b (2 ^ k) = if Z.testbit b k then 2 ^ k else 0.
Proof.
  intros Hk. apply Z.bits_inj'. intros i Hi. rewrite Z.land_spec, Z.pow2_bits_eqb by done.
  destruct (Z.eqb_spec k i) as [->|Hne].
  - rewrite andb_true_r. destruct (Z.testbit b i) eqn:E.
    + now rewrite Z.pow2_bits_true.
    + now rewrite Z.bits_0.
  - rewrite andb_false_r. destruct (Z.testbit b k).
    + now rewrite Z.pow2_bits_false.
    + now rewrite Z.bits_0.
Qed.

Lemma crc_round_bit c d :
  crc_round P (c, d) = (crc_bit c (Z.testbit d 7), u8 (Z.shiftl d 1)).
Proof.
  unfold crc_round, crc_bit. change 0x8000 with (2 ^ 15). change 0x80 with (2 ^ 7).
  rewrite !land_pow2 by lia.
  destruct (Z.testbit c 15), (Z.testbit d 7); cbn [xorb]; try reflexivity.
  - cbn -[Z.shiftl u16]. f_equal. apply u16_small, is_u16_lxor; [apply u16_range | done].
  - cbn -[Z.shiftl u16]. f_equal. apply u16_small, is_u16_lxor; [apply u16_range | done].
Qed.

Lemma u8_shiftl_iter n d :
  (n <= 8)%nat → Nat.iter n (λ d, u8 (Z.shiftl d 1)) d = if (n =? 0)%nat then d else u8 (Z.shiftl d (Z.of_nat n)).
Proof.
  induction n as [|n IH]; intros Hn; [done|]. rewrite Nat.iter_succ, IH by lia.
  cbn [Nat.eqb]. destruct (n =? 0)%nat eqn:E.
  - apply Nat.eqb_eq in E as ->. done.
  - unfold u8. rewrite !Z.shiftl_mul_pow2 by lia. rewrite Z.mul_mod_idemp_l by lia.
    f_equal. rewrite <- Z.mul_assoc, <- Z.pow_add_r by lia. do 2 f_equal. lia.
Qed.

Lemma u8_shiftl_testbit7 n d :
  (n <= 7)%nat → Z.testbit (Nat.iter n (λ d, u8 (Z.shiftl d 1)) d) 7 = Z.testbit d (7 - Z.of_nat n).
Proof.
  intros Hn. rewrite u8_shiftl_iter by lia. destruct (n =? 0)%nat eqn:E.
  - apply Nat.eqb_eq in E as ->. done.
  - unfold u8. rewrite Z.mod_pow2_bits_low by lia. rewrite Z.shiftl_spec by lia. done.
Qed.

Lemma crc_byte_bits c d : RFW_CrcRun1Byte c d P = fold_left crc_bit (bits8 d) c.
Proof.
  unfold RFW_CrcRun1Byte.
  assert (∀ n, (n <= 8)%nat →
    Nat.iter n (crc_round P) (c, d) =
      (fold_left crc_bit (take n (bits8 d)) c, Nat.iter n (λ d, u8 (Z.shiftl d 1)) d)) as H.
  { induction n as [|n IH]; intros Hn; [done|]. rewrite Nat.iter_succ, IH by lia.
    rewrite crc_round_bit, u8_shiftl_testbit7 by lia. f_equal.
    assert (take (S n) (bits8 d) = take n (bits8 d) ++ [Z.testbit d (7 - Z.of_nat n)]) as ->.
    { do 8 (destruct n as [|n]; [reflexivity|]). lia. }
    now rewrite fold_left_app. }
  rewrite (H 8%nat) by lia. done.
Qed.

Lemma crc_run_bits payload : ∀ c, crc_run P c payload = fold_left crc_bit (bits_of payload) c.
Proof.
  unfold crc_run, bits_of. induction payload as [|b p IH]; intros c; [done|].
  cbn [fold_left]. rewrite bind_cons, fold_left_app, IH, crc_byte_bits. done.
Qed.

(** ** CRC: the reference

    Long division of [v] by [G], a polynomial of degree 16, for a dividend of
    [k] more bits: every set bit above the remainder is cancelled, from the
    highest one. *)
Fixpoint gf2_rem (G : Z) (k : nat) (v : Z) {struct k} : Z :=
  match k with
  | O => v
  | S k => gf2_rem G k (if Z.testbit v (16 + Z.of_nat k) then Z.lxor v (Z.shiftl G (Z.of_nat k)) else v)
  end.

(** The generator with its leading term. *)
Definition generator : Z := Z.lxor (2 ^ 16) P.

Fixpoint bits_val (bits : list bool) : Z :=
  match bits with
  | [] => 0
  | b :: rest => Z.lxor (Z.shiftl (b2z b) (Z.of_nat (length rest))) (bits_val rest)
  end.

Lemma b2z_testbit b i : 0 <= i → Z.testbit (b2z b) i = b && (i =? 0).
Proof.
  intros Hi. destruct b; cbn [b2z].
  - destruct (Z.eqb_spec i 0) as [->|]; [done|]. cbn [andb]; apply (testbit_high 1); lia.
  - apply Z.bits_0.
Qed.

Lemma crc_bit_testbit c b i :
  0 <= i →
  Z.testbit (crc_bit c b) i =
    xorb ((i <? 16) && Z.testbit c (i - 1)) (xorb (Z.testbit c 15) b && Z.testbit P i).
Proof.
  intros Hi. unfold crc_bit. destruct (xorb (Z.testbit c 15) b).
  - now rewrite Z.lxor_spec, u16_shiftl_testbit.
  - rewrite u16_shiftl_testbit by done. now rewrite xorb_false_r.
Qed.

Lemma division_step c b m k :
  is_u16 c → 0 <= k → 0 <= m < 2 ^ k →
  let v := Z.lxor (Z.shiftl c (k + 1)) (Z.shiftl (Z.lxor (Z.shiftl (b2z b) k) m) 16) in
  (if Z.testbit v (16 + k) then Z.lxor v (Z.shiftl generator k) else v) =
    Z.lxor (Z.shiftl (crc_bit c b) k) (Z.shiftl m 16).
Proof.
  intros Hc Hk Hm v.
  assert (∀ i, 0 <= i → Z.testbit v i =
    xorb (Z.testbit c (i - k - 1)) (xorb (b && (i =? 16 + k)) (Z.testbit m (i - 16)))) as Hv.
  { intros i Hi. unfold v. rewrite Z.lxor_spec, !Z.shiftl_spec, Z.lxor_spec by done.
    f_equal; [f_equal; lia|]. destruct (Z.ltb_spec (i - 16) 0).
    - rewrite !(Z.testbit_neg_r _ (i - 16)) by done. now replace (i =? 16 + k) with false by lia; rewrite andb_false_r.
    - rewrite Z.shiftl_spec by done. f_equal. destruct (Z.ltb_spec (i - 16 - k) 0).
      + rewrite Z.testbit_neg_r by done. now replace (i =? 16 + k) with false by lia; rewrite andb_false_r.
      + rewrite b2z_testbit by done. f_equal. lia. }
  assert (Z.testbit v (16 + k) = xorb (Z.testbit c 15) b) as Ht.
  { rewrite Hv by lia. rewrite (testbit_high k m) by lia.
    replace (16 + k - k - 1) with 15 by lia. rewrite Z.eqb_refl.
    now rewrite andb_true_r, xorb_false_r. }
  assert (∀ i, 0 <= i → Z.testbit (Z.lxor (Z.shiftl (crc_bit c b) k) (Z.shiftl m 16)) i =
    xorb (if i <? k then false else
            xorb ((i - k <? 16) && Z.testbit c (i - k - 1))
                 (xorb (Z.testbit c 15) b && Z.testbit P (i - k)))
         (Z.testbit m (i - 16))) as Hr.
  { intros i Hi. rewrite Z.lxor_spec, !Z.shiftl_spec by done. f_equal.
    destruct (Z.ltb_spec i k); [apply Z.testbit_neg_r; lia|]. rewrite crc_bit_testbit by lia. done. }
  assert (∀ i, 0 <= i → Z.testbit (Z.shiftl generator k) i =
    if i <? k then false else xorb (i =? 16 + k) (Z.testbit P (i - k))) as Hg.
  { intros i Hi. rewrite Z.shiftl_spec by done.
    destruct (Z.ltb_spec i k); [apply Z.testbit_neg_r; lia|].
    unfold generator. rewrite Z.lxor_spec, Z.pow2_bits_eqb by lia. f_equal. lia. }
  apply Z.bits_inj'. intros i Hi. rewrite Hr, Ht by done.
  assert (Z.testbit (if xorb (Z.testbit c 15) b then Z.lxor v (Z.shiftl generator k) else v) i =
    xorb (Z.testbit v i) (xorb (Z.testbit c 15) b && Z.testbit (Z.shiftl generator k) i)) as ->.
  { destruct (xorb (Z.testbit c 15) b); [now rewrite Z.lxor_spec | now rewrite xorb_false_r]. }
  rewrite Hv, Hg by done. generalize (Z.testbit m (i - 16)) (Z.testbit P (i - k)). intros x p.
  destruct (Z.ltb_spec i k).
  - rewrite Z.testbit_neg_r by lia. replace (i =? 16 + k) with false by lia.
    destruct b, x, (Z.testbit c 15); done.
  - destruct (Z.ltb_spec (i - k) 16).
    + replace (i =? 16 + k) with false by lia.
      destruct b, x, p, (Z.testbit c 15), (Z.testbit c (i - k - 1)); done.
    + destruct (Z.eqb_spec i (16 + k)) as [->|].
      * replace (16 + k - k - 1) with 15 by lia. destruct b, x, p, (Z.testbit c 15); done.
      * assert (Z.testbit c (i - k - 1) = false) as -> by (apply (testbit_high 16); unfold is_u16 in *; lia).
        destruct b, x, p, (Z.testbit c 15); done.
Qed.

Lemma bits_val_range bits : 0 <= bits_val bits < 2 ^ Z.of_nat (length bits).
Proof.
  induction bits as [|b rest IH]; [cbn; lia|]. cbn [bits_val length].
  set (k := Z.of_nat (length rest)) in *. replace (Z.of_nat (S (length rest))) with (k + 1) by lia.
  assert (0 <= Z.lxor (Z.shiftl (b2z b) k) (bits_val rest)).
  { apply Z.lxor_nonneg. assert (0 <= Z.shiftl (b2z b) k) by (apply Z.shiftl_nonneg; now destruct b). lia. }
  split; [done|]. destruct (decide (Z.lxor (Z.shiftl (b2z b) k) (bits_val rest) = 0)) as [->|];
    [apply Z.pow_pos_nonneg; lia|].
  apply Z.log2_lt_pow2; [lia|]. destruct (decide (k + 1 <= Z.log2 (Z.lxor (Z.shiftl (b2z b) k) (bits_val rest))))
    as [Hl|]; [|lia].
  pose proof (Z.bit_log2 (Z.lxor (Z.shiftl (b2z b) k) (bits_val rest)) ltac:(lia)) as Hb. revert Hl Hb.
  generalize (Z.log2 (Z.lxor (Z.shiftl (b2z b) k) (bits_val rest))). intros i Hi.
  rewrite Z.lxor_spec, Z.shiftl_spec, b2z_testbit, (testbit_high k (bits_val rest)) by lia.
  replace (i - k =? 0) with false by lia. now rewrite andb_false_r.
Qed.

Lemma crc_bits_division bits : ∀ c,
  is_u16 c →
  fold_left crc_bit bits c =
    gf2_rem generator (length bits)
      (Z.lxor (Z.shiftl c (Z.of_nat (length bits))) (Z.shiftl (bits_val bits) 16)).
Proof.
  induction bits as [|b rest IH]; intros c Hc.
  - cbn. now rewrite Z.lxor_0_r.
  - cbn [fold_left length gf2_rem bits_val].
    replace (Z.of_nat (S (length rest))) with (Z.of_nat (length rest) + 1) by lia.
    rewrite division_step by (apply bits_val_range || lia || done).
    apply IH, crc_bit_range.
Qed.

(** The value of a payload is that of its bits. *)
Lemma bits_of_length p : length (bits_of p) = (8 * length p)%nat.
Proof. unfold bits_of. induction p as [|b p IH]; [done|]. rewrite bind_cons, length_app, IH. cbn. lia. Qed.

Lemma bits_val_app x y :
  bits_val (x ++ y) = Z.lxor (Z.shiftl (bits_val x) (Z.of_nat (length y))) (bits_val y).
Proof.
  induction x as [|b x IH]; cbn [app bits_val].
  - now rewrite Z.shiftl_0_l, Z.lxor_0_l.
  - rewrite IH, length_app, Z.shiftl_lxor, Z.shiftl_shiftl, Z.lxor_assoc by lia.
    do 3 f_equal. lia.
Qed.

Lemma bits_val_byte b : is_u8 b → bits_val (bits8 b) = b.
Proof.
  intros Hb. unfold is_u8 in Hb.
  assert (forallb (λ n, bits_val (bits8 (Z.of_nat n)) =? Z.of_nat n) (seq 0 256) = true) as H
    by (vm_compute; reflexivity).
  rewrite forallb_forall in H. specialize (H (Z.to_nat b)).
  rewrite in_seq, Z2Nat.id in H by lia. lia.
Qed.

(** Disjoint bits: addition is exclusive or. *)
Lemma shiftl_lxor_add a n b : 0 <= n → 0 <= b < 2 ^ n → Z.lxor (Z.shiftl a n) b = a * 2 ^ n + b.
Proof.
  intros Hn Hb. rewrite <- Z.shiftl_mul_pow2 by done. symmetry. apply Z.add_nocarry_lxor.
  apply Z.bits_inj'. intros i Hi. rewrite Z.land_spec, Z.bits_0, Z.shiftl_spec by done.
  destruct (Z.ltb_spec i n); [rewrite Z.testbit_neg_r by lia; done|].
  rewrite (testbit_high n b) by lia. apply andb_false_r.
Qed.

Lemma be_val_snoc p b : be_val (p ++ [b]) = 256 * be_val p + b.
Proof. unfold be_val. now rewrite fold_left_app. Qed.

Lemma bits_val_payload p : Forall is_u8 p → bits_val (bits_of p) = be_val p.
Proof.
  induction p as [|b p IH] using rev_ind; intros Hp; [done|].
  apply Forall_app in Hp as [Hp Hb]. inversion Hb; subst.
  unfold bits_of. rewrite bind_app, bits_val_app, be_val_snoc.
  fold (bits_of p). rewrite IH by done. cbn [mbind list_bind].
  rewrite app_nil_r, bits_val_byte by done. cbn [length bits8 fmap list_fmap].
  rewrite shiftl_lxor_add by (done || lia). cbn. lia.
Qed.

(** ** CRC: errors

    With an odd generator the last decision of the division can be read off
    the remainder, so the division can be run backwards. *)
Hypothesis P_odd : Z.testbit P 0 = true.

Definition agree (k c d : Z) : Prop := ∀ i, 0 <= i < k → Z.testbit c i = Z.testbit d i.
Definition trigger (c : Z) (b : bool) : bool := xorb (Z.testbit c 15) b.

Lemma crc_bit_back k c d b e :
  1 <= k <= 16 → agree k (crc_bit c b) (crc_bit d e) →
  trigger c b = trigger d e ∧ agree (k - 1) c d.
Proof.
  intros Hk Ha. assert (trigger c b = trigger d e) as Ht.
  { specialize (Ha 0 ltac:(lia)). rewrite !crc_bit_testbit, P_odd in Ha by lia.
    rewrite !Z.testbit_neg_r, !andb_true_r, !andb_false_r in Ha by lia. exact Ha. }
  split; [done|]. intros i Hi. specialize (Ha (i + 1) ltac:(lia)).
  rewrite !crc_bit_testbit in Ha by lia. fold (trigger c b) (trigger d e) in Ha. rewrite Ht in Ha.
  replace (i + 1 <? 16) with true in Ha by lia. replace (i + 1 - 1) with i in Ha by lia.
  cbn [andb] in Ha. destruct (trigger d e && _), (Z.testbit c i), (Z.testbit d i); done.
Qed.

Fixpoint triggers (c : Z) (x : list bool) {struct x} : list bool :=
  match x with [] => [] | b :: x => trigger c b :: triggers (crc_bit c b) x end.

Lemma crc_bits_back x : ∀ y c d k,
  length x = length y → Z.of_nat (length x) <= k <= 16 →
  agree k (fold_left crc_bit x c) (fold_left crc_bit y d) →
  triggers c x = triggers d y ∧ agree (k - Z.of_nat (length x)) c d.
Proof.
  induction x as [|b x IH]; intros [|e y] c d k Hl Hk Ha; try done.
  - cbn in *. rewrite Z.sub_0_r. done.
  - cbn [fold_left length triggers] in *.
    destruct (IH y (crc_bit c b) (crc_bit d e) k) as [Ht Hag]; [lia | lia | done |].
    destruct (crc_bit_back (k - Z.of_nat (length x)) c d b e) as [Ht' Hag']; [lia | done |].
    split; [now rewrite Ht, Ht'|].
    now replace (k - Z.of_nat (S (length x))) with (k - Z.of_nat (length x) - 1) by lia.
Qed.

Lemma triggers_inj x : ∀ y c, triggers c x = triggers c y → x = y.
Proof.
  induction x as [|b x IH]; intros [|e y] c H; try done. cbn [triggers] in H.
  injection H as Hb Hx. assert (b = e) as <-.
  { unfold trigger in Hb. destruct (Z.testbit c 15), b, e; done. }
  f_equal. now apply (IH y (crc_bit c b)).
Qed.

Lemma is_u16_agree c d : is_u16 c → is_u16 d → agree 16 c d → c = d.
Proof.
  unfold is_u16. intros Hc Hd H. apply Z.bits_inj'. intros i Hi.
  destruct (Z.ltb_spec i 16); [apply H; lia|].
  now rewrite !(testbit_high 16) by lia.
Qed.

Lemma crc_bits_inj x : ∀ c d,
  is_u16 c → is_u16 d → fold_left crc_bit x c = fold_left crc_bit x d → c = d.
Proof.
  induction x as [|b x IH]; intros c d Hc Hd H; [done|]. cbn [fold_left] in H.
  apply IH in H; [|apply crc_bit_range..].
  destruct (crc_bit_back 16 c d b b) as [Ht Ha]; [lia | now rewrite H |].
  apply is_u16_agree; [done..|]. intros i Hi. destruct (decide (i = 15)) as [->|].
  - unfold trigger in Ht. destruct (Z.testbit c 15), (Z.testbit d 15), b; done.
  - apply Ha. lia.
Qed.

Lemma crc_bits_range x : ∀ c, is_u16 c → is_u16 (fold_left crc_bit x c).
Proof. induction x as [|b x IH]; intros c Hc; [done|]. apply IH, crc_bit_range. Qed.

(** A burst of at most 16 bits changes the register. *)
Lemma crc_burst pre x y post c :
  is_u16 c → length x = length y → (length x <= 16)%nat →
  fold_left crc_bit (pre ++ x ++ post) c = fold_left crc_bit (pre ++ y ++ post) c → x = y.
Proof.
  intros Hc Hl Hn. rewrite !fold_left_app. intros H.
  apply crc_bits_inj in H; [|apply crc_bits_range, crc_bits_range, Hc..].
  eapply triggers_inj, (crc_bits_back x y _ _ 16); [done | lia |]. now rewrite H.
Qed.

Lemma bits_of_inj p q : Forall is_u8 p → Forall is_u8 q → length p = length q →
  bits_of p = bits_of q → p = q.
Proof.
  revert q. induction p as [|b p IH]; intros [|e q] Hp Hq Hl H; try done.
  inversion Hp; inversion Hq; subst. unfold bits_of in H. rewrite !bind_cons in H.
  apply app_inj_1 in H as [Hb H]; [|done].
  apply (f_equal bits_val) in Hb. rewrite !bits_val_byte in Hb by done. subst e.
  f_equal. apply IH; auto.
Qed.
End Crc.

(** The two bytes written determine the register. *)
Lemma crc_result_inj CrcType c d :
  is_u16 c → is_u16 d → crc_result CrcType c = crc_result CrcType d → c = d.
Proof.
  unfold is_u16. intros Hc Hd.
  assert (∀ x y, 0 <= x < 65536 → 0 <= y < 65536 →
    [u8 (Z.shiftr x 8); u8 (Z.land x 0xFF)] = [u8 (Z.shiftr y 8); u8 (Z.land y 0xFF)] → x = y) as Hb.
  { intros x y Hx Hy H. injection H as H1 H2.
    change 0xFF with (Z.ones 8) in H2. rewrite !Z.land_ones, !Z.shiftr_div_pow2 in * by lia.
    unfold u8 in *. rewrite !Z.mod_mod in H2 by lia. change (2 ^ 8) with 256 in *.
    Z.to_euclidean_division_equations. lia. }
  unfold crc_result. destruct (CrcType =? RADIO_FSK_CRC_2_BYTES_IBM); intros H.
  - now apply Hb.
  - apply Hb in H; [|apply u16_range..]. unfold u16, Z.lnot in H.
    change (2 ^ 16) with 65536 in H. Z.to_euclidean_division_equations. lia.
Qed.

Lemma crc_detects (P seed CrcType : Z) (before burst burst' after : list Z) :
  0 <= P < 65536 → Z.odd P = true → 0 <= seed < 65536 →
  Forall is_u8 burst → Forall is_u8 burst' →
  length burst = length burst' → (length burst <= 2)%nat → burst ≠ burst' →
  crc_result CrcType (crc_run P seed (before ++ burst ++ after)) ≠
  crc_result CrcType (crc_run P seed (before ++ burst' ++ after)).
Proof.
  intros HP Hodd Hs Hb Hb' Hl Hn Hne Heq. apply Hne.
  assert (Z.testbit P 0 = true) as HP0 by now rewrite Z.bit0_odd.
  assert (∀ p, is_u16 (crc_run P seed p)) as Hreg.
  { intros p. rewrite crc_run_bits by done. now apply crc_bits_range. }
  assert (crc_run P seed (before ++ burst ++ after) = crc_run P seed (before ++ burst' ++ after)) as H.
  { apply crc_result_inj in Heq; [done | apply Hreg..]. }
  rewrite !crc_run_bits in H by done. unfold bits_of in H. rewrite !bind_app in H.
  fold (bits_of burst) (bits_of burst') in H.
  apply bits_of_inj; [done..|]. eapply (crc_burst P HP HP0); [exact Hs | | | exact H].
  - rewrite !bits_of_length. lia.
  - rewrite bits_of_length. lia.
Qed.

(** ** The properties *)

(** C15: whitening is undone by whitening again from the same seed, whatever the
    chunks in which the sender and the receiver process the packet. *)
Theorem dewhitening_chunks (seed : Z) (sent received : list (list Z)) :
  Forall is_u8 (concat sent) →
  concat received = concat (white_chunks seed sent) →
  concat (white_chunks seed received) = concat sent ∧
  snd (white_run seed (concat received)) = snd (white_run seed (concat sent)).
Proof.
  intros Hs Hr. rewrite white_chunks_concat in *. rewrite Hr.
  now rewrite white_run_undo.
Qed.

Lemma dewhitening_chunks_witness :
  concat (white_chunks 0x1FF (white_chunks 0x1FF [[0x12; 0x34]; [0x56]])) = [0x12; 0x34; 0x56] ∧
  concat (white_chunks 0x1FF [[237]; [213; 75]]) = [0x12; 0x34; 0x56].
Proof.
  split; apply (dewhitening_chunks 0x1FF [[0x12; 0x34]; [0x56]]);
    first [by_computation | vm_compute; reflexivity].
Defined.

(** C16: the whitening LFSR has the maximal period: from any seed of nine bits
    but 0 it goes through 511 states before it comes back. *)
Theorem white_lfsr_period (seed : Z) :
  0 < seed < 512 →
  Nat.iter 511 white_step seed = seed ∧
  ∀ k, (0 < k < 511)%nat → Nat.iter k white_step seed ≠ seed.
Proof.
  intros Hs. apply (return_time_spec 511).
  pose proof return_times as H. rewrite forallb_forall in H.
  specialize (H (Z.to_nat seed)). rewrite Z2Nat.id in H by lia.
  apply bool_decide_eq_true_1 in H; [done|]. apply in_seq. lia.
Qed.

Lemma white_lfsr_period_witness :
  Nat.iter 511 white_step 0x1FF = 0x1FF ∧
  ∀ k, (0 < k < 511)%nat → Nat.iter k white_step 0x1FF ≠ 0x1FF.
Proof. apply (white_lfsr_period 0x1FF). lia. Defined.

(** C13: the CRC of the firmware is the remainder of the division of the payload,
    as a polynomial over GF(2) followed by 16 zero bits and with the seed added
    to its first 16 bits, by the generator [x^16 + CrcPolynomial]. *)
Theorem crc_run_is_division (P seed : Z) (payload : list Z) :
  0 <= P < 65536 → 0 <= seed < 65536 → Forall is_u8 payload →
  crc_run P seed payload =
    gf2_rem (generator P) (8 * length payload)
      (Z.lxor (Z.shiftl seed (Z.of_nat (8 * length payload))) (Z.shiftl (be_val payload) 16)).
Proof.
  intros HP Hs Hp. rewrite crc_run_bits by done.
  rewrite crc_bits_division by done. now rewrite bits_of_length, bits_val_payload.
Qed.

(** The CCITT generator on the digits "123456789". *)
Lemma crc_run_is_division_witness :
  crc_run 0x1021 0x1D0F [49; 50; 51; 52; 53; 54; 55; 56; 57] = 0xE5CC ∧
  crc_run 0x1021 0x1D0F [49; 50; 51; 52; 53; 54; 55; 56; 57] =
    gf2_rem (generator 0x1021) 72 (Z.lxor (Z.shiftl 0x1D0F 72)
      (Z.shiftl (be_val [49; 50; 51; 52; 53; 54; 55; 56; 57]) 16)).
Proof.
  split; [vm_compute; reflexivity|].
  apply (crc_run_is_division 0x1021 0x1D0F [49; 50; 51; 52; 53; 54; 55; 56; 57]);
    [lia | lia | by_computation].
Defined.

(** C14: with an odd polynomial, as the IBM and CCITT ones, the CRC field written
    by the sender detects every change of two consecutive bytes of the packet. *)
Theorem crc_detects_bursts (P seed CrcType : Z) (before burst burst' after : list Z) :
  0 <= P < 65536 → Z.odd P = true → 0 <= seed < 65536 →
  Forall is_u8 burst → Forall is_u8 burst' →
  length burst = length burst' → (length burst <= 2)%nat → burst ≠ burst' →
  crc_result CrcType (crc_run P seed (before ++ burst ++ after)) ≠
  crc_result CrcType (crc_run P seed (before ++ burst' ++ after)).
Proof. apply crc_detects. Qed.

Lemma crc_detects_bursts_witness :
  crc_result RADIO_FSK_CRC_2_BYTES_CCIT (crc_run 0x1021 0x1D0F ([1; 2] ++ [3; 4] ++ [5])) ≠
  crc_result RADIO_FSK_CRC_2_BYTES_CCIT (crc_run 0x1021 0x1D0F ([1; 2] ++ [4; 3] ++ [5])).
Proof.
  apply (crc_detects_bursts 0x1021 0x1D0F RADIO_FSK_CRC_2_BYTES_CCIT [1; 2] [3; 4] [4; 3] [5]);
    first [by_computation | reflexivity | cbn; lia | done].
Defined.
