(* ===== verification/Packets.v ===== *)
(** * radio_fw.c: properties of the packets.

    What [RFW_Init] establishes, the packet that [RFW_TransmitInit] builds, and
    what the reception functions make of it.  The lemmas give the outcome of
    each operation on a state whose buffers have their C lengths. *)

From S2P Require Import Prelude Effects RadioTypes State Mem RadioDriver RadioFw Whitening.

(** ** What the configuration establishes *)

(** A configuration of the packet processing: a length field of one or two
    bytes, a CRC of two bytes or none. *)
Definition rfw_wf (i : RFwInit_t) : Prop :=
  (PayloadLengthFieldSize i = 1 ∨ PayloadLengthFieldSize i = 2) ∧
  ((CrcEnable i = 0 ∧ CrcFieldSize i = 0) ∨ (CrcEnable i = 1 ∧ CrcFieldSize i = 2)).

(** The arrays of radio_fw.c. *)
Definition buffers_ok (s : Sys) : Prop :=
  length (ChunkBuffer s) = 255%nat ∧ length (RxBuffer s) = 255%nat.

(** ** The packet format *)

Definition rfw_header (i : RFwInit_t) (size : Z) : list Z :=
  if PayloadLengthFieldSize i =? 1 then [size] else [0; size].

Definition rfw_crc (i : RFwInit_t) (body : list Z) : list Z :=
  if CrcEnable i =? 1
  then crc_result (CrcType i) (crc_run (CrcPolynomial i) (CrcSeed i) body) else [].

(** Length field, payload and CRC, before the whitening. *)
Definition rfw_clear (i : RFwInit_t) (payload : list Z) : list Z :=
  let body := rfw_header i (Z.of_nat (length payload)) ++ payload in body ++ rfw_crc i body.

Definition rfw_packet (i : RFwInit_t) (payload : list Z) : list Z :=
  fst (white_run (WhiteSeed i) (rfw_clear i payload)).

Lemma rfw_header_length i n :
  rfw_wf i → Z.of_nat (length (rfw_header i n)) = PayloadLengthFieldSize i.
Proof. unfold rfw_header. intros [[H|H] _]; rewrite H; done. Qed.

Lemma rfw_crc_length i body :
  rfw_wf i → Z.of_nat (length (rfw_crc i body)) = CrcFieldSize i.
Proof. unfold rfw_crc. intros [_ [[H H']|[H H']]]; rewrite H, H'; done. Qed.

Lemma rfw_clear_length i payload :
  rfw_wf i →
  Z.of_nat (length (rfw_clear i payload)) =
    Z.of_nat (length payload) + PayloadLengthFieldSize i + CrcFieldSize i.
Proof.
  intros H. unfold rfw_clear. rewrite !length_app.
  pose proof (rfw_header_length i (Z.of_nat (length payload)) H).
  pose proof (rfw_crc_length i (rfw_header i (Z.of_nat (length payload)) ++ payload) H). lia.
Qed.

Section Packets.
Context {cfg : Config} {env : Env}.

(** ** Outcomes of the buffer operations *)

Lemma read_chunk_eq s off n l :
  buf_read (ChunkBuffer s) off n = Some l → read_chunk off n s = Ret l s.
Proof. intros H. unfold read_chunk, gets, mbind, M_bind. now rewrite H. Qed.

Lemma write_chunk_eq s off src buf :
  buf_write (ChunkBuffer s) off src = Some buf →
  write_chunk off src s = Ret tt (s <| ChunkBuffer := buf |>).
Proof. intros H. unfold write_chunk, gets, mbind, M_bind. now rewrite H. Qed.

Lemma write_rx_eq s off src buf :
  buf_write (RxBuffer s) off src = Some buf →
  write_rx off src s = Ret tt (s <| RxBuffer := buf |>).
Proof. intros H. unfold write_rx, gets, mbind, M_bind. now rewrite H. Qed.

Lemma RFW_WhiteRun_eq s a b c off n :
  ChunkBuffer s = a ++ b ++ c → off = Z.of_nat (length a) → n = Z.of_nat (length b) →
  RFW_WhiteRun off n s =
    Ret tt (s <| ChunkBuffer := a ++ fst (white_run (WhiteLfsrState (RFWPacket s)) b) ++ c |>
              <| RFWPacket ; WhiteLfsrState := snd (white_run (WhiteLfsrState (RFWPacket s)) b) |>).
Proof.
  intros HB Ho Hn. unfold RFW_WhiteRun.
  erewrite bind_Ret by (apply read_chunk_eq; rewrite HB; now apply buf_read_mid).
  erewrite bind_Ret by reflexivity.
  destruct (white_run _ b) as [out st] eqn:E.
  assert (length out = length b) as Hl.
  { pose proof (white_run_length b (WhiteLfsrState (RFWPacket s))) as H. now rewrite E in H. }
  erewrite bind_Ret by (apply write_chunk_eq; rewrite HB; now apply buf_write_mid).
  reflexivity.
Qed.

Lemma RFW_CrcRun_eq s a b c off n :
  ChunkBuffer s = a ++ b ++ c → off = Z.of_nat (length a) → n = Z.of_nat (length b) →
  let crc := crc_run (CrcPolynomial (Init (RFWPacket s))) (CrcLfsrState (RFWPacket s)) b in
  RFW_CrcRun off n s =
    Ret (crc_result (CrcType (Init (RFWPacket s))) crc)
        (s <| RFWPacket ; CrcLfsrState := crc |>).
Proof.
  intros HB Ho Hn crc. unfold RFW_CrcRun.
  erewrite bind_Ret by (apply read_chunk_eq; rewrite HB; now apply buf_read_mid).
  reflexivity.
Qed.

Lemma crc_result_length t c : length (crc_result t c) = 2%nat.
Proof. done. Qed.

(** ** Transmission *)

(** The chunk buffer and the CRC state once the packet is assembled, before
    the whitening. *)
Lemma transmit_crc_eq s body rest crcSize :
  rfw_wf (Init (RFWPacket s)) → crcSize = CrcFieldSize (Init (RFWPacket s)) →
  ChunkBuffer s = body ++ rest → crcSize <= Z.of_nat (length rest) →
  ∃ crcState,
    when (CrcEnable (Init (RFWPacket s)) =? 1)
      (RFW_CrcSetState;;
       crc ← RFW_CrcRun 0 (Z.of_nat (length body));
       write_chunk (Z.of_nat (length body)) (take (Z.to_nat crcSize) crc)) s =
    Ret tt (s <| RFWPacket ; CrcLfsrState := crcState |>
              <| ChunkBuffer := (body ++ rfw_crc (Init (RFWPacket s)) body)
                                  ++ drop (Z.to_nat crcSize) rest |>).
Proof.
  intros [_ [[H1 H2]|[H1 H2]]] -> HB Hl; unfold rfw_crc; rewrite H1, H2 in *;
    cbn [Z.eqb Pos.eqb when].
  - exists (CrcLfsrState (RFWPacket s)). rewrite app_nil_r, drop_0, <- HB.
    now destruct s as [?????????? [] ???].
  - unfold RFW_CrcSetState, upd_rfw. eexists.
    erewrite bind_Ret by reflexivity.
    erewrite bind_Ret by (apply (RFW_CrcRun_eq _ [] body rest); done).
    erewrite write_chunk_eq; [rewrite <- app_assoc; reflexivity|].
    cbn -[crc_result crc_run]. rewrite HB.
    replace (body ++ rest) with (body ++ take 2 rest ++ drop 2 rest) by now rewrite take_drop.
    apply buf_write_mid; [done|]. rewrite !length_take, crc_result_length. lia.
Qed.

(** The length field and the payload, written around the length field. *)
Lemma transmit_body_eq s payload :
  rfw_wf (Init (RFWPacket s)) → buffers_ok s →
  let lenSize := PayloadLengthFieldSize (Init (RFWPacket s)) in
  let size := Z.of_nat (length payload) in
  size + lenSize <= 255 →
  (write_chunk lenSize payload;;
   write_chunk 0 (if lenSize =? 1 then [size] else [0; size])) s =
    Ret tt (s <| ChunkBuffer := (rfw_header (Init (RFWPacket s)) size ++ payload)
                                  ++ drop (Z.to_nat (size + lenSize)) (ChunkBuffer s) |>).
Proof.
  intros Hwf [HB _] lenSize size Hs.
  pose proof (rfw_header_length _ size Hwf) as Hh. fold lenSize in Hh.
  set (a := take (Z.to_nat lenSize) (ChunkBuffer s)).
  set (b := take (length payload) (drop (Z.to_nat lenSize) (ChunkBuffer s))).
  set (c := drop (Z.to_nat (size + lenSize)) (ChunkBuffer s)).
  assert (ChunkBuffer s = a ++ b ++ c) as HE.
  { unfold a, b, c. replace (Z.to_nat (size + lenSize)) with (Z.to_nat lenSize + length payload)%nat by lia.
    rewrite <- drop_drop, take_drop, take_drop. done. }
  assert (length a = Z.to_nat lenSize) as Ha by (unfold a; rewrite length_take; lia).
  assert (length b = length payload) as Hb by (unfold b; rewrite length_take, length_drop; lia).
  erewrite bind_Ret by (apply write_chunk_eq; rewrite HE; apply buf_write_mid; lia).
  erewrite write_chunk_eq; [reflexivity|]. cbn -[rfw_header]. rewrite <- app_assoc.
  apply (buf_write_mid [] a); [done|]. rewrite Ha. unfold rfw_header in Hh. fold lenSize in Hh. lia.
Qed.

(** A call that fits: the outcome. *)
Lemma transmit_init_fits s payload extra :
  RFW_ENABLE = true → rfw_wf (Init (RFWPacket s)) → buffers_ok s →
  let i := Init (RFWPacket s) in
  let total := Z.of_nat (length payload) + PayloadLengthFieldSize i + CrcFieldSize i in
  total <= 255 →
  ∃ s', Init (RFWPacket s') = i ∧ LongPacketModeEnable (RFWPacket s') = 0 ∧ buffers_ok s' ∧
    s' = s <| ChunkBuffer := ChunkBuffer s' |> <| RFWPacket := RFWPacket s' |> ∧
    RFW_TransmitInit (payload ++ extra) (Z.of_nat (length payload)) s =
      match buf_write (payload ++ extra) 0 (rfw_packet i payload) with
      | Some out => Ret (0, out, total) s'
      | None => Undef "write outside the caller's buffer"
                  (s' <| RFWPacket ; LongPacketModeEnable := LongPacketModeEnable (RFWPacket s) |>)
      end.
Proof.
  intros Hen Hwf Hok i total Ht. destruct Hok as [HB HR].
  set (size := Z.of_nat (length payload)) in *.
  set (body := rfw_header i size ++ payload).
  assert (Z.of_nat (length body) = size + PayloadLengthFieldSize i) as Hbl.
  { unfold body. rewrite length_app. pose proof (rfw_header_length i size Hwf). lia. }
  set (s1 := s <| ChunkBuffer := body ++ drop (Z.to_nat (size + PayloadLengthFieldSize i)) (ChunkBuffer s) |>).
  assert (0 <= CrcFieldSize i) as Hc0 by (destruct Hwf as [_ [[_ H]|[_ H]]]; unfold i; rewrite H; lia).
  set (rest := drop (Z.to_nat total) (ChunkBuffer s)).
  destruct (transmit_crc_eq s1 body (drop (Z.to_nat (size + PayloadLengthFieldSize i)) (ChunkBuffer s))
              (CrcFieldSize i)) as (crcState & Hs2); [done | done | done | rewrite length_drop; lia |].
  rewrite drop_drop in Hs2. change (Init (RFWPacket s1)) with i in *.
  change (body ++ rfw_crc i body) with (rfw_clear i payload) in Hs2.
  replace (_ + Z.to_nat (CrcFieldSize i))%nat with (Z.to_nat total) in Hs2
    by (destruct Hwf as [[?|?] [[??]|[??]]]; unfold i in *; lia).
  fold rest in Hs2.
  pose proof (rfw_clear_length i payload Hwf) as Hcl. fold size total in Hcl.
  set (packet := rfw_packet i payload).
  assert (length packet = length (rfw_clear i payload)) as Hpl by apply white_run_length.
  exists (s <| ChunkBuffer := packet ++ rest |>
            <| RFWPacket ; CrcLfsrState := crcState |>
            <| RFWPacket ; WhiteLfsrState := snd (white_run (WhiteSeed i) (rfw_clear i payload)) |>
            <| RFWPacket ; LongPacketModeEnable := 0 |>).
  split; [done|]. split; [done|]. split; [|split; [done|]].
  { split; [|done]. cbn -[packet rest]. unfold rest. rewrite length_app, length_drop. lia. }
  unfold RFW_TransmitInit. rewrite Hen. cbn [negb].
  erewrite bind_Ret by reflexivity. cbv zeta. fold i.
  replace (RADIO_BUF_SIZE <? _) with false by (unfold RADIO_BUF_SIZE; lia).
  pose proof (buf_read_mid [] payload extra 0 size eq_refl eq_refl) as Hrd. cbn [app] in Hrd.
  rewrite Hrd.
  erewrite bind_Ret by reflexivity.
  rewrite <- bind_assoc.
  erewrite bind_Ret by (apply transmit_body_eq; [done | done | fold i; fold size; lia]).
  fold i size body s1. rewrite <- Hbl.
  erewrite bind_Ret by exact Hs2.
  erewrite bind_Ret by reflexivity.
  erewrite bind_Ret.
  2:{ apply (RFW_WhiteRun_eq _ [] (rfw_clear i payload) rest); [done | done | lia]. }
  rewrite Hbl. fold total. rewrite u8_small by lia.
  erewrite bind_Ret.
  2:{ apply read_chunk_eq. apply (buf_read_mid [] packet rest); [done | lia]. }
  destruct (buf_write (payload ++ extra) 0 packet); reflexivity.
Qed.
(** ** Reception *)

(** The timers, the register reads and the bit rate leave all but the trace. *)
Definition same_but_trace (s0 s : Sys) : Prop := s = s0 <| trace := trace s |>.

Lemma keeps_same_emit s0 e : keeps (same_but_trace s0) (emit e).
Proof. intros s H. unfold same_but_trace in *. now rewrite H. Qed.
Hint Resolve keeps_same_emit : keeps.

Lemma keeps_same_read s0 addr : keeps (same_but_trace s0) (SUBGRF_ReadRegister addr).
Proof. unfold SUBGRF_ReadRegister, HAL_SUBGHZ_ReadRegisters. solve_keeps. Qed.
Lemma keeps_same_elapsed s0 t : keeps (same_but_trace s0) (TimerGetElapsedTime t).
Proof. unfold TimerGetElapsedTime. solve_keeps. Qed.
Lemma keeps_same_now s0 : keeps (same_but_trace s0) TimerGetCurrentTime.
Proof. unfold TimerGetCurrentTime. solve_keeps. Qed.
Lemma keeps_same_bitrate s0 f : keeps (same_but_trace s0) (by_BitRate f).
Proof. unfold by_BitRate. solve_keeps. Qed.
Hint Resolve keeps_same_read keeps_same_elapsed keeps_same_now keeps_same_bitrate : keeps.

Lemma keeps_same_poll_loop s0 fuel : ∀ now timeout bytes ref ptr,
  keeps (same_but_trace s0) (poll_loop fuel now timeout bytes ref ptr).
Proof.
  induction fuel as [|fuel IH]; intros now timeout bytes ref ptr; cbn [poll_loop];
    [apply keeps_spin|].
  apply keeps_if; [|apply keeps_ret]. apply keeps_bind; [auto with keeps|]. intros p.
  apply keeps_bind; [auto with keeps|]. intros e. apply keeps_if; [apply keeps_ret | apply IH].
Qed.
Hint Resolve keeps_same_poll_loop : keeps.

Lemma keeps_same_poll s0 fuel bytes : keeps (same_but_trace s0) (RFW_PollRxBytes fuel bytes).
Proof.
  unfold RFW_PollRxBytes. repeat (apply keeps_bind; [auto with keeps|]; intro). auto with keeps.
Qed.

Lemma poll_same fuel bytes s st s1 :
  RFW_PollRxBytes fuel bytes s = Ret st s1 → s1 = s <| trace := trace s1 |>.
Proof.
  intros H. pose proof (keeps_same_poll s fuel bytes s) as K. rewrite H in K. apply K.
  unfold same_but_trace. now destruct s.
Qed.

(** What the radio's buffer holds: [bytes] from address 0. *)
Definition rx_holds (bytes : list Z) : Prop :=
  Forall is_u8 bytes ∧
  ∀ tr i, (i < length bytes)%nat → rx_buffer_answer tr (Z.of_nat i) = bytes !!! i.

Lemma ReadBuffer_holds bytes off mid after s :
  rx_holds bytes → bytes = off ++ mid ++ after →
  SUBGRF_ReadBuffer (Z.of_nat (length off)) (length mid) s =
    Ret mid (s <| trace := trace s ++ [EvReadBuffer (Z.of_nat (length off)) (length mid)] |>).
Proof.
  intros [Hb Hr] ->. unfold SUBGRF_ReadBuffer, HAL_SUBGHZ_ReadBuffer.
  erewrite bind_Ret by reflexivity. erewrite bind_Ret by reflexivity.
  unfold mret, M_ret. f_equal. apply list_eq. intros i. rewrite list_lookup_fmap.
  destruct (decide (i < length mid)%nat) as [Hi|Hi].
  - rewrite lookup_seq_lt by done. cbn [fmap option_fmap option_map].
    rewrite Nat.add_0_l, <- Nat2Z.inj_add, Hr by (rewrite !length_app; lia).
    rewrite lookup_total_app_r by lia. rewrite lookup_total_app_l by lia.
    replace (length off + i - length off)%nat with i by lia.
    rewrite (list_lookup_lookup_total_lt mid i) by done. f_equal.
    apply u8_small. apply Forall_app in Hb as [_ Hb]. apply Forall_app in Hb as [Hb _].
    rewrite Forall_forall in Hb. apply Hb, list_elem_of_lookup_total_2. done.
  - rewrite (lookup_ge_None_2 mid) by lia. rewrite lookup_seq_ge by lia. done.
Qed.
(** The header of a packet and the rest of it, once whitened. *)
Lemma rfw_packet_split i payload :
  let hdr := rfw_header i (Z.of_nat (length payload)) in
  let tail := payload ++ rfw_crc i (hdr ++ payload) in
  rfw_packet i payload =
    fst (white_run (WhiteSeed i) hdr) ++ fst (white_run (snd (white_run (WhiteSeed i) hdr)) tail).
Proof.
  cbv zeta. unfold rfw_packet, rfw_clear. rewrite <- app_assoc, white_run_app. done.
Qed.

Lemma rfw_header_bytes i n : 0 <= n < 256 → Forall is_u8 (rfw_header i n).
Proof.
  intros Hn. unfold rfw_header, is_u8. destruct (_ =? 1); repeat constructor; lia.
Qed.

Lemma rfw_crc_bytes i body : Forall is_u8 (rfw_crc i body).
Proof.
  unfold rfw_crc. destruct (_ =? 1); [|constructor]. unfold crc_result.
  repeat constructor; apply u8_range.
Qed.

(** The state once the length field was read. *)
Definition after_header (s : Sys) (hdr : list Z) (tr : list HalEvent) : Sys :=
  let i := Init (RFWPacket s) in
  s <| trace := tr |>
    <| ChunkBuffer := hdr ++ drop (length hdr) (ChunkBuffer s) |>
    <| RFWPacket ; WhiteLfsrState := snd (white_run (WhiteSeed i) hdr) |>
    <| RFWPacket ; CrcLfsrState :=
         if CrcEnable i =? 1 then crc_run (CrcPolynomial i) (CrcSeed i) hdr else CrcSeed i |>.

(** [RFW_ReceiveInit] was called. *)
Definition receive_ready (s : Sys) : Prop :=
  rfw_wf (Init (RFWPacket s)) ∧ buffers_ok s ∧
  WhiteLfsrState (RFWPacket s) = WhiteSeed (Init (RFWPacket s)) ∧
  CrcLfsrState (RFWPacket s) = CrcSeed (Init (RFWPacket s)) ∧
  RxPayloadOffset (RFWPacket s) = 0 ∧ LongPacketModeEnable (RFWPacket s) = 0.

(** The length field, once its bytes [hdr] are there to be read. *)
Lemma get_packet_length_read fuel s s1 hdr :
  let i := Init (RFWPacket s) in
  let wh := fst (white_run (WhiteSeed i) hdr) in
  let read := EvReadBuffer 0 (length hdr) in
  rfw_wf i → buffers_ok s →
  WhiteLfsrState (RFWPacket s) = WhiteSeed i → CrcLfsrState (RFWPacket s) = CrcSeed i →
  Forall is_u8 hdr → Z.of_nat (length hdr) = PayloadLengthFieldSize i →
  RFW_PollRxBytes fuel (PayloadLengthFieldSize i) s = Ret 0 s1 →
  SUBGRF_ReadBuffer 0 (length hdr) s1 = Ret wh (s1 <| trace := trace s1 ++ [read] |>) →
  RFW_GetPacketLength fuel s = Ret (Some (be_val hdr)) (after_header s hdr (trace s1 ++ [read])).
Proof.
  intros i wh read Hwf [HB HR] HW HC Hhb Hhl Hpoll Hread.
  assert (length wh = length hdr) as Hwl by apply white_run_length.
  pose proof (poll_same _ _ _ _ _ Hpoll) as Hs1. set (tr1 := trace s1) in *.
  rewrite Hs1 in Hpoll, Hread. clear Hs1.
  set (rest := drop (length hdr) (ChunkBuffer s)).
  assert (ChunkBuffer s = [] ++ take (length hdr) (ChunkBuffer s) ++ rest) as HE
    by (cbn [app]; symmetry; apply take_drop).
  assert (PayloadLengthFieldSize i = 1 ∨ PayloadLengthFieldSize i = 2) as Hls by apply Hwf.
  assert (length (take (length hdr) (ChunkBuffer s)) = length hdr) as Htl
    by (rewrite length_take; lia).
  assert (white_run (WhiteSeed i) wh = (hdr, snd (white_run (WhiteSeed i) hdr))) as Hundo
    by now apply white_run_undo.
  unfold RFW_GetPacketLength.
  erewrite bind_Ret by reflexivity. cbv zeta. fold i.
  erewrite bind_Ret by exact Hpoll. cbn [negb Z.eqb].
  rewrite <- Hhl, Nat2Z.id.
  erewrite bind_Ret by exact Hread.
  erewrite bind_Ret.
  2:{ apply write_chunk_eq. sys_simpl. rewrite HE. apply buf_write_mid; [done | lia]. }
  erewrite bind_Ret.
  2:{ erewrite (RFW_WhiteRun_eq _ [] wh rest); [|done | done | lia].
      sys_simpl. rewrite HW, Hundo. reflexivity. }
  sys_simpl. cbn [fst snd app].
  set (s3 := mkSys _ _ _ _ _ _ _ _ _ _ _ _ _ _).
  assert (∃ c, when (CrcEnable i =? 1) (_ ← RFW_CrcRun 0 (Z.of_nat (length hdr)); skip) s3 =
    Ret tt (s3 <| RFWPacket ; CrcLfsrState := c |>) ∧
    c = if CrcEnable i =? 1 then crc_run (CrcPolynomial i) (CrcSeed i) hdr else CrcSeed i)
    as (c & Hcrc & ->).
  { destruct (CrcEnable i =? 1); eexists; (split; [|reflexivity]); cbn [when].
    - erewrite bind_Ret by (apply (RFW_CrcRun_eq _ [] hdr rest); [done | done | lia]).
      unfold skip, s3. sys_simpl. rewrite HC. done.
    - unfold skip, s3. sys_simpl. rewrite <- HC. done. }
  erewrite bind_Ret by exact Hcrc.
  set (s4 := modify RFWPacket _ s3).
  assert (∀ k, k = Z.of_nat (length hdr) → read_chunk 0 k s4 = Ret hdr s4) as Hrd.
  { intros k ->. apply read_chunk_eq. now apply (buf_read_mid [] hdr rest). }
  transitivity (Ret (Some (be_val hdr)) s4); [|reflexivity].
  destruct hdr as [|b0 [|b1 [|]]]; cbn [length] in *; try lia;
    [change (Z.of_nat 1 =? 1) with true | change (Z.of_nat 2 =? 1) with false]; cbv iota; erewrite bind_Ret by (apply Hrd; reflexivity); unfold be_val, nth_byte;
    cbn [fold_left lookup list_lookup default id]; unfold mret, M_ret; do 2 f_equal.
  inversion Hhb as [|? ? ? Hb1]. inversion Hb1; subst.
  rewrite be_lor by done. lia.
Qed.

Lemma get_packet_length_eq fuel s s1 payload :
  let i := Init (RFWPacket s) in
  receive_ready s → (length payload < 256)%nat →
  rx_holds (rfw_packet i payload) →
  RFW_PollRxBytes fuel (PayloadLengthFieldSize i) s = Ret 0 s1 →
  ∃ tr, RFW_GetPacketLength fuel s =
    Ret (Some (Z.of_nat (length payload)))
        (after_header s (rfw_header i (Z.of_nat (length payload))) tr).
Proof.
  intros i (Hwf & Hbuf & HW & HC & _) Hl Hrx Hpoll.
  set (size := Z.of_nat (length payload)). set (hdr := rfw_header i size).
  assert (be_val hdr = size) as Hbe.
  { unfold hdr, rfw_header. destruct (_ =? 1); unfold be_val; cbn [fold_left]; lia. }
  eexists. etransitivity; [|by rewrite <- Hbe].
  eapply (get_packet_length_read fuel s s1 hdr Hwf Hbuf HW HC);
    [apply rfw_header_bytes; lia | by apply rfw_header_length | exact Hpoll |].
  rewrite <- (white_run_length hdr (WhiteSeed i)) at 1.
  erewrite (ReadBuffer_holds _ [] _ _ s1 Hrx); [by rewrite white_run_length | apply rfw_packet_split].
Qed.

(** The state once the rest of the packet, [data] and [tail], was read,
    cleared and stored. *)
Definition after_payload (s : Sys) (n : nat) (w : Z) (data tail : list Z) (tr : list HalEvent) : Sys :=
  let i := Init (RFWPacket s) in
  s <| OperatingMode := MODE_STDBY_RC |>
    <| trace := tr |>
    <| ChunkBuffer := (data ++ tail) ++ drop n (ChunkBuffer s) |>
    <| RxBuffer := data ++ drop (length data) (RxBuffer s) |>
    <| RFWPacket ; WhiteLfsrState := w |>
    <| RFWPacket ; CrcLfsrState :=
         if CrcEnable i =? 1
         then crc_run (CrcPolynomial i) (CrcLfsrState (RFWPacket s)) data
         else CrcLfsrState (RFWPacket s) |>
    <| RFWPacket ; RxPayloadOffset := Z.of_nat (length data) |>.

(** The CRC that [RFW_GetPayload] compares with the received one. *)
Definition computed_crc (f : RadioFw_t) (data : list Z) : list Z :=
  if CrcEnable (Init f) =? 1
  then crc_result (CrcType (Init f)) (crc_run (CrcPolynomial (Init f)) (CrcLfsrState f) data)
  else [0; 0].

(** The last chunk, once its bytes are there to be read. *)
Lemma get_payload_read s off data tail :
  let i := Init (RFWPacket s) in
  let run := white_run (WhiteLfsrState (RFWPacket s)) (data ++ tail) in
  let n := length (data ++ tail) in
  let tr := trace s ++ [EvSetCmd RADIO_SET_STANDBY [RadioStandbyModes_t_code STDBY_RC]] in
  let read := EvReadBuffer off n in
  let s1 := s <| OperatingMode := MODE_STDBY_RC |> <| trace := tr |> in
  buffers_ok s → Forall is_u8 (data ++ tail) → (n <= 255)%nat →
  Z.of_nat (length tail) = CrcFieldSize i →
  SUBGRF_ReadBuffer off n s1 = Ret (fst run) (s1 <| trace := tr ++ [read] |>) →
  RFW_GetPayload off (Z.of_nat n) s =
  RFW_GetPayload_store (Z.of_nat n) (computed_crc (RFWPacket s) data)
    (s <| OperatingMode := MODE_STDBY_RC |>
       <| trace := tr ++ [read] |>
       <| ChunkBuffer := (data ++ tail) ++ drop n (ChunkBuffer s) |>
       <| RFWPacket ; WhiteLfsrState := snd run |>
       <| RFWPacket ; CrcLfsrState :=
            if CrcEnable i =? 1
            then crc_run (CrcPolynomial i) (CrcLfsrState (RFWPacket s)) data
            else CrcLfsrState (RFWPacket s) |>).
Proof.
  intros i run n tr read s1 [HB HR] Hby Hn Htl Hread.
  assert (length (fst run) = n) as Hcl by apply white_run_length.
  assert (white_run (WhiteLfsrState (RFWPacket s)) (fst run) = (data ++ tail, snd run)) as Hundo
    by now apply white_run_undo.
  assert (Z.of_nat n - CrcFieldSize i = Z.of_nat (length data)) as Hdata
    by (unfold n; rewrite length_app; lia).
  set (rest := drop n (ChunkBuffer s)).
  assert (ChunkBuffer s = [] ++ take n (ChunkBuffer s) ++ rest) as HE
    by (cbn [app]; symmetry; apply take_drop).
  unfold RFW_GetPayload, SUBGRF_SetStandby, SUBGRF_WriteCommand, HAL_SUBGHZ_ExecSetCmd, emit.
  rewrite bind_assoc. erewrite bind_Ret by reflexivity. erewrite bind_Ret by reflexivity.
  rewrite Nat2Z.id. erewrite bind_Ret by exact Hread.
  erewrite bind_Ret.
  2:{ apply write_chunk_eq. unfold s1. sys_simpl. rewrite HE. apply buf_write_mid; [done|].
      rewrite length_take. lia. }
  erewrite bind_Ret.
  2:{ erewrite (RFW_WhiteRun_eq _ [] (fst run) rest); [|done | done | lia].
      unfold s1. sys_simpl. rewrite Hundo. reflexivity. }
  erewrite bind_Ret by reflexivity. unfold s1. sys_simpl. cbn [fst snd app]. fold i. rewrite Hdata.
  set (s3 := mkSys _ _ _ _ _ _ _ _ _ _ _ _ _ _).
  assert (ChunkBuffer s3 = [] ++ data ++ (tail ++ rest)) as HE3.
  { unfold s3. sys_simpl. now rewrite <- app_assoc. }
  assert (crc_if_enabled 0 (Z.of_nat (length data)) s3 =
    Ret (computed_crc (RFWPacket s) data) (s3 <| RFWPacket ; CrcLfsrState :=
      if CrcEnable i =? 1 then crc_run (CrcPolynomial i) (CrcLfsrState (RFWPacket s)) data
      else CrcLfsrState (RFWPacket s) |>)) as Hcrc.
  { unfold crc_if_enabled, computed_crc. fold i. erewrite bind_Ret by reflexivity.
    change (Init (RFWPacket s3)) with i. destruct (CrcEnable i =? 1); [|done].
    erewrite RFW_CrcRun_eq; [|exact HE3 | done..]. done. }
  erewrite bind_Ret by exact Hcrc. reflexivity.
Qed.

Lemma get_payload_eq s off data tail after :
  let i := Init (RFWPacket s) in
  let w := WhiteLfsrState (RFWPacket s) in
  rfw_wf i → buffers_ok s → Forall is_u8 (data ++ tail) →
  rx_holds (off ++ fst (white_run w (data ++ tail)) ++ after) →
  Z.of_nat (length tail) = CrcFieldSize i → (length (data ++ tail) <= 255)%nat →
  (length data < 255)%nat →
  RxPayloadOffset (RFWPacket s) = 0 → LongPacketModeEnable (RFWPacket s) = 0 →
  RFW_GetPayload (Z.of_nat (length off)) (Z.of_nat (length (data ++ tail))) s =
    RFW_GetPayload_report (Z.of_nat (length (data ++ tail))) (computed_crc (RFWPacket s) data)
      (after_payload s (length (data ++ tail)) (snd (white_run w (data ++ tail))) data tail
         ((trace s ++ [EvSetCmd RADIO_SET_STANDBY [RadioStandbyModes_t_code STDBY_RC]]) ++
          [EvReadBuffer (Z.of_nat (length off)) (length (data ++ tail))])).
Proof.
  intros i w Hwf Hbuf Hby Hrx Htl Hl Hdl HO HLP. pose proof Hbuf as [HB HR].
  rewrite get_payload_read; [|done..|].
  2:{ rewrite <- (white_run_length (data ++ tail) w) at 1.
      erewrite (ReadBuffer_holds _ off _ after _ Hrx); [by rewrite white_run_length | done]. }
  unfold RFW_GetPayload_store. erewrite bind_Ret by reflexivity. cbv zeta. sys_simpl.
  rewrite HLP, HO. cbn [Z.eqb]. fold i w.
  assert (Z.of_nat (length (data ++ tail)) - CrcFieldSize i = Z.of_nat (length data)) as Hdata
    by (rewrite length_app; lia).
  replace (_ <? RADIO_BUF_SIZE) with true by (unfold RADIO_BUF_SIZE; lia).
  rewrite Hdata.
  erewrite bind_Ret.
  2:{ apply read_chunk_eq. sys_simpl. rewrite <- app_assoc. now apply (buf_read_mid []). }
  erewrite bind_Ret.
  2:{ apply write_rx_eq. sys_simpl.
      rewrite <- (take_drop (length data) (RxBuffer s)) at 1.
      apply (buf_write_mid []); [done|]. rewrite length_take. lia. }
  erewrite bind_Ret by reflexivity. cbn [app].
  apply (f_equal (RFW_GetPayload_report _ _)).
  unfold after_payload. sys_simpl. rewrite ?HO, ?HLP, Z.add_0_l, u16_small by lia.
  reflexivity.
Qed.

(** [SUBGRF_GetCFO] ends the process. *)
Definition cfo_error : string := "SUBGRF_GetCFO(): lora-simulator does not support FSK".

(** The report when the packet is accepted: it reads the RSSI and ends in
    [SUBGRF_GetCFO]. *)
Lemma report_accept st data tail rest t crc :
  ChunkBuffer st = (data ++ tail) ++ rest → rfw_RxTimeoutTimer (RFWPacket st) = Some t →
  2 <= Z.of_nat (length (data ++ tail)) →
  (CrcEnable (Init (RFWPacket st)) = 0 ∨ (length tail = 2%nat ∧ crc = tail)) →
  RFW_GetPayload_report (Z.of_nat (length (data ++ tail))) crc st =
    Exit cfo_error (st <| trace := trace st ++ [EvTimerStop t; EvReadRegisters 0x06CA 1] |>).
Proof.
  intros HB Ht Hl Hok. unfold RFW_GetPayload_report, on_timer, emit.
  erewrite bind_Ret by reflexivity. rewrite Ht.
  erewrite bind_Ret by reflexivity.
  set (st1 := modify trace _ st).
  assert (∀ k, 1 <= k <= 2 → ∃ b, (data ++ tail) !! Z.to_nat (Z.of_nat (length (data ++ tail)) - k) = Some b ∧
    read_chunk (Z.of_nat (length (data ++ tail)) - k) 1 st1 = Ret [b] st1) as Hrd.
  { intros k Hk. set (n := Z.to_nat (Z.of_nat (length (data ++ tail)) - k)).
    destruct (lookup_lt_is_Some_2 (data ++ tail) n) as [b Hb]; [lia|].
    exists b. split; [done|]. apply read_chunk_eq. sys_simpl. change (ChunkBuffer st1) with (ChunkBuffer st).
    rewrite HB. assert (Z.of_nat (length (data ++ tail)) - k = Z.of_nat (length (take n (data ++ tail)))) as ->
      by (rewrite length_take; unfold n; lia).
    rewrite <- (take_drop_middle _ _ _ Hb) at 1. rewrite <- app_assoc. now apply (buf_read_mid _ [b]). }
  destruct (Hrd 2 ltac:(lia)) as (b0 & Hb0 & H0). destruct (Hrd 1 ltac:(lia)) as (b1 & Hb1 & H1).
  erewrite bind_Ret by exact H0.
  assert (∃ ok, (if nth_byte crc 0 =? nth_byte [b0] 0
    then c1 ← read_chunk (Z.of_nat (length (data ++ tail)) - 1) 1; mret (nth_byte crc 1 =? nth_byte c1 0)
    else mret false) st1 = Ret ok st1 ∧
    (ok || (CrcEnable (Init (RFWPacket st)) =? 0)) = true) as (ok & Hok1 & Hok2).
  { destruct Hok as [Hok|[Htl ->]].
    - rewrite Hok. destruct (nth_byte crc 0 =? nth_byte [b0] 0).
      + eexists. erewrite bind_Ret by exact H1. split; [reflexivity | apply orb_true_r].
      + eexists. split; [reflexivity | done].
    - destruct tail as [|x [|y [|]]]; try done. clear HB.
      rewrite length_app in Hb0, Hb1. cbn [length] in Hb0, Hb1.
      rewrite lookup_app_r in Hb0, Hb1 by lia.
      replace (_ - length data)%nat with 0%nat in Hb0 by lia.
      replace (_ - length data)%nat with 1%nat in Hb1 by lia.
      injection Hb0 as <-. injection Hb1 as <-.
      change (nth_byte [x; y] 0) with x. change (nth_byte [x] 0) with x. rewrite Z.eqb_refl.
      erewrite bind_Ret by exact H1. eexists. split; [reflexivity|]. cbn. now rewrite Z.eqb_refl. }
  erewrite bind_Ret by exact Hok1. rewrite Hok2. unfold st1. sys_simpl.
  change [EvTimerStop t; EvReadRegisters 0x06CA 1] with ([EvTimerStop t] ++ [EvReadRegisters 0x06CA 1]).
  rewrite app_assoc. reflexivity.
Qed.
(** The report when the received CRC is not the computed one. *)
Lemma report_reject st data tail rest t c0 c1 :
  ChunkBuffer st = (data ++ tail) ++ rest → rfw_RxTimeoutTimer (RFWPacket st) = Some t →
  CrcEnable (Init (RFWPacket st)) = 1 → length tail = 2%nat → tail ≠ [c0; c1] →
  RFW_GetPayload_report (Z.of_nat (length (data ++ tail))) [c0; c1] st =
    (call_event ev_RxError App_RxError;; emit (EvProbe DBG_GPIO_RADIO_RX RST))
      (st <| trace := trace st ++ [EvTimerStop t] |>).
Proof.
  intros HB Ht He Htl Hne. unfold RFW_GetPayload_report, on_timer, emit.
  destruct tail as [|x [|y [|]]]; try done. rewrite length_app. cbn [length].
  rewrite <- app_assoc in HB. cbn [app] in HB.
  erewrite bind_Ret by reflexivity. rewrite Ht. erewrite bind_Ret by reflexivity.
  set (st1 := modify trace _ st).
  erewrite bind_Ret.
  2:{ apply read_chunk_eq. change (ChunkBuffer st1) with (ChunkBuffer st). rewrite HB.
      apply (buf_read_mid data [x]); [lia | done]. }
  assert ((if nth_byte [c0; c1] 0 =? nth_byte [x] 0
    then c ← read_chunk (Z.of_nat (length data + 2) - 1) 1; mret (nth_byte [c0; c1] 1 =? nth_byte c 0)
    else mret false) st1 = Ret false st1) as Hok.
  { change (nth_byte [c0; c1] 0) with c0. change (nth_byte [x] 0) with x.
    destruct (Z.eqb_spec c0 x) as [->|]; [|done].
    erewrite bind_Ret.
    2:{ apply read_chunk_eq. change (ChunkBuffer st1) with (ChunkBuffer st). rewrite HB.
        replace (data ++ x :: y :: rest) with ((data ++ [x]) ++ [y] ++ rest) by now rewrite <- app_assoc.
        apply (buf_read_mid (data ++ [x]) [y]); [rewrite length_app; cbn [length]; lia | done]. }
    unfold mret, M_ret. f_equal. apply Z.eqb_neq. change (c1 ≠ y). congruence. }
  erewrite bind_Ret by exact Hok. rewrite He. reflexivity.
Qed.

(** The report to an application that does nothing else in its callback. *)
Lemma call_error_eq st ev :
  rfw_RadioEvents (Init (RFWPacket st)) = Some ev → ev_RxError ev = true →
  (∀ s, app_reaction App_RxError s = s) →
  (call_event ev_RxError App_RxError;; emit (EvProbe DBG_GPIO_RADIO_RX RST)) st =
    Ret tt (st <| trace := trace st ++ [EvApp App_RxError; EvProbe DBG_GPIO_RADIO_RX RST] |>).
Proof.
  intros Hev Herr Hq. unfold call_event. rewrite bind_assoc. erewrite bind_Ret by reflexivity.
  rewrite Hev, Herr. unfold call_app. rewrite bind_assoc. erewrite bind_Ret by reflexivity.
  erewrite bind_Ret by (unfold update; rewrite Hq; reflexivity).
  unfold emit, update. sys_simpl. by rewrite <- app_assoc.
Qed.

(** ** From the sender to the receiver *)

(** The two ends have the same packet format. *)
Definition same_format (i j : RFwInit_t) : Prop :=
  PayloadLengthFieldSize i = PayloadLengthFieldSize j ∧ CrcEnable i = CrcEnable j ∧
  CrcFieldSize i = CrcFieldSize j ∧ CrcType i = CrcType j ∧
  CrcPolynomial i = CrcPolynomial j ∧ CrcSeed i = CrcSeed j ∧ WhiteSeed i = WhiteSeed j.

Lemma same_format_packet i j payload : same_format i j → rfw_packet i payload = rfw_packet j payload.
Proof.
  intros (H1 & H2 & H3 & H4 & H5 & H6 & H7).
  unfold rfw_packet, rfw_clear, rfw_header, rfw_crc. now rewrite H1, H2, H4, H5, H6, H7.
Qed.

(** A receiver that [RFW_Init] and [RFW_ReceiveInit] prepared, for packets of
    [size] bytes. *)
Definition receiver_for (size : Z) (s : Sys) : Prop :=
  receive_ready s ∧ size <= LongPacketMaxRxLength (Init (RFWPacket s)) ∧
  BitRate (RFWPacket s) ≠ 0 ∧ is_Some (rfw_RxTimeoutTimer (RFWPacket s)).

(** [RFW_ReceivePayload] reads the length and starts the packet timer. *)
Lemma receive_payload_starts fuel s n s1 :
  let i := Init (RFWPacket s1) in
  RFW_ENABLE = true → RFW_GetPacketLength fuel s = Ret (Some n) s1 →
  n <= LongPacketMaxRxLength i → BitRate (RFWPacket s1) ≠ 0 →
  ∃ v, RFW_ReceivePayload fuel s = Ret tt
    (s1 <| trace := trace s1 ++ [EvTimerSetValue RFWPacket_Timer v; EvTimerStart RFWPacket_Timer] |>
        <| RFWPacket ; rfw_PayloadLength := n |>
        <| RFWPacket ; LongPacketRemainingBytes := u16 (n + CrcFieldSize i) |>
        <| RFWPacket ; RadioBufferOffset := PayloadLengthFieldSize i |>).
Proof.
  intros i Hen Hlen Hmax Hbr. eexists. unfold RFW_ReceivePayload. rewrite Hen. cbn [negb].
  erewrite bind_Ret by exact Hlen. cbv iota beta.
  erewrite bind_Ret by reflexivity. cbv zeta. erewrite bind_Ret by reflexivity. fold i.
  replace (LongPacketMaxRxLength i <? n) with false by lia.
  unfold by_BitRate. rewrite bind_assoc. erewrite bind_Ret by reflexivity. sys_simpl.
  rewrite (proj2 (Z.eqb_neq _ _) Hbr).
  erewrite bind_Ret by reflexivity. unfold emit. erewrite bind_Ret by reflexivity.
  unfold update. sys_simpl. rewrite <- app_assoc. reflexivity.
Qed.

Lemma receive_payload_eq fuel s s0 payload :
  let i := Init (RFWPacket s) in
  let size := Z.of_nat (length payload) in
  RFW_ENABLE = true → receiver_for size s →
  size + PayloadLengthFieldSize i + CrcFieldSize i <= 255 →
  rx_holds (rfw_packet i payload) →
  RFW_PollRxBytes fuel (PayloadLengthFieldSize i) s = Ret 0 s0 →
  ∃ tr, RFW_ReceivePayload fuel s = Ret tt
    (after_header s (rfw_header i size) (tr ++ [EvTimerStart RFWPacket_Timer])
      <| RFWPacket ; rfw_PayloadLength := size |>
      <| RFWPacket ; LongPacketRemainingBytes := size + CrcFieldSize i |>
      <| RFWPacket ; RadioBufferOffset := PayloadLengthFieldSize i |>).
Proof.
  intros i size Hen (Hr & Hmax & Hbr & _) Ht Hrx Hpoll.
  pose proof Hr as (Hwf & _).
  assert (1 <= PayloadLengthFieldSize i ∧ 0 <= CrcFieldSize i) as [Hls Hcs].
  { destruct Hwf as [[H|H] [[_ H']|[_ H']]]; unfold i; rewrite H, H'; lia. }
  destruct (get_packet_length_eq fuel s s0 payload Hr ltac:(lia) Hrx Hpoll) as [tr Hlen].
  destruct (receive_payload_starts fuel s size _ Hen Hlen Hmax Hbr) as [v Hv].
  exists (tr ++ [EvTimerSetValue RFWPacket_Timer v]). rewrite Hv. unfold after_header. sys_simpl.
  fold i size. rewrite u16_small, <- app_assoc by lia. reflexivity.
Qed.
(** The radio has received everything up to the end of the packet. *)
Definition all_received (s : Sys) : Prop :=
  LongPacketRemainingBytes (RFWPacket s) <=
    u8 (u8 (register_answer (trace s) SUBGHZ_RXADRPTR) - RadioBufferOffset (RFWPacket s)).

(** The last chunk is read at once when all of it is there. *)
Lemma get_payload_process_last s :
  all_received s → 0 <= LongPacketRemainingBytes (RFWPacket s) < 256 →
  CrcFieldSize (Init (RFWPacket s)) <= LongPacketRemainingBytes (RFWPacket s) →
  RFW_GetPayloadProcess s =
    RFW_GetPayload (RadioBufferOffset (RFWPacket s)) (LongPacketRemainingBytes (RFWPacket s))
      (s <| trace := trace s ++ [EvReadRegisters SUBGHZ_RXADRPTR 1] |>
         <| RFWPacket ; LongPacketRemainingBytes := 0 |>).
Proof.
  intros Hall Hr Hc.
  unfold RFW_GetPayloadProcess, SUBGRF_ReadRegister, HAL_SUBGHZ_ReadRegisters, emit.
  rewrite bind_assoc. erewrite bind_Ret by reflexivity.
  erewrite bind_Ret by reflexivity.
  erewrite bind_Ret by reflexivity.
  set (ptr := nth_byte _ 0). cbv zeta. sys_simpl.
  replace (u8 (ptr - _) <? _) with false.
  2:{ unfold all_received in Hall. unfold ptr, nth_byte. cbn [fmap list_fmap seq lookup list_lookup default id].
      rewrite Z.add_0_r. lia. }
  replace (LongPacketRemainingBytes (RFWPacket s) <? CrcFieldSize (Init (RFWPacket s))) with false by lia.
  erewrite bind_Ret by reflexivity.
  erewrite bind_Ret by reflexivity. cbv zeta. sys_simpl.
  erewrite bind_Ret by reflexivity. sys_simpl. rewrite u8_small by lia. reflexivity.
Qed.

Definition stored_payload (s : Sys) : list Z :=
  take (Z.to_nat (RxPayloadOffset (RFWPacket s))) (RxBuffer s).

(** The state of the receiver when its packet timer fires. *)
Definition awaiting (s : Sys) (tr : list HalEvent) (size : Z) : Sys :=
  let i := Init (RFWPacket s) in
  after_header s (rfw_header i size) tr
    <| RFWPacket ; rfw_PayloadLength := size |>
    <| RFWPacket ; LongPacketRemainingBytes := size + CrcFieldSize i |>
    <| RFWPacket ; RadioBufferOffset := PayloadLengthFieldSize i |>.

(** What the handler of the packet timer asks of the radio for the last [n]
    bytes, at [off] in the buffer of the radio. *)
Definition reads_last (off : Z) (n : nat) : list HalEvent :=
  [EvReadRegisters SUBGHZ_RXADRPTR 1; EvSetCmd RADIO_SET_STANDBY [RadioStandbyModes_t_code STDBY_RC];
   EvReadBuffer off n].

(** What the receiver makes of [data] with the CRC field [tail] of the sender. *)
Lemma process_payload_eq s tr data tail after :
  let i := Init (RFWPacket s) in
  let size := Z.of_nat (length data) in
  let hdr := rfw_header i size in
  receiver_for size s → size + PayloadLengthFieldSize i + CrcFieldSize i <= 255 →
  Forall is_u8 (data ++ tail) → Z.of_nat (length tail) = CrcFieldSize i →
  rx_holds (fst (white_run (WhiteSeed i) (hdr ++ data ++ tail)) ++ after) →
  all_received (awaiting s tr size) →
  ∃ w rest,
    RFW_GetPayloadProcess (awaiting s tr size) =
    RFW_GetPayload_report (size + CrcFieldSize i) 
      (if CrcEnable i =? 1
       then crc_result (CrcType i) (crc_run (CrcPolynomial i) (CrcSeed i) (hdr ++ data)) else [0; 0])
      (awaiting s (tr ++ reads_last (PayloadLengthFieldSize i) (length data + length tail)) size
        <| OperatingMode := MODE_STDBY_RC |>
        <| ChunkBuffer := (data ++ tail) ++ rest |>
        <| RxBuffer := data ++ drop (length data) (RxBuffer s) |>
        <| RFWPacket ; LongPacketRemainingBytes := 0 |>
        <| RFWPacket ; WhiteLfsrState := w |>
        <| RFWPacket ; CrcLfsrState :=
             if CrcEnable i =? 1 then crc_run (CrcPolynomial i) (CrcSeed i) (hdr ++ data)
             else CrcSeed i |>
        <| RFWPacket ; RxPayloadOffset := size |>).
Proof.
  intros i size hdr (Hr & _) Ht Hby Htl Hrx Hall.
  pose proof Hr as (Hwf & [HB HR] & HW & HC & HO & HLP).
  assert (1 <= PayloadLengthFieldSize i ∧ 0 <= CrcFieldSize i) as [Hls Hcs].
  { destruct Hwf as [[H|H] [[_ H']|[_ H']]]; unfold i; rewrite H, H'; lia. }
  pose proof (rfw_header_length i size Hwf) as Hhl. fold hdr in Hhl.
  rewrite (get_payload_process_last (awaiting s tr size) Hall).
  2:{ change (0 <= size + CrcFieldSize i < 256). lia. }
  2:{ change (CrcFieldSize i <= size + CrcFieldSize i). lia. }
  set (s1 := modify RFWPacket _ (modify trace _ _)).
  change (RadioBufferOffset (RFWPacket (awaiting s tr size))) with (PayloadLengthFieldSize i).
  change (LongPacketRemainingBytes (RFWPacket (awaiting s tr size))) with (size + CrcFieldSize i).
  rewrite white_run_app in Hrx. cbn [fst] in Hrx. rewrite <- app_assoc in Hrx.
  unshelve epose proof (get_payload_eq s1 (fst (white_run (WhiteSeed i) hdr)) data tail after
    Hwf _ Hby Hrx Htl _ _ HO HLP) as H2; [| rewrite length_app; lia | lia |].
  { split; [|done]. unfold s1, awaiting, after_header. sys_simpl. cbv zeta. sys_simpl.
    fold i hdr. rewrite length_app, length_drop. lia. }
  rewrite white_run_length, length_app, Hhl, Nat2Z.inj_add, Htl in H2. fold size in H2.
  rewrite H2. exists (snd (white_run (WhiteLfsrState (RFWPacket s1)) (data ++ tail))),
    (drop (length data + length tail) (ChunkBuffer s1)).
  match goal with |- RFW_GetPayload_report _ ?a ?b = RFW_GetPayload_report _ ?a' ?b' =>
    assert (a = a') as ->; [|apply (f_equal (RFW_GetPayload_report _ _))] end.
  - unfold computed_crc. change (Init (RFWPacket s1)) with i. destruct (CrcEnable i =? 1) eqn:E; [|done].
    change (CrcLfsrState (RFWPacket s1)) with
      (if CrcEnable i =? 1 then crc_run (CrcPolynomial i) (CrcSeed i) hdr else CrcSeed i).
    rewrite E. unfold crc_run. now rewrite fold_left_app.
  - unfold after_payload. change (Init (RFWPacket s1)) with i.
    change (CrcLfsrState (RFWPacket s1)) with
      (if CrcEnable i =? 1 then crc_run (CrcPolynomial i) (CrcSeed i) hdr else CrcSeed i).
    assert (crc_run (CrcPolynomial i) (CrcSeed i) (hdr ++ data) =
      crc_run (CrcPolynomial i) (crc_run (CrcPolynomial i) (CrcSeed i) hdr) data) as ->
      by (unfold crc_run; apply fold_left_app).
    unfold s1, awaiting, after_header, reads_last. cbv zeta. sys_simpl. fold i size hdr.
    rewrite <- !app_assoc. destruct (CrcEnable i =? 1); reflexivity.
Qed.
(** ** The properties *)

(** C19: the packet that [RFW_TransmitInit] leaves in the caller's buffer is
    the whitened length field, payload and CRC, when it fits the radio (255
    bytes) and the caller's buffer; it overruns a caller's buffer without
    room for the length field and the CRC, and an oversize payload is refused
    without any effect. *)
Theorem transmit_init_packet (s : Sys) (payload extra : list Z) :
  RFW_ENABLE = true → rfw_wf (Init (RFWPacket s)) → buffers_ok s →
  let i := Init (RFWPacket s) in
  let size := Z.of_nat (length payload) in
  let total := size + PayloadLengthFieldSize i + CrcFieldSize i in
  let call := RFW_TransmitInit (payload ++ extra) size s in
  (255 < total → call = Ret (-1, payload ++ extra, 0) s) ∧
  (total <= 255 → total <= size + Z.of_nat (length extra) →
     ∃ s', call = Ret (0, rfw_packet i payload ++ drop (Z.to_nat (total - size)) extra, total) s' ∧
           LongPacketModeEnable (RFWPacket s') = 0 ∧ buffers_ok s' ∧
           Init (RFWPacket s') = i ∧ trace s' = trace s) ∧
  (total <= 255 → size + Z.of_nat (length extra) < total →
     ∃ s', call = Undef "write outside the caller's buffer" s').
Proof.
  intros Hen Hwf Hok i size total call. pose proof (rfw_clear_length i payload Hwf) as Hcl.
  fold size total in Hcl. assert (size <= total) as Hst.
  { destruct Hwf as [[H|H] [[_ H']|[_ H']]]; unfold total, i; rewrite H, H'; lia. }
  split; [|split].
  - intros Ht. unfold call, RFW_TransmitInit. rewrite Hen. cbn [negb].
    erewrite bind_Ret by reflexivity. cbv zeta.
    now replace (RADIO_BUF_SIZE <? _) with true by (fold i; unfold RADIO_BUF_SIZE; lia).
  - intros Ht Hroom. destruct (transmit_init_fits s payload extra Hen Hwf Hok Ht)
      as (s' & Hi & HL & Hok' & Hs' & Hcall).
    exists s'. rewrite buf_write_Some in Hcall
      by (unfold rfw_packet; rewrite ?white_run_length, ?length_app; fold i; lia).
    unfold rfw_packet in Hcall at 2. rewrite white_run_length, drop_app in Hcall.
    rewrite drop_ge in Hcall by (fold i; lia).
    replace (_ - length payload)%nat with (Z.to_nat (total - size)) in Hcall by (fold i; lia).
    split; [exact Hcall|]. split; [done|]. split; [done|]. split; [done|]. now rewrite Hs'.
  - intros Ht Hroom. destruct (transmit_init_fits s payload extra Hen Hwf Hok Ht)
      as (s' & _ & _ & _ & _ & Hcall).
    destruct (buf_write _ _ _) eqn:E; [|eexists; exact Hcall].
    unfold buf_write in E. case_match eqn:E'; [|done].
    apply andb_true_iff in E' as [_ E']. unfold rfw_packet in E'.
    rewrite white_run_length, length_app in E'. fold i in E'. lia.
Qed.

(** C1: a payload sent in one packet is received: [RFW_TransmitInit] builds
    the packet, and when the radio of a receiver with the same format holds
    it, [RFW_ReceivePayload] reads the length and starts the packet timer,
    and the timer's handler finds the payload, the CRC correct, and goes on to
    report it; in the simulator, it reaches the unsupported [SUBGRF_GetCFO]. *)
Theorem short_packet_roundtrip (ss s s0 : Sys) (payload extra : list Z) (fuel : nat) :
  let i := Init (RFWPacket s) in
  let size := Z.of_nat (length payload) in
  let total := size + PayloadLengthFieldSize i + CrcFieldSize i in
  RFW_ENABLE = true →
  rfw_wf (Init (RFWPacket ss)) → buffers_ok ss → same_format (Init (RFWPacket ss)) i →
  receiver_for size s → Forall is_u8 payload → 2 <= size + CrcFieldSize i →
  total <= 255 → total <= size + Z.of_nat (length extra) →
  RFW_PollRxBytes fuel (PayloadLengthFieldSize i) s = Ret 0 s0 →
  ∃ ss',
    RFW_TransmitInit (payload ++ extra) size ss =
      Ret (0, rfw_packet i payload ++ drop (Z.to_nat (total - size)) extra, total) ss' ∧
    (rx_holds (rfw_packet i payload) →
     ∃ tr, RFW_ReceivePayload fuel s = Ret tt (awaiting s (tr ++ [EvTimerStart RFWPacket_Timer]) size) ∧
     (all_received (awaiting s (tr ++ [EvTimerStart RFWPacket_Timer]) size) →
      ∃ s2, RFW_GetPayloadProcess (awaiting s (tr ++ [EvTimerStart RFWPacket_Timer]) size) =
              Exit cfo_error s2 ∧
            stored_payload s2 = payload ∧ OperatingMode s2 = MODE_STDBY_RC)).
Proof.
  intros i size total Hen Hwf Hok Hsame Hrecv Hby Hmin Ht Hroom Hpoll.
  pose proof Hsame as (E1 & _ & E3 & _).
  destruct (transmit_init_fits ss payload extra Hen Hwf Hok) as (ss' & _ & _ & _ & _ & Hcall);
    [rewrite E1, E3; exact Ht|].
  rewrite (same_format_packet _ _ payload Hsame) in Hcall. rewrite E1, E3 in Hcall. fold size total in Hcall.
  pose proof (proj1 (proj1 Hrecv)) as Hwfi.
  pose proof (rfw_clear_length i payload Hwfi) as Hcl. fold size total in Hcl.
  assert (Z.of_nat (length (rfw_packet i payload)) = total) as Hpl
    by (unfold rfw_packet; now rewrite white_run_length).
  rewrite buf_write_Some in Hcall by (rewrite ?length_app; lia).
  change (Z.to_nat 0) with 0%nat in Hcall. rewrite take_0, app_nil_l in Hcall.
  assert (size <= total) as Hst.
  { destruct Hwfi as [[H|H] [[_ H']|[_ H']]]; unfold total, i; rewrite H, H'; lia. }
  rewrite Nat.add_0_l, drop_app, drop_ge in Hcall by lia.
  replace (_ - length payload)%nat with (Z.to_nat (total - size)) in Hcall by lia.
  eexists. split; [exact Hcall|]. intros Hrx.
  destruct (receive_payload_eq fuel s s0 payload Hen Hrecv Ht Hrx Hpoll) as [tr Hrp].
  exists tr. split; [exact Hrp|]. intros Hall.
  pose proof (rfw_crc_bytes i (rfw_header i size ++ payload)) as Hcb.
  destruct (process_payload_eq s (tr ++ [EvTimerStart RFWPacket_Timer]) payload
              (rfw_crc i (rfw_header i size ++ payload)) []) as (w & rest & Heq);
    [done | done | now apply Forall_app | now apply rfw_crc_length | | exact Hall |].
  { rewrite app_nil_r. unfold rfw_packet, rfw_clear in Hrx. now rewrite <- app_assoc in Hrx. }
  destruct Hrecv as (_ & _ & _ & [t Htimer]).
  match type of Heq with _ = RFW_GetPayload_report _ ?c ?st =>
    unshelve (epose proof (report_accept st payload (rfw_crc i (rfw_header i size ++ payload)) rest t c
      eq_refl Htimer _ _) as Hrep) end.
  { rewrite length_app, Nat2Z.inj_add, rfw_crc_length by done. exact Hmin. }
  { destruct Hwfi as [_ [[H _]|[H _]]]; [now left|right].
    unfold rfw_crc. fold i in H |- *. rewrite H. done. }
  rewrite length_app, Nat2Z.inj_add, rfw_crc_length in Hrep by done. fold size i in Heq, Hrep.
  rewrite Heq, Hrep. eexists. split; [reflexivity|]. split; [|done].
  unfold stored_payload. sys_simpl. unfold size. rewrite Nat2Z.id. now rewrite take_app_length.
Qed.
(** C20: a packet in which up to two consecutive bytes of the payload were
    changed on the air is reported with [RxError], once, and with no other
    callback: with an odd CRC polynomial, the handler of the packet timer reads
    the rest of the packet, stops the reception timer and calls [RxError], and
    this is all that it does to the radio, the timers and the application. *)
Theorem corrupted_packet_rejected (s : Sys) (tr : list HalEvent)
    (before burst burst' after trailing : list Z) (ev : RadioEvents_t) :
  let i := Init (RFWPacket s) in
  let sent := before ++ burst ++ after in
  let received := before ++ burst' ++ after in
  let size := Z.of_nat (length sent) in
  let hdr := rfw_header i size in
  receiver_for size s → CrcEnable i = 1 →
  0 <= CrcPolynomial i < 65536 → Z.odd (CrcPolynomial i) = true → 0 <= CrcSeed i < 65536 →
  size + PayloadLengthFieldSize i + CrcFieldSize i <= 255 →
  Forall is_u8 sent → Forall is_u8 burst' →
  length burst = length burst' → (length burst <= 2)%nat → burst ≠ burst' →
  rfw_RadioEvents i = Some ev → ev_RxError ev = true →
  (∀ s', app_reaction App_RxError s' = s') →
  rx_holds (fst (white_run (WhiteSeed i) (hdr ++ received ++ rfw_crc i (hdr ++ sent))) ++ trailing) →
  all_received (awaiting s tr size) →
  ∃ s2 t, RFW_GetPayloadProcess (awaiting s tr size) = Ret tt s2 ∧
    rfw_RxTimeoutTimer (RFWPacket s) = Some t ∧
    trace s2 = tr ++ reads_last (PayloadLengthFieldSize i) (length sent + 2) ++
      [EvTimerStop t; EvApp App_RxError; EvProbe DBG_GPIO_RADIO_RX RST].
Proof.
  intros i sent received size hdr Hrecv He HP Hodd Hseed Ht Hby Hb' Hl H2 Hne Hev Herr Hq Hrx Hall.
  assert (length received = length sent) as Hlen by (unfold received, sent; rewrite !length_app; lia).
  pose proof (proj1 (proj1 Hrecv)) as Hwf. pose proof (rfw_crc_length i (hdr ++ sent) Hwf) as Hcl.
  assert (Forall is_u8 burst ∧ Forall is_u8 received) as [Hb Hbr].
  { unfold sent, received in *. rewrite !Forall_app in *. tauto. }
  assert (size = Z.of_nat (length received)) as Hsize by (unfold size; now rewrite Hlen).
  subst hdr. clearbody size. subst size.
  set (hdr := rfw_header i (Z.of_nat (length received))) in *.
  edestruct (process_payload_eq s tr received (rfw_crc i (hdr ++ sent)) trailing)
    as (w & rest & Heq);
    [done | done | apply Forall_app; split; [done | apply rfw_crc_bytes] | exact Hcl |
     exact Hrx | exact Hall |].
  fold i hdr in Heq. rewrite He in Heq. cbn [Z.eqb Pos.eqb] in Heq.
  destruct Hrecv as (_ & _ & _ & [t Htimer]).
  assert (length (rfw_crc i (hdr ++ sent)) = 2%nat) as Hcl2 by (unfold rfw_crc; now rewrite He).
  rewrite <- Hcl, <- Nat2Z.inj_add, <- length_app in Heq. rewrite Heq.
  set (st := modify RFWPacket _ _).
  eexists _, t. split; [|split; [exact Htimer|]].
  - eapply eq_trans; [|apply (call_error_eq (st <| trace := trace st ++ [EvTimerStop t] |>) ev);
                       [exact Hev | done..]].
    eapply (report_reject st received (rfw_crc i (hdr ++ sent)) rest t);
      [done | exact Htimer | exact He | exact Hcl2 |].
    unfold rfw_crc. rewrite He. cbn [Z.eqb Pos.eqb].
    apply (crc_detects (CrcPolynomial i) (CrcSeed i) (CrcType i) (hdr ++ before) burst burst' after) in Hne;
      [|done..].
    unfold sent, received. rewrite <- !app_assoc in Hne. exact Hne.
  - unfold st. sys_simpl. rewrite length_app, Hcl2, Hlen. unfold awaiting, after_header. sys_simpl.
    rewrite <- !app_assoc. reflexivity.
Qed.
End Packets.

(** ** Witnesses *)

(** Both ends of a link with the CCITT polynomial and a one byte length. *)
Definition link_init : RFwInit_t :=
  mkRFwInit 1 1 1 2 0x1021 0x1D0F RADIO_FSK_CRC_2_BYTES_CCIT 0x1FF 255 MODEM_FSK
    (Some (mkRadioEvents true true true true true true)).

Definition link_state : Sys :=
  boot <| RFWPacket := boot_RFWPacket <| Init := link_init |> <| BitRate := 1000 |>
            <| WhiteLfsrState := 0x1FF |> <| CrcLfsrState := 0x1D0F |>
            <| rfw_RxTimeoutTimer := Some RxTimeoutTimer |> |>.

(** The packet arrives after the first look at the radio's write pointer. *)
Definition link_env (packet : list Z) : Env :=
  quiet_env packet (λ tr, match tr with [EvTimerGetCurrentTime] => 0 | _ => 200 end).

Lemma link_all_received packet tr size :
  size <= 197 → all_received (env := link_env packet)
    (awaiting link_state (tr ++ [EvTimerStart RFWPacket_Timer]) size).
Proof.
  intros Hs. unfold all_received.
  assert (@register_answer (link_env packet)
    (trace (awaiting link_state (tr ++ [EvTimerStart RFWPacket_Timer]) size)) SUBGHZ_RXADRPTR = 200) as ->.
  { destruct tr as [|e [|e' tr]]; [reflexivity | now destruct e | now destruct e]. }
  change (size + 2 <= 199). lia.
Qed.

Lemma rx_holds_quiet packet ptr :
  Forall is_u8 packet → rx_holds (env := quiet_env packet ptr) packet.
Proof. intros H. split; [done|]. intros tr i Hi. cbn. now rewrite Nat2Z.id. Qed.

Lemma link_receiver n : n <= 255 → receiver_for n link_state.
Proof.
  intros Hn. split; [|split; [done | split; [done | eauto]]].
  split; [|done]. split; [now left | now right].
Qed.

Lemma transmit_init_packet_witness :
  ∃ s', RFW_TransmitInit (cfg := rfw_config) ([1; 2] ++ [0; 0; 0; 9]) 2 link_state =
          Ret (0, [253; 224; 31; 9; 13; 9], 5) s' ∧ LongPacketModeEnable (RFWPacket s') = 0.
Proof.
  destruct (proj1 (proj2 (transmit_init_packet (cfg := rfw_config) link_state [1; 2] [0; 0; 0; 9]
    eq_refl (conj (or_introl eq_refl) (or_intror (conj eq_refl eq_refl))) (conj eq_refl eq_refl))))
    as (s' & H & HL & _); [vm_compute; discriminate | vm_compute; discriminate |].
  exists s'. split; [|exact HL]. etransitivity; [exact H|]. vm_compute. reflexivity.
Defined.

Lemma short_packet_roundtrip_witness :
  ∃ s2, RFW_GetPayloadProcess (env := link_env (rfw_packet link_init [1; 2; 3; 4]))
          (final (RFW_ReceivePayload (cfg := rfw_config)
                    (env := link_env (rfw_packet link_init [1; 2; 3; 4])) 5 link_state)) =
        Exit cfo_error s2 ∧ stored_payload s2 = [1; 2; 3; 4].
Proof.
  destruct (short_packet_roundtrip (cfg := rfw_config)
    (env := link_env (rfw_packet link_init [1; 2; 3; 4])) link_state link_state
    (final (RFW_PollRxBytes
              (env := link_env (rfw_packet link_init [1; 2; 3; 4])) 5 1 link_state))
    [1; 2; 3; 4] [0; 0; 0] 5) as (ss' & _ & H).
  - reflexivity.
  - split; [now left | now right].
  - done.
  - repeat split.
  - apply link_receiver. cbn. lia.
  - by_computation.
  - done.
  - done.
  - done.
  - vm_compute. reflexivity.
  - destruct H as (tr & H1 & H2); [apply rx_holds_quiet; by_computation|].
    destruct (H2 (link_all_received _ tr 4 ltac:(lia))) as (s2 & H3 & H4 & _).
    exists s2. rewrite H1. split; [exact H3 | exact H4].
Defined.

Lemma corrupted_packet_rejected_witness :
  let i := link_init in
  let hdr := rfw_header i 4 in
  let air := fst (white_run 0x1FF (hdr ++ [1; 7; 3; 4] ++ rfw_crc i (hdr ++ [1; 2; 3; 4]))) in
  ∃ s2, RFW_GetPayloadProcess (env := link_env air)
          (awaiting link_state [EvTimerStart RFWPacket_Timer] 4) = Ret tt s2 ∧
    trace s2 = [EvTimerStart RFWPacket_Timer] ++ reads_last 1 6 ++
      [EvTimerStop RxTimeoutTimer; EvApp App_RxError; EvProbe DBG_GPIO_RADIO_RX RST].
Proof.
  intros i hdr air.
  destruct (corrupted_packet_rejected (env := link_env air) link_state
    [EvTimerStart RFWPacket_Timer] [1] [2] [7] [3; 4] []
    (mkRadioEvents true true true true true true)) as (s2 & t & H & Ht & Htr).
  - apply link_receiver. cbn. lia.
  - reflexivity.
  - done.
  - reflexivity.
  - done.
  - done.
  - by_computation.
  - by_computation.
  - reflexivity.
  - cbn. lia.
  - done.
  - reflexivity.
  - reflexivity.
  - reflexivity.
  - apply (rx_holds_quiet air). by_computation.
  - apply (link_all_received _ []). done.
  - exists s2. injection Ht as <-. split; [exact H | exact Htr].
Defined.
