(* ===== verification/Chunks.v ===== *)
(** * radio_fw.c: properties of the configuration, the polling and the chunks.

    The outcome of [RFW_Init], the termination of the busy wait for the length
    field, the sizes of the chunks of a long packet, and where the treatment of
    intermediate chunks leaves what the comments of the source promise. *)

From S2P Require Import Prelude Effects RadioTypes State Mem RadioDriver DriverProofs RadioFw Whitening Packets.

(** ** Configuration *)

(** What [RFW_Init] takes from a configuration. *)
Record FskFormat := mkFskFormat {
  fmt_rate : Z; fmt_header : Z; fmt_crc : Z; fmt_max : Z; fmt_white : Z; fmt_poly : Z; fmt_seed : Z }.

Definition format_of (c : ConfigGeneric_t) : option FskFormat :=
  match c with
  | CONFIG_TX_of c =>
      m ← tx_as_fsk c;
      Some (mkFskFormat (txm_BitRate m) (txm_HeaderType m) (txm_CrcLength m) 0 (txm_whiteSeed m)
              (txm_CrcPolynomial m) (txm_CrcSeed m))
  | CONFIG_RX_of c =>
      let m := rx_fsk c in
      Some (mkFskFormat (rxf_BitRate m) (rxf_LengthMode m) (rxf_CrcLength m) (rxf_MaxPayloadLength m)
              (rxf_whiteSeed m) (rxf_CrcPolynomial m) (rxf_CrcSeed m))
  end.

Definition two_byte_length (m : FskFormat) : bool := fmt_header m =? RADIO_FSK_PACKET_2BYTES_LENGTH.

(** The configuration that it stands for. *)
Definition init_of (m : FskFormat) (modem : RadioModems_t) (ev : RadioEvents_t) : RFwInit_t :=
  let crc := negb (fmt_crc m =? RADIO_FSK_CRC_OFF) in
  {| Enable := 1; PayloadLengthFieldSize := if two_byte_length m then 2 else 1;
     CrcEnable := b2z crc; CrcFieldSize := if crc then 2 else 0;
     CrcPolynomial := fmt_poly m; CrcSeed := fmt_seed m; CrcType := fmt_crc m;
     WhiteSeed := fmt_white m; LongPacketMaxRxLength := u16 (fmt_max m);
     rfw_Modem := modem; rfw_RadioEvents := Some ev |}.

Lemma init_of_wf m modem ev : rfw_wf (init_of m modem ev).
Proof. unfold rfw_wf, init_of. cbn. destruct (two_byte_length m), (fmt_crc m =? _); cbn; auto. Qed.

(** The bit rate and the timer are recorded before the checks. *)
Definition recorded (c : ConfigGeneric_t) (m : FskFormat) (timer : TimerEvent_t) (f : RadioFw_t)
  : RadioFw_t :=
  match c with
  | CONFIG_TX_of _ => f <| BitRate := fmt_rate m |> <| rfw_TxTimeoutTimer := Some timer |>
  | CONFIG_RX_of _ => f <| BitRate := fmt_rate m |> <| rfw_RxTimeoutTimer := Some timer |>
  end.

Lemma recorded_init c m timer f : Init (recorded c m timer f) = Init f.
Proof. by destruct c. Qed.

(** ** Elapsed time queries in a history *)

Definition is_poll (e : HalEvent) : bool :=
  match e with EvTimerGetElapsedTime _ => true | _ => false end.

Definition polls (tr : list HalEvent) : Z := Z.of_nat (length (List.filter is_poll tr)).

Lemma polls_app a b : polls (a ++ b) = polls a + polls b.
Proof. unfold polls. rewrite List.filter_app, length_app. lia. Qed.

Section Chunks.
Context {cfg : Config} {env : Env}.

Lemma RFW_Init_read_eq config timer s m :
  format_of config = Some m →
  RFW_Init_read config timer s =
    Ret (fmt_header m, fmt_crc m, fmt_max m, fmt_white m, fmt_poly m, fmt_seed m)
        (s <| RFWPacket := recorded config m timer (RFWPacket s) |>).
Proof.
  intros H. destruct config as [c|c]; cbn [format_of] in H; unfold RFW_Init_read.
  - destruct (tx_as_fsk c) as [t|]; [|done]. injection H as <-. reflexivity.
  - injection H as <-. reflexivity.
Qed.

(** A configuration that was accepted for reception is ready to receive. *)
Lemma receive_init_ready s i rate t :
  RFW_ENABLE = true → rfw_wf i → buffers_ok s →
  Init (RFWPacket s) = i → BitRate (RFWPacket s) = rate → rfw_RxTimeoutTimer (RFWPacket s) = Some t →
  ∃ s2, RFW_ReceiveInit s = Ret 0 s2 ∧
    ∀ size, receiver_for size s2 ↔ size <= LongPacketMaxRxLength i ∧ rate ≠ 0.
Proof.
  intros Hen Hwf [HB HR] Hi Hrate Ht. unfold RFW_ReceiveInit. rewrite Hen. cbn [negb].
  eexists. split; [do 4 (erewrite bind_Ret by reflexivity); reflexivity|]. intros size.
  unfold receiver_for, receive_ready, buffers_ok. sys_simpl. rewrite Hi, Hrate, Ht.
  split; [tauto|]. intros [H1 H2]. split_and!; auto; eauto.
Qed.

(** C30: [RFW_Init] returns 0 exactly when there is an [RxError] callback and the
    two byte length field is only asked of a build with long packets.  The packet
    processing is then enabled with the format of the configuration, field by field
    ([init_of]), and the packet timer is set up; after a configuration for
    reception, [RFW_ReceiveInit] leaves a receiver for the payloads up to the
    maximal length, provided that the bit rate is not 0, which is not checked.
    Otherwise -1 is returned and the configuration stays in force, but for the
    callbacks when the length field was refused; the bit rate and the timer of
    the refused configuration are recorded all the same. *)
Theorem rfw_init_outcome (config : ConfigGeneric_t) (events : option RadioEvents_t)
    (timer : TimerEvent_t) (s : Sys) (m : FskFormat) :
  RFW_ENABLE = true → format_of config = Some m →
  let f := recorded config m timer (RFWPacket s) in
  let call := RFW_Init config events timer s in
  ((∀ ev, events = Some ev → ev_RxError ev = false) → call = Ret (-1) (s <| RFWPacket := f |>)) ∧
  (∀ ev, events = Some ev → ev_RxError ev = true →
     two_byte_length m = true → RFW_LONGPACKET_ENABLE = false →
     call = Ret (-1) (s <| RFWPacket := f <| Init ; rfw_RadioEvents := Some ev |> |>)) ∧
  (∀ ev, events = Some ev → ev_RxError ev = true →
     (two_byte_length m = true → RFW_LONGPACKET_ENABLE = true) →
     let i := init_of m (rfw_Modem (Init (RFWPacket s))) ev in
     ∃ s1, call = Ret 0 s1 ∧ rfw_wf i ∧
       s1 = s <| RFWPacket := f <| Init := i |> |>
              <| trace := trace s ++ [EvTimerInit RFWPacket_Timer RFW_GetPayloadTimerEvent_cb] |> ∧
       ∀ c, config = CONFIG_RX_of c → buffers_ok s →
         ∃ s2, RFW_ReceiveInit s1 = Ret 0 s2 ∧
           ∀ size, receiver_for size s2 ↔ size <= u16 (fmt_max m) ∧ fmt_rate m ≠ 0).
Proof.
  intros Hen Hm f call. pose proof (RFW_Init_read_eq config timer s m Hm) as Hr. fold f in Hr.
  unfold call, RFW_Init. rewrite Hen. change (negb true) with false. cbv iota. split; [|split].
  - intros Hno. destruct events as [ev|]; erewrite bind_Ret by exact Hr; [|done].
    by rewrite (Hno ev eq_refl).
  - intros ev -> Herr Htwo Hlong. erewrite bind_Ret by exact Hr. unfold two_byte_length in Htwo.
    rewrite Herr, Htwo, Hlong. reflexivity.
  - intros ev -> Herr Hlong. set (i := init_of m (rfw_Modem (Init (RFWPacket s))) ev). exists (s <| RFWPacket := f <| Init := i |> |>
      <| trace := trace s ++ [EvTimerInit RFWPacket_Timer RFW_GetPayloadTimerEvent_cb] |>).
    split; [|split; [apply init_of_wf|split; [done|]]].
    + erewrite bind_Ret by exact Hr. rewrite Herr. cbv beta iota. cbn [negb].
      assert ((fmt_header m =? RADIO_FSK_PACKET_2BYTES_LENGTH) && negb RFW_LONGPACKET_ENABLE = false) as ->.
      { unfold two_byte_length in Hlong. destruct (_ =? _); [by rewrite Hlong | done]. }
      do 5 (erewrite bind_Ret by reflexivity). unfold i, init_of, two_byte_length.
      unfold f. sys_simpl. rewrite recorded_init. by destruct (fmt_crc m =? RADIO_FSK_CRC_OFF).
    + intros c -> Hbuf. change (u16 (fmt_max m)) with (LongPacketMaxRxLength i).
      eapply receive_init_ready; [done | apply init_of_wf | exact Hbuf | done..].
Qed.

(** ** Termination of the busy wait *)

Lemma read_register_trace addr s :
  ∃ v, SUBGRF_ReadRegister addr s = Ret v (s <| trace := trace s ++ [EvReadRegisters addr 1] |>).
Proof. eexists. reflexivity. Qed.

(** In an environment where the clock advances by at least a millisecond every
    [k] queries, for the next 2^31 queries. *)
Definition clock_advances (k : Z) : Prop :=
  ∀ tr t, polls tr < 2 ^ 31 → polls tr / k <= u32 (elapsed_time_answer tr t).

Lemma poll_loop_returns k (fuel : nat) : 0 < k → clock_advances k →
  ∀ now timeout bytes ref ptr s,
  0 <= timeout → k * (timeout + 1) + 1 <= polls (trace s) + Z.of_nat fuel → (1 <= fuel)%nat →
  polls (trace s) + Z.of_nat fuel < 2 ^ 31 →
  ∃ st s', poll_loop fuel now timeout bytes ref ptr s = Ret st s' ∧ (st = 0 ∨ st = -1).
Proof.
  intros Hk Hclock. induction fuel as [|fuel IH]; intros now timeout bytes ref ptr s Ht Hf H1 Hb; [lia|].
  cbn [poll_loop]. destruct (u32 (ptr - ref) <? bytes); [|do 2 eexists; split; [reflexivity | now left]].
  destruct (read_register_trace SUBGHZ_RXADRPTR s) as [v Hv].
  erewrite bind_Ret by exact Hv. set (s1 := modify trace _ s).
  assert (polls (trace s1) = polls (trace s)) as Hp1 by (unfold s1; sys_simpl; rewrite polls_app;
    change (polls [EvReadRegisters SUBGHZ_RXADRPTR 1]) with 0; lia).
  set (e := u32 (elapsed_time_answer (trace s1) now)).
  assert (TimerGetElapsedTime now s1 =
    Ret e (s1 <| trace := trace s1 ++ [EvTimerGetElapsedTime now] |>)) as He by reflexivity.
  erewrite bind_Ret by exact He. destruct (timeout <? e) eqn:Ee.
  { do 2 eexists. split; [reflexivity | now right]. }
  assert (polls (trace s1) / k <= timeout) as Hle.
  { transitivity e; [|lia]. apply Hclock. lia. }
  assert (polls (trace s) < k * (timeout + 1)).
  { rewrite Hp1 in Hle. pose proof (Z.mod_pos_bound (polls (trace s)) k Hk).
    pose proof (Z.div_mod (polls (trace s)) k ltac:(lia)). nia. }
  apply IH; [lia | | lia |]; sys_simpl; rewrite polls_app, Hp1;
    change (polls [EvTimerGetElapsedTime now]) with 1; lia.
Qed.
(** The busy wait of [RFW_PollRxBytes] ends: while the clock advances, it
    returns 0 or times out with -1 after a number of reads that the bit rate
    and the speed of the clock bound. *)
Theorem poll_rx_bytes_terminates (k bytes : Z) (fuel : nat) (s : Sys) :
  0 < k → clock_advances k → 1 <= bytes <= 2 → 0 < BitRate (RFWPacket s) < 2 ^ 31 →
  k * 16002 < Z.of_nat fuel → polls (trace s) + Z.of_nat fuel < 2 ^ 31 →
  ∃ st s', RFW_PollRxBytes fuel bytes s = Ret st s' ∧ (st = 0 ∨ st = -1).
Proof.
  intros Hk Hclock Hby Hbr Hf Hb. unfold RFW_PollRxBytes.
  assert (TimerGetCurrentTime s = Ret (u32 (current_time_answer (trace s)))
    (s <| trace := trace s ++ [EvTimerGetCurrentTime] |>)) as Hnow by reflexivity.
  erewrite bind_Ret by exact Hnow. set (s1 := modify trace _ s).
  destruct (read_register_trace SUBGHZ_RXADRPTR s1) as [v Hv].
  erewrite bind_Ret by exact Hv. set (s2 := modify trace _ s1).
  assert (polls (trace s2) = polls (trace s)) as Hp.
  { unfold s2, s1. sys_simpl. rewrite !polls_app.
    change (polls [EvReadRegisters SUBGHZ_RXADRPTR 1]) with 0.
    change (polls [EvTimerGetCurrentTime]) with 0. lia. }
  set (timeout := DIVC (u32 (bytes * 8 * 1000)) (BitRate (RFWPacket s))).
  assert (by_BitRate (DIVC (u32 (bytes * 8 * 1000))) s2 = Ret timeout s2) as Ht.
  { unfold by_BitRate. erewrite bind_Ret by reflexivity.
    change (RFWPacket s2) with (RFWPacket s). now rewrite (proj2 (Z.eqb_neq _ _)) by lia. }
  erewrite bind_Ret by exact Ht.
  assert (0 <= timeout <= 16000) as Htb.
  { unfold timeout. rewrite u32_small by lia. rewrite DIVC_exact by lia. split.
    - apply Z.div_pos; lia.
    - assert (∀ n, 0 < n → (bytes * 8 * 1000 + n - 1) / n <= bytes * 8 * 1000) as Hd; [|specialize (Hd (BitRate (RFWPacket s))); lia].
      intros n Hn. apply Z.div_le_upper_bound; nia. }
  assert (0 <= polls (trace s)) by (unfold polls; lia).
  assert (k * (timeout + 1) <= k * 16001) by (apply Z.mul_le_mono_nonneg_l; lia).
  apply (poll_loop_returns k); [done | done | lia | lia | lia | lia].
Qed.

(** ** Sizes of the chunks of a long packet *)

(** The first chunk of a long packet, with its length field and CRC, fits
    the chunk buffer; a packet that fits the radio is sent whole, and a longer
    one leaves at least the CRC field for the last chunk. *)
Lemma first_chunk_fits (payload_size : Z) (i : RFwInit_t) :
  rfw_wf i → 0 <= payload_size < 65536 →
  let total := payload_size + PayloadLengthFieldSize i + CrcFieldSize i in
  let '(chunk_size, crc_size) := first_chunk_sizes payload_size i in
  0 <= chunk_size ∧ PayloadLengthFieldSize i + chunk_size + crc_size <= 255 ∧
  if 255 <? total
  then CrcFieldSize i <= total - (PayloadLengthFieldSize i + chunk_size + crc_size) ∧
       chunk_size <= payload_size
  else chunk_size = payload_size ∧ crc_size = CrcFieldSize i.
Proof.
  intros [Hl Hc] Hp. cbv zeta. unfold first_chunk_sizes, RADIO_BUF_SIZE, u8. change (2 ^ 8) with 256.
  destruct Hl as [-> | ->]; destruct Hc as [[_ ->]|[_ ->]];
    repeat match goal with |- context [?a <? ?b] => destruct (Z.ltb_spec a b) end;
    rewrite ?Z.mod_small by lia; lia.
Qed.

(** ** Intermediate chunks of a short packet *)

(** An intermediate chunk is not appended to the payload received so far:
    the test [RxPayloadOffset += size < RADIO_BUF_SIZE] first moves the offset
    by one, so that the byte that was in the receive buffer becomes part of
    the payload and the chunk follows it. *)
Theorem store_intermediate_shifts (s : Sys) (chunk rest : list Z) :
  let o := RxPayloadOffset (RFWPacket s) in
  let size := Z.of_nat (length chunk) in
  buffers_ok s → ChunkBuffer s = chunk ++ rest → size < 255 →
  0 <= o → o + 1 + size <= 255 →
  ∃ s', store_intermediate size s = Ret true s' ∧
    stored_payload s' = stored_payload s ++ [RxBuffer s !!! Z.to_nat o] ++ chunk ∧
    length (stored_payload s') = S (length (stored_payload s) + length chunk).
Proof.
  intros o size [HB HR] HC Hs Ho Hfit. unfold store_intermediate, upd_rfw.
  erewrite bind_Ret by reflexivity. erewrite bind_Ret by reflexivity. sys_simpl. fold o.
  replace (size <? RADIO_BUF_SIZE) with true by (unfold RADIO_BUF_SIZE; lia). cbn [b2z].
  rewrite u16_small by lia. replace (o + 1 =? 0) with false by lia. cbn [negb].
  erewrite bind_Ret.
  2:{ apply read_chunk_eq. sys_simpl. rewrite HC. now apply (buf_read_mid [] chunk rest). }
  set (n := Z.to_nat (o + 1)).
  assert (buf_write (RxBuffer s) (o + 1) chunk = Some (take n (RxBuffer s) ++ chunk ++
    drop (n + length chunk) (RxBuffer s))) as Hw by (apply buf_write_Some; lia).
  erewrite bind_Ret by (apply write_rx_eq; exact Hw).
  erewrite bind_Ret by reflexivity.
  eexists. split; [reflexivity|].
  assert (∀ st, RxPayloadOffset (RFWPacket st) = o + 1 + size →
    RxBuffer st = take n (RxBuffer s) ++ chunk ++ drop (n + length chunk) (RxBuffer s) →
    stored_payload st = stored_payload s ++ [RxBuffer s !!! Z.to_nat o] ++ chunk) as Hst.
  { intros st H1 H2. unfold stored_payload. rewrite H1, H2, app_assoc. fold o.
    rewrite take_app_le by (rewrite length_app, length_take; lia).
    rewrite take_ge by (rewrite length_app, length_take; lia).
    rewrite (app_assoc _ _ chunk). f_equal. unfold n. replace (Z.to_nat (o + 1)) with (S (Z.to_nat o)) by lia.
    apply take_S_r, list_lookup_lookup_total_lt. lia. }
  rewrite Hst; [|sys_simpl; rewrite u16_small by lia; done | done].
  split; [done|]. rewrite !length_app. cbn [length]. lia.
Qed.

End Chunks.

(** ** Witnesses *)

Lemma rfw_init_outcome_witness :
  let config := CONFIG_RX_of {|
    rx_fsk := mk_rx_fsk 0 50000 1000 4 [0xC1; 0x94; 0xC1] 255 0x1021 0x1D0F 0x1FF 3 0 0 0
                RADIO_FSK_PACKET_2BYTES_LENGTH RADIO_FSK_CRC_2_BYTES_CCIT RADIO_FSK_DC_IBM_WHITENING;
    rx_lora := mk_rx_lora 0 0 0 0 0 0 0 0 0 0 |} in
  let ev := mkRadioEvents true true true true true true in
  ∃ s1 s2, RFW_Init (cfg := rfw_config) config (Some ev) RxTimeoutTimer boot = Ret 0 s1 ∧
    Init (RFWPacket s1) = mkRFwInit 1 2 1 2 0x1021 0x1D0F RADIO_FSK_CRC_2_BYTES_CCIT 0x1FF 255
                            (rfw_Modem (Init (RFWPacket boot))) (Some ev) ∧
    RFW_ReceiveInit (cfg := rfw_config) s1 = Ret 0 s2 ∧ receiver_for 255 s2.
Proof.
  intros config ev.
  destruct (rfw_init_outcome (cfg := rfw_config) config (Some ev) RxTimeoutTimer boot
    (mkFskFormat 1000 RADIO_FSK_PACKET_2BYTES_LENGTH RADIO_FSK_CRC_2_BYTES_CCIT 255 0x1FF 0x1021 0x1D0F)
    eq_refl eq_refl) as (_ & _ & H).
  destruct (H ev eq_refl eq_refl (λ _, eq_refl)) as (s1 & H1 & _ & Hs1 & Hrx).
  destruct (Hrx _ eq_refl (conj eq_refl eq_refl)) as (s2 & H2 & Hsize).
  exists s1, s2. split; [exact H1|]. split; [by rewrite Hs1|]. split; [exact H2|].
  apply Hsize. split; discriminate.
Defined.

(** One query of the clock every millisecond. *)
Definition ticking_env : Env :=
  let _ := quiet_env [] (λ _, 0) in
  {| get_cmd_answer := get_cmd_answer; register_answer := register_answer;
     rx_buffer_answer := rx_buffer_answer; RBI_IsTCXO := RBI_IsTCXO; RBI_IsDCDC := RBI_IsDCDC;
     RBI_GetTxConfig := RBI_GetTxConfig; RBI_GetRFOMaxPowerConfig := RBI_GetRFOMaxPowerConfig;
     current_time_answer := current_time_answer;
     elapsed_time_answer tr _ := polls tr;
     LL_DBGMCU_GetRevisionID := LL_DBGMCU_GetRevisionID;
     next_chunk_answer := next_chunk_answer; app_reaction := app_reaction |}.

Lemma poll_rx_bytes_terminates_witness :
  ∃ st s', RFW_PollRxBytes (env := ticking_env) (Z.to_nat 16003) 1 link_state = Ret st s' ∧
           (st = 0 ∨ st = -1).
Proof.
  apply (poll_rx_bytes_terminates (env := ticking_env) 1 1 (Z.to_nat 16003) link_state).
  - lia.
  - intros tr t Hp. rewrite Z.div_1_r. cbn [elapsed_time_answer ticking_env].
    rewrite u32_small; [lia|]. unfold polls in *. lia.
  - lia.
  - cbn. lia.
  - lia.
  - change (polls (trace link_state)) with 0. lia.
Defined.

Lemma store_intermediate_shifts_witness :
  let s := boot <| ChunkBuffer := [7; 8; 9] ++ replicate 252 0 |> in
  ∃ s', store_intermediate (env := quiet_env [] (λ _, 0)) 3 s = Ret true s' ∧ stored_payload s' = [0; 7; 8; 9].
Proof.
  intros s. destruct (store_intermediate_shifts (env := quiet_env [] (λ _, 0)) s [7; 8; 9] (replicate 252 0))
    as (s' & H & Hp & _); [done | done | done | done | done |].
  exists s'. split; [exact H | exact Hp].
Defined.

(** After a transmission-only configuration, a packet of 300 bytes starts the
    timer that only a reception configuration sets. *)
Example transmit_long_null_timer :
  let s := boot <| RFWPacket := boot_RFWPacket <| Init := link_init <| PayloadLengthFieldSize := 2 |> |>
                     <| BitRate := 1000 |> <| rfw_TxTimeoutTimer := Some TxTimeoutTimer |> |> in
  match RFW_TransmitLongPacket (cfg := rfw_config) (env := quiet_env [] (λ _, 0)) 300 1000 true s with
  | Undef why _ => why = "timer function called with a null TimerEvent_t"%string
  | _ => False
  end.
Proof. vm_compute. reflexivity. Qed.
