(* ===== verification/LongTx.v ===== *)
(** * radio_fw.c: a long packet is transmitted as one stream.

    [RFW_TransmitLongPacket] fills the buffer of the radio, and the handler of
    the packet timer refills it while the radio sends.  The buffer is circular;
    the two sides only see its pointers modulo 256.  The theorems show that,
    chunk by chunk, the radio finds the packet in its buffer, and where the
    handler fails when the radio sends too slowly. *)

From S2P Require Import Prelude Effects RadioTypes State Mem RadioDriver DriverProofs RadioFw Whitening Packets Chunks.

(** ** What the interactions mean to the radio *)

Definition written_by (e : HalEvent) : list Z :=
  match e with EvWriteBuffer _ data => data | _ => [] end.
(** The bytes written to the buffer, in order, and their number. *)
Definition tx_written (tr : list HalEvent) : list Z := flat_map written_by tr.
Definition loaded (tr : list HalEvent) : Z := Z.of_nat (length (tx_written tr)).

Definition length_by (l : Z) (e : HalEvent) : Z :=
  match e with
  | EvWriteRegisters a [v] => if a =? SUBGHZ_GRTXPLDLEN then v else l
  | _ => l
  end.
(** The content of the register [SUBGHZ_GRTXPLDLEN]. *)
Definition tx_length (tr : list HalEvent) : Z := fold_left length_by tr 0.

Definition store_at (mem : Z → Z) (off : Z) (data : list Z) (a : Z) : Z :=
  let k := (a - off) mod 256 in
  if k <? Z.of_nat (length data) then data !!! Z.to_nat k else mem a.
Definition store_by (mem : Z → Z) (e : HalEvent) : Z → Z :=
  match e with EvWriteBuffer off data => store_at mem off data | _ => mem end.
(** The circular buffer. *)
Definition tx_memory (tr : list HalEvent) : Z → Z := fold_left store_by tr (λ _, 0).

Definition asked_by (e : HalEvent) : Z :=
  match e with EvApp (App_GetNextChunk n) => n | _ => 0 end.
(** How many bytes the application was asked for. *)
Definition asked (tr : list HalEvent) : Z := foldr (λ e n, asked_by e + n) 0 tr.

(** Was the packet timer started, and how often? *)
Definition starts_timer (e : HalEvent) : bool :=
  match e with EvTimerStart RFWPacket_Timer => true | _ => false end.
Definition starts (tr : list HalEvent) : Z := Z.of_nat (length (List.filter starts_timer tr)).
Definition armed (tr : list HalEvent) : bool := existsb starts_timer tr.

Lemma tx_written_app a b : tx_written (a ++ b) = tx_written a ++ tx_written b.
Proof. apply flat_map_app. Qed.
Lemma loaded_app a b : loaded (a ++ b) = loaded a + loaded b.
Proof. unfold loaded. rewrite tx_written_app, length_app. lia. Qed.
Lemma loaded_nonneg tr : 0 <= loaded tr.
Proof. unfold loaded. lia. Qed.
Lemma asked_app a b : asked (a ++ b) = asked a + asked b.
Proof. unfold asked. induction a as [|e a IH]; [done|]. cbn. rewrite IH. lia. Qed.
Lemma tx_length_app a b : tx_length (a ++ b) = fold_left length_by b (tx_length a).
Proof. apply fold_left_app. Qed.
Lemma starts_app a b : starts (a ++ b) = starts a + starts b.
Proof. unfold starts. rewrite List.filter_app, length_app. lia. Qed.
Lemma armed_app a b : armed (a ++ b) = armed a || armed b.
Proof. apply existsb_app. Qed.

(** ** No byte is overwritten before it was sent *)

(** [writes_ok sent pre tr]: after the interactions [pre], every write of [tr]
    continues the stream at its address modulo 256, and stays within the 256
    bytes from the first one that the radio has not sent. *)
Fixpoint writes_ok (sent : list HalEvent → Z) (pre tr : list HalEvent) : Prop :=
  match tr with
  | [] => True
  | e :: rest =>
      match e with
      | EvWriteBuffer off data =>
          off = u8 (loaded pre) ∧ loaded pre + Z.of_nat (length data) <= sent pre + 256
      | _ => True
      end ∧ writes_ok sent (pre ++ [e]) rest
  end.

Lemma writes_ok_app sent a : ∀ pre b,
  writes_ok sent pre (a ++ b) ↔ writes_ok sent pre a ∧ writes_ok sent (pre ++ a) b.
Proof.
  induction a as [|e a IH]; intros pre b; cbn [app writes_ok].
  - rewrite app_nil_r. tauto.
  - rewrite IH, <- app_assoc. cbn [app]. tauto.
Qed.

(** The radio's buffer then holds all that was written and not sent. *)
Lemma writes_ok_memory sent tr :
  (∀ a b, sent a <= sent (a ++ b)) → (∀ a, 0 <= sent a <= loaded a) → writes_ok sent [] tr →
  ∀ j, sent tr <= j < loaded tr → tx_memory tr (u8 j) = tx_written tr !!! Z.to_nat j.
Proof.
  intros Hmono H0. induction tr as [|e tr IH] using rev_ind; intros Hok j Hj.
  { unfold loaded in Hj. cbn in Hj. specialize (H0 []). lia. }
  apply writes_ok_app in Hok as [Hok He]. specialize (Hmono tr [e]). specialize (H0 tr).
  unfold tx_memory. rewrite fold_left_app. cbn [fold_left]. fold (tx_memory tr).
  rewrite tx_written_app. rewrite loaded_app in Hj.
  destruct (decide (written_by e = [])) as [Hw|Hw].
  - assert (loaded [e] = 0) as Hl by (unfold loaded; cbn; rewrite app_nil_r, Hw; done).
    cbn. rewrite app_nil_r, Hw, app_nil_r.
    assert (store_by (tx_memory tr) e (u8 j) = tx_memory tr (u8 j)) as ->; [|apply IH; [done | lia]].
    destruct e; try done. cbn in Hw. subst. unfold store_by, store_at. cbn [length].
    pose proof (Z.mod_pos_bound (u8 j - offset) 256 ltac:(lia)). case_match; [lia | done].
  - destruct e as [| | | | |off data| | | | | | | | | | | |]; try done.
    cbn [app writes_ok] in He. destruct He as [[-> Hfit] _].
    cbn [flat_map written_by tx_written store_by] in *. rewrite app_nil_r.
    set (n := Z.of_nat (length data)) in *.
    assert (loaded [EvWriteBuffer (u8 (loaded tr)) data] = n) as Hn
      by (unfold loaded; cbn; now rewrite app_nil_r).
    rewrite Hn in Hj. unfold store_at. fold n. set (w := loaded tr) in *.
    assert ((u8 j - u8 w) mod 256 = (j - w) mod 256) as Hm
      by (unfold u8; change (2 ^ 8) with 256; now rewrite <- Zminus_mod).
    rewrite Hm. destruct (decide (j < w)) as [Hlt|Hge].
    + assert ((j - w) mod 256 = j - w + 256) as ->.
      { symmetry. apply (Z.mod_unique _ _ (-1)); lia. }
      replace (_ <? n) with false by lia. rewrite IH by (done || lia).
      unfold w, loaded in *. now rewrite lookup_total_app_l by lia.
    + rewrite Z.mod_small by lia. replace (_ <? n) with true by lia.
      assert (w = Z.of_nat (length (tx_written tr))) as Hw' by done.
      rewrite lookup_total_app_r by lia. f_equal. lia.
Qed.

(** ** The packet *)

Definition long_header (i : RFwInit_t) (size : Z) : list Z :=
  if PayloadLengthFieldSize i =? 1 then [u8 size] else [byte_at 8 size; byte_at 0 size].

(** Length field, payload and CRC, before and after the whitening. *)
Definition long_clear (i : RFwInit_t) (payload : list Z) : list Z :=
  let body := long_header i (Z.of_nat (length payload)) ++ payload in body ++ rfw_crc i body.
Definition long_packet (i : RFwInit_t) (payload : list Z) : list Z :=
  fst (white_run (WhiteSeed i) (long_clear i payload)).

Lemma long_header_length i n :
  rfw_wf i → Z.of_nat (length (long_header i n)) = PayloadLengthFieldSize i.
Proof. unfold long_header. intros [[H|H] _]; rewrite H; done. Qed.

Lemma long_clear_length i payload :
  rfw_wf i →
  Z.of_nat (length (long_clear i payload)) =
    Z.of_nat (length payload) + PayloadLengthFieldSize i + CrcFieldSize i.
Proof.
  intros H. unfold long_clear. rewrite !length_app.
  pose proof (long_header_length i (Z.of_nat (length payload)) H).
  pose proof (rfw_crc_length i (long_header i (Z.of_nat (length payload)) ++ payload) H). lia.
Qed.

(** The CRC state after [data], and the first [n] bytes of the CRC field that
    belongs to a state. *)
Definition crc_after (i : RFwInit_t) (c : Z) (data : list Z) : Z :=
  if CrcEnable i =? 1 then crc_run (CrcPolynomial i) c data else c.
Definition crc_field (i : RFwInit_t) (c n : Z) : list Z :=
  if CrcEnable i =? 1 then take (Z.to_nat n) (crc_result (CrcType i) c) else [].

Lemma crc_after_app i c a b : crc_after i c (a ++ b) = crc_after i (crc_after i c a) b.
Proof. unfold crc_after, crc_run. destruct (_ =? 1); [apply fold_left_app | done]. Qed.

(** A chunk has the whole CRC field or nothing of it. *)
Lemma crc_field_none i c : crc_field i c 0 = [].
Proof. unfold crc_field. by case_match. Qed.
Lemma crc_field_all i body :
  rfw_wf i → crc_field i (crc_after i (CrcSeed i) body) (CrcFieldSize i) = rfw_crc i body.
Proof.
  intros [_ [[H _]|[H H']]]; unfold crc_field, crc_after, rfw_crc; rewrite H; [done|].
  now rewrite H'.
Qed.
Lemma crc_field_length i c n :
  rfw_wf i → n = 0 ∨ n = CrcFieldSize i → Z.of_nat (length (crc_field i c n)) = n.
Proof.
  intros [_ [[H H']|[H H']]] Hn; unfold crc_field; rewrite H; cbn [Z.eqb Pos.eqb].
  - cbn [length]. lia.
  - rewrite length_take, crc_result_length. lia.
Qed.

Section LongTx.
Context {cfg : Config} {env : Env}.

(** ** One chunk *)

(** The CRC over [body], of which [n] bytes are appended. *)
Lemma append_crc_eq s body rest n :
  let i := Init (RFWPacket s) in
  let c := crc_after i (CrcLfsrState (RFWPacket s)) body in
  rfw_wf i → n = 0 ∨ n = CrcFieldSize i →
  ChunkBuffer s = body ++ rest → n <= Z.of_nat (length rest) →
  when (CrcEnable i =? 1)
    (crc ← RFW_CrcRun 0 (Z.of_nat (length body));
     write_chunk (Z.of_nat (length body)) (take (Z.to_nat n) crc)) s =
  Ret tt (s <| RFWPacket ; CrcLfsrState := c |>
            <| ChunkBuffer := (body ++ crc_field i c n) ++ drop (Z.to_nat n) rest |>).
Proof.
  intros i c Hwf Hn HB Hl. pose proof (crc_field_length i c n Hwf Hn) as Hlen.
  unfold c, crc_field, crc_after in *. fold i in Hwf. destruct (CrcEnable i =? 1) eqn:E; cbn [when].
  - erewrite bind_Ret by (apply (RFW_CrcRun_eq _ [] body rest); done). fold i.
    erewrite write_chunk_eq; [rewrite <- app_assoc; reflexivity|].
    cbn -[crc_result crc_run]. rewrite HB.
    rewrite <- (take_drop (Z.to_nat n) rest) at 1. apply buf_write_mid; [done|].
    rewrite length_take in Hlen. rewrite !length_take. lia.
  - cbn [length] in Hlen. subst n. rewrite app_nil_r, drop_0, <- HB.
    now destruct s as [?????????? [] ???].
Qed.

(** The application gives the payload [P] in order, and does nothing else. *)
Record supplies (t0 : list HalEvent) (P : list Z) : Prop := {
  supply : ∀ tr n, 0 <= n → 0 <= asked tr → asked tr + n <= Z.of_nat (length P) →
    buf_read (next_chunk_answer (t0 ++ tr) n) 0 n =
      Some (take (Z.to_nat n) (drop (Z.to_nat (asked tr)) P));
  supply_quiet : ∀ n s, app_reaction (App_GetNextChunk n) s = s }.

Lemma get_next_chunk_eq t0 P s tr n :
  supplies t0 P → trace s = t0 ++ tr →
  0 <= n → 0 <= asked tr → asked tr + n <= Z.of_nat (length P) →
  get_next_chunk n s =
    Ret (take (Z.to_nat n) (drop (Z.to_nat (asked tr)) P))
        (s <| trace := trace s ++ [EvApp (App_GetNextChunk n)] |>).
Proof.
  intros [Hs Hq] Ht Hn Ha Hl. unfold get_next_chunk. erewrite bind_Ret by reflexivity.
  unfold call_app. rewrite bind_assoc. erewrite bind_Ret by reflexivity.
  erewrite bind_Ret by (unfold update; rewrite Hq; reflexivity).
  rewrite Ht at 1. now rewrite Hs.
Qed.

(** [load_tx_chunk] with the bytes [data] and [c] bytes of CRC. *)
Lemma load_tx_chunk_eq s data n c wp :
  let i := Init (RFWPacket s) in
  let w := WhiteLfsrState (RFWPacket s) in
  let crc := crc_after i (CrcLfsrState (RFWPacket s)) data in
  let clear := data ++ crc_field i crc c in
  get_next_chunk n s =
    Ret data (s <| trace := trace s ++ [EvApp (App_GetNextChunk n)] |>) →
  Z.of_nat (length data) = n → rfw_wf i → buffers_ok s →
  TxLongPacketGetNextChunkCb (RFWPacket s) = true →
  c = 0 ∨ c = CrcFieldSize i → n + c <= 255 →
  ∃ buf, length buf = 255%nat ∧
  load_tx_chunk wp (n + c) c s =
    Ret tt (s <| RFWPacket ; CrcLfsrState := crc |>
              <| RFWPacket ; WhiteLfsrState := snd (white_run w clear) |>
              <| ChunkBuffer := buf |>
              <| trace := trace s ++ [EvApp (App_GetNextChunk n);
                   EvWriteBuffer wp (fst (white_run w clear));
                   EvWriteRegisters SUBGHZ_GRTXPLDLEN [u8 (n + c + wp)]] |>).
Proof.
  intros i w crc clear Hget Hd Hwf [HB HR] Hcb Hc Hfit.
  pose proof (crc_field_length i crc c Hwf Hc) as Hcl.
  set (rest := drop (length data) (ChunkBuffer s)).
  assert (length rest = (255 - length data)%nat) as Hrl by (unfold rest; rewrite length_drop; lia).
  assert (Z.of_nat (length clear) = n + c) as Hcll by (unfold clear; rewrite length_app; lia).
  assert (length (fst (white_run w clear)) = length clear) as Hwl by apply white_run_length.
  exists (fst (white_run w clear) ++ drop (Z.to_nat c) rest).
  split; [rewrite length_app, length_drop; lia|].
  unfold load_tx_chunk. erewrite bind_Ret by reflexivity. rewrite Hcb.
  replace (n + c - c) with n by lia. rewrite (u8_small n), (u16_small n) by lia. rewrite Z.eqb_refl.
  erewrite bind_Ret by exact Hget.
  erewrite bind_Ret.
  2:{ apply write_chunk_eq. sys_simpl. rewrite <- (take_drop (length data) (ChunkBuffer s)).
      apply (buf_write_mid []); [done|]. rewrite length_take. lia. }
  fold rest. cbn [app]. fold i. set (s1 := modify ChunkBuffer _ _).
  pose proof (append_crc_eq s1 data rest c Hwf Hc eq_refl ltac:(lia)) as Hcrc.
  change (Init (RFWPacket s1)) with i in Hcrc. rewrite Hd in Hcrc.
  erewrite bind_Ret by exact Hcrc.
  erewrite bind_Ret.
  2:{ apply (RFW_WhiteRun_eq _ [] clear (drop (Z.to_nat c) rest)); [done | done | lia]. }
  erewrite bind_Ret.
  2:{ apply read_chunk_eq. sys_simpl. apply (buf_read_mid []); [done|].
      rewrite white_run_length. fold crc clear. lia. }
  unfold s1. sys_simpl. cbn [app]. unfold SUBGRF_WriteBuffer, SUBGRF_WriteRegister,
    HAL_SUBGHZ_WriteBuffer, HAL_SUBGHZ_WriteRegisters. unfold emit.
  erewrite bind_Ret by reflexivity. unfold update. sys_simpl. rewrite <- !app_assoc. reflexivity.
Qed.

(** ** The transmission

    The packet timer fires once for each time it was started. *)
Fixpoint tx_events (fuel : nat) : M Sys unit :=
  match fuel with
  | O => spin
  | S fuel =>
      tr ← gets trace;
      RFW_TransmitLongPacket_NewTxChunkTimerEvent;;
      tr' ← gets trace;
      if armed (drop (length tr) tr') then tx_events fuel else skip
  end.

Definition long_transmission (fuel : nat) (payload_size timeout : Z) : M Sys Z :=
  tr ← gets trace;
  status ← RFW_TransmitLongPacket payload_size timeout true;
  tr' ← gets trace;
  when (armed (drop (length tr) tr')) (tx_events fuel);;
  mret status.

(** A sender that [RFW_Init] configured for FSK, for a payload of [size] bytes. *)
Record long_sender (size : Z) (s : Sys) : Prop := {
  ls_wf : rfw_wf (Init (RFWPacket s));
  ls_enable : Enable (Init (RFWPacket s)) = 1;
  ls_modem : rfw_Modem (Init (RFWPacket s)) = MODEM_FSK ∨ rfw_Modem (Init (RFWPacket s)) = MODEM_MSK;
  ls_accepted : long_packet_rejected true size (RFWPacket s) = false;
  ls_total : size + PayloadLengthFieldSize (Init (RFWPacket s)) + CrcFieldSize (Init (RFWPacket s)) < 65536;
  ls_rate : 0 < BitRate (RFWPacket s);
  ls_timer : is_Some (rfw_RxTimeoutTimer (RFWPacket s));
  ls_buffers : buffers_ok s }.

(** ** The invariant of the stream

    The radio since the interactions [t0]: its registers read back what was
    written and where it reads, it sends only what is loaded and never runs
    dry, and between two starts of the packet timer it sends at least two bytes,
    if there are any to send. *)
Record radio_sends (t0 : list HalEvent) (sent : list HalEvent → Z) : Prop := {
  length_register : ∀ tr, register_answer (t0 ++ tr) SUBGHZ_GRTXPLDLEN = tx_length tr;
  pointer_register : ∀ tr, register_answer (t0 ++ tr) SUBGHZ_TXADRPTR = u8 (sent tr);
  sends_loaded : ∀ tr, 0 <= sent tr ∧ (sent tr = 0 ∨ sent tr < loaded tr);
  sends_on : ∀ tr es, sent tr <= sent (tr ++ es);
  sends_two : ∀ tr es, armed es = true →
    Z.min (loaded (tr ++ es) - 1) (sent tr + 2) <= sent (tr ++ es) }.

Section Stream.
Context (t0 : list HalEvent) (sent : list HalEvent → Z) (P : list Z) (i : RFwInit_t).
Context (Hradio : radio_sends t0 sent) (Hsup : supplies t0 P) (Hwf : rfw_wf i).

Definition size : Z := Z.of_nat (length P).
Definition total : Z := size + PayloadLengthFieldSize i + CrcFieldSize i.
(** The length field and the first [k] bytes of the payload. *)
Definition sent_body (k : Z) : list Z := long_header i size ++ take (Z.to_nat k) P.

(** What was asked for was whitened, counted in the CRC, and written, with
    [tail] after it. *)
Record streamed (tail : list Z) (tr : list HalEvent) (s : Sys) : Prop := {
  str_trace : trace s = t0 ++ tr;
  str_init : Init (RFWPacket s) = i;
  str_asked : 0 <= asked tr <= size;
  str_written : tx_written tr = fst (white_run (WhiteSeed i) (sent_body (asked tr) ++ tail));
  str_white : WhiteLfsrState (RFWPacket s) =
    snd (white_run (WhiteSeed i) (sent_body (asked tr) ++ tail));
  str_crc : CrcEnable i = 1 →
    CrcLfsrState (RFWPacket s) = crc_after i (CrcSeed i) (sent_body (asked tr));
  str_length : tx_length tr = u8 (loaded tr);
  str_ok : writes_ok sent [] tr;
  str_cb : TxLongPacketGetNextChunkCb (RFWPacket s) = true;
  str_rate : 0 < BitRate (RFWPacket s);
  str_buffers : buffers_ok s }.

Lemma sent_body_length k : 0 <= k <= size → Z.of_nat (length (sent_body k)) = PayloadLengthFieldSize i + k.
Proof.
  intros Hk. unfold sent_body. rewrite length_app, length_take.
  pose proof (long_header_length i size Hwf). unfold size in *. lia.
Qed.

Lemma streamed_loaded tail tr s :
  streamed tail tr s →
  loaded tr = PayloadLengthFieldSize i + asked tr + Z.of_nat (length tail).
Proof.
  intros H. unfold loaded. rewrite (str_written _ _ _ H), white_run_length, length_app.
  pose proof (sent_body_length _ (str_asked _ _ _ H)). lia.
Qed.

(** Interactions with which the stream does not progress. *)
Definition neutral (e : HalEvent) : Prop :=
  match e with
  | EvWriteBuffer _ _ | EvApp (App_GetNextChunk _) => False
  | EvWriteRegisters a [_] => a ≠ SUBGHZ_GRTXPLDLEN
  | _ => True
  end.

Lemma neutral_event e pre l :
  neutral e → written_by e = [] ∧ asked_by e = 0 ∧ length_by l e = l ∧ writes_ok sent pre [e].
Proof.
  intros H. destruct e; try done. 2:{ now destruct c. }
  repeat split. cbn in *. destruct data as [|v [|]]; try done. case_match; [lia | done].
Qed.

Lemma neutral_events es : Forall neutral es →
  tx_written es = [] ∧ asked es = 0 ∧ (∀ l, fold_left length_by es l = l) ∧
  ∀ pre, writes_ok sent pre es.
Proof.
  induction 1 as [|e es He _ (I1 & I2 & I3 & I4)]; [done|].
  change (e :: es) with ([e] ++ es). rewrite tx_written_app, asked_app, I1, I2. split_and!.
  - cbn. now rewrite (proj1 (neutral_event e [] 0 He)).
  - cbn. destruct (neutral_event e [] 0 He) as (_ & -> & _). done.
  - intros l. cbn. destruct (neutral_event e [] l He) as (_ & _ & -> & _). apply I3.
  - intros pre. apply writes_ok_app. split; [apply (neutral_event e pre 0 He) | apply I4].
Qed.

(** What the invariant is about. *)
Definition same_stream (s s' : Sys) : Prop :=
  Init (RFWPacket s') = Init (RFWPacket s) ∧
  WhiteLfsrState (RFWPacket s') = WhiteLfsrState (RFWPacket s) ∧
  CrcLfsrState (RFWPacket s') = CrcLfsrState (RFWPacket s) ∧
  TxLongPacketGetNextChunkCb (RFWPacket s') = TxLongPacketGetNextChunkCb (RFWPacket s) ∧
  BitRate (RFWPacket s') = BitRate (RFWPacket s) ∧
  ChunkBuffer s' = ChunkBuffer s ∧ RxBuffer s' = RxBuffer s.

Lemma streamed_neutral tail tr es s s' :
  streamed tail tr s → same_stream s s' → trace s' = t0 ++ tr ++ es → Forall neutral es →
  streamed tail (tr ++ es) s'.
Proof.
  intros [] (E1 & E2 & E3 & E4 & E5 & E6 & E7) Ht Hes.
  destruct (neutral_events es Hes) as (N1 & N2 & N3 & N4).
  split; rewrite ?E1, ?E2, ?E3, ?E4, ?E5, ?asked_app, ?tx_written_app, ?N1, ?N2, ?app_nil_r, ?Z.add_0_r;
    try done.
  - unfold tx_length. rewrite fold_left_app, N3, loaded_app. unfold loaded at 2. rewrite N1.
    cbn [length]. now rewrite Z.add_0_r.
  - apply writes_ok_app. split; [done | apply N4].
  - unfold buffers_ok. by rewrite E6, E7.
Qed.

Lemma sent_body_next k n : 0 <= k → 0 <= n →
  sent_body (k + n) = sent_body k ++ take (Z.to_nat n) (drop (Z.to_nat k) P).
Proof.
  intros Hk Hn. unfold sent_body. rewrite <- app_assoc, take_take_drop.
  do 2 f_equal. lia.
Qed.

Lemma crc_field_next c k data n :
  (CrcEnable i = 1 → c = crc_after i (CrcSeed i) (sent_body k)) →
  crc_field i (crc_after i c data) n = crc_field i (crc_after i (CrcSeed i) (sent_body k ++ data)) n.
Proof.
  intros H. unfold crc_field. destruct (Z.eqb_spec (CrcEnable i) 1) as [E|]; [|done].
  now rewrite crc_after_app, H.
Qed.

(** A chunk: the next [n] bytes and [c] bytes of the CRC. *)
Lemma streamed_load tr s n c :
  streamed [] tr s → c = 0 ∨ c = CrcFieldSize i → 0 <= n → n + c <= 255 → asked tr + n <= size →
  loaded tr + n + c <= sent tr + 256 →
  let tail := crc_field i (crc_after i (CrcSeed i) (sent_body (asked tr + n))) c in
  ∃ s' es, load_tx_chunk (u8 (loaded tr)) (n + c) c s = Ret tt s' ∧
    streamed tail (tr ++ es) s' ∧ asked (tr ++ es) = asked tr + n ∧ armed es = false ∧
    RadioBufferOffset (RFWPacket s') = RadioBufferOffset (RFWPacket s) ∧
    LongPacketRemainingBytes (RFWPacket s') = LongPacketRemainingBytes (RFWPacket s).
Proof.
  intros Hs Hc Hn Hfit Hk Hroom tail. pose proof (str_asked _ _ _ Hs) as [Ha _].
  pose proof (crc_field_length i (crc_after i (CrcSeed i) (sent_body (asked tr + n))) c Hwf Hc) as Htl.
  fold tail in Htl.
  set (data := take (Z.to_nat n) (drop (Z.to_nat (asked tr)) P)).
  assert (Z.of_nat (length data) = n) as Hdn
    by (unfold data, size in *; rewrite length_take, length_drop; lia).
  destruct (load_tx_chunk_eq s data n c (u8 (loaded tr))) as (buf & Hbuf & ->);
    rewrite ?(str_init _ _ _ Hs); try apply Hs; try done.
  { apply (get_next_chunk_eq t0 P s tr n Hsup (str_trace _ _ _ Hs)); unfold size in *; lia. }
  rewrite (crc_field_next _ (asked tr) data c (str_crc _ _ _ Hs)).
  unfold data. rewrite <- sent_body_next by lia. fold data tail.
  set (w := WhiteLfsrState (RFWPacket s)). set (out := white_run w (data ++ tail)).
  set (es := [EvApp (App_GetNextChunk n); EvWriteBuffer _ (fst out); _]).
  assert (asked (tr ++ es) = asked tr + n) as Hak by (rewrite asked_app; cbn; lia).
  assert (tx_written es = fst out) as Hwr by (cbn; apply app_nil_r).
  assert (length (fst out) = length (data ++ tail)) as Hol by apply white_run_length.
  assert (Z.of_nat (length (data ++ tail)) = n + c) as Hdl.
  { rewrite length_app. lia. }
  assert (white_run (WhiteSeed i) (sent_body (asked tr + n) ++ tail) =
    (tx_written tr ++ fst out, snd out)) as Hrun.
  { rewrite sent_body_next by lia. fold data. rewrite <- app_assoc, white_run_app.
    unfold out, w. rewrite (str_written _ _ _ Hs), (str_white _ _ _ Hs), app_nil_r. done. }
  eexists _, es. split; [reflexivity|]. split; [|done].
  split; rewrite ?Hak, ?Hrun; try apply Hs; cbn [fst snd]; sys_simpl.
  - rewrite (str_trace _ _ _ Hs). by rewrite <- app_assoc.
  - lia.
  - rewrite tx_written_app. by rewrite Hwr.
  - done.
  - intros E. rewrite sent_body_next, crc_after_app by lia. by rewrite (str_crc _ _ _ Hs E).
  - rewrite tx_length_app. cbn. unfold loaded. rewrite tx_written_app, Hwr, length_app, Hol.
    fold (loaded tr). unfold u8. rewrite Z.add_mod_idemp_r by lia. f_equal. unfold loaded. lia.
  - apply writes_ok_app. split; [apply Hs|]. cbn [writes_ok es app].
    rewrite loaded_app. change (loaded [EvApp (App_GetNextChunk n)]) with 0. rewrite Z.add_0_r.
    split; [done|]. split; [|done]. split; [done|].
    pose proof (sends_on _ _ Hradio tr [EvApp (App_GetNextChunk n)]). rewrite Hol. lia.
  - split; [done | apply Hs].
Qed.
(** ** The handler of the packet timer *)

(** [S] bytes were sent when the handler last looked, and the radio's buffer
    was filled, but for the CRC field in the end. *)
Record position (S : Z) (tr : list HalEvent) (s : Sys) : Prop := {
  pos_offset : RadioBufferOffset (RFWPacket s) = u8 S;
  pos_remaining : LongPacketRemainingBytes (RFWPacket s) = total - S;
  pos_since : ∃ a b, tr = a ++ b ∧ armed b = true ∧ S = sent a;
  pos_loaded :
    (loaded tr = S + 255 ∧ loaded tr + Z.max 1 (CrcFieldSize i) <= total) ∨
    (loaded tr = S + 255 - CrcFieldSize i ∧ loaded tr + CrcFieldSize i < total ∧
     total <= S + 256 + CrcFieldSize i) }.

Lemma crc_size : CrcFieldSize i = 0 ∨ CrcFieldSize i = 2.
Proof. destruct Hwf as [_ [[_ H]|[_ H]]]; tauto. Qed.

(** Where the radio is when the timer fires. *)
Lemma position_sent S tr s :
  position S tr s → 0 <= S ∧ S + 2 <= sent tr < loaded tr ∧ loaded tr <= S + 255.
Proof.
  intros [_ _ (a & b & -> & Hb & ->) Hl].
  pose proof (sends_two _ _ Hradio a b Hb). pose proof (sends_loaded _ _ Hradio (a ++ b)).
  pose proof (sends_loaded _ _ Hradio a). destruct crc_size as [E|E]; rewrite E in Hl; lia.
Qed.

(** The three cases of the handler, and the chunk of each. *)
Lemma next_tx_chunk_position S tr s :
  position S tr s → total < 65536 →
  let b := sent tr - S in
  let remaining := total - sent tr in
  ∃ n c more, next_tx_chunk remaining b (loaded tr - sent tr) (CrcFieldSize i) = (n + c, c, more) ∧
    0 <= n ∧ n + c <= 255 ∧ loaded tr + n + c <= sent tr + 256 ∧
    if more : bool
    then c = 0 ∧
      ((loaded tr + n = sent tr + 255 ∧ loaded tr + n + Z.max 1 (CrcFieldSize i) <= total) ∨
       (loaded tr + n = sent tr + 255 - CrcFieldSize i ∧ loaded tr + n + CrcFieldSize i < total ∧
        total <= sent tr + 256 + CrcFieldSize i))
    else c = CrcFieldSize i ∧ loaded tr + n + c = total.
Proof.
  intros Hpos Ht b remaining. pose proof (position_sent _ _ _ Hpos) as (H0 & Hb & Hl).
  destruct Hpos as [_ _ _ Hp]. unfold next_tx_chunk.
  assert (Z.max 1 (CrcFieldSize i) = if CrcFieldSize i =? 0 then 1 else 2) as Hmax
    by (destruct crc_size as [E|E]; rewrite E; done).
  rewrite Hmax in *.
  destruct (Z.ltb_spec 256 remaining); [destruct (Z.ltb_spec (256 + CrcFieldSize i) remaining)|].
  - exists b, 0, true. destruct crc_size as [E|E]; rewrite E in *; cbn in *;
      (split; [f_equal; f_equal; lia|]); unfold b, remaining in *; lia.
  - exists (b - CrcFieldSize i), 0, true.
    rewrite u8_small by (destruct crc_size as [E|E]; rewrite E in *; unfold b; lia).
    destruct crc_size as [E|E]; rewrite E in *; cbn in *;
      (split; [f_equal; f_equal; lia|]); unfold b, remaining in *; lia.
  - exists (total - loaded tr - CrcFieldSize i), (CrcFieldSize i), false.
    assert (loaded tr - sent tr < remaining)
      by (unfold remaining; destruct crc_size as [E|E]; rewrite E in *; cbn in *; lia).
    replace (_ <? remaining) with true by lia.
    rewrite u8_small by (unfold remaining; destruct crc_size as [E|E]; rewrite E in *; cbn in *; lia).
    destruct crc_size as [E|E]; rewrite E in *; cbn in *;
      (split; [unfold remaining; f_equal; f_equal; lia|]); unfold remaining in *; lia.
Qed.
Lemma u8_diff a b : 0 <= a - b < 256 → u8 (u8 a - u8 b) = a - b.
Proof. intros H. unfold u8. rewrite <- Zminus_mod. now apply Z.mod_small. Qed.

Lemma loaded_neutral tr es : Forall neutral es → loaded (tr ++ es) = loaded tr.
Proof.
  intros H. rewrite loaded_app. unfold loaded at 2. rewrite (proj1 (neutral_events es H)).
  cbn [length]. lia.
Qed.
Lemma asked_neutral tr es : Forall neutral es → asked (tr ++ es) = asked tr.
Proof. intros H. rewrite asked_app, (proj1 (proj2 (neutral_events es H))). lia. Qed.

(** The handler up to the choice of the chunk. *)
Definition looked (S' : Z) (s : Sys) : Sys :=
  s <| trace := trace s ++ [EvReadRegisters SUBGHZ_TXADRPTR 1; EvReadRegisters SUBGHZ_GRTXPLDLEN 1] |>
    <| RFWPacket ; RadioBufferOffset := u8 S' |>
    <| RFWPacket ; LongPacketRemainingBytes := total - S' |>.

Lemma tx_process_looks S tr s :
  streamed [] tr s → position S tr s → total < 65536 →
  RFW_TransmitLongPacket_TxChunkProcess s =
    (let '(chunk_size, crc_size, more) :=
       next_tx_chunk (total - sent tr) (sent tr - S) (loaded tr - sent tr) (CrcFieldSize i) in
     (if more : bool then
        timeout ← by_BitRate (DIVR (chunk_size * 8 * 1000));
        emit (EvTimerSetValue RFWPacket_Timer timeout);;
        emit (EvTimerStart RFWPacket_Timer)
      else upd_rfw (λ f, f <| LongPacketRemainingBytes := 0 |>));;
     load_tx_chunk (u8 (loaded tr)) chunk_size crc_size) (looked (sent tr) s).
Proof.
  intros Hs Hpos Ht. pose proof (position_sent _ _ _ Hpos) as (H0 & Hb & Hl).
  destruct Hpos as [Ho Hr _ Hp].
  assert (SUBGRF_ReadRegister SUBGHZ_TXADRPTR s = Ret (u8 (sent tr))
    (s <| trace := trace s ++ [EvReadRegisters SUBGHZ_TXADRPTR 1] |>)) as H1.
  { rewrite read_register_eq. rewrite (str_trace _ _ _ Hs) at 1.
    rewrite (pointer_register _ _ Hradio). now rewrite u8_small by apply u8_range. }
  set (s1 := modify trace _ s) in H1.
  assert (SUBGRF_ReadRegister SUBGHZ_GRTXPLDLEN s1 = Ret (u8 (loaded tr))
    (s1 <| trace := trace s1 ++ [EvReadRegisters SUBGHZ_GRTXPLDLEN 1] |>)) as H2.
  { rewrite read_register_eq. unfold s1 at 1. sys_simpl.
    rewrite (str_trace _ _ _ Hs), <- app_assoc, (length_register _ _ Hradio), tx_length_app.
    cbn [fold_left length_by]. rewrite (str_length _ _ _ Hs). now rewrite u8_small by apply u8_range. }
  unfold RFW_TransmitLongPacket_TxChunkProcess.
  erewrite bind_Ret by exact H1. erewrite bind_Ret by exact H2.
  erewrite bind_Ret by reflexivity. cbv zeta.
  change (RFWPacket (modify trace _ s1)) with (RFWPacket s).
  rewrite Ho, (u8_diff (sent tr) S), (u8_diff (loaded tr) (sent tr)) by lia.
  erewrite bind_Ret by reflexivity. erewrite bind_Ret by reflexivity.
  set (s2 := modify RFWPacket _ (modify trace _ s1)).
  assert (s2 = looked (sent tr) s) as ->.
  { unfold s2, looked, s1. sys_simpl. rewrite Ho, Hr, <- !app_assoc. cbn [app].
    replace (u8 (u8 S + (sent tr - S))) with (u8 (sent tr))
      by (unfold u8; rewrite Z.add_mod_idemp_l by done; f_equal; lia).
    replace (u16 (total - S - (sent tr - S))) with (total - sent tr); [done|].
    rewrite u16_small; destruct crc_size as [E|E]; rewrite E in *; lia. }
  change (Init (RFWPacket (looked _ s))) with (Init (RFWPacket s)).
  rewrite (str_init _ _ _ Hs). reflexivity.
Qed.

(** One firing of the timer: either the timer is started again and the
    invariant holds, or the packet is complete. *)
Lemma tx_process_step S tr s :
  streamed [] tr s → position S tr s → total < 65536 →
  ∃ s' es, RFW_TransmitLongPacket_TxChunkProcess s = Ret tt s' ∧ trace s' = trace s ++ es ∧
    if armed es
    then streamed [] (tr ++ es) s' ∧ position (sent tr) (tr ++ es) s' ∧ S + 2 <= sent tr
    else streamed (rfw_crc i (sent_body size)) (tr ++ es) s' ∧ asked (tr ++ es) = size.
Proof.
  intros Hs Hpos Ht. pose proof (position_sent _ _ _ Hpos) as (H0 & Hb & Hl).
  pose proof (streamed_loaded _ _ _ Hs) as Hld. cbn [length] in Hld.
  rewrite (tx_process_looks S tr s Hs Hpos Ht).
  destruct (next_tx_chunk_position S tr s Hpos Ht) as (n & c & more & -> & Hn & Hfit & Hroom & Hmore).
  set (look := [EvReadRegisters SUBGHZ_TXADRPTR 1; EvReadRegisters SUBGHZ_GRTXPLDLEN 1]).
  assert (∃ s1 es1, Forall neutral es1 ∧ same_stream s s1 ∧ trace s1 = t0 ++ tr ++ es1 ∧
    armed es1 = more ∧ RadioBufferOffset (RFWPacket s1) = u8 (sent tr) ∧
    (more = true → LongPacketRemainingBytes (RFWPacket s1) = total - sent tr) ∧
    (if more
     then timeout ← by_BitRate (DIVR ((n + c) * 8 * 1000));
          emit (EvTimerSetValue RFWPacket_Timer timeout);; emit (EvTimerStart RFWPacket_Timer)
     else upd_rfw (λ f, f <| LongPacketRemainingBytes := 0 |>)) (looked (sent tr) s) = Ret tt s1)
    as (s1 & es1 & Hn1 & Hsame & Ht1 & Ha1 & Ho1 & Hr1 & Hrun).
  { destruct more.
    - unfold by_BitRate. pose proof (str_rate _ _ _ Hs) as Hrate. 
      eexists _, (look ++ [EvTimerSetValue RFWPacket_Timer (DIVR ((n + c) * 8 * 1000) (BitRate (RFWPacket s)));
                           EvTimerStart RFWPacket_Timer]).
      split_and!; cycle 6.
      { rewrite bind_assoc. erewrite bind_Ret by reflexivity.
        change (BitRate (RFWPacket (looked _ s))) with (BitRate (RFWPacket s)).
        rewrite (proj2 (Z.eqb_neq _ _)) by lia. reflexivity. }
      { unfold look. cbn [app]. repeat (apply Forall_cons_2; [done|]); apply Forall_nil_2. } { done. }
      { unfold looked. sys_simpl. rewrite (str_trace _ _ _ Hs), <- !app_assoc. reflexivity. }
      all: done.
    - eexists _, look. split_and!; cycle 6. { reflexivity. }
      { unfold look. cbn [app]. repeat (apply Forall_cons_2; [done|]); apply Forall_nil_2. } { done. }
      { unfold looked. sys_simpl. rewrite (str_trace _ _ _ Hs), <- !app_assoc. reflexivity. }
      all: done. }
  erewrite bind_Ret by exact Hrun.
  pose proof (streamed_neutral [] tr es1 s s1 Hs Hsame Ht1 Hn1) as Hs1.
  pose proof (sends_on _ _ Hradio tr es1) as Hon.
  destruct (streamed_load (tr ++ es1) s1 n c Hs1) as (s2 & es2 & Hload & Hs2 & Hk & Ha2 & Ho2 & Hr2);
    [destruct more; tauto | lia | lia | | rewrite loaded_neutral by done; lia |].
  { rewrite asked_neutral by done. unfold total in *.
    destruct more; destruct crc_size as [E|E]; rewrite E in *; lia. }
  rewrite (loaded_neutral tr es1 Hn1) in Hload. rewrite (asked_neutral tr es1 Hn1) in Hk, Hs2.
  exists s2, (es1 ++ es2). split; [exact Hload|].
  split; [by rewrite (str_trace _ _ _ Hs2), (str_trace _ _ _ Hs), !app_assoc|].
  rewrite armed_app, Ha1, Ha2, orb_false_r, app_assoc.
  pose proof (streamed_loaded _ _ _ Hs2) as Hld2. rewrite Hk in Hld2.
  destruct more; destruct Hmore as [-> Hmore].
  - rewrite crc_field_none in Hs2, Hld2. cbn [length] in Hld2. split; [done|]. split; [|lia].
    split; [by rewrite Ho2 | by rewrite Hr2, Hr1 | |].
    + exists tr, (es1 ++ es2). rewrite armed_app, Ha1, app_assoc. done.
    + replace (loaded ((tr ++ es1) ++ es2)) with (loaded tr + n) by lia. exact Hmore.
  - assert (asked tr + n = size) as Hall by (unfold total in *; lia). rewrite Hall in *.
    split; [|done]. by rewrite crc_field_all in Hs2.
Qed.
(** ** The first chunk *)

Lemma set_and_append_crc s body rest n :
  Init (RFWPacket s) = i → n = 0 ∨ n = CrcFieldSize i →
  ChunkBuffer s = body ++ rest → n <= Z.of_nat (length rest) →
  let field := crc_field i (crc_after i (CrcSeed i) body) n in
  ∃ c, (CrcEnable i = 1 → c = crc_after i (CrcSeed i) body) ∧
    when (CrcEnable i =? 1)
      (RFW_CrcSetState;;
       crc ← RFW_CrcRun 0 (Z.of_nat (length body));
       write_chunk (Z.of_nat (length body)) (take (Z.to_nat n) crc)) s =
    Ret tt (s <| RFWPacket ; CrcLfsrState := c |>
              <| ChunkBuffer := (body ++ field) ++ drop (Z.to_nat n) rest |>).
Proof.
  intros Hi Hn HB Hl field. pose proof (crc_field_length i (crc_after i (CrcSeed i) body) n Hwf Hn) as Hlen.
  destruct (CrcEnable i =? 1) eqn:E.
  - pose proof (append_crc_eq (s <| RFWPacket ; CrcLfsrState := CrcSeed i |>) body rest n) as H.
    cbn zeta in H. change (Init (RFWPacket (modify RFWPacket _ s))) with (Init (RFWPacket s)) in H.
    rewrite Hi in H. specialize (H Hwf Hn HB Hl). rewrite E in H. cbn [when] in *.
    assert (RFW_CrcSetState s = Ret tt (s <| RFWPacket ; CrcLfsrState := CrcSeed i |>)) as Hset
      by (rewrite <- Hi; reflexivity).
    eexists. split; [reflexivity|]. erewrite bind_Ret by exact Hset.
    etransitivity; [exact H|]. reflexivity.
  - exists (CrcLfsrState (RFWPacket s)). split; [lia|]. unfold field, crc_field in *.
    rewrite E in *. cbn [length] in Hlen. subst n. rewrite app_nil_r, drop_0, <- HB.
    now destruct s as [?????????? [] ???].
Qed.

Lemma streamed_first tr s n c :
  trace s = t0 ++ tr → Init (RFWPacket s) = i → Forall neutral tr → buffers_ok s →
  TxLongPacketGetNextChunkCb (RFWPacket s) = true → 0 < BitRate (RFWPacket s) →
  c = 0 ∨ c = CrcFieldSize i → 0 <= n <= size → PayloadLengthFieldSize i + n + c <= 255 →
  let tail := crc_field i (crc_after i (CrcSeed i) (sent_body n)) c in
  ∃ s' es, send_first_chunk size n c s = Ret tt s' ∧
    streamed tail (tr ++ es) s' ∧ asked (tr ++ es) = n ∧ armed es = false ∧
    RadioBufferOffset (RFWPacket s') = RadioBufferOffset (RFWPacket s) ∧
    LongPacketRemainingBytes (RFWPacket s') = LongPacketRemainingBytes (RFWPacket s) ∧
    rfw_RxTimeoutTimer (RFWPacket s') = rfw_RxTimeoutTimer (RFWPacket s).
Proof.
  intros Ht Hi Htr [HB HR] Hcb Hrate Hc Hn Hfit tail.
  destruct (neutral_events tr Htr) as (N1 & N2 & N3 & N4).
  pose proof (long_header_length i size Hwf) as Hhl.
  pose proof (crc_field_length i (crc_after i (CrcSeed i) (sent_body n)) c Hwf Hc) as Htl. fold tail in Htl.
  pose proof (sent_body_length n Hn) as Hbl.
  set (hdr := long_header i size) in *. set (data := take (Z.to_nat n) P).
  assert (Z.of_nat (length data) = n) as Hdl by (unfold data, size in *; rewrite length_take; lia).
  set (rest := drop (length hdr + length data) (ChunkBuffer s)).
  assert (length rest = (255 - (length hdr + length data))%nat) as Hrl
    by (unfold rest; rewrite length_drop; lia).
  unfold send_first_chunk. erewrite bind_Ret by reflexivity. rewrite Hi. cbv zeta.
  erewrite bind_Ret.
  2:{ apply write_chunk_eq. rewrite <- (take_drop (length hdr) (ChunkBuffer s)).
      apply (buf_write_mid []); [done|]. fold hdr. rewrite length_take. unfold hdr, long_header in *. lia. }
  cbn [app]. change (if PayloadLengthFieldSize i =? 1 then _ else _) with hdr.
  set (s0 := modify ChunkBuffer _ s).
  erewrite bind_Ret by (apply (get_next_chunk_eq t0 P s0 tr n Hsup Ht); rewrite ?N2; unfold size in *; lia).
  rewrite N2, drop_0. fold data. unfold s0. clear s0.
  erewrite bind_Ret.
  2:{ apply write_chunk_eq. sys_simpl. rewrite <- (take_drop (length data) (drop _ _)).
      apply (buf_write_mid hdr); [done|]. rewrite length_take, length_drop. lia. }
  rewrite drop_drop. fold rest. rewrite app_assoc. change (hdr ++ data) with (sent_body n).
  set (s1 := modify ChunkBuffer _ _).
  destruct (set_and_append_crc s1 (sent_body n) rest c Hi Hc eq_refl) as (crc & Hcrc & Hset); [lia|].
  fold tail in Hset. rewrite Hbl in Hset. erewrite bind_Ret by exact Hset.
  set (s2 := modify ChunkBuffer _ _).
  assert (RFW_WhiteSetState s2 = Ret tt (s2 <| RFWPacket ; WhiteLfsrState := WhiteSeed i |>)) as Hw
    by (rewrite <- Hi; reflexivity).
  erewrite bind_Ret by exact Hw.
  set (out := white_run (WhiteSeed i) (sent_body n ++ tail)).
  assert (length (fst out) = length (sent_body n ++ tail)) as Hol by apply white_run_length.
  assert (Z.of_nat (length (sent_body n ++ tail)) = PayloadLengthFieldSize i + n + c) as Htotl
    by (rewrite length_app; lia).
  erewrite bind_Ret.
  2:{ apply (RFW_WhiteRun_eq _ [] (sent_body n ++ tail) (drop (Z.to_nat c) rest)); [done | done | lia]. }
  erewrite bind_Ret by reflexivity. erewrite bind_Ret by reflexivity.
  rewrite u8_small by lia.
  erewrite bind_Ret.
  2:{ apply read_chunk_eq. sys_simpl. fold out. apply (buf_read_mid []); [done | lia]. }
  sys_simpl. fold out.
  set (es := [EvApp (App_GetNextChunk n);
    EvWriteRegisters SUBGHZ_GRTXPLDLEN [PayloadLengthFieldSize i + n + c];
    EvWriteRegisters SUBGHZ_TXADRPTR [0]; EvWriteBuffer 0 (fst out);
    EvSetCmd RADIO_SET_TX [0; 0; 0]]).
  assert (asked (tr ++ es) = n) as Hk by (rewrite asked_app, N2; cbn; lia).
  assert (tx_written (tr ++ es) = fst out) as Hwr
    by (rewrite tx_written_app, N1; cbn; by rewrite app_nil_r).
  eexists _, es. split.
  { unfold SUBGRF_SendPayload, SUBGRF_SetPayload, SUBGRF_SetTx. unfold s2, s1. sys_simpl.
    unfold SUBGRF_WriteBuffer, HAL_SUBGHZ_WriteBuffer, emit, update. 
    erewrite bind_Ret by reflexivity. reflexivity. }
  split; [|done]. sys_simpl.
  split; rewrite ?Hk, ?Hwr; sys_simpl; try done.
  - rewrite Ht, <- !app_assoc. reflexivity.
  - unfold loaded. rewrite Hwr, Hol, Htotl, tx_length_app. unfold tx_length. rewrite N3. cbn.
    now rewrite u8_small by lia.
  - apply writes_ok_app. split; [apply N4|]. cbn [es writes_ok app].
    set (pre := (_ ++ [EvWriteRegisters SUBGHZ_TXADRPTR _])).
    assert (loaded pre = 0) as -> by (unfold pre, loaded; rewrite !tx_written_app, N1; done).
    pose proof (sends_loaded _ _ Hradio pre). rewrite Hol. repeat split; lia.
  - split; [|done]. sys_simpl. rewrite !length_app, length_drop. cbn [length]. lia.
Qed.
(** ** The whole transmission *)

Lemma first_sizes_position : total < 65536 →
  ∃ n c, first_chunk_sizes size i = (n, c) ∧ (c = 0 ∨ c = CrcFieldSize i) ∧ 0 <= n <= size ∧
    PayloadLengthFieldSize i + n + c <= 255 ∧
    if RADIO_BUF_SIZE <? total
    then c = 0 ∧
      let first := PayloadLengthFieldSize i + n in
      ((first = 255 ∧ first + Z.max 1 (CrcFieldSize i) <= total) ∨
       (first = 255 - CrcFieldSize i ∧ first + CrcFieldSize i < total ∧ total <= 256 + CrcFieldSize i))
    else n = size ∧ c = CrcFieldSize i.
Proof.
  intros Ht. unfold first_chunk_sizes. fold total. unfold RADIO_BUF_SIZE.
  assert (0 <= size) by (unfold size; lia). cbv zeta.
  replace (size + PayloadLengthFieldSize i + CrcFieldSize i) with total by done.
  assert (total = size + PayloadLengthFieldSize i + CrcFieldSize i) as Htot by done.
  destruct (Z.ltb_spec 255 total); [destruct (Z.ltb_spec total (255 + CrcFieldSize i))|];
    do 2 eexists; (split; [reflexivity|]);
    destruct Hwf as [[L|L] _]; destruct crc_size as [E|E]; rewrite L, E in *;
    cbn [Z.sub Z.add Z.opp Z.max Z.compare Pos.compare Pos.add Pos.sub Pos.mul] in *;
    rewrite ?u8_small by lia; lia.
Qed.

Lemma arm_next_chunk_eq timeout s :
  0 < BitRate (RFWPacket s) → is_Some (rfw_RxTimeoutTimer (RFWPacket s)) →
  ∃ es, arm_next_chunk timeout s = Ret tt (s <| trace := trace s ++ es |>) ∧
    Forall neutral es ∧ armed es = true.
Proof.
  intros Hrate [t Ht]. unfold arm_next_chunk, by_BitRate.
  rewrite bind_assoc. erewrite bind_Ret by reflexivity.
  rewrite (proj2 (Z.eqb_neq _ _)) by lia.
  set (ms := _ / BitRate (RFWPacket s)). set (reg := u8 (register_answer (trace s ++
    [EvTimerInit RFWPacket_Timer RFW_TransmitLongPacket_NewTxChunkTimerEvent_cb;
     EvTimerSetValue RFWPacket_Timer ms; EvTimerStart RFWPacket_Timer]) SUBGHZ_GPKTCTL1AR)).
  exists ([EvTimerInit RFWPacket_Timer RFW_TransmitLongPacket_NewTxChunkTimerEvent_cb;
     EvTimerSetValue RFWPacket_Timer ms; EvTimerStart RFWPacket_Timer] ++
    [EvReadRegisters SUBGHZ_GPKTCTL1AR 1; EvWriteRegisters SUBGHZ_GPKTCTL1AR [Z.lor reg 2];
     EvTimerSetValue t timeout; EvTimerStart t]).
  split; [|split; [repeat (apply Forall_cons_2; [done|]); apply Forall_nil_2 | done]].
  do 4 (erewrite bind_Ret by reflexivity).
  erewrite bind_Ret by apply read_register_eq. sys_simpl. rewrite <- !app_assoc. cbn [app]. fold reg.
  do 2 (erewrite bind_Ret by reflexivity). sys_simpl. rewrite Ht. unfold on_timer.
  erewrite bind_Ret by reflexivity. unfold emit, update. sys_simpl. rewrite <- !app_assoc. reflexivity.
Qed.

Lemma transmit_long_calls_start s timeout :
  RFW_LONGPACKET_ENABLE = true → long_sender size s →
  ∃ es, Forall neutral es ∧ armed es = false ∧
    RFW_TransmitLongPacket size timeout true s =
      (RFW_TransmitLongPacket_start size timeout;; mret 0)
        (s <| RFWPacket ; TxLongPacketGetNextChunkCb := true |> <| trace := trace s ++ es |>).
Proof.
  intros Hen [].
  set (m := Z.lor IRQ_TX_DONE IRQ_RX_TX_TIMEOUT).
  destruct (set_switch_does (rfw_AntSwitchPaSelect (RFWPacket s)) RFSWITCH_TX
    (s <| RFWPacket ; TxLongPacketGetNextChunkCb := true |>
       <| trace := trace s ++ [EvSetCmd RADIO_CFG_DIOIRQ
            [byte_at 8 m; byte_at 0 m; byte_at 8 m; byte_at 0 m; 0; 0; 0; 0];
          EvProbe DBG_GPIO_RADIO_TX SET] |>)) as [sw Hsw].
  eexists ([_; _] ++ [EvConfigRFSwitch sw]). split; [|split]; cycle 2.
  { unfold RFW_TransmitLongPacket. rewrite Hen. cbn [negb].
    erewrite bind_Ret by reflexivity. rewrite ls_accepted0.
    do 3 (erewrite bind_Ret by reflexivity).
    unfold does in Hsw. sys_simpl. rewrite <- app_assoc. cbn [app].
    erewrite bind_Ret by exact Hsw. sys_simpl. rewrite ls_enable0.
    destruct ls_modem0 as [-> | ->]; cbn [Z.eqb Pos.eqb]; rewrite <- app_assoc; reflexivity. }
  { repeat (apply Forall_cons_2; [done|]); apply Forall_nil_2. }
  { done. }
Qed.

Lemma transmit_long_starts s timeout :
  trace s = t0 → Init (RFWPacket s) = i → RFW_LONGPACKET_ENABLE = true → long_sender size s →
  ∃ s' es, RFW_TransmitLongPacket size timeout true s = Ret 0 s' ∧ trace s' = trace s ++ es ∧
    if armed es
    then streamed [] es s' ∧ position 0 es s'
    else streamed (rfw_crc i (sent_body size)) es s' ∧ asked es = size.
Proof.
  intros Ht0 Hi Hen Hls.
  destruct (transmit_long_calls_start s timeout Hen Hls) as (es0 & Hn0 & Ha0 & ->).
  destruct Hls as [_ _ _ _ Ht Hrate [tm Htm] Hbuf]. rewrite Hi in Ht. fold total in Ht.
  destruct first_sizes_position as (n & c & Hsz & Hc & Hn & Hfit & Hpos); [done|].
  set (s0 := modify trace _ _).
  set (s1 := s0 <| RFWPacket ; RadioBufferOffset := 0 |> <| RFWPacket ; LongPacketModeEnable := 1 |>
                <| RFWPacket ; LongPacketRemainingBytes := total |>
                <| RFWPacket ; rfw_PayloadLength := total |>).
  assert (RFW_TransmitLongPacket_start size timeout s0 =
    (send_first_chunk size n c;; when (RADIO_BUF_SIZE <? total) (arm_next_chunk timeout)) s1) as Hstart.
  { unfold RFW_TransmitLongPacket_start. erewrite bind_Ret by reflexivity.
    change (Init (RFWPacket s0)) with (Init (RFWPacket s)). rewrite Hi. cbv zeta. fold total.
    erewrite bind_Ret by reflexivity. rewrite Hsz, u16_small; [reflexivity|].
    unfold total, size in *. destruct Hwf as [[E|E] _]; destruct crc_size as [E'|E']; rewrite E, E' in *; lia. }
  destruct (streamed_first es0 s1 n c) as (s2 & es1 & Hfirst & Hs2 & Hk & Ha1 & Ho & Hr & Htm2); try done.
  { unfold s1, s0. sys_simpl. by rewrite Ht0. }
  pose proof (streamed_loaded _ _ _ Hs2) as Hld. rewrite Hk in Hld.
  assert (trace s2 = trace s ++ es0 ++ es1) as Ht2 by (rewrite (str_trace _ _ _ Hs2); by rewrite Ht0).
  destruct (RADIO_BUF_SIZE <? total).
  - destruct Hpos as [-> Hpos]. rewrite crc_field_none in *. cbn [length] in Hld.
    destruct (arm_next_chunk_eq timeout s2) as (es2 & Harm & Hn2 & Ha2).
    { exact (str_rate _ _ _ Hs2). }
    { rewrite Htm2. exists tm. exact Htm. }
    set (s3 := modify trace _ s2) in Harm.
    exists s3, ((es0 ++ es1) ++ es2). split.
    { erewrite bind_Ret; [reflexivity|]. rewrite Hstart. erewrite bind_Ret by exact Hfirst. exact Harm. }
    assert (trace s3 = trace s ++ (es0 ++ es1) ++ es2) as Ht3
      by (unfold s3; sys_simpl; by rewrite Ht2, !app_assoc).
    split; [exact Ht3|]. rewrite armed_app, Ha2, orb_true_r. split.
    + eapply streamed_neutral; [exact Hs2 | repeat split | by rewrite Ht3, Ht0 | exact Hn2].
    + split.
      * exact Ho.
      * transitivity total; [exact Hr | lia].
      * exists [], ((es0 ++ es1) ++ es2). rewrite armed_app, Ha2, orb_true_r.
        pose proof (sends_loaded _ _ Hradio []) as [H0 H1]. change (loaded []) with 0 in H1.
        split; [done|]. split; [done | lia].
      * rewrite loaded_neutral by done. cbn zeta in Hpos. rewrite Hld. lia.
  - destruct Hpos as [-> ->]. exists s2, (es0 ++ es1). split.
    { erewrite bind_Ret; [reflexivity|]. rewrite Hstart. erewrite bind_Ret by exact Hfirst. reflexivity. }
    split; [done|]. rewrite armed_app, Ha0, Ha1. split; [|done].
    by rewrite crc_field_all in Hs2.
Qed.

(** Every start of the timer brings the radio two bytes further. *)
Lemma tx_events_complete fuel : ∀ S tr s,
  streamed [] tr s → position S tr s → total < 65536 →
  (1 <= fuel)%nat → total <= S + 2 * Z.of_nat fuel →
  ∃ s' es, tx_events fuel s = Ret tt s' ∧ trace s' = trace s ++ es ∧
    streamed (rfw_crc i (sent_body size)) (tr ++ es) s' ∧ asked (tr ++ es) = size.
Proof.
  induction fuel as [|fuel IH]; intros S tr s Hs Hpos Ht Hf Hfuel; [lia|].
  destruct (tx_process_step S tr s Hs Hpos Ht) as (s' & es & Hstep & Htr & Hres).
  cbn [tx_events]. erewrite bind_Ret by reflexivity.
  erewrite bind_Ret by exact Hstep. erewrite bind_Ret by reflexivity.
  rewrite Htr, drop_app_length. destruct (armed es).
  - destruct Hres as (Hs' & Hpos' & Hprog).
    pose proof (position_sent _ _ _ Hpos') as (_ & Hb & _). destruct Hpos' as [P1 P2 P3 P4].
    destruct (IH (sent tr) (tr ++ es) s' Hs') as (s2 & es2 & Hrun & Htr2 & Hs2); [by split | done | | lia|].
    { destruct fuel; [|lia]. destruct crc_size as [E|E]; rewrite E in *; lia. }
    exists s2, (es ++ es2). rewrite (app_assoc tr). by rewrite Htr2, Htr, app_assoc.
  - exists s', es. done.
Qed.
End Stream.

(** The stream of a complete packet. *)
Lemma streamed_complete t0 sent P i tr s :
  radio_sends t0 sent → rfw_wf i →
  streamed t0 sent P i (rfw_crc i (sent_body P i (size P))) tr s → asked tr = size P →
  tx_written tr = long_packet i P ∧
  ∀ tr1 tr2 j, tr = tr1 ++ tr2 → sent tr1 <= j < loaded tr1 →
    tx_memory tr1 (u8 j) = long_packet i P !!! Z.to_nat j.
Proof.
  intros Hradio Hwf Hs Hk.
  assert (sent_body P i (size P) = long_header i (size P) ++ P) as Hbody
    by (unfold sent_body, size; by rewrite Nat2Z.id, firstn_all).
  assert (tx_written tr = long_packet i P) as Hw.
  { rewrite (str_written _ _ _ _ _ _ _ Hs), Hk, Hbody. reflexivity. }
  split; [exact Hw|]. intros tr1 tr2 j -> Hj.
  pose proof (str_ok _ _ _ _ _ _ _ Hs) as Hok. apply writes_ok_app in Hok as [Hok _].
  rewrite (writes_ok_memory sent tr1); [|apply Hradio | | exact Hok | exact Hj].
  - rewrite <- Hw, tx_written_app. symmetry. apply lookup_total_app_l.
    pose proof (sends_loaded _ _ Hradio tr1). unfold loaded in Hj. lia.
  - intros a. pose proof (sends_loaded _ _ Hradio a). pose proof (loaded_nonneg a). lia.
Qed.

(** ** The properties *)

(** C5: a long packet is transmitted as one stream.  [RFW_TransmitLongPacket]
    and the handler of its timer, which fires for every start, write exactly
    the whitened length field, payload and CRC, whatever the size of the packet
    (within the counters) and the pace of a radio that sends two bytes or more
    between two firings and does not run dry; at every moment the circular
    buffer holds the bytes of the packet that are loaded and not sent, so that
    no byte is overwritten; and the transmission ends. *)
Theorem long_packet_stream (s : Sys) (P : list Z) (timeout : Z)
    (sent : list HalEvent → Z) (fuel : nat) :
  let i := Init (RFWPacket s) in
  let size := Z.of_nat (length P) in
  RFW_LONGPACKET_ENABLE = true → long_sender size s →
  radio_sends (trace s) sent → supplies (trace s) P →
  (1 <= fuel)%nat → size + PayloadLengthFieldSize i + CrcFieldSize i <= 2 * Z.of_nat fuel →
  ∃ s' tr, long_transmission fuel size timeout s = Ret 0 s' ∧ trace s' = trace s ++ tr ∧
    tx_written tr = long_packet i P ∧
    ∀ tr1 tr2 j, tr = tr1 ++ tr2 → sent tr1 <= j < loaded tr1 →
      tx_memory tr1 (u8 j) = long_packet i P !!! Z.to_nat j.
Proof.
  intros i size Hen Hls Hradio Hsup Hf Hfuel. pose proof (ls_wf _ _ Hls) as Hwf.
  destruct (transmit_long_starts (trace s) sent P i Hradio Hsup Hwf s timeout)
    as (s1 & es & Hrun & Htr & Hres); [done.. |].
  unfold long_transmission. erewrite bind_Ret by reflexivity.
  erewrite bind_Ret by exact Hrun. erewrite bind_Ret by reflexivity.
  rewrite Htr, drop_app_length. destruct (armed es); cbn [when].
  - destruct Hres as [Hs1 Hpos].
    destruct (tx_events_complete (trace s) sent P i Hradio Hsup Hwf fuel 0 es s1)
      as (s2 & es2 & Hev & Htr2 & Hs2 & Hk); [done | done | apply Hls | done | done |].
    exists s2, (es ++ es2). erewrite bind_Ret by exact Hev. split; [done|].
    split; [by rewrite Htr2, Htr, app_assoc|].
    by eapply streamed_complete.
  - exists s1, es. split; [done|]. split; [done|]. destruct Hres. by eapply streamed_complete.
Qed.

(** C40: the handler subtracts the CRC field from the bytes sent since the last
    firing, in a byte.  When 257 or 258 bytes of the packet are left and the radio
    has sent less than two since then, the
    difference wraps: the application is asked for at least 254 bytes although
    less than these are left to load, and the bytes written run past the 256 of
    the buffer into those that are not sent yet. *)
Theorem slow_radio_overruns (s : Sys) :
  let read_ptr := u8 (register_answer (trace s) SUBGHZ_TXADRPTR) in
  let write_ptr := u8 (register_answer (trace s ++ [EvReadRegisters SUBGHZ_TXADRPTR 1])
                         SUBGHZ_GRTXPLDLEN) in
  let f := RFWPacket s in
  let bytes_sent := u8 (read_ptr - RadioBufferOffset f) in
  let bytes_loaded := u8 (write_ptr - read_ptr) in
  let remaining := LongPacketRemainingBytes f - bytes_sent in
  rfw_wf (Init f) → CrcFieldSize (Init f) = 2 → buffers_ok s → BitRate f ≠ 0 →
  TxLongPacketGetNextChunkCb f = true →
  (∀ n s', app_reaction (App_GetNextChunk n) s' = s') →
  (∀ tr n, n <= Z.of_nat (length (next_chunk_answer tr n))) →
  bytes_sent < 2 → 256 < remaining <= 258 → 4 < bytes_loaded →
  ∃ s' es out, RFW_TransmitLongPacket_TxChunkProcess s = Ret tt s' ∧ trace s' = trace s ++ es ∧
    In (EvWriteBuffer write_ptr out) es ∧
    asked es = 254 + bytes_sent ∧ remaining - bytes_loaded < asked es ∧
    Z.of_nat (length out) = asked es ∧ 256 < bytes_loaded + asked es.
Proof.
  intros read_ptr write_ptr f bytes_sent bytes_loaded remaining Hwf Hc Hbuf Hrate Hcb Hquiet Happ
    Hslow Hrem Hld.
  assert (0 <= bytes_sent < 256) as Hb by apply u8_range.
  unfold RFW_TransmitLongPacket_TxChunkProcess.
  erewrite bind_Ret by apply read_register_eq. fold read_ptr.
  erewrite bind_Ret by apply read_register_eq. sys_simpl. fold write_ptr.
  erewrite bind_Ret by reflexivity. cbv zeta. sys_simpl. fold f bytes_sent bytes_loaded.
  erewrite bind_Ret by reflexivity. erewrite bind_Ret by reflexivity. sys_simpl. fold remaining.
  rewrite Hc, (u16_small remaining) by lia. unfold next_tx_chunk.
  replace (256 <? remaining) with true by lia. replace (256 + 2 <? remaining) with false by lia.
  assert (u8 (bytes_sent - 2) = 254 + bytes_sent) as -> by (symmetry; apply (Z.mod_unique _ _ (-1)); lia).
  cbv iota beta. unfold by_BitRate. rewrite !bind_assoc. erewrite bind_Ret by reflexivity. sys_simpl.
  rewrite (proj2 (Z.eqb_neq _ _) Hrate). cbv iota. erewrite bind_Ret by reflexivity.
  rewrite bind_assoc. do 2 (erewrite bind_Ret by reflexivity). sys_simpl.
  set (n := 254 + bytes_sent) in *.
  match goal with |- context [load_tx_chunk _ _ _ ?st] => set (s1 := st) end.
  set (answer := next_chunk_answer (trace s1) n).
  assert (n <= Z.of_nat (length answer)) as Hans by apply Happ.
  destruct (load_tx_chunk_eq s1 (take (Z.to_nat n) answer) n 0 write_ptr) as (buf & _ & Hload);
    try done.
  { unfold get_next_chunk. erewrite bind_Ret by reflexivity. unfold call_app.
    rewrite bind_assoc. erewrite bind_Ret by reflexivity.
    erewrite bind_Ret by (unfold update; rewrite Hquiet; reflexivity). fold answer.
    rewrite buf_read_Some by lia. rewrite drop_0. reflexivity. }
  { rewrite length_take. lia. }
  { now left. }
  { lia. }
  rewrite Z.add_0_r in Hload. rewrite Hload, crc_field_none, app_nil_r.
  set (out := fst (white_run _ _)).
  assert (Z.of_nat (length out) = n) as Hout.
  { unfold out. rewrite white_run_length, length_take. lia. }
  eexists _, _, out. split; [reflexivity|]. split.
  { unfold s1. sys_simpl. rewrite <- !app_assoc. reflexivity. }
  split; [cbn [app In]; tauto|]. cbn [app asked foldr asked_by].
  split; [lia|]. split; [lia|]. split; lia.
Qed.
End LongTx.

(** ** Witnesses *)

(** A radio that has sent [pace k] bytes after [k] starts of the packet timer,
    as far as they are loaded, and an application with the payload [P]. *)
Definition paced (pace : Z → Z) (tr : list HalEvent) : Z :=
  Z.max 0 (Z.min (loaded tr - 1) (pace (starts tr))).

Definition tx_env (P : list Z) (pace : Z → Z) : Env :=
  let _ := quiet_env [] (λ _, 0) in
  {| get_cmd_answer := get_cmd_answer;
     register_answer tr a :=
       if a =? SUBGHZ_GRTXPLDLEN then tx_length tr
       else if a =? SUBGHZ_TXADRPTR then u8 (paced pace tr) else 0;
     rx_buffer_answer := rx_buffer_answer; RBI_IsTCXO := RBI_IsTCXO; RBI_IsDCDC := RBI_IsDCDC;
     RBI_GetTxConfig := RBI_GetTxConfig; RBI_GetRFOMaxPowerConfig := RBI_GetRFOMaxPowerConfig;
     current_time_answer := current_time_answer; elapsed_time_answer := elapsed_time_answer;
     LL_DBGMCU_GetRevisionID := LL_DBGMCU_GetRevisionID;
     next_chunk_answer tr n := drop (Z.to_nat (asked tr)) P ++ replicate (Z.to_nat n) 0;
     app_reaction := app_reaction |}.

Definition long_state : Sys :=
  boot <| RFWPacket := boot_RFWPacket
            <| Init := link_init <| PayloadLengthFieldSize := 2 |> |>
            <| BitRate := 1000 |> <| rfw_RxTimeoutTimer := Some RxTimeoutTimer |> |>.

Lemma starts_armed es : armed es = true → 1 <= starts es.
Proof.
  unfold armed, starts. intros H. apply existsb_exists in H as (e & He & Hs).
  assert (In e (List.filter starts_timer es)) as Hin by (apply filter_In; done).
  destruct (List.filter starts_timer es); [done | cbn [length]; lia].
Qed.

Lemma paced_radio P : radio_sends (env := tx_env P (λ k, 100 * k)) [] (paced (λ k, 100 * k)).
Proof.
  split; try done.
  - intros tr. unfold paced. pose proof (loaded_nonneg tr). lia.
  - intros tr es. unfold paced. rewrite loaded_app, starts_app.
    pose proof (loaded_nonneg es). assert (0 <= starts es) by (unfold starts; lia). lia.
  - intros tr es H%starts_armed. unfold paced. rewrite loaded_app, starts_app.
    pose proof (loaded_nonneg es). assert (0 <= starts tr) by (unfold starts; lia). lia.
Qed.

Lemma paced_supplies P pace : supplies (env := tx_env P pace) [] P.
Proof.
  split; [|done]. intros tr n Hn Ha Hl. cbn [next_chunk_answer tx_env app].
  rewrite buf_read_Some by (rewrite ?length_app, ?length_replicate; lia). rewrite drop_0. f_equal.
  apply take_app_le. rewrite length_drop. lia.
Qed.

Definition long_payload : list Z := (λ k, Z.of_nat k mod 256) <$> seq 0 600.

Lemma long_state_sends P pace n :
  n <= 60000 → long_sender (env := tx_env P pace) n long_state.
Proof.
  intros Hn. split; try done.
  - split; [by right | by right].
  - by left.
  - unfold long_packet_rejected. rewrite !orb_false_iff. split_and!; try reflexivity.
    apply Z.ltb_ge. change (n <= 65535). lia.
  - change (n + 2 + 2 < 65536). lia.
Qed.

Lemma long_packet_stream_witness :
  let E := tx_env long_payload (λ k, 100 * k) in
  ∃ s', long_transmission (cfg := rfw_config) (env := E) 302 600 1000 long_state = Ret 0 s' ∧
    tx_written (trace s') = long_packet (Init (RFWPacket long_state)) long_payload ∧
    length (List.filter starts_timer (trace s')) = 4%nat.
Proof.
  intros E.
  destruct (long_packet_stream (cfg := rfw_config) (env := E) long_state long_payload 1000
    (paced (λ k, 100 * k)) 302) as (s' & tr & Hrun & Htr & Hw & _).
  - reflexivity.
  - apply long_state_sends. by_computation.
  - apply paced_radio.
  - apply paced_supplies.
  - lia.
  - vm_compute. discriminate.
  - exists s'. split; [exact Hrun|]. split; [rewrite Htr; exact Hw|].
    vm_compute in Hrun. injection Hrun as <-. vm_compute. reflexivity.
Defined.

(** A preamble that is still being sent at the first firing: no byte of the packet
    has left, the chunk is empty, the timer fires again at once, and from then
    on after one byte each. *)
Lemma slow_radio_overruns_witness :
  let E := tx_env long_payload (λ k, k - 1) in
  let s := final ((RFW_TransmitLongPacket (cfg := rfw_config) (env := E) 300 1000 true;;
                   tx_events (env := E) 46) long_state) in
  ∃ s' es out, RFW_TransmitLongPacket_TxChunkProcess (env := E) s = Ret tt s' ∧
    trace s' = trace s ++ es ∧ In (EvWriteBuffer 44 out) es ∧ asked es = 255 ∧
    Z.of_nat (length out) = 255.
Proof.
  intros E s.
  destruct (slow_radio_overruns (env := E) s) as (s' & es & out & H).
  - split; [right; vm_compute; reflexivity | right; split; vm_compute; reflexivity].
  - vm_compute. reflexivity.
  - split; vm_compute; reflexivity.
  - vm_compute. discriminate.
  - vm_compute. reflexivity.
  - done.
  - intros tr n. cbn [next_chunk_answer E tx_env]. rewrite length_app, length_replicate. lia.
  - vm_compute. reflexivity.
  - split; vm_compute; [reflexivity | discriminate].
  - vm_compute. reflexivity.
  - destruct H as (H1 & H2 & H3 & H4 & _ & H5 & _). exists s', es, out.
    assert (asked es = 255) as Ha by (rewrite H4; vm_compute; reflexivity).
    split; [exact H1|]. split; [exact H2|]. split; [|split; [exact Ha | by rewrite H5]].
    lazymatch type of H3 with In (EvWriteBuffer ?w _) _ =>
      assert (w = 44) as Hw by (vm_compute; reflexivity) end.
    by rewrite Hw in H3.
Defined.

