(* ===== verification/LongRx.v ===== *)
(** * radio_fw.c: the reception of a long packet.

    [RFW_ReceivePayload] reads the length field, and the handler of the packet
    timer empties the circular buffer of the radio chunk by chunk, while the
    packet arrives.  The theorem shows that the chunks given to the application
    are the payload that a sender of LongTx put on the air. *)

From S2P Require Import Prelude Effects RadioTypes State Mem RadioDriver DriverProofs RadioFw Whitening Packets Chunks LongTx.

(** What the application was given. *)
Definition stored_by (e : HalEvent) : list Z :=
  match e with EvApp (App_StoreChunk chunk) => chunk | _ => [] end.
Definition stored (tr : list HalEvent) : list Z := flat_map stored_by tr.

Lemma stored_app a b : stored (a ++ b) = stored a ++ stored b.
Proof. apply flat_map_app. Qed.

(** A part of the whitened stream is the whitened part of the stream. *)
Lemma white_run_part s p pos n :
  take n (drop pos (fst (white_run s p))) =
  fst (white_run (snd (white_run s (take pos p))) (take n (drop pos p))).
Proof.
  rewrite <- (take_drop pos p) at 1. rewrite white_run_app. cbn [fst].
  set (w := snd (white_run s (take pos p))).
  destruct (decide (pos <= length p)%nat) as [Hp|Hp].
  - rewrite drop_app_length' by (rewrite white_run_length, length_take; lia).
    rewrite <- (take_drop n (drop pos p)) at 1. rewrite white_run_app. cbn [fst].
    set (rest := fst (white_run (snd _) _)).
    destruct (decide (n <= length (drop pos p))%nat) as [Hn|Hn].
    + apply take_app_length'. rewrite white_run_length, length_take. lia.
    + assert (rest = []) as ->.
      { apply nil_length_inv. unfold rest. rewrite white_run_length, length_drop. lia. }
      rewrite app_nil_r. apply take_ge. rewrite white_run_length, length_take. lia.
  - rewrite (drop_ge p) by lia. cbn [white_run fst]. rewrite take_nil, app_nil_r. cbn [white_run fst].
    rewrite drop_ge by (rewrite white_run_length, length_take; lia). apply take_nil.
Qed.

Lemma long_header_bytes i n : Forall is_u8 (long_header i n).
Proof. unfold long_header. destruct (_ =? 1); repeat constructor; apply u8_range || apply byte_at_range. Qed.

(** The length that the header holds. *)
Lemma long_header_value i size :
  rfw_wf i → 0 <= size < 2 ^ (8 * PayloadLengthFieldSize i) → be_val (long_header i size) = size.
Proof.
  intros [[H|H] _] Hs; unfold long_header; rewrite H in *; cbn [Z.eqb Pos.eqb].
  - unfold be_val. cbn [fold_left]. rewrite u8_small by (cbn in Hs; lia). lia.
  - rewrite be_val_16. apply Z.mod_small. exact Hs.
Qed.

Section LongRx.
Context {cfg : Config} {env : Env}.

(** The sync word was found: the length field is read, then the packet timer
    fires once for each time it was started. *)
Fixpoint rx_events (fuel : nat) : M Sys unit :=
  match fuel with
  | O => spin
  | S fuel =>
      tr ← gets trace;
      RFW_GetPayloadTimerEvent;;
      tr' ← gets trace;
      if armed (drop (length tr) tr') then rx_events fuel else skip
  end.

Definition long_reception (poll fuel : nat) : M Sys unit :=
  tr ← gets trace;
  RFW_ReceivePayload poll;;
  tr' ← gets trace;
  when (armed (drop (length tr) tr')) (rx_events fuel).

(** ** The radio

    Since the interactions [t0], in which the sync word was found, [arrived]
    bytes came: of those of the [packet], the last 256 are in the circular
    buffer.  Between two starts of the packet timer some bytes arrive, but
    no more than 255; and the handler never looks when all but one byte of the
    packet is there (the time-outs of the source aim at that). *)
Record radio_receives (t0 : list HalEvent) (packet : list Z) (arrived : list HalEvent → Z) : Prop := {
  rx_pointer : ∀ tr, register_answer (t0 ++ tr) SUBGHZ_RXADRPTR = u8 (arrived tr);
  rx_memory : ∀ tr a j, 0 <= j < Z.of_nat (length packet) → u8 a = u8 j →
    j < arrived tr <= j + 256 → rx_buffer_answer (t0 ++ tr) a = packet !!! Z.to_nat j;
  rx_first : arrived [] = 0;
  rx_on : ∀ tr es, arrived tr <= arrived (tr ++ es);
  rx_pace : ∀ tr es, starts es <= 1 → arrived (tr ++ es) <= arrived tr + 255;
  rx_some : ∀ tr es, 1 <= starts es → arrived tr < arrived (tr ++ es);
  rx_uncut : ∀ tr, arrived tr <= Z.of_nat (length packet) - 2 ∨ Z.of_nat (length packet) <= arrived tr }.

Section Reception.
Context (t0 : list HalEvent) (arrived : list HalEvent → Z) (packet : list Z).
Context (Hradio : radio_receives t0 packet arrived) (Hbytes : Forall is_u8 packet).

Lemma read_arrived tr pos n s :
  trace s = t0 ++ tr → 0 <= pos → pos + Z.of_nat n <= arrived tr <= pos + 256 →
  pos + Z.of_nat n <= Z.of_nat (length packet) →
  SUBGRF_ReadBuffer (u8 pos) n s =
    Ret (take n (drop (Z.to_nat pos) packet))
        (s <| trace := trace s ++ [EvReadBuffer (u8 pos) n] |>).
Proof.
  intros Ht Hpos Harr Hlen. unfold SUBGRF_ReadBuffer, HAL_SUBGHZ_ReadBuffer.
  erewrite bind_Ret by reflexivity. erewrite bind_Ret by reflexivity.
  unfold mret, M_ret. f_equal. apply list_eq. intros k. rewrite list_lookup_fmap.
  destruct (decide (k < n)%nat) as [Hk|Hk].
  - rewrite lookup_seq_lt by done. cbn [fmap option_fmap option_map].
    rewrite lookup_take_lt, lookup_drop by done.
    rewrite Ht, (rx_memory _ _ _ Hradio tr _ (pos + Z.of_nat k)); [|lia | | lia].
    2:{ rewrite Nat.add_0_l. unfold u8. now rewrite Z.add_mod_idemp_l by done. }
    replace (Z.to_nat (pos + Z.of_nat k)) with (Z.to_nat pos + k)%nat by lia.
    rewrite (list_lookup_lookup_total_lt packet) by lia. f_equal. apply u8_small.
    rewrite Forall_forall in Hbytes. apply Hbytes, list_elem_of_lookup_total_2. lia.
  - rewrite lookup_seq_ge by lia. rewrite lookup_take_ge by lia. done.
Qed.

(** ** The length field *)

Lemma poll_loop_arrived fuel : ∀ now timeout bytes ref ptr s es s1,
  trace s = t0 ++ es → starts es = 0 → stored es = [] → 0 <= ref <= arrived es →
  (bytes <= u32 (ptr - ref) → bytes <= arrived es) →
  poll_loop fuel now timeout bytes ref ptr s = Ret 0 s1 →
  ∃ es', trace s1 = t0 ++ es' ∧ starts es' = 0 ∧ stored es' = [] ∧ bytes <= arrived es'.
Proof.
  induction fuel as [|fuel IH]; intros now timeout bytes ref ptr s es s1 Ht Hst Hno Href Hptr Hrun; [done|].
  cbn [poll_loop] in Hrun. destruct (Z.ltb_spec (u32 (ptr - ref)) bytes).
  2:{ injection Hrun as <-. exists es. split_and!; try done. by apply Hptr. }
  erewrite bind_Ret in Hrun by apply read_register_eq.
  set (s2 := modify trace _ s) in Hrun. unfold TimerGetElapsedTime in Hrun.
  rewrite bind_assoc in Hrun. erewrite bind_Ret in Hrun by reflexivity.
  rewrite bind_assoc in Hrun. erewrite bind_Ret in Hrun by reflexivity.
  erewrite bind_Ret in Hrun by reflexivity. destruct (timeout <? _); [done|].
  rewrite Ht, (rx_pointer _ _ _ Hradio) in Hrun.
  pose proof (rx_pace _ _ _ Hradio [] es ltac:(lia)) as Hp. rewrite (rx_first _ _ _ Hradio) in Hp. cbn [app] in Hp.
  set (look := [EvReadRegisters SUBGHZ_RXADRPTR 1; EvTimerGetElapsedTime now]).
  pose proof (rx_on _ _ _ Hradio es look).
  eapply (IH _ _ _ _ _ _ (es ++ look)); [| | | | |exact Hrun].
  - unfold s2. sys_simpl. rewrite Ht, <- !app_assoc. done.
  - by rewrite starts_app, Hst.
  - by rewrite stored_app, Hno.
  - lia.
  - rewrite (u8_small (u8 _)) by apply u8_range. rewrite u8_small by lia.
    rewrite u32_small by lia. lia.
Qed.

Lemma poll_arrived fuel bytes s s1 :
  trace s = t0 → 1 <= bytes → RFW_PollRxBytes fuel bytes s = Ret 0 s1 →
  ∃ es, trace s1 = t0 ++ es ∧ starts es = 0 ∧ stored es = [] ∧ bytes <= arrived es.
Proof.
  intros Ht Hb Hrun. unfold RFW_PollRxBytes in Hrun.
  unfold TimerGetCurrentTime in Hrun. rewrite bind_assoc in Hrun.
  erewrite bind_Ret in Hrun by reflexivity. rewrite bind_assoc in Hrun.
  do 2 (erewrite bind_Ret in Hrun by reflexivity).
  erewrite bind_Ret in Hrun by apply read_register_eq.
  unfold by_BitRate in Hrun. rewrite bind_assoc in Hrun. erewrite bind_Ret in Hrun by reflexivity.
  destruct (BitRate _ =? 0); [done|]. erewrite bind_Ret in Hrun by reflexivity.
  cbn [modify trace] in Hrun. rewrite Ht in Hrun. rewrite (rx_pointer _ _ _ Hradio) in Hrun.
  set (es := [EvTimerGetCurrentTime; EvReadRegisters SUBGHZ_RXADRPTR 1]).
  pose proof (rx_on _ _ _ Hradio [EvTimerGetCurrentTime] [EvReadRegisters SUBGHZ_RXADRPTR 1]) as Hon.
  pose proof (rx_pace _ _ _ Hradio [] [EvTimerGetCurrentTime] ltac:(done)) as Hp.
  pose proof (rx_on _ _ _ Hradio [] [EvTimerGetCurrentTime]) as H0.
  rewrite (rx_first _ _ _ Hradio) in *. cbn [app] in *.
  eapply (poll_loop_arrived fuel _ _ _ _ _ _ es); [| | | | | exact Hrun].
  - sys_simpl. now rewrite <- app_assoc.
  - done.
  - done.
  - rewrite (u8_small (u8 _)) by apply u8_range. rewrite u8_small by lia. unfold es. lia.
  - rewrite Z.sub_diag. change (u32 0) with 0. lia.
Qed.
(** ** The chunks *)

(** The payload [P] that arrives, and the CRC field [tail] behind it. *)
Context (P tail : list Z) (i : RFwInit_t).
Let body : list Z := long_header i (Z.of_nat (length P)) ++ P.
Let clear : list Z := body ++ tail.
Context (Hpacket : packet = fst (white_run (WhiteSeed i) clear)).
Context (Hwf : rfw_wf i) (HP : Forall is_u8 P) (Htail : Forall is_u8 tail).
Context (Htl : Z.of_nat (length tail) = CrcFieldSize i).
Context (Hquiet : ∀ chunk s, app_reaction (App_StoreChunk chunk) s = s).

Definition whole : Z := Z.of_nat (length P) + PayloadLengthFieldSize i + CrcFieldSize i.
Context (Hwhole : whole < 65536).

(** [pos] bytes were read; when the packet timer was last started, [seen] had
    arrived. *)
Record receiving (seen pos : Z) (tr : list HalEvent) (s : Sys) : Prop := {
  rcv_trace : trace s = t0 ++ tr;
  rcv_init : Init (RFWPacket s) = i;
  rcv_pos : PayloadLengthFieldSize i <= pos <= whole - 2;
  rcv_offset : RadioBufferOffset (RFWPacket s) = u8 pos;
  rcv_remaining : LongPacketRemainingBytes (RFWPacket s) = whole - pos;
  rcv_white : WhiteLfsrState (RFWPacket s) =
    snd (white_run (WhiteSeed i) (take (Z.to_nat pos) clear));
  rcv_crc : CrcEnable i = 1 →
    CrcLfsrState (RFWPacket s) = crc_after i (CrcSeed i) (take (Z.to_nat pos) clear);
  rcv_stored : stored tr = take (Z.to_nat (pos - PayloadLengthFieldSize i)) P;
  rcv_mode : LongPacketModeEnable (RFWPacket s) = 1;
  rcv_cb : RxLongPacketStoreChunkCb (RFWPacket s) = true;
  rcv_rate : BitRate (RFWPacket s) ≠ 0;
  rcv_timer : is_Some (rfw_RxTimeoutTimer (RFWPacket s));
  rcv_buffers : buffers_ok s;
  rcv_since : ∃ a b, tr = a ++ b ∧ starts b = 1 ∧ seen = arrived a ∧ seen <= pos <= arrived tr }.

Lemma clear_length : Z.of_nat (length clear) = whole.
Proof.
  pose proof (long_header_length i (Z.of_nat (length P)) Hwf). unfold clear, body, whole.
  rewrite !length_app. lia.
Qed.
Lemma packet_length : Z.of_nat (length packet) = whole.
Proof. rewrite Hpacket, white_run_length. apply clear_length. Qed.

Lemma clear_bytes : Forall is_u8 clear.
Proof. unfold clear, body. rewrite !Forall_app. auto using long_header_bytes. Qed.

Lemma field_sizes :
  (PayloadLengthFieldSize i = 1 ∨ PayloadLengthFieldSize i = 2) ∧
  (CrcFieldSize i = 0 ∨ CrcFieldSize i = 2).
Proof. destruct Hwf as [H [[_ H']|[_ H']]]; tauto. Qed.

(** The payload behind the length field. *)
Lemma clear_payload pos n :
  PayloadLengthFieldSize i <= pos → 0 <= n → pos + n <= whole - CrcFieldSize i →
  take (Z.to_nat n) (drop (Z.to_nat pos) clear) =
  take (Z.to_nat n) (drop (Z.to_nat (pos - PayloadLengthFieldSize i)) P).
Proof.
  intros Hpos Hn Hle. unfold clear, body. destruct field_sizes as [Hl Hc].
  pose proof (long_header_length i (Z.of_nat (length P)) Hwf) as Hh.
  set (hdr := long_header i _) in *. rewrite <- app_assoc, drop_app_ge by lia.
  replace (Z.to_nat pos - length hdr)%nat with (Z.to_nat (pos - PayloadLengthFieldSize i)) by lia.
  rewrite drop_app_le by (unfold whole in *; lia). rewrite take_app_le; [done|].
  rewrite length_drop. unfold whole in *. lia.
Qed.

Lemma receiving_now seen pos tr s :
  receiving seen pos tr s → 0 <= seen ∧ seen < arrived tr ∧ pos <= arrived tr <= pos + 255 ∧
  ∀ es, starts es = 0 → arrived (tr ++ es) <= pos + 255.
Proof.
  intros H. destruct (rcv_since _ _ _ _ H) as (a & b & -> & Hb & -> & Hseen).
  pose proof (rx_some _ _ _ Hradio a b ltac:(lia)). pose proof (rx_pace _ _ _ Hradio a b ltac:(lia)).
  pose proof (rx_on _ _ _ Hradio [] a) as Ha. rewrite (rx_first _ _ _ Hradio) in Ha. cbn [app] in Ha.
  split_and!; try lia. intros es Hes.
  pose proof (rx_pace _ _ _ Hradio a (b ++ es)) as Hp. rewrite starts_app, app_assoc in Hp. lia.
Qed.

(** The handler looks at the pointer of the radio. *)
Lemma rx_process_looks seen pos tr s :
  receiving seen pos tr s →
  SUBGRF_ReadRegister SUBGHZ_RXADRPTR s =
    Ret (u8 (arrived tr)) (s <| trace := trace s ++ [EvReadRegisters SUBGHZ_RXADRPTR 1] |>) ∧
  u8 (u8 (arrived tr) - RadioBufferOffset (RFWPacket s)) = arrived tr - pos.
Proof.
  intros H. pose proof (receiving_now _ _ _ _ H) as (_ & _ & Hnow & _). split.
  - rewrite read_register_eq. rewrite (rcv_trace _ _ _ _ H) at 1.
    rewrite (rx_pointer _ _ _ Hradio). now rewrite u8_small by apply u8_range.
  - rewrite (rcv_offset _ _ _ _ H). apply u8_diff. lia.
Qed.
(** The part of the stream that has arrived and was not read. *)
Lemma read_part tr pos n s :
  trace s = t0 ++ tr → 0 <= pos → 0 <= n → pos + n <= arrived tr <= pos + 256 → pos + n <= whole →
  let w := snd (white_run (WhiteSeed i) (take (Z.to_nat pos) clear)) in
  let data := take (Z.to_nat n) (drop (Z.to_nat pos) clear) in
  Z.of_nat (length data) = n ∧ Forall is_u8 data ∧
  take (Z.to_nat (pos + n)) clear = take (Z.to_nat pos) clear ++ data ∧
  white_run w (fst (white_run w data)) = (data, snd (white_run w data)) ∧
  SUBGRF_ReadBuffer (u8 pos) (Z.to_nat n) s =
    Ret (fst (white_run w data)) (s <| trace := trace s ++ [EvReadBuffer (u8 pos) (Z.to_nat n)] |>).
Proof.
  intros Ht Hpos Hn Harr Hw w data. pose proof clear_length as Hcl.
  assert (Forall is_u8 data) as Hdb by (apply Forall_take, Forall_drop, clear_bytes).
  split_and!; [| done | | by apply white_run_undo |].
  - unfold data. rewrite length_take, length_drop. lia.
  - unfold data. rewrite take_take_drop. f_equal. lia.
  - rewrite (read_arrived tr pos (Z.to_nat n) s); rewrite ?packet_length; try lia; [|done].
    do 2 f_equal. rewrite Hpacket. apply white_run_part.
Qed.

(** A firing while the packet arrives: what arrived goes to the application. *)
Lemma rx_process_chunk seen pos tr s :
  receiving seen pos tr s → arrived tr < whole →
  ∃ s' es, RFW_GetPayloadProcess s = Ret tt s' ∧ trace s' = trace s ++ es ∧ armed es = true ∧
    receiving (arrived tr) (arrived tr) (tr ++ es) s'.
Proof.
  intros H Hmore. pose proof (receiving_now _ _ _ _ H) as (H0 & H1 & Hnow & Hlater).
  destruct (rx_process_looks _ _ _ _ H) as [Hlook Hsize].
  destruct field_sizes as [Hls Hcs].
  pose proof (rx_uncut _ _ _ Hradio tr) as Hcut. rewrite packet_length in Hcut.
  destruct (rcv_pos _ _ _ _ H) as [Hp1 Hp2]. destruct (rcv_buffers _ _ _ _ H) as [HB HR].
  set (n := arrived tr - pos) in *.
  set (look := [EvReadRegisters SUBGHZ_RXADRPTR 1; EvWriteRegisters SUBGHZ_GRTXPLDLEN [u8 (u8 (arrived tr) - 1)]]).
  set (s1 := s <| trace := trace s ++ look |> <| RFWPacket ; LongPacketRemainingBytes := whole - arrived tr |>).
  pose proof (Hlater look eq_refl). pose proof (rx_on _ _ _ Hradio tr look).
  destruct (read_part (tr ++ look) pos n s1) as (Hdl & Hdb & Htake & Hundo & Hread); try lia.
  { unfold s1. sys_simpl. by rewrite (rcv_trace _ _ _ _ H), app_assoc. }
  set (w := snd (white_run _ _)) in *. set (data := take (Z.to_nat n) _) in *.
  set (rest := drop (length data) (ChunkBuffer s)).
  assert (length (fst (white_run w data)) = length data) as Hwl by apply white_run_length.
  unfold RFW_GetPayloadProcess. erewrite bind_Ret by exact Hlook. erewrite bind_Ret by reflexivity.
  cbv zeta. change (RFWPacket (modify trace _ s)) with (RFWPacket s). rewrite Hsize.
  rewrite (rcv_remaining _ _ _ _ H). fold n.
  replace (n <? whole - pos) with true by lia.
  erewrite bind_Ret by reflexivity. erewrite bind_Ret by reflexivity.
  match goal with |- context [(SUBGRF_ReadBuffer _ _ ≫= _) ?st] => assert (st = s1) as -> end.
  { unfold s1, look. unfold update. sys_simpl. rewrite (rcv_remaining _ _ _ _ H), <- app_assoc.
    replace (u16 (whole - pos - n)) with (whole - arrived tr); [done|]. rewrite u16_small; lia. }
  rewrite (rcv_offset _ _ _ _ H), (rcv_init _ _ _ _ H). erewrite bind_Ret by exact Hread.
  erewrite bind_Ret.
  2:{ apply write_chunk_eq. unfold s1. sys_simpl. rewrite <- (take_drop (length data) (ChunkBuffer s)).
      apply (buf_write_mid []); [done|]. fold rest. rewrite length_take. lia. }
  fold rest. cbn [app]. erewrite bind_Ret by reflexivity.
  set (s2 := s <| trace := trace s ++ look ++ [EvReadBuffer (u8 pos) (Z.to_nat n)] |>
               <| ChunkBuffer := fst (white_run w data) ++ rest |>
               <| RFWPacket ; LongPacketRemainingBytes := whole - arrived tr |>
               <| RFWPacket ; RadioBufferOffset := u8 (arrived tr) |>).
  assert (u8 (u8 pos + n) = u8 (arrived tr)) as Hoff
    by (unfold u8; rewrite Z.add_mod_idemp_l by done; f_equal; lia).
  set (s3 := s2 <| ChunkBuffer := data ++ rest |> <| RFWPacket ; WhiteLfsrState := snd (white_run w data) |>).
  assert (RFW_WhiteRun 0 n s2 = Ret tt s3) as Hwhite.
  { erewrite (RFW_WhiteRun_eq s2 [] (fst (white_run w data)) rest); [|done | done | lia].
    change (WhiteLfsrState (RFWPacket s2)) with (WhiteLfsrState (RFWPacket s)).
    rewrite (rcv_white _ _ _ _ H). fold w. rewrite Hundo. reflexivity. }
  erewrite bind_Ret.
  2:{ etransitivity; [apply (f_equal (RFW_WhiteRun 0 n)) | exact Hwhite].
      unfold s2, s1. sys_simpl. by rewrite (rcv_offset _ _ _ _ H), <- app_assoc, Hoff. }
  assert (∃ c, when (CrcEnable i =? 1) (_ ← RFW_CrcRun 0 n; skip) s3 =
      Ret tt (s3 <| RFWPacket ; CrcLfsrState := c |>) ∧
    (CrcEnable i = 1 → c = crc_after i (CrcSeed i) (take (Z.to_nat (arrived tr)) clear)))
    as (c & Hcrc & Hc).
  { replace (arrived tr) with (pos + n) by lia. rewrite Htake, crc_after_app.
    destruct (Z.eqb_spec (CrcEnable i) 1) as [E|]; cbn [when].
    - eexists. split; [erewrite bind_Ret by (apply (RFW_CrcRun_eq s3 [] data rest); [done | done | lia]); reflexivity|].
      intros _. change (Init (RFWPacket s3)) with (Init (RFWPacket s)).
      change (CrcLfsrState (RFWPacket s3)) with (CrcLfsrState (RFWPacket s)).
      rewrite (rcv_init _ _ _ _ H), (rcv_crc _ _ _ _ H E). unfold crc_after at 2. by rewrite E.
    - exists (CrcLfsrState (RFWPacket s3)). split; [|done]. by destruct s3 as [?????????? [] ???]. }
  erewrite bind_Ret by exact Hcrc.
  rewrite (rcv_mode _ _ _ _ H), (rcv_cb _ _ _ _ H). cbn [Z.eqb Pos.eqb].
  set (s4 := modify RFWPacket _ s3).
  rewrite bind_assoc. erewrite bind_Ret.
  2:{ apply read_chunk_eq. by apply (buf_read_mid [] data rest). }
  unfold call_app. rewrite !bind_assoc. erewrite bind_Ret by reflexivity.
  erewrite bind_Ret by (unfold update; rewrite Hquiet; reflexivity).
  erewrite bind_Ret by reflexivity. cbv iota. erewrite bind_Ret by reflexivity. unfold by_BitRate. rewrite bind_assoc.
  erewrite bind_Ret by reflexivity. sys_simpl. change (BitRate (RFWPacket s4)) with (BitRate (RFWPacket s)).
  rewrite (proj2 (Z.eqb_neq _ _) (rcv_rate _ _ _ _ H)).
  do 2 (erewrite bind_Ret by reflexivity). unfold emit, update.
  set (ms := next_chunk_timeout _ _).
  set (es := look ++ [EvReadBuffer (u8 pos) (Z.to_nat n); EvApp (App_StoreChunk data);
    EvTimerSetValue RFWPacket_Timer ms; EvTimerStart RFWPacket_Timer]).
  assert (trace s4 ++ [EvApp (App_StoreChunk data); EvTimerSetValue RFWPacket_Timer ms;
    EvTimerStart RFWPacket_Timer] = trace s ++ es) as Htr.
  { unfold s4, s3, s2, es. sys_simpl. by rewrite <- !app_assoc. }
  eexists _, es. split; [reflexivity|]. sys_simpl. split; [by rewrite <- Htr, <- !app_assoc|].
  split; [done|]. pose proof (rx_on _ _ _ Hradio tr es).
  split; unfold s4, s3, s2; sys_simpl; try apply H; try done.
  - rewrite (rcv_trace _ _ _ _ H). unfold es. by rewrite <- !app_assoc.
  - lia.
  - replace (arrived tr) with (pos + n) by lia. rewrite Htake, white_run_app. done.
  - rewrite stored_app, (rcv_stored _ _ _ _ H). cbn [es app stored flat_map stored_by look].
    rewrite app_nil_r. unfold data. rewrite clear_payload by lia. rewrite take_take_drop.
    f_equal. lia.
  - split; [|done]. sys_simpl. rewrite length_app. unfold rest. rewrite length_drop. lia.
  - exists tr, es. split_and!; try done; lia.
Qed.
(** The packet is there: the application has the payload, and the report of the
    end of the packet is left. *)
Record reporting (s : Sys) (tr : list HalEvent) (data rest crc : list Z) (t : TimerEvent_t) (s' : Sys) : Prop := {
  rep_buffer : ChunkBuffer s' = (data ++ tail) ++ rest;
  rep_init : Init (RFWPacket s') = i;
  rep_timer : rfw_RxTimeoutTimer (RFWPacket s') = Some t;
  rep_length : 2 <= Z.of_nat (length (data ++ tail));
  rep_crc : CrcEnable i = 1 → crc = rfw_crc i body;
  rep_trace : ∃ es, trace s' = trace s ++ es ∧ stored (tr ++ es) = P ∧ armed es = false }.

Lemma rx_process_last seen pos tr s :
  receiving seen pos tr s → whole <= arrived tr →
  ∃ data rest crc t s', reporting s tr data rest crc t s' ∧
    RFW_GetPayloadProcess s = RFW_GetPayload_report (Z.of_nat (length (data ++ tail))) crc s'.
Proof.
  intros H Hall. pose proof (receiving_now _ _ _ _ H) as (H0 & H1 & Hnow & Hlater).
  destruct (rx_process_looks _ _ _ _ H) as [Hlook Hsize].
  destruct field_sizes as [Hls Hcs].
  destruct (rcv_pos _ _ _ _ H) as [Hp1 Hp2]. destruct (rcv_timer _ _ _ _ H) as [t Htm].
  set (n := whole - pos).
  set (look := [EvReadRegisters SUBGHZ_RXADRPTR 1; EvSetCmd RADIO_SET_STANDBY [RadioStandbyModes_t_code STDBY_RC]]).
  set (s1 := s <| trace := trace s ++ [EvReadRegisters SUBGHZ_RXADRPTR 1] |>
               <| RFWPacket ; LongPacketRemainingBytes := 0 |>).
  set (s2 := s1 <| OperatingMode := MODE_STDBY_RC |>
                <| trace := trace s1 ++ [EvSetCmd RADIO_SET_STANDBY [RadioStandbyModes_t_code STDBY_RC]] |>).
  pose proof (Hlater look eq_refl). pose proof (rx_on _ _ _ Hradio tr look).
  destruct (read_part (tr ++ look) pos n s2) as (Hdl & Hdb & Htake & Hundo & Hread); try lia.
  { unfold s2, s1. sys_simpl. by rewrite (rcv_trace _ _ _ _ H), <- !app_assoc. }
  set (w := snd (white_run _ _)) in *.
  set (data := drop (Z.to_nat (pos - PayloadLengthFieldSize i)) P) in *.
  assert (take (Z.to_nat n) (drop (Z.to_nat pos) clear) = data ++ tail) as Hseg.
  { pose proof clear_length. rewrite take_ge by (rewrite length_drop; lia).
    unfold clear. pose proof (long_header_length i (Z.of_nat (length P)) Hwf).
    rewrite drop_app_le by (unfold body; rewrite length_app; unfold whole in *; lia).
    f_equal. unfold body. rewrite drop_app_ge by lia. unfold data. f_equal. lia. }
  rewrite Hseg in *.
  assert (RFW_GetPayloadProcess s = RFW_GetPayload (u8 pos) n s1) as ->.
  { unfold RFW_GetPayloadProcess. erewrite bind_Ret by exact Hlook. erewrite bind_Ret by reflexivity.
    cbv zeta. change (RFWPacket (modify trace _ s)) with (RFWPacket s). rewrite Hsize.
    rewrite (rcv_remaining _ _ _ _ H), (rcv_init _ _ _ _ H), (rcv_offset _ _ _ _ H). fold n.
    replace (arrived tr - pos <? n) with false by lia.
    replace (n <? CrcFieldSize i) with false by lia. cbn [when].
    erewrite bind_Ret by reflexivity. erewrite bind_Ret by reflexivity. cbv zeta. sys_simpl.
    erewrite bind_Ret by reflexivity. rewrite (rcv_remaining _ _ _ _ H), (rcv_offset _ _ _ _ H). fold n.
    now rewrite (u8_small n) by lia. }
  rewrite <- Hdl in Hread |- *. rewrite Nat2Z.id in Hread.
  assert (CrcEnable i = 1 → computed_crc (RFWPacket s1) data = rfw_crc i body) as Hcrc.
  { intros E. unfold computed_crc. change (Init (RFWPacket s1)) with (Init (RFWPacket s)).
    change (CrcLfsrState (RFWPacket s1)) with (CrcLfsrState (RFWPacket s)).
    rewrite (rcv_init _ _ _ _ H), (rcv_crc _ _ _ _ H E), E. unfold rfw_crc, crc_after. rewrite E.
    cbn [Z.eqb Pos.eqb]. f_equal. unfold crc_run. rewrite <- fold_left_app. f_equal.
    apply (app_inj_2 _ _ tail tail); [done|]. rewrite <- app_assoc, <- Htake.
    pose proof clear_length. transitivity clear; [apply take_ge; lia | done]. }
  rewrite get_payload_read; [| apply H | exact Hdb | lia | |].
  2:{ change (Init (RFWPacket s1)) with (Init (RFWPacket s)). by rewrite (rcv_init _ _ _ _ H). }
  2:{ change (WhiteLfsrState (RFWPacket s1)) with (WhiteLfsrState (RFWPacket s)).
      rewrite (rcv_white _ _ _ _ H). fold w. exact Hread. }
  set (crc := computed_crc _ _) in *. set (s3 := modify RFWPacket _ _).
  unfold RFW_GetPayload_store. erewrite bind_Ret by reflexivity. cbv zeta.
  change (LongPacketModeEnable (RFWPacket s3)) with (LongPacketModeEnable (RFWPacket s)).
  change (RxLongPacketStoreChunkCb (RFWPacket s3)) with (RxLongPacketStoreChunkCb (RFWPacket s)).
  change (Init (RFWPacket s3)) with (Init (RFWPacket s)).
  rewrite (rcv_mode _ _ _ _ H), (rcv_cb _ _ _ _ H), (rcv_init _ _ _ _ H). cbn [Z.eqb Pos.eqb].
  erewrite bind_Ret.
  2:{ apply read_chunk_eq. unfold s3. sys_simpl. rewrite <- app_assoc.
      apply (buf_read_mid [] data); [done|]. rewrite length_app. lia. }
  unfold call_app. rewrite bind_assoc. erewrite bind_Ret by reflexivity.
  erewrite bind_Ret by (unfold update; rewrite Hquiet; reflexivity).
  set (s4 := modify trace _ s3).
  exists data, (drop (length (data ++ tail)) (ChunkBuffer s)), crc, t, s4. split; [|reflexivity].
  split; try done; [exact (rcv_init _ _ _ _ H) | lia|].
  exists [EvReadRegisters SUBGHZ_RXADRPTR 1; EvSetCmd RADIO_SET_STANDBY [RadioStandbyModes_t_code STDBY_RC];
    EvReadBuffer (u8 pos) (length (data ++ tail)); EvApp (App_StoreChunk data)]. split_and!; [| |done].
  - unfold s4, s3, s1. sys_simpl. by rewrite <- !app_assoc.
  - rewrite stored_app, (rcv_stored _ _ _ _ H). cbn [stored flat_map stored_by app].
    rewrite app_nil_r. apply take_drop.
Qed.

(** ** The whole reception *)

(** The firings of the timer up to the report. *)
Lemma rx_events_report fuel : ∀ seen pos tr s,
  receiving seen pos tr s → whole <= seen + Z.of_nat fuel →
  ∃ s1 es data rest crc t s' fuel', trace s1 = trace s ++ es ∧ reporting s1 (tr ++ es) data rest crc t s' ∧
    rx_events fuel s =
      (RFW_GetPayload_report (Z.of_nat (length (data ++ tail))) crc;;
       tr' ← gets trace;
       if armed (drop (length (trace s1)) tr') then rx_events fuel' else skip) s'.
Proof.
  induction fuel as [|fuel IH]; intros seen pos tr s H Hf.
  { pose proof (rcv_pos _ _ _ _ H). destruct (rcv_since _ _ _ _ H) as (? & ? & _ & _ & _ & ?). lia. }
  destruct (Z.lt_ge_cases (arrived tr) whole) as [Hlt|Hge].
  - destruct (rx_process_chunk _ _ _ _ H Hlt) as (s' & es & Hrun & Htr & Harm & H').
    pose proof (receiving_now _ _ _ _ H) as (_ & H1 & _ & _).
    destruct (IH _ _ _ _ H' ltac:(lia)) as (s1 & es1 & data & rest & crc & t & s2 & fuel' & Htr1 & Hrep & Heq).
    exists s1, (es ++ es1), data, rest, crc, t, s2, fuel'. split_and!.
    + by rewrite Htr1, Htr, app_assoc.
    + by rewrite app_assoc.
    + rewrite <- Heq. cbn [rx_events]. erewrite bind_Ret by reflexivity. erewrite bind_Ret by exact Hrun.
      erewrite bind_Ret by reflexivity. by rewrite Htr, drop_app_length, Harm.
  - destruct (rx_process_last _ _ _ _ H Hge) as (data & rest & crc & t & s' & Hrep & Hrun).
    exists s, [], data, rest, crc, t, s', fuel. rewrite !app_nil_r. split_and!; [done..|].
    cbn [rx_events]. erewrite bind_Ret by reflexivity. unfold RFW_GetPayloadTimerEvent.
    unfold mbind, M_bind at 1. rewrite Hrun. reflexivity.
Qed.

(** The CRC is right, or not checked. *)
Lemma rx_events_accept fuel seen pos tr s :
  receiving seen pos tr s → whole <= seen + Z.of_nat fuel → (CrcEnable i = 1 → tail = rfw_crc i body) →
  ∃ s' es, rx_events fuel s = Exit cfo_error s' ∧ trace s' = trace s ++ es ∧ stored (tr ++ es) = P.
Proof.
  intros H Hf Hok. destruct (rx_events_report _ _ _ _ _ H Hf)
    as (s1 & es & data & rest & crc & t & s' & fuel' & Htr & [] & ->).
  destruct rep_trace0 as (es' & Htr' & Hst & Harm).
  erewrite bind_Exit; [|apply (report_accept s' data tail rest t crc); [done..|]].
  2:{ rewrite rep_init0. destruct Hwf as [_ [[E _]|[E E']]]; [by left | right].
      split; [lia | by rewrite rep_crc0, Hok]. }
  eexists _, (es ++ es' ++ [EvTimerStop t; EvReadRegisters 0x06CA 1]). split; [reflexivity|]. sys_simpl.
  split; [by rewrite Htr', Htr, <- !app_assoc|]. rewrite !app_assoc in *. rewrite stored_app, Hst. apply app_nil_r.
Qed.

(** The CRC is wrong: the application, which has the payload, is told so. *)
Lemma rx_events_reject fuel seen pos tr s ev :
  receiving seen pos tr s → whole <= seen + Z.of_nat fuel →
  CrcEnable i = 1 → tail ≠ rfw_crc i body →
  rfw_RadioEvents i = Some ev → ev_RxError ev = true → (∀ s, app_reaction App_RxError s = s) →
  ∃ s' es, rx_events fuel s = Ret tt s' ∧
    trace s' = trace s ++ es ++ [EvApp App_RxError; EvProbe DBG_GPIO_RADIO_RX RST] ∧ stored (tr ++ es) = P.
Proof.
  intros H Hf He Hbad Hev Herr Hq. destruct (rx_events_report _ _ _ _ _ H Hf)
    as (s1 & es & data & rest & crc & t & s' & fuel' & Htr & [] & ->).
  destruct rep_trace0 as (es' & Htr' & Hst & Harm). specialize (rep_crc0 He).
  assert (∃ c0 c1, rfw_crc i body = [c0; c1]) as (c0 & c1 & Hcc)
    by (unfold rfw_crc; rewrite He; unfold crc_result; cbn; repeat case_match; eauto).
  assert (length tail = 2%nat) as Ht2.
  { pose proof (rfw_crc_length i body Hwf) as Hl. rewrite Hcc in Hl. cbn in Hl. lia. }
  assert (CrcEnable (Init (RFWPacket s')) = 1) as He' by (by rewrite rep_init0).
  rewrite rep_crc0, Hcc in *.
  pose proof (report_reject s' data tail rest t c0 c1 rep_buffer0 rep_timer0 He' Ht2 ltac:(congruence)) as Hrej.
  set (s2 := modify trace _ s') in Hrej.
  assert (rfw_RadioEvents (Init (RFWPacket s2)) = Some ev) as Hev2
    by (change (RFWPacket s2) with (RFWPacket s'); by rewrite rep_init0).
  pose proof (call_error_eq s2 ev Hev2 Herr Hq) as Hcall.
  eexists _, (es ++ es' ++ [EvTimerStop t]). erewrite bind_Ret by (rewrite Hrej; exact Hcall).
  erewrite bind_Ret by reflexivity. unfold s2. sys_simpl. rewrite Htr'.
  rewrite <- !app_assoc, drop_app_length, armed_app, Harm. split; [reflexivity|]. sys_simpl.
  split; [by rewrite Htr, <- !app_assoc|]. rewrite !app_assoc in *. rewrite stored_app, Hst. apply app_nil_r.
Qed.


(** The state in which the sync word finds the receiver. *)
Record listening (s : Sys) : Prop := {
  li_trace : trace s = t0;
  li_init : Init (RFWPacket s) = i;
  li_white : WhiteLfsrState (RFWPacket s) = WhiteSeed i;
  li_crc : CrcLfsrState (RFWPacket s) = CrcSeed i;
  li_mode : LongPacketModeEnable (RFWPacket s) = 1;
  li_cb : RxLongPacketStoreChunkCb (RFWPacket s) = true;
  li_rate : BitRate (RFWPacket s) ≠ 0;
  li_timer : is_Some (rfw_RxTimeoutTimer (RFWPacket s));
  li_buffers : buffers_ok s }.

Lemma receive_payload_begins poll s s0 :
  RFW_ENABLE = true → listening s →
  Z.of_nat (length P) <= LongPacketMaxRxLength i →
  Z.of_nat (length P) < 2 ^ (8 * PayloadLengthFieldSize i) →
  2 <= Z.of_nat (length P) + CrcFieldSize i →
  RFW_PollRxBytes poll (PayloadLengthFieldSize i) s = Ret 0 s0 →
  ∃ s1 es, RFW_ReceivePayload poll s = Ret tt s1 ∧ trace s1 = trace s ++ es ∧ armed es = true ∧
    receiving 0 (PayloadLengthFieldSize i) es s1.
Proof.
  intros Hen [] Hmax Hfit Hmin Hpoll. destruct field_sizes as [Hls Hcs].
  destruct (poll_arrived poll (PayloadLengthFieldSize i) s s0 li_trace0 ltac:(lia) Hpoll)
    as (es & Htr & Hst & Hno & Harr).
  set (hdr := long_header i (Z.of_nat (length P))).
  assert (Z.of_nat (length hdr) = PayloadLengthFieldSize i) as Hhl by now apply long_header_length.
  assert (take (Z.to_nat (PayloadLengthFieldSize i)) clear = hdr) as Hclear.
  { unfold clear, body. fold hdr. rewrite <- app_assoc. apply take_app_length'. lia. }
  pose proof (rx_pace _ _ _ Hradio [] es ltac:(lia)) as Hp. rewrite (rx_first _ _ _ Hradio) in Hp. cbn [app] in Hp.
  destruct (read_part es 0 (PayloadLengthFieldSize i) s0 Htr) as (_ & Hdb & _ & _ & Hread);
    [lia | lia | lia | unfold whole; lia|].
  change (Z.to_nat 0) with 0%nat in Hread, Hdb. change (u8 0) with 0 in Hread.
  rewrite drop_0, Hclear in Hread, Hdb. cbn [take white_run snd] in Hread.
  replace (Z.to_nat (PayloadLengthFieldSize i)) with (length hdr) in Hread by lia.
  assert (be_val hdr = Z.of_nat (length P)) as Hval by (apply long_header_value; [done | lia]).
  pose proof (get_packet_length_read poll s s0 hdr) as Hlen. cbv zeta in Hlen.
  rewrite li_init0 in Hlen. specialize (Hlen Hwf li_buffers0 li_white0 li_crc0 Hdb Hhl Hpoll Hread).
  rewrite Hval in Hlen.
  set (read := EvReadBuffer 0 (length hdr)) in Hlen.
  destruct (receive_payload_starts poll s _ _ Hen Hlen) as [ms Hrun].
  { change (Z.of_nat (length P) <= LongPacketMaxRxLength (Init (RFWPacket s))). by rewrite li_init0. }
  { exact li_rate0. }
  eexists _, (es ++ [read; EvTimerSetValue RFWPacket_Timer ms; EvTimerStart RFWPacket_Timer]).
  split; [exact Hrun|]. unfold after_header. cbv zeta. sys_simpl. rewrite li_init0.
  split; [by rewrite Htr, li_trace0, <- !app_assoc|].
  set (es' := es ++ _).
  assert (starts es' = 1) as Hst' by (unfold es'; by rewrite starts_app, Hst).
  split; [unfold es'; by rewrite armed_app, orb_true_r|].
  split; sys_simpl; try done.
  - unfold es'. by rewrite Htr, <- !app_assoc.
  - unfold whole. lia.
  - symmetry. apply u8_small. lia.
  - unfold whole in *. rewrite u16_small; lia.
  - by rewrite Hclear.
  - rewrite Hclear. done.
  - unfold es'. rewrite stored_app, Hno, Z.sub_diag. done.
  - destruct li_buffers0 as [HB HR]. split; [|done]. sys_simpl. rewrite length_app, length_drop. lia.
  - exists [], es'. pose proof (rx_first _ _ _ Hradio). split_and!; try done; try lia.
    unfold es'. pose proof (rx_on _ _ _ Hradio es [read; EvTimerSetValue RFWPacket_Timer ms; EvTimerStart RFWPacket_Timer]). lia.
Qed.
End Reception.

(** A receiver that [RFW_Init] configured, for a payload of [size] bytes. *)
Record long_receiver (size : Z) (s : Sys) : Prop := {
  lr_wf : rfw_wf (Init (RFWPacket s));
  lr_enable : Enable (Init (RFWPacket s)) ≠ 0;
  lr_max : size <= LongPacketMaxRxLength (Init (RFWPacket s));
  lr_field : size < 2 ^ (8 * PayloadLengthFieldSize (Init (RFWPacket s)));
  lr_min : 2 <= size + CrcFieldSize (Init (RFWPacket s));
  lr_whole : size + PayloadLengthFieldSize (Init (RFWPacket s)) + CrcFieldSize (Init (RFWPacket s)) < 65536;
  lr_rate : BitRate (RFWPacket s) ≠ 0;
  lr_timer : is_Some (rfw_RxTimeoutTimer (RFWPacket s));
  lr_buffers : buffers_ok s }.

Lemma receive_long_listens size boosted timeout s :
  RFW_LONGPACKET_ENABLE = true → long_receiver size s →
  ∃ s1, RFW_ReceiveLongPacket boosted timeout true s = Ret 0 s1 ∧
    listening (trace s1) (Init (RFWPacket s)) s1.
Proof.
  intros Hen []. destruct lr_timer0 as [t Ht].
  unfold RFW_ReceiveLongPacket. rewrite Hen. cbn [negb].
  erewrite bind_Ret by reflexivity. rewrite (proj2 (Z.eqb_neq _ _) lr_enable0). cbn [orb negb].
  rewrite Ht. do 9 (erewrite bind_Ret by reflexivity; sys_simpl).
  assert (∀ st, ∃ es, when (negb (timeout =? 0))
    (on_timer (Some t) (λ t, EvTimerSetValue t timeout);; on_timer (Some t) EvTimerStart) st =
    Ret tt (st <| trace := trace st ++ es |>)) as Htimer.
  { intros st. destruct (negb (timeout =? 0)); cbn [when on_timer].
    - exists ([EvTimerSetValue t timeout] ++ [EvTimerStart t]). erewrite bind_Ret by reflexivity.
      unfold emit, update. sys_simpl. by rewrite <- app_assoc.
    - exists []. unfold skip. rewrite app_nil_r. by destruct st. }
  match goal with |- context [(when _ _ ≫= _) ?st] => destruct (Htimer st) as [es1 Hes] end.
  erewrite bind_Ret by exact Hes. sys_simpl. erewrite bind_Ret by reflexivity. sys_simpl.
  assert (∀ st, ∃ es, (if boosted =? 1 then SUBGRF_SetRxBoosted 0xFFFFFF else SUBGRF_SetRx 0xFFFFFF) st =
    Ret tt (st <| OperatingMode := MODE_RX |> <| trace := trace st ++ es |>)) as Hrx.
  { intros st. destruct (boosted =? 1); eexists.
    - exact (does_bind _ _ _ tt [_] tt [_] (does_emit _ _) (does_emit _ (_ <| trace := _ |>))).
    - reflexivity. }
  match goal with |- context [((if _ then _ else _) ≫= _) ?st] => destruct (Hrx st) as [es2 Hes2] end.
  erewrite bind_Ret by exact Hes2. eexists. split; [reflexivity|]. split; sys_simpl; try done.
Qed.

(** The reception of a packet with the header of [P] and any CRC field, up to the
    firings of the timer. *)
Lemma long_reception_starts s P tail boosted timeout poll fuel :
  let i := Init (RFWPacket s) in
  let size := Z.of_nat (length P) in
  RFW_LONGPACKET_ENABLE = true → long_receiver size s → Forall is_u8 P → Forall is_u8 tail →
  Z.of_nat (length tail) = CrcFieldSize i →
  ∃ s1, RFW_ReceiveLongPacket boosted timeout true s = Ret 0 s1 ∧
    ∀ arrived s0,
      radio_receives (trace s1) (fst (white_run (WhiteSeed i) ((long_header i size ++ P) ++ tail))) arrived →
      RFW_PollRxBytes poll (PayloadLengthFieldSize i) s1 = Ret 0 s0 →
      ∃ s2 es, long_reception poll fuel s1 = rx_events fuel s2 ∧ trace s2 = trace s1 ++ es ∧
        receiving (trace s1) arrived P tail i 0 (PayloadLengthFieldSize i) es s2.
Proof.
  intros i size Hlong Hr HP Htail Htl.
  destruct (receive_long_listens size boosted timeout s Hlong Hr) as (s1 & Hrun & Hli).
  exists s1. split; [exact Hrun|]. intros arrived s0 Hradio Hpoll. destruct Hr.
  assert (RFW_ENABLE = true) as Hen.
  { pose proof longpacket_needs_rfw as Hn. rewrite Hlong in Hn. by destruct RFW_ENABLE. }
  destruct (receive_payload_begins (trace s1) arrived _ Hradio (white_run_bytes _ _) P tail i eq_refl
    lr_wf0 HP Htail Htl lr_whole0 poll s1 s0) as (s2 & es & Hbegin & Htr & Harm & Hrcv); try done.
  exists s2, es. split_and!; [|done|done]. unfold long_reception. erewrite bind_Ret by reflexivity.
  erewrite bind_Ret by exact Hbegin. erewrite bind_Ret by reflexivity.
  by rewrite Htr, drop_app_length, Harm.
Qed.

(** ** The properties *)

(** C6: a long packet is received as it was sent.  [RFW_ReceiveLongPacket]
    prepares a receiver with the format of the sender; once the sync word is
    found, [RFW_ReceivePayload] and the handler of the packet timer, which fires
    for every start, give the application exactly the payload of the packet that
    arrives ([long_packet], which [RFW_TransmitLongPacket] writes), in order and
    without the CRC, for all chunks of 1 to 255 bytes of which none ends one byte
    before the end of the packet, within the CRC field ([radio_receives]; for
    such a chunk see [split_crc_rejected]).  The reception ends, and with the CRC
    found right: it goes on to the report of the packet and there to
    [SUBGRF_GetCFO], which exits: in the simulator the process ends here, without
    [RxDone]. *)
Theorem long_packet_reception (s : Sys) (j : RFwInit_t) (P : list Z)
    (boosted timeout : Z) (poll fuel : nat) :
  let i := Init (RFWPacket s) in
  let size := Z.of_nat (length P) in
  RFW_LONGPACKET_ENABLE = true → long_receiver size s → same_format j i → Forall is_u8 P →
  (∀ chunk s', app_reaction (App_StoreChunk chunk) s' = s') →
  size + PayloadLengthFieldSize i + CrcFieldSize i <= Z.of_nat fuel →
  ∃ s1, RFW_ReceiveLongPacket boosted timeout true s = Ret 0 s1 ∧
    ∀ arrived s0, radio_receives (trace s1) (long_packet j P) arrived →
      RFW_PollRxBytes poll (PayloadLengthFieldSize i) s1 = Ret 0 s0 →
      ∃ s2 tr, long_reception poll fuel s1 = Exit cfo_error s2 ∧ trace s2 = trace s1 ++ tr ∧
        stored tr = P.
Proof.
  intros i size Hlong Hr Hfmt HP Hquiet Hfuel.
  destruct (long_reception_starts s P (rfw_crc i (long_header i size ++ P)) boosted timeout poll fuel)
    as (s1 & Hrun & Hstart); try done; [apply rfw_crc_bytes | by apply rfw_crc_length; destruct Hr |].
  exists s1. split; [exact Hrun|]. intros arrived s0 Hradio Hpoll.
  assert (long_packet j P = long_packet i P) as Heq.
  { destruct Hfmt as (E1 & E2 & E3 & E4 & E5 & E6 & E7).
    unfold long_packet, long_clear, long_header, rfw_crc. now rewrite E1, E2, E4, E5, E6, E7. }
  rewrite Heq in Hradio.
  destruct (Hstart arrived s0 Hradio Hpoll) as (s2 & es & -> & Htr & Hrcv). destruct Hr.
  destruct (rx_events_accept (trace s1) arrived _ Hradio (white_run_bytes _ _) P _ i eq_refl
    lr_wf0 HP (rfw_crc_bytes _ _) (rfw_crc_length _ _ lr_wf0) Hquiet lr_whole0 fuel _ _ _ _ Hrcv)
    as (s3 & es3 & Hev & Htr3 & Hst); [unfold whole; exact Hfuel | done |].
  exists s3, (es ++ es3). by rewrite Htr3, Htr, app_assoc.
Qed.

(** C21: a long packet in which up to two consecutive bytes of the payload were
    changed on the air is reported with [RxError] and not with [RxDone], with an
    odd CRC polynomial, and the radio is left.  The report comes last: the
    application already has every byte of the damaged payload, as the chunks are
    handed over before the CRC arrives. *)
Theorem corrupted_long_packet_rejected (s : Sys) (before burst burst' after : list Z)
    (ev : RadioEvents_t) (boosted timeout : Z) (poll fuel : nat) :
  let i := Init (RFWPacket s) in
  let sent := before ++ burst ++ after in
  let received := before ++ burst' ++ after in
  let size := Z.of_nat (length sent) in
  let hdr := long_header i size in
  RFW_LONGPACKET_ENABLE = true → long_receiver size s → CrcEnable i = 1 →
  0 <= CrcPolynomial i < 65536 → Z.odd (CrcPolynomial i) = true → 0 <= CrcSeed i < 65536 →
  Forall is_u8 sent → Forall is_u8 burst' →
  length burst = length burst' → (length burst <= 2)%nat → burst ≠ burst' →
  rfw_RadioEvents i = Some ev → ev_RxError ev = true →
  (∀ chunk s', app_reaction (App_StoreChunk chunk) s' = s') →
  (∀ s', app_reaction App_RxError s' = s') →
  size + PayloadLengthFieldSize i + CrcFieldSize i <= Z.of_nat fuel →
  ∃ s1, RFW_ReceiveLongPacket boosted timeout true s = Ret 0 s1 ∧
    ∀ arrived s0,
      radio_receives (trace s1)
        (fst (white_run (WhiteSeed i) ((hdr ++ received) ++ rfw_crc i (hdr ++ sent)))) arrived →
      RFW_PollRxBytes poll (PayloadLengthFieldSize i) s1 = Ret 0 s0 →
      ∃ s2 tr, long_reception poll fuel s1 = Ret tt s2 ∧
        trace s2 = trace s1 ++ tr ++ [EvApp App_RxError; EvProbe DBG_GPIO_RADIO_RX RST] ∧
        stored tr = received.
Proof.
  intros i sent received size hdr Hlong Hr He HP Hodd Hseed Hby Hb' Hl H2 Hne Hev Herr Hq Hq' Hfuel.
  assert (length received = length sent) as Hlen by (unfold received, sent; rewrite !length_app; lia).
  assert (Forall is_u8 burst ∧ Forall is_u8 received) as [Hb Hbr].
  { unfold sent, received in *. rewrite !Forall_app in *. tauto. }
  assert (size = Z.of_nat (length received)) as Hsize by (unfold size; now rewrite Hlen).
  subst hdr. clearbody size. subst size.
  set (hdr := long_header i (Z.of_nat (length received))) in *.
  pose proof (lr_wf _ _ Hr) as Hwf. pose proof (rfw_crc_length i (hdr ++ sent) Hwf) as Hcl.
  assert (rfw_crc i (hdr ++ sent) ≠ rfw_crc i (hdr ++ received)) as Hbad.
  { unfold rfw_crc. rewrite He. cbn [Z.eqb Pos.eqb].
    apply (crc_detects (CrcPolynomial i) (CrcSeed i) (CrcType i) (hdr ++ before) burst burst' after) in Hne;
      [|done..].
    unfold sent, received. rewrite <- !app_assoc in Hne. exact Hne. }
  destruct (long_reception_starts s received (rfw_crc i (hdr ++ sent)) boosted timeout poll fuel)
    as (s1 & Hrun & Hstart); try done; [apply rfw_crc_bytes|].
  exists s1. split; [exact Hrun|]. intros arrived s0 Hradio Hpoll.
  destruct (Hstart arrived s0 Hradio Hpoll) as (s2 & es & -> & Htr & Hrcv). destruct Hr.
  destruct (rx_events_reject (trace s1) arrived _ Hradio (white_run_bytes _ _) received _ i eq_refl
    lr_wf0 Hbr (rfw_crc_bytes _ _) Hcl Hq lr_whole0 fuel _ _ _ _ ev Hrcv)
    as (s3 & es3 & Hrun3 & Htr3 & Hst); [unfold whole; exact Hfuel | done..|].
  exists s3, (es ++ es3). by rewrite Htr3, Htr, <- !app_assoc.
Qed.
End LongRx.

(** ** Witness *)

(** After the first look 100 bytes have come, and 150 in every period of the
    packet timer; the [n0] interactions before the sync word do not count. *)
Definition coming (tr : list HalEvent) : Z :=
  (if (length tr <=? 1)%nat && (starts tr =? 0) then 0 else 100) + 150 * starts tr.

Definition air_env (coming : list HalEvent → Z) (n0 : nat) (packet : list Z) : Env :=
  let _ := quiet_env [] (λ _, 0) in
  {| get_cmd_answer := get_cmd_answer;
     register_answer tr a := if a =? SUBGHZ_RXADRPTR then u8 (coming (drop n0 tr)) else 0;
     rx_buffer_answer tr a :=
       let last := coming (drop n0 tr) - 1 in packet !!! Z.to_nat (last - (last - a) mod 256);
     RBI_IsTCXO := RBI_IsTCXO; RBI_IsDCDC := RBI_IsDCDC;
     RBI_GetTxConfig := RBI_GetTxConfig; RBI_GetRFOMaxPowerConfig := RBI_GetRFOMaxPowerConfig;
     current_time_answer := current_time_answer; elapsed_time_answer _ _ := 0;
     LL_DBGMCU_GetRevisionID := LL_DBGMCU_GetRevisionID;
     next_chunk_answer := next_chunk_answer; app_reaction := app_reaction |}.

Definition rx_env := air_env coming.

Lemma coming_radio t0 packet :
  Z.of_nat (length packet) = 604 →
  radio_receives (env := rx_env (length t0) packet) t0 packet coming.
Proof.
  intros Hl.
  assert (∀ tr, 0 <= starts tr) as Hst by (intros tr; unfold starts; lia).
  split.
  - intros tr. cbn [register_answer rx_env air_env]. by rewrite drop_app_length.
  - intros tr a j Hj Ha Hc. cbn [rx_buffer_answer rx_env air_env]. rewrite drop_app_length. f_equal. f_equal.
    assert ((coming tr - 1 - a) mod 256 = (coming tr - 1 - j) mod 256) as ->.
    { unfold u8 in Ha. change (2 ^ 8) with 256 in Ha.
      rewrite (Zminus_mod _ a), Ha, <- Zminus_mod. done. }
    rewrite Z.mod_small by lia. lia.
  - done.
  - intros tr es. unfold coming. rewrite starts_app, length_app. pose proof (Hst es).
    pose proof (Hst tr). repeat case_match; lia.
  - intros tr es He. unfold coming. rewrite starts_app, length_app. pose proof (Hst es).
    pose proof (Hst tr). repeat case_match; lia.
  - intros tr es He. unfold coming. rewrite starts_app, length_app.
    pose proof (Hst tr). repeat case_match; lia.
  - intros tr. rewrite Hl. unfold coming. pose proof (Hst tr). case_match; lia.
Qed.

Lemma long_packet_reception_witness :
  let packet := long_packet (Init (RFWPacket long_state)) long_payload in
  let s := long_state <| RFWPacket := RFWPacket long_state <| Init ; LongPacketMaxRxLength := 1000 |> |> in
  let E := rx_env 6 packet in
  ∃ s1 s2, RFW_ReceiveLongPacket (cfg := rfw_config) 0 0 true s = Ret 0 s1 ∧
    long_reception (cfg := rfw_config) (env := E) 5 700 s1 = Exit cfo_error s2 ∧
    stored (trace s2) = long_payload ∧
    length (List.filter starts_timer (trace s2)) = 4%nat.
Proof.
  intros packet s E.
  destruct (long_packet_reception (cfg := rfw_config) (env := E) s (Init (RFWPacket long_state))
    long_payload 0 0 5 700) as (s1 & H1 & H).
  - reflexivity.
  - split; by_computation.
  - repeat split.
  - by_computation.
  - done.
  - by_computation.
  - pose proof H1 as Hs1. vm_compute in Hs1. injection Hs1 as Hs1.
    pose proof (coming_radio (trace s1) packet ltac:(vm_compute; reflexivity)) as Hradio.
    assert (length (trace s1) = 6%nat) as Hn by (by rewrite <- Hs1). rewrite Hn in Hradio.
    destruct (H coming (final (RFW_PollRxBytes (env := E) 5 2 s1)) Hradio) as (s2 & tr & Hrun & Htr & Hst).
    { rewrite <- Hs1. vm_compute. reflexivity. }
    exists s1, s2. split; [exact H1|]. split; [exact Hrun|]. split.
    + rewrite Htr, stored_app, Hst. by rewrite <- Hs1.
    + rewrite <- Hs1 in Hrun. vm_compute in Hrun. injection Hrun as <-. vm_compute. reflexivity.
Defined.

(** Two bytes of the payload are changed on the air. *)
Lemma corrupted_long_packet_rejected_witness :
  let sent := take 300 long_payload ++ [44; 45] ++ drop 302 long_payload in
  let received := take 300 long_payload ++ [45; 0] ++ drop 302 long_payload in
  let s := long_state <| RFWPacket := RFWPacket long_state <| Init ; LongPacketMaxRxLength := 1000 |> |> in
  let i := Init (RFWPacket s) in
  let hdr := long_header i (Z.of_nat (length sent)) in
  let packet := fst (white_run (WhiteSeed i) ((hdr ++ received) ++ rfw_crc i (hdr ++ sent))) in
  let E := rx_env 6 packet in
  ∃ s1 s2 tr, RFW_ReceiveLongPacket (cfg := rfw_config) 0 0 true s = Ret 0 s1 ∧
    long_reception (cfg := rfw_config) (env := E) 5 700 s1 = Ret tt s2 ∧
    trace s2 = trace s1 ++ tr ++ [EvApp App_RxError; EvProbe DBG_GPIO_RADIO_RX RST] ∧
    stored tr = received.
Proof.
  intros sent received s i hdr packet E.
  destruct (corrupted_long_packet_rejected (cfg := rfw_config) (env := E) s
    (take 300 long_payload) [44; 45] [45; 0] (drop 302 long_payload) (mkRadioEvents true true true true true true) 0 0 5 700) as (s1 & H1 & H).
  all: try by_computation; try reflexivity.
  { split; by_computation. }
  pose proof H1 as Hs1. vm_compute in Hs1. injection Hs1 as Hs1.
  pose proof (coming_radio (trace s1) packet ltac:(vm_compute; reflexivity)) as Hradio.
  assert (length (trace s1) = 6%nat) as Hn by (by rewrite <- Hs1). rewrite Hn in Hradio.
  destruct (H coming (final (RFW_PollRxBytes (env := E) 5 2 s1)) Hradio) as (s2 & tr & Hrun & Htr & Hst).
  { rewrite <- Hs1. vm_compute. reflexivity. }
  exists s1, s2, tr. split; [exact H1|]. split; [exact Hrun|]. split; [exact Htr | exact Hst].
Defined.

(** A chunk that ends within the CRC field: the application is given the first
    byte of the CRC with the payload, the last chunk is read past the end of the
    packet, and the packet, which arrived as it was sent, is rejected. *)
Definition coming_cut (tr : list HalEvent) : Z := if starts tr =? 4 then 603 else coming tr.

Example split_crc_rejected :
  let s := long_state <| RFWPacket := RFWPacket long_state <| Init ; LongPacketMaxRxLength := 1000 |> |> in
  let i := Init (RFWPacket s) in
  let s1 := final (RFW_ReceiveLongPacket (cfg := rfw_config) 0 0 true s) in
  let E := air_env coming_cut 6 (long_packet i long_payload) in
  ∃ s2 tr, long_reception (cfg := rfw_config) (env := E) 5 700 s1 = Ret tt s2 ∧
    trace s2 = tr ++ [EvApp App_RxError; EvProbe DBG_GPIO_RADIO_RX RST] ∧
    stored tr = long_payload ++ take 1 (rfw_crc i (long_header i 600 ++ long_payload)).
Proof.
  intros s i s1 E. set (s2 := final (long_reception (cfg := rfw_config) (env := E) 5 700 s1)).
  exists s2, (take (length (trace s2) - 2) (trace s2)). split_and!; vm_compute; reflexivity.
Qed.
