(* ===== verification/TimeOnAir.v ===== *)
(** * Time on air: the packet duration computed by [RadioTimeOnAir] of radio.c.

    The arithmetic is that of the source: 32 bit unsigned for the numerator and
    the division, [int] for the number of symbols.  [None] is undefined
    behaviour: an index outside [Bandwidths], a shift by a count outside the
    width of [int], a signed overflow or a division by zero. *)

From S2P Require Import Prelude RadioTypes.

(** [const RadioLoRaBandwidths_t Bandwidths[]] *)
Definition Bandwidths : list Z := [LORA_BW_125; LORA_BW_250; LORA_BW_500].

Definition RadioGetLoRaBandwidthInHz (bw : Z) : Z :=
  if bw =? LORA_BW_007 then 7812
  else if bw =? LORA_BW_010 then 10417
  else if bw =? LORA_BW_015 then 15625
  else if bw =? LORA_BW_020 then 20833
  else if bw =? LORA_BW_031 then 31250
  else if bw =? LORA_BW_041 then 41667
  else if bw =? LORA_BW_062 then 62500
  else if bw =? LORA_BW_125 then 125000
  else if bw =? LORA_BW_250 then 250000
  else if bw =? LORA_BW_500 then 500000
  else 0.

Definition RadioGetGfskTimeOnAirNumerator
    (datarate coderate preambleLen : Z) (fixLen : bool) (payloadLen : Z) (crcOn : bool) : Z :=
  u32 (Z.shiftl preambleLen 3 + (if fixLen then 0 else 8) + 24
       + Z.shiftl (payloadLen + (if crcOn then 2 else 0)) 3).

(** Low data rate optimisation: also the test of [RadioSetRxConfig] and
    [RadioSetTxConfig]. *)
Definition low_datarate (bandwidth datarate : Z) : bool :=
  ((bandwidth =? 0) && ((datarate =? 11) || (datarate =? 12)))
  || ((bandwidth =? 1) && (datarate =? 12)).

Definition RadioGetLoRaTimeOnAirNumerator
    (bandwidth datarate coderate preambleLen : Z) (fixLen : bool) (payloadLen : Z)
    (crcOn : bool) : option Z :=
  let crDenom := coderate + 4 in
  let preambleLen :=
    if ((datarate =? 5) || (datarate =? 6)) && (preambleLen <? 12) then 12 else preambleLen in
  let lowDatareOptimize := low_datarate bandwidth datarate in
  let ceilNumerator :=
    i32 (u32 (Z.shiftl payloadLen 3 + (if crcOn then 16 else 0) - 4 * datarate
              + (if fixLen then 0 else 20))) in
  let '(ceilNumerator, ceilDenominator) :=
    if datarate <=? 6 then (ceilNumerator, 4 * datarate)
    else (ceilNumerator + 8, if lowDatareOptimize then 4 * (datarate - 2) else 4 * datarate) in
  let ceilNumerator := if ceilNumerator <? 0 then 0 else ceilNumerator in
  if (datarate <? 2) || (32 <? datarate) then None
  else
    let intermediate :=
      Z.quot (ceilNumerator + ceilDenominator - 1) ceilDenominator * crDenom
      + preambleLen + 12 in
    let intermediate := if datarate <=? 6 then intermediate + 2 else intermediate in
    let product := (4 * intermediate + 1) * Z.shiftl 1 (datarate - 2) in
    if product <? 2 ^ 31 then Some (u32 product) else None.

Definition RadioTimeOnAir (modem : RadioModems_t)
    (bandwidth datarate coderate preambleLen : Z) (fixLen : bool) (payloadLen : Z)
    (crcOn : bool) : option Z :=
  match modem with
  | MODEM_FSK =>
      let numerator :=
        u32 (1000 * RadioGetGfskTimeOnAirNumerator datarate coderate preambleLen fixLen
                      payloadLen crcOn) in
      if datarate =? 0 then None else Some (DIVC numerator datarate)
  | MODEM_LORA =>
      match RadioGetLoRaTimeOnAirNumerator bandwidth datarate coderate preambleLen fixLen
              payloadLen crcOn, Bandwidths !! Z.to_nat bandwidth with
      | Some n, Some bw => Some (DIVC (u32 (1000 * n)) (RadioGetLoRaBandwidthInHz bw))
      | _, _ => None
      end
  | _ => Some (DIVC 0 1)
  end.

(** ** The formula of the data sheet

    A LoRa packet lasts, in quarters of a symbol, the preamble with its 4.25
    symbols (6.25 for SF5 and SF6), the 8 symbols of the header and the symbols
    of the payload; a symbol lasts [2 ^ SF / bandwidth] seconds. *)

Definition cdiv (a b : Z) : Z := - ((- a) / b).

Definition payload_symbols (bandwidth sf cr : Z) (fixLen : bool) (payloadLen : Z) (crcOn : bool) : Z :=
  let bits := 8 * payloadLen + (if crcOn then 16 else 0) - 4 * sf + (if fixLen then 0 else 20)
              + (if 7 <=? sf then 8 else 0) in
  let per_symbol := 4 * (sf - if low_datarate bandwidth sf then 2 else 0) in
  cdiv (Z.max bits 0) per_symbol * (cr + 4).

Definition quarter_symbols (bandwidth sf cr preambleLen : Z) (fixLen : bool) (payloadLen : Z)
    (crcOn : bool) : Z :=
  let preamble := if sf <=? 6 then Z.max preambleLen 12 else preambleLen in
  4 * (preamble + 8 + payload_symbols bandwidth sf cr fixLen payloadLen crcOn)
  + (if sf <=? 6 then 25 else 17).

(** The parameters the radio accepts, a payload of at most 255 bytes. *)
Definition lora_params (bandwidth sf cr preambleLen payloadLen : Z) : Prop :=
  0 <= bandwidth <= 2 ∧ 5 <= sf <= 12 ∧ 1 <= cr <= 4 ∧ 0 <= preambleLen < 65536
  ∧ 0 <= payloadLen <= 255.

Definition bandwidth_hz (bandwidth : Z) : Z := 125000 * 2 ^ bandwidth.

(** ** Lemmas *)

Lemma i32_u32 x : - 2 ^ 31 <= x < 2 ^ 31 → i32 (u32 x) = x.
Proof. intros H. unfold i32, u32. Z.to_euclidean_division_equations. lia. Qed.

Lemma cdiv_quot a b : 0 < b → 0 <= a → Z.quot (a + b - 1) b = cdiv a b.
Proof.
  intros Hb Ha. rewrite Z.quot_div_nonneg by lia. unfold cdiv.
  Z.to_euclidean_division_equations. nia.
Qed.

Lemma cdiv_spec a b t : 0 < b → (cdiv a b <= t ↔ a <= b * t).
Proof. intros Hb. unfold cdiv. split; intros; Z.to_euclidean_division_equations; nia. Qed.

Lemma cdiv_mono a a' b : 0 < b → a <= a' → cdiv a b <= cdiv a' b.
Proof. intros. unfold cdiv. pose proof (Z.div_le_mono (- a') (- a) b). lia. Qed.

Lemma DIVC_cdiv x n : 0 < n → 0 <= x → x + n < 2 ^ 32 → DIVC x n = cdiv x n.
Proof.
  intros. rewrite DIVC_exact by lia. rewrite <- cdiv_quot by lia.
  rewrite Z.quot_div_nonneg by lia. done.
Qed.

Lemma DIVC_bound x n : 0 < n → DIVC x n * n < 2 ^ 32.
Proof.
  intros Hn. unfold DIVC. pose proof (u32_range (u32 (x + n) - 1)).
  Z.to_euclidean_division_equations. nia.
Qed.

Lemma payload_symbols_bounds bandwidth sf cr fixLen payloadLen crcOn :
  0 <= bandwidth <= 2 → 5 <= sf <= 12 → 1 <= cr <= 4 → 0 <= payloadLen <= 255 →
  0 <= payload_symbols bandwidth sf cr fixLen payloadLen crcOn <= 856.
Proof.
  intros. unfold payload_symbols, cdiv, low_datarate.
  assert (sf = 5 ∨ sf = 6 ∨ sf = 7 ∨ sf = 8 ∨ sf = 9 ∨ sf = 10 ∨ sf = 11 ∨ sf = 12) as Hsf by lia.
  destruct Hsf as [->|[->|[->|[->|[->|[->|[->| ->]]]]]]], fixLen, crcOn; cbn; repeat case_match; Z.to_euclidean_division_equations; nia.
Qed.

(** The symbols of the payload as the source computes them, for one pair of its
    numerator [bits] and denominator. *)
Lemma numerator_step inter bits d s preamble k m :
  inter = Z.quot ((if bits <? 0 then 0 else bits) + d - 1) d * s + preamble + m →
  0 < d → 0 <= cdiv (Z.max bits 0) d * s <= 856 → 0 <= preamble < 65536 → 0 <= m <= 14 →
  0 < k <= 1024 →
  (if (4 * inter + 1) * k <? 2 ^ 31 then Some (u32 ((4 * inter + 1) * k)) else None) =
  Some ((4 * (preamble + m + cdiv (Z.max bits 0) d * s) + 1) * k).
Proof.
  intros -> Hd Hs Hp Hm Hk.
  replace (if bits <? 0 then 0 else bits) with (Z.max bits 0) by (destruct (bits <? 0) eqn:?; lia).
  rewrite cdiv_quot by lia.
  set (c := cdiv (Z.max bits 0) d * s) in *.
  replace (c + preamble + m) with (preamble + m + c) by lia.
  assert (0 <= (4 * (preamble + m + c) + 1) * k < 2 ^ 31) by nia.
  rewrite (proj2 (Z.ltb_lt _ _)) by lia. now rewrite u32_small by lia.
Qed.

Lemma numerator_exact bandwidth sf cr preambleLen fixLen payloadLen crcOn :
  lora_params bandwidth sf cr preambleLen payloadLen →
  RadioGetLoRaTimeOnAirNumerator bandwidth sf cr preambleLen fixLen payloadLen crcOn =
    Some (quarter_symbols bandwidth sf cr preambleLen fixLen payloadLen crcOn * 2 ^ (sf - 2)).
Proof.
  intros (Hbw & Hsf & Hcr & Hpre & Hpay).
  pose proof (payload_symbols_bounds bandwidth sf cr fixLen payloadLen crcOn Hbw Hsf Hcr Hpay) as Hs.
  unfold RadioGetLoRaTimeOnAirNumerator. rewrite Z.shiftl_mul_pow2 by lia.
  rewrite i32_u32 by (destruct crcOn, fixLen; lia).
  set (e := payloadLen * 2 ^ 3 + (if crcOn then 16 else 0) - 4 * sf + (if fixLen then 0 else 20)).
  rewrite Z.shiftl_mul_pow2, Z.mul_1_l by lia.
  rewrite (proj2 (orb_false_iff (sf <? 2) (32 <? sf))) by lia.
  assert (Hk : 0 < 2 ^ (sf - 2) <= 1024).
  { split; [apply Z.pow_pos_nonneg; lia|]. apply (Z.pow_le_mono_r 2 (sf - 2) 10); lia. }
  cbv zeta. unfold quarter_symbols. destruct (sf <=? 6) eqn:E6.
  - assert (payload_symbols bandwidth sf cr fixLen payloadLen crcOn =
              cdiv (Z.max e 0) (4 * sf) * (cr + 4)) as E.
    { unfold payload_symbols, e. rewrite (proj2 (Z.leb_gt 7 sf)) by lia.
      replace (low_datarate bandwidth sf) with false by (unfold low_datarate; lia).
      f_equal. f_equal; lia. }
    rewrite E in *.
    rewrite (numerator_step _ e (4 * sf) (cr + 4) (Z.max preambleLen 12) _ 14); try lia.
    + f_equal. lia.
    + replace ((sf =? 5) || (sf =? 6)) with true by lia. cbn [andb].
      destruct (preambleLen <? 12) eqn:?; lia.
  - assert (payload_symbols bandwidth sf cr fixLen payloadLen crcOn =
              cdiv (Z.max (e + 8) 0)
                (if low_datarate bandwidth sf then 4 * (sf - 2) else 4 * sf) * (cr + 4)) as E.
    { unfold payload_symbols, e. rewrite (proj2 (Z.leb_le 7 sf)) by lia.
      f_equal. f_equal; [lia|]. destruct (low_datarate bandwidth sf); lia. }
    rewrite E in *.
    rewrite (numerator_step _ (e + 8) (if low_datarate bandwidth sf then 4 * (sf - 2) else 4 * sf)
               (cr + 4) preambleLen _ 12); try lia.
    + f_equal. lia.
    + replace ((sf =? 5) || (sf =? 6)) with false by lia. cbn [andb]. lia.
    + destruct (low_datarate bandwidth sf); lia.
Qed.

Lemma payload_symbols_12 bandwidth cr fixLen payloadLen crcOn :
  0 <= bandwidth <= 2 → 1 <= cr <= 4 → 0 <= payloadLen <= 255 →
  payload_symbols bandwidth 12 cr fixLen payloadLen crcOn <= 408.
Proof.
  intros. unfold payload_symbols, cdiv, low_datarate.
  destruct fixLen, crcOn; cbn; repeat case_match; Z.to_euclidean_division_equations; nia.
Qed.

Lemma payload_symbols_mono bandwidth sf cr fixLen p p' crcOn :
  5 <= sf → 0 <= cr → p <= p' →
  payload_symbols bandwidth sf cr fixLen p crcOn <= payload_symbols bandwidth sf cr fixLen p' crcOn.
Proof.
  intros Hsf Hcr Hp. unfold payload_symbols. cbv zeta. apply Z.mul_le_mono_nonneg_r; [lia|].
  assert (0 < 4 * (sf - (if low_datarate bandwidth sf then 2 else 0))) as Hd
    by (destruct (low_datarate _ _); lia).
  apply cdiv_mono; lia.
Qed.

Lemma quarter_symbols_bounds bandwidth sf cr preambleLen fixLen payloadLen crcOn :
  lora_params bandwidth sf cr preambleLen payloadLen →
  0 < quarter_symbols bandwidth sf cr preambleLen fixLen payloadLen crcOn ∧
  (preambleLen <= 600 →
   1000 * (quarter_symbols bandwidth sf cr preambleLen fixLen payloadLen crcOn * 2 ^ (sf - 2)) +
     bandwidth_hz bandwidth < 2 ^ 32).
Proof.
  intros (Hbw & Hsf & Hcr & Hpre & Hpay).
  pose proof (payload_symbols_bounds bandwidth sf cr fixLen payloadLen crcOn Hbw Hsf Hcr Hpay) as Hs.
  assert (Hbw2 : bandwidth_hz bandwidth <= 500000).
  { unfold bandwidth_hz. assert (bandwidth = 0 ∨ bandwidth = 1 ∨ bandwidth = 2) as [->|[->| ->]] by lia;
      reflexivity || discriminate || lia. }
  unfold quarter_symbols. split; [destruct (sf <=? 6) eqn:?; lia|]. intros Hp.
  destruct (decide (sf = 12)) as [->|Hne].
  - pose proof (payload_symbols_12 bandwidth cr fixLen payloadLen crcOn Hbw Hcr Hpay).
    change (2 ^ (12 - 2)) with 1024. change (12 <=? 6) with false. cbv iota. lia.
  - assert (2 ^ (sf - 2) <= 512) by (apply (Z.pow_le_mono_r 2 (sf - 2) 9); lia).
    assert (0 < 2 ^ (sf - 2)) by (apply Z.pow_pos_nonneg; lia).
    set (q := 4 * _ + _).
    assert (0 <= q <= 6000) by (unfold q; destruct (sf <=? 6) eqn:?; lia). nia.
Qed.

(** The conversion of the numerator to milliseconds. *)
Lemma lora_time_on_air_eq bandwidth sf cr preambleLen fixLen payloadLen crcOn :
  lora_params bandwidth sf cr preambleLen payloadLen →
  RadioTimeOnAir MODEM_LORA bandwidth sf cr preambleLen fixLen payloadLen crcOn =
    Some (DIVC (u32 (1000 * (quarter_symbols bandwidth sf cr preambleLen fixLen payloadLen crcOn
                             * 2 ^ (sf - 2)))) (bandwidth_hz bandwidth)).
Proof.
  intros H. unfold RadioTimeOnAir. rewrite numerator_exact by done.
  destruct H as (Hbw & _). assert (bandwidth = 0 ∨ bandwidth = 1 ∨ bandwidth = 2) as [->|[->| ->]] by lia;
    reflexivity.
Qed.

Lemma bandwidth_hz_pos bandwidth : 0 <= bandwidth → 0 < bandwidth_hz bandwidth.
Proof. intros. unfold bandwidth_hz. pose proof (Z.pow_pos_nonneg 2 bandwidth). lia. Qed.

Lemma pow_quarter sf : 2 <= sf → 2 ^ sf = 4 * 2 ^ (sf - 2).
Proof. intros. change 4 with (2 ^ 2). rewrite <- Z.pow_add_r by lia. f_equal. lia. Qed.

(** ** Properties *)

(** C17: for the spreading factors, bandwidths, coding rates and payloads of
    LoRa and a preamble of up to 600 symbols, [RadioTimeOnAir] is the duration
    of the data sheet rounded up to the millisecond: the least [t] that is not
    shorter than [1000 * symbols * 2 ^ SF / bandwidth]; nothing overflows. *)
Theorem lora_time_on_air_exact (bandwidth sf cr preambleLen : Z) (fixLen : bool)
    (payloadLen : Z) (crcOn : bool) :
  lora_params bandwidth sf cr preambleLen payloadLen → preambleLen <= 600 →
  ∃ t, RadioTimeOnAir MODEM_LORA bandwidth sf cr preambleLen fixLen payloadLen crcOn = Some t ∧
    ∀ t', t <= t' ↔
      1000 * quarter_symbols bandwidth sf cr preambleLen fixLen payloadLen crcOn * 2 ^ sf
        <= 4 * bandwidth_hz bandwidth * t'.
Proof.
  intros H Hpre. rewrite lora_time_on_air_eq by done. eexists. split; [done|]. intros t'.
  destruct (quarter_symbols_bounds _ _ _ _ fixLen _ crcOn H) as [Hq Hov]. specialize (Hov Hpre).
  destruct H as (Hbw & Hsf & _). pose proof (bandwidth_hz_pos bandwidth).
  set (q := quarter_symbols _ _ _ _ _ _ _) in *. rewrite (pow_quarter sf) by lia.
  assert (0 < 2 ^ (sf - 2)) by (apply Z.pow_pos_nonneg; lia).
  set (k := 2 ^ (sf - 2)) in *. assert (0 <= q * k) by nia.
  rewrite u32_small by lia. rewrite DIVC_cdiv by lia. rewrite cdiv_spec by lia. nia.
Qed.

Lemma lora_time_on_air_exact_witness :
  lora_params 0 7 1 8 20 ∧ quarter_symbols 0 7 1 8 false 20 true = 221 ∧
  RadioTimeOnAir MODEM_LORA 0 7 1 8 false 20 true = Some 57 ∧
  ∃ t, RadioTimeOnAir MODEM_LORA 0 7 1 8 false 20 true = Some t ∧
    (t <= 57 ↔ 1000 * 221 * 2 ^ 7 <= 4 * bandwidth_hz 0 * 57).
Proof.
  assert (H : lora_params 0 7 1 8 20) by (unfold lora_params; lia).
  split; [exact H|]. split; [reflexivity|]. split; [reflexivity|].
  destruct (lora_time_on_air_exact 0 7 1 8 false 20 true H) as (t & E & Ht); [lia|].
  exists t. split; [exact E | exact (Ht 57)].
Defined.

(** With a longer preamble the 32 bit product [1000 * numerator] can wrap
    around; then the duration returned is always too short. *)
Theorem lora_time_on_air_wraps (bandwidth sf cr preambleLen : Z) (fixLen : bool)
    (payloadLen : Z) (crcOn : bool) :
  lora_params bandwidth sf cr preambleLen payloadLen →
  2 ^ 34 <= 1000 * quarter_symbols bandwidth sf cr preambleLen fixLen payloadLen crcOn * 2 ^ sf →
  ∃ t, RadioTimeOnAir MODEM_LORA bandwidth sf cr preambleLen fixLen payloadLen crcOn = Some t ∧
    4 * bandwidth_hz bandwidth * t <
      1000 * quarter_symbols bandwidth sf cr preambleLen fixLen payloadLen crcOn * 2 ^ sf.
Proof.
  intros H Hbig. rewrite lora_time_on_air_eq by done. eexists. split; [done|].
  destruct H as (Hbw & _). pose proof (bandwidth_hz_pos bandwidth).
  match goal with |- 4 * ?b * DIVC ?x ?n < _ => pose proof (DIVC_bound x n) end. lia.
Qed.

Lemma lora_time_on_air_wraps_witness :
  RadioTimeOnAir MODEM_LORA 0 12 4 700 false 255 true = Some 2349 ∧
  ∃ t, RadioTimeOnAir MODEM_LORA 0 12 4 700 false 255 true = Some t ∧
    4 * bandwidth_hz 0 * t < 1000 * 4481 * 2 ^ 12.
Proof.
  split; [vm_compute; reflexivity|].
  refine (lora_time_on_air_wraps 0 12 4 700 false 255 true _ _);
    [unfold lora_params; lia | vm_compute; discriminate].
Defined.

(** A longer payload never takes less time. *)
Theorem lora_time_on_air_mono (bandwidth sf cr preambleLen : Z) (fixLen : bool)
    (payloadLen payloadLen' : Z) (crcOn : bool) (t t' : Z) :
  lora_params bandwidth sf cr preambleLen payloadLen →
  lora_params bandwidth sf cr preambleLen payloadLen' → preambleLen <= 600 →
  payloadLen <= payloadLen' →
  RadioTimeOnAir MODEM_LORA bandwidth sf cr preambleLen fixLen payloadLen crcOn = Some t →
  RadioTimeOnAir MODEM_LORA bandwidth sf cr preambleLen fixLen payloadLen' crcOn = Some t' →
  t <= t'.
Proof.
  intros H H' Hpre Hp. rewrite !lora_time_on_air_eq by done. intros [= <-] [= <-].
  destruct (quarter_symbols_bounds _ _ _ _ fixLen _ crcOn H) as [Hq Hov].
  destruct (quarter_symbols_bounds _ _ _ _ fixLen _ crcOn H') as [Hq' Hov'].
  specialize (Hov Hpre). specialize (Hov' Hpre).
  destruct H as (Hbw & Hsf & Hcr & _). pose proof (bandwidth_hz_pos bandwidth).
  assert (0 < 2 ^ (sf - 2)) by (apply Z.pow_pos_nonneg; lia).
  pose proof (payload_symbols_mono bandwidth sf cr fixLen _ _ crcOn ltac:(lia) ltac:(lia) Hp) as Hm.
  assert (quarter_symbols bandwidth sf cr preambleLen fixLen payloadLen crcOn <=
          quarter_symbols bandwidth sf cr preambleLen fixLen payloadLen' crcOn)
    by (unfold quarter_symbols; lia).
  set (q := quarter_symbols _ _ _ _ _ payloadLen _) in *.
  set (q' := quarter_symbols _ _ _ _ _ payloadLen' _) in *.
  set (k := 2 ^ (sf - 2)) in *. assert (0 <= q * k <= q' * k) by nia.
  rewrite !u32_small by lia. rewrite !DIVC_cdiv by lia.
  apply cdiv_mono; lia.
Qed.

Lemma lora_time_on_air_mono_witness :
  ∃ t t', RadioTimeOnAir MODEM_LORA 0 7 1 8 false 20 true = Some t ∧
    RadioTimeOnAir MODEM_LORA 0 7 1 8 false 21 true = Some t' ∧ t <= t'.
Proof.
  eexists _, _. split; [vm_compute; reflexivity|]. split; [vm_compute; reflexivity|].
  refine (lora_time_on_air_mono 0 7 1 8 false 20 21 true _ _ _ _ _ _ _ _);
    [unfold lora_params; lia | unfold lora_params; lia | lia | lia | |]; vm_compute; reflexivity.
Defined.
