(* ===== verification/Radio.v ===== *)
(** * radio.c: the radio API, its interrupt and timeout handlers.

    One definition per function of the source.  A long [switch] is cut into one
    definition per case.  Functions that receive a pointer to a buffer of the
    caller take the buffer as a list and return it when they write to it. *)

From S2P Require Import Prelude Effects RadioTypes State Mem RadioDriver RadioFw TimeOnAir.

(** [IRQ_RX_DONE | IRQ_RX_TX_TIMEOUT | IRQ_CRC_ERROR | IRQ_HEADER_ERROR | IRQ_RX_DBG],
    with the default [IRQ_RX_DBG] of 0. *)
Definition RX_IRQS : Z :=
  Z.lor (Z.lor (Z.lor IRQ_RX_DONE IRQ_RX_TX_TIMEOUT) IRQ_CRC_ERROR) IRQ_HEADER_ERROR.

(** ** Sigfox: differential encoding of the payload *)

(** The body of the bit loop of [payload_integration], on [(prevInt, outBuffer)]. *)
Definition integrate_bit (inBuffer : list Z) (po : Z * list Z) (i : nat) : Z * list Z :=
  let '(prevInt, outBuffer) := po in
  let index_bit := Z.of_nat (7 - i `mod` 8) in
  let index_byte := (i / 8)%nat in
  let index_bit_out := Z.of_nat (7 - (i + 1) `mod` 8) in
  let index_byte_out := ((i + 1) / 8)%nat in
  let currBit := Z.land (Z.shiftr (nth_byte inBuffer index_byte) index_bit) 0x01 in
  let prevInt := Z.lxor prevInt currBit in
  (prevInt,
   <[index_byte_out :=
       u8 (Z.lor (nth_byte outBuffer index_byte_out) (Z.shiftl prevInt index_bit_out))]>
     outBuffer).

(** The new [(outBuffer, inBuffer)]; [None] when a buffer is too short. *)
Definition payload_integration (outBuffer inBuffer : list Z) (size : nat)
  : option (list Z * list Z) :=
  if (size <=? length inBuffer)%nat && (size + 1 <=? length outBuffer)%nat then
    let inBuffer := ((λ b, u8 (Z.lnot b)) <$> take size inBuffer) ++ drop size inBuffer in
    let outBuffer := replicate size 0 ++ drop size outBuffer in
    let '(prevInt, outBuffer) :=
      fold_left (integrate_bit inBuffer) (seq 0 (size * 8)) (0, outBuffer) in
    let last :=
      Z.lor (Z.lor (Z.shiftl prevInt 7) (Z.shiftl prevInt 6))
            (Z.shiftl (Z.land (b2z (prevInt =? 0)) 0x01) 5) in
    Some (<[size := last]> outBuffer, inBuffer)
  else None.

Section Radio.
Context {cfg : Config} {env : Env}.

Definition upd_SubgRf (f : SubgRf_t → SubgRf_t) : M Sys unit :=
  update (λ s, s <| SubgRf := f (SubgRf s) |>).

(** [if( ( RadioEvents != NULL ) && ( RadioEvents->x != NULL ) ) RadioEvents->x( )] *)
Definition call_radio_event (sel : RadioEvents_t → bool) (c : AppCall) : M Sys unit :=
  events ← gets RadioEvents;
  match events with
  | Some ev => when (sel ev) (call_app c)
  | None => skip
  end.

(** The first bytes of [RadioBuffer] are written. *)
Definition write_radio (bytes : list Z) : M Sys unit :=
  rb ← gets RadioBuffer;
  rb ← defined "write outside RadioBuffer" (buf_write rb 0 bytes);
  update (λ s, s <| RadioBuffer := rb |>).

(** [payload_integration( RadioBuffer, buffer, size )] *)
Definition integrate_payload (buffer : list Z) (size : Z) : M Sys (list Z) :=
  rb ← gets RadioBuffer;
  io ← defined "write outside RadioBuffer" (payload_integration rb buffer (Z.to_nat size));
  update (λ s, s <| RadioBuffer := fst io |>);;
  mret (snd io).

(** ** Modes *)

Definition RadioStandby : M Sys unit := SUBGRF_SetStandby STDBY_RC.

Definition RadioSleep : M Sys unit :=
  SUBGRF_SetSleep (mkSleepParams true false false);;
  emit (EvDelay 2).

Definition RadioGetStatus : M Sys RadioState_t :=
  mode ← SUBGRF_GetOperatingMode;
  mret match mode with
       | MODE_TX => RF_TX_RUNNING
       | MODE_RX => RF_RX_RUNNING
       | MODE_CAD => RF_CAD
       | _ => RF_IDLE
       end.

Definition RadioGetWakeupTime : Z := SUBGRF_GetRadioWakeUpTime + RADIO_WAKEUP_TIME.

Definition RadioInit (events : option RadioEvents_t) : M Sys unit :=
  update (λ s, s <| RadioEvents := events |>);;
  upd_SubgRf (λ r, r <| RxContinuous := false |> <| TxTimeout := 0 |> <| RxTimeout := 0 |>
                     <| RxDcPreambleDetectTimeout := 0 |>);;
  SUBGRF_Init true;;
  upd_SubgRf (λ r, r <| PublicNetwork_Current := false |> <| PublicNetwork_Previous := false |>);;
  SUBGRF_SetRegulatorMode;;
  SUBGRF_SetBufferBaseAddress 0x00 0x00;;
  SUBGRF_SetTxParams RFO_LP 0 RADIO_RAMP_200_US;;
  SUBGRF_SetDioIrqParams IRQ_RADIO_ALL IRQ_RADIO_ALL IRQ_RADIO_NONE IRQ_RADIO_NONE;;
  RadioSleep;;
  emit (EvTimerInit TxTimeoutTimer RadioOnTxTimeoutIrq_cb);;
  emit (EvTimerInit RxTimeoutTimer RadioOnRxTimeoutIrq_cb);;
  emit (EvTimerStop TxTimeoutTimer);;
  emit (EvTimerStop RxTimeoutTimer).

(** ** Registers *)

Definition RadioWrite (addr data : Z) : M Sys unit := SUBGRF_WriteRegister addr data.
Definition RadioRead (addr : Z) : M Sys Z := SUBGRF_ReadRegister addr.
Definition RadioWriteRegisters (addr : Z) (buffer : list Z) : M Sys unit :=
  SUBGRF_WriteRegisters addr buffer.
Definition RadioReadRegisters (addr : Z) (size : nat) : M Sys (list Z) :=
  SUBGRF_ReadRegisters addr size.

(** [SUBGRF_WriteRegister( r, SUBGRF_ReadRegister( r ) & ~( 1 << n ) )] *)
Definition clear_register_bit (reg n : Z) : M Sys unit :=
  v ← SUBGRF_ReadRegister reg;
  SUBGRF_WriteRegister reg (u8 (Z.land v (Z.lnot (Z.shiftl 1 n)))).
(** [SUBGRF_WriteRegister( r, SUBGRF_ReadRegister( r ) | ( 1 << n ) )] *)
Definition set_register_bit (reg n : Z) : M Sys unit :=
  v ← SUBGRF_ReadRegister reg;
  SUBGRF_WriteRegister reg (u8 (Z.lor v (Z.shiftl 1 n))).

(** ** Modem and network

    [RadioSetModem] and [RadioSetPublicNetwork] call each other. *)

Definition SetPublicNetwork_with (set_modem : RadioModems_t → M Sys unit) (enable : bool)
  : M Sys unit :=
  upd_SubgRf (λ r, r <| PublicNetwork_Previous := enable |> <| PublicNetwork_Current := enable |>);;
  set_modem MODEM_LORA;;
  let word := if enable then LORA_MAC_PUBLIC_SYNCWORD else LORA_MAC_PRIVATE_SYNCWORD in
  SUBGRF_WriteRegister REG_LR_SYNCWORD (byte_at 8 word);;
  SUBGRF_WriteRegister (REG_LR_SYNCWORD + 1) (byte_at 0 word).

Definition reset_public : M Sys unit := upd_SubgRf (λ r, r <| PublicNetwork_Current := false |>).

Fixpoint SetModem_fuel (fuel : nat) (modem : RadioModems_t) : M Sys unit :=
  match fuel with
  | O => spin
  | S fuel =>
      upd_SubgRf (λ r, r <| Modem := modem |>);;
      RFW_SetRadioModem modem;;
      match modem with
      | MODEM_FSK => SUBGRF_SetPacketType PACKET_TYPE_GFSK;; reset_public
      | MODEM_LORA =>
          SUBGRF_SetPacketType PACKET_TYPE_LORA;;
          r ← gets SubgRf;
          when (negb (eqb (PublicNetwork_Current r) (PublicNetwork_Previous r)))
            (upd_SubgRf (λ r, r <| PublicNetwork_Current := PublicNetwork_Previous r |>);;
             r ← gets SubgRf;
             SetPublicNetwork_with (SetModem_fuel fuel) (PublicNetwork_Current r))
      | MODEM_BPSK => SUBGRF_SetPacketType PACKET_TYPE_BPSK;; reset_public
      | MODEM_SIGFOX_TX =>
          if RADIO_SIGFOX_ENABLE then SUBGRF_SetPacketType PACKET_TYPE_BPSK;; reset_public
          else SUBGRF_SetPacketType PACKET_TYPE_GMSK;; reset_public
      | MODEM_SIGFOX_RX =>
          if RADIO_SIGFOX_ENABLE then SUBGRF_SetPacketType PACKET_TYPE_GFSK;; reset_public
          else SUBGRF_SetPacketType PACKET_TYPE_GMSK;; reset_public
      | MODEM_MSK => SUBGRF_SetPacketType PACKET_TYPE_GMSK;; reset_public
      end
  end.

(** Two levels: the inner call finds the two flags equal. *)
Definition RadioSetModem : RadioModems_t → M Sys unit := SetModem_fuel 2.
Definition RadioSetPublicNetwork : bool → M Sys unit := SetPublicNetwork_with (SetModem_fuel 2).

Definition RadioSetChannel (freq : Z) : M Sys unit := SUBGRF_SetRfFrequency freq.

Definition RadioRandom : M Sys Z :=
  SUBGRF_SetDioIrqParams IRQ_RADIO_NONE IRQ_RADIO_NONE IRQ_RADIO_NONE IRQ_RADIO_NONE;;
  SUBGRF_GetRandom.

Definition RadioCheckRfFrequency (frequency : Z) : bool := true.

Definition RadioRssi (modem : RadioModems_t) : M Sys Z := SUBGRF_GetRssiInst.

Definition RadioSetMaxPayloadLength (modem : RadioModems_t) (max : Z) : M Sys unit :=
  if decide (modem = MODEM_LORA) then
    update (λ s, s <| MaxPayloadLength := max |>);;
    upd_SubgRf (λ r, r <| PacketParams ; pp_LoRa ; lp_PayloadLength := max |>);;
    r ← gets SubgRf; SUBGRF_SetPacketParams (PacketParams r)
  else
    r ← gets SubgRf;
    when (gp_HeaderType (pp_Gfsk (PacketParams r)) =? RADIO_PACKET_VARIABLE_LENGTH)
      (update (λ s, s <| MaxPayloadLength := max |>);;
       upd_SubgRf (λ r, r <| PacketParams ; pp_Gfsk ; gp_PayloadLength := max |>);;
       r ← gets SubgRf; SUBGRF_SetPacketParams (PacketParams r)).

(** ** Reception and transmission parameters *)

(** "at least 12 symbols when using SF5 or SF6" *)
Definition lora_preamble (SpreadingFactor preambleLen : Z) : Z :=
  if (SpreadingFactor =? LORA_SF5) || (SpreadingFactor =? LORA_SF6)
  then (if preambleLen <? 12 then 12 else preambleLen) else preambleLen.

(** The modulation and packet parameters that [RadioSetRxConfig] and
    [RadioSetTxConfig] store, in the same way, for a LoRa modem. *)
Definition store_lora_params (bandwidth datarate coderate preambleLen : Z)
    (fixLen crcOn iqInverted : bool) : M Sys unit :=
  bw ← defined "index outside Bandwidths" (Bandwidths !! Z.to_nat bandwidth);
  maxLen ← gets MaxPayloadLength;
  upd_SubgRf (λ r, r
    <| ModulationParams ; mp_PacketType := PACKET_TYPE_LORA |>
    <| ModulationParams ; mp_LoRa :=
         mkLoRaModulation datarate bw coderate
           (if low_datarate bandwidth datarate then 0x01 else 0x00) |>
    <| PacketParams ; pp_PacketType := PACKET_TYPE_LORA |>
    <| PacketParams ; pp_LoRa :=
         mkLoRaPacket (lora_preamble datarate preambleLen) (b2z fixLen) maxLen (b2z crcOn)
           (b2z iqInverted) |>).

(** [RadioStandby( ); RadioSetModem( m ); SUBGRF_SetModulationParams( ... );
    SUBGRF_SetPacketParams( ... );] *)
Definition apply_params (modem : RadioModems_t) : M Sys unit :=
  RadioStandby;;
  RadioSetModem modem;;
  r ← gets SubgRf;
  SUBGRF_SetModulationParams (ModulationParams r);;
  SUBGRF_SetPacketParams (PacketParams r).

(** The inverted IQ workaround. *)
Definition set_iq_polarity : M Sys unit :=
  r ← gets SubgRf;
  if lp_InvertIQ (pp_LoRa (PacketParams r)) =? LORA_IQ_INVERTED
  then clear_register_bit SUBGHZ_LIQPOLR 2 else set_register_bit SUBGHZ_LIQPOLR 2.

Definition RadioSetRxConfig (modem : RadioModems_t)
    (bandwidth datarate coderate bandwidthAfc preambleLen symbTimeout : Z) (fixLen : bool)
    (payloadLen : Z) (crcOn freqHopOn : bool) (hopPeriod : Z)
    (iqInverted rxContinuous : bool) : M Sys unit :=
  if negb (bool_decide (modem = MODEM_LORA)) then
    exit_with "Lora is the only modem type supported by lora-simulator"
  else
    upd_SubgRf (λ r, r <| RxContinuous := rxContinuous |>);;
    RFW_DeInit;;
    let symbTimeout := if rxContinuous then 0 else symbTimeout in
    update (λ s, s <| MaxPayloadLength := if fixLen then payloadLen else 0xFF |>);;
    SUBGRF_SetStopRxTimerOnPreambleDetect false;;
    store_lora_params bandwidth datarate coderate preambleLen fixLen crcOn iqInverted;;
    apply_params MODEM_LORA;;
    SUBGRF_SetLoRaSymbNumTimeout (u8 symbTimeout);;
    agc ← SUBGRF_ReadRegister SUBGHZ_AGCCFG;
    SUBGRF_WriteRegister SUBGHZ_AGCCFG (Z.land agc 0x1);;
    set_iq_polarity;;
    upd_SubgRf (λ r, r <| RxTimeout := 0xFFFF |>).

Definition RadioSetTxConfig (modem : RadioModems_t)
    (power fdev bandwidth datarate coderate preambleLen : Z) (fixLen crcOn freqHopOn : bool)
    (hopPeriod : Z) (iqInverted : bool) (timeout : Z) : M Sys unit :=
  RFW_DeInit;;
  match modem with
  | MODEM_FSK => exit_with "FSK is not supported by lora-simulator"
  | MODEM_LORA =>
      store_lora_params bandwidth datarate coderate preambleLen fixLen crcOn iqInverted;;
      apply_params MODEM_LORA
  | MODEM_SIGFOX_TX =>
      if RADIO_SIGFOX_ENABLE then exit_with "FSK is not supported by lora-simulator" else skip
  | MODEM_MSK | MODEM_BPSK | MODEM_SIGFOX_RX => skip
  end;;
  pa ← SUBGRF_SetRfTxPower power;
  upd_SubgRf (λ r, r <| AntSwitchPaSelect := pa |>);;
  SUBGRF_WriteRegister REG_DRV_CTRL (Z.shiftl 0x7 1);;
  RFW_SetAntSwitch pa;;
  upd_SubgRf (λ r, r <| TxTimeout := timeout |>).

(** ** Transmission *)

(** The modulation quality workaround for a 500 kHz bandwidth. *)
Definition set_tx_modulation_quality (bw500 : bool) : M Sys unit :=
  if bw500 then clear_register_bit SUBGHZ_SDCFG0R 2 else set_register_bit SUBGHZ_SDCFG0R 2.

(** The packet parameters as stored, then [size] bytes of [buffer]. *)
Definition send_stored (buffer : list Z) (size timeout : Z) : M Sys unit :=
  r ← gets SubgRf;
  SUBGRF_SetPacketParams (PacketParams r);;
  payload ← defined "read outside the payload buffer" (buf_read buffer 0 size);
  SUBGRF_SendPayload payload timeout.

Definition send_lora (buffer : list Z) (size : Z) : M Sys (radio_status_t * list Z) :=
  upd_SubgRf (λ r, r <| PacketParams ; pp_LoRa ; lp_PayloadLength := size |>);;
  send_stored buffer size 0;;
  mret (RADIO_STATUS_OK, buffer).

Definition send_fsk (buffer : list Z) (size : Z) : M Sys (radio_status_t * list Z) :=
  init ← RFW_Is_Init;
  if init =? 1 then
    res ← RFW_TransmitInit buffer size;
    let '(st, buffer, outsize) := res in
    if st =? 0 then
      upd_SubgRf (λ r, r <| PacketParams ; pp_Gfsk ; gp_PayloadLength := outsize |>);;
      send_stored buffer outsize 0;;
      mret (RADIO_STATUS_OK, buffer)
    else mret (RADIO_STATUS_ERROR, buffer)
  else
    upd_SubgRf (λ r, r <| PacketParams ; pp_Gfsk ; gp_PayloadLength := size |>);;
    send_stored buffer size 0;;
    mret (RADIO_STATUS_OK, buffer).

Definition send_bpsk (buffer : list Z) (size : Z) : M Sys (radio_status_t * list Z) :=
  upd_SubgRf (λ r, r <| PacketParams ; pp_PacketType := PACKET_TYPE_BPSK |>
                     <| PacketParams ; pp_Bpsk ; bp_PayloadLength := size |>);;
  send_stored buffer size 0;;
  mret (RADIO_STATUS_OK, buffer).

Definition send_sigfox (buffer : list Z) (size : Z) : M Sys (radio_status_t * list Z) :=
  buffer ← integrate_payload buffer size;
  upd_SubgRf (λ r, r <| PacketParams ; pp_PacketType := PACKET_TYPE_BPSK |>
                     <| PacketParams ; pp_Bpsk ; bp_PayloadLength := u8 (size + 1) |>);;
  r ← gets SubgRf;
  SUBGRF_SetPacketParams (PacketParams r);;
  RadioWrite SUBGHZ_RAM_RAMPUPL 0;;
  RadioWrite SUBGHZ_RAM_RAMPUPH 0;;
  (if bm_BitRate (mp_Bpsk (ModulationParams r)) =? 100 then
     RadioWrite SUBGHZ_RAM_RAMPDNL 0x70;; RadioWrite SUBGHZ_RAM_RAMPDNH 0x1D
   else
     RadioWrite SUBGHZ_RAM_RAMPDNL 0xE1;; RadioWrite SUBGHZ_RAM_RAMPDNH 0x04);;
  let bitNum := u16 (size * 8 + 2) in
  RadioWrite SUBGHZ_RAM_FRAMELIMH (byte_at 8 bitNum);;
  RadioWrite SUBGHZ_RAM_FRAMELIML (byte_at 0 bitNum);;
  rb ← gets RadioBuffer;
  payload ← defined "read outside RadioBuffer" (buf_read rb 0 (u8 (size + 1)));
  SUBGRF_SendPayload payload 0xFFFFFF;;
  mret (RADIO_STATUS_OK, buffer).

Definition RadioSend (buffer : list Z) (size : Z) : M Sys (radio_status_t * list Z) :=
  SUBGRF_SetDioIrqParams (Z.lor IRQ_TX_DONE IRQ_RX_TX_TIMEOUT)
    (Z.lor IRQ_TX_DONE IRQ_RX_TX_TIMEOUT) IRQ_RADIO_NONE IRQ_RADIO_NONE;;
  emit (EvProbe DBG_GPIO_RADIO_TX SET);;
  r ← gets SubgRf;
  SUBGRF_SetSwitch (AntSwitchPaSelect r) RFSWITCH_TX;;
  set_tx_modulation_quality
    (bool_decide (Modem r = MODEM_LORA)
     && (lm_Bandwidth (mp_LoRa (ModulationParams r)) =? LORA_BW_500));;
  res ←
    match Modem r with
    | MODEM_LORA => send_lora buffer size
    | MODEM_MSK | MODEM_FSK => send_fsk buffer size
    | MODEM_BPSK => send_bpsk buffer size
    | MODEM_SIGFOX_TX =>
        if RADIO_SIGFOX_ENABLE then send_sigfox buffer size else mret (RADIO_STATUS_OK, buffer)
    | MODEM_SIGFOX_RX => mret (RADIO_STATUS_OK, buffer)
    end;
  match fst res with
  | RADIO_STATUS_OK =>
      r ← gets SubgRf;
      emit (EvTimerSetValue TxTimeoutTimer (TxTimeout r));;
      emit (EvTimerStart TxTimeoutTimer);;
      mret res
  | _ => mret res
  end.

Definition RadioSetTxContinuousWave (freq power time : Z) : M Sys unit :=
  let timeout := u32 (time * 1000) in
  SUBGRF_SetRfFrequency freq;;
  antswitchpow ← SUBGRF_SetRfTxPower power;
  SUBGRF_WriteRegister REG_DRV_CTRL (Z.shiftl 0x7 1);;
  SUBGRF_SetSwitch antswitchpow RFSWITCH_TX;;
  SUBGRF_SetTxContinuousWave;;
  emit (EvTimerSetValue TxTimeoutTimer timeout);;
  emit (EvTimerStart TxTimeoutTimer).

Definition RadioTxPrbs : M Sys unit :=
  r ← gets SubgRf;
  SUBGRF_SetSwitch (AntSwitchPaSelect r) RFSWITCH_TX;;
  RadioWrite SUBGHZ_GPKTCTL1AR 0x2d;;
  SUBGRF_SetTxInfinitePreamble;;
  SUBGRF_SetTx 0x0fffff.

Definition RadioTxCw (power : Z) : M Sys unit :=
  paselect ← SUBGRF_SetRfTxPower power;
  SUBGRF_WriteRegister REG_DRV_CTRL (Z.shiftl 0x7 1);;
  SUBGRF_SetSwitch paselect RFSWITCH_TX;;
  SUBGRF_SetTxContinuousWave.

(** ** Reception *)

(** The common part of [RadioRx] and [RadioRxBoosted]. *)
Definition start_rx (set_rx : Z → M Sys unit) (timeout : Z) : M Sys unit :=
  init ← RFW_Is_Init;
  (if init =? 1 then _ ← RFW_ReceiveInit; skip
   else SUBGRF_SetDioIrqParams RX_IRQS RX_IRQS IRQ_RADIO_NONE IRQ_RADIO_NONE);;
  when (negb (timeout =? 0))
    (emit (EvTimerSetValue RxTimeoutTimer timeout);; emit (EvTimerStart RxTimeoutTimer));;
  upd_SubgRf (λ r, r <| RxDcPreambleDetectTimeout := 0 |>);;
  emit (EvProbe DBG_GPIO_RADIO_RX SET);;
  r ← gets SubgRf;
  SUBGRF_SetSwitch (AntSwitchPaSelect r) RFSWITCH_RX;;
  if RxContinuous r then set_rx 0xFFFFFF else set_rx (u32 (Z.shiftl (RxTimeout r) 6)).

Definition RadioRx (timeout : Z) : M Sys unit := start_rx SUBGRF_SetRx timeout.
Definition RadioRxBoosted (timeout : Z) : M Sys unit := start_rx SUBGRF_SetRxBoosted timeout.

Definition RadioSetRxDutyCycle (rxTime sleepTime : Z) : M Sys unit :=
  upd_SubgRf (λ r, r <| RxDcPreambleDetectTimeout := u32 (2 * rxTime + sleepTime) |>);;
  SUBGRF_SetDioIrqParams IRQ_RADIO_ALL IRQ_RADIO_ALL IRQ_RADIO_NONE IRQ_RADIO_NONE;;
  r ← gets SubgRf;
  SUBGRF_SetSwitch (AntSwitchPaSelect r) RFSWITCH_RX;;
  SUBGRF_SetRxDutyCycle rxTime sleepTime.

Definition RadioStartCad : M Sys unit :=
  r ← gets SubgRf;
  SUBGRF_SetSwitch (AntSwitchPaSelect r) RFSWITCH_RX;;
  SUBGRF_SetDioIrqParams (Z.lor IRQ_CAD_CLEAR IRQ_CAD_DETECTED)
    (Z.lor IRQ_CAD_CLEAR IRQ_CAD_DETECTED) IRQ_RADIO_NONE IRQ_RADIO_NONE;;
  SUBGRF_SetCad.

(** The carrier sense loop, [while( TimerGetElapsedTime( t ) < max )]. *)
Fixpoint carrier_sense (fuel : nat) (start max rssiThresh : Z) : M Sys bool :=
  match fuel with
  | O => spin
  | S fuel =>
      elapsed ← TimerGetElapsedTime start;
      if elapsed <? max then
        rssi ← RadioRssi MODEM_FSK;
        if rssiThresh <? rssi then mret false else carrier_sense fuel start max rssiThresh
      else mret true
  end.

Definition RadioIsChannelFree (fuel : nat) (freq rxBandwidth rssiThresh maxCarrierSenseTime : Z)
  : M Sys bool :=
  RadioStandby;;
  RadioSetModem MODEM_FSK;;
  RadioSetChannel freq;;
  RadioSetRxConfig MODEM_FSK rxBandwidth 600 0 rxBandwidth 3 0 false 0 false false 0 false true;;
  RadioRx 0;;
  emit (EvDelay RadioGetWakeupTime);;
  carrierSenseTime ← TimerGetCurrentTime;
  status ← carrier_sense fuel carrierSenseTime maxCarrierSenseTime rssiThresh;
  RadioStandby;;
  mret status.

(** ** Timeouts and interrupts *)

Definition RadioOnTxTimeoutProcess : M Sys unit :=
  emit (EvProbe DBG_GPIO_RADIO_TX RST);; call_radio_event ev_TxTimeout App_TxTimeout.
Definition RadioOnRxTimeoutProcess : M Sys unit :=
  emit (EvProbe DBG_GPIO_RADIO_RX RST);; call_radio_event ev_RxTimeout App_RxTimeout.
Definition RadioOnTxTimeoutIrq : M Sys unit := RadioOnTxTimeoutProcess.
Definition RadioOnRxTimeoutIrq : M Sys unit := RadioOnRxTimeoutProcess.

Definition irq_tx_done : M Sys unit :=
  emit (EvProbe DBG_GPIO_RADIO_TX RST);;
  emit (EvTimerStop TxTimeoutTimer);;
  SUBGRF_SetStandby STDBY_RC;;
  long ← RFW_Is_LongPacketModeEnabled;
  when (long =? 1) RFW_DeInit_TxLongPacket;;
  call_radio_event ev_TxDone App_TxDone.

(** The report of a received packet. *)
Definition report_rx (size : Z) : M Sys unit :=
  events ← gets RadioEvents;
  match events with
  | Some ev =>
      when (ev_RxDone ev)
        (s ← get_state;
         let payload := take (Z.to_nat size) (RadioBuffer s) in
         let st := PacketStatus (SubgRf s) in
         match ps_packetType st with
         | PACKET_TYPE_LORA =>
             call_app (App_RxDone payload size (ls_RssiPkt (ps_LoRa st)) (ls_SnrPkt (ps_LoRa st)))
         | _ =>
             cfo ← SUBGRF_GetCFO (gm_BitRate (mp_Gfsk (ModulationParams (SubgRf s))));
             call_app (App_RxDone payload size (gs_RssiAvg (ps_Gfsk st)) (cfo_khz cfo))
         end)
  | None => skip
  end.

Definition irq_rx_done : M Sys unit :=
  emit (EvProbe DBG_GPIO_RADIO_RX RST);;
  emit (EvTimerStop RxTimeoutTimer);;
  r ← gets SubgRf;
  when (negb (RxContinuous r))
    (SUBGRF_SetStandby STDBY_RC;;
     SUBGRF_WriteRegister SUBGHZ_RTCCTLR 0x00;;
     set_register_bit SUBGHZ_EVENTMASKR 1);;
  got ← SUBGRF_GetPayload 255;
  let '(_, size, bytes) := got in
  write_radio bytes;;
  r ← gets SubgRf;
  status ← SUBGRF_GetPacketStatus (PacketStatus r);
  upd_SubgRf (λ r, r <| PacketStatus := status |>);;
  report_rx size.

Definition irq_cad (detected : bool) : M Sys unit :=
  SUBGRF_SetStandby STDBY_RC;;
  call_radio_event ev_CadDone (App_CadDone detected).

Definition irq_rx_tx_timeout : M Sys unit :=
  mode ← SUBGRF_GetOperatingMode;
  match mode with
  | MODE_TX =>
      emit (EvProbe DBG_GPIO_RADIO_TX RST);;
      emit (EvTimerStop TxTimeoutTimer);;
      SUBGRF_SetStandby STDBY_RC;;
      call_radio_event ev_TxTimeout App_TxTimeout
  | MODE_RX =>
      emit (EvProbe DBG_GPIO_RADIO_RX RST);;
      emit (EvTimerStop RxTimeoutTimer);;
      SUBGRF_SetStandby STDBY_RC;;
      call_radio_event ev_RxTimeout App_RxTimeout
  | _ => skip
  end.

Definition irq_preamble_detected : M Sys unit :=
  r ← gets SubgRf;
  let t := RxDcPreambleDetectTimeout r in
  when (negb (t =? 0))
    (RadioWrite SUBGHZ_RTCPRDR2 (byte_at 16 t);;
     RadioWrite SUBGHZ_RTCPRDR1 (byte_at 8 t);;
     RadioWrite SUBGHZ_RTCPRDR0 (byte_at 0 t);;
     ctl ← RadioRead SUBGHZ_RTCCTLR;
     RadioWrite SUBGHZ_RTCCTLR (Z.lor ctl 0x1);;
     upd_SubgRf (λ r, r <| RxDcPreambleDetectTimeout := 0 |>);;
     SUBGRF_SetDioIrqParams RX_IRQS RX_IRQS IRQ_RADIO_NONE IRQ_RADIO_NONE).

Definition irq_syncword_valid (fuel : nat) : M Sys unit :=
  init ← RFW_Is_Init;
  when (init =? 1) (RFW_ReceivePayload fuel).

Definition irq_header_error : M Sys unit :=
  emit (EvTimerStop RxTimeoutTimer);;
  r ← gets SubgRf;
  when (negb (RxContinuous r)) (SUBGRF_SetStandby STDBY_RC);;
  call_radio_event ev_RxTimeout App_RxTimeout.

Definition irq_crc_error : M Sys unit :=
  r ← gets SubgRf;
  when (negb (RxContinuous r)) (SUBGRF_SetStandby STDBY_RC);;
  call_radio_event ev_RxError App_RxError.

Definition RadioIrqProcess (fuel : nat) : M Sys unit :=
  r ← gets SubgRf;
  let irq := RadioIrq r in
  if irq =? IRQ_TX_DONE then irq_tx_done
  else if irq =? IRQ_RX_DONE then irq_rx_done
  else if irq =? IRQ_CAD_CLEAR then irq_cad false
  else if irq =? IRQ_CAD_DETECTED then irq_cad true
  else if irq =? IRQ_RX_TX_TIMEOUT then irq_rx_tx_timeout
  else if irq =? IRQ_PREAMBLE_DETECTED then irq_preamble_detected
  else if irq =? IRQ_SYNCWORD_VALID then irq_syncword_valid fuel
  else if irq =? IRQ_HEADER_VALID then skip
  else if irq =? IRQ_HEADER_ERROR then irq_header_error
  else if irq =? IRQ_CRC_ERROR then irq_crc_error
  else skip.

Definition RadioOnDioIrq (fuel : nat) (radioIrq : Z) : M Sys unit :=
  upd_SubgRf (λ r, r <| RadioIrq := radioIrq |>);;
  RadioIrqProcess fuel.

(** The HAL callbacks of radio_driver.c call the registered handler. *)
Definition dio_irq (fuel : nat) (radioIrq : Z) : M Sys unit :=
  set ← gets RadioOnDioIrqCb;
  if set : bool then RadioOnDioIrq fuel radioIrq else undefined "null RadioOnDioIrqCb".

Definition HAL_SUBGHZ_TxCpltCallback (fuel : nat) := dio_irq fuel IRQ_TX_DONE.
Definition HAL_SUBGHZ_RxCpltCallback (fuel : nat) := dio_irq fuel IRQ_RX_DONE.
Definition HAL_SUBGHZ_CRCErrorCallback (fuel : nat) := dio_irq fuel IRQ_CRC_ERROR.
Definition HAL_SUBGHZ_CADStatusCallback (fuel : nat) (cadstatus : HAL_SUBGHZ_CadStatusTypeDef) :=
  match cadstatus with
  | HAL_SUBGHZ_CAD_CLEAR => dio_irq fuel IRQ_CAD_CLEAR
  | HAL_SUBGHZ_CAD_DETECTED => dio_irq fuel IRQ_CAD_DETECTED
  end.
Definition HAL_SUBGHZ_RxTxTimeoutCallback (fuel : nat) := dio_irq fuel IRQ_RX_TX_TIMEOUT.
Definition HAL_SUBGHZ_HeaderErrorCallback (fuel : nat) := dio_irq fuel IRQ_HEADER_ERROR.
Definition HAL_SUBGHZ_PreambleDetectedCallback (fuel : nat) := dio_irq fuel IRQ_PREAMBLE_DETECTED.
Definition HAL_SUBGHZ_SyncWordValidCallback (fuel : nat) := dio_irq fuel IRQ_SYNCWORD_VALID.
Definition HAL_SUBGHZ_HeaderValidCallback (fuel : nat) := dio_irq fuel IRQ_HEADER_VALID.
End Radio.
