(* ===== verification/RadioGeneric.v ===== *)
(** * radio.c: the generic configuration functions.

    [RadioSetRxGenericConfig] and [RadioSetTxGenericConfig], one definition per
    case of their [switch].  A case returns the status; -1 leaves the function
    at once.  Reading a member of the configuration union that is not active
    and not laid out like the active one is undefined behaviour. *)

From S2P Require Import Prelude Effects RadioTypes State Mem RadioDriver RadioFw TimeOnAir Radio.

Section Generic.
Context {cfg : Config} {env : Env}.

(** [RADIO_MEMCPY8( syncword, config->SyncWord, length )] over eight zeros. *)
Definition copy_syncword (SyncWord : list Z) (length : Z) : M Sys (list Z) :=
  src ← defined "read outside the sync word" (buf_read SyncWord 0 length);
  defined "write outside syncword" (buf_write (replicate 8 0) 0 src).

(** "Supports only RADIO_FSK_CRC_2_BYTES_IBM or RADIO_FSK_CRC_2_BYTES_CCIT" *)
Definition rfw_crc_unsupported (CrcLength : Z) : bool :=
  negb (CrcLength =? RADIO_FSK_CRC_2_BYTES_IBM) && negb (CrcLength =? RADIO_FSK_CRC_2_BYTES_CCIT)
  && negb (CrcLength =? RADIO_FSK_CRC_OFF).

(** The CRC, whitening and header choices, the same in the FSK reception, the
    FSK transmission and the MSK case: by the firmware for the IBM whitening
    or a two byte length, by the radio otherwise. *)
Definition packet_by_rfw_or_radio (config : ConfigGeneric_t) (timer : TimerEvent_t)
    (Whitening HeaderType CrcLength : Z) : M Sys Z :=
  if (Whitening =? RADIO_FSK_DC_IBM_WHITENING) || (HeaderType =? RADIO_FSK_PACKET_2BYTES_LENGTH)
  then
    if rfw_crc_unsupported CrcLength then mret (-1)
    else
      events ← gets RadioEvents;
      st ← RFW_Init config events timer;
      if negb (st =? 0) then mret (-1)
      else
        upd_SubgRf (λ r, r
          <| PacketParams ; pp_Gfsk ; gp_DcFree := RADIO_FSK_DC_FREE_OFF |>
          <| PacketParams ; pp_Gfsk ; gp_CrcLength := RADIO_CRC_OFF |>
          <| PacketParams ; pp_Gfsk ; gp_HeaderType := RADIO_PACKET_FIXED_LENGTH |>);;
        mret 0
  else
    upd_SubgRf (λ r, r
      <| PacketParams ; pp_Gfsk ; gp_CrcLength := CrcLength |>
      <| PacketParams ; pp_Gfsk ; gp_DcFree := Whitening |>
      <| PacketParams ; pp_Gfsk ; gp_HeaderType := HeaderType |>);;
    mret 0.

(** The end of the three cases. *)
Definition apply_fsk_params (modem : RadioModems_t) (syncword : list Z)
    (whiteSeed CrcPolynomial : Z) : M Sys unit :=
  apply_params modem;;
  SUBGRF_SetSyncWord syncword;;
  SUBGRF_SetWhiteningSeed whiteSeed;;
  SUBGRF_SetCrcPolynomial CrcPolynomial.

(** [switch( config->lora.LowDatarateOptimize )]: another value changes nothing. *)
Definition set_low_datarate (opt SpreadingFactor : Z) : M Sys unit :=
  let set v := upd_SubgRf (λ r, r <| ModulationParams ; mp_LoRa ; lm_LowDatarateOptimize := v |>) in
  if opt =? RADIO_LORA_LOWDR_OPT_OFF then set 0
  else if opt =? RADIO_LORA_LOWDR_OPT_ON then set 1
  else if opt =? RADIO_LORA_LOWDR_OPT_AUTO then
    set (if (SpreadingFactor =? RADIO_LORA_SF11) || (SpreadingFactor =? RADIO_LORA_SF12)
         then 1 else 0)
  else skip.

Definition store_lora_modulation (SpreadingFactor Bandwidth Coderate opt : Z) : M Sys unit :=
  upd_SubgRf (λ r, r
    <| ModulationParams ; mp_PacketType := PACKET_TYPE_LORA |>
    <| ModulationParams ; mp_LoRa ; lm_SpreadingFactor := SpreadingFactor |>
    <| ModulationParams ; mp_LoRa ; lm_Bandwidth := Bandwidth |>
    <| ModulationParams ; mp_LoRa ; lm_CodingRate := Coderate |>);;
  set_low_datarate opt SpreadingFactor.

(** ** Reception *)

Definition rx_generic_fsk (config : RxConfigGeneric_t) (symbTimeout : Z) : M Sys Z :=
  let c := rx_fsk config in
  if (rxf_BitRate c =? 0) || (rxf_PreambleLen c =? 0) then mret (-1)
  else if 8 <? rxf_SyncWordLength c then mret (-1)
  else
    syncword ← copy_syncword (rxf_SyncWord c) (rxf_SyncWordLength c);
    SUBGRF_SetStopRxTimerOnPreambleDetect (negb (rxf_StopTimerOnPreambleDetect c =? 0));;
    upd_SubgRf (λ r, r
      <| ModulationParams ; mp_PacketType := PACKET_TYPE_GFSK |>
      <| ModulationParams ; mp_Gfsk ; gm_BitRate := rxf_BitRate c |>
      <| ModulationParams ; mp_Gfsk ; gm_ModulationShaping := rxf_ModulationShaping c |>);;
    bw ← SUBGRF_GetFskBandwidthRegValue (rxf_Bandwidth c);
    upd_SubgRf (λ r, r
      <| ModulationParams ; mp_Gfsk ; gm_Bandwidth := bw |>
      <| PacketParams ; pp_PacketType := PACKET_TYPE_GFSK |>
      <| PacketParams ; pp_Gfsk ; gp_PreambleLength := u16 (Z.shiftl (rxf_PreambleLen c) 3) |>
      <| PacketParams ; pp_Gfsk ; gp_PreambleMinDetect := rxf_PreambleMinDetect c |>
      <| PacketParams ; pp_Gfsk ; gp_SyncWordLength := u8 (Z.shiftl (rxf_SyncWordLength c) 3) |>
      <| PacketParams ; pp_Gfsk ; gp_AddrComp := rxf_AddrComp c |>
      <| PacketParams ; pp_Gfsk ; gp_PayloadLength :=
           if rxf_LengthMode c =? RADIO_FSK_PACKET_FIXED_LENGTH
           then u8 (rxf_MaxPayloadLength c) else 0xFF |>);;
    st ← packet_by_rfw_or_radio (CONFIG_RX_of config) RxTimeoutTimer
           (rxf_Whitening c) (rxf_LengthMode c) (rxf_CrcLength c);
    if negb (st =? 0) then mret (-1)
    else
      apply_fsk_params MODEM_FSK syncword (rxf_whiteSeed c) (rxf_CrcPolynomial c);;
      upd_SubgRf (λ r, r <| RxTimeout := u32 (symbTimeout * 1000 * 8) / rxf_BitRate c |>);;
      mret 0.

(** The function declares its own [MaxPayloadLength]: the global is untouched. *)
Definition rx_generic_lora (config : RxConfigGeneric_t) (symbTimeout : Z) : M Sys Z :=
  let c := rx_lora config in
  if rxl_PreambleLen c =? 0 then mret (-1)
  else
    let maxLen := if rxl_LengthMode c =? RADIO_LORA_PACKET_FIXED_LENGTH
                  then rxl_MaxPayloadLength c else 0xFF in
    SUBGRF_SetStopRxTimerOnPreambleDetect (negb (rxl_StopTimerOnPreambleDetect c =? 0));;
    SUBGRF_SetLoRaSymbNumTimeout (u8 symbTimeout);;
    store_lora_modulation (rxl_SpreadingFactor c) (rxl_Bandwidth c) (rxl_Coderate c)
      (rxl_LowDatarateOptimize c);;
    upd_SubgRf (λ r, r
      <| PacketParams ; pp_PacketType := PACKET_TYPE_LORA |>
      <| PacketParams ; pp_LoRa :=
           mkLoRaPacket (rxl_PreambleLen c) (rxl_LengthMode c) maxLen (rxl_CrcMode c)
             (rxl_IqInverted c) |>);;
    apply_params MODEM_LORA;;
    set_iq_polarity;;
    upd_SubgRf (λ r, r <| RxTimeout := 0xFFFF |>);;
    mret 0.

Definition RadioSetRxGenericConfig (modem : GenericModems_t) (config : RxConfigGeneric_t)
    (rxContinuous symbTimeout : Z) : M Sys Z :=
  if negb RADIO_GENERIC_CONFIG_ENABLE then mret (-1)
  else
    RFW_DeInit;;
    let symbTimeout := if rxContinuous =? 0 then symbTimeout else 0 in
    upd_SubgRf (λ r, r <| RxContinuous := negb (rxContinuous =? 0) |>);;
    match modem with
    | GENERIC_FSK => rx_generic_fsk config symbTimeout
    | GENERIC_LORA => rx_generic_lora config symbTimeout
    | GENERIC_BPSK | GENERIC_MSK => mret 0
    end.

(** ** Transmission *)

(** [config->fsk], [config->lora], [config->bpsk], [config->msk] *)
Definition tx_member {A} (o : option A) : M Sys A := defined "inactive member of TxConfigGeneric_t" o.

Definition tx_generic_msk (config : TxConfigGeneric_t) : M Sys Z :=
  c ← tx_member (tx_as_fsk config);
  if 8 <? txm_SyncWordLength c then mret (-1)
  else
    syncword ← copy_syncword (txm_SyncWord c) (txm_SyncWordLength c);
    if txm_BitRate c =? 0 then mret (-1)
    else
      let msk := txm_BitRate c <=? 10000 in
      let radio_modem := if msk then MODEM_MSK else MODEM_FSK in
      let ptype := if msk then PACKET_TYPE_GMSK else PACKET_TYPE_GFSK in
      upd_SubgRf (λ r, r
        <| PacketParams ; pp_PacketType := ptype |>
        <| ModulationParams ; mp_PacketType := ptype |>
        <| ModulationParams ; mp_Gfsk ; gm_BitRate := txm_BitRate c |>
        <| ModulationParams ; mp_Gfsk ; gm_ModulationShaping := txm_ModulationShaping c |>);;
      when (negb msk) (upd_SubgRf (λ r, r
        <| ModulationParams ; mp_Gfsk ; gm_Fdev := txm_BitRate c / 4 |>));;
      upd_SubgRf (λ r, r
        <| PacketParams ; pp_Gfsk ; gp_PreambleLength := u16 (Z.shiftl (txm_PreambleLen c) 3) |>
        <| PacketParams ; pp_Gfsk ; gp_PreambleMinDetect := RADIO_PREAMBLE_DETECTOR_08_BITS |>
        <| PacketParams ; pp_Gfsk ; gp_SyncWordLength := u8 (Z.shiftl (txm_SyncWordLength c) 3) |>
        <| PacketParams ; pp_Gfsk ; gp_AddrComp := RADIO_ADDRESSCOMP_FILT_OFF |>);;
      st ← packet_by_rfw_or_radio (CONFIG_TX_of config) TxTimeoutTimer
             (txm_Whitening c) (txm_HeaderType c) (txm_CrcLength c);
      if negb (st =? 0) then mret (-1)
      else
        apply_fsk_params radio_modem syncword (txm_whiteSeed c) (txm_CrcPolynomial c);;
        mret 0.

Definition tx_generic_fsk (config : TxConfigGeneric_t) : M Sys Z :=
  f ← tx_member (match config with tx_fsk f => Some f | _ => None end);
  let c := txf_msk f in
  if txm_BitRate c =? 0 then mret (-1)
  else if 8 <? txm_SyncWordLength c then mret (-1)
  else
    syncword ← copy_syncword (txm_SyncWord c) (txm_SyncWordLength c);
    upd_SubgRf (λ r, r
      <| ModulationParams ; mp_PacketType := PACKET_TYPE_GFSK |>
      <| ModulationParams ; mp_Gfsk ; gm_BitRate := txm_BitRate c |>
      <| ModulationParams ; mp_Gfsk ; gm_ModulationShaping := txm_ModulationShaping c |>
      <| ModulationParams ; mp_Gfsk ; gm_Fdev := txf_FrequencyDeviation f |>
      <| PacketParams ; pp_PacketType := PACKET_TYPE_GFSK |>
      <| PacketParams ; pp_Gfsk ; gp_PreambleLength := u16 (Z.shiftl (txm_PreambleLen c) 3) |>
      <| PacketParams ; pp_Gfsk ; gp_PreambleMinDetect := RADIO_PREAMBLE_DETECTOR_08_BITS |>
      <| PacketParams ; pp_Gfsk ; gp_SyncWordLength := u8 (Z.shiftl (txm_SyncWordLength c) 3) |>
      <| PacketParams ; pp_Gfsk ; gp_AddrComp := RADIO_ADDRESSCOMP_FILT_OFF |>);;
    st ← packet_by_rfw_or_radio (CONFIG_TX_of config) TxTimeoutTimer
           (txm_Whitening c) (txm_HeaderType c) (txm_CrcLength c);
    if negb (st =? 0) then mret (-1)
    else
      apply_fsk_params MODEM_FSK syncword (txm_whiteSeed c) (txm_CrcPolynomial c);;
      mret 0.

Definition tx_generic_lora (config : TxConfigGeneric_t) : M Sys Z :=
  c ← tx_member (match config with tx_lora c => Some c | _ => None end);
  store_lora_modulation (txl_SpreadingFactor c) (txl_Bandwidth c) (txl_Coderate c)
    (txl_LowDatarateOptimize c);;
  upd_SubgRf (λ r, r
    <| PacketParams ; pp_PacketType := PACKET_TYPE_LORA |>
    <| PacketParams ; pp_LoRa ; lp_PreambleLength := txl_PreambleLen c |>
    <| PacketParams ; pp_LoRa ; lp_HeaderType := txl_LengthMode c |>
    <| PacketParams ; pp_LoRa ; lp_CrcMode := txl_CrcMode c |>
    <| PacketParams ; pp_LoRa ; lp_InvertIQ := txl_IqInverted c |>);;
  apply_params MODEM_LORA;;
  r ← gets SubgRf;
  set_tx_modulation_quality (lm_Bandwidth (mp_LoRa (ModulationParams r)) =? LORA_BW_500);;
  mret 0.

Definition tx_generic_bpsk (config : TxConfigGeneric_t) : M Sys Z :=
  b ← tx_member (match config with
                 | tx_bpsk b => Some b
                 | _ => txm_BitRate <$> tx_as_fsk config
                 end);
  if (b =? 0) || (1000 <? b) then mret (-1)
  else
    RadioSetModem MODEM_BPSK;;
    upd_SubgRf (λ r, r
      <| ModulationParams ; mp_PacketType := PACKET_TYPE_BPSK |>
      <| ModulationParams ; mp_Bpsk := mkBpskModulation b MOD_SHAPING_DBPSK |>);;
    r ← gets SubgRf;
    SUBGRF_SetModulationParams (ModulationParams r);;
    mret 0.

Definition RadioSetTxGenericConfig (modem : GenericModems_t) (config : TxConfigGeneric_t)
    (power timeout : Z) : M Sys Z :=
  if negb RADIO_GENERIC_CONFIG_ENABLE then mret (-1)
  else
    RFW_DeInit;;
    st ← match modem with
         | GENERIC_MSK => tx_generic_msk config
         | GENERIC_FSK => tx_generic_fsk config
         | GENERIC_LORA => tx_generic_lora config
         | GENERIC_BPSK => tx_generic_bpsk config
         end;
    if negb (st =? 0) then mret (-1)
    else
      pa ← SUBGRF_SetRfTxPower power;
      upd_SubgRf (λ r, r <| AntSwitchPaSelect := pa |>);;
      RFW_SetAntSwitch pa;;
      upd_SubgRf (λ r, r <| TxTimeout := timeout |>);;
      mret 0.
End Generic.
