(* ===== verification/Sigfox.v ===== *)
(** * radio.c: the differential encoding of Sigfox payloads. *)

From S2P Require Import Prelude Effects RadioTypes State Mem RadioDriver RadioFw TimeOnAir Radio.

(** Bit [k] of a buffer, most significant bit of the first byte first. *)
Definition bit (l : list Z) (k : nat) : bool :=
  Z.testbit (nth_byte l (k / 8)) (Z.of_nat (7 - k mod 8)).

(** The parity of the first [k] bits. *)
Fixpoint parity (l : list Z) (k : nat) : bool :=
  match k with O => false | S k => xorb (parity l k) (bit l k) end.

(** ** Bits of bytes and of buffers *)

Lemma u8_testbit x i : 0 <= i < 8 → Z.testbit (u8 x) i = Z.testbit x i.
Proof. intros H. unfold u8. change 256 with (2 ^ 8). rewrite Z.mod_pow2_bits_low by lia. done. Qed.

Lemma current_bit l k :
  Z.land (Z.shiftr (nth_byte l (k / 8)) (Z.of_nat (7 - k mod 8))) 0x01 = b2z (bit l k).
Proof.
  change 0x01 with (Z.ones 1). rewrite Z.land_ones by lia. unfold bit.
  rewrite Z.testbit_odd, Zmod_odd. by destruct (Z.odd _).
Qed.

Lemma shifted_bit b r i :
  (r < 8)%nat → 0 <= i < 8 →
  Z.testbit (Z.shiftl (b2z b) (Z.of_nat (7 - r))) i = bool_decide (i = Z.of_nat (7 - r)) && b.
Proof.
  intros Hr Hi. rewrite Z.shiftl_spec by lia. destruct b; cbn [b2z]; [|by rewrite Z.testbit_0_l, andb_false_r].
  rewrite andb_true_r. case_bool_decide as Hd; [by rewrite Hd, Z.sub_diag|].
  destruct (decide (i < Z.of_nat (7 - r))); [by rewrite Z.testbit_neg_r by lia|].
  apply Z.bits_above_log2; cbn; lia.
Qed.

Lemma nth_byte_insert o j v i :
  (j < length o)%nat → nth_byte (<[j := v]> o) i = if decide (i = j) then v else nth_byte o i.
Proof.
  intros Hj. unfold nth_byte. case_decide as Hd.
  - by rewrite Hd, list_lookup_insert_eq.
  - by rewrite list_lookup_insert_ne.
Qed.

(** One bit is set in a buffer. *)
Lemma bit_insert o j r b k :
  (j < length o)%nat → (r < 8)%nat →
  bit (<[j := u8 (Z.lor (nth_byte o j) (Z.shiftl (b2z b) (Z.of_nat (7 - r))))]> o) k =
    bit o k || (bool_decide (k = 8 * j + r)%nat && b).
Proof.
  intros Hj Hr. pose proof (Nat.div_mod_eq k 8) as Hk. pose proof (Nat.mod_upper_bound k 8 ltac:(lia)) as Hm.
  unfold bit. rewrite nth_byte_insert by done. case_decide as Hd.
  - subst j. rewrite u8_testbit, Z.lor_spec, shifted_bit by lia. do 2 f_equal.
    apply bool_decide_ext. lia.
  - rewrite bool_decide_false by lia. by rewrite orb_false_r.
Qed.

Lemma bit_replace o j v k :
  (j < length o)%nat →
  bit (<[j := v]> o) k = if decide (k / 8 = j)%nat then Z.testbit v (Z.of_nat (7 - k mod 8)) else bit o k.
Proof.
  intros Hj. unfold bit. rewrite nth_byte_insert by done. by case_decide.
Qed.

Lemma bit_front l1 l2 k : (k < 8 * length l1)%nat → bit (l1 ++ l2) k = bit l1 k.
Proof.
  intros H. unfold bit, nth_byte. rewrite lookup_app_l; [done|]. apply Nat.Div0.div_lt_upper_bound; lia.
Qed.

Lemma bit_zeros n k : bit (replicate n 0) k = false.
Proof.
  unfold bit, nth_byte. destruct (replicate n 0 !! _) eqn:E; [|apply Z.testbit_0_l].
  apply lookup_replicate in E as [-> _]. apply Z.testbit_0_l.
Qed.

(** The encoding keeps the size of its buffers. *)
Lemma integrate_bits_length inb l : ∀ p out,
  length (snd (fold_left (integrate_bit inb) l (p, out))) = length out.
Proof.
  induction l as [|i l IH]; intros p out; [done|]. cbn [fold_left]. unfold integrate_bit at 2.
  rewrite IH. apply length_insert.
Qed.

Lemma payload_integration_length out inb size out' inb' :
  payload_integration out inb size = Some (out', inb') → length out' = length out.
Proof.
  unfold payload_integration. case_match eqn:E; [|done]. apply andb_true_iff in E as [_ E].
  apply Nat.leb_le in E.
  match goal with |- context [fold_left (integrate_bit ?i) ?l (0, ?o)] =>
    pose proof (integrate_bits_length i l 0 o) as Hl; destruct (fold_left _ _ _) as [p o'] end.
  intros [= <- _]. rewrite length_insert. cbn in Hl. rewrite Hl, length_app, length_replicate, length_drop. lia.
Qed.

(** The bytes of a buffer, inverted. *)
Definition inverted (n : nat) (l : list Z) : list Z := ((λ b, u8 (Z.lnot b)) <$> take n l) ++ drop n l.

Lemma inverted_bit n l k :
  (n <= length l)%nat → (k < 8 * n)%nat → bit (inverted n l) k = negb (bit l k).
Proof.
  intros Hn Hk. unfold inverted. rewrite bit_front by (rewrite length_fmap, length_take; lia).
  assert (k / 8 < n)%nat by (apply Nat.Div0.div_lt_upper_bound; lia).
  pose proof (Nat.mod_upper_bound k 8 ltac:(lia)) as Hm.
  unfold bit, nth_byte. rewrite list_lookup_fmap, lookup_take_lt by done.
  destruct (l !! (k / 8)%nat) as [b|] eqn:E; [|apply lookup_ge_None in E; lia].
  cbn [fmap option_fmap option_map from_option]. unfold id.
  rewrite u8_testbit, Z.lnot_spec by lia. done.
Qed.

(** ** The loop *)

(** [m] rounds of the loop: the parity so far, and the bits written. *)
Lemma integrate_rounds ib o m :
  (m / 8 < length o)%nat →
  ∃ o', fold_left (integrate_bit ib) (seq 0 m) (0, o) = (b2z (parity ib m), o') ∧
    length o' = length o ∧ drop (S (m / 8)) o' = drop (S (m / 8)) o ∧
    ∀ k, bit o' k = bit o k || (bool_decide (1 <= k <= m)%nat && parity ib k).
Proof.
  induction m as [|m IH]; intros Hm.
  - exists o. repeat split. intros k. rewrite bool_decide_false by lia. by rewrite orb_false_r.
  - assert (Hle : (m / 8 <= S m / 8)%nat) by (apply Nat.Div0.div_le_mono; lia).
    destruct IH as (o1 & E & Hl & Hd & Hb); [lia|].
    rewrite seq_S, fold_left_app, E. cbn [fold_left integrate_bit Nat.add].
    rewrite current_bit, Nat.add_1_r.
    assert (Hx : Z.lxor (b2z (parity ib m)) (b2z (bit ib m)) = b2z (parity ib (S m)))
      by (cbn [parity]; by destruct (parity ib m), (bit ib m)).
    rewrite Hx. eexists. split; [reflexivity|]. split; [by rewrite length_insert|]. split.
    { rewrite drop_insert_lt by lia. replace (S (S m / 8)) with (S (m / 8) + (S m / 8 - m / 8))%nat by lia.
      by rewrite <- !drop_drop, Hd. }
    intros k. rewrite bit_insert by (rewrite ?Hl; apply Nat.mod_upper_bound || idtac; lia).
    rewrite Hb, <- orb_assoc. f_equal. rewrite <- Nat.div_mod_eq.
    destruct (decide (k = S m)) as [->|Hk].
    + rewrite (bool_decide_false (1 <= S m <= m)%nat) by lia.
      by rewrite !bool_decide_true by lia.
    + rewrite (bool_decide_false (k = S m)) by done. rewrite orb_false_r. f_equal.
      apply bool_decide_ext. lia.
Qed.

(** The last byte: two copies of the last bit, its complement, five zeros. *)
Definition last_byte (p : bool) : Z :=
  Z.lor (Z.lor (Z.shiftl (b2z p) 7) (Z.shiftl (b2z p) 6))
        (Z.shiftl (Z.land (b2z (b2z p =? 0)) 0x01) 5).

Lemma last_byte_bit p r :
  (r < 8)%nat → Z.testbit (last_byte p) (Z.of_nat (7 - r)) =
    match r with 0%nat | 1%nat => p | 2%nat => negb p | _ => false end.
Proof. intros Hr. do 8 (destruct r as [|r]; [by destruct p|]). lia. Qed.

(** C26: [payload_integration] is the differential encoding of the complement of
    the payload.  When both buffers are large enough, the payload is inverted in
    place; the first bit of the output is 0, each of the following ones differs
    from the one before exactly when the bit of the payload is 0, so that the
    payload can be decoded; the last bit is repeated and followed by its
    complement and zeros; the rest of the output buffer is kept.  A payload of
    255 bytes does not fit the 255 bytes of [RadioBuffer]. *)
Theorem differential_encoding (out payload : list Z) (n : nat) :
  (n <= length payload → n < length out →
   ∃ out', payload_integration out payload n = Some (out', inverted n payload) ∧
     length out' = length out ∧ drop (S n) out' = drop (S n) out ∧
     bit out' 0 = false ∧
     (∀ k, k < 8 * n → xorb (bit out' (S k)) (bit out' k) = negb (bit payload k)) ∧
     bit out' (8 * n + 1) = bit out' (8 * n) ∧ bit out' (8 * n + 2) = negb (bit out' (8 * n)) ∧
     (∀ r, 3 <= r < 8 → bit out' (8 * n + r) = false))%nat ∧
  (length out = 255%nat → payload_integration out payload 255 = None).
Proof.
  split; cycle 1.
  { intros Hl. unfold payload_integration. rewrite Hl. by rewrite andb_false_r. }
  intros Hp Ho. unfold payload_integration.
  rewrite (proj2 (Nat.leb_le _ _)), (proj2 (Nat.leb_le _ _)) by lia. cbn [andb].
  set (o0 := replicate n 0 ++ drop n out).
  assert (Hlo : length o0 = length out) by (unfold o0; rewrite length_app, length_replicate, length_drop; lia).
  change (((λ b, u8 (Z.lnot b)) <$> take n payload) ++ drop n payload) with (inverted n payload).
  destruct (integrate_rounds (inverted n payload) o0 (n * 8)) as (o' & E & Hl & Hd & Hb).
  { rewrite Nat.div_mul by lia. lia. }
  rewrite Nat.div_mul in Hd by lia. rewrite E.
  set (p := parity (inverted n payload) (n * 8)). fold (last_byte p).
  assert (Hbits : ∀ k, (k <= 8 * n)%nat →
    bit (<[n := last_byte p]> o') k = parity (inverted n payload) k).
  { intros k Hk. rewrite bit_replace by lia. pose proof (Nat.div_mod_eq k 8).
    pose proof (Nat.mod_upper_bound k 8 ltac:(lia)). case_decide as Hkn.
    - assert (k = n * 8)%nat as -> by lia. replace ((n * 8) mod 8)%nat with 0%nat by lia.
      rewrite last_byte_bit by lia. reflexivity.
    - rewrite Hb. unfold o0. rewrite bit_front by (rewrite length_replicate; lia).
      rewrite bit_zeros. cbn [orb]. destruct k as [|k]; [done|]. by rewrite bool_decide_true by lia. }
  assert (Htail : ∀ r, (r < 8)%nat → bit (<[n := last_byte p]> o') (8 * n + r) =
    match r with 0%nat | 1%nat => p | 2%nat => negb p | _ => false end).
  { intros r Hr. rewrite bit_replace by lia.
    replace ((8 * n + r) / 8)%nat with n by (pose proof (Nat.div_mod_eq (8 * n + r) 8);
      pose proof (Nat.mod_upper_bound (8 * n + r) 8 ltac:(lia)); lia).
    replace ((8 * n + r) mod 8)%nat with r by (pose proof (Nat.div_mod_eq (8 * n + r) 8);
      pose proof (Nat.mod_upper_bound (8 * n + r) 8 ltac:(lia)); lia).
    rewrite decide_True by done. apply last_byte_bit. exact Hr. }
  eexists. split; [reflexivity|]. split; [rewrite length_insert; lia|].
  split. { rewrite drop_insert_lt by lia. rewrite Hd. unfold o0.
    rewrite drop_app_ge by (rewrite length_replicate; lia). rewrite length_replicate, drop_drop.
    f_equal. lia. }
  split; [rewrite Hbits by lia; reflexivity|]. split.
  { intros k Hk. rewrite !Hbits by lia. cbn [parity]. rewrite inverted_bit by lia.
    by destruct (parity (inverted n payload) k), (bit payload k). }
  replace (bit _ (8 * n)) with p by (rewrite <- (Nat.add_0_r (8 * n)); symmetry; apply (Htail 0%nat); lia).
  split; [apply (Htail 1%nat); lia|]. split; [apply (Htail 2%nat); lia|].
  intros r Hr. rewrite Htail by lia. do 3 (destruct r as [|r]; [lia|]). done.
Qed.

Lemma differential_encoding_witness :
  ∃ out', payload_integration (replicate 255 0) [0xB2; 0x7F] 2 = Some (out', [0x4D; 0x80]) ∧
    ∀ k, (k < 16)%nat → xorb (bit out' (S k)) (bit out' k) = negb (bit [0xB2; 0x7F] k).
Proof.
  destruct (proj1 (differential_encoding (replicate 255 0) [0xB2; 0x7F] 2))
    as (out' & E & _ & _ & _ & H & _).
  { cbn. lia. }
  { rewrite length_replicate. lia. }
  exists out'. split; [rewrite E; reflexivity | exact H].
Defined.
