(* ===== verification/Api.v ===== *)
(** * radio.c: the entry points of the radio stack.

    What runs the code of the radio stack from outside: the application, through
    the functions of [struct Radio_s]; the HAL, through the interrupt callback; and
    the timer server.  The invariants of the stack are stated over the states that
    sequences of these calls reach. *)

From S2P Require Import Prelude Effects RadioTypes State Mem RadioDriver.
From S2P Require Import RadioFw TimeOnAir Radio RadioGeneric.

(** The members of [struct Radio_s], in its order, then the interrupt and timer
    handlers; [fuel] bounds the busy waits of a call. *)
Inductive Entry :=
| Call_Init (events : option RadioEvents_t)
| Call_GetStatus
| Call_SetModem (modem : RadioModems_t)
| Call_SetChannel (freq : Z)
| Call_IsChannelFree (fuel : nat) (freq rxBandwidth rssiThresh maxCarrierSenseTime : Z)
| Call_Random
| Call_SetRxConfig (modem : RadioModems_t)
    (bandwidth datarate coderate bandwidthAfc preambleLen symbTimeout : Z) (fixLen : bool)
    (payloadLen : Z) (crcOn freqHopOn : bool) (hopPeriod : Z) (iqInverted rxContinuous : bool)
| Call_SetTxConfig (modem : RadioModems_t)
    (power fdev bandwidth datarate coderate preambleLen : Z) (fixLen crcOn freqHopOn : bool)
    (hopPeriod : Z) (iqInverted : bool) (timeout : Z)
| Call_CheckRfFrequency (frequency : Z)
| Call_TimeOnAir (modem : RadioModems_t) (bandwidth datarate coderate preambleLen : Z)
    (fixLen : bool) (payloadLen : Z) (crcOn : bool)
| Call_Send (buffer : list Z) (size : Z)
| Call_Sleep
| Call_Standby
| Call_Rx (timeout : Z)
| Call_StartCad
| Call_SetTxContinuousWave (freq power time : Z)
| Call_Rssi (modem : RadioModems_t)
| Call_Write (addr data : Z)
| Call_Read (addr : Z)
| Call_WriteRegisters (addr : Z) (buffer : list Z)
| Call_ReadRegisters (addr : Z) (size : nat)
| Call_SetMaxPayloadLength (modem : RadioModems_t) (max : Z)
| Call_SetPublicNetwork (enable : bool)
| Call_GetWakeupTime
| Call_IrqProcess (fuel : nat)
| Call_RxBoosted (timeout : Z)
| Call_SetRxDutyCycle (rxTime sleepTime : Z)
| Call_TxPrbs
| Call_TxCw (power : Z)
| Call_RadioSetRxGenericConfig (modem : GenericModems_t) (config : RxConfigGeneric_t)
    (rxContinuous symbTimeout : Z)
| Call_RadioSetTxGenericConfig (modem : GenericModems_t) (config : TxConfigGeneric_t)
    (power timeout : Z)
| Call_TransmitLongPacket (payload_size timeout : Z) (cb : bool)
| Call_ReceiveLongPacket (boosted_mode timeout : Z) (cb : bool)
| Interrupt (fuel : nat) (radioIrq : Z)
| TxTimeout_expired
| RxTimeout_expired
| GetPayload_expired
| NewTxChunk_expired.

Section Api.
Context {cfg : Config} {env : Env}.

(** A call whose result is not looked at. *)
Definition ignore {A} (m : M Sys A) : M Sys unit := _ ← m; skip.

(** [const struct Radio_s Radio], and the handlers that [RadioInit] and
    radio_fw.c pass to the HAL and to [TimerInit]. *)
Definition run (e : Entry) : M Sys unit :=
  match e with
  | Call_Init events => RadioInit events
  | Call_GetStatus => ignore RadioGetStatus
  | Call_SetModem modem => RadioSetModem modem
  | Call_SetChannel freq => RadioSetChannel freq
  | Call_IsChannelFree fuel freq bw thresh max => ignore (RadioIsChannelFree fuel freq bw thresh max)
  | Call_Random => ignore RadioRandom
  | Call_SetRxConfig modem bw dr cr afc pre symb fix_ len crc hop period iq cont =>
      RadioSetRxConfig modem bw dr cr afc pre symb fix_ len crc hop period iq cont
  | Call_SetTxConfig modem power fdev bw dr cr pre fix_ crc hop period iq timeout =>
      RadioSetTxConfig modem power fdev bw dr cr pre fix_ crc hop period iq timeout
  | Call_CheckRfFrequency _ => skip
  | Call_TimeOnAir modem bw dr cr pre fix_ len crc =>
      ignore (defined "undefined behaviour in RadioTimeOnAir"
                (RadioTimeOnAir modem bw dr cr pre fix_ len crc))
  | Call_Send buffer size => ignore (RadioSend buffer size)
  | Call_Sleep => RadioSleep
  | Call_Standby => RadioStandby
  | Call_Rx timeout => RadioRx timeout
  | Call_StartCad => RadioStartCad
  | Call_SetTxContinuousWave freq power time => RadioSetTxContinuousWave freq power time
  | Call_Rssi modem => ignore (RadioRssi modem)
  | Call_Write addr data => RadioWrite addr data
  | Call_Read addr => ignore (RadioRead addr)
  | Call_WriteRegisters addr buffer => RadioWriteRegisters addr buffer
  | Call_ReadRegisters addr size => ignore (RadioReadRegisters addr size)
  | Call_SetMaxPayloadLength modem max => RadioSetMaxPayloadLength modem max
  | Call_SetPublicNetwork enable => RadioSetPublicNetwork enable
  | Call_GetWakeupTime => skip
  | Call_IrqProcess fuel => RadioIrqProcess fuel
  | Call_RxBoosted timeout => RadioRxBoosted timeout
  | Call_SetRxDutyCycle rx sleep => RadioSetRxDutyCycle rx sleep
  | Call_TxPrbs => RadioTxPrbs
  | Call_TxCw power => RadioTxCw power
  | Call_RadioSetRxGenericConfig modem config cont symb =>
      ignore (RadioSetRxGenericConfig modem config cont symb)
  | Call_RadioSetTxGenericConfig modem config power timeout =>
      ignore (RadioSetTxGenericConfig modem config power timeout)
  | Call_TransmitLongPacket size timeout cb => ignore (RFW_TransmitLongPacket size timeout cb)
  | Call_ReceiveLongPacket boosted timeout cb => ignore (RFW_ReceiveLongPacket boosted timeout cb)
  | Interrupt fuel radioIrq => RadioOnDioIrq fuel radioIrq
  | TxTimeout_expired => RadioOnTxTimeoutIrq
  | RxTimeout_expired => RadioOnRxTimeoutIrq
  | GetPayload_expired => RFW_GetPayloadTimerEvent
  | NewTxChunk_expired => RFW_TransmitLongPacket_NewTxChunkTimerEvent
  end.

(** The states that calls satisfying [ok] reach from boot, in any order; a call
    that does not return leaves the state it stopped in. *)
Inductive reachable (ok : Entry → Prop) : Sys → Prop :=
| reachable_boot : reachable ok boot
| reachable_step s e : reachable ok s → ok e → reachable ok (final (run e s)).

Lemma reachable_invariant (ok : Entry → Prop) (I : Sys → Prop) :
  I boot → (∀ e, ok e → keeps I (run e)) → ∀ s, reachable ok s → I s.
Proof. intros Hb Hk s. induction 1 as [|s e _ IH He]; [done | by apply Hk]. Qed.
End Api.

(** The calls that start an unmodulated carrier. *)
Definition starts_carrier (e : Entry) : bool :=
  match e with Call_SetTxContinuousWave _ _ _ | Call_TxCw _ => true | _ => false end.
