(* ===== verification/InStep.v ===== *)
(** * The driver's picture of the radio.

    [OperatingMode] and [PacketType] of radio_driver.c shadow the mode and the
    packet type of the radio, which no command reads back.  The invariant says
    that they are what the radio was last commanded; every function of the radio
    stack keeps it, except those that start an unmodulated carrier. *)

From S2P Require Import Prelude Effects RadioTypes State Mem RadioDriver.
From S2P Require Import DriverProofs RadioFw TimeOnAir Radio RadioGeneric Sigfox Api.

(** ** The mode and the packet type a radio is commanded *)

Definition mode_after (m : RadioOperatingModes_t) (e : HalEvent) : RadioOperatingModes_t :=
  match e with
  | EvSetCmd RADIO_SET_SLEEP _ => MODE_SLEEP
  | EvSetCmd RADIO_SET_STANDBY [c] =>
      if c =? RadioStandbyModes_t_code STDBY_RC then MODE_STDBY_RC else MODE_STDBY_XOSC
  | EvSetCmd RADIO_SET_FS _ => MODE_FS
  | EvSetCmd (RADIO_SET_TX | RADIO_SET_TXCONTINUOUSWAVE | RADIO_SET_TXCONTINUOUSPREAMBLE) _ => MODE_TX
  | EvSetCmd RADIO_SET_RX _ => MODE_RX
  | EvSetCmd RADIO_SET_RXDUTYCYCLE _ => MODE_RX_DC
  | EvSetCmd RADIO_SET_CAD _ => MODE_CAD
  | _ => m
  end.

Definition type_after (t : RadioPacketTypes_t) (e : HalEvent) : RadioPacketTypes_t :=
  match e with
  | EvSetCmd RADIO_SET_PACKETTYPE [c] =>
      if c =? RadioPacketTypes_t_code PACKET_TYPE_GFSK then PACKET_TYPE_GFSK
      else if c =? RadioPacketTypes_t_code PACKET_TYPE_LORA then PACKET_TYPE_LORA
      else if c =? RadioPacketTypes_t_code PACKET_TYPE_BPSK then PACKET_TYPE_BPSK
      else if c =? RadioPacketTypes_t_code PACKET_TYPE_GMSK then PACKET_TYPE_GMSK
      else PACKET_TYPE_NONE
  | _ => t
  end.

Definition commanded_mode (tr : list HalEvent) : RadioOperatingModes_t :=
  fold_left mode_after tr MODE_SLEEP.
Definition commanded_type (tr : list HalEvent) : RadioPacketTypes_t :=
  fold_left type_after tr PACKET_TYPE_GFSK.

#[global] Arguments commanded_mode : simpl never.
#[global] Arguments commanded_type : simpl never.

(** The invariant, with the sizes of the three buffers, which are C arrays. *)
Record in_step (s : Sys) : Prop := {
  step_mode : OperatingMode s = commanded_mode (trace s);
  step_type : PacketType s = commanded_type (trace s);
  step_radio : length (RadioBuffer s) = 255%nat;
  step_chunk : length (ChunkBuffer s) = 255%nat;
  step_rx : length (RxBuffer s) = 255%nat }.

Lemma in_step_boot : in_step boot.
Proof. by split. Qed.

(** ** Automation: a computation keeps the invariant if its parts do *)

Lemma commanded_mode_app tr es :
  commanded_mode (tr ++ es) = fold_left mode_after es (commanded_mode tr).
Proof. apply fold_left_app. Qed.
Lemma commanded_type_app tr es :
  commanded_type (tr ++ es) = fold_left type_after es (commanded_type tr).
Proof. apply fold_left_app. Qed.

Lemma keeps_emit e :
  (∀ m, mode_after m e = m) → (∀ t, type_after t e = t) → keeps in_step (emit e).
Proof.
  intros Hm Ht s []. split; cbn; rewrite ?commanded_mode_app, ?commanded_type_app; cbn;
    rewrite ?Hm, ?Ht; done.
Qed.

(** An update of the other fields. *)
Lemma keeps_upd f :
  (∀ s, OperatingMode (f s) = OperatingMode s ∧ PacketType (f s) = PacketType s ∧
        trace (f s) = trace s ∧ length (RadioBuffer (f s)) = length (RadioBuffer s) ∧
        length (ChunkBuffer (f s)) = length (ChunkBuffer s) ∧
        length (RxBuffer (f s)) = length (RxBuffer s)) →
  keeps in_step (update f).
Proof. intros H s []. destruct (H s) as (? & ? & ? & ? & ? & ?). split; cbn; congruence. Qed.

Create HintDb in_step.

Ltac head_of m := lazymatch m with ?f _ => head_of f | _ => m end.
Ltac step_one :=
  lazymatch goal with
  | |- ∀ _, _ => intro
  | |- keeps _ (let _ := _ in _) => cbv zeta
  | |- keeps _ (_ ≫= _) => apply keeps_bind
  | |- keeps _ (when _ _) => apply keeps_when
  | |- keeps _ (emit _) => apply keeps_emit; intros; reflexivity
  | |- keeps _ (update _) => apply keeps_upd; intros; repeat split; reflexivity
  | |- keeps _ (gets _) => apply keeps_gets
  | |- keeps _ get_state => apply keeps_get
  | |- keeps _ skip => apply keeps_skip
  | |- keeps _ spin => apply keeps_spin
  | |- keeps _ (mret _) => apply keeps_ret
  | |- keeps _ (exit_with _) => apply keeps_exit
  | |- keeps _ (undefined _) => apply keeps_undefined
  | |- keeps _ (defined _ _) => apply keeps_defined
  | |- keeps _ (match ?x with _ => _ end) => destruct x
  | |- keeps _ ?m => solve [auto 1 with in_step] || (let h := head_of m in progress unfold h)
  end.
Ltac in_step := repeat step_one.

(** A command that changes the mode or the type, with its shadow. *)
Lemma keeps_outcome {A} (m : M Sys A) s a s' : m s = Ret a s' → in_step s' → in_step (final (m s)).
Proof. now intros ->. Qed.

Ltac command_step :=
  let s := fresh "s" in
  intros s []; eapply keeps_outcome; [reflexivity|]; split; sys_simpl;
  rewrite ?commanded_mode_app, ?commanded_type_app; done.

Section Keeps.
Context {cfg : Config} {env : Env}.

(** ** radio_driver.c *)

Lemma keeps_SetStandby c : keeps in_step (SUBGRF_SetStandby c).
Proof. destruct c; command_step. Qed.
Lemma keeps_SetFs : keeps in_step SUBGRF_SetFs.
Proof. command_step. Qed.
Lemma keeps_SetTx t : keeps in_step (SUBGRF_SetTx t).
Proof. command_step. Qed.
Lemma keeps_SetRx t : keeps in_step (SUBGRF_SetRx t).
Proof. command_step. Qed.
Lemma keeps_SetRxBoosted t : keeps in_step (SUBGRF_SetRxBoosted t).
Proof. command_step. Qed.
Lemma keeps_SetRxDutyCycle t u : keeps in_step (SUBGRF_SetRxDutyCycle t u).
Proof. command_step. Qed.
Lemma keeps_SetCad : keeps in_step SUBGRF_SetCad.
Proof. command_step. Qed.
Lemma keeps_SetSleep c : keeps in_step (SUBGRF_SetSleep c).
Proof.
  unfold SUBGRF_SetSleep, Radio_SMPS_Set. do 2 (apply keeps_bind; [in_step | intros _]).
  cbv zeta. command_step.
Qed.
#[local] Hint Resolve keeps_SetStandby keeps_SetFs keeps_SetTx keeps_SetRx keeps_SetRxBoosted
  keeps_SetRxDutyCycle keeps_SetCad keeps_SetSleep : in_step.

(** A command that changes neither. *)
Lemma keeps_WriteCommand c b :
  (∀ m, mode_after m (EvSetCmd c b) = m) → (∀ t, type_after t (EvSetCmd c b) = t) →
  keeps in_step (SUBGRF_WriteCommand c b).
Proof. apply keeps_emit. Qed.

Lemma keeps_SetPacketType t : keeps in_step (SUBGRF_SetPacketType t).
Proof.
  unfold SUBGRF_SetPacketType. destruct t; cbn [bool_decide decide_rel]; command_step.
Qed.
#[local] Hint Resolve keeps_SetPacketType : in_step.

Lemma keeps_SetModulationParams p : keeps in_step (SUBGRF_SetModulationParams p).
Proof. in_step. Qed.
Lemma keeps_SetPacketParams p : keeps in_step (SUBGRF_SetPacketParams p).
Proof. in_step. Qed.
Lemma keeps_SetTxParams a b c : keeps in_step (SUBGRF_SetTxParams a b c).
Proof. in_step. Qed.
Lemma keeps_GetPayload n : keeps in_step (SUBGRF_GetPayload n).
Proof. in_step. Qed.
Lemma keeps_GetRandom : keeps in_step SUBGRF_GetRandom.
Proof. in_step. Qed.
Lemma keeps_SetRfFrequency f : keeps in_step (SUBGRF_SetRfFrequency f).
Proof. in_step. Qed.
#[local] Hint Resolve keeps_SetModulationParams keeps_SetPacketParams keeps_SetTxParams
  keeps_GetPayload keeps_GetRandom keeps_SetRfFrequency : in_step.

Lemma keeps_Init d : keeps in_step (SUBGRF_Init d).
Proof.
  destruct d; unfold SUBGRF_Init, when; destruct (1 =? RBI_IsTCXO); command_step.
Qed.
#[local] Hint Resolve keeps_Init : in_step.

(** ** radio_fw.c *)

(** The application runs between the interactions: all that is asked of it is
    that it does not write the variables of the radio stack behind its back. *)
Context (app_in_step : ∀ c s, in_step s → in_step (app_reaction c s)).

Lemma keeps_call_app c : keeps in_step (call_app c).
Proof. unfold call_app. apply keeps_bind; [in_step | intros _]. apply keeps_update, app_in_step. Qed.

(** An update of a buffer with one of the same length. *)
Lemma keeps_write_chunk off src : keeps in_step (write_chunk off src).
Proof.
  intros s Hs. unfold write_chunk. erewrite bind_Ret by reflexivity.
  destruct (buf_write (ChunkBuffer s) off src) as [b|] eqn:E; [|exact Hs].
  apply buf_write_length in E. eapply keeps_outcome; [reflexivity|].
  destruct Hs. split; sys_simpl; congruence.
Qed.
Lemma keeps_write_rx off src : keeps in_step (write_rx off src).
Proof.
  intros s Hs. unfold write_rx. erewrite bind_Ret by reflexivity.
  destruct (buf_write (RxBuffer s) off src) as [b|] eqn:E; [|exact Hs].
  apply buf_write_length in E. eapply keeps_outcome; [reflexivity|].
  destruct Hs. split; sys_simpl; congruence.
Qed.
#[local] Hint Resolve keeps_call_app keeps_write_chunk keeps_write_rx : in_step.

Lemma keeps_poll_loop fuel : ∀ now timeout bytes ref ptr,
  keeps in_step (poll_loop fuel now timeout bytes ref ptr).
Proof.
  induction fuel as [|fuel IH]; intros; cbn [poll_loop]; [apply keeps_spin|].
  in_step.
Qed.
#[local] Hint Resolve keeps_poll_loop : in_step.

Lemma keeps_RFW_Init c e t : keeps in_step (RFW_Init c e t).
Proof. in_step. Qed.
Lemma keeps_TransmitInit b n : keeps in_step (RFW_TransmitInit b n).
Proof. in_step. Qed.
Lemma keeps_ReceivePayload fuel : keeps in_step (RFW_ReceivePayload fuel).
Proof. in_step. Qed.
Lemma keeps_GetPayloadProcess : keeps in_step RFW_GetPayloadProcess.
Proof. in_step. Qed.
Lemma keeps_TxChunkProcess : keeps in_step RFW_TransmitLongPacket_TxChunkProcess.
Proof. in_step. Qed.
Lemma keeps_TransmitLongPacket n t cb : keeps in_step (RFW_TransmitLongPacket n t cb).
Proof. in_step. Qed.
Lemma keeps_ReceiveLongPacket b t cb : keeps in_step (RFW_ReceiveLongPacket b t cb).
Proof. in_step. Qed.
#[local] Hint Resolve keeps_RFW_Init keeps_TransmitInit keeps_ReceivePayload
  keeps_GetPayloadProcess keeps_TxChunkProcess keeps_TransmitLongPacket
  keeps_ReceiveLongPacket : in_step.

(** ** radio.c *)

Lemma keeps_SetModem_fuel fuel : ∀ m, keeps in_step (SetModem_fuel fuel m).
Proof.
  induction fuel as [|fuel IH]; intros m; cbn [SetModem_fuel]; [apply keeps_spin|].
  in_step; apply IH.
Qed.
#[local] Hint Resolve keeps_SetModem_fuel : in_step.
Lemma keeps_SetModem m : keeps in_step (RadioSetModem m).
Proof. apply keeps_SetModem_fuel. Qed.
Lemma keeps_apply_params m : keeps in_step (apply_params m).
Proof. in_step. Qed.
Lemma keeps_SetRfTxPower p : keeps in_step (SUBGRF_SetRfTxPower p).
Proof. in_step. Qed.
#[local] Hint Resolve keeps_SetModem keeps_apply_params keeps_SetRfTxPower : in_step.

Lemma keeps_write_radio bytes : keeps in_step (write_radio bytes).
Proof.
  intros s Hs. unfold write_radio. erewrite bind_Ret by reflexivity.
  destruct (buf_write (RadioBuffer s) 0 bytes) as [b|] eqn:E; [|exact Hs].
  apply buf_write_length in E. eapply keeps_outcome; [reflexivity|].
  destruct Hs. split; sys_simpl; congruence.
Qed.
Lemma keeps_integrate_payload buffer size : keeps in_step (integrate_payload buffer size).
Proof.
  intros s Hs. unfold integrate_payload. erewrite bind_Ret by reflexivity.
  destruct (payload_integration _ _ _) as [[out inb]|] eqn:E; [|exact Hs].
  apply payload_integration_length in E. eapply keeps_outcome; [reflexivity|].
  destruct Hs. split; sys_simpl; cbn [fst]; congruence.
Qed.
#[local] Hint Resolve keeps_write_radio keeps_integrate_payload : in_step.

Lemma keeps_carrier_sense fuel : ∀ start max thresh, keeps in_step (carrier_sense fuel start max thresh).
Proof.
  induction fuel as [|fuel IH]; intros; cbn [carrier_sense]; [apply keeps_spin | in_step].
Qed.
#[local] Hint Resolve keeps_carrier_sense : in_step.

Lemma keeps_Send b n : keeps in_step (RadioSend b n).
Proof. in_step. Qed.
Lemma keeps_IrqProcess fuel irq : keeps in_step (RadioOnDioIrq fuel irq).
Proof. in_step. Qed.
#[local] Hint Resolve keeps_Send keeps_IrqProcess : in_step.

Lemma keeps_TxPrbs : keeps in_step RadioTxPrbs.
Proof.
  unfold RadioTxPrbs. do 3 (apply keeps_bind; [in_step | intros]).
  unfold SUBGRF_SetTxInfinitePreamble. command_step.
Qed.
#[local] Hint Resolve keeps_TxPrbs : in_step.

(** ** The entry points *)

Lemma run_keeps e : starts_carrier e = false → keeps in_step (run e).
Proof. destruct e; intros H; try discriminate H; cbn [run]; in_step. Qed.

Lemma reachable_in_step s : reachable (λ e, starts_carrier e = false) s → in_step s.
Proof. apply reachable_invariant; [apply in_step_boot | apply run_keeps]. Qed.
End Keeps.

(** ** Properties *)

(** The status that stands for a mode. *)
Definition status_of (m : RadioOperatingModes_t) : RadioState_t :=
  match m with
  | MODE_TX => RF_TX_RUNNING
  | MODE_RX => RF_RX_RUNNING
  | MODE_CAD => RF_CAD
  | _ => RF_IDLE
  end.

(** C11: in every state that the functions of [struct Radio_s] (but
    the two that start an unmodulated carrier), the interrupts and the timers
    can reach from boot, in any order and whatever the radio answers,
    [OperatingMode] and [PacketType] are the mode and the packet type
    the radio was last commanded, [RadioGetStatus] reports that mode, and the
    three buffers have their size. *)
Theorem reachable_status {cfg : Config} {env : Env} (s : Sys) :
  (∀ c s, in_step s → in_step (app_reaction c s)) →
  reachable (λ e, starts_carrier e = false) s →
  RadioGetStatus s = Ret (status_of (commanded_mode (trace s))) s ∧
  PacketType s = commanded_type (trace s) ∧
  length (RadioBuffer s) = 255%nat ∧ length (ChunkBuffer s) = 255%nat ∧ length (RxBuffer s) = 255%nat.
Proof.
  intros Happ Hs. destruct (reachable_in_step Happ s Hs) as [Hm Ht ? ? ?].
  split; [|auto]. unfold RadioGetStatus, SUBGRF_GetOperatingMode. erewrite bind_Ret by reflexivity.
  rewrite Hm. by destruct (commanded_mode (trace s)).
Qed.

Lemma reachable_status_witness :
  let env := quiet_env [] (λ _, 0) in
  let cfg := default_config in
  let s := final (run (Call_Rx 3000) (final (run (Call_SetModem MODEM_LORA)
             (final (run (Call_Init None) boot))))) in
  RadioGetStatus s = Ret RF_RX_RUNNING s ∧ PacketType s = PACKET_TYPE_LORA.
Proof.
  intros env cfg s.
  assert (Hs : reachable (λ e, starts_carrier e = false) s)
    by (do 3 (apply reachable_step; [|reflexivity]); apply reachable_boot).
  destruct (reachable_status (env := env) s (λ _ _ H, H) Hs) as (H1 & H2 & _).
  split; [rewrite H1; vm_compute; reflexivity | rewrite H2; vm_compute; reflexivity].
Defined.

Section Carrier.
Context {cfg : Config} {env : Env}.

(** An unmodulated carrier puts the radio in transmission, but not
    [OperatingMode]: after [RadioTxCw] the status is that of the mode before,
    and a time-out interrupt is not taken for one of a transmission. *)
Theorem carrier_out_of_step (power : Z) (s : Sys) :
  ∃ s', RadioTxCw power s = Ret tt s' ∧ commanded_mode (trace s') = MODE_TX ∧
    OperatingMode s' = OperatingMode s ∧
    RadioGetStatus s' = Ret (status_of (OperatingMode s)) s' ∧
    (OperatingMode s ≠ MODE_TX → OperatingMode s ≠ MODE_RX → irq_rx_tx_timeout s' = Ret tt s').
Proof.
  destruct (SetRfTxPower_does power s) as (pa & es & Hes & _).
  pose (s1 := s <| trace := trace s ++ es |>).
  destruct (set_switch_does pa RFSWITCH_TX
              (s1 <| trace := trace s1 ++ [EvWriteRegisters REG_DRV_CTRL [Z.shiftl 0x7 1]] |>))
    as [sw Hsw].
  assert (H : does (RadioTxCw power) s tt
            (es ++ [EvWriteRegisters REG_DRV_CTRL [Z.shiftl 0x7 1]] ++ [EvConfigRFSwitch sw] ++
             [EvSetCmd RADIO_SET_TXCONTINUOUSWAVE []])).
  { unfold RadioTxCw. apply (does_bind _ _ _ pa); [exact Hes|].
    apply (does_bind _ _ _ tt [_]); [apply does_emit|].
    apply (does_bind _ _ _ tt [_]); [exact Hsw | apply does_emit]. }
  eexists. split; [exact H|]. sys_simpl. split.
  { rewrite commanded_mode_app, !fold_left_app. reflexivity. }
  split; [reflexivity|]. split; [by destruct (OperatingMode s)|].
  intros Htx Hrx. unfold irq_rx_tx_timeout, SUBGRF_GetOperatingMode.
  erewrite bind_Ret by reflexivity. sys_simpl. by destruct (OperatingMode s).
Qed.
End Carrier.

Lemma carrier_out_of_step_witness :
  let env := quiet_env [] (λ _, 0) in
  ∃ s', RadioTxCw 14 boot = Ret tt s' ∧ RadioGetStatus s' = Ret RF_IDLE s'.
Proof.
  intros env. destruct (carrier_out_of_step 14 boot) as (s' & H & _ & _ & Hs & _). eauto.
Defined.
