(* ===== verification/CTypes.v ===== *)
(** * The C types of the radio stack.

    The model computes with unbounded integers and truncates where the C code
    converts.  The invariant of this file says that nothing is forgotten: every
    variable, structure member, array element, argument of the HAL and argument
    of the application stays within its C type, in every state that calls
    with arguments of their C types can reach. *)

From S2P Require Import Prelude Effects RadioTypes State Mem RadioDriver.
From S2P Require Import RadioFw TimeOnAir Radio RadioGeneric Api.

(** ** Types *)

(** An enumeration without negative enumerators is an [unsigned int]. *)
Definition is_enum : Z → Prop := is_u32.
Definition bytes : list Z → Prop := Forall is_u8.
(** [uint8_t a[n]] *)
Definition is_array (n : nat) (l : list Z) : Prop := length l = n ∧ bytes l.

(** ** Structures *)

Record typed_Gfsk (g : GfskPacket) : Prop := {
  ty_gp_PreambleLength : is_u16 (gp_PreambleLength g);
  ty_gp_PreambleMinDetect : is_enum (gp_PreambleMinDetect g);
  ty_gp_SyncWordLength : is_u8 (gp_SyncWordLength g);
  ty_gp_AddrComp : is_enum (gp_AddrComp g);
  ty_gp_HeaderType : is_enum (gp_HeaderType g);
  ty_gp_PayloadLength : is_u8 (gp_PayloadLength g);
  ty_gp_CrcLength : is_enum (gp_CrcLength g);
  ty_gp_DcFree : is_enum (gp_DcFree g) }.
Record typed_LoRa (l : LoRaPacket) : Prop := {
  ty_lp_PreambleLength : is_u16 (lp_PreambleLength l);
  ty_lp_HeaderType : is_enum (lp_HeaderType l);
  ty_lp_PayloadLength : is_u8 (lp_PayloadLength l);
  ty_lp_CrcMode : is_enum (lp_CrcMode l);
  ty_lp_InvertIQ : is_enum (lp_InvertIQ l) }.
Record typed_PacketParams (p : PacketParams_t) : Prop := {
  ty_pp_Gfsk : typed_Gfsk (pp_Gfsk p);
  ty_pp_Bpsk : is_u8 (bp_PayloadLength (pp_Bpsk p));
  ty_pp_LoRa : typed_LoRa (pp_LoRa p) }.

Record typed_GfskMod (g : GfskModulation) : Prop := {
  ty_gm_BitRate : is_u32 (gm_BitRate g);
  ty_gm_Fdev : is_u32 (gm_Fdev g);
  ty_gm_ModulationShaping : is_enum (gm_ModulationShaping g);
  ty_gm_Bandwidth : is_u8 (gm_Bandwidth g) }.
Record typed_LoRaMod (l : LoRaModulation) : Prop := {
  ty_lm_SpreadingFactor : is_enum (lm_SpreadingFactor l);
  ty_lm_Bandwidth : is_enum (lm_Bandwidth l);
  ty_lm_CodingRate : is_enum (lm_CodingRate l);
  ty_lm_LowDatarateOptimize : is_u8 (lm_LowDatarateOptimize l) }.
Record typed_BpskMod (b : BpskModulation) : Prop := {
  ty_bm_BitRate : is_u32 (bm_BitRate b);
  ty_bm_ModulationShaping : is_enum (bm_ModulationShaping b) }.
Record typed_ModulationParams (p : ModulationParams_t) : Prop := {
  ty_mp_Gfsk : typed_GfskMod (mp_Gfsk p);
  ty_mp_Bpsk : typed_BpskMod (mp_Bpsk p);
  ty_mp_LoRa : typed_LoRaMod (mp_LoRa p) }.

Record typed_PacketStatus (p : PacketStatus_t) : Prop := {
  ty_gs_RxStatus : is_u8 (gs_RxStatus (ps_Gfsk p));
  ty_gs_RssiAvg : is_i8 (gs_RssiAvg (ps_Gfsk p));
  ty_gs_RssiSync : is_i8 (gs_RssiSync (ps_Gfsk p));
  ty_gs_FreqError : is_u32 (gs_FreqError (ps_Gfsk p));
  ty_ls_RssiPkt : is_i8 (ls_RssiPkt (ps_LoRa p));
  ty_ls_SnrPkt : is_i8 (ls_SnrPkt (ps_LoRa p));
  ty_ls_SignalRssiPkt : is_i8 (ls_SignalRssiPkt (ps_LoRa p));
  ty_ls_FreqError : is_u32 (ls_FreqError (ps_LoRa p)) }.

Record typed_SubgRf (r : SubgRf_t) : Prop := {
  ty_TxTimeout : is_u32 (TxTimeout r);
  ty_RxTimeout : is_u32 (RxTimeout r);
  ty_PacketParams : typed_PacketParams (PacketParams r);
  ty_PacketStatus : typed_PacketStatus (PacketStatus r);
  ty_ModulationParams : typed_ModulationParams (ModulationParams r);
  ty_RadioIrq : is_enum (RadioIrq r);
  ty_AntSwitchPaSelect : is_u8 (AntSwitchPaSelect r);
  ty_RxDcPreambleDetectTimeout : is_u32 (RxDcPreambleDetectTimeout r) }.

Record typed_RFwInit (i : RFwInit_t) : Prop := {
  ty_Enable : is_u8 (Enable i);
  ty_PayloadLengthFieldSize : is_u8 (PayloadLengthFieldSize i);
  ty_CrcEnable : is_u8 (CrcEnable i);
  ty_CrcFieldSize : is_u8 (CrcFieldSize i);
  ty_CrcPolynomial : is_u16 (CrcPolynomial i);
  ty_CrcSeed : is_u16 (CrcSeed i);
  ty_CrcType : is_enum (CrcType i);
  ty_WhiteSeed : is_u16 (WhiteSeed i);
  ty_LongPacketMaxRxLength : is_u16 (LongPacketMaxRxLength i) }.
Record typed_RadioFw (f : RadioFw_t) : Prop := {
  ty_Init : typed_RFwInit (Init f);
  ty_CrcLfsrState : is_u16 (CrcLfsrState f);
  ty_WhiteLfsrState : is_u16 (WhiteLfsrState f);
  ty_rfw_PayloadLength : is_u16 (rfw_PayloadLength f);
  ty_LongPacketModeEnable : is_u8 (LongPacketModeEnable f);
  ty_LongPacketRemainingBytes : is_u16 (LongPacketRemainingBytes f);
  ty_RadioBufferOffset : is_u8 (RadioBufferOffset f);
  ty_RxPayloadOffset : is_u16 (RxPayloadOffset f);
  ty_rfw_AntSwitchPaSelect : is_u8 (rfw_AntSwitchPaSelect f);
  ty_BitRate : is_u32 (BitRate f) }.

(** ** Calls of the outside world, by their prototypes *)

Definition typed_call (c : AppCall) : Prop :=
  match c with
  | App_RxDone payload size rssi snr => bytes payload ∧ is_u16 size ∧ is_i16 rssi ∧ is_i8 snr
  | App_StoreChunk chunk => bytes chunk
  | App_GetNextChunk n => is_u8 n
  | _ => True
  end.
Definition typed_event (e : HalEvent) : Prop :=
  match e with
  | EvSetCmd _ buf => bytes buf
  | EvWriteRegisters addr data => is_u16 addr ∧ bytes data
  | EvReadRegisters addr n => is_u16 addr
  | EvWriteBuffer offset data => is_u8 offset ∧ bytes data ∧ (length data < 256)%nat
  | EvReadBuffer offset n => is_u8 offset ∧ (n < 256)%nat
  | EvDelay ms => is_u32 ms
  | EvTimerSetValue _ v => is_u32 v
  | EvTimerGetElapsedTime past => is_u32 past
  | EvApp c => typed_call c
  | _ => True
  end.

Record typed (s : Sys) : Prop := {
  ty_LoRaHeaderType : is_enum (LoRaHeaderType s);
  ty_FrequencyError : is_u32 (FrequencyError s);
  ty_SubgRf : typed_SubgRf (SubgRf s);
  ty_MaxPayloadLength : is_u8 (MaxPayloadLength s);
  ty_RadioBuffer : is_array 255 (RadioBuffer s);
  ty_RFWPacket : typed_RadioFw (RFWPacket s);
  ty_ChunkBuffer : is_array 255 (ChunkBuffer s);
  ty_RxBuffer : is_array 255 (RxBuffer s);
  ty_trace : Forall typed_event (trace s) }.

(** ** Arguments *)

Record typed_rx_lora (c : generic_param_rx_lora_t) : Prop := {
  ty_rxl_SpreadingFactor : is_enum (rxl_SpreadingFactor c);
  ty_rxl_Bandwidth : is_enum (rxl_Bandwidth c);
  ty_rxl_Coderate : is_enum (rxl_Coderate c);
  ty_rxl_PreambleLen : is_u16 (rxl_PreambleLen c);
  ty_rxl_LengthMode : is_enum (rxl_LengthMode c);
  ty_rxl_MaxPayloadLength : is_u8 (rxl_MaxPayloadLength c);
  ty_rxl_CrcMode : is_enum (rxl_CrcMode c);
  ty_rxl_IqInverted : is_enum (rxl_IqInverted c) }.
Record typed_rx_fsk (c : generic_param_rx_fsk_t) : Prop := {
  ty_rxf_Bandwidth : is_u32 (rxf_Bandwidth c);
  ty_rxf_BitRate : is_u32 (rxf_BitRate c);
  ty_rxf_PreambleLen : is_u32 (rxf_PreambleLen c);
  ty_rxf_SyncWord : bytes (rxf_SyncWord c);
  ty_rxf_MaxPayloadLength : is_u32 (rxf_MaxPayloadLength c);
  ty_rxf_CrcPolynomial : is_u16 (rxf_CrcPolynomial c);
  ty_rxf_CrcSeed : is_u16 (rxf_CrcSeed c);
  ty_rxf_whiteSeed : is_u16 (rxf_whiteSeed c);
  ty_rxf_SyncWordLength : is_u8 (rxf_SyncWordLength c);
  ty_rxf_PreambleMinDetect : is_enum (rxf_PreambleMinDetect c);
  ty_rxf_ModulationShaping : is_enum (rxf_ModulationShaping c);
  ty_rxf_AddrComp : is_enum (rxf_AddrComp c);
  ty_rxf_LengthMode : is_enum (rxf_LengthMode c);
  ty_rxf_CrcLength : is_enum (rxf_CrcLength c);
  ty_rxf_Whitening : is_enum (rxf_Whitening c) }.
Record typed_tx_lora (c : generic_param_tx_lora_t) : Prop := {
  ty_txl_SpreadingFactor : is_enum (txl_SpreadingFactor c);
  ty_txl_Bandwidth : is_enum (txl_Bandwidth c);
  ty_txl_Coderate : is_enum (txl_Coderate c);
  ty_txl_PreambleLen : is_u16 (txl_PreambleLen c);
  ty_txl_LengthMode : is_enum (txl_LengthMode c);
  ty_txl_CrcMode : is_enum (txl_CrcMode c);
  ty_txl_IqInverted : is_enum (txl_IqInverted c) }.
Record typed_tx_msk (c : generic_param_tx_msk_t) : Prop := {
  ty_txm_BitRate : is_u32 (txm_BitRate c);
  ty_txm_PreambleLen : is_u32 (txm_PreambleLen c);
  ty_txm_SyncWord : bytes (txm_SyncWord c);
  ty_txm_CrcPolynomial : is_u16 (txm_CrcPolynomial c);
  ty_txm_CrcSeed : is_u16 (txm_CrcSeed c);
  ty_txm_whiteSeed : is_u16 (txm_whiteSeed c);
  ty_txm_SyncWordLength : is_u8 (txm_SyncWordLength c);
  ty_txm_ModulationShaping : is_enum (txm_ModulationShaping c);
  ty_txm_HeaderType : is_enum (txm_HeaderType c);
  ty_txm_CrcLength : is_enum (txm_CrcLength c);
  ty_txm_Whitening : is_enum (txm_Whitening c) }.
Definition typed_RxConfig (c : RxConfigGeneric_t) : Prop :=
  typed_rx_fsk (rx_fsk c) ∧ typed_rx_lora (rx_lora c).
Definition typed_TxConfig (c : TxConfigGeneric_t) : Prop :=
  match c with
  | tx_fsk f => typed_tx_msk (txf_msk f) ∧ is_u32 (txf_FrequencyDeviation f)
  | tx_lora l => typed_tx_lora l
  | tx_bpsk b => is_u32 b
  | tx_msk m => typed_tx_msk m
  end.

(** The prototypes of [struct Radio_s] and of the handlers. *)
Definition typed_entry (e : Entry) : Prop :=
  match e with
  | Call_SetChannel freq => is_u32 freq
  | Call_IsChannelFree _ freq bw thresh max =>
      is_u32 freq ∧ is_u32 bw ∧ is_i16 thresh ∧ is_u32 max
  | Call_SetRxConfig _ bw dr cr afc pre symb _ len _ _ hop _ _ =>
      is_u32 bw ∧ is_u32 dr ∧ is_u8 cr ∧ is_u32 afc ∧ is_u16 pre ∧ is_u16 symb ∧ is_u8 len ∧ is_u8 hop
  | Call_SetTxConfig _ power fdev bw dr cr pre _ _ _ hop _ timeout =>
      is_i8 power ∧ is_u32 fdev ∧ is_u32 bw ∧ is_u32 dr ∧ is_u8 cr ∧ is_u16 pre ∧ is_u8 hop ∧
      is_u32 timeout
  | Call_CheckRfFrequency freq => is_u32 freq
  | Call_TimeOnAir _ bw dr cr pre _ len _ =>
      is_u32 bw ∧ is_u32 dr ∧ is_u8 cr ∧ is_u16 pre ∧ is_u8 len
  | Call_Send buffer size => bytes buffer ∧ is_u8 size
  | Call_Rx timeout | Call_RxBoosted timeout => is_u32 timeout
  | Call_SetTxContinuousWave freq power time => is_u32 freq ∧ is_i8 power ∧ is_u16 time
  | Call_Write addr data => is_u16 addr ∧ is_u8 data
  | Call_Read addr => is_u16 addr
  | Call_WriteRegisters addr buffer => is_u16 addr ∧ bytes buffer
  | Call_ReadRegisters addr size => is_u16 addr ∧ is_u8 (Z.of_nat size)
  | Call_SetMaxPayloadLength _ max => is_u8 max
  | Call_SetRxDutyCycle rx sleep => is_u32 rx ∧ is_u32 sleep
  | Call_TxCw power => is_i8 power
  | Call_RadioSetRxGenericConfig _ config cont symb =>
      typed_RxConfig config ∧ is_u32 cont ∧ is_u32 symb
  | Call_RadioSetTxGenericConfig _ config power timeout =>
      typed_TxConfig config ∧ is_i8 power ∧ is_u32 timeout
  | Call_TransmitLongPacket size timeout _ => is_u16 size ∧ is_u32 timeout
  | Call_ReceiveLongPacket boosted timeout _ => is_u8 boosted ∧ is_u32 timeout
  | Interrupt _ radioIrq => is_enum radioIrq
  | _ => True
  end.

(** The application keeps to the prototypes: the chunks it hands out are bytes,
    and it does not write the variables of the stack. *)
Record typed_application {env : Env} : Prop := {
  ty_app_reaction c s : typed s → typed (app_reaction c s);
  ty_next_chunk tr n : bytes (next_chunk_answer tr n) }.

(** ** Ranges of the operators *)

Create HintDb ty.
Create HintDb yields.

#[export] Hint Resolve ty_gp_PreambleLength ty_gp_PreambleMinDetect ty_gp_SyncWordLength
  ty_gp_AddrComp ty_gp_HeaderType ty_gp_PayloadLength ty_gp_CrcLength ty_gp_DcFree
  ty_lp_PreambleLength ty_lp_HeaderType ty_lp_PayloadLength ty_lp_CrcMode ty_lp_InvertIQ
  ty_pp_Gfsk ty_pp_Bpsk ty_pp_LoRa
  ty_gm_BitRate ty_gm_Fdev ty_gm_ModulationShaping ty_gm_Bandwidth
  ty_lm_SpreadingFactor ty_lm_Bandwidth ty_lm_CodingRate ty_lm_LowDatarateOptimize
  ty_bm_BitRate ty_bm_ModulationShaping ty_mp_Gfsk ty_mp_Bpsk ty_mp_LoRa
  ty_gs_RxStatus ty_gs_RssiAvg ty_gs_RssiSync ty_gs_FreqError
  ty_ls_RssiPkt ty_ls_SnrPkt ty_ls_SignalRssiPkt ty_ls_FreqError : ty.
#[export] Hint Resolve ty_TxTimeout ty_RxTimeout ty_PacketParams ty_PacketStatus
  ty_ModulationParams ty_RadioIrq ty_AntSwitchPaSelect ty_RxDcPreambleDetectTimeout
  ty_Enable ty_PayloadLengthFieldSize ty_CrcEnable ty_CrcFieldSize ty_CrcPolynomial ty_CrcSeed
  ty_CrcType ty_WhiteSeed ty_LongPacketMaxRxLength ty_Init ty_CrcLfsrState ty_WhiteLfsrState
  ty_rfw_PayloadLength ty_LongPacketModeEnable ty_LongPacketRemainingBytes ty_RadioBufferOffset
  ty_RxPayloadOffset ty_rfw_AntSwitchPaSelect ty_BitRate
  ty_LoRaHeaderType ty_FrequencyError ty_SubgRf ty_MaxPayloadLength ty_RadioBuffer ty_RFWPacket
  ty_ChunkBuffer ty_RxBuffer ty_trace : ty.
#[export] Hint Resolve ty_rxl_SpreadingFactor ty_rxl_Bandwidth ty_rxl_Coderate ty_rxl_PreambleLen
  ty_rxl_LengthMode ty_rxl_MaxPayloadLength ty_rxl_CrcMode ty_rxl_IqInverted
  ty_rxf_Bandwidth ty_rxf_BitRate ty_rxf_PreambleLen ty_rxf_SyncWord ty_rxf_MaxPayloadLength
  ty_rxf_CrcPolynomial ty_rxf_CrcSeed ty_rxf_whiteSeed ty_rxf_SyncWordLength
  ty_rxf_PreambleMinDetect ty_rxf_ModulationShaping ty_rxf_AddrComp ty_rxf_LengthMode
  ty_rxf_CrcLength ty_rxf_Whitening
  ty_txl_SpreadingFactor ty_txl_Bandwidth ty_txl_Coderate ty_txl_PreambleLen ty_txl_LengthMode
  ty_txl_CrcMode ty_txl_IqInverted
  ty_txm_BitRate ty_txm_PreambleLen ty_txm_SyncWord ty_txm_CrcPolynomial ty_txm_CrcSeed
  ty_txm_whiteSeed ty_txm_SyncWordLength ty_txm_ModulationShaping ty_txm_HeaderType
  ty_txm_CrcLength ty_txm_Whitening : ty.

Lemma u8_is_u8 z : is_u8 (u8 z).
Proof. apply u8_range. Qed.
Lemma u8_is_u16 z : is_u16 (u8 z).
Proof. unfold is_u16. pose proof (u8_range z). lia. Qed.
Lemma u8_is_enum z : is_enum (u8 z).
Proof. unfold is_enum, is_u32. pose proof (u8_range z). lia. Qed.
Lemma byte_at_is_u8 n z : is_u8 (byte_at n z).
Proof. apply byte_at_range. Qed.
Lemma u16_is_u16 z : is_u16 (u16 z).
Proof. apply u16_range. Qed.
Lemma u32_is_u32 z : is_u32 (u32 z).
Proof. apply u32_range. Qed.
Lemma i8_is_i8 z : is_i8 (i8 z).
Proof. apply i8_range. Qed.
Lemma i16_is_i16 z : is_i16 (i16 z).
Proof. unfold is_i16, i16. pose proof (Z.mod_pos_bound (z + 2 ^ 15) (2 ^ 16) eq_refl). lia. Qed.
Lemma b2z_is_enum b : is_enum (b2z b).
Proof. destruct b; by split. Qed.
Lemma b2z_is_u8 b : is_u8 (b2z b).
Proof. destruct b; by split. Qed.

(** The integer conversions. *)
Lemma u8_u16 z : is_u8 z → is_u16 z.
Proof. unfold is_u8, is_u16. lia. Qed.
Lemma u8_enum z : is_u8 z → is_enum z.
Proof. unfold is_u8, is_enum, is_u32. lia. Qed.
Lemma i8_i16 z : is_i8 z → is_i16 z.
Proof. unfold is_i8, is_i16. lia. Qed.

Lemma u8_length z : is_u8 z → (Z.to_nat z < 256)%nat.
Proof. unfold is_u8. lia. Qed.

(** Bitwise operators on [n] bits. *)
Lemma lor_range n a b : 0 <= n → 0 <= a < 2 ^ n → 0 <= b < 2 ^ n → 0 <= Z.lor a b < 2 ^ n.
Proof.
  intros Hn Ha Hb. split; [apply Z.lor_nonneg; lia|].
  rewrite <- (Z.mod_small a (2 ^ n)), <- (Z.mod_small b (2 ^ n)) by lia.
  rewrite <- !Z.land_ones, <- Z.land_lor_distr_l, Z.land_ones by lia.
  apply Z.mod_pos_bound. lia.
Qed.
Lemma land_range n a b : 0 <= n → 0 <= a < 2 ^ n → 0 <= Z.land a b < 2 ^ n.
Proof.
  intros Hn Ha. split; [apply Z.land_nonneg; lia|].
  rewrite <- (Z.mod_small a (2 ^ n)) by lia.
  rewrite <- Z.land_ones, <- Z.land_assoc, (Z.land_comm (Z.ones n)), Z.land_assoc, Z.land_ones by lia.
  apply Z.mod_pos_bound. lia.
Qed.
Lemma lor_is_u8 a b : is_u8 a → is_u8 b → is_u8 (Z.lor a b).
Proof. apply (lor_range 8). lia. Qed.
Lemma land_is_u8 a b : is_u8 a → is_u8 (Z.land a b).
Proof. apply (land_range 8). lia. Qed.
Lemma be16_is_u16 a b : is_u8 a → is_u8 b → is_u16 (Z.lor (Z.shiftl a 8) b).
Proof.
  intros Ha Hb. unfold is_u8 in *. apply (lor_range 16); [lia| |lia].
  rewrite Z.shiftl_mul_pow2 by lia. lia.
Qed.

(** Quotients of 32 bit integers. *)
Lemma div_is_u32 a n : is_u32 a → 0 < n → is_u32 (a / n).
Proof.
  unfold is_u32. intros Ha Hn. split; [apply Z.div_pos; lia|].
  apply Z.le_lt_trans with a; [|lia]. apply Z.div_le_upper_bound; nia.
Qed.
Lemma DIVR_is_u32 x n : 0 < n → is_u32 (DIVR x n).
Proof. intros. by apply div_is_u32; [apply u32_is_u32|]. Qed.
Lemma DIVC_is_u32 x n : 0 < n → is_u32 (DIVC x n).
Proof. intros. by apply div_is_u32; [apply u32_is_u32|]. Qed.

#[export] Hint Resolve u8_is_u8 u8_is_u16 u8_is_enum byte_at_is_u8 u16_is_u16 u32_is_u32 i8_is_i8
  i16_is_i16 b2z_is_enum b2z_is_u8 lor_is_u8 land_is_u8 be16_is_u16 DIVR_is_u32 DIVC_is_u32
  u8_length : ty.
#[export] Hint Resolve u8_u16 u8_enum i8_i16 | 10 : ty.

(** A closed term is in range if its value is. *)
Ltac in_range :=
  lazymatch goal with
  | |- _ ?z =>
      tryif (match z with context [?v] => is_var v end) then fail
      else solve [split; vm_compute; congruence]
  end.
#[export] Hint Extern 3 (is_u8 _) => in_range : ty.
#[export] Hint Extern 3 (is_u16 _) => in_range : ty.
#[export] Hint Extern 3 (is_u32 _) => in_range : ty.
#[export] Hint Extern 3 (is_enum _) => in_range : ty.
#[export] Hint Extern 3 (is_i8 _) => in_range : ty.
#[export] Hint Extern 3 (is_i16 _) => in_range : ty.
#[export] Hint Extern 4 (bytes (if ?b then _ else _)) => destruct b : ty.
#[export] Hint Extern 4 (is_u8 (if ?b then _ else _)) => destruct b : ty.
#[export] Hint Extern 4 (is_u16 (if ?b then _ else _)) => destruct b : ty.
#[export] Hint Extern 4 (is_u32 (if ?b then _ else _)) => destruct b : ty.
#[export] Hint Extern 4 (is_enum (if ?b then _ else _)) => destruct b : ty.
