(* ===== verification/TypedDriver.v ===== *)
(** * radio_driver.c keeps to its C types.

    The rules and the automation for [yields typed], and the functions of the
    driver: each keeps the invariant of CTypes.v and returns a value of its result
    type. *)

From S2P Require Import Prelude Effects RadioTypes State Mem RadioDriver.
From S2P Require Import CTypes.

(** ** Byte lists *)

Lemma bytes_nil : bytes [].
Proof. constructor. Qed.
Lemma bytes_cons b l : is_u8 b → bytes l → bytes (b :: l).
Proof. by constructor. Qed.
Lemma bytes_app l k : bytes l → bytes k → bytes (l ++ k).
Proof. apply Forall_app_2. Qed.
Lemma bytes_take n l : bytes l → bytes (take n l).
Proof. apply Forall_take. Qed.
Lemma bytes_drop n l : bytes l → bytes (drop n l).
Proof. apply Forall_drop. Qed.
Lemma bytes_replicate n b : is_u8 b → bytes (replicate n b).
Proof. intros. by apply Forall_replicate. Qed.
Lemma bytes_answer {A} (f : A → Z) l : bytes ((λ i, u8 (f i)) <$> l).
Proof. apply Forall_fmap, Forall_true. intros. apply u8_is_u8. Qed.
Lemma bytes_nth l n : bytes l → is_u8 (nth_byte l n).
Proof.
  intros H. unfold nth_byte. destruct (l !! n) as [b|] eqn:E; [|by split].
  exact (Forall_lookup_1 _ _ _ _ H E).
Qed.
Lemma bytes_read buf off n l : buf_read buf off n = Some l → bytes buf → bytes l.
Proof.
  unfold buf_read. intros H Hb. case_match; [|done]. injection H as <-. by apply bytes_take, bytes_drop.
Qed.
Lemma bytes_write buf off src buf' :
  buf_write buf off src = Some buf' → bytes buf → bytes src → bytes buf'.
Proof.
  unfold buf_write. intros H Hb Hs. case_match; [|done]. injection H as <-.
  by apply bytes_app; [apply bytes_take | apply bytes_app; [|apply bytes_drop]].
Qed.
Lemma u8_length_eq (l : list Z) z : Z.of_nat (length l) = z → is_u8 z → (length l < 256)%nat.
Proof. unfold is_u8. lia. Qed.
Lemma read_u8_length buf off n l : buf_read buf off n = Some l → is_u8 n → (length l < 256)%nat.
Proof. intros H. apply u8_length_eq. by eapply buf_read_length. Qed.
Lemma array_bytes n l : is_array n l → bytes l.
Proof. by intros [_ H]. Qed.
Lemma array_write n buf off src buf' :
  buf_write buf off src = Some buf' → is_array n buf → bytes src → is_array n buf'.
Proof.
  intros H [Hl Hb] Hs. split; [by rewrite (buf_write_length _ _ _ _ H) | by eapply bytes_write].
Qed.
#[export] Hint Extern 1 (bytes (_ :: _)) => repeat apply bytes_cons : ty.
#[export] Hint Resolve bytes_nil bytes_app bytes_take bytes_drop bytes_replicate
  bytes_answer bytes_nth bytes_read bytes_write u8_length_eq read_u8_length array_bytes array_write : ty.

(** ** Automation *)

Lemma yields_emit e : typed_event e → yields typed (λ _, True) (emit e).
Proof.
  intros He. apply yields_update; [done|]. intros s []. constructor; sys_simpl; try assumption.
  apply Forall_app_2; [done | by constructor].
Qed.

(** Evaluates the members of an updated structure. *)
Ltac ty_simpl :=
  sys_simpl;
  cbn [gp_PreambleLength gp_PreambleMinDetect gp_SyncWordLength gp_AddrComp gp_HeaderType
       gp_PayloadLength gp_CrcLength gp_DcFree bp_PayloadLength lp_PreambleLength lp_HeaderType
       lp_PayloadLength lp_CrcMode lp_InvertIQ gm_BitRate gm_Fdev gm_ModulationShaping
       gm_Bandwidth bm_BitRate bm_ModulationShaping lm_SpreadingFactor lm_Bandwidth
       lm_CodingRate lm_LowDatarateOptimize].

Ltac ty := solve [eauto 9 with ty].

(** A structure is typed if its members are. *)
Ltac ty_record :=
  ty_simpl;
  first
    [ ty
    | lazymatch goal with
      | |- typed _ => constructor | |- typed_SubgRf _ => constructor
      | |- typed_PacketParams _ => constructor | |- typed_Gfsk _ => constructor
      | |- typed_LoRa _ => constructor | |- typed_ModulationParams _ => constructor
      | |- typed_GfskMod _ => constructor | |- typed_LoRaMod _ => constructor
      | |- typed_BpskMod _ => constructor | |- typed_PacketStatus _ => constructor
      | |- typed_RadioFw _ => constructor | |- typed_RFwInit _ => constructor
      end; ty_record
    | lazymatch goal with |- _ (if ?b then _ else _) => destruct b; ty_record end
    | idtac ].

Ltac ty_split := repeat lazymatch goal with |- _ ∧ _ => split end.
Ltac ty_event :=
  cbn [typed_event typed_call]; ty_split;
  try first [ ty | repeat case_match; ty ].
#[export] Hint Extern 1 (typed_call _) => solve [cbn [typed_call]; ty_split; ty] : ty.

Ltac known := first [ solve [eauto 9 with yields ty] | eapply yields_conseq; [solve [eauto 9 with yields ty] | done] ].
Ltac call_head m := lazymatch m with ?f _ => call_head f | _ => m end.

Ltac ty_hyps :=
  repeat match goal with
  | H : (λ _, _) _ |- _ => progress cbv beta in H
  | H : _ ∧ _ |- _ => destruct H
  | H : False |- _ => destruct H
  end.

Ltac ty_step :=
  lazymatch goal with
  | |- ∀ _, _ => intro; ty_hyps
  | |- True => exact I
  | |- yields _ _ (let _ := _ in _) => cbv zeta
  | |- yields _ _ (gets _ ≫= _) => apply yields_gets
  | |- yields _ _ (get_state ≫= _) => apply yields_get
  | |- yields _ _ (mret _ ≫= _) => apply yields_mret
  | |- yields _ _ (defined _ _ ≫= _) => apply yields_defined
  | |- yields _ _ (_ ≫= _) =>
      first [ eapply yields_bind; [solve [eauto 9 with yields ty]|]
            | apply (yields_bind _ is_u8); [solve [repeat ty_step]|]
            | apply (yields_bind _ bytes); [solve [repeat ty_step]|]
            | apply (yields_bind _ (λ _, True)) ]
  | |- yields _ _ (when _ _) => apply yields_when; [exact I|]
  | |- yields _ _ (emit _) => apply yields_emit; ty_event
  | |- yields _ _ (update _) => apply yields_update; [exact I | intros; ty_record]
  | |- yields _ _ (gets _) => apply yields_gets_ret; intros
  | |- yields _ _ skip => apply yields_skip; exact I
  | |- yields _ _ spin => apply yields_spin
  | |- yields _ _ (mret _) => apply yields_ret; try exact I; cbn [fst snd]; ty_split; try ty
  | |- yields _ _ (exit_with _) => apply yields_exit
  | |- yields _ _ (undefined _) => apply yields_undefined
  | |- yields _ _ (defined _ _) => apply yields_defined_ret; intros; try ty
  | |- yields _ _ (match ?x with _ => _ end) => destruct x eqn:?
  | |- yields _ _ ?m => first [ known | let h := call_head m in progress unfold h ]
  end.
Ltac ty_run := repeat ty_step.
Ltac ty_entry := ty_run; try ty_record.

Section Typed.
Context {env : Env}.

(** ** State.v and radio_driver.c *)

Lemma yields_GetCmd c n : yields typed bytes (HAL_SUBGHZ_ExecGetCmd c n).
Proof. unfold HAL_SUBGHZ_ExecGetCmd. ty_run. Qed.
Lemma yields_ReadRegisters a n : is_u16 a → yields typed bytes (HAL_SUBGHZ_ReadRegisters a n).
Proof. intros. unfold HAL_SUBGHZ_ReadRegisters. ty_run. Qed.
Lemma yields_ReadBuffer off n :
  is_u8 off → (n < 256)%nat → yields typed (λ l, bytes l ∧ length l = n) (HAL_SUBGHZ_ReadBuffer off n).
Proof.
  intros. unfold HAL_SUBGHZ_ReadBuffer. ty_run. by rewrite length_fmap, length_seq.
Qed.
Lemma yields_CurrentTime : yields typed is_u32 TimerGetCurrentTime.
Proof. unfold TimerGetCurrentTime. ty_run. Qed.
Lemma yields_ElapsedTime past : is_u32 past → yields typed is_u32 (TimerGetElapsedTime past).
Proof. intros. unfold TimerGetElapsedTime. ty_run. Qed.
#[local] Hint Resolve yields_GetCmd yields_ReadRegisters yields_ReadBuffer yields_CurrentTime
  yields_ElapsedTime : yields.

Lemma yields_ReadRegister a : is_u16 a → yields typed is_u8 (SUBGRF_ReadRegister a).
Proof. intros. unfold SUBGRF_ReadRegister. ty_run. Qed.
Lemma yields_WriteRegister a v :
  is_u16 a → is_u8 v → yields typed (λ _, True) (SUBGRF_WriteRegister a v).
Proof. intros. ty_run. Qed.
Lemma yields_WriteCommand c b : bytes b → yields typed (λ _, True) (SUBGRF_WriteCommand c b).
Proof. intros. ty_run. Qed.
Lemma yields_ReadCommand c n : yields typed bytes (SUBGRF_ReadCommand c n).
Proof. apply yields_GetCmd. Qed.
#[local] Hint Resolve yields_ReadRegister yields_WriteRegister yields_WriteCommand
  yields_ReadCommand : yields.

Lemma yields_SetTx t : yields typed (λ _, True) (SUBGRF_SetTx t).
Proof. ty_run. Qed.
Lemma yields_SetRx t : yields typed (λ _, True) (SUBGRF_SetRx t).
Proof. ty_run. Qed.
Lemma yields_SetRxBoosted t : yields typed (λ _, True) (SUBGRF_SetRxBoosted t).
Proof. ty_run. Qed.
Lemma yields_SetStandby c : yields typed (λ _, True) (SUBGRF_SetStandby c).
Proof. destruct c; ty_run. Qed.
Lemma yields_SetSleep c : yields typed (λ _, True) (SUBGRF_SetSleep c).
Proof. ty_run. Qed.
Lemma yields_Init d : yields typed (λ _, True) (SUBGRF_Init d).
Proof. ty_run. Qed.
Lemma yields_SetPacketType t : yields typed (λ _, True) (SUBGRF_SetPacketType t).
Proof. destruct t; ty_run. Qed.
#[local] Hint Resolve yields_SetTx yields_SetRx yields_SetRxBoosted yields_SetStandby
  yields_SetSleep yields_Init yields_SetPacketType : yields.

Lemma yields_GetRxBufferStatus :
  yields typed (λ st, is_u8 (fst st) ∧ is_u8 (snd st)) SUBGRF_GetRxBufferStatus.
Proof.
  unfold SUBGRF_GetRxBufferStatus. ty_step. intros status Hst. unfold SUBGRF_GetPacketType.
  ty_run; split; ty.
Qed.
#[local] Hint Resolve yields_GetRxBufferStatus : yields.
Lemma yields_GetPayload max :
  yields typed (λ r, is_u8 (snd (fst r)) ∧ bytes (snd r)) (SUBGRF_GetPayload max).
Proof.
  unfold SUBGRF_GetPayload. ty_step. intros [size off] [Hsize Hoff]. cbn [fst snd] in *.
  ty_step; [ty_run|].
  eapply yields_bind; [apply yields_ReadBuffer; [done | unfold is_u8 in *; lia]|].
  intros l [Hl _]. ty_run.
Qed.
Lemma yields_GetRandom : yields typed (λ _, True) SUBGRF_GetRandom.
Proof. ty_run. Qed.
Lemma yields_SymbNumTimeout n : is_u8 n → yields typed (λ _, True) (SUBGRF_SetLoRaSymbNumTimeout n).
Proof. intros. ty_run. Qed.
Lemma yields_DioIrqParams a b c d : yields typed (λ _, True) (SUBGRF_SetDioIrqParams a b c d).
Proof. ty_run. Qed.
Lemma yields_RfFrequency f : yields typed (λ _, True) (SUBGRF_SetRfFrequency f).
Proof. ty_run. Qed.
#[local] Hint Resolve yields_GetPayload yields_GetRandom yields_SymbNumTimeout
  yields_DioIrqParams yields_RfFrequency : yields.

Lemma yields_PaConfig a b c d :
  is_u8 a → is_u8 b → is_u8 c → is_u8 d → yields typed (λ _, True) (SUBGRF_SetPaConfig a b c d).
Proof. intros. ty_run. Qed.
#[local] Hint Resolve yields_PaConfig : yields.
Lemma yields_PaConfig_lp max power pa p :
  tx_power_lp max power = (pa, p) → yields typed (λ _, True) (SetPaConfig4 pa).
Proof. unfold tx_power_lp, SetPaConfig4. intros [= <- _]. repeat case_match; simplify_eq/=; ty_run. Qed.
Lemma yields_PaConfig_hp max power pa p :
  tx_power_hp max power = (pa, p) → yields typed (λ _, True) (SetPaConfig4 pa).
Proof. unfold tx_power_hp, SetPaConfig4. intros [= <- _]. repeat case_match; simplify_eq/=; ty_run. Qed.
#[local] Hint Resolve yields_PaConfig_lp yields_PaConfig_hp : yields.

Lemma yields_SetTxParams pa power ramp : yields typed (λ _, True) (SUBGRF_SetTxParams pa power ramp).
Proof. ty_run. Qed.
#[local] Hint Resolve yields_SetTxParams : yields.
Lemma yields_SetRfTxPower power : yields typed is_u8 (SUBGRF_SetRfTxPower power).
Proof. unfold SUBGRF_SetRfTxPower. ty_run. all: repeat case_match; ty. Qed.
Lemma yields_SetSwitch pa rxtx : yields typed (λ _, True) (SUBGRF_SetSwitch pa rxtx).
Proof. ty_run. Qed.
Lemma yields_ModulationParams p : yields typed (λ _, True) (SUBGRF_SetModulationParams p).
Proof. ty_run. Qed.
Lemma yields_PacketParams p :
  typed_PacketParams p → yields typed (λ _, True) (SUBGRF_SetPacketParams p).
Proof. intros. ty_run. Qed.
Lemma yields_GetPacketStatus old :
  typed_PacketStatus old → yields typed typed_PacketStatus (SUBGRF_GetPacketStatus old).
Proof.
  intros. unfold SUBGRF_GetPacketStatus, SUBGRF_GetPacketType, zero_status. ty_run; constructor; cbn; ty.
Qed.
Lemma yields_RssiInst : yields typed is_i8 SUBGRF_GetRssiInst.
Proof. unfold SUBGRF_GetRssiInst. ty_run. Qed.
Lemma yields_GetCFO b : yields typed (λ _, False) (SUBGRF_GetCFO b).
Proof. apply yields_exit. Qed.
Lemma yields_FskBandwidth b : yields typed (λ _, False) (SUBGRF_GetFskBandwidthRegValue b).
Proof. apply yields_exit. Qed.
#[local] Hint Resolve yields_SetRfTxPower yields_SetSwitch yields_ModulationParams
  yields_PacketParams yields_GetPacketStatus yields_RssiInst yields_GetCFO yields_FskBandwidth
  : yields.
End Typed.

#[export] Hint Resolve yields_GetCmd yields_ReadRegisters yields_ReadBuffer yields_CurrentTime
  yields_ElapsedTime yields_ReadRegister yields_WriteRegister yields_WriteCommand
  yields_ReadCommand yields_SetTx yields_SetRx yields_SetRxBoosted yields_SetStandby
  yields_SetSleep yields_Init yields_SetPacketType yields_GetRxBufferStatus yields_GetPayload
  yields_GetRandom yields_SymbNumTimeout yields_DioIrqParams yields_RfFrequency yields_PaConfig
  yields_PaConfig_lp yields_PaConfig_hp yields_SetTxParams yields_SetRfTxPower yields_SetSwitch
  yields_ModulationParams yields_PacketParams yields_GetPacketStatus yields_RssiInst
  yields_GetCFO yields_FskBandwidth : yields.
