(* ===== verification/TypedStack.v ===== *)
(** * The radio stack keeps to its C types.

    Every function of radio_fw.c and radio.c keeps the invariant of CTypes.v and
    returns a value of its result type; so does every entry point. *)

From S2P Require Import Prelude Effects RadioTypes State Mem RadioDriver.
From S2P Require Import RadioFw TimeOnAir Radio RadioGeneric Sigfox Api CTypes TypedDriver.

Section Typed.
Context {cfg : Config} {env : Env}.

(** ** radio_fw.c *)

Lemma white_step_is_u16 s : is_u16 (white_step s).
Proof. apply u16_is_u16. Qed.
Lemma white_next_is_u16 s : is_u16 (white_next s).
Proof. apply white_step_is_u16. Qed.
Lemma white_run_typed p : ∀ s, is_u16 s → bytes (fst (white_run s p)) ∧ is_u16 (snd (white_run s p)).
Proof.
  induction p as [|b p IH]; intros s Hs; cbn [white_run]; [by split; [constructor|]|].
  destruct (IH _ (white_next_is_u16 s)) as [Hb Hs']. destruct (white_run _ p) as [out s'].
  split; [constructor; [apply u8_is_u8 | exact Hb] | exact Hs'].
Qed.
Lemma crc_byte_is_u16 c d pol : is_u16 (RFW_CrcRun1Byte c d pol).
Proof.
  unfold RFW_CrcRun1Byte. rewrite (Nat.iter_succ 7). destruct (Nat.iter 7 _ _) as [c' d'].
  unfold crc_round. case_match; apply u16_is_u16.
Qed.
Lemma crc_run_is_u16 pol c p : is_u16 c → is_u16 (crc_run pol c p).
Proof. intros Hc. unfold crc_run. apply (fold_left_keeps is_u16); [|done]. intros. apply crc_byte_is_u16. Qed.
Lemma crc_result_bytes t c : bytes (crc_result t c).
Proof. unfold crc_result. ty. Qed.
#[local] Hint Resolve crc_run_is_u16 crc_result_bytes : ty.

Lemma yields_read_chunk off n :
  yields typed (λ l, bytes l ∧ Z.of_nat (length l) = n) (read_chunk off n).
Proof.
  unfold read_chunk. ty_step. intros s Hs. ty_run. split; [ty | by eapply buf_read_length].
Qed.
Lemma yields_write_chunk off src : bytes src → yields typed (λ _, True) (write_chunk off src).
Proof. intros. ty_run. Qed.
Lemma yields_write_rx off src : bytes src → yields typed (λ _, True) (write_rx off src).
Proof. intros. ty_run. Qed.
#[local] Hint Resolve yields_read_chunk yields_write_chunk yields_write_rx : yields.
Lemma yields_WhiteRun off n : yields typed (λ _, True) (RFW_WhiteRun off n).
Proof.
  unfold RFW_WhiteRun, upd_rfw. ty_step. intros l [Hl _]. ty_step. intros s Hs.
  destruct (white_run_typed l (WhiteLfsrState (RFWPacket s))) as [Hb Hw]; [ty|].
  destruct (white_run _ _) as [out st]. ty_run.
Qed.
Lemma yields_CrcRun off n : yields typed bytes (RFW_CrcRun off n).
Proof. unfold RFW_CrcRun, upd_rfw. ty_step. intros l [Hl _]. ty_run. Qed.
#[local] Hint Resolve yields_WhiteRun yields_CrcRun : yields.

(** The application and the calls it answers. *)
Context (app : typed_application).

Lemma yields_call_app c : typed_call c → yields typed (λ _, True) (call_app c).
Proof.
  intros Hc. unfold call_app. eapply yields_bind; [by apply yields_emit|]. intros _ _.
  apply yields_update; [exact I|]. intros s. apply (ty_app_reaction app).
Qed.
#[local] Hint Resolve yields_call_app : yields.
Lemma yields_call_event sel c : typed_call c → yields typed (λ _, True) (call_event sel c).
Proof. intros. ty_run. Qed.
Lemma yields_next_chunk n : is_u8 n → yields typed bytes (get_next_chunk n).
Proof.
  intros. unfold get_next_chunk. ty_run. eapply bytes_read; [eassumption|].
  apply ty_next_chunk; exact app.
Qed.
Lemma yields_by_BitRate div :
  (∀ r, 0 < r → is_u32 (div r)) → yields typed is_u32 (by_BitRate div).
Proof.
  intros H. unfold by_BitRate. ty_step. intros s Hs. case_match; ty_run. apply H.
  pose proof (ty_BitRate _ (ty_RFWPacket _ Hs)) as [? _]. lia.
Qed.
#[local] Hint Resolve yields_call_event yields_next_chunk yields_by_BitRate : yields.

Lemma yields_poll_loop fuel : ∀ now timeout n ref ptr, is_u32 now →
  yields typed (λ _, True) (poll_loop fuel now timeout n ref ptr).
Proof.
  induction fuel as [|fuel IH]; intros; cbn [poll_loop]; ty_run.
Qed.
#[local] Hint Resolve yields_poll_loop : yields.
Lemma yields_PollRxBytes fuel n : yields typed (λ _, True) (RFW_PollRxBytes fuel n).
Proof. ty_run. Qed.
#[local] Hint Resolve yields_PollRxBytes : yields.

Lemma yields_GetPacketLength fuel :
  yields typed (λ len, match len with Some n => is_u16 n | None => True end) (RFW_GetPacketLength fuel).
Proof. unfold RFW_GetPacketLength. ty_run. Qed.
Definition typed_ConfigGeneric (c : ConfigGeneric_t) : Prop :=
  match c with CONFIG_TX_of c => typed_TxConfig c | CONFIG_RX_of c => typed_RxConfig c end.

Lemma tx_as_fsk_typed c m : tx_as_fsk c = Some m → typed_TxConfig c → typed_tx_msk m.
Proof. destruct c; intros [= <-]; cbn; tauto. Qed.
Lemma yields_RFW_Init_read c t :
  typed_ConfigGeneric c →
  yields typed (λ r, match r with (header, crc, max, white, pol, seed) =>
      is_enum crc ∧ is_u16 white ∧ is_u16 pol ∧ is_u16 seed end) (RFW_Init_read c t).
Proof.
  intros Hc. destruct c as [c|c]; cbn [RFW_Init_read].
  - ty_step. intros m Hm. pose proof (tx_as_fsk_typed _ _ Hm Hc). unfold upd_rfw. ty_run.
  - destruct Hc as [Hf _]. unfold upd_rfw. ty_run.
Qed.
Lemma yields_RFW_Init c ev t : typed_ConfigGeneric c → yields typed (λ _, True) (RFW_Init c ev t).
Proof.
  intros. unfold RFW_Init. ty_step; [ty_run|]. eapply yields_bind; [by apply yields_RFW_Init_read|].
  intros [[[[[header crc] max] white] pol] seed] (? & ? & ? & ?). ty_run.
Qed.
#[local] Hint Resolve yields_GetPacketLength yields_RFW_Init : yields.

Lemma receive_timeout_is_u32 n r : 0 < r → is_u32 (receive_timeout n r).
Proof. unfold receive_timeout. intros. repeat case_match; ty. Qed.
Lemma next_chunk_timeout_is_u32 n r : 0 < r → is_u32 (next_chunk_timeout n r).
Proof. unfold next_chunk_timeout. intros. repeat case_match; ty. Qed.
#[local] Hint Resolve receive_timeout_is_u32 next_chunk_timeout_is_u32 : ty.

Lemma yields_TransmitInit b n : bytes b → is_u8 n →
  yields typed (λ r, bytes (snd (fst r)) ∧ is_u8 (snd r)) (RFW_TransmitInit b n).
Proof. intros. unfold RFW_TransmitInit. ty_run. Qed.
Lemma yields_ReceiveInit : yields typed (λ _, True) RFW_ReceiveInit.
Proof. ty_run. Qed.
Lemma yields_ReceivePayload fuel : yields typed (λ _, True) (RFW_ReceivePayload fuel).
Proof. ty_run. Qed.
Lemma yields_crc_if_enabled off n : yields typed bytes (crc_if_enabled off n).
Proof. unfold crc_if_enabled. ty_run. Qed.
Lemma cfo_khz_is_i8 c : is_i8 (cfo_khz c).
Proof. apply i8_is_i8. Qed.
#[local] Hint Resolve yields_ReceivePayload yields_crc_if_enabled : yields.
#[local] Hint Resolve cfo_khz_is_i8 : ty.
Lemma yields_report n crc : yields typed (λ _, True) (RFW_GetPayload_report n crc).
Proof. ty_run. Qed.
#[local] Hint Resolve yields_report : yields.
Lemma yields_RFW_GetPayload off n : is_u8 off → is_u8 n → yields typed (λ _, True) (RFW_GetPayload off n).
Proof. intros. ty_run. Qed.
#[local] Hint Resolve yields_RFW_GetPayload : yields.
Lemma yields_GetPayloadProcess : yields typed (λ _, True) RFW_GetPayloadProcess.
Proof. ty_run. Qed.

Lemma first_chunk_size n i a b : first_chunk_sizes n i = (a, b) → is_u8 a.
Proof. unfold first_chunk_sizes. intros H. repeat case_match; simplify_eq; ty. Qed.
Lemma next_tx_chunk_size r sent loaded crc a b more :
  next_tx_chunk r sent loaded crc = (a, b, more) → is_u8 sent → is_u8 crc → is_u8 a.
Proof. unfold next_tx_chunk. intros H **. repeat case_match; simplify_eq; ty. Qed.
#[local] Hint Resolve first_chunk_size next_tx_chunk_size div_is_u32 : ty.
Lemma yields_Long_start n t : is_u32 t → yields typed (λ _, True) (RFW_TransmitLongPacket_start n t).
Proof. intros. ty_run. Qed.
#[local] Hint Resolve yields_GetPayloadProcess yields_Long_start : yields.
Lemma yields_TransmitLong n t cb :
  is_u32 t → yields typed (λ _, True) (RFW_TransmitLongPacket n t cb).
Proof. intros. ty_run. Qed.
Lemma yields_ReceiveLong b t cb : is_u32 t → yields typed (λ _, True) (RFW_ReceiveLongPacket b t cb).
Proof. intros. ty_run. Qed.
Lemma yields_TxChunkProcess : yields typed (λ _, True) RFW_TransmitLongPacket_TxChunkProcess.
Proof. ty_run. Qed.
#[local] Hint Resolve yields_TransmitInit yields_TransmitLong yields_ReceiveLong
  yields_TxChunkProcess : yields.

(** ** radio.c *)

Lemma integrate_bits_bytes ib l : ∀ p o, 0 <= p < 2 → bytes o →
  let r := fold_left (integrate_bit ib) l (p, o) in 0 <= fst r < 2 ∧ bytes (snd r).
Proof.
  induction l as [|i l IH]; intros p o Hp Ho; [done|]. cbn [fold_left]. unfold integrate_bit at 2.
  apply IH; [|by apply Forall_insert; [|apply u8_is_u8]].
  assert (p = 0 ∨ p = 1) as [-> | ->] by lia;
    (match goal with |- context [Z.land ?x 1] =>
       pose proof (land_range 1 1 x ltac:(lia) ltac:(lia)) as Hl; rewrite Z.land_comm in Hl;
       assert (Z.land x 1 = 0 ∨ Z.land x 1 = 1) as [-> | ->] by lia end); by split.
Qed.
Lemma payload_integration_bytes out inb n out' inb' :
  payload_integration out inb n = Some (out', inb') → is_array 255 out → bytes inb →
  is_array 255 out' ∧ bytes inb'.
Proof.
  intros H [Hl Ho] Hi. pose proof (payload_integration_length _ _ _ _ _ H) as Hl'. revert H.
  unfold payload_integration. case_match; [|done].
  match goal with |- context [fold_left (integrate_bit ?i) ?l (0, ?o)] =>
    pose proof (integrate_bits_bytes i l 0 o ltac:(lia) ltac:(ty)) as Hb;
    destruct (fold_left _ _ _) as [p o'] end.
  cbn [fst snd] in Hb. destruct Hb as [Hp Hb]. intros [= <- <-].
  split; [split; [lia|] | apply bytes_app; ty].
  apply Forall_insert; [done|]. by assert (p = 0 ∨ p = 1) as [-> | ->] by lia.
Qed.

Lemma yields_write_radio b : bytes b → yields typed (λ _, True) (write_radio b).
Proof. intros. ty_run. Qed.
Lemma yields_integrate_payload b n : bytes b → yields typed bytes (integrate_payload b n).
Proof.
  intros Hb. unfold integrate_payload. ty_step. intros s Hs. ty_step. intros [out inb] H.
  apply payload_integration_bytes in H as [Ho Hi]; [|ty|done]. cbn [fst snd]. ty_run.
Qed.
Lemma yields_call_radio_event sel c :
  typed_call c → yields typed (λ _, True) (call_radio_event sel c).
Proof. intros. ty_run. Qed.
#[local] Hint Resolve yields_write_radio yields_integrate_payload yields_call_radio_event : yields.

Lemma yields_RadioInit ev : yields typed (λ _, True) (RadioInit ev).
Proof. ty_run. Qed.
Lemma yields_SetModem_fuel fuel : ∀ m, yields typed (λ _, True) (SetModem_fuel fuel m).
Proof.
  induction fuel as [|fuel IH]; intros m; cbn [SetModem_fuel]; [apply yields_spin|].
  unfold SetPublicNetwork_with. ty_run.
Qed.
Lemma yields_SetModem m : yields typed (λ _, True) (RadioSetModem m).
Proof. apply yields_SetModem_fuel. Qed.
#[local] Hint Resolve yields_SetModem_fuel yields_SetModem : yields.
Lemma yields_MaxPayloadLength m n :
  is_u8 n → yields typed (λ _, True) (RadioSetMaxPayloadLength m n).
Proof. intros. ty_run. Qed.
Lemma bandwidth_is_enum b bw : Bandwidths !! b = Some bw → is_enum bw.
Proof. do 3 (destruct b as [|b]; [intros [= <-]; ty|]). done. Qed.
Lemma lora_preamble_is_u16 sf n : is_u16 n → is_u16 (lora_preamble sf n).
Proof. intros. unfold lora_preamble. ty. Qed.
#[local] Hint Resolve bandwidth_is_enum lora_preamble_is_u16 : ty.
Lemma yields_store_lora bw dr cr pre f c iq :
  is_u32 dr → is_u8 cr → is_u16 pre → yields typed (λ _, True) (store_lora_params bw dr cr pre f c iq).
Proof. intros. ty_run. Qed.
Lemma yields_apply_params m : yields typed (λ _, True) (apply_params m).
Proof. ty_run. Qed.
#[local] Hint Resolve yields_MaxPayloadLength yields_store_lora yields_apply_params : yields.
Lemma yields_SetRxConfig m bw dr cr afc pre symb fix_ len crc hop period iq cont :
  is_u32 dr → is_u8 cr → is_u16 pre → is_u8 len →
  yields typed (λ _, True) (RadioSetRxConfig m bw dr cr afc pre symb fix_ len crc hop period iq cont).
Proof. intros. ty_run. Qed.
Lemma yields_SetTxConfig m power fdev bw dr cr pre fix_ crc hop period iq t :
  is_u32 dr → is_u8 cr → is_u16 pre → is_u32 t →
  yields typed (λ _, True) (RadioSetTxConfig m power fdev bw dr cr pre fix_ crc hop period iq t).
Proof. intros. ty_run. Qed.
#[local] Hint Resolve yields_RadioInit yields_SetRxConfig yields_SetTxConfig : yields.

Lemma yields_clear_bit r n : is_u16 r → yields typed (λ _, True) (clear_register_bit r n).
Proof. intros. ty_run. Qed.
Lemma yields_set_bit r n : is_u16 r → yields typed (λ _, True) (set_register_bit r n).
Proof. intros. ty_run. Qed.
#[local] Hint Resolve yields_clear_bit yields_set_bit : yields.
Lemma yields_send_stored b n t : bytes b → is_u8 n → yields typed (λ _, True) (send_stored b n t).
Proof. intros. ty_run. Qed.
#[local] Hint Resolve yields_send_stored : yields.
Lemma yields_send_fsk b n : bytes b → is_u8 n → yields typed (λ _, True) (send_fsk b n).
Proof.
  intros. unfold send_fsk, upd_SubgRf. ty_step; [ty_run|]. intros init _. ty_step; [|ty_run].
  eapply yields_bind; [by apply yields_TransmitInit|]. intros [[st b'] n'] [Hb Hn]. cbn [fst snd] in *.
  ty_run.
Qed.
Lemma yields_send_sigfox b n : bytes b → is_u8 n → yields typed (λ _, True) (send_sigfox b n).
Proof. intros. ty_run. Qed.
#[local] Hint Resolve yields_send_fsk yields_send_sigfox : yields.
Lemma yields_Send b n : bytes b → is_u8 n → yields typed (λ _, True) (RadioSend b n).
Proof. intros. ty_run. Qed.
Lemma yields_TxContinuousWave f p t : yields typed (λ _, True) (RadioSetTxContinuousWave f p t).
Proof. ty_run. Qed.
Lemma yields_Rx t : is_u32 t → yields typed (λ _, True) (RadioRx t).
Proof. intros. ty_run. Qed.
Lemma yields_RxBoosted t : is_u32 t → yields typed (λ _, True) (RadioRxBoosted t).
Proof. intros. ty_run. Qed.
Lemma yields_carrier_sense fuel : ∀ start max thresh, is_u32 start →
  yields typed (λ _, True) (carrier_sense fuel start max thresh).
Proof.
  induction fuel as [|fuel IH]; intros; cbn [carrier_sense]; [apply yields_spin | ty_run].
Qed.
#[local] Hint Resolve yields_Send yields_Rx yields_RxBoosted yields_carrier_sense : yields.
Lemma yields_IsChannelFree fuel f bw thresh max :
  yields typed (λ _, True) (RadioIsChannelFree fuel f bw thresh max).
Proof. ty_run. Qed.

(** ** Interrupts *)

Lemma yields_report_rx n : is_u8 n → yields typed (λ _, True) (report_rx n).
Proof. intros. ty_run. Qed.
#[local] Hint Resolve yields_report_rx : yields.
Lemma yields_irq_rx_done : yields typed (λ _, True) irq_rx_done.
Proof.
  ty_run.
Qed.
#[local] Hint Resolve yields_irq_rx_done : yields.
Lemma yields_IrqProcess fuel : yields typed (λ _, True) (RadioIrqProcess fuel).
Proof. ty_run. Qed.
#[local] Hint Resolve yields_IrqProcess : yields.
Lemma yields_OnDioIrq fuel irq : is_enum irq → yields typed (λ _, True) (RadioOnDioIrq fuel irq).
Proof. intros. ty_run. Qed.

(** ** Generic configurations *)

Lemma yields_copy_syncword w n : bytes w → yields typed bytes (copy_syncword w n).
Proof. intros. unfold copy_syncword. ty_run. Qed.
Lemma yields_by_rfw_or_radio c t w h crc :
  typed_ConfigGeneric c → is_enum w → is_enum h → is_enum crc →
  yields typed (λ _, True) (packet_by_rfw_or_radio c t w h crc).
Proof. intros. ty_run. Qed.
Lemma yields_low_datarate opt sf : yields typed (λ _, True) (set_low_datarate opt sf).
Proof. ty_run. Qed.
#[local] Hint Resolve yields_copy_syncword yields_by_rfw_or_radio yields_low_datarate : yields.
Lemma yields_store_modulation sf bw cr opt :
  is_enum sf → is_enum bw → is_enum cr →
  yields typed (λ _, True) (store_lora_modulation sf bw cr opt).
Proof. intros. ty_run. Qed.
Lemma yields_apply_fsk m w seed pol :
  bytes w → yields typed (λ _, True) (apply_fsk_params m w seed pol).
Proof. intros. ty_run. Qed.
#[local] Hint Resolve yields_store_modulation yields_apply_fsk : yields.
Lemma yields_rx_generic_fsk c symb :
  typed_RxConfig c → yields typed (λ _, True) (rx_generic_fsk c symb).
Proof. intros Hc. pose proof Hc as [Hf _]. ty_run. Qed.
Lemma yields_rx_generic_lora c symb :
  typed_RxConfig c → yields typed (λ _, True) (rx_generic_lora c symb).
Proof. intros [_ Hl]. ty_run. Qed.
#[local] Hint Resolve yields_rx_generic_fsk yields_rx_generic_lora : yields.
Lemma quarter_is_u32 a : is_u32 a → is_u32 (a / 4).
Proof. intros. by apply div_is_u32. Qed.
#[local] Hint Resolve quarter_is_u32 : ty.
Lemma yields_tx_generic_msk c : typed_TxConfig c → yields typed (λ _, True) (tx_generic_msk c).
Proof.
  intros Hc. unfold tx_generic_msk, tx_member. ty_step. intros m Hm.
  pose proof (tx_as_fsk_typed _ _ Hm Hc). ty_run.
Qed.
Lemma yields_tx_generic_fsk c : typed_TxConfig c → yields typed (λ _, True) (tx_generic_fsk c).
Proof.
  intros Hc. unfold tx_generic_fsk, tx_member. ty_step. intros f Hf.
  destruct c; try discriminate. pose proof Hc as [Hm Hd]. injection Hf as ->. ty_run.
Qed.
Lemma yields_tx_generic_lora c : typed_TxConfig c → yields typed (λ _, True) (tx_generic_lora c).
Proof.
  intros Hc. unfold tx_generic_lora, tx_member. ty_step. intros l Hl.
  destruct c; try discriminate. injection Hl as ->. cbn [typed_TxConfig] in Hc. ty_run.
Qed.
Lemma yields_tx_generic_bpsk c : typed_TxConfig c → yields typed (λ _, True) (tx_generic_bpsk c).
Proof.
  intros Hc. unfold tx_generic_bpsk, tx_member. ty_step. intros b Hb.
  assert (is_u32 b) by (destruct c as [[]| | |]; cbn in Hb, Hc; simplify_eq; ty_hyps; ty).
  ty_run.
Qed.
#[local] Hint Resolve yields_tx_generic_msk yields_tx_generic_fsk yields_tx_generic_lora
  yields_tx_generic_bpsk : yields.
Lemma yields_SetTxGeneric m c p t :
  typed_TxConfig c → is_u32 t → yields typed (λ _, True) (RadioSetTxGenericConfig m c p t).
Proof. intros. ty_run. Qed.
#[local] Hint Resolve yields_SetTxGeneric yields_OnDioIrq yields_TxContinuousWave
  yields_IsChannelFree : yields.

(** ** The entry points *)

Lemma yields_ignore {A} (m : M Sys A) :
  yields typed (λ _, True) m → yields typed (λ _, True) (ignore m).
Proof. intros H. eapply yields_bind; [exact H|]. intros. by apply yields_skip. Qed.

Lemma run_typed e : typed_entry e → keeps typed (run e).
Proof.
  intros He. apply (yields_keeps _ (λ _, True)).
  destruct e; cbn [run typed_entry] in *; ty_hyps; first [apply yields_ignore | idtac]; ty_run.
Qed.
End Typed.

Lemma typed_boot : typed boot.
Proof.
  assert (is_array 255 (replicate 255 0)) by (split; [done | apply bytes_replicate; by split]).
  repeat constructor; try done; by vm_compute.
Qed.

(** No integer of the model leaves its C type.  In every state that the
    functions of [struct Radio_s], the interrupts and the timers reach from boot,
    called in any order with arguments of their C types, whatever the radio
    answers: the variables and the members of the structures are within their
    types, the three buffers are arrays of 255 bytes, and every command, register
    write, buffer access, timer value and call of the application had arguments
    of the types of its prototype. *)
Theorem reachable_typed {cfg : Config} {env : Env} (s : Sys) :
  typed_application → reachable typed_entry s → typed s.
Proof. intros app. apply reachable_invariant; [apply typed_boot | by apply run_typed]. Qed.

Lemma reachable_typed_witness :
  let env := quiet_env [] (λ _, 0) in
  let cfg := rfw_config in
  let s := final (run (Call_Send [1; 2; 3] 3) (final (run (Call_SetTxConfig MODEM_LORA 14 0 0 7 1 8
             false true false 0 false 3000) (final (run (Call_Init None) boot))))) in
  Forall typed_event (trace s) ∧ last (trace s) = Some (EvTimerStart TxTimeoutTimer).
Proof.
  intros env cfg s. split; [|vm_compute; reflexivity].
  assert (Happ : typed_application).
  { split; [intros c t H; exact H|]. intros tr n. apply bytes_replicate. by split. }
  assert (Hs : reachable typed_entry s).
  { do 3 (apply reachable_step; [|cbn [typed_entry]; repeat split; by repeat constructor]).
    apply reachable_boot. }
  exact (ty_trace _ (reachable_typed s Happ Hs)).
Defined.
