(* ===== verification/RadioProofs.v ===== *)
(** * radio.c: properties of the radio API. *)

From S2P Require Import Prelude Effects RadioTypes State Mem RadioDriver.
From S2P Require Import DriverProofs RadioFw TimeOnAir Radio RadioGeneric.

Section Radio.
Context {cfg : Config} {env : Env}.

(** ** The modem *)

(** The packet type that a modem uses. *)
Definition packet_type_of (m : RadioModems_t) : RadioPacketTypes_t :=
  match m with
  | MODEM_FSK => PACKET_TYPE_GFSK
  | MODEM_LORA => PACKET_TYPE_LORA
  | MODEM_BPSK => PACKET_TYPE_BPSK
  | MODEM_SIGFOX_TX => if RADIO_SIGFOX_ENABLE then PACKET_TYPE_BPSK else PACKET_TYPE_GMSK
  | MODEM_SIGFOX_RX => if RADIO_SIGFOX_ENABLE then PACKET_TYPE_GFSK else PACKET_TYPE_GMSK
  | MODEM_MSK => PACKET_TYPE_GMSK
  end.

(** What [RFW_SetRadioModem] does to [RFWPacket]. *)
Definition rfw_modem (m : RadioModems_t) (f : RadioFw_t) : RadioFw_t :=
  if RFW_ENABLE then f <| Init ; rfw_Modem := m |> else f.

(** What [RadioSetModem] establishes, by way of the interactions [es]. *)
Definition modem_state (m : RadioModems_t) (es : list HalEvent) (s : Sys) : Sys :=
  s <| SubgRf := SubgRf s <| Modem := m |>
                   <| PublicNetwork_Current :=
                        if decide (m = MODEM_LORA) then PublicNetwork_Previous (SubgRf s) else false |> |>
    <| RFWPacket := rfw_modem m (RFWPacket s) |>
    <| PacketType := packet_type_of m |>
    <| trace := trace s ++ es |>.

Lemma SetPacketType_eq t s :
  ∃ es, SUBGRF_SetPacketType t s = Ret tt (s <| PacketType := t |> <| trace := trace s ++ es |>).
Proof.
  unfold SUBGRF_SetPacketType. erewrite bind_Ret by reflexivity.
  destruct (bool_decide (t = PACKET_TYPE_GFSK)); eexists; [|reflexivity].
  erewrite bind_Ret by reflexivity. unfold SUBGRF_WriteCommand, HAL_SUBGHZ_ExecSetCmd.
  rewrite emit_eq. sys_simpl. rewrite <- app_assoc. reflexivity.
Qed.

Lemma RFW_SetRadioModem_eq m s :
  RFW_SetRadioModem m s = Ret tt (s <| RFWPacket := rfw_modem m (RFWPacket s) |>).
Proof.
  unfold RFW_SetRadioModem, rfw_modem, upd_rfw, when. destruct RFW_ENABLE; [reflexivity | by destruct s].
Qed.

Lemma rfw_modem_twice m f : rfw_modem m (rfw_modem m f) = rfw_modem m f.
Proof. unfold rfw_modem. by destruct RFW_ENABLE. Qed.

(** A modem other than LoRa does not need the second function. *)
Lemma SetModem_fuel_simple fuel m s :
  (m = MODEM_LORA → PublicNetwork_Current (SubgRf s) = PublicNetwork_Previous (SubgRf s)) →
  ∃ es, SetModem_fuel (S fuel) m s = Ret tt (modem_state m es s).
Proof.
  intros Heq. cbn [SetModem_fuel]. erewrite bind_Ret by reflexivity.
  erewrite bind_Ret by apply RFW_SetRadioModem_eq.
  set (s1 := _ <| RFWPacket := _ |>).
  assert (Hother : ∀ t, m ≠ MODEM_LORA → packet_type_of m = t →
    ∃ es, (SUBGRF_SetPacketType t;; reset_public) s1 = Ret tt (modem_state m es s)).
  { intros t Hm Ht. destruct (SetPacketType_eq t s1) as [es He]. erewrite bind_Ret by exact He.
    exists es. unfold modem_state. rewrite decide_False, Ht by done. reflexivity. }
  destruct m; try (by apply Hother); try (by destruct RADIO_SIGFOX_ENABLE eqn:E; apply Hother;
    cbn; rewrite ?E).
  destruct (SetPacketType_eq PACKET_TYPE_LORA s1) as [es He]. erewrite bind_Ret by exact He.
  erewrite bind_Ret by reflexivity. unfold s1. sys_simpl. rewrite Heq by done.
  rewrite eqb_reflx. exists es. unfold modem_state. rewrite decide_True by done.
  sys_simpl. rewrite <- Heq by done. reflexivity.
Qed.

(** The registers that [RadioSetPublicNetwork] writes. *)
Definition sync_word_events (word : Z) : list HalEvent :=
  [EvWriteRegisters REG_LR_SYNCWORD [byte_at 8 word];
   EvWriteRegisters (REG_LR_SYNCWORD + 1) [byte_at 0 word]].
Definition sync_word (enable : bool) : Z :=
  if enable then LORA_MAC_PUBLIC_SYNCWORD else LORA_MAC_PRIVATE_SYNCWORD.

Lemma SetPublicNetwork_fuel fuel enable s :
  ∃ es, SetPublicNetwork_with (SetModem_fuel (S fuel)) enable s =
    Ret tt (modem_state MODEM_LORA (es ++ sync_word_events (sync_word enable))
              (s <| SubgRf := SubgRf s <| PublicNetwork_Previous := enable |>
                                        <| PublicNetwork_Current := enable |> |>)).
Proof.
  unfold SetPublicNetwork_with. erewrite bind_Ret by reflexivity.
  match goal with |- context [(SetModem_fuel _ _ ≫= _) ?s1] =>
    destruct (SetModem_fuel_simple fuel MODEM_LORA s1) as (es & E) end.
  { reflexivity. }
  erewrite bind_Ret by exact E. exists es. unfold modem_state. sys_simpl.
  rewrite app_assoc. unfold sync_word_events. erewrite bind_Ret by reflexivity.
  unfold SUBGRF_WriteRegister, HAL_SUBGHZ_WriteRegisters. rewrite emit_eq. sys_simpl.
  rewrite <- !app_assoc. reflexivity.
Qed.

Lemma SetModem_eq m s : ∃ es, RadioSetModem m s = Ret tt (modem_state m es s).
Proof.
  unfold RadioSetModem.
  destruct (decide (m = MODEM_LORA ∧ PublicNetwork_Current (SubgRf s) ≠ PublicNetwork_Previous (SubgRf s)))
    as [[-> Hne]|Hs].
  2: { apply SetModem_fuel_simple. intros ->.
       destruct (decide (PublicNetwork_Current (SubgRf s) = PublicNetwork_Previous (SubgRf s))); tauto. }
  change (SetModem_fuel 2) with (SetModem_fuel (S 1)). remember 1%nat as k. cbn [SetModem_fuel].
  subst k. erewrite bind_Ret by reflexivity. erewrite bind_Ret by apply RFW_SetRadioModem_eq.
  set (s1 := _ <| RFWPacket := _ |>).
  destruct (SetPacketType_eq PACKET_TYPE_LORA s1) as [es He]. erewrite bind_Ret by exact He.
  erewrite bind_Ret by reflexivity. unfold s1. sys_simpl.
  destruct (eqb _ _) eqn:E; [by apply eqb_prop in E|]. unfold negb, when.
  do 2 (erewrite bind_Ret by reflexivity). sys_simpl.
  match goal with |- context [SetPublicNetwork_with _ ?b ?s3] =>
    destruct (SetPublicNetwork_fuel 0 b s3) as (es' & E4) end.
  eexists (_ ++ _). rewrite E4. unfold modem_state. rewrite decide_True by done. sys_simpl.
  rewrite rfw_modem_twice, <- app_assoc. reflexivity.
Qed.

(** C31: [RadioSetModem] and [RadioSetPublicNetwork], which call each other,
    always return: at most one nested call is made.  The first leaves the modem
    and its packet type, keeps the network flag of a LoRa modem up to date and
    clears it for the others; the second leaves the LoRa modem with the sync
    word of the network in its two registers. *)
Theorem modem_and_network (m : RadioModems_t) (enable : bool) (s : Sys) :
  (∃ es, RadioSetModem m s = Ret tt (modem_state m es s)) ∧
  (∃ s' tr, RadioSetPublicNetwork enable s = Ret tt s' ∧
    Modem (SubgRf s') = MODEM_LORA ∧ PacketType s' = PACKET_TYPE_LORA ∧
    PublicNetwork_Previous (SubgRf s') = enable ∧ PublicNetwork_Current (SubgRf s') = enable ∧
    trace s' = tr ++ [EvWriteRegisters REG_LR_SYNCWORD [if enable then 0x34 else 0x14];
                      EvWriteRegisters (REG_LR_SYNCWORD + 1) [if enable then 0x44 else 0x24]]).
Proof.
  split; [apply SetModem_eq|].
  destruct (SetPublicNetwork_fuel 1 enable s) as (es & E).
  eexists _, (trace s ++ es). split; [exact E|]. repeat (split; [reflexivity|]).
  cbn -[app]. rewrite app_assoc. by destruct enable.
Qed.

(** ** What the simulator does not support *)

Lemma SetRxConfig_unsupported m bw dr cr afc pre symb fix_ len crc hop period iq cont s :
  m ≠ MODEM_LORA →
  RadioSetRxConfig m bw dr cr afc pre symb fix_ len crc hop period iq cont s =
    Exit "Lora is the only modem type supported by lora-simulator" s.
Proof. intros H. unfold RadioSetRxConfig. by rewrite bool_decide_false. Qed.

Lemma SetStandby_eq c s :
  SUBGRF_SetStandby c s =
    Ret tt (s <| OperatingMode := if decide (c = STDBY_RC) then MODE_STDBY_RC else MODE_STDBY_XOSC |>
              <| trace := trace s ++ [EvSetCmd RADIO_SET_STANDBY [RadioStandbyModes_t_code c]] |>).
Proof. reflexivity. Qed.

Lemma SetRfFrequency_ret f s :
  ∃ s', SUBGRF_SetRfFrequency f s = Ret tt s' ∧ OperatingMode s' = OperatingMode s.
Proof.
  unfold SUBGRF_SetRfFrequency. erewrite bind_Ret by reflexivity.
  destruct (ImageCalibrated s); eexists; split; reflexivity.
Qed.

Lemma does_defined {A} why (a : A) s : does (defined why (Some a)) s a [].
Proof. apply does_ret. Qed.

Lemma RFW_DeInit_eq s : ∃ f, RFW_DeInit s = Ret tt (s <| RFWPacket := f |>).
Proof.
  unfold RFW_DeInit, upd_rfw, when. destruct RFW_ENABLE; eexists; [reflexivity|].
  instantiate (1 := RFWPacket s). by destruct s.
Qed.

(** The FSK paths end the process: [RadioIsChannelFree] for every argument,
    since it configures an FSK reception, [RadioSetRxConfig] for every modem but
    LoRa, [RadioSetTxConfig] for the FSK modem, and [RadioSetRxGenericConfig]
    for every FSK configuration that passes its checks. *)
Lemma fsk_unsupported (fuel : nat) (freq bw rssi maxTime symbTimeout cont : Z)
    (c : RxConfigGeneric_t) (s : Sys) :
  (∃ msg s', RadioIsChannelFree fuel freq bw rssi maxTime s = Exit msg s' ∧
     OperatingMode s' = MODE_STDBY_RC) ∧
  (∀ m dr cr afc pre fix_ len crc hop period iq rxc, m ≠ MODEM_LORA → ∃ msg,
     RadioSetRxConfig m bw dr cr afc pre symbTimeout fix_ len crc hop period iq rxc s = Exit msg s) ∧
  (∀ power fdev dr cr pre fix_ crc hop period iq timeout, ∃ msg s',
     RadioSetTxConfig MODEM_FSK power fdev bw dr cr pre fix_ crc hop period iq timeout s = Exit msg s') ∧
  (RADIO_GENERIC_CONFIG_ENABLE = true → rxf_BitRate (rx_fsk c) ≠ 0 → rxf_PreambleLen (rx_fsk c) ≠ 0 →
   0 <= rxf_SyncWordLength (rx_fsk c) <= 8 →
   rxf_SyncWordLength (rx_fsk c) <= Z.of_nat (length (rxf_SyncWord (rx_fsk c))) →
   ∃ msg s', RadioSetRxGenericConfig GENERIC_FSK c cont symbTimeout s = Exit msg s').
Proof.
  split; [|split; [|split]].
  - unfold RadioIsChannelFree, RadioStandby, RadioSetChannel. erewrite bind_Ret by apply SetStandby_eq.
    match goal with |- context [(RadioSetModem _ ≫= _) ?s1] =>
      destruct (SetModem_eq MODEM_FSK s1) as (es & E2) end.
    erewrite bind_Ret by exact E2. set (s2 := modem_state _ _ _).
    destruct (SetRfFrequency_ret freq s2) as (s3 & E3 & Ho3). erewrite bind_Ret by exact E3.
    eexists _, s3. split; [apply bind_Exit, SetRxConfig_unsupported; done|].
    rewrite Ho3. reflexivity.
  - intros. eexists. by apply SetRxConfig_unsupported.
  - intros. unfold RadioSetTxConfig. destruct (RFW_DeInit_eq s) as [f Hf].
    erewrite bind_Ret by exact Hf. eexists _, _. reflexivity.
  - intros Hen Hbr Hpre Hsw Hlen. unfold RadioSetRxGenericConfig. rewrite Hen. cbn [negb].
    destruct (RFW_DeInit_eq s) as [f Hf]. erewrite bind_Ret by exact Hf. cbv zeta.
    erewrite bind_Ret by reflexivity. unfold rx_generic_fsk.
    rewrite (proj2 (Z.eqb_neq _ _) Hbr), (proj2 (Z.eqb_neq _ _) Hpre). cbn [orb].
    rewrite (proj2 (Z.ltb_ge _ _)) by lia.
    assert (∃ w, buf_read (rxf_SyncWord (rx_fsk c)) 0 (rxf_SyncWordLength (rx_fsk c)) = Some w ∧
              (length w <= 8)%nat) as (w & Hw & Hl).
    { rewrite buf_read_Some by lia. eexists. split; [done|]. rewrite length_take. lia. }
    unfold copy_syncword. erewrite bind_Ret; cycle 1.
    { rewrite Hw. erewrite bind_Ret by reflexivity.
      rewrite buf_write_Some by (rewrite ?length_replicate; lia). reflexivity. }
    do 2 (erewrite bind_Ret by reflexivity). eexists _, _. reflexivity.
Qed.

(** ** LoRa: configuration and transmission *)

(** The commands that program the two parameter structures of a LoRa packet. *)
Definition lora_modulation_event (p : LoRaModulation) : HalEvent :=
  EvSetCmd RADIO_SET_MODULATIONPARAMS
    [u8 (lm_SpreadingFactor p); u8 (lm_Bandwidth p); u8 (lm_CodingRate p);
     u8 (lm_LowDatarateOptimize p)].
Definition lora_packet_event (p : LoRaPacket) : HalEvent :=
  EvSetCmd RADIO_SET_PACKETPARAMS
    [byte_at 8 (lp_PreambleLength p); u8 (lp_PreambleLength p); u8 (lp_HeaderType p);
     u8 (lp_PayloadLength p); u8 (lp_CrcMode p); u8 (lp_InvertIQ p)].

(** The driver and the radio agree on a LoRa modem. *)
Record lora_ready (s : Sys) : Prop := {
  lr_modem : Modem (SubgRf s) = MODEM_LORA;
  lr_type : PacketType s = PACKET_TYPE_LORA;
  lr_modulation : mp_PacketType (ModulationParams (SubgRf s)) = PACKET_TYPE_LORA;
  lr_packet : pp_PacketType (PacketParams (SubgRf s)) = PACKET_TYPE_LORA }.

Lemma SetModulationParams_lora p s :
  PacketType s = PACKET_TYPE_LORA → mp_PacketType p = PACKET_TYPE_LORA →
  does (SUBGRF_SetModulationParams p) s tt [lora_modulation_event (mp_LoRa p)].
Proof.
  intros Ht Hp. unfold SUBGRF_SetModulationParams, sync_packet_type. rewrite Hp.
  refine (does_bind _ _ _ tt [] tt [_] _ (does_emit _ _)).
  refine (does_bind _ _ _ PACKET_TYPE_LORA [] tt [] _ _).
  - unfold does, gets. rewrite Ht, app_nil_r. by destruct s.
  - apply does_skip.
Qed.

Lemma SetPacketParams_lora p s :
  PacketType s = PACKET_TYPE_LORA → pp_PacketType p = PACKET_TYPE_LORA →
  SUBGRF_SetPacketParams p s =
    Ret tt (s <| LoRaHeaderType := lp_HeaderType (pp_LoRa p) |>
              <| trace := trace s ++ [lora_packet_event (pp_LoRa p)] |>).
Proof.
  intros Ht Hp. unfold SUBGRF_SetPacketParams, sync_packet_type. rewrite Hp.
  erewrite bind_Ret; cycle 1.
  { erewrite bind_Ret by reflexivity. rewrite Ht. reflexivity. }
  reflexivity.
Qed.

(** The state after the stored parameters have been sent in standby. *)
Definition lora_applied (es : list HalEvent) (s : Sys) : Sys :=
  modem_state MODEM_LORA es
    (s <| OperatingMode := MODE_STDBY_RC |>
       <| trace := trace s ++ [EvSetCmd RADIO_SET_STANDBY [RadioStandbyModes_t_code STDBY_RC]] |>)
  <| LoRaHeaderType := lp_HeaderType (pp_LoRa (PacketParams (SubgRf s))) |>.

Lemma apply_params_lora s :
  mp_PacketType (ModulationParams (SubgRf s)) = PACKET_TYPE_LORA →
  pp_PacketType (PacketParams (SubgRf s)) = PACKET_TYPE_LORA →
  ∃ es, apply_params MODEM_LORA s = Ret tt
    (lora_applied (es ++ [lora_modulation_event (mp_LoRa (ModulationParams (SubgRf s)));
                          lora_packet_event (pp_LoRa (PacketParams (SubgRf s)))]) s).
Proof.
  intros Hm Hp. unfold apply_params, RadioStandby. erewrite bind_Ret by apply SetStandby_eq.
  match goal with |- context [(RadioSetModem _ ≫= _) ?s1] =>
    destruct (SetModem_eq MODEM_LORA s1) as (es & E2) end.
  erewrite bind_Ret by exact E2. erewrite bind_Ret by reflexivity.
  erewrite bind_Ret by (apply SetModulationParams_lora; [reflexivity | exact Hm]).
  exists es. erewrite SetPacketParams_lora by (reflexivity || exact Hp).
  unfold lora_applied, modem_state. sys_simpl. rewrite <- !app_assoc. reflexivity.
Qed.

Lemma RFW_SetAntSwitch_eq a s : ∃ f, RFW_SetAntSwitch a s = Ret tt (s <| RFWPacket := f |>).
Proof.
  unfold RFW_SetAntSwitch, upd_rfw, when. destruct RFW_ENABLE; eexists; [reflexivity|].
  instantiate (1 := RFWPacket s). by destruct s.
Qed.


(** Interactions that touch neither the payload nor the mode of the radio. *)
Definition setup_event (e : HalEvent) : Prop :=
  match e with
  | EvSetCmd RADIO_CFG_DIOIRQ _ | EvProbe _ _ | EvConfigRFSwitch _
  | EvReadRegisters _ _ | EvWriteRegisters _ _ => True
  | _ => False
  end.

Lemma tx_quality_does b s :
  ∃ es, does (set_tx_modulation_quality b) s tt es ∧ Forall setup_event es.
Proof.
  destruct b; eexists; (split;
    [refine (does_bind _ _ s _ [_] tt [_] (does_read _ _) (does_emit _ _)) | by repeat constructor]).
Qed.

(** The parameters [RadioSetTxConfig] and [RadioSetRxConfig] derive from their
    arguments. *)
Definition lora_modulation_of (bandwidth datarate coderate bw : Z) : LoRaModulation :=
  mkLoRaModulation datarate bw coderate (if low_datarate bandwidth datarate then 1 else 0).
Definition lora_packet_of (datarate preambleLen len : Z) (fixLen crcOn iqInverted : bool) : LoRaPacket :=
  mkLoRaPacket (if (datarate =? 5) || (datarate =? 6) then Z.max preambleLen 12 else preambleLen)
    (b2z fixLen) len (b2z crcOn) (b2z iqInverted).

(** The state after they have been stored. *)
Definition lora_stored (m : LoRaModulation) (p : LoRaPacket) (s : Sys) : Sys :=
  s <| SubgRf := SubgRf s
         <| ModulationParams ; mp_PacketType := PACKET_TYPE_LORA |>
         <| ModulationParams ; mp_LoRa := m |>
         <| PacketParams ; pp_PacketType := PACKET_TYPE_LORA |>
         <| PacketParams ; pp_LoRa := p |> |>.

Lemma store_lora_params_eq bandwidth bw dr cr pre fix_ crc iq s :
  Bandwidths !! Z.to_nat bandwidth = Some bw →
  store_lora_params bandwidth dr cr pre fix_ crc iq s =
    Ret tt (lora_stored (lora_modulation_of bandwidth dr cr bw)
              (lora_packet_of dr pre (MaxPayloadLength s) fix_ crc iq) s).
Proof.
  intros Hbw. unfold store_lora_params. rewrite Hbw. do 2 (erewrite bind_Ret by reflexivity).
  assert (Hpre : lora_preamble dr pre =
    if (dr =? 5) || (dr =? 6) then Z.max pre 12 else pre).
  { unfold lora_preamble. change LORA_SF5 with 5. change LORA_SF6 with 6.
    destruct ((dr =? 5) || (dr =? 6)); [|done]. destruct (pre <? 12) eqn:?; lia. }
  rewrite Hpre. reflexivity.
Qed.

(** The parameters are stored and sent; [s] is the state before. *)
Lemma lora_params_set bandwidth bw dr cr pre fix_ crc iq s :
  Bandwidths !! Z.to_nat bandwidth = Some bw →
  let m := lora_modulation_of bandwidth dr cr bw in
  let p := lora_packet_of dr pre (MaxPayloadLength s) fix_ crc iq in
  ∃ es, (store_lora_params bandwidth dr cr pre fix_ crc iq;; apply_params MODEM_LORA) s =
    Ret tt (lora_applied (es ++ [lora_modulation_event m; lora_packet_event p]) (lora_stored m p s)).
Proof.
  intros Hbw m p. erewrite bind_Ret by (apply store_lora_params_eq; exact Hbw).
  destruct (apply_params_lora (lora_stored m p s) eq_refl eq_refl) as (es & E). by exists es.
Qed.

Lemma lora_applied_ready es m p s : lora_ready (lora_applied es (lora_stored m p s)).
Proof. by split. Qed.

(** Up to the power amplifier, and from there on. *)
Lemma SetTxConfig_lora_from (power fdev bandwidth bw dr cr pre hop timeout : Z)
    (fix_ crc hopOn iq : bool) (s : Sys) :
  Bandwidths !! Z.to_nat bandwidth = Some bw →
  let modulation := lora_modulation_of bandwidth dr cr bw in
  let packet := lora_packet_of dr pre (MaxPayloadLength s) fix_ crc iq in
  ∃ es s2,
    trace s2 = trace s ++ [EvSetCmd RADIO_SET_STANDBY [0]] ++ es ++
                 [lora_modulation_event modulation; lora_packet_event packet] ∧
    ∀ pa setup, does (SUBGRF_SetRfTxPower power) s2 pa setup → ∃ s',
      RadioSetTxConfig MODEM_LORA power fdev bandwidth dr cr pre fix_ crc hopOn hop iq timeout s =
        Ret tt s' ∧
      lora_ready s' ∧ OperatingMode s' = MODE_STDBY_RC ∧
      mp_LoRa (ModulationParams (SubgRf s')) = modulation ∧
      pp_LoRa (PacketParams (SubgRf s')) = packet ∧ TxTimeout (SubgRf s') = timeout ∧
      AntSwitchPaSelect (SubgRf s') = pa ∧
      trace s' = trace s2 ++ setup ++ [EvWriteRegisters REG_DRV_CTRL [0x0E]].
Proof.
  intros Hbw modulation packet. unfold RadioSetTxConfig.
  destruct (RFW_DeInit_eq s) as [f Hf]. set (s0 := s <| RFWPacket := f |>) in Hf.
  destruct (lora_params_set bandwidth bw dr cr pre fix_ crc iq s0 Hbw) as (tr & E).
  set (s2 := lora_applied _ _) in E. exists tr, s2. split.
  { unfold s2, lora_applied, modem_state. sys_simpl. rewrite <- !app_assoc. reflexivity. }
  intros pa setup Hes. erewrite bind_Ret by exact Hf. erewrite bind_Ret by exact E.
  erewrite bind_Ret by exact Hes. do 2 (erewrite bind_Ret by reflexivity).
  match goal with |- context [(RFW_SetAntSwitch _ ≫= _) ?s3] =>
    destruct (RFW_SetAntSwitch_eq pa s3) as [g Hg] end.
  erewrite bind_Ret by exact Hg.
  eexists. split; [reflexivity|]. split; [by split|].
  repeat (split; [reflexivity|]). sys_simpl. rewrite <- app_assoc. reflexivity.
Qed.

(** Whatever the power and the board. *)
Lemma SetTxConfig_lora (power fdev bandwidth bw dr cr pre hop timeout : Z)
    (fix_ crc hopOn iq : bool) (s : Sys) :
  Bandwidths !! Z.to_nat bandwidth = Some bw →
  let modulation := lora_modulation_of bandwidth dr cr bw in
  let packet := lora_packet_of dr pre (MaxPayloadLength s) fix_ crc iq in
  ∃ s' before after,
    RadioSetTxConfig MODEM_LORA power fdev bandwidth dr cr pre fix_ crc hopOn hop iq timeout s =
      Ret tt s' ∧
    lora_ready s' ∧ OperatingMode s' = MODE_STDBY_RC ∧
    mp_LoRa (ModulationParams (SubgRf s')) = modulation ∧
    pp_LoRa (PacketParams (SubgRf s')) = packet ∧ TxTimeout (SubgRf s') = timeout ∧
    trace s' = before ++ [lora_modulation_event modulation; lora_packet_event packet] ++ after ∧
    Forall power_event after.
Proof.
  intros Hbw modulation packet.
  destruct (SetTxConfig_lora_from power fdev bandwidth bw dr cr pre hop timeout fix_ crc hopOn iq s Hbw)
    as (es & s2 & Htr & Hrun).
  destruct (SetRfTxPower_does power s2) as (pa & setup & Hes & Hev).
  destruct (Hrun pa setup Hes) as (s' & E & H1 & H2 & H3 & H4 & H5 & _ & H6).
  exists s', (trace s ++ [EvSetCmd RADIO_SET_STANDBY [0]] ++ es),
    (setup ++ [EvWriteRegisters REG_DRV_CTRL [0x0E]]).
  do 6 (split; [done|]). split.
  - rewrite H6, Htr, <- !app_assoc. reflexivity.
  - apply Forall_app. split; [exact Hev | by repeat constructor].
Qed.

(** C24: [RadioSetTxConfig] for LoRa stores the parameters of its arguments, with
    the low data rate optimisation and the longer preamble where they are due, and
    sends them to the radio in standby.  Then it programs the amplifier that the
    board has for the power ([high_power]) with its settings and the power asked
    for ([amplifier_setup]), keeps the choice for the antenna switch, sets the
    drive of the regulator, and stores the transmission time-out. *)
Theorem lora_tx_config (power fdev bandwidth bw dr cr pre hop timeout : Z)
    (fix_ crc hopOn iq : bool) (s : Sys) :
  Bandwidths !! Z.to_nat bandwidth = Some bw → board_powers → -110 <= power < 128 →
  let modulation := lora_modulation_of bandwidth dr cr bw in
  let packet := lora_packet_of dr pre (MaxPayloadLength s) fix_ crc iq in
  ∃ s' es,
    RadioSetTxConfig MODEM_LORA power fdev bandwidth dr cr pre fix_ crc hopOn hop iq timeout s =
      Ret tt s' ∧
    lora_ready s' ∧ OperatingMode s' = MODE_STDBY_RC ∧
    mp_LoRa (ModulationParams (SubgRf s')) = modulation ∧
    pp_LoRa (PacketParams (SubgRf s')) = packet ∧ TxTimeout (SubgRf s') = timeout ∧
    AntSwitchPaSelect (SubgRf s') = (if high_power power then RFO_HP else RFO_LP) ∧
    let configured := trace s ++ [EvSetCmd RADIO_SET_STANDBY [0]] ++ es ++
                        [lora_modulation_event modulation; lora_packet_event packet] in
    trace s' = configured ++
      amplifier_setup (high_power power) power RADIO_RAMP_40_US configured ++
      [EvWriteRegisters REG_DRV_CTRL [0x0E]].
Proof.
  intros Hbw Hboard Hp modulation packet.
  destruct (SetTxConfig_lora_from power fdev bandwidth bw dr cr pre hop timeout fix_ crc hopOn iq s Hbw)
    as (es & s2 & Htr & Hrun).
  destruct (Hrun _ _ (SetRfTxPower_setup Hboard power Hp s2)) as (s' & H).
  exists s', es. by rewrite Htr in H.
Qed.

Lemma send_stored_lora buffer size timeout s :
  PacketType s = PACKET_TYPE_LORA → pp_PacketType (PacketParams (SubgRf s)) = PACKET_TYPE_LORA →
  0 <= size <= Z.of_nat (length buffer) →
  send_stored buffer size timeout s =
    Ret tt (s <| LoRaHeaderType := lp_HeaderType (pp_LoRa (PacketParams (SubgRf s))) |>
              <| OperatingMode := MODE_TX |>
              <| trace := trace s ++
                   [lora_packet_event (pp_LoRa (PacketParams (SubgRf s)));
                    EvWriteBuffer 0 (take (Z.to_nat size) buffer);
                    set24 RADIO_SET_TX timeout] |>).
Proof.
  intros Ht Hp Hs. unfold send_stored. erewrite bind_Ret by reflexivity.
  erewrite bind_Ret by (apply SetPacketParams_lora; assumption).
  rewrite buf_read_Some by lia. erewrite bind_Ret by reflexivity.
  unfold SUBGRF_SendPayload, SUBGRF_SetTx, SUBGRF_WriteCommand, HAL_SUBGHZ_ExecSetCmd.
  do 2 (erewrite bind_Ret by reflexivity). rewrite emit_eq. sys_simpl.
  rewrite <- !app_assoc. reflexivity.
Qed.

(** What [RadioSend] does for a LoRa payload. *)
Lemma send_lora_eq buffer size s :
  lora_ready s → 0 <= size <= Z.of_nat (length buffer) →
  let packet := pp_LoRa (PacketParams (SubgRf s)) <| lp_PayloadLength := size |> in
  ∃ s', send_lora buffer size s = Ret (RADIO_STATUS_OK, buffer) s' ∧
    lora_ready s' ∧ OperatingMode s' = MODE_TX ∧ pp_LoRa (PacketParams (SubgRf s')) = packet ∧
    TxTimeout (SubgRf s') = TxTimeout (SubgRf s) ∧
    trace s' = trace s ++
      [lora_packet_event packet; EvWriteBuffer 0 (take (Z.to_nat size) buffer);
       EvSetCmd RADIO_SET_TX [0; 0; 0]].
Proof.
  intros [Hmo Hty Hmt Hpt] Hsize packet. unfold send_lora. erewrite bind_Ret by reflexivity.
  set (s1 := _ <| SubgRf := _ |>).
  assert (Hty1 : PacketType s1 = PACKET_TYPE_LORA) by exact Hty.
  assert (Hpt1 : pp_PacketType (PacketParams (SubgRf s1)) = PACKET_TYPE_LORA) by exact Hpt.
  erewrite bind_Ret by (apply send_stored_lora; [exact Hty1 | exact Hpt1 | exact Hsize]).
  eexists. split; [reflexivity|]. repeat split; try assumption; reflexivity.
Qed.

(** [RadioSend] with a LoRa modem gives the radio the packet parameters with
    the length of the payload, exactly the payload, and the command to transmit
    without a time-out of its own, then starts the software time-out; the
    caller's buffer is not changed. *)
Lemma RadioSend_lora buffer size s :
  lora_ready s → 0 <= size <= Z.of_nat (length buffer) →
  let packet := pp_LoRa (PacketParams (SubgRf s)) <| lp_PayloadLength := size |> in
  ∃ s' before, RadioSend buffer size s = Ret (RADIO_STATUS_OK, buffer) s' ∧
    lora_ready s' ∧ OperatingMode s' = MODE_TX ∧
    pp_LoRa (PacketParams (SubgRf s')) = packet ∧ Forall setup_event before ∧
    trace s' = trace s ++ before ++
      [lora_packet_event packet; EvWriteBuffer 0 (take (Z.to_nat size) buffer);
       EvSetCmd RADIO_SET_TX [0; 0; 0];
       EvTimerSetValue TxTimeoutTimer (TxTimeout (SubgRf s)); EvTimerStart TxTimeoutTimer].
Proof.
  intros Hready Hsize packet. pose proof (lr_modem s Hready) as Hmo.
  unfold RadioSend. do 3 (erewrite bind_Ret by reflexivity). sys_simpl.
  match goal with |- context [(SUBGRF_SetSwitch ?pa _ ≫= _) ?s1] =>
    destruct (set_switch_does pa RFSWITCH_TX s1) as [sw Hsw] end.
  erewrite bind_Ret by exact Hsw. rewrite Hmo. sys_simpl.
  match goal with |- context [(set_tx_modulation_quality ?b ≫= _) ?s1] =>
    destruct (tx_quality_does b s1) as (es & Hes & Hev) end.
  erewrite bind_Ret by exact Hes. clear Hsw Hes. sys_simpl.
  match goal with |- context [(send_lora _ _ ≫= _) ?s1] =>
    assert (Hr1 : lora_ready s1) by (destruct Hready; split; assumption);
    destruct (send_lora_eq buffer size s1 Hr1 Hsize) as (s2 & E2 & Hr2 & Ho2 & Hp2 & Ht2 & Htr2) end.
  erewrite bind_Ret by exact E2. cbn [fst]. do 3 (erewrite bind_Ret by reflexivity).
  eexists _, (_ :: _ :: _ :: es). split; [reflexivity|]. split; [destruct Hr2; split; assumption|].
  split; [exact Ho2|]. split; [exact Hp2|].
  split; cycle 1.
  { sys_simpl. rewrite Htr2, Ht2. sys_simpl. rewrite <- !(app_assoc (trace s)). cbn [app].
    rewrite <- !app_assoc.
    reflexivity. }
  do 3 (constructor; [exact I|]). exact Hev.
Qed.
End Radio.

(** ** Concrete instances *)

(** An FSK reception that passes the checks of [RadioSetRxGenericConfig]. *)
Definition fsk_reception : RxConfigGeneric_t :=
  mkRxConfigGeneric (mk_rx_fsk 0 50000 50000 40 [0xC1; 0x94; 0xC1] 255 0x8005 0x1D0F 0x1FF 3 0 0 0 0 0 0)
    (mk_rx_lora 0 0 0 0 0 0 0 0 0 0).

(** The transmission set-up of a LoRa node: 14 dBm, 125 kHz, SF 12. *)
Definition lora_setup {cfg : Config} {env : Env} : M Sys unit :=
  RadioSetTxConfig MODEM_LORA 14 0 0 12 1 8 false true false 0 false 3000.

Lemma lora_tx_config_witness :
  let env := quiet_env [] (λ _, 0) in
  let cfg := default_config in
  ∃ s' before, lora_setup boot = Ret tt s' ∧ lora_ready s' ∧
    mp_LoRa (ModulationParams (SubgRf s')) = mkLoRaModulation 12 LORA_BW_125 1 1 ∧
    AntSwitchPaSelect (SubgRf s') = RFO_LP ∧
    trace s' = before ++
      [EvSetCmd RADIO_SET_PACONFIG [7; 0; 1; 1]; EvWriteRegisters REG_OCP [0x18];
       EvSetCmd RADIO_SET_TXPARAMS [13; 2]; EvWriteRegisters REG_DRV_CTRL [0x0E]].
Proof.
  intros env cfg.
  destruct (lora_tx_config (cfg := cfg) (env := env) 14 0 0 LORA_BW_125 12 1 8 0 3000
              false true false false boot) as (s' & es & E & Hr & _ & Hm & _ & _ & Ha & Htr).
  { reflexivity. }
  { intros []; split; discriminate. }
  { split; reflexivity || discriminate. }
  exists s'. eexists. split; [exact E|]. split; [exact Hr|]. split; [exact Hm|].
  split; [exact Ha | exact Htr].
Defined.
