(* ===== verification/RxProofs.v ===== *)
(** * radio.c: properties of the reception of LoRa packets.

    Reception is set up by [RadioSetRxConfig] and [RadioRx]; a received packet
    reaches the application through the interrupt callback of the HAL.  With the
    transmission of RadioProofs.v this gives the link from the buffer of a sender
    to the report of a receiver. *)

From S2P Require Import Prelude Effects RadioTypes State Mem RadioDriver DriverProofs.
From S2P Require Import RadioFw TimeOnAir Radio RadioGeneric RadioProofs.

Section Reception.
Context {cfg : Config} {env : Env}.

(** ** Setting up a reception *)

Definition rfw_off (f : RadioFw_t) : RadioFw_t :=
  if RFW_ENABLE then f <| Init ; Enable := 0 |> else f.

Lemma RFW_DeInit_off s : RFW_DeInit s = Ret tt (s <| RFWPacket := rfw_off (RFWPacket s) |>).
Proof. unfold RFW_DeInit, rfw_off, upd_rfw, when. destruct RFW_ENABLE; [done | by destruct s]. Qed.

Lemma RFW_Is_Init_off m f s : RFWPacket s = rfw_modem m (rfw_off f) → RFW_Is_Init s = Ret 0 s.
Proof.
  unfold RFW_Is_Init, rfw_modem, rfw_off, gets. destruct RFW_ENABLE; [|done]. by intros ->.
Qed.

Lemma symb_timeout_does n s :
  ∃ es, does (SUBGRF_SetLoRaSymbNumTimeout (u8 n)) s tt
          (EvSetCmd RADIO_SET_LORASYMBTIMEOUT [u8 n] :: es).
Proof.
  pose proof (u8_range n) as Hn. unfold SUBGRF_SetLoRaSymbNumTimeout. destruct (64 <=? u8 n) eqn:E64.
  - destruct (symb_loop_decodes (Z.shiftr (u8 n) 1)) as (m & e & -> & _).
    { rewrite Z.shiftr_div_pow2 by lia. change (2 ^ 1) with 2.
      Z.to_euclidean_division_equations; lia. }
    eexists. refine (does_bind _ _ s tt [_] tt [_] (does_emit _ _) (does_emit _ _)).
  - exists []. refine (does_bind _ _ s tt [_] tt [] (does_emit _ _) (does_skip _)).
Qed.

(** The work-arounds for the gain control and for inverted IQ. *)
Lemma iq_polarity_does s : ∃ es, does set_iq_polarity s tt es.
Proof.
  unfold set_iq_polarity, does. erewrite bind_Ret by reflexivity.
  destruct (lp_InvertIQ _ =? LORA_IQ_INVERTED); eexists;
    refine (does_bind _ _ s _ [_] tt [_] (does_read _ _) (does_emit _ _)).
Qed.

(** The commands of [RadioSetRxConfig] before and after those of the
    parameters. *)
Definition rx_config_after (symbTimeout : Z) (es : list HalEvent) : Prop :=
  ∃ rest, es = EvSetCmd RADIO_SET_LORASYMBTIMEOUT [symbTimeout] :: rest.

Lemma rx_config_end symb s :
  ∃ es, rx_config_after (u8 symb) es ∧
    (SUBGRF_SetLoRaSymbNumTimeout (u8 symb);;
     agc ← SUBGRF_ReadRegister SUBGHZ_AGCCFG;
     SUBGRF_WriteRegister SUBGHZ_AGCCFG (Z.land agc 0x1);;
     set_iq_polarity;;
     upd_SubgRf (λ r, r <| RxTimeout := 0xFFFF |>)) s =
    Ret tt (s <| SubgRf := SubgRf s <| RxTimeout := 0xFFFF |> |> <| trace := trace s ++ es |>).
Proof.
  destruct (symb_timeout_does symb s) as [es1 E1]. erewrite bind_Ret by exact E1.
  erewrite bind_Ret by apply does_read. erewrite bind_Ret by reflexivity.
  match goal with |- context [(set_iq_polarity ≫= _) ?s1] =>
    destruct (iq_polarity_does s1) as [es2 E2] end.
  exists ((EvSetCmd RADIO_SET_LORASYMBTIMEOUT [u8 symb] :: es1) ++ [EvReadRegisters SUBGHZ_AGCCFG 1] ++
     [EvWriteRegisters SUBGHZ_AGCCFG [Z.land (u8 (register_answer
        (trace s ++ EvSetCmd RADIO_SET_LORASYMBTIMEOUT [u8 symb] :: es1) SUBGHZ_AGCCFG)) 0x1]] ++ es2).
  split; [by eexists|]. erewrite bind_Ret by exact E2.
  unfold upd_SubgRf, update. sys_simpl. rewrite <- !app_assoc. reflexivity.
Qed.

Lemma set_switch_rx pa s :
  SUBGRF_SetSwitch pa RFSWITCH_RX s =
    Ret tt (s <| trace := trace s ++ [EvConfigRFSwitch RBI_SWITCH_RX] |>).
Proof. reflexivity. Qed.

(** [RadioRx] without the packet functions of the firmware. *)
Lemma start_rx_plain m f timeout s :
  RFWPacket s = rfw_modem m (rfw_off f) →
  let timer := if timeout =? 0 then []
               else [EvTimerSetValue RxTimeoutTimer timeout; EvTimerStart RxTimeoutTimer] in
  let limit := if RxContinuous (SubgRf s) then 0xFFFFFF else u32 (Z.shiftl (RxTimeout (SubgRf s)) 6) in
  ∃ before, RadioRx timeout s = Ret tt
    (s <| SubgRf := SubgRf s <| RxDcPreambleDetectTimeout := 0 |> |>
       <| OperatingMode := MODE_RX |>
       <| trace := trace s ++ before ++ timer ++
            [EvProbe DBG_GPIO_RADIO_RX SET; EvConfigRFSwitch RBI_SWITCH_RX;
             set24 RADIO_SET_RX limit] |>).
Proof.
  intros Hf timer limit. unfold RadioRx, start_rx.
  erewrite bind_Ret by (eapply RFW_Is_Init_off; exact Hf). change (0 =? 1) with false. cbn iota.
  erewrite bind_Ret by reflexivity.
  eexists [_]. set (s1 := _ <| trace := _ |>).
  erewrite (bind_Ret _ _ s1 tt (s1 <| trace := trace s1 ++ timer |>)); cycle 1.
  { unfold timer, when. destruct (timeout =? 0); cbn [negb].
    - rewrite app_nil_r. by destruct s1.
    - erewrite bind_Ret by reflexivity. rewrite emit_eq. sys_simpl. by rewrite <- app_assoc. }
  do 2 (erewrite bind_Ret by reflexivity). erewrite bind_Ret by reflexivity.
  erewrite bind_Ret by apply set_switch_rx.
  unfold s1, limit, set24. sys_simpl. destruct (RxContinuous (SubgRf s)); unfold SUBGRF_SetRx;
    (erewrite bind_Ret by reflexivity); unfold SUBGRF_WriteCommand, HAL_SUBGHZ_ExecSetCmd;
    rewrite emit_eq; sys_simpl; rewrite <- !app_assoc; reflexivity.
Qed.

(** C23: [RadioSetRxConfig] for LoRa, then [RadioRx]: the parameters of the
    arguments are sent in standby, with the fixed length or 255 as the maximal
    one, then the symbol time-out, which a continuous reception disables; the
    timer is started when there is a time-out, and the radio receives without
    limit or for the 0x3FFFC0 steps of the stored time-out. *)
Theorem lora_rx_setup (bandwidth bw dr cr afc pre symb len hop timeout : Z)
    (fix_ crc hopOn iq cont : bool) (s : Sys) :
  Bandwidths !! Z.to_nat bandwidth = Some bw →
  let modulation := lora_modulation_of bandwidth dr cr bw in
  let packet := lora_packet_of dr pre (if fix_ then len else 0xFF) fix_ crc iq in
  let timer := if timeout =? 0 then []
               else [EvTimerSetValue RxTimeoutTimer timeout; EvTimerStart RxTimeoutTimer] in
  ∃ s' before middle config,
    (RadioSetRxConfig MODEM_LORA bandwidth dr cr afc pre symb fix_ len crc hopOn hop iq cont;;
     RadioRx timeout) s = Ret tt s' ∧
    lora_ready s' ∧ OperatingMode s' = MODE_RX ∧
    mp_LoRa (ModulationParams (SubgRf s')) = modulation ∧
    pp_LoRa (PacketParams (SubgRf s')) = packet ∧
    LoRaHeaderType s' = b2z fix_ ∧ RxContinuous (SubgRf s') = cont ∧
    rx_config_after (if cont then 0 else symb mod 256) config ∧
    trace s' = trace s ++ before ++ [lora_modulation_event modulation; lora_packet_event packet] ++
      config ++ middle ++ timer ++
      [EvProbe DBG_GPIO_RADIO_RX SET; EvConfigRFSwitch RBI_SWITCH_RX;
       set24 RADIO_SET_RX (if cont then 0xFFFFFF else 0x3FFFC0)].
Proof.
  intros Hbw modulation packet timer.
  set (s0 := s <| SubgRf := SubgRf s <| RxContinuous := cont |> |>
               <| RFWPacket := rfw_off (RFWPacket s) |>
               <| MaxPayloadLength := if fix_ then len else 0xFF |>
               <| trace := trace s ++ [EvSetCmd RADIO_SET_STOPRXTIMERONPREAMBLE [0]] |>).
  destruct (apply_params_lora (lora_stored modulation packet s0) eq_refl eq_refl) as (es & E).
  set (s2 := lora_applied _ _) in E.
  destruct (rx_config_end (if cont then 0 else symb) s2) as (conf & Hconf & Econf).
  set (s3 := s2 <| SubgRf := _ |> <| trace := _ |>) in Econf.
  destruct (start_rx_plain MODEM_LORA (RFWPacket s) timeout s3 eq_refl) as (mid & Erx).
  eexists _, ([EvSetCmd RADIO_SET_STOPRXTIMERONPREAMBLE [0]] ++
              [EvSetCmd RADIO_SET_STANDBY [0]] ++ es), mid, conf.
  split; [|split; [|split; [|split; [|split; [|split; [|split; [|split]]]]]]].
  - erewrite bind_Ret; [exact Erx|]. unfold RadioSetRxConfig. rewrite bool_decide_true by done.
    cbn [negb]. erewrite bind_Ret by reflexivity. erewrite bind_Ret by apply RFW_DeInit_off.
    do 2 (erewrite bind_Ret by reflexivity).
    erewrite bind_Ret by (apply (store_lora_params_eq bandwidth bw dr cr pre fix_ crc iq s0 Hbw)).
    erewrite bind_Ret by exact E. exact Econf.
  - by split.
  - reflexivity.
  - reflexivity.
  - reflexivity.
  - reflexivity.
  - reflexivity.
  - destruct cont; exact Hconf.
  - unfold s3, s2, s0, lora_applied, modem_state, lora_stored, timer. sys_simpl. rewrite <- !app_assoc.
    destruct cont; reflexivity.
Qed.

(** ** A received packet *)

(** What the radio answers when it holds [payload] at [offset] of its buffer;
    the length is in a register when the header is implicit. *)
Record radio_holds (header offset : Z) (payload : list Z) : Prop := {
  rh_size : ∀ tr,
    u8 (if header =? LORA_PACKET_FIXED_LENGTH then register_answer tr REG_LR_PAYLOADLENGTH
        else get_cmd_answer tr RADIO_GET_RXBUFFERSTATUS 0) = Z.of_nat (length payload);
  rh_offset : ∀ tr, u8 (get_cmd_answer tr RADIO_GET_RXBUFFERSTATUS 1) = offset;
  rh_bytes : ∀ tr i, (i < length payload)%nat →
    payload !! i = Some (u8 (rx_buffer_answer tr (offset + Z.of_nat i))) }.

Lemma radio_holds_read header offset payload tr :
  radio_holds header offset payload →
  ((λ i, u8 (rx_buffer_answer tr (offset + Z.of_nat i))) <$> seq 0 (length payload)) = payload.
Proof.
  intros [_ _ Hb]. apply list_eq. intros i. rewrite list_lookup_fmap.
  destruct (decide (i < length payload)%nat) as [Hi|Hi].
  - rewrite lookup_seq_lt by done. cbn [fmap option_fmap option_map]. by rewrite (Hb tr i Hi).
  - rewrite lookup_seq_ge, lookup_ge_None_2 by lia. reflexivity.
Qed.

Lemma GetPayload_lora header offset payload s :
  PacketType s = PACKET_TYPE_LORA → LoRaHeaderType s = header →
  radio_holds header offset payload →
  ∃ es, does (SUBGRF_GetPayload 255) s (0, Z.of_nat (length payload), payload) es.
Proof.
  intros Ht Hh H. pose proof (radio_holds_read _ _ _ (trace s) H) as Hr. destruct H as [Hs Ho Hb].
  pose proof (Hs (trace s)) as Hs0.
  assert (Hlen : Z.of_nat (length payload) < 256)
    by (rewrite <- Hs0; pose proof (u8_range (if header =? LORA_PACKET_FIXED_LENGTH
          then register_answer (trace s) REG_LR_PAYLOADLENGTH
          else get_cmd_answer (trace s) RADIO_GET_RXBUFFERSTATUS 0)); lia).
  assert (Hst : ∃ es, does SUBGRF_GetRxBufferStatus s (Z.of_nat (length payload), offset) es).
  { unfold SUBGRF_GetRxBufferStatus, does. erewrite bind_Ret by reflexivity.
    do 2 (erewrite bind_Ret by reflexivity). sys_simpl. rewrite Ht, Hh.
    rewrite (bool_decide_true (PACKET_TYPE_LORA = PACKET_TYPE_LORA)) by done. cbn [andb].
    destruct (header =? LORA_PACKET_FIXED_LENGTH).
    - erewrite bind_Ret by apply read_register_eq. rewrite Hs. cbn [nth_byte]. unfold nth_byte.
      cbn -[u8]. rewrite Ho, <- app_assoc. by eexists.
    - erewrite bind_Ret by reflexivity. unfold nth_byte. cbn -[u8]. rewrite Hs, Ho. by eexists. }
  destruct Hst as [es Hst]. unfold SUBGRF_GetPayload, does. erewrite bind_Ret by exact Hst.
  cbn [fst snd]. rewrite (proj2 (Z.ltb_ge _ _)) by lia. rewrite Nat2Z.id.
  eexists (es ++ [_]).
  erewrite bind_Ret; cycle 1.
  { unfold SUBGRF_ReadBuffer, HAL_SUBGHZ_ReadBuffer. do 2 (erewrite bind_Ret by reflexivity).
    reflexivity. }
  sys_simpl. rewrite <- app_assoc. unfold mret, M_ret. do 2 f_equal.
  apply (radio_holds_read header). by split.
Qed.

(** The status of a LoRa packet: the power from 0 to -127.5 dBm, the signal to
    noise ratio of a signed byte in quarters of a dB. *)
Lemma GetPacketStatus_lora old s :
  PacketType s = PACKET_TYPE_LORA →
  ∃ st es, does (SUBGRF_GetPacketStatus old) s st es ∧ ps_packetType st = PACKET_TYPE_LORA ∧
    -128 <= ls_RssiPkt (ps_LoRa st) <= 0 ∧ -32 <= ls_SnrPkt (ps_LoRa st) <= 32.
Proof.
  intros Ht. unfold SUBGRF_GetPacketStatus, does. erewrite bind_Ret by reflexivity.
  do 2 (erewrite bind_Ret by reflexivity). sys_simpl. rewrite Ht. cbn -[u8 i8 Z.shiftr].
  eexists _, _. split; [reflexivity|]. split; [reflexivity|]. cbn -[u8 i8 Z.shiftr].
  unfold nth_byte. cbn -[u8 i8 Z.shiftr].
  pose proof (u8_range (get_cmd_answer (trace s) RADIO_GET_PACKETSTATUS 0)) as H0.
  pose proof (i8_range (u8 (get_cmd_answer (trace s) RADIO_GET_PACKETSTATUS 1))) as H1.
  rewrite !Z.shiftr_div_pow2 by lia. change (2 ^ 1) with 2. change (2 ^ 2) with 4.
  split; rewrite i8_small; Z.to_euclidean_division_equations; lia.
Qed.

(** The end of a single reception. *)
Lemma rx_end_does s :
  ∃ es, (when (negb (RxContinuous (SubgRf s)))
           (SUBGRF_SetStandby STDBY_RC;;
            SUBGRF_WriteRegister SUBGHZ_RTCCTLR 0x00;;
            set_register_bit SUBGHZ_EVENTMASKR 1)) s =
    Ret tt (s <| OperatingMode := if RxContinuous (SubgRf s) then OperatingMode s else MODE_STDBY_RC |>
              <| trace := trace s ++ es |>).
Proof.
  unfold when. destruct (RxContinuous (SubgRf s)); cbn [negb].
  - exists []. rewrite app_nil_r. by destruct s.
  - erewrite bind_Ret by apply SetStandby_eq. erewrite bind_Ret by reflexivity.
    unfold set_register_bit. erewrite bind_Ret by apply read_register_eq.
    unfold SUBGRF_WriteRegister, HAL_SUBGHZ_WriteRegisters. rewrite emit_eq. sys_simpl.
    rewrite <- !app_assoc. by eexists.
Qed.

Lemma write_radio_front bytes s :
  (length bytes <= length (RadioBuffer s))%nat →
  write_radio bytes s =
    Ret tt (s <| RadioBuffer := bytes ++ drop (length bytes) (RadioBuffer s) |>).
Proof.
  intros H. unfold write_radio. erewrite bind_Ret by reflexivity.
  rewrite buf_write_Some by lia. by erewrite bind_Ret by reflexivity.
Qed.

(** The receiver: the interrupt handler and the application are registered. *)
Record rx_ready (s : Sys) : Prop := {
  rr_handler : RadioOnDioIrqCb s = true;
  rr_events : ∃ ev, RadioEvents s = Some ev ∧ ev_RxDone ev = true;
  rr_type : PacketType s = PACKET_TYPE_LORA;
  rr_buffer : length (RadioBuffer s) = 255%nat }.

(** The receiver after the interrupt, when its application is called. *)
Record reported (payload : list Z) (rssi snr : Z) (s s' : Sys) : Prop := {
  rp_mode : OperatingMode s' = if RxContinuous (SubgRf s) then OperatingMode s else MODE_STDBY_RC;
  rp_buffer : RadioBuffer s' = payload ++ drop (length payload) (RadioBuffer s);
  rp_rssi : -128 <= rssi <= 0;
  rp_snr : -32 <= snr <= 32;
  rp_trace : ∃ es, trace s' = trace s ++ es ++
    [EvApp (App_RxDone payload (Z.of_nat (length payload)) rssi snr)] }.

(** The interrupt that [RadioIrqProcess] handles. *)
Definition irq_case (fuel : nat) (irq : Z) : M Sys unit :=
  if irq =? IRQ_TX_DONE then irq_tx_done
  else if irq =? IRQ_RX_DONE then irq_rx_done
  else if irq =? IRQ_CAD_CLEAR then irq_cad false
  else if irq =? IRQ_CAD_DETECTED then irq_cad true
  else if irq =? IRQ_RX_TX_TIMEOUT then irq_rx_tx_timeout
  else if irq =? IRQ_PREAMBLE_DETECTED then irq_preamble_detected
  else if irq =? IRQ_SYNCWORD_VALID then irq_syncword_valid fuel
  else if irq =? IRQ_HEADER_VALID then skip
  else if irq =? IRQ_HEADER_ERROR then irq_header_error
  else if irq =? IRQ_CRC_ERROR then irq_crc_error
  else skip.
Definition with_irq (irq : Z) (s : Sys) : Sys := s <| SubgRf := SubgRf s <| RadioIrq := irq |> |>.

Lemma dio_irq_enter fuel irq s :
  RadioOnDioIrqCb s = true → dio_irq fuel irq s = irq_case fuel irq (with_irq irq s).
Proof.
  intros Hcb. unfold dio_irq. erewrite bind_Ret by reflexivity. rewrite Hcb.
  unfold RadioOnDioIrq. erewrite bind_Ret by reflexivity. unfold RadioIrqProcess.
  by erewrite bind_Ret by reflexivity.
Qed.

Lemma rx_done_report fuel offset payload s :
  rx_ready s → radio_holds (LoRaHeaderType s) offset payload →
  ∃ s' rssi snr, HAL_SUBGHZ_RxCpltCallback fuel s =
      Ret tt (app_reaction (App_RxDone payload (Z.of_nat (length payload)) rssi snr) s') ∧
    reported payload rssi snr s s'.
Proof.
  intros [Hcb (ev & Hev & Hrx) Ht Hbuf] Hold.
  assert (Hlen : (length payload <= 255)%nat).
  { destruct Hold as [Hs _ _]. specialize (Hs []). pose proof (u8_range
      (if LoRaHeaderType s =? LORA_PACKET_FIXED_LENGTH then register_answer [] REG_LR_PAYLOADLENGTH
       else get_cmd_answer [] RADIO_GET_RXBUFFERSTATUS 0)). lia. }
  unfold HAL_SUBGHZ_RxCpltCallback. rewrite dio_irq_enter by done.
  change (irq_case fuel IRQ_RX_DONE) with irq_rx_done.
  unfold irq_rx_done. do 3 (erewrite bind_Ret by reflexivity).
  set (s1 := with_irq IRQ_RX_DONE s <| trace := trace s ++
    [EvProbe DBG_GPIO_RADIO_RX RST; EvTimerStop RxTimeoutTimer] |>).
  replace (modify trace _ _) with s1; cycle 1.
  { unfold s1. sys_simpl. by rewrite <- app_assoc. }
  destruct (rx_end_does s1) as [es1 E1]. erewrite bind_Ret by exact E1.
  set (s2 := s1 <| OperatingMode := _ |> <| trace := _ |>).
  destruct (GetPayload_lora (LoRaHeaderType s) offset payload s2 Ht eq_refl Hold) as [es2 E2].
  erewrite bind_Ret by exact E2. cbv beta iota. set (s3 := s2 <| trace := _ |>).
  erewrite bind_Ret by (apply write_radio_front; change (RadioBuffer s3) with (RadioBuffer s); lia).
  set (s4 := s3 <| RadioBuffer := _ |>). erewrite bind_Ret by reflexivity.
  destruct (GetPacketStatus_lora (PacketStatus (SubgRf s4)) s4 Ht) as (st & es3 & E3 & Hst & Hr & Hn).
  erewrite bind_Ret by exact E3. erewrite bind_Ret by reflexivity.
  set (s5 := _ <| SubgRf := _ |>).
  unfold report_rx. erewrite bind_Ret by reflexivity.
  change (RadioEvents s5) with (RadioEvents s). rewrite Hev, Hrx. cbn [when].
  erewrite bind_Ret by reflexivity. change (PacketStatus (SubgRf s5)) with st. rewrite Hst.
  change (RadioBuffer s5) with (payload ++ drop (length payload) (RadioBuffer s)).
  rewrite Nat2Z.id, take_app_length.
  exists (s5 <| trace := trace s5 ++ [EvApp (App_RxDone payload (Z.of_nat (length payload))
            (ls_RssiPkt (ps_LoRa st)) (ls_SnrPkt (ps_LoRa st)))] |>),
    (ls_RssiPkt (ps_LoRa st)), (ls_SnrPkt (ps_LoRa st)).
  split; [reflexivity|]. split; [reflexivity | reflexivity | exact Hr | exact Hn |].
  exists ([EvProbe DBG_GPIO_RADIO_RX RST; EvTimerStop RxTimeoutTimer] ++ es1 ++ es2 ++ es3).
  unfold s5, s4, s3, s2, s1. sys_simpl. rewrite <- !app_assoc. reflexivity.
Qed.

(** ** The link *)

(** A radio with a buffer of 256 bytes: the payload length of the last LoRa
    packet parameters, the buffer, and the payloads it was told to transmit, which
    start at the base address 0. *)
Definition Air : Type := Z * list Z * list (list Z).
Definition air_step (r : Air) (e : HalEvent) : Air :=
  let '(len, buf, sent) := r in
  match e with
  | EvSetCmd RADIO_SET_PACKETPARAMS [_; _; _; n; _; _] => (n, buf, sent)
  | EvWriteBuffer off data =>
      (len, take (Z.to_nat off) buf ++ data ++ drop (Z.to_nat off + length data) buf, sent)
  | EvSetCmd RADIO_SET_TX _ => (len, buf, sent ++ [take (Z.to_nat len) buf])
  | _ => r
  end.
Definition air (tr : list HalEvent) : Air := fold_left air_step tr (0, replicate 256 0, []).
Definition transmitted (tr : list HalEvent) : list (list Z) := snd (air tr).

Lemma air_setup es r : Forall setup_event es → fold_left air_step es r = r.
Proof.
  intros H. revert r. induction H as [|e es He _ IH]; intros r; [done|]. cbn [fold_left].
  replace (air_step r e) with r; [apply IH|]. destruct r as [[len buf] sent].
  destruct e as [|c l| | | | | | | | | | | | | | | |]; try done. by destruct c.
Qed.

Lemma transmitted_send tr before p payload tail :
  Forall setup_event before → 0 <= lp_PayloadLength p < 256 →
  length payload = Z.to_nat (lp_PayloadLength p) →
  (∀ r, fold_left air_step tail r = r) →
  transmitted (tr ++ before ++ [lora_packet_event p; EvWriteBuffer 0 payload;
     EvSetCmd RADIO_SET_TX [0; 0; 0]] ++ tail) = transmitted tr ++ [payload].
Proof.
  intros Hb Hl Hp Ht. unfold transmitted, air. rewrite !fold_left_app, Ht.
  generalize (fold_left air_step tr (0, replicate 256 0, [])). intros [[len buf] sent].
  rewrite (air_setup before) by done. cbn [fold_left air_step lora_packet_event snd take app].
  rewrite u8_small by lia. rewrite <- Hp. change (Z.to_nat 0) with 0%nat. cbn [take app].
  by rewrite take_0, app_nil_l, take_app_length.
Qed.
End Reception.

(** C2: a LoRa packet from the buffer of one node to the application of another.
    [RadioSend] returns OK, leaves the caller's buffer and makes the radio
    transmit exactly one payload, the first [size] bytes of the buffer; when the
    radio of a receiver holds that payload, the interrupt of the reception stores
    it and calls [RxDone] once, with the payload, its size, and a signal strength
    and signal to noise ratio in range; the receiver is back in standby unless
    its reception is continuous. *)
Theorem lora_link {cfg : Config} (tx_env rx_env : Env) (fuel : nat) (buffer : list Z)
    (size offset : Z) (tx rx : Sys) :
  lora_ready tx → 0 <= size < 256 → size <= Z.of_nat (length buffer) → rx_ready rx →
  ∃ tx' payload,
    RadioSend (env := tx_env) buffer size tx = Ret (RADIO_STATUS_OK, buffer) tx' ∧
    lora_ready tx' ∧ OperatingMode tx' = MODE_TX ∧ payload = take (Z.to_nat size) buffer ∧
    transmitted (trace tx') = transmitted (trace tx) ++ [payload] ∧
    (radio_holds (env := rx_env) (LoRaHeaderType rx) offset payload →
     ∃ rx' rssi snr, HAL_SUBGHZ_RxCpltCallback (env := rx_env) fuel rx =
         Ret tt (app_reaction (Env := rx_env) (App_RxDone payload size rssi snr) rx') ∧
       reported payload rssi snr rx rx').
Proof.
  intros Htx Hs Hb Hrx.
  destruct (RadioSend_lora (env := tx_env) buffer size tx Htx (conj (proj1 Hs) Hb))
    as (tx' & before & E & Hr & Ho & Hp & Hev & Htr).
  assert (Hlen : length (take (Z.to_nat size) buffer) = Z.to_nat size)
    by (rewrite length_take; lia).
  exists tx', (take (Z.to_nat size) buffer). split; [exact E|]. split; [exact Hr|].
  split; [exact Ho|]. split; [reflexivity|]. split.
  - rewrite Htr. by apply (transmitted_send _ _ _ _
      [EvTimerSetValue TxTimeoutTimer (TxTimeout (SubgRf tx)); EvTimerStart TxTimeoutTimer]);
      try intros [[]].
  - intros Hold. destruct (rx_done_report (env := rx_env) fuel offset _ rx Hrx Hold)
      as (rx' & rssi & snr & Erx & Hrep).
    exists rx', rssi, snr. split; [|exact Hrep]. rewrite Erx, Hlen, Z2Nat.id by lia. reflexivity.
Qed.

(** ** The other interrupts *)

Section Interrupts.
Context {cfg : Config} {env : Env}.

(** The interrupts of the HAL other than a received packet. *)
Inductive Interrupt :=
| TxCplt | CRCError | CADStatus (st : HAL_SUBGHZ_CadStatusTypeDef) | RxTxTimeout | HeaderError
| PreambleDetected | SyncWordValid | HeaderValid.
Definition hal_callback (fuel : nat) (i : Interrupt) : M Sys unit :=
  match i with
  | TxCplt => HAL_SUBGHZ_TxCpltCallback fuel
  | CRCError => HAL_SUBGHZ_CRCErrorCallback fuel
  | CADStatus st => HAL_SUBGHZ_CADStatusCallback fuel st
  | RxTxTimeout => HAL_SUBGHZ_RxTxTimeoutCallback fuel
  | HeaderError => HAL_SUBGHZ_HeaderErrorCallback fuel
  | PreambleDetected => HAL_SUBGHZ_PreambleDetectedCallback fuel
  | SyncWordValid => HAL_SUBGHZ_SyncWordValidCallback fuel
  | HeaderValid => HAL_SUBGHZ_HeaderValidCallback fuel
  end.

(** What the application is told: the callback that has to be registered, and
    the call. *)
Definition told (i : Interrupt) (mode : RadioOperatingModes_t)
  : option ((RadioEvents_t → bool) * AppCall) :=
  match i, mode with
  | TxCplt, _ => Some (ev_TxDone, App_TxDone)
  | CRCError, _ => Some (ev_RxError, App_RxError)
  | CADStatus HAL_SUBGHZ_CAD_CLEAR, _ => Some (ev_CadDone, App_CadDone false)
  | CADStatus HAL_SUBGHZ_CAD_DETECTED, _ => Some (ev_CadDone, App_CadDone true)
  | RxTxTimeout, MODE_TX => Some (ev_TxTimeout, App_TxTimeout)
  | RxTxTimeout, MODE_RX => Some (ev_RxTimeout, App_RxTimeout)
  | HeaderError, _ => Some (ev_RxTimeout, App_RxTimeout)
  | _, _ => None
  end.
Definition expected_call (i : Interrupt) (s : Sys) : option AppCall :=
  match told i (OperatingMode s), RadioEvents s with
  | Some (sel, c), Some ev => if sel ev then Some c else None
  | _, _ => None
  end.
(** The mode the radio is left in when the application is called. *)
Definition expected_mode (i : Interrupt) (s : Sys) : RadioOperatingModes_t :=
  match i, OperatingMode s with
  | (TxCplt | CADStatus _), _ | RxTxTimeout, (MODE_TX | MODE_RX) => MODE_STDBY_RC
  | (CRCError | HeaderError), m => if RxContinuous (SubgRf s) then m else MODE_STDBY_RC
  | _, m => m
  end.

Definition is_app (e : HalEvent) : bool := match e with EvApp _ => true | _ => false end.
(** [s'] comes after [s], with the same application and no call of it. *)
Definition silent (s s' : Sys) : Prop :=
  RadioEvents s' = RadioEvents s ∧ RxContinuous (SubgRf s') = RxContinuous (SubgRf s) ∧
  ∃ es, trace s' = trace s ++ es ∧ Forall (λ e, is_app e = false) es.

Lemma silent_refl s : silent s s.
Proof. do 2 (split; [done|]). exists []. by rewrite app_nil_r. Qed.
Lemma silent_trans s1 s2 s3 : silent s1 s2 → silent s2 s3 → silent s1 s3.
Proof.
  intros (H1 & C1 & e1 & T1 & F1) (H2 & C2 & e2 & T2 & F2). do 2 (split; [congruence|]).
  exists (e1 ++ e2). rewrite T2, T1, app_assoc. split; [done | by apply Forall_app].
Qed.

(** [m] makes no call of the application and ends in mode [f] of the state. *)
Definition quietly (m : M Sys unit) (s : Sys) (mode : RadioOperatingModes_t) : Prop :=
  ∃ s', m s = Ret tt s' ∧ silent s s' ∧ OperatingMode s' = mode.

Lemma quietly_bind m1 m2 s mode mode' :
  quietly m1 s mode → (∀ s', silent s s' → OperatingMode s' = mode → quietly m2 s' mode') →
  quietly (m1;; m2) s mode'.
Proof.
  intros (s1 & E1 & S1 & O1) H2. destruct (H2 s1 S1 O1) as (s2 & E2 & S2 & O2).
  exists s2. erewrite bind_Ret by exact E1. eauto using silent_trans.
Qed.
Lemma quietly_does m s es :
  does m s tt es → Forall (λ e, is_app e = false) es → quietly m s (OperatingMode s).
Proof. intros H F. eexists. split; [exact H|]. split; [|reflexivity]. do 2 (split; [reflexivity|]). by exists es. Qed.
Lemma quietly_standby s : quietly (SUBGRF_SetStandby STDBY_RC) s MODE_STDBY_RC.
Proof.
  eexists. split; [apply SetStandby_eq|]. split; [|reflexivity]. do 2 (split; [reflexivity|]).
  eexists. split; [reflexivity | by repeat constructor].
Qed.
Lemma quietly_emit e s : is_app e = false → quietly (emit e) s (OperatingMode s).
Proof. intros H. apply (quietly_does _ _ [e] (does_emit e s)). by constructor. Qed.
Lemma quietly_skip s : quietly skip s (OperatingMode s).
Proof. apply (quietly_does _ _ []); [apply does_skip | constructor]. Qed.

(** [m] calls the application once, through [sel], in mode [mode], and that is
    its last action. *)
Definition tells (m : M Sys unit) (s : Sys) (sel : RadioEvents_t → bool) (c : AppCall)
    (mode : RadioOperatingModes_t) : Prop :=
  ∃ s', silent s s' ∧ OperatingMode s' = mode ∧ m s = call_radio_event sel c s'.

Lemma tells_call s sel c : tells (call_radio_event sel c) s sel c (OperatingMode s).
Proof. exists s. auto using silent_refl. Qed.
Lemma tells_bind m1 m2 s sel c mode mode' :
  quietly m1 s mode → (∀ s', silent s s' → OperatingMode s' = mode → tells m2 s' sel c mode') →
  tells (m1;; m2) s sel c mode'.
Proof.
  intros (s1 & E1 & S1 & O1) H2. destruct (H2 s1 S1 O1) as (s2 & S2 & O2 & E2).
  exists s2. erewrite bind_Ret by exact E1. eauto using silent_trans.
Qed.

Lemma quietly_standby_unless s :
  quietly (when (negb (RxContinuous (SubgRf s))) (SUBGRF_SetStandby STDBY_RC)) s
    (if RxContinuous (SubgRf s) then OperatingMode s else MODE_STDBY_RC).
Proof. destruct (RxContinuous (SubgRf s)); [apply quietly_skip | apply quietly_standby]. Qed.

Lemma DeInit_TxLongPacket_quietly b s : quietly (when b RFW_DeInit_TxLongPacket) s (OperatingMode s).
Proof.
  destruct b; [|apply quietly_skip]. unfold RFW_DeInit_TxLongPacket, when.
  destruct RFW_LONGPACKET_ENABLE; [|apply quietly_skip].
  eapply (quietly_does _ _ [_; _; _]).
  - refine (does_bind _ _ s _ [_] tt [_; _] (does_read _ _) _).
    refine (does_bind _ _ _ tt [_] tt [_] (does_emit _ _) (does_emit _ _)).
  - by repeat constructor.
Qed.

Lemma irq_tx_done_tells s : tells irq_tx_done s ev_TxDone App_TxDone MODE_STDBY_RC.
Proof.
  unfold irq_tx_done. eapply tells_bind; [by apply quietly_emit|]. intros s1 _ O1.
  eapply tells_bind; [by apply quietly_emit|]. intros s2 _ O2.
  eapply tells_bind; [apply quietly_standby|]. intros s3 _ O3.
  assert (∃ n, RFW_Is_LongPacketModeEnabled s3 = Ret n s3) as [n Hn].
  { unfold RFW_Is_LongPacketModeEnabled. destruct RFW_ENABLE; by eexists. }
  assert (tells (when (n =? 1) RFW_DeInit_TxLongPacket;; call_radio_event ev_TxDone App_TxDone) s3
            ev_TxDone App_TxDone MODE_STDBY_RC) as (s4 & S4 & O4 & E4).
  { eapply tells_bind; [apply DeInit_TxLongPacket_quietly|]. intros s4 _ O4. rewrite <- O3, <- O4.
    apply tells_call. }
  exists s4. split; [exact S4|]. split; [exact O4|]. by erewrite bind_Ret by exact Hn.
Qed.

Lemma irq_cad_tells b s : tells (irq_cad b) s ev_CadDone (App_CadDone b) MODE_STDBY_RC.
Proof.
  eapply tells_bind; [apply quietly_standby|]. intros s1 _ <-. apply tells_call.
Qed.

(** A finished operation: its timer is stopped, the radio in standby. *)
Lemma timed_out_tells p t sel c s :
  is_app p = false →
  tells (emit p;; emit (EvTimerStop t);; SUBGRF_SetStandby STDBY_RC;; call_radio_event sel c) s
    sel c MODE_STDBY_RC.
Proof.
  intros Hp. eapply tells_bind; [by apply quietly_emit|]. intros s1 _ _.
  eapply tells_bind; [by apply quietly_emit|]. intros s2 _ _.
  eapply tells_bind; [apply quietly_standby|]. intros s3 _ <-. apply tells_call.
Qed.

(** A failed reception: the radio is in standby unless it receives continuously. *)
Lemma failed_tells sel c s :
  tells (r ← gets SubgRf;
         when (negb (RxContinuous r)) (SUBGRF_SetStandby STDBY_RC);; call_radio_event sel c) s sel c
    (if RxContinuous (SubgRf s) then OperatingMode s else MODE_STDBY_RC).
Proof.
  change (tells (when (negb (RxContinuous (SubgRf s))) (SUBGRF_SetStandby STDBY_RC);;
                 call_radio_event sel c) s sel c
    (if RxContinuous (SubgRf s) then OperatingMode s else MODE_STDBY_RC)).
  eapply tells_bind; [apply quietly_standby_unless|]. intros s1 _ <-. apply tells_call.
Qed.

Lemma irq_header_error_tells s :
  tells irq_header_error s ev_RxTimeout App_RxTimeout
    (if RxContinuous (SubgRf s) then OperatingMode s else MODE_STDBY_RC).
Proof.
  eapply tells_bind; [by apply (quietly_emit (EvTimerStop RxTimeoutTimer))|].
  intros s1 (_ & Hc & _) O1. rewrite <- Hc, <- O1. apply failed_tells.
Qed.

Lemma irq_preamble_quietly s : quietly irq_preamble_detected s (OperatingMode s).
Proof.
  unfold irq_preamble_detected, quietly. erewrite bind_Ret by reflexivity. unfold when.
  destruct (negb _); [|apply quietly_skip].
  do 3 (erewrite bind_Ret by reflexivity). erewrite bind_Ret by apply read_register_eq.
  do 2 (erewrite bind_Ret by reflexivity).
  unfold SUBGRF_SetDioIrqParams, SUBGRF_WriteCommand, HAL_SUBGHZ_ExecSetCmd. rewrite emit_eq.
  eexists. split; [reflexivity|]. split; [|reflexivity]. do 2 (split; [reflexivity|]).
  sys_simpl. rewrite <- !app_assoc. eexists. split; [reflexivity|]. by repeat constructor.
Qed.

(** The outcome of the call of the application. *)
Definition after_call (call : option AppCall) (s : Sys) : Outcome Sys unit :=
  match call with
  | Some c => Ret tt (app_reaction c (s <| trace := trace s ++ [EvApp c] |>))
  | None => Ret tt s
  end.

Lemma call_radio_event_eq sel c s :
  call_radio_event sel c s =
    after_call (match RadioEvents s with Some ev => if sel ev then Some c else None | None => None end) s.
Proof.
  unfold call_radio_event. erewrite bind_Ret by reflexivity.
  destruct (RadioEvents s) as [ev|]; [|reflexivity]. by destruct (sel ev).
Qed.

Lemma tells_after m s sel c mode irq :
  tells m (with_irq irq s) sel c mode →
  ∃ s1, silent s s1 ∧ OperatingMode s1 = mode ∧
    m (with_irq irq s) = after_call
      (match RadioEvents s with Some ev => if sel ev then Some c else None | None => None end) s1.
Proof.
  intros (s1 & S & O & E). exists s1. split; [exact S|]. split; [exact O|].
  destruct S as [S _]. change (RadioEvents (with_irq irq s)) with (RadioEvents s) in S.
  by rewrite E, call_radio_event_eq, S.
Qed.
Lemma quietly_after m s mode irq :
  quietly m (with_irq irq s) mode →
  ∃ s1, silent s s1 ∧ OperatingMode s1 = mode ∧ m (with_irq irq s) = after_call None s1.
Proof. intros (s1 & E & S & O). by exists s1. Qed.

Lemma irq_rx_tx_timeout_after s :
  ∃ s1, silent s s1 ∧ OperatingMode s1 = expected_mode RxTxTimeout s ∧
    irq_rx_tx_timeout (with_irq IRQ_RX_TX_TIMEOUT s) = after_call (expected_call RxTxTimeout s) s1.
Proof.
  unfold irq_rx_tx_timeout, SUBGRF_GetOperatingMode, expected_mode, expected_call, told.
  erewrite bind_Ret by reflexivity.
  change (OperatingMode (with_irq _ s)) with (OperatingMode s).
  destruct (OperatingMode s) eqn:E;
    try (by apply tells_after, timed_out_tells);
    rewrite <- E; apply quietly_after, (quietly_skip (with_irq IRQ_RX_TX_TIMEOUT s)).
Qed.

Lemma irq_syncword_quietly fuel irq s :
  RFW_Is_Init s = Ret 0 s →
  quietly (irq_syncword_valid fuel) (with_irq irq s) (OperatingMode s).
Proof.
  intros H. assert (H' : RFW_Is_Init (with_irq irq s) = Ret 0 (with_irq irq s)).
  { revert H. unfold RFW_Is_Init, gets, with_irq. destruct RFW_ENABLE; [|done]. intros [= E]. sys_simpl. by rewrite E. }
  unfold irq_syncword_valid, quietly. erewrite bind_Ret by exact H'.
  apply (quietly_skip (with_irq irq s)).
Qed.

(** C22: every interrupt other than a received packet calls the application at most
    once and as its last action: the callback that belongs to the interrupt (for
    a time-out, to the mode), if it is registered.  Before the call the radio is
    put in standby at the end of a transmission, of a channel activity detection
    and of a reception that is not continuous, and otherwise left in its mode.
    Without the packets of the firmware, no interrupt loops or fails. *)
Theorem interrupts_call_once (fuel : nat) (i : Interrupt) (s : Sys) :
  RadioOnDioIrqCb s = true → RFW_Is_Init s = Ret 0 s →
  ∃ s1, silent s s1 ∧ OperatingMode s1 = expected_mode i s ∧
    hal_callback fuel i s = after_call (expected_call i s) s1.
Proof.
  intros Hcb Hrfw. unfold expected_call, expected_mode.
  destruct i as [| |st| | | | |]; unfold hal_callback, HAL_SUBGHZ_TxCpltCallback,
    HAL_SUBGHZ_CRCErrorCallback, HAL_SUBGHZ_RxTxTimeoutCallback, HAL_SUBGHZ_HeaderErrorCallback,
    HAL_SUBGHZ_PreambleDetectedCallback, HAL_SUBGHZ_SyncWordValidCallback,
    HAL_SUBGHZ_HeaderValidCallback, HAL_SUBGHZ_CADStatusCallback;
    try (rewrite dio_irq_enter by exact Hcb; unfold irq_case; cbn -[RFW_Is_Init]).
  - apply tells_after, irq_tx_done_tells.
  - apply tells_after, (failed_tells ev_RxError App_RxError (with_irq IRQ_CRC_ERROR s)).
  - destruct st; rewrite dio_irq_enter by exact Hcb; apply tells_after, irq_cad_tells.
  - apply irq_rx_tx_timeout_after.
  - apply tells_after, (irq_header_error_tells (with_irq IRQ_HEADER_ERROR s)).
  - apply quietly_after, (irq_preamble_quietly (with_irq IRQ_PREAMBLE_DETECTED s)).
  - apply quietly_after, irq_syncword_quietly. exact Hrfw.
  - apply quietly_after, (quietly_skip (with_irq IRQ_HEADER_VALID s)).
Qed.
End Interrupts.

(** ** Concrete instances *)

Lemma lora_rx_setup_witness :
  let env := quiet_env [] (λ _, 0) in
  let cfg := default_config in
  ∃ s', (RadioSetRxConfig MODEM_LORA 0 7 1 0 8 0 false 0 true false 0 false false;; RadioRx 3000) boot =
          Ret tt s' ∧ OperatingMode s' = MODE_RX ∧ RxContinuous (SubgRf s') = false ∧
    ∃ before, trace s' = before ++
      [EvTimerSetValue RxTimeoutTimer 3000; EvTimerStart RxTimeoutTimer;
       EvProbe DBG_GPIO_RADIO_RX SET; EvConfigRFSwitch RBI_SWITCH_RX;
       EvSetCmd RADIO_SET_RX [0x3F; 0xFF; 0xC0]].
Proof.
  intros env cfg.
  destruct (lora_rx_setup (cfg := cfg) (env := env) 0 LORA_BW_125 7 1 0 8 0 0 0 3000
              false true false false false boot)
    as (s' & b & m & c & E & _ & Ho & _ & _ & _ & Hc & _ & Htr).
  { reflexivity. }
  exists s'. split; [exact E|]. split; [exact Ho|]. split; [exact Hc|].
  exists (trace boot ++ b ++
    [lora_modulation_event (lora_modulation_of 0 7 1 LORA_BW_125);
     lora_packet_event (lora_packet_of 7 8 0xFF false true false)] ++ c ++ m).
  rewrite Htr, <- !app_assoc. reflexivity.
Defined.

(** The radio of a receiver that holds [payload] at the start of its buffer. *)
Definition receiver_env (payload : list Z) : Env :=
  let q := quiet_env payload (λ _, 0) in {|
  get_cmd_answer _ c n :=
    match c, n with RADIO_GET_RXBUFFERSTATUS, O => Z.of_nat (length payload) | _, _ => 0 end;
  register_answer := @register_answer q;
  rx_buffer_answer := @rx_buffer_answer q;
  RBI_IsTCXO := @RBI_IsTCXO q; RBI_IsDCDC := @RBI_IsDCDC q;
  RBI_GetTxConfig := @RBI_GetTxConfig q;
  RBI_GetRFOMaxPowerConfig := @RBI_GetRFOMaxPowerConfig q;
  current_time_answer := @current_time_answer q;
  elapsed_time_answer := @elapsed_time_answer q;
  LL_DBGMCU_GetRevisionID := @LL_DBGMCU_GetRevisionID q;
  next_chunk_answer := @next_chunk_answer q;
  app_reaction := @app_reaction q |}.

(** A node whose application registered all its callbacks, and which receives. *)
Definition listening : Sys :=
  let env := quiet_env [] (λ _, 0) in
  let cfg := default_config in
  final ((RadioInit (Some (mkRadioEvents true true true true true true));;
          RadioSetRxConfig MODEM_LORA 0 7 1 0 8 0 false 0 true false 0 false false;;
          RadioRx 3000) boot).

Lemma lora_link_witness :
  let tx_env := quiet_env [] (λ _, 0) in
  let rx_env := receiver_env [72; 105; 33] in
  let cfg := default_config in
  let tx := final (lora_setup (env := tx_env) boot) in
  ∃ tx' rx' rssi snr, RadioSend (env := tx_env) [72; 105; 33; 0] 3 tx =
      Ret (RADIO_STATUS_OK, [72; 105; 33; 0]) tx' ∧
    transmitted (trace tx') = [[72; 105; 33]] ∧
    HAL_SUBGHZ_RxCpltCallback (env := rx_env) 0 listening =
      Ret tt (app_reaction (Env := rx_env) (App_RxDone [72; 105; 33] 3 rssi snr) rx') ∧
    OperatingMode rx' = MODE_STDBY_RC.
Proof.
  intros tx_env rx_env cfg tx.
  destruct (lora_link (cfg := cfg) tx_env rx_env 0 [72; 105; 33; 0] 3 0 tx listening)
    as (tx' & payload & E & _ & _ & -> & Ht & H).
  { split; vm_compute; reflexivity. }
  { split; reflexivity || discriminate. }
  { discriminate. }
  { split; [vm_compute; reflexivity | | vm_compute; reflexivity | vm_compute; reflexivity].
    exists (mkRadioEvents true true true true true true). split; vm_compute; reflexivity. }
  destruct H as (rx' & rssi & snr & Erx & [Hm _ _ _ _]).
  { split; [intros tr; vm_compute; reflexivity | intros tr; vm_compute; reflexivity|].
    intros tr [|[|[|i]]] Hi; [vm_compute; reflexivity..|]. change (length _) with 3%nat in Hi. lia. }
  exists tx', rx', rssi, snr. split; [exact E|]. split; [rewrite Ht; vm_compute; reflexivity|].
  split; [exact Erx|]. rewrite Hm. vm_compute. reflexivity.
Defined.

Lemma interrupts_call_once_witness :
  let env := quiet_env [] (λ _, 0) in
  let cfg := default_config in
  ∃ s1, OperatingMode s1 = MODE_STDBY_RC ∧
    hal_callback 0 RxTxTimeout listening =
      Ret tt (s1 <| trace := trace s1 ++ [EvApp App_RxTimeout] |>).
Proof.
  intros env cfg.
  destruct (interrupts_call_once (cfg := cfg) (env := env) 0 RxTxTimeout listening)
    as (s1 & _ & Ho & E).
  { vm_compute. reflexivity. }
  { reflexivity. }
  exists s1. split; [rewrite Ho; vm_compute; reflexivity|]. rewrite E.
  replace (expected_call RxTxTimeout listening) with (Some App_RxTimeout) by (vm_compute; reflexivity).
  reflexivity.
Defined.
