(* ===== verification/GenericProofs.v ===== *)
(** * radio.c: properties of the generic configuration functions.

    What [RadioSetTxGenericConfig] and [RadioSetRxGenericConfig] store and send for
    LoRa, and where a link configured by them differs from one configured by
    [RadioSetTxConfig]. *)

From S2P Require Import Prelude Effects RadioTypes State Mem RadioDriver DriverProofs.
From S2P Require Import RadioFw TimeOnAir Radio RadioGeneric RadioProofs RxProofs.

(** The low data rate flag after the [switch]; [old] is the one before. *)
Definition low_datarate_flag (opt sf old : Z) : Z :=
  if opt =? RADIO_LORA_LOWDR_OPT_OFF then 0
  else if opt =? RADIO_LORA_LOWDR_OPT_ON then 1
  else if opt =? RADIO_LORA_LOWDR_OPT_AUTO then (if (sf =? 11) || (sf =? 12) then 1 else 0)
  else old.

(** What the configurations of the two directions store. *)
Definition tx_modulation_of (c : generic_param_tx_lora_t) (old : LoRaModulation) : LoRaModulation :=
  mkLoRaModulation (txl_SpreadingFactor c) (txl_Bandwidth c) (txl_Coderate c)
    (low_datarate_flag (txl_LowDatarateOptimize c) (txl_SpreadingFactor c) (lm_LowDatarateOptimize old)).
Definition tx_packet_of (c : generic_param_tx_lora_t) (old : LoRaPacket) : LoRaPacket :=
  mkLoRaPacket (txl_PreambleLen c) (txl_LengthMode c) (lp_PayloadLength old) (txl_CrcMode c)
    (txl_IqInverted c).
Definition rx_modulation_of (c : generic_param_rx_lora_t) (old : LoRaModulation) : LoRaModulation :=
  mkLoRaModulation (rxl_SpreadingFactor c) (rxl_Bandwidth c) (rxl_Coderate c)
    (low_datarate_flag (rxl_LowDatarateOptimize c) (rxl_SpreadingFactor c) (lm_LowDatarateOptimize old)).
Definition rx_packet_of (c : generic_param_rx_lora_t) : LoRaPacket :=
  mkLoRaPacket (rxl_PreambleLen c) (rxl_LengthMode c)
    (if rxl_LengthMode c =? RADIO_LORA_PACKET_FIXED_LENGTH then rxl_MaxPayloadLength c else 0xFF)
    (rxl_CrcMode c) (rxl_IqInverted c).

Section Generic.
Context {cfg : Config} {env : Env}.

Lemma store_lora_modulation_eq sf bw cr opt s :
  store_lora_modulation sf bw cr opt s =
    Ret tt (s <| SubgRf := SubgRf s
      <| ModulationParams ; mp_PacketType := PACKET_TYPE_LORA |>
      <| ModulationParams ; mp_LoRa := mkLoRaModulation sf bw cr
           (low_datarate_flag opt sf
              (lm_LowDatarateOptimize (mp_LoRa (ModulationParams (SubgRf s))))) |> |>).
Proof.
  unfold store_lora_modulation, set_low_datarate, low_datarate_flag.
  change RADIO_LORA_SF11 with 11. change RADIO_LORA_SF12 with 12.
  erewrite bind_Ret by reflexivity. repeat case_match; reflexivity.
Qed.

(** The common end of the LoRa configurations. *)
Lemma lora_stored_applied m p s :
  ∃ es, apply_params MODEM_LORA (lora_stored m p s) =
    Ret tt (lora_applied (es ++ [lora_modulation_event m; lora_packet_event p]) (lora_stored m p s)).
Proof. exact (apply_params_lora (lora_stored m p s) eq_refl eq_refl). Qed.

Lemma tx_generic_lora_eq c s :
  let m := tx_modulation_of c (mp_LoRa (ModulationParams (SubgRf s))) in
  let p := tx_packet_of c (pp_LoRa (PacketParams (SubgRf s))) in
  ∃ es es', tx_generic_lora (tx_lora c) s =
    Ret 0 (lora_applied (es ++ [lora_modulation_event m; lora_packet_event p]) (lora_stored m p s)
             <| trace := trace (lora_applied (es ++ [lora_modulation_event m; lora_packet_event p])
                                  (lora_stored m p s)) ++ es' |>) ∧
    Forall setup_event es'.
Proof.
  intros m p. destruct (lora_stored_applied m p s) as (es & E).
  unfold tx_generic_lora. erewrite bind_Ret by reflexivity.
  erewrite bind_Ret by apply store_lora_modulation_eq. erewrite bind_Ret by reflexivity.
  match goal with |- context [(apply_params _ ≫= _) ?s1] =>
    change s1 with (lora_stored m p s) end.
  erewrite bind_Ret by exact E. erewrite bind_Ret by reflexivity.
  match goal with |- context [(set_tx_modulation_quality ?b ≫= _) ?s1] =>
    destruct (tx_quality_does b s1) as (es' & Hes & Hev) end.
  erewrite bind_Ret by exact Hes. by exists es, es'.
Qed.
End Generic.

Section Properties.
Context {cfg : Config} {env : Env}.

Lemma SetTxGenericConfig_lora c power timeout s :
  RADIO_GENERIC_CONFIG_ENABLE = true →
  let modulation := tx_modulation_of c (mp_LoRa (ModulationParams (SubgRf s))) in
  let packet := tx_packet_of c (pp_LoRa (PacketParams (SubgRf s))) in
  ∃ s' before after,
    RadioSetTxGenericConfig GENERIC_LORA (tx_lora c) power timeout s = Ret 0 s' ∧
    lora_ready s' ∧ OperatingMode s' = MODE_STDBY_RC ∧
    mp_LoRa (ModulationParams (SubgRf s')) = modulation ∧
    pp_LoRa (PacketParams (SubgRf s')) = packet ∧ TxTimeout (SubgRf s') = timeout ∧
    trace s' = before ++ [lora_modulation_event modulation; lora_packet_event packet] ++ after ∧
    Forall (λ e, setup_event e ∨ power_event e) after.
Proof.
  intros Hen modulation packet. unfold RadioSetTxGenericConfig. rewrite Hen. cbn [negb].
  erewrite bind_Ret by apply RFW_DeInit_off. set (s0 := s <| RFWPacket := _ |>).
  destruct (tx_generic_lora_eq c s0) as (es & es' & E & Hq). erewrite bind_Ret by exact E.
  cbn [negb Z.eqb]. set (s1 := _ <| trace := _ |>).
  destruct (SetRfTxPower_does power s1) as (pa & es2 & Hes & Hev).
  erewrite bind_Ret by exact Hes. erewrite bind_Ret by reflexivity.
  match goal with |- context [(RFW_SetAntSwitch _ ≫= _) ?s3] =>
    destruct (RFW_SetAntSwitch_eq pa s3) as [g Hg] end.
  erewrite bind_Ret by exact Hg.
  eexists _, (trace s ++ [EvSetCmd RADIO_SET_STANDBY [0]] ++ es), (es' ++ es2).
  split; [reflexivity|]. split; [by split|]. repeat (split; [reflexivity|]). split.
  - unfold s1, s0, lora_applied, modem_state. sys_simpl. rewrite <- !app_assoc. reflexivity.
  - apply Forall_app. split; [eapply Forall_impl; [exact Hq | tauto] | eapply Forall_impl; [exact Hev | tauto]].
Qed.

(** A generic configuration with the arguments of [RadioSetTxConfig] and the
    automatic low data rate optimisation. *)
Definition generic_of (bw dr cr pre : Z) (fix_ crc iq : bool) : generic_param_tx_lora_t :=
  mk_tx_lora dr bw cr RADIO_LORA_LOWDR_OPT_AUTO pre (b2z fix_) (b2z crc) (b2z iq).

Lemma low_datarate_flag_agrees bandwidth sf old :
  0 <= bandwidth <= 2 → 5 <= sf <= 12 →
  low_datarate_flag RADIO_LORA_LOWDR_OPT_AUTO sf old = (if low_datarate bandwidth sf then 1 else 0) ↔
  ¬ (bandwidth = 1 ∧ sf = 11 ∨ bandwidth = 2 ∧ 11 <= sf).
Proof.
  intros Hb Hs. change (low_datarate_flag RADIO_LORA_LOWDR_OPT_AUTO sf old)
    with (if (sf =? 11) || (sf =? 12) then 1 else 0).
  unfold low_datarate. repeat case_match; lia.
Qed.

(** C25: the generic configuration of a LoRa transmission, with the automatic low
    data rate optimisation, and [RadioSetTxConfig] with the same arguments both
    succeed and leave the radio in standby with the parameters they stored.
    They agree on the modulation except for the spreading factors 11 at 250 kHz
    and 11 and 12 at 500 kHz, where only the generic one turns the optimisation
    on; two nodes configured by the two functions cannot hear each other there.
    They agree on the packet, apart from the payload length that [RadioSend]
    overwrites, unless the preamble of spreading factor 5 or 6 is below the 12
    symbols to which only [RadioSetTxConfig] extends it. *)
Theorem generic_tx_agrees (power fdev bandwidth bw dr cr pre hop timeout : Z)
    (fix_ crc hopOn iq : bool) (s : Sys) :
  RADIO_GENERIC_CONFIG_ENABLE = true →
  0 <= bandwidth → Bandwidths !! Z.to_nat bandwidth = Some bw → 5 <= dr <= 12 →
  ∃ s1 s2,
    RadioSetTxConfig MODEM_LORA power fdev bandwidth dr cr pre fix_ crc hopOn hop iq timeout s =
      Ret tt s1 ∧
    RadioSetTxGenericConfig GENERIC_LORA (tx_lora (generic_of bw dr cr pre fix_ crc iq)) power timeout s =
      Ret 0 s2 ∧
    lora_ready s1 ∧ lora_ready s2 ∧ TxTimeout (SubgRf s1) = TxTimeout (SubgRf s2) ∧
    (mp_LoRa (ModulationParams (SubgRf s1)) = mp_LoRa (ModulationParams (SubgRf s2)) ↔
       ¬ (bandwidth = 1 ∧ dr = 11 ∨ bandwidth = 2 ∧ 11 <= dr)) ∧
    (pp_LoRa (PacketParams (SubgRf s1)) <| lp_PayloadLength := 0 |> =
       pp_LoRa (PacketParams (SubgRf s2)) <| lp_PayloadLength := 0 |> ↔ (dr <= 6 → 12 <= pre)).
Proof.
  intros Hen Hb Hbw Hdr.
  assert (Hb2 : 0 <= bandwidth <= 2).
  { split; [done|]. apply lookup_lt_Some in Hbw. cbn in Hbw. lia. }
  destruct (SetTxConfig_lora power fdev bandwidth bw dr cr pre hop timeout fix_ crc hopOn iq s Hbw)
    as (s1 & _ & _ & E1 & Hr1 & _ & Hm1 & Hp1 & Ht1 & _).
  destruct (SetTxGenericConfig_lora (generic_of bw dr cr pre fix_ crc iq) power timeout s Hen)
    as (s2 & _ & _ & E2 & Hr2 & _ & Hm2 & Hp2 & Ht2 & _).
  exists s1, s2. do 4 (split; [done|]). split; [congruence|]. split.
  - rewrite Hm1, Hm2, <- (low_datarate_flag_agrees bandwidth dr
      (lm_LowDatarateOptimize (mp_LoRa (ModulationParams (SubgRf s))))) by done.
    unfold lora_modulation_of, tx_modulation_of, generic_of.
    cbn [txl_SpreadingFactor txl_Bandwidth txl_Coderate txl_LowDatarateOptimize].
    split; [by intros [= H] | by intros ->].
  - rewrite Hp1, Hp2. unfold lora_packet_of, tx_packet_of. cbn.
    destruct ((dr =? 5) || (dr =? 6)) eqn:E.
    + split; [intros [= H]; lia | intros H; rewrite Z.max_l by lia; done].
    + split; [lia | done].
Qed.

(** [RadioSetRxGenericConfig] for LoRa refuses a preamble of no symbols
    without an interaction with the radio; otherwise it sends its parameters
    in standby after the symbol time-out, and selects the reception mode.  The
    maximal payload length goes to the packet parameters only: the global
    [MaxPayloadLength], from which [RadioSetTxConfig] takes the one of its
    packets, keeps its value. *)
Theorem generic_rx_lora (c : RxConfigGeneric_t) (cont symb : Z) (s : Sys) :
  RADIO_GENERIC_CONFIG_ENABLE = true →
  let modulation := rx_modulation_of (rx_lora c) (mp_LoRa (ModulationParams (SubgRf s))) in
  let packet := rx_packet_of (rx_lora c) in
  ∃ r s', RadioSetRxGenericConfig GENERIC_LORA c cont symb s = Ret r s' ∧
    RxContinuous (SubgRf s') = negb (cont =? 0) ∧ MaxPayloadLength s' = MaxPayloadLength s ∧
    (if rxl_PreambleLen (rx_lora c) =? 0 then r = -1 ∧ trace s' = trace s
     else r = 0 ∧ lora_ready s' ∧ OperatingMode s' = MODE_STDBY_RC ∧
       mp_LoRa (ModulationParams (SubgRf s')) = modulation ∧
       pp_LoRa (PacketParams (SubgRf s')) = packet ∧ LoRaHeaderType s' = lp_HeaderType packet ∧
       RxTimeout (SubgRf s') = 0xFFFF ∧
       ∃ middle after, trace s' = trace s ++
         [EvSetCmd RADIO_SET_STOPRXTIMERONPREAMBLE
            [b2z (negb (rxl_StopTimerOnPreambleDetect (rx_lora c) =? 0))];
          EvSetCmd RADIO_SET_LORASYMBTIMEOUT [u8 (if cont =? 0 then symb else 0)]] ++ middle ++
         [lora_modulation_event modulation; lora_packet_event packet] ++ after).
Proof.
  intros Hen modulation packet. unfold RadioSetRxGenericConfig. rewrite Hen. cbn [negb].
  erewrite bind_Ret by apply RFW_DeInit_off. erewrite bind_Ret by reflexivity.
  set (s0 := _ <| SubgRf := _ |>). unfold rx_generic_lora.
  destruct (rxl_PreambleLen (rx_lora c) =? 0) eqn:Epre.
  { exists (-1), s0. by repeat split. }
  erewrite bind_Ret by reflexivity.
  match goal with |- context [(SUBGRF_SetLoRaSymbNumTimeout (u8 ?n) ≫= _) ?s1] =>
    destruct (symb_timeout_does n s1) as [es1 E1] end.
  erewrite bind_Ret by exact E1.
  match goal with |- context [(store_lora_modulation _ _ _ _ ≫= _) ?s1] => set (s2 := s1) end.
  erewrite bind_Ret by apply store_lora_modulation_eq.
  erewrite (bind_Ret _ _ _ tt (lora_stored modulation packet s2)) by reflexivity.
  destruct (lora_stored_applied modulation packet s2) as (es & E). erewrite bind_Ret by exact E.
  match goal with |- context [(set_iq_polarity ≫= _) ?s1] =>
    destruct (iq_polarity_does s1) as [es2 E2] end.
  erewrite bind_Ret by exact E2. erewrite bind_Ret by reflexivity.
  eexists 0, _. split; [reflexivity|]. do 2 (split; [reflexivity|]).
  split; [done|]. split; [by split|]. repeat (split; [reflexivity|]).
  eexists (es1 ++ [EvSetCmd RADIO_SET_STANDBY [0]] ++ es), es2.
  unfold lora_applied, modem_state, lora_stored, s2, s0. sys_simpl.
  rewrite <- !app_assoc. reflexivity.
Qed.
End Properties.

(** At spreading factor 11 and 250 kHz the two configurations do not match. *)
Lemma generic_tx_agrees_witness :
  let env := quiet_env [] (λ _, 0) in
  let cfg := default_config in
  ∃ s1 s2,
    RadioSetTxConfig MODEM_LORA 14 0 1 11 1 8 false true false 0 false 3000 boot = Ret tt s1 ∧
    RadioSetTxGenericConfig GENERIC_LORA (tx_lora (generic_of LORA_BW_250 11 1 8 false true false))
      14 3000 boot = Ret 0 s2 ∧
    mp_LoRa (ModulationParams (SubgRf s1)) ≠ mp_LoRa (ModulationParams (SubgRf s2)) ∧
    pp_LoRa (PacketParams (SubgRf s1)) <| lp_PayloadLength := 0 |> =
      pp_LoRa (PacketParams (SubgRf s2)) <| lp_PayloadLength := 0 |>.
Proof.
  intros env cfg.
  destruct (generic_tx_agrees (cfg := cfg) (env := env) 14 0 1 LORA_BW_250 11 1 8 0 3000
              false true false false boot) as (s1 & s2 & E1 & E2 & _ & _ & _ & Hm & Hp).
  { reflexivity. }
  { lia. }
  { reflexivity. }
  { lia. }
  exists s1, s2. split; [exact E1|]. split; [exact E2|]. split.
  - intros H. apply Hm in H. apply H. left. by split.
  - apply Hp. lia.
Defined.

(** A reception of fixed packets of ten bytes. *)
Definition fixed_reception : RxConfigGeneric_t :=
  mkRxConfigGeneric (rx_fsk fsk_reception)
    (mk_rx_lora 0 7 LORA_BW_125 1 RADIO_LORA_LOWDR_OPT_AUTO 8 RADIO_LORA_PACKET_FIXED_LENGTH 10 1 0).

Lemma generic_rx_lora_witness :
  let env := quiet_env [] (λ _, 0) in
  let cfg := default_config in
  ∃ s', RadioSetRxGenericConfig GENERIC_LORA fixed_reception 0 5 boot = Ret 0 s' ∧
    lp_PayloadLength (pp_LoRa (PacketParams (SubgRf s'))) = 10 ∧ MaxPayloadLength s' = 255.
Proof.
  intros env cfg.
  destruct (generic_rx_lora (cfg := cfg) (env := env) fixed_reception 0 5 boot)
    as (r & s' & E & _ & Hl & Hrest).
  { reflexivity. }
  destruct Hrest as (-> & _ & _ & _ & Hp & _).
  exists s'. split; [exact E|]. split; [rewrite Hp; reflexivity | exact Hl].
Defined.
