(* ===== verification/HalSubghz.v ===== *)
(** * stm32wlxx_hal_subghz.c: the simulated HAL of the sub-GHz radio.

    The functions take a pointer to a handle; the state holds the handles by
    their address and the two globals of the file.  A callback pointer is the
    default function of the file for its identifier or a function of the
    application.  What the functions print is kept in the state, without the final
    newline and, in one message, the number of the command.  The weak
    functions are those of the file. *)

From S2P Require Import Prelude Effects RadioTypes.
From Stdlib Require Import String.

Inductive HAL_StatusTypeDef := HAL_OK | HAL_ERROR | HAL_BUSY | HAL_TIMEOUT.

Inductive HAL_SUBGHZ_StateTypeDef :=
| HAL_SUBGHZ_STATE_RESET | HAL_SUBGHZ_STATE_READY | HAL_SUBGHZ_STATE_BUSY
| HAL_SUBGHZ_STATE_RESET_RF_READY.

#[export] Instance State_eq_dec : EqDecision HAL_SUBGHZ_StateTypeDef.
Proof. solve_decision. Defined.

(** The identifiers of the callbacks; [CB_ID_other] is any other value of the
    parameter, which C does not restrict to the enumeration. *)
Inductive HAL_SUBGHZ_CallbackIDTypeDef :=
| HAL_SUBGHZ_TX_COMPLETE_CB_ID | HAL_SUBGHZ_RX_COMPLETE_CB_ID
| HAL_SUBGHZ_PREAMBLE_DETECTED_CB_ID | HAL_SUBGHZ_SYNCWORD_VALID_CB_ID
| HAL_SUBGHZ_HEADER_VALID_CB_ID | HAL_SUBGHZ_HEADER_ERROR_CB_ID | HAL_SUBGHZ_CRC_ERROR_CB_ID
| HAL_SUBGHZ_RX_TX_TIMEOUT_CB_ID | HAL_SUBGHZ_MSPINIT_CB_ID | HAL_SUBGHZ_MSPDEINIT_CB_ID
| HAL_SUBGHZ_LR_FHSS_HOP_CB_ID
| CB_ID_other (id : Z).

#[export] Instance CallbackID_eq_dec : EqDecision HAL_SUBGHZ_CallbackIDTypeDef.
Proof. solve_decision. Defined.

(** A function pointer that is not [NULL]. *)
Inductive Callback := Default (id : HAL_SUBGHZ_CallbackIDTypeDef) | User (f : Z).

Definition HAL_SUBGHZ_ERROR_INVALID_CALLBACK : Z := 0x00000080.

Record SUBGHZ_HandleTypeDef := mkHandle {
  State : HAL_SUBGHZ_StateTypeDef;
  ErrorCode : Z;
  TxCpltCallback : option Callback;
  RxCpltCallback : option Callback;
  PreambleDetectedCallback : option Callback;
  SyncWordValidCallback : option Callback;
  HeaderValidCallback : option Callback;
  HeaderErrorCallback : option Callback;
  CRCErrorCallback : option Callback;
  RxTxTimeoutCallback : option Callback;
  MspInitCallback : option Callback;
  MspDeInitCallback : option Callback;
  LrFhssHopCallback : option Callback }.

#[export] Instance eta_Handle : Eta SUBGHZ_HandleTypeDef := λ h, mkHandle
  (State h) (ErrorCode h) (TxCpltCallback h) (RxCpltCallback h) (PreambleDetectedCallback h)
  (SyncWordValidCallback h) (HeaderValidCallback h) (HeaderErrorCallback h)
  (CRCErrorCallback h) (RxTxTimeoutCallback h) (MspInitCallback h) (MspDeInitCallback h)
  (LrFhssHopCallback h).

Record Hal := mkHal {
  handles : gmap Z SUBGHZ_HandleTypeDef;
  sim_stm32_hal_subghz_callbacks : option Z;
  sim_stm32_hal_subghz_radio_init : Z;
  printed : list string }.
#[export] Instance eta_Hal : Eta Hal := λ s, mkHal
  (handles s) (sim_stm32_hal_subghz_callbacks s) (sim_stm32_hal_subghz_radio_init s)
  (printed s).

(** The globals at boot; a handle that is a zeroed global is in the state RESET. *)
Definition zero_handle : SUBGHZ_HandleTypeDef :=
  mkHandle HAL_SUBGHZ_STATE_RESET 0 None None None None None None None None None None None.
Definition hal_boot (hs : gmap Z SUBGHZ_HandleTypeDef) : Hal := mkHal hs None 0 [].

(** [hsubghz->x], and writing [hsubghz]. *)
Definition handle (hsubghz : Z) : M Hal SUBGHZ_HandleTypeDef :=
  s ← get_state; defined "hsubghz does not point to a handle" (handles s !! hsubghz).
Definition set_handle (hsubghz : Z) (h : SUBGHZ_HandleTypeDef) : M Hal unit :=
  update (λ s, s <| handles := <[hsubghz := h]> (handles s) |>).

Definition printf (msg : string) : M Hal unit := update (λ s, s <| printed := printed s ++ [msg] |>).

(** ** Initialisation *)

Definition wrong_handle : string :=
  "ERROR: HAL_SUBGHZ_DeInit() called with a handle that does not match the registered callbacks.".

Definition HAL_SUBGHZ_MspInit (hsubghz : Z) : M Hal unit :=
  cbs ← gets sim_stm32_hal_subghz_callbacks;
  when (bool_decide (cbs = None))
    (update (λ s, s <| sim_stm32_hal_subghz_callbacks := Some hsubghz |>));;
  cbs ← gets sim_stm32_hal_subghz_callbacks;
  when (negb (bool_decide (cbs = Some hsubghz))) (printf wrong_handle).

Definition HAL_SUBGHZ_MspDeInit (hsubghz : Z) : M Hal unit :=
  cbs ← gets sim_stm32_hal_subghz_callbacks;
  if bool_decide (cbs = None) then skip
  else when (negb (bool_decide (cbs = Some hsubghz))) (printf wrong_handle).

Definition HAL_SUBGHZ_Init (hsubghz : Z) : M Hal HAL_StatusTypeDef :=
  update (λ s, s <| sim_stm32_hal_subghz_callbacks := Some hsubghz |>);;
  update (λ s, s <| sim_stm32_hal_subghz_radio_init := 1 |>);;
  HAL_SUBGHZ_MspInit hsubghz;;
  mret HAL_OK.

Definition HAL_SUBGHZ_DeInit (hsubghz : Z) : M Hal HAL_StatusTypeDef :=
  cbs ← gets sim_stm32_hal_subghz_callbacks;
  if negb (bool_decide (cbs = Some hsubghz)) then printf wrong_handle;; mret HAL_ERROR
  else
    update (λ s, s <| sim_stm32_hal_subghz_callbacks := None |>);;
    update (λ s, s <| sim_stm32_hal_subghz_radio_init := 0 |>);;
    HAL_SUBGHZ_MspDeInit hsubghz;;
    mret HAL_OK.

(** ** Callbacks *)

(** The [switch] of the READY state; [None] is its default case. *)
Definition set_callback (id : HAL_SUBGHZ_CallbackIDTypeDef) (c : option Callback)
    (h : SUBGHZ_HandleTypeDef) : option SUBGHZ_HandleTypeDef :=
  match id with
  | HAL_SUBGHZ_TX_COMPLETE_CB_ID => Some (h <| TxCpltCallback := c |>)
  | HAL_SUBGHZ_RX_COMPLETE_CB_ID => Some (h <| RxCpltCallback := c |>)
  | HAL_SUBGHZ_PREAMBLE_DETECTED_CB_ID => Some (h <| PreambleDetectedCallback := c |>)
  | HAL_SUBGHZ_SYNCWORD_VALID_CB_ID => Some (h <| SyncWordValidCallback := c |>)
  | HAL_SUBGHZ_HEADER_VALID_CB_ID => Some (h <| HeaderValidCallback := c |>)
  | HAL_SUBGHZ_HEADER_ERROR_CB_ID => Some (h <| HeaderErrorCallback := c |>)
  | HAL_SUBGHZ_CRC_ERROR_CB_ID => Some (h <| CRCErrorCallback := c |>)
  | HAL_SUBGHZ_RX_TX_TIMEOUT_CB_ID => Some (h <| RxTxTimeoutCallback := c |>)
  | HAL_SUBGHZ_MSPINIT_CB_ID => Some (h <| MspInitCallback := c |>)
  | HAL_SUBGHZ_MSPDEINIT_CB_ID => Some (h <| MspDeInitCallback := c |>)
  | HAL_SUBGHZ_LR_FHSS_HOP_CB_ID => Some (h <| LrFhssHopCallback := c |>)
  | CB_ID_other _ => None
  end.

(** The [switch] of the RESET state. *)
Definition set_msp_callback (id : HAL_SUBGHZ_CallbackIDTypeDef) (c : option Callback)
    (h : SUBGHZ_HandleTypeDef) : option SUBGHZ_HandleTypeDef :=
  match id with
  | HAL_SUBGHZ_MSPINIT_CB_ID => Some (h <| MspInitCallback := c |>)
  | HAL_SUBGHZ_MSPDEINIT_CB_ID => Some (h <| MspDeInitCallback := c |>)
  | _ => None
  end.

(** The common body of the two functions, by the state of the handle; they
    print different messages in the default cases. *)
Definition store_callback (msg_ready : string) (msg_reset : option string) (hsubghz : Z)
    (id : HAL_SUBGHZ_CallbackIDTypeDef) (c : option Callback) : M Hal HAL_StatusTypeDef :=
  h ← handle hsubghz;
  let refuse :=
    set_handle hsubghz (h <| ErrorCode := HAL_SUBGHZ_ERROR_INVALID_CALLBACK |>);;
    mret HAL_ERROR in
  match State h with
  | HAL_SUBGHZ_STATE_READY =>
      match set_callback id c h with
      | Some h' => set_handle hsubghz h';; mret HAL_OK
      | None => printf msg_ready;; refuse
      end
  | HAL_SUBGHZ_STATE_RESET =>
      match set_msp_callback id c h with
      | Some h' => set_handle hsubghz h';; mret HAL_OK
      | None => match msg_reset with Some m => printf m | None => skip end;; refuse
      end
  | _ => refuse
  end.

Definition HAL_SUBGHZ_RegisterCallback (hsubghz : Z) (CallbackID : HAL_SUBGHZ_CallbackIDTypeDef)
    (pCallback : option Callback) : M Hal HAL_StatusTypeDef :=
  let msg := "ERROR: HAL_SUBGHZ_RegisterCallback() received invalid callback."%string in
  if bool_decide (pCallback = None) then
    printf msg;;
    h ← handle hsubghz;
    set_handle hsubghz
      (h <| ErrorCode := Z.lor (ErrorCode h) HAL_SUBGHZ_ERROR_INVALID_CALLBACK |>);;
    mret HAL_ERROR
  else store_callback msg None hsubghz CallbackID pCallback.

Definition HAL_SUBGHZ_UnRegisterCallback (hsubghz : Z) (CallbackID : HAL_SUBGHZ_CallbackIDTypeDef)
  : M Hal HAL_StatusTypeDef :=
  store_callback "ERROR: HAL_SUBGHZ_UnRegisterCallback() received invalid callback ID."
    (Some "ERROR: HAL_SUBGHZ_UnRegisterCallback() received invalid callback ID!."%string)
    hsubghz CallbackID (Some (Default CallbackID)).

(** ** Access to the radio *)

Definition HAL_SUBGHZ_WriteRegisters (hsubghz : Z) (Address : Z) (pBuffer : list Z)
  : M Hal HAL_StatusTypeDef :=
  h ← handle hsubghz;
  if bool_decide (State h = HAL_SUBGHZ_STATE_READY) then
    set_handle hsubghz (h <| State := HAL_SUBGHZ_STATE_BUSY |>);;
    init ← gets sim_stm32_hal_subghz_radio_init;
    if init =? 0 then
      printf "ERROR: HAL_SUBGHZ_WriteRegisters called for uninitialized radio.";; mret HAL_ERROR
    else
      printf "NOT IMPLEMENTED: Ignoring HAL_SUBGHZ_WriteRegisters call.";; mret HAL_ERROR
  else mret HAL_BUSY.

Definition HAL_SUBGHZ_ExecSetCmd (hsubghz : Z) (Command : SUBGHZ_RadioSetCmd_t) (pBuffer : list Z)
  : M Hal HAL_StatusTypeDef :=
  match Command with
  | RADIO_SET_SLEEP => printf "NOT IMPLEMENTED: Ignoring RADIO_SET_SLEEP command.";; mret HAL_ERROR
  | RADIO_SET_STANDBY => printf "NOT IMPLEMENTED: Ignoring RADIO_SET_STANDBY command.";; mret HAL_ERROR
  | RADIO_SET_FS => printf "NOT IMPLEMENTED: Ignoring RADIO_SET_FS command.";; mret HAL_ERROR
  | RADIO_SET_TX => printf "NOT IMPLEMENTED: Ignoring RADIO_SET_TX command.";; mret HAL_ERROR
  | RADIO_SET_RX => printf "NOT IMPLEMENTED: Ignoring RADIO_SET_RX command.";; mret HAL_ERROR
  | _ => printf "ERROR: HAL_SUBGHZ_ExecSetCmd received unhandled command";; mret HAL_ERROR
  end.

Definition HAL_SUBGHZ_ExecGetCmd (hsubghz : Z) (Command : SUBGHZ_RadioGetCmd_t) (Size : nat)
  : M Hal HAL_StatusTypeDef := mret HAL_ERROR.

(** ** Reading the callbacks back *)

Definition get_callback (id : HAL_SUBGHZ_CallbackIDTypeDef) (h : SUBGHZ_HandleTypeDef)
  : option Callback :=
  match id with
  | HAL_SUBGHZ_TX_COMPLETE_CB_ID => TxCpltCallback h
  | HAL_SUBGHZ_RX_COMPLETE_CB_ID => RxCpltCallback h
  | HAL_SUBGHZ_PREAMBLE_DETECTED_CB_ID => PreambleDetectedCallback h
  | HAL_SUBGHZ_SYNCWORD_VALID_CB_ID => SyncWordValidCallback h
  | HAL_SUBGHZ_HEADER_VALID_CB_ID => HeaderValidCallback h
  | HAL_SUBGHZ_HEADER_ERROR_CB_ID => HeaderErrorCallback h
  | HAL_SUBGHZ_CRC_ERROR_CB_ID => CRCErrorCallback h
  | HAL_SUBGHZ_RX_TX_TIMEOUT_CB_ID => RxTxTimeoutCallback h
  | HAL_SUBGHZ_MSPINIT_CB_ID => MspInitCallback h
  | HAL_SUBGHZ_MSPDEINIT_CB_ID => MspDeInitCallback h
  | HAL_SUBGHZ_LR_FHSS_HOP_CB_ID => LrFhssHopCallback h
  | CB_ID_other _ => None
  end.

(** Is the callback of this identifier one that can be registered in the state? *)
Definition registrable (st : HAL_SUBGHZ_StateTypeDef) (id : HAL_SUBGHZ_CallbackIDTypeDef) : bool :=
  match st, id with
  | _, CB_ID_other _ => false
  | HAL_SUBGHZ_STATE_READY, _ => true
  | HAL_SUBGHZ_STATE_RESET, (HAL_SUBGHZ_MSPINIT_CB_ID | HAL_SUBGHZ_MSPDEINIT_CB_ID) => true
  | _, _ => false
  end.

Lemma set_callback_get id c h h' id' :
  set_callback id c h = Some h' →
  get_callback id' h' = (if decide (id' = id) then c else get_callback id' h) ∧
  State h' = State h ∧ ErrorCode h' = ErrorCode h.
Proof. destruct id; cbn; intros [= <-]; destruct id'; cbn; done. Qed.

Lemma set_callback_Some id c h :
  registrable HAL_SUBGHZ_STATE_READY id = true → is_Some (set_callback id c h).
Proof. destruct id; cbn; eauto; done. Qed.

Lemma set_msp_callback_set id c h h' :
  set_msp_callback id c h = Some h' → set_callback id c h = Some h'.
Proof. destruct id; cbn; done. Qed.

Lemma set_msp_callback_Some id c h :
  is_Some (set_msp_callback id c h) ↔ registrable HAL_SUBGHZ_STATE_RESET id = true.
Proof. destruct id; cbn; split; intros; eauto; try done; by destruct H. Qed.

Lemma set_callback_None id c h : set_callback id c h = None ↔ registrable HAL_SUBGHZ_STATE_READY id = false.
Proof. by destruct id. Qed.

(** ** Outcomes of the operations *)

Lemma handle_eq p h s : handles s !! p = Some h → handle p s = Ret h s.
Proof. intros H. unfold handle. erewrite bind_Ret by reflexivity. now rewrite H. Qed.

(** Executes a computation on the state of the HAL. *)
Ltac hal_run :=
  unfold set_handle, printf, mbind, M_bind, mret, M_ret, update, gets, get_state, when, defined,
    skip, undefined in *; cbn in *.

Lemma Init_eq p s :
  HAL_SUBGHZ_Init p s = Ret HAL_OK (s <| sim_stm32_hal_subghz_callbacks := Some p |>
                                      <| sim_stm32_hal_subghz_radio_init := 1 |>).
Proof.
  unfold HAL_SUBGHZ_Init, HAL_SUBGHZ_MspInit. hal_run. now rewrite bool_decide_true by done.
Qed.

Lemma DeInit_eq p s :
  HAL_SUBGHZ_DeInit p s =
    if decide (sim_stm32_hal_subghz_callbacks s = Some p) then
      Ret HAL_OK (s <| sim_stm32_hal_subghz_callbacks := None |>
                    <| sim_stm32_hal_subghz_radio_init := 0 |>)
    else Ret HAL_ERROR (s <| printed := printed s ++ [wrong_handle] |>).
Proof.
  unfold HAL_SUBGHZ_DeInit, HAL_SUBGHZ_MspDeInit. hal_run. case_decide as H.
  - now rewrite bool_decide_true.
  - now rewrite bool_decide_false.
Qed.

Lemma RegisterCallback_null p id h s :
  handles s !! p = Some h →
  ∃ s', HAL_SUBGHZ_RegisterCallback p id None s = Ret HAL_ERROR s' ∧
    handles s' = <[p := h <| ErrorCode := Z.lor (ErrorCode h) HAL_SUBGHZ_ERROR_INVALID_CALLBACK |>]>
                   (handles s).
Proof.
  intros H. unfold HAL_SUBGHZ_RegisterCallback, handle. cbn [bool_decide decide_rel].
  hal_run. rewrite H. eexists. split; reflexivity.
Qed.

Lemma RegisterCallback_Some p id f :
  HAL_SUBGHZ_RegisterCallback p id (Some f) =
    store_callback "ERROR: HAL_SUBGHZ_RegisterCallback() received invalid callback." None p id (Some f).
Proof. reflexivity. Qed.

Lemma WriteRegisters_eq p addr data s :
  HAL_SUBGHZ_WriteRegisters p addr data s =
    match handles s !! p with
    | None => Undef "hsubghz does not point to a handle" s
    | Some h =>
        if decide (State h = HAL_SUBGHZ_STATE_READY) then
          Ret HAL_ERROR
            (s <| handles := <[p := h <| State := HAL_SUBGHZ_STATE_BUSY |>]> (handles s) |>
               <| printed := printed s ++
                    [if sim_stm32_hal_subghz_radio_init s =? 0
                     then "ERROR: HAL_SUBGHZ_WriteRegisters called for uninitialized radio."%string
                     else "NOT IMPLEMENTED: Ignoring HAL_SUBGHZ_WriteRegisters call."%string] |>)
        else Ret HAL_BUSY s
    end.
Proof.
  unfold HAL_SUBGHZ_WriteRegisters, handle. hal_run. destruct (handles s !! p) as [h|]; [|done].
  cbn. case_decide as Hst.
  - rewrite bool_decide_true by done. by destruct (_ =? 0).
  - by rewrite bool_decide_false.
Qed.

(** The contract of the two functions: [o] is the outcome, from [s], of storing
    [c] as the callback [id] of the handle [h] at [p].  When the state of the
    handle allows it the call succeeds and exactly this callback changes;
    otherwise it fails, no callback changes and the error code is set. *)
Definition stores (p : Z) (id : HAL_SUBGHZ_CallbackIDTypeDef) (c : option Callback)
    (h : SUBGHZ_HandleTypeDef) (s : Hal) (o : Outcome Hal HAL_StatusTypeDef) : Prop :=
  let ok := registrable (State h) id in
  ∃ s' h', o = Ret (if ok then HAL_OK else HAL_ERROR) s' ∧
    handles s' = <[p := h']> (handles s) ∧ State h' = State h ∧
    (∀ id', get_callback id' h' = if ok && bool_decide (id' = id) then c else get_callback id' h) ∧
    ErrorCode h' = (if ok then ErrorCode h else HAL_SUBGHZ_ERROR_INVALID_CALLBACK).

Lemma stores_refused p id c h s s1 :
  handles s1 = handles s → registrable (State h) id = false →
  stores p id c h s
    ((set_handle p (h <| ErrorCode := HAL_SUBGHZ_ERROR_INVALID_CALLBACK |>);; mret HAL_ERROR) s1).
Proof.
  intros Hs1 Hr. unfold stores. rewrite Hr. eexists _, _. split; [reflexivity|]. cbn. rewrite Hs1.
  repeat split.
Qed.

Lemma stores_accepted p id c h h' s :
  set_callback id c h = Some h' → registrable (State h) id = true →
  stores p id c h s ((set_handle p h';; mret HAL_OK) s).
Proof.
  intros Hh' Hr. unfold stores. rewrite Hr. eexists _, h'. split; [reflexivity|]. cbn.
  split; [done|]. pose proof (set_callback_get id c h h' id Hh') as (_ & ? & ?).
  repeat split; [done| |done]. intros id'.
  destruct (set_callback_get id c h h' id' Hh') as (-> & _ & _).
  by destruct (decide (id' = id)), (bool_decide_reflect (id' = id)).
Qed.

Lemma store_callback_outcome m1 m2 p id c h s :
  handles s !! p = Some h → stores p id c h s (store_callback m1 m2 p id c s).
Proof.
  intros H. unfold store_callback. erewrite bind_Ret by (apply handle_eq, H). cbv beta zeta.
  destruct (State h) eqn:Est.
  - destruct (set_msp_callback id c h) as [h'|] eqn:E.
    + apply stores_accepted; [by apply set_msp_callback_set|]. rewrite Est.
      eapply set_msp_callback_Some; eauto.
    + assert (registrable (State h) id = false) as Hr.
      { rewrite Est. destruct (registrable _ _) eqn:E2; [|done].
        apply (set_msp_callback_Some id c h) in E2 as [? E2]. congruence. }
      destruct m2; apply (stores_refused p id c h s); done.
  - destruct (set_callback id c h) as [h'|] eqn:E.
    + apply stores_accepted; [done|]. rewrite Est. destruct (registrable _ _) eqn:E2; [done|].
      apply (set_callback_None id c h) in E2. congruence.
    + apply (stores_refused p id c h s); [done|]. rewrite Est. by eapply set_callback_None.
  - apply (stores_refused p id c h s); [done|]. rewrite Est. by destruct id.
  - apply (stores_refused p id c h s); [done|]. rewrite Est. by destruct id.
Qed.

Lemma RegisterCallback_refused p id f h s :
  handles s !! p = Some h → registrable (State h) id = false →
  ∃ s', HAL_SUBGHZ_RegisterCallback p id f s = Ret HAL_ERROR s'.
Proof.
  intros Hh Hr. destruct f as [f|].
  - rewrite RegisterCallback_Some.
    destruct (store_callback_outcome "ERROR: HAL_SUBGHZ_RegisterCallback() received invalid callback."
                None p id (Some f) h s Hh) as (s' & h' & E & _).
    rewrite Hr in E. eauto.
  - destruct (RegisterCallback_null p id h s Hh) as (s' & E & _). eauto.
Qed.

(** ** Sequences of calls *)

Inductive hal_call :=
| Call_Init (p : Z) | Call_DeInit (p : Z)
| Call_Register (p : Z) (id : HAL_SUBGHZ_CallbackIDTypeDef) (c : option Callback)
| Call_UnRegister (p : Z) (id : HAL_SUBGHZ_CallbackIDTypeDef)
| Call_WriteRegisters (p addr : Z) (data : list Z)
| Call_ExecSetCmd (p : Z) (c : SUBGHZ_RadioSetCmd_t) (data : list Z)
| Call_ExecGetCmd (p : Z) (c : SUBGHZ_RadioGetCmd_t) (n : nat).

Definition perform (c : hal_call) : M Hal HAL_StatusTypeDef :=
  match c with
  | Call_Init p => HAL_SUBGHZ_Init p
  | Call_DeInit p => HAL_SUBGHZ_DeInit p
  | Call_Register p id c => HAL_SUBGHZ_RegisterCallback p id c
  | Call_UnRegister p id => HAL_SUBGHZ_UnRegisterCallback p id
  | Call_WriteRegisters p a d => HAL_SUBGHZ_WriteRegisters p a d
  | Call_ExecSetCmd p c d => HAL_SUBGHZ_ExecSetCmd p c d
  | Call_ExecGetCmd p c n => HAL_SUBGHZ_ExecGetCmd p c n
  end.

Fixpoint performs (cs : list hal_call) : M Hal (list HAL_StatusTypeDef) :=
  match cs with
  | [] => mret []
  | c :: cs => st ← perform c; sts ← performs cs; mret (st :: sts)
  end.

(** The transitions of the state of a handle. *)
Definition state_step (st st' : HAL_SUBGHZ_StateTypeDef) : Prop :=
  st' = st ∨ (st = HAL_SUBGHZ_STATE_READY ∧ st' = HAL_SUBGHZ_STATE_BUSY).

(** [steps p s s']: between the two, the handle at [p] is still there and its
    state has made at most such a transition. *)
Definition steps (p : Z) (s s' : Hal) : Prop :=
  ∀ h, handles s !! p = Some h →
  ∃ h', handles s' !! p = Some h' ∧ state_step (State h) (State h').

Lemma steps_same p s s' : handles s' = handles s → steps p s s'.
Proof. intros E h H. rewrite E. exists h. split; [done | by left]. Qed.

Lemma steps_trans p s1 s2 s3 : steps p s1 s2 → steps p s2 s3 → steps p s1 s3.
Proof.
  intros H1 H2 h Hh. destruct (H1 h Hh) as (h1 & Hh1 & S1). destruct (H2 h1 Hh1) as (h2 & Hh2 & S2).
  exists h2. split; [done|]. unfold state_step in *.
  destruct S1 as [E1|[E1 F1]], S2 as [E2|[E2 F2]]; rewrite E2 || rewrite F2; rewrite ?E1, ?F1 in *;
    auto; done.
Qed.

Lemma steps_insert p q h h' s s' :
  handles s !! q = Some h → handles s' = <[q := h']> (handles s) →
  state_step (State h) (State h') → steps p s s'.
Proof.
  intros Hq E Hst h0 H0. rewrite E. destruct (decide (q = p)) as [->|Hne].
  - rewrite lookup_insert_eq. assert (h0 = h) as -> by congruence. eauto.
  - rewrite lookup_insert_ne by done. exists h0. split; [done | by left].
Qed.

Lemma stores_steps p q id c h s o st s' :
  handles s !! q = Some h → stores q id c h s o → o = Ret st s' → steps p s s'.
Proof.
  intros Hq (s1 & h' & -> & E & Est & _) [= _ <-].
  eapply steps_insert; eauto. left. done.
Qed.

(** A [NULL] pointer as a handle is undefined behaviour. *)
Lemma handle_Ret p s h s' : handle p s = Ret h s' → s' = s ∧ handles s !! p = Some h.
Proof.
  unfold handle. erewrite bind_Ret by reflexivity.
  destruct (handles s !! p); cbn; intros [= <- <-]; done.
Qed.

Lemma store_callback_handle m1 m2 p id c s st s' :
  store_callback m1 m2 p id c s = Ret st s' → is_Some (handles s !! p).
Proof.
  unfold store_callback, handle. erewrite bind_assoc, bind_Ret by reflexivity.
  destruct (handles s !! p); [eauto | done].
Qed.

Lemma perform_steps p c s st s' : perform c s = Ret st s' → steps p s s'.
Proof.
  destruct c as [q|q|q id [c|]|q id|q a d|q c d|q c n]; cbn [perform]; intros H.
  - apply steps_same. rewrite Init_eq in H. by injection H as _ <-.
  - apply steps_same. rewrite DeInit_eq in H. case_decide; by injection H as _ <-.
  - rewrite RegisterCallback_Some in H. destruct (store_callback_handle _ _ _ _ _ _ _ _ H) as [h Hh].
    eapply stores_steps; [exact Hh | apply store_callback_outcome, Hh | exact H].
  - unfold HAL_SUBGHZ_RegisterCallback, handle in H. hal_run.
    destruct (handles s !! q) as [h|] eqn:Hh; [|done]. injection H as _ <-.
    eapply steps_insert; [exact Hh | reflexivity | by left].
  - unfold HAL_SUBGHZ_UnRegisterCallback in H.
    destruct (store_callback_handle _ _ _ _ _ _ _ _ H) as [h Hh].
    eapply stores_steps; [exact Hh | apply store_callback_outcome, Hh | exact H].
  - rewrite WriteRegisters_eq in H. destruct (handles s !! q) as [h|] eqn:Hh; [|done].
    case_decide as Hst; injection H as _ <-; [|by apply steps_same].
    eapply steps_insert; [exact Hh | reflexivity | right; split; [exact Hst | reflexivity]].
  - apply steps_same. destruct c; by injection H as _ <-.
  - apply steps_same. by injection H as _ <-.
Qed.

Lemma performs_steps p cs : ∀ s sts s', performs cs s = Ret sts s' → steps p s s'.
Proof.
  induction cs as [|c cs IH]; intros s sts s' H; cbn in H.
  - injection H as _ <-. by apply steps_same.
  - unfold mbind, M_bind in H. destruct (perform c s) as [st s1| | |] eqn:E; try done.
    destruct (performs cs s1) as [sts1 s2| | |] eqn:E2; try done. injection H as _ <-.
    eapply steps_trans; eauto using perform_steps.
Qed.

(** ** Properties *)

(** C27: registering a callback, and unregistering one (which registers the
    default function), are accepted exactly for the callbacks that the state of
    the handle allows; then that callback and no other is changed, and a refusal
    leaves every callback and sets the error code.  A [NULL] callback is refused
    in every state and its error is added to the code. *)
Theorem callback_registration (p : Z) (id : HAL_SUBGHZ_CallbackIDTypeDef) (f : Callback)
    (h : SUBGHZ_HandleTypeDef) (s : Hal) :
  handles s !! p = Some h →
  stores p id (Some f) h s (HAL_SUBGHZ_RegisterCallback p id (Some f) s) ∧
  stores p id (Some (Default id)) h s (HAL_SUBGHZ_UnRegisterCallback p id s) ∧
  ∃ s', HAL_SUBGHZ_RegisterCallback p id None s = Ret HAL_ERROR s' ∧
    handles s' = <[p := h <| ErrorCode := Z.lor (ErrorCode h) HAL_SUBGHZ_ERROR_INVALID_CALLBACK |>]>
                   (handles s).
Proof.
  intros H. split; [by apply store_callback_outcome|]. split; [by apply store_callback_outcome|].
  by apply RegisterCallback_null.
Qed.

Definition ready_handle : SUBGHZ_HandleTypeDef := zero_handle <| State := HAL_SUBGHZ_STATE_READY |>.

Lemma callback_registration_witness :
  let s := hal_boot {[ 1 := ready_handle ]} in
  ∃ s' h', HAL_SUBGHZ_RegisterCallback 1 HAL_SUBGHZ_TX_COMPLETE_CB_ID (Some (User 7)) s = Ret HAL_OK s' ∧
    handles s' !! 1 = Some h' ∧ TxCpltCallback h' = Some (User 7) ∧ RxCpltCallback h' = None.
Proof.
  intros s.
  destruct (callback_registration 1 HAL_SUBGHZ_TX_COMPLETE_CB_ID (User 7) ready_handle s eq_refl)
    as [(s' & h' & E & Eh & _ & Hget & _) _].
  exists s', h'. split; [exact E|]. split; [rewrite Eh; apply lookup_insert_eq|].
  split; [exact (Hget HAL_SUBGHZ_TX_COMPLETE_CB_ID) | exact (Hget HAL_SUBGHZ_RX_COMPLETE_CB_ID)].
Defined.

(** C28: nothing makes a handle ready: whatever the calls, the state of a handle
    can only leave READY, for BUSY.  A handle that is not READY, as every zeroed
    handle, initialised or not, can then never write a register (HAL_BUSY) nor
    have a callback of the radio registered, and no call sends a command to the
    radio with success. *)
Theorem handle_never_ready (cs : list hal_call) (p : Z) (h : SUBGHZ_HandleTypeDef) (s : Hal)
    (sts : list HAL_StatusTypeDef) (s' : Hal) :
  handles s !! p = Some h → State h ≠ HAL_SUBGHZ_STATE_READY → performs cs s = Ret sts s' →
  (∃ h', handles s' !! p = Some h' ∧ State h' = State h) ∧
  (∀ addr data, HAL_SUBGHZ_WriteRegisters p addr data s' = Ret HAL_BUSY s') ∧
  (∀ id f, id ≠ HAL_SUBGHZ_MSPINIT_CB_ID → id ≠ HAL_SUBGHZ_MSPDEINIT_CB_ID →
     ∃ s2, HAL_SUBGHZ_RegisterCallback p id f s' = Ret HAL_ERROR s2) ∧
  (∀ c data, ∃ s2, HAL_SUBGHZ_ExecSetCmd p c data s' = Ret HAL_ERROR s2).
Proof.
  intros Hh Hst Hrun.
  destruct (performs_steps p cs _ _ _ Hrun h Hh) as (h' & Hh' & [E|[? _]]); [|done].
  split; [eauto|]. split; [|split].
  - intros addr data. rewrite WriteRegisters_eq, Hh'. rewrite decide_False by congruence. done.
  - intros id f H1 H2. apply (RegisterCallback_refused p id f h' s' Hh').
    rewrite E. by destruct (State h), id.
  - intros [] data; eexists; reflexivity.
Qed.

Lemma handle_never_ready_witness :
  ∃ s', performs [Call_Init 1] (hal_boot {[ 1 := zero_handle ]}) = Ret [HAL_OK] s' ∧
    ∃ s2, HAL_SUBGHZ_RegisterCallback 1 HAL_SUBGHZ_TX_COMPLETE_CB_ID (Some (User 7)) s' = Ret HAL_ERROR s2.
Proof.
  eexists. split; [reflexivity|].
  refine (proj1 (proj2 (proj2 (handle_never_ready [Call_Init 1] 1 zero_handle
            (hal_boot {[ 1 := zero_handle ]}) [HAL_OK] _ eq_refl _ eq_refl))) _ _ _ _); discriminate.
Defined.

(** The first write of a register takes a READY handle to BUSY, and fails;
    from then on, whatever the calls, the handle stays BUSY and refuses every
    write and every callback. *)
Theorem write_registers_locks_handle (cs : list hal_call) (p addr : Z) (data : list Z)
    (h : SUBGHZ_HandleTypeDef) (s : Hal) (sts : list HAL_StatusTypeDef) (s' : Hal) :
  handles s !! p = Some h → State h = HAL_SUBGHZ_STATE_READY →
  performs (Call_WriteRegisters p addr data :: cs) s = Ret sts s' →
  hd_error sts = Some HAL_ERROR ∧
  (∃ h', handles s' !! p = Some h' ∧ State h' = HAL_SUBGHZ_STATE_BUSY) ∧
  (∀ a d, HAL_SUBGHZ_WriteRegisters p a d s' = Ret HAL_BUSY s') ∧
  (∀ id f, ∃ s2, HAL_SUBGHZ_RegisterCallback p id f s' = Ret HAL_ERROR s2).
Proof.
  intros Hh Hst Hrun. cbn [performs perform] in Hrun.
  assert (∃ s1, HAL_SUBGHZ_WriteRegisters p addr data s = Ret HAL_ERROR s1 ∧
            handles s1 !! p = Some (h <| State := HAL_SUBGHZ_STATE_BUSY |>)) as (s1 & E1 & Hs1).
  { rewrite WriteRegisters_eq, Hh, decide_True by done. eexists. split; [reflexivity|].
    apply lookup_insert_eq. }
  erewrite bind_Ret in Hrun by exact E1. cbv beta in Hrun. unfold mbind, M_bind in Hrun.
  destruct (performs cs s1) as [sts1 s2| | |] eqn:E; try done. injection Hrun as <- <-.
  destruct (performs_steps p cs _ _ _ E _ Hs1) as (h' & Hh' & [Eh|[? _]]); [|done]. cbn in Eh.
  split; [done|]. split; [eauto|]. split.
  - intros a d. rewrite WriteRegisters_eq, Hh'. rewrite decide_False by (rewrite Eh; done). done.
  - intros id f. apply (RegisterCallback_refused p id f h' s2 Hh'). rewrite Eh. by destruct id.
Qed.

Lemma write_registers_locks_handle_witness :
  let cs := [Call_Init 1; Call_DeInit 1; Call_Init 1] in
  ∃ s', performs (Call_WriteRegisters 1 0x8AC [0x97] :: cs) (hal_boot {[ 1 := ready_handle ]}) =
          Ret [HAL_ERROR; HAL_OK; HAL_OK; HAL_OK] s' ∧
    HAL_SUBGHZ_WriteRegisters 1 0x8AC [0x97] s' = Ret HAL_BUSY s'.
Proof.
  intros cs. eexists. split; [reflexivity|].
  refine (proj1 (proj2 (proj2 (write_registers_locks_handle cs 1 0x8AC [0x97] ready_handle
            (hal_boot {[ 1 := ready_handle ]}) [HAL_ERROR; HAL_OK; HAL_OK; HAL_OK] _
            eq_refl eq_refl eq_refl))) _ _).
Defined.

(** [HAL_SUBGHZ_DeInit] undoes [HAL_SUBGHZ_Init] of the same handle and
    refuses, without a change, another one. *)
Theorem init_deinit (p q : Z) (s : Hal) :
  ∃ s1, HAL_SUBGHZ_Init p s = Ret HAL_OK s1 ∧ handles s1 = handles s ∧
    sim_stm32_hal_subghz_callbacks s1 = Some p ∧ sim_stm32_hal_subghz_radio_init s1 = 1 ∧
    if decide (p = q) then
      HAL_SUBGHZ_DeInit q s1 =
        Ret HAL_OK (s1 <| sim_stm32_hal_subghz_callbacks := None |>
                       <| sim_stm32_hal_subghz_radio_init := 0 |>)
    else HAL_SUBGHZ_DeInit q s1 = Ret HAL_ERROR (s1 <| printed := printed s1 ++ [wrong_handle] |>).
Proof.
  eexists. split; [apply Init_eq|]. repeat (split; [reflexivity|]).
  rewrite DeInit_eq. cbn. repeat case_decide; congruence.
Qed.
