(* ===== verification/Binary64.v ===== *)
(** * The [double] arithmetic of the clock

    Time is a [double] in the C code of a node and a [float] in the simulator,
    both binary64 with rounding to nearest, ties to even: the operations of the
    Standard Library's SpecFloat at 53 bits.  This file names them, defines the
    conversions to and from integers, and bounds the error of one operation on
    positive normal numbers: the result is within a relative [ulp] of the exact
    value, which is a rational.  HalTime adds up these bounds. *)

From Stdlib Require Import QArith Qpower Lqa SpecFloat.
From S2P Require Import Prelude.

#[local] Open Scope Z_scope.

(** ** Operations *)

Definition f64_mul : spec_float → spec_float → spec_float := SFmul 53 1024.
Definition f64_div : spec_float → spec_float → spec_float := SFdiv 53 1024.
Definition f64_sub : spec_float → spec_float → spec_float := SFsub 53 1024.

(** The conversion of an integer. *)
Definition f64_of_Z (n : Z) : spec_float := binary_normalize 53 1024 n 0 false.

(** A decimal literal [n / d], which is rounded once. *)
Definition f64_lit (n d : Z) : spec_float := f64_div (f64_of_Z n) (f64_of_Z d).

(** The integer part of [m * 2 ^ e]. *)
Definition scale_floor (m : Z) (e : Z) : Z :=
  if 0 <=? e then m * 2 ^ e else m / 2 ^ (- e).

(** [( uint32_t )x]: towards zero; undefined when the integer part does not fit. *)
Definition u32_of_f64 (x : spec_float) : option Z :=
  match x with
  | S754_zero _ => Some 0
  | S754_finite s m e =>
      let t := scale_floor (Zpos m) e in
      if s then (if t =? 0 then Some 0 else None)
      else if t <? 2 ^ 32 then Some t else None
  | S754_infinity _ | S754_nan => None
  end.

(** [round(x)] of Python: to nearest, ties to even; infinities and NaN raise. *)
Definition py_round (x : spec_float) : option Z :=
  match x with
  | S754_zero _ => Some 0
  | S754_finite s m e =>
      let t := scale_floor (Zpos m) e in
      let rest := Zpos m - t * 2 ^ (- e) in
      let r :=
        if 0 <=? e then t
        else match Z.compare (2 * rest) (2 ^ (- e)) with
             | Lt => t
             | Eq => if Z.even t then t else t + 1
             | Gt => t + 1
             end in
      Some (if s then - r else r)
  | S754_infinity _ | S754_nan => None
  end.

Example trunc_12_7 : u32_of_f64 (f64_lit 127 10) = Some 12. Proof. reflexivity. Qed.
Example trunc_negative : u32_of_f64 (SFopp (f64_of_Z 3)) = None. Proof. reflexivity. Qed.
Example round_half_even :
  map (λ n, py_round (f64_lit n 2)) [1; 3; 5; 7] = map Some [0; 2; 2; 4].
Proof. reflexivity. Qed.

(** ** Values *)

Definition pow2 (e : Z) : Q := Qpower 2 e.
Definition fval (m : positive) (e : Z) : Q := inject_Z (Zpos m) * pow2 e.

Lemma pow2_pos e : (0 < pow2 e)%Q.
Proof. apply Qpower_0_lt. reflexivity. Qed.

Lemma pow2_plus a b : (pow2 (a + b) == pow2 a * pow2 b)%Q.
Proof. apply Qpower_plus. discriminate. Qed.

Lemma pow2_Z n : 0 <= n → (pow2 n == inject_Z (2 ^ n))%Q.
Proof. intros Hn. unfold pow2. now rewrite Zpower_Qpower by done. Qed.

Lemma pow2_neg_Z n : 0 <= n → (pow2 (- n) * inject_Z (2 ^ n) == 1)%Q.
Proof. intros Hn. rewrite <- pow2_Z by done. rewrite <- pow2_plus. now rewrite Z.add_opp_diag_l. Qed.

(** The relative distance of two neighbouring [double]s. *)
Definition ulp : Q := pow2 (-52).

(** [x] is a positive normal number with an exponent between [lo] and [hi], at
    a relative distance of at most [ulp] from [v]. *)
Definition rounds (x : spec_float) (v : Q) (lo hi : Z) : Prop :=
  ∃ m e, x = S754_finite false m e ∧ 2 ^ 52 <= Zpos m < 2 ^ 53 ∧ lo <= e <= hi ∧
         (v * (1 - ulp) <= fval m e <= v * (1 + ulp))%Q.

(** ** Rounding *)

Lemma digits2_log2 p : Zpos (digits2_pos p) = Z.log2 (Zpos p) + 1.
Proof.
  induction p as [p IH|p IH|]; cbn [digits2_pos]; [| |done]; rewrite Pos2Z.inj_succ, IH.
  - rewrite Pos2Z.inj_xI, Z.log2_succ_double by lia. lia.
  - rewrite Pos2Z.inj_xO, Z.log2_double by lia. lia.
Qed.

Lemma log2_normal m : 2 ^ 52 <= m < 2 ^ 53 → Z.log2 m = 52.
Proof. intros. apply Z.log2_unique; lia. Qed.

Lemma shr_1_div r : 0 <= shr_m r → shr_m (shr_1 r) = shr_m r / 2.
Proof.
  intros Hr. rewrite <- Z.div2_div.
  destruct r as [[|[p|p|]|p] ? ?]; cbn in *; (done || lia).
Qed.

Lemma div_pow2_pow2 a j k : 0 <= j → 0 <= k → a / 2 ^ j / 2 ^ k = a / 2 ^ (j + k).
Proof. intros. rewrite <- !Z.shiftr_div_pow2, Z.shiftr_shiftr by lia. done. Qed.

Lemma iter_shr_div p : ∀ r, 0 <= shr_m r →
  shr_m (SpecFloat.iter_pos shr_1 p r) = shr_m r / 2 ^ Zpos p.
Proof.
  assert (∀ a k, 0 <= a → 0 <= a / 2 ^ Zpos k) as Hdiv
    by (intros; apply Z.div_pos; lia).
  induction p as [p IH|p IH|]; intros r Hr; cbn [SpecFloat.iter_pos].
  - assert (0 <= shr_m (shr_1 r)) as Hr1 by (rewrite shr_1_div by done; apply (Hdiv _ 1%positive Hr)).
    rewrite !IH by (rewrite ?IH by done; auto). rewrite shr_1_div by done.
    change (shr_m r / 2) with (shr_m r / 2 ^ 1). rewrite !div_pow2_pow2 by lia.
    do 2 f_equal. lia.
  - rewrite !IH by (rewrite ?IH by done; auto). rewrite div_pow2_pow2 by lia.
    now rewrite (Pos2Z.inj_xO p), Z.add_diag.
  - now rewrite shr_1_div.
Qed.

Lemma shr_m_of_loc m l : shr_m (shr_record_of_loc m l) = m.
Proof. destruct l as [|[]]; reflexivity. Qed.

(** The mantissa is cut to 53 bits. *)
Lemma shr_fexp_spec m e l :
  2 ^ 52 <= m → -1074 <= e + (Z.log2 m - 52) →
  shr_m (fst (shr_fexp 53 1024 m e l)) = m / 2 ^ (Z.log2 m - 52) ∧
  snd (shr_fexp 53 1024 m e l) = e + (Z.log2 m - 52).
Proof.
  intros Hm He. destruct m as [|m|m]; [lia| |lia].
  assert (52 <= Z.log2 (Zpos m)) by (apply Z.log2_le_pow2; lia).
  unfold shr_fexp, fexp, emin. cbn [Zdigits2]. rewrite digits2_log2.
  replace (_ - e) with (Z.log2 (Zpos m) - 52) by lia.
  destruct (Z.log2 (Zpos m) - 52) as [|n|n] eqn:Hn; [| |lia]; cbn [shr fst snd].
  - rewrite shr_m_of_loc, Z.div_1_r. lia.
  - rewrite iter_shr_div; rewrite shr_m_of_loc; lia.
Qed.

Lemma inject_le a b : a <= b → (inject_Z a <= inject_Z b)%Q.
Proof. now rewrite <- Zle_Qle. Qed.

(** A number between two neighbours is within an [ulp] of either. *)
Lemma neighbour_error m m' P v :
  2 ^ 52 <= m → m' = m ∨ m' = m + 1 → (0 < P)%Q →
  (inject_Z m * P <= v <= inject_Z (m + 1) * P)%Q →
  (v * (1 - ulp) <= inject_Z m' * P <= v * (1 + ulp))%Q.
Proof.
  intros Hm Hm' HP [Hlo Hhi].
  assert (0 < ulp)%Q as Hu by apply pow2_pos.
  assert (ulp * inject_Z (2 ^ 52) == 1)%Q as Hulp by reflexivity.
  assert (P <= v * ulp)%Q as HPv.
  { pose proof (inject_le _ _ Hm) as HM.
    assert (inject_Z (2 ^ 52) * P <= v)%Q by nra. 
    assert (inject_Z (2 ^ 52) * P * ulp == P)%Q as <-
      by (transitivity (P * (ulp * inject_Z (2 ^ 52)))%Q; [|rewrite Hulp]; ring).
    nra. }
  rewrite inject_Z_plus in Hhi.
  destruct Hm' as [->| ->]; rewrite ?inject_Z_plus; change (inject_Z 1) with 1%Q in *; lra.
Qed.

Lemma round_half_step m l : round_nearest_even m l = m ∨ round_nearest_even m l = m + 1.
Proof. destruct l as [|[]]; cbn; try destruct (Z.even m); auto. Qed.

(** The second, normalising shift keeps the value. *)
Lemma renormalise m e l :
  2 ^ 52 <= m <= 2 ^ 53 → -1000 <= e <= 900 →
  ∃ p e', shr_m (fst (shr_fexp 53 1024 m e l)) = Zpos p ∧
          snd (shr_fexp 53 1024 m e l) = e' ∧
          2 ^ 52 <= Zpos p < 2 ^ 53 ∧ e <= e' <= e + 1 ∧
          (fval p e' == inject_Z m * pow2 e)%Q.
Proof.
  intros Hm He. destruct (Z.eq_dec m (2 ^ 53)) as [->|Hne].
  - destruct (shr_fexp_spec (2 ^ 53) e l) as [-> ->]; [lia|change (Z.log2 (2 ^ 53)) with 53; lia|].
    exists (2 ^ 52)%positive, (e + 1). split_and!; try (done || lia).
    unfold fval. rewrite pow2_plus. change (inject_Z (2 ^ 53)) with (inject_Z (2 ^ 52 * 2)).
    rewrite inject_Z_mult. change (pow2 1) with (inject_Z 2).
    change (Zpos (2 ^ 52)) with (2 ^ 52). ring.
  - assert (Z.log2 m = 52) as Hl by (apply log2_normal; lia).
    destruct (shr_fexp_spec m e l) as [-> ->]; [lia|lia|].
    exists (Z.to_pos m), e. rewrite Hl, Z.div_1_r. unfold fval.
    rewrite !Z2Pos.id by lia. split_and!; try (done || lia).
Qed.

Lemma round_near m e l v :
  let n := Z.log2 m - 52 in
  2 ^ 52 <= m → -1000 <= e + n <= 800 →
  (inject_Z m * pow2 e <= v <= inject_Z (m + 1) * pow2 e)%Q →
  rounds (binary_round_aux 53 1024 false m e l) v (e + n) (e + n + 1).
Proof.
  intros n Hm He Hv. unfold binary_round_aux.
  assert (0 <= n) as Hn0 by (subst n; cut (52 <= Z.log2 m); [lia|apply Z.log2_le_pow2; lia]).
  assert (2 ^ 52 * 2 ^ n <= m < 2 ^ 53 * 2 ^ n) as Hlog.
  { rewrite <- !Z.pow_add_r by lia. subst n.
    destruct (Z.log2_spec m ltac:(lia)). split; [|eapply Z.lt_le_trans; [eassumption|]];
      [etransitivity; [|eassumption]|]; apply Z.pow_le_mono_r; lia. }
  assert (0 < 2 ^ n) as Hn by (apply Z.pow_pos_nonneg; lia).
  destruct (shr_fexp_spec m e l) as [Hr He1]; [lia|subst n; lia|]. fold n in Hr, He1.
  destruct (shr_fexp 53 1024 m e l) as [r e1]; cbn [fst snd] in Hr, He1. subst e1.
  rewrite Hr. set (m1 := m / 2 ^ n) in *.
  assert (2 ^ 52 <= m1 < 2 ^ 53) as Hm1 by (subst m1; split; [apply Z.div_le_lower_bound|apply Z.div_lt_upper_bound]; lia).
  pose proof (round_half_step m1 (loc_of_shr_record r)) as Hm2.
  set (m2 := round_nearest_even m1 (loc_of_shr_record r)) in *.
  destruct (renormalise m2 (e + n) loc_Exact) as (p & e' & Hp & He' & Hnorm & Hrange & Hval);
    [lia|lia|].
  destruct (shr_fexp 53 1024 m2 (e + n) loc_Exact) as [r2 e2]; cbn [fst snd] in Hp, He'.
  subst e2. rewrite Hp.
  replace (e' <=? 1024 - 53) with true by lia.
  assert (inject_Z m1 * pow2 (e + n) <= v <= inject_Z (m1 + 1) * pow2 (e + n))%Q as Hv1.
  { rewrite pow2_plus, (pow2_Z n) by done. pose proof (pow2_pos e).
    pose proof (Z.mul_div_le m (2 ^ n) Hn). pose proof (Z.mul_succ_div_gt m (2 ^ n) Hn).
    pose proof (inject_le (m1 * 2 ^ n) m ltac:(lia)) as Hlo.
    pose proof (inject_le (m + 1) ((m1 + 1) * 2 ^ n) ltac:(lia)) as Hhi.
    rewrite inject_Z_mult in Hlo, Hhi. nra. }
  pose proof (neighbour_error m1 m2 _ v ltac:(lia) Hm2 (pow2_pos _) Hv1) as Herr.
  exists p, e'. split_and!; [done|lia|lia|lia|lia|rewrite Hval; apply Herr..].
Qed.

Lemma rounds_weaken x v lo hi lo' hi' :
  rounds x v lo hi → lo' <= lo → hi <= hi' → rounds x v lo' hi'.
Proof. intros (m & e & ? & ? & ? & ?) ? ?. exists m, e. do 3 (split; [done || lia|]). done. Qed.

(** ** Operations on normal numbers *)

Lemma f64_mul_rounds m1 e1 m2 e2 :
  2 ^ 52 <= Zpos m1 < 2 ^ 53 → 2 ^ 52 <= Zpos m2 < 2 ^ 53 → -1000 <= e1 + e2 <= 700 →
  rounds (f64_mul (S754_finite false m1 e1) (S754_finite false m2 e2))
    (fval m1 e1 * fval m2 e2) (e1 + e2 + 52) (e1 + e2 + 54).
Proof.
  intros H1 H2 He. unfold f64_mul; cbn [SFmul xorb].
  assert (2 ^ 104 <= Zpos (m1 * m2) < 2 ^ 106) as Hm by (rewrite Pos2Z.inj_mul; nia).
  assert (104 <= Z.log2 (Zpos (m1 * m2)) < 106) as Hl
    by (split; [apply Z.log2_le_pow2|apply Z.log2_lt_pow2]; lia).
  eapply rounds_weaken; [apply round_near|..]; try lia.
  assert (inject_Z (Zpos (m1 * m2)) * pow2 (e1 + e2) == fval m1 e1 * fval m2 e2)%Q as <-.
  { unfold fval. rewrite Pos2Z.inj_mul, inject_Z_mult, pow2_plus. ring. }
  pose proof (pow2_pos (e1 + e2)). rewrite inject_Z_plus. change (inject_Z 1) with 1%Q. nra.
Qed.

Lemma f64_div_rounds m1 e1 m2 e2 v :
  2 ^ 52 <= Zpos m1 < 2 ^ 53 → 2 ^ 52 <= Zpos m2 < 2 ^ 53 → -900 <= e1 - e2 <= 700 →
  (v * fval m2 e2 == fval m1 e1)%Q →
  rounds (f64_div (S754_finite false m1 e1) (S754_finite false m2 e2))
    v (e1 - e2 - 53) (e1 - e2 - 51).
Proof.
  intros H1 H2 He Hv. unfold f64_div; cbn [SFdiv xorb].
  unfold SFdiv_core_binary, fexp, emin. cbn [Zdigits2].
  rewrite !digits2_log2, !log2_normal by done.
  replace (Z.min _ _) with (e1 - e2 - 53) by lia.
  replace (e1 - e2 - (e1 - e2 - 53)) with 53 by lia. cbv beta iota zeta.
  rewrite Z.shiftl_mul_pow2 by lia.
  destruct (Z.div_eucl (Zpos m1 * 2 ^ 53) (Zpos m2)) as [q r] eqn:Hq.
  pose proof (Z_div_mod_full (Zpos m1 * 2 ^ 53) (Zpos m2) ltac:(lia)) as Hdiv.
  rewrite Hq in Hdiv. destruct Hdiv as [Hdiv Hr]. unfold Remainder in Hr.
  assert (2 ^ 52 <= q < 2 ^ 54) as Hqr by nia.
  assert (52 <= Z.log2 q < 54) as Hl
    by (split; [apply Z.log2_le_pow2|apply Z.log2_lt_pow2]; lia).
  eapply rounds_weaken; [apply round_near|..]; try lia.
  set (P := pow2 (e1 - e2 - 53)). pose proof (pow2_pos (e1 - e2 - 53)) as HP. fold P in HP.
  assert (v * inject_Z (Zpos m2) == inject_Z (Zpos m1 * 2 ^ 53) * P)%Q as Hv'.
  { apply (Qmult_inj_r _ _ (pow2 e2)); [pose proof (pow2_pos e2); lra|].
    rewrite <- Qmult_assoc. fold (fval m2 e2). rewrite Hv. unfold fval.
    replace e1 with ((e1 - e2 - 53) + e2 + 53) at 1 by lia. rewrite !pow2_plus. fold P.
    rewrite inject_Z_mult, (pow2_Z 53) by lia. ring. }
  assert (0 < inject_Z (Zpos m2))%Q as Hm2 by reflexivity.
  pose proof (inject_le (q * Zpos m2) (Zpos m1 * 2 ^ 53) ltac:(lia)) as Hlo.
  pose proof (inject_le (Zpos m1 * 2 ^ 53) ((q + 1) * Zpos m2) ltac:(lia)) as Hhi.
  rewrite inject_Z_mult in Hlo. rewrite (inject_Z_mult (q + 1)) in Hhi.
  split; apply (Qmult_le_r _ _ _ Hm2); rewrite Hv'; nra.
Qed.

Lemma pos_iter_xO n k : Zpos (Pos.iter xO n k) = Zpos n * 2 ^ Zpos k.
Proof.
  induction k as [|k IH] using Pos.peano_ind; [cbn; lia|].
  rewrite Pos.iter_succ, Pos2Z.inj_xO, IH, Pos2Z.inj_succ, Z.pow_succ_r by lia. lia.
Qed.

(** An integer of less than 54 bits. *)
Lemma f64_of_Z_rounds n :
  0 < n < 2 ^ 53 → rounds (f64_of_Z n) (inject_Z n) (-52) 1.
Proof.
  intros Hn. destruct n as [|n|n]; [lia| |lia].
  unfold f64_of_Z; cbn [binary_normalize]. unfold binary_round, fexp, emin.
  rewrite digits2_log2, Z.add_0_r.
  destruct (Z.log2_spec (Zpos n)) as [Hlo Hhi]; [lia|].
  assert (0 <= Z.log2 (Zpos n) < 53) as Hlog by (split; [apply Z.log2_nonneg|apply Z.log2_lt_pow2; lia]).
  replace (Z.max _ _) with (- (52 - Z.log2 (Zpos n))) by lia.
  set (k := 52 - Z.log2 (Zpos n)) in *.
  assert (Z.log2 (Zpos n) + k = 52 ∧ 0 <= k) as [Hk Hk0] by lia. clearbody k.
  assert (∃ m, shl_align n 0 (- k) = (m, - k) ∧ Zpos m = Zpos n * 2 ^ k) as (m & -> & Hm).
  { unfold shl_align. destruct k as [|k|k]; [|cbn|lia].
    - exists n. split; [done|cbn; lia].
    - exists (Pos.iter xO n k). split; [done|apply pos_iter_xO]. }
  assert (2 ^ 52 <= Zpos m < 2 ^ 53) as Hm53.
  { rewrite Hm. rewrite <- Hk at 1.
    replace 53 with (Z.succ (Z.log2 (Zpos n)) + k) by lia.
    rewrite !Z.pow_add_r by lia. assert (0 < 2 ^ k) by (apply Z.pow_pos_nonneg; lia). nia. }
  pose proof (log2_normal _ Hm53) as Hl.
  eapply rounds_weaken; [apply round_near|..]; rewrite ?Hl; try lia.
  assert (inject_Z (Zpos m) * pow2 (- k) == inject_Z (Zpos n))%Q as Hval.
  { rewrite Hm, inject_Z_mult. rewrite <- Qmult_assoc, (Qmult_comm _ (pow2 _)).
    rewrite pow2_neg_Z by lia. ring. }
  pose proof (pow2_pos (- k)). rewrite inject_Z_plus. change (inject_Z 1) with 1%Q. nra.
Qed.

(** ** Conversions to integers *)

Lemma scale_floor_spec m e :
  (inject_Z (scale_floor (Zpos m) e) <= fval m e < inject_Z (scale_floor (Zpos m) e + 1))%Q.
Proof.
  unfold scale_floor, fval. destruct (Z.leb_spec 0 e) as [He|He].
  - rewrite pow2_Z, <- inject_Z_mult by done. split; [lra|].
    rewrite <- Zlt_Qlt. lia.
  - pose proof (pow2_neg_Z (- e) ltac:(lia)) as Hinv. rewrite Z.opp_involutive in Hinv.
    pose proof (pow2_pos e) as HP.
    assert (0 < 2 ^ (- e)) as Hd by (apply Z.pow_pos_nonneg; lia).
    pose proof (inject_le _ _ (Z.mul_div_le (Zpos m) _ Hd)) as Hlo.
    pose proof (Z.mul_succ_div_gt (Zpos m) _ Hd) as Hhi. rewrite Zlt_Qlt in Hhi.
    rewrite inject_Z_mult in Hlo, Hhi. change (Z.succ ?a) with (a + 1) in Hhi.
    set (d := inject_Z (2 ^ (- e))) in *. set (t := Zpos m / 2 ^ (- e)) in *.
    rewrite <- (Qmult_1_r (inject_Z t)), <- (Qmult_1_r (inject_Z (t + 1))), <- Hinv.
    split; nra.
Qed.

Lemma inject_floor a b (x : Q) :
  (inject_Z a <= x < inject_Z (a + 1))%Q → (inject_Z b <= x < inject_Z (b + 1))%Q → a = b.
Proof.
  intros [? ?] [? ?]. assert (a < b + 1) by (rewrite Zlt_Qlt; lra).
  assert (b < a + 1) by (rewrite Zlt_Qlt; lra). lia.
Qed.

Lemma u32_of_f64_floor m e k :
  (inject_Z k <= fval m e < inject_Z (k + 1))%Q → 0 <= k < 2 ^ 32 →
  u32_of_f64 (S754_finite false m e) = Some k.
Proof.
  intros Hk Hr. cbn [u32_of_f64].
  rewrite (inject_floor _ _ _ (scale_floor_spec m e) Hk).
  now replace (k <? 2 ^ 32) with true by lia.
Qed.

(** The integers [2 * m] and [k] at the scale of the mantissa. *)
Lemma near_scaled m e k :
  e < 0 → (inject_Z k - (1 # 2) < fval m e < inject_Z k + (1 # 2))%Q →
  (2 * k - 1) * 2 ^ (- e) < 2 * Zpos m < (2 * k + 1) * 2 ^ (- e).
Proof.
  intros He [Hlo Hhi].
  pose proof (pow2_neg_Z (- e) ltac:(lia)) as Hinv. rewrite Z.opp_involutive in Hinv.
  pose proof (pow2_pos e) as HP. unfold fval in *.
  assert (0 < inject_Z (2 ^ (- e)))%Q as HD by (change 0%Q with (inject_Z 0);
    rewrite <- Zlt_Qlt; apply Z.pow_pos_nonneg; lia).
  rewrite !Zlt_Qlt, !inject_Z_mult. unfold Z.sub. rewrite !inject_Z_plus, !inject_Z_mult.
  change (inject_Z 2) with 2%Q. change (inject_Z (- (1))) with (- (1))%Q.
  change (inject_Z 1) with 1%Q.
  set (D := inject_Z (2 ^ (- e))) in *. set (M := inject_Z (Zpos m)) in *.
  assert (M == M * pow2 e * D)%Q as HM by (rewrite <- Qmult_assoc, Hinv; ring).
  rewrite HM. split; nra.
Qed.

Lemma py_round_near m e k :
  (inject_Z k - (1 # 2) < fval m e < inject_Z k + (1 # 2))%Q →
  py_round (S754_finite false m e) = Some k.
Proof.
  intros Hk. cbn [py_round]. f_equal. unfold scale_floor.
  destruct (Z.leb_spec 0 e) as [He|He].
  - unfold fval in Hk. rewrite pow2_Z, <- inject_Z_mult in Hk by done.
    set (t := Zpos m * 2 ^ e) in *.
    assert (t < k + 1) by (rewrite Zlt_Qlt, inject_Z_plus; change (inject_Z 1) with 1%Q; lra).
    assert (k < t + 1) by (rewrite Zlt_Qlt, inject_Z_plus; change (inject_Z 1) with 1%Q; lra).
    lia.
  - apply near_scaled in Hk; [|done].
    assert (0 < 2 ^ (- e)) as Hd by (apply Z.pow_pos_nonneg; lia).
    pose proof (Z.mul_div_le (Zpos m) _ Hd). pose proof (Z.mul_succ_div_gt (Zpos m) _ Hd).
    set (D := 2 ^ (- e)) in *. set (t := Zpos m / D) in *.
    clearbody t. clearbody D. assert (t = k ∨ t = k - 1) as Ht by nia.
    destruct (Z.compare_spec (2 * (Zpos m - t * D)) D) as [HD|HD|HD];
      destruct Ht as [Ht|Ht]; rewrite Ht in *; lia.
Qed.
