(* ===== verification/HalStubs.v ===== *)
(** * stm32wlxx_hal.c and stm32wlxx_hal_pwr.c: time and power of a node

    The HAL counts milliseconds in a [uint32_t], the simulator counts ticks of
    a microsecond, and both meet in a [double] number of seconds (Binary64).
    [HAL_Delay] is followed from the call to the tick at which the simulator
    wakes the node up, and [HAL_GetTick] from the tick to the value returned.
    The theorem bounds what the five roundings on the way can do. *)

From Stdlib Require Import QArith Qpower Lqa SpecFloat.
From S2P Require Import Prelude Binary64 HalSubghz.

#[local] Open Scope Z_scope.

(** ** The clock of the simulator (environment.py) *)

(** [__tick_size = 0.000001] *)
Definition tick_size : spec_float := f64_lit 1 1000000.

(** [current_time]: an int times a float. *)
Definition current_time (current_tick : Z) : spec_float :=
  f64_mul (f64_of_Z current_tick) tick_size.

(** The length is [None] until [run] sets it. *)
Definition is_running (simulation_length : option Z) (current_tick : Z) : bool :=
  match simulation_length with
  | Some len => (0 <? current_tick) && (0 <? len) && (current_tick <? len - 1)
  | None => false
  end.

(** The decorator of [sleep]: [None] when it raises [SimulatorException]. *)
Definition requires_running_simulation {A} (simulation_length : option Z) (current_tick : Z)
    (method : option A) : option A :=
  if negb (is_running simulation_length current_tick) && (0 <? current_tick) then None
  else method.

(** The tick at which [sleep] returns or raises [SimulationFinishedException];
    [None] when the decorator raises, or [round]. *)
Definition sleep (simulation_length : option Z) (current_tick : Z) (duration : spec_float)
  : option Z :=
  requires_running_simulation simulation_length current_tick $
  ticks ← py_round (f64_div duration tick_size);
  let wakeup_time := current_tick + ticks in
  Some (match simulation_length with
        | Some len => if len =? 0 then wakeup_time else Z.min len wakeup_time
        | None => wakeup_time
        end).

(** ** stm32wlxx_hal.c *)

Section Hal.
(** The end of the simulation and the boot delay of the node, in seconds. *)
Context (simulation_length : option Z) (boot_delay : spec_float).

(** [sim_current_time] of native_node.py. *)
Definition sim_current_time (current_tick : Z) : spec_float :=
  f64_sub (current_time current_tick) boot_delay.

(** [sim_sleep] returns when the task that it starts in the simulator has
    ended.  The task catches what [sleep] raises and ends at once in this case;
    the clock then stands at the tick of the call. *)
Definition sim_sleep (current_tick : Z) (duration : spec_float) : Z :=
  default current_tick (sleep simulation_length current_tick duration).

Definition HAL_Delay (delay_ms : Z) (current_tick : Z) : Z :=
  sim_sleep current_tick (f64_div (f64_of_Z delay_ms) (f64_of_Z 1000)).

Definition HAL_GetTick (current_tick : Z) : option Z :=
  u32_of_f64 (f64_mul (sim_current_time current_tick) (f64_of_Z 1000)).

Definition HAL_IncTick (current_tick : Z) : Z :=
  sim_sleep current_tick (f64_lit 1 1000000).
End Hal.

(** A node without a boot delay. *)
Definition no_delay : spec_float := S754_zero false.

Example delay_1001 : HAL_Delay None 1001 0 = 1001000. Proof. reflexivity. Qed.
Example tick_1001 : HAL_GetTick no_delay 1001000 = Some 1000. Proof. reflexivity. Qed.
Example tick_1000 : HAL_GetTick no_delay 1000000 = Some 1000. Proof. reflexivity. Qed.
Example inc_tick : HAL_IncTick (Some 500) 41 = 42. Proof. reflexivity. Qed.
Example delay_cut : HAL_Delay (Some 500) 1 7 = 500. Proof. reflexivity. Qed.
(** On the last tick before the end the simulation is not running any more. *)
Example delay_late : HAL_Delay (Some 500) 1 498 = 500. Proof. reflexivity. Qed.
Example delay_too_late : HAL_Delay (Some 500) 1 499 = 499. Proof. reflexivity. Qed.
(** Before the boot delay has passed, the time is negative and the conversion
    undefined. *)
Example tick_before_boot : HAL_GetTick (f64_of_Z 1) 7 = None. Proof. reflexivity. Qed.

(** ** Adding up the errors *)

(** [x] is [v] up to [k] relative errors of an [ulp]. *)
Definition within (k : Z) (v x : Q) : Prop :=
  (v * Qpower (1 - ulp) k <= x <= v * Qpower (1 + ulp) k)%Q.

#[export] Instance within_proper k : Proper (Qeq ==> Qeq ==> iff) (within k).
Proof. intros v v' Hv x x' Hx. unfold within. now rewrite Hv, Hx. Qed.

Lemma lower_pos k : (0 < Qpower (1 - ulp) k)%Q.
Proof. apply Qpower_0_lt. reflexivity. Qed.
Lemma upper_pos k : (0 < Qpower (1 + ulp) k)%Q.
Proof. apply Qpower_0_lt. reflexivity. Qed.

Lemma within_trans j k v x y : within j v x → within k x y → within (j + k) v y.
Proof.
  unfold within. intros [Hx1 Hx2] [Hy1 Hy2]. rewrite !Qpower_plus by discriminate.
  pose proof (lower_pos k) as Hl. pose proof (upper_pos k) as Hu.
  pose proof (Qmult_le_compat_r _ _ _ Hx1 (Qlt_le_weak _ _ Hl)).
  pose proof (Qmult_le_compat_r _ _ _ Hx2 (Qlt_le_weak _ _ Hu)). lra.
Qed.

Lemma within_mul_r j v x w : (0 <= w)%Q → within j v x → within j (v * w) (x * w).
Proof.
  unfold within. intros Hw [H1 H2].
  pose proof (Qmult_le_compat_r _ _ _ H1 Hw). pose proof (Qmult_le_compat_r _ _ _ H2 Hw). lra.
Qed.

Lemma within_product j k v w x y :
  (0 <= v)%Q → (0 <= y)%Q → within j v x → within k w y → within (k + j) (v * w) (x * y).
Proof.
  intros Hv Hy Hx Hwy. apply within_trans with (v * y)%Q; [|now apply within_mul_r].
  rewrite (Qmult_comm v w), (Qmult_comm v y). now apply within_mul_r.
Qed.

Lemma rounds_within x v lo hi :
  rounds x v lo hi → ∃ m e, x = S754_finite false m e ∧ 2 ^ 52 <= Zpos m < 2 ^ 53 ∧
                            lo <= e <= hi ∧ within 1 v (fval m e).
Proof. auto. Qed.

(** The constants: [1000.0] is exact, [tick_size] within an [ulp]. *)
Definition m_kilo : positive := 8796093022208000.
Lemma f64_kilo : f64_of_Z 1000 = S754_finite false m_kilo (-43).
Proof. reflexivity. Qed.
Lemma fval_kilo : (fval m_kilo (-43) == 1000)%Q. Proof. reflexivity. Qed.

Definition m_tick : positive := 4722366482869645.
Lemma tick_size_eq : tick_size = S754_finite false m_tick (-72).
Proof. reflexivity. Qed.
Lemma fval_tick : within 1 (1 # 1000000) (fval m_tick (-72)).
Proof. split; vm_compute; discriminate. Qed.
Lemma fval_tick_inv : within 1 (inject_Z 1000000) (/ fval m_tick (-72)).
Proof. split; vm_compute; discriminate. Qed.

Lemma fval_nonneg m e : (0 <= fval m e)%Q.
Proof. apply Qmult_le_0_compat; [done|]. apply Qlt_le_weak, pow2_pos. Qed.

Lemma inject_nonneg n : 0 <= n → (0 <= inject_Z n)%Q.
Proof. apply (inject_le 0). Qed.

Lemma read_tick_error t :
  0 < t < 2 ^ 53 →
  ∃ m e, f64_mul (sim_current_time no_delay t) (f64_of_Z 1000) = S754_finite false m e ∧
         within 4 (inject_Z t * (1 # 1000000) * 1000) (fval m e).
Proof.
  intros Ht.
  destruct (rounds_within _ _ _ _ (f64_of_Z_rounds t Ht)) as (ma & ea & Ha & Hna & Hea & Hva).
  unfold sim_current_time, current_time. rewrite Ha, tick_size_eq, f64_kilo.
  destruct (rounds_within _ _ _ _ (f64_mul_rounds ma ea m_tick (-72) Hna ltac:(unfold m_tick; lia) ltac:(lia)))
    as (mp & ep & Hp & Hnp & Hep & Hvp).
  rewrite Hp. unfold no_delay, f64_sub; cbn [SFsub].
  destruct (rounds_within _ _ _ _ (f64_mul_rounds mp ep m_kilo (-43) Hnp ltac:(unfold m_kilo; lia) ltac:(lia)))
    as (mq & eq & Hq & Hnq & Heq & Hvq).
  exists mq, eq. split; [done|]. rewrite fval_kilo in Hvq.
  change 4 with (1 + 1 + 1 + 1). eapply within_trans; [|exact Hvq].
  apply within_mul_r; [discriminate|]. eapply within_trans; [|exact Hvp].
  apply within_product; auto using inject_nonneg, fval_nonneg, fval_tick with lia.
Qed.

Lemma delay_error n :
  0 < n < 2 ^ 53 →
  ∃ m e, f64_div (f64_div (f64_of_Z n) (f64_of_Z 1000)) tick_size = S754_finite false m e ∧
         within 4 (inject_Z n * (1 # 1000) * 1000000) (fval m e).
Proof.
  intros Hn.
  destruct (rounds_within _ _ _ _ (f64_of_Z_rounds n Hn)) as (ma & ea & Ha & Hna & Hea & Hva).
  rewrite Ha, tick_size_eq, f64_kilo.
  destruct (rounds_within _ _ _ _ (f64_div_rounds ma ea m_kilo (-43) (fval ma ea * (1 # 1000)) Hna
    ltac:(unfold m_kilo; lia) ltac:(lia) ltac:(rewrite fval_kilo; ring))) as (md & ed & Hd & Hnd & Hed & Hvd).
  rewrite Hd.
  destruct (rounds_within _ _ _ _ (f64_div_rounds md ed m_tick (-72) (fval md ed * / fval m_tick (-72)) Hnd
    ltac:(unfold m_tick; lia) ltac:(lia) ltac:(field; discriminate))) as (mq & eq & Hq & Hnq & Heq & Hvq).
  exists mq, eq. split; [done|].
  change 4 with (1 + (1 + 1) + 1). eapply within_trans; [|exact Hvq].
  apply within_product; auto using fval_tick_inv.
  - apply Qmult_le_0_compat; [apply inject_nonneg; lia|discriminate].
  - discriminate.
  - eapply within_trans; [|exact Hvd]. now apply within_mul_r.
Qed.

(** Below 2^32 seconds, four relative errors are less than half a tick. *)
Definition slack : Q := 1 # 8589934592000.

Lemma within_4_slack v x :
  (0 <= v)%Q → within 4 v x → (v - v * slack <= x <= v + v * slack)%Q.
Proof.
  unfold within. intros Hv [H1 H2].
  assert (1 - slack <= Qpower (1 - ulp) 4)%Q as Hl by (vm_compute; discriminate).
  assert (Qpower (1 + ulp) 4 <= 1 + slack)%Q as Hu by (vm_compute; discriminate).
  pose proof (Qmult_le_compat_r _ _ _ Hl Hv). pose proof (Qmult_le_compat_r _ _ _ Hu Hv). lra.
Qed.

(** ** Delays are exact, the tick count may be one behind *)

Lemma delay_ticks n :
  0 <= n < 2 ^ 32 →
  py_round (f64_div (f64_div (f64_of_Z n) (f64_of_Z 1000)) tick_size) = Some (1000 * n).
Proof.
  intros Hn. destruct (Z.eq_dec n 0) as [->|Hn0]; [reflexivity|].
  destruct (delay_error n ltac:(lia)) as (m & e & -> & Herr).
  apply within_4_slack in Herr;
    [|repeat apply Qmult_le_0_compat; (discriminate || apply inject_nonneg; lia)].
  assert (inject_Z n * (1 # 1000) * 1000000 == inject_Z (1000 * n))%Q as Heq
    by (rewrite inject_Z_mult; change (inject_Z 1000) with 1000%Q; ring).
  rewrite Heq in Herr.
  apply py_round_near.
  assert (inject_Z (1000 * n) * slack < 1 # 2)%Q.
  { rewrite inject_Z_mult. destruct Hn as [_ Hn]. rewrite Zlt_Qlt in Hn.
    change (inject_Z 1000) with 1000%Q. change (inject_Z (2 ^ 32)) with 4294967296%Q in Hn.
    unfold slack. lra. }
  lra.
Qed.

(** What the last truncation makes of a value close to [t / 1000]. *)
Lemma truncation t (x : Q) :
  0 < t < 2 ^ 32 * 1000 →
  (inject_Z t * (1 # 1000) - (1 # 2000) < x < inject_Z t * (1 # 1000) + (1 # 2000))%Q →
  ∃ k, (k = t / 1000 ∨ t mod 1000 = 0 ∧ k = t / 1000 - 1) ∧ 0 <= k < 2 ^ 32 ∧
       (inject_Z k <= x < inject_Z (k + 1))%Q.
Proof.
  intros Ht Hx. pose proof (Z.div_mod t 1000 ltac:(lia)) as Hdm.
  pose proof (Z.mod_pos_bound t 1000 ltac:(lia)) as Hr.
  set (q := t / 1000) in *. set (r := t mod 1000) in *. clearbody q r. subst t.
  rewrite inject_Z_plus, inject_Z_mult in Hx. change (inject_Z 1000) with 1000%Q in Hx.
  assert (∀ k, k = q ∨ k = q - 1 → (inject_Z (k + 1) == inject_Z k + 1)%Q) as Hs
    by (intros; now rewrite inject_Z_plus).
  assert (inject_Z (q - 1) == inject_Z q - 1)%Q as Hp
    by (unfold Z.sub; now rewrite inject_Z_plus).
  assert (inject_Z r <= 999)%Q by (apply (inject_le r 999); lia).
  destruct (Z.eq_dec r 0) as [->|Hr0].
  - change (inject_Z 0) with 0%Q in Hx. destruct (Qlt_le_dec x (inject_Z q)) as [Hlt|Hle].
    + exists (q - 1). rewrite Hs, Hp by auto. split; [auto|]. split; [lia|lra].
    + exists q. rewrite Hs by auto. split; [auto|]. split; [lia|lra].
  - exists q. rewrite Hs by auto. split; [auto|]. split; [lia|].
    assert (1 <= inject_Z r)%Q by (apply (inject_le 1); lia). lra.
Qed.

Lemma HAL_GetTick_value t :
  0 <= t < 2 ^ 32 * 1000 →
  ∃ k, HAL_GetTick no_delay t = Some k ∧ (k = t / 1000 ∨ t mod 1000 = 0 ∧ k = t / 1000 - 1).
Proof.
  intros Ht. destruct (Z.eq_dec t 0) as [->|Ht0]; [exists 0; auto|].
  unfold HAL_GetTick. destruct (read_tick_error t ltac:(lia)) as (m & e & -> & Herr).
  apply within_4_slack in Herr;
    [|repeat apply Qmult_le_0_compat; (discriminate || apply inject_nonneg; lia)].
  assert (inject_Z t * (1 # 1000000) * 1000 == inject_Z t * (1 # 1000))%Q as Heq by ring.
  rewrite Heq in Herr.
  assert (inject_Z t * (1 # 1000) * slack < 1 # 2000)%Q.
  { destruct Ht as [_ Ht]. rewrite Zlt_Qlt in Ht.
    change (inject_Z (2 ^ 32 * 1000)) with 4294967296000%Q in Ht. unfold slack. lra. }
  destruct (truncation t (fval m e)) as (k & Hk & Hr & Hf); [lia|lra|].
  exists k. split; [|done]. now apply u32_of_f64_floor.
Qed.

(** What the decorator lets through: the start, and a running simulation. *)
Lemma running_passes {A} len t (m : option A) :
  0 <= t → t = 0 ∨ t < len - 1 → requires_running_simulation (Some len) t m = m.
Proof.
  intros Ht Hrun. unfold requires_running_simulation, is_running.
  destruct (0 <? t) eqn:E; [|now rewrite andb_false_r].
  now replace (0 <? len) with true by lia; replace (t <? len - 1) with true by lia.
Qed.

Lemma finished_raises {A} len t (m : option A) :
  0 < t → len - 1 <= t → requires_running_simulation (Some len) t m = None.
Proof.
  intros Ht Hend. unfold requires_running_simulation, is_running.
  replace (0 <? t) with true by lia. replace (t <? len - 1) with false by lia.
  now rewrite !andb_false_r.
Qed.

Lemma HAL_Delay_running len n t :
  0 < len → 0 <= n < 2 ^ 32 → 0 <= t → t = 0 ∨ t < len - 1 →
  HAL_Delay (Some len) n t = Z.min len (t + 1000 * n).
Proof.
  intros Hlen Hn Ht Hrun. unfold HAL_Delay, sim_sleep, sleep.
  rewrite running_passes, delay_ticks by done.
  cbn [mbind option_bind default]. now replace (len =? 0) with false by lia.
Qed.

Lemma HAL_Delay_finished len n t :
  0 < t → len - 1 <= t → HAL_Delay (Some len) n t = t.
Proof.
  intros Ht Hend. unfold HAL_Delay, sim_sleep, sleep. now rewrite finished_raises.
Qed.

(** C18: [HAL_Delay] advances the clock of the simulator by exactly 1000 ticks
    per millisecond, for every argument and up to the end of the simulation, in
    spite of the two divisions in floating point; on the last tick before the
    end and after it, where the simulator refuses to sleep, it returns at once.
    [HAL_GetTick] then returns the milliseconds that have passed, or one less on
    an exact millisecond, as it truncates a product that two roundings may have
    left just below; never more, for the 49 days in which the result fits. *)
Theorem delay_and_tick (len n t : Z) :
  0 <= n < 2 ^ 32 → 0 <= t <= len → 0 < len → t + 1000 * n < 2 ^ 32 * 1000 →
  let t' := HAL_Delay (Some len) n t in
  (t' = if (t =? 0) || (t <? len - 1) then Z.min len (t + 1000 * n) else t) ∧
  ∃ k, HAL_GetTick no_delay t' = Some k ∧
       (k = t' / 1000 ∨ t' mod 1000 = 0 ∧ k = t' / 1000 - 1).
Proof.
  intros Hn Ht Hlen Hend t'.
  assert (t' = if (t =? 0) || (t <? len - 1) then Z.min len (t + 1000 * n) else t) as Heq.
  { unfold t'. destruct (Z.eqb_spec t 0), (Z.ltb_spec t (len - 1)); cbn [orb];
      (apply HAL_Delay_running || apply HAL_Delay_finished); lia. }
  split; [done|]. apply HAL_GetTick_value. rewrite Heq. destruct (_ || _); lia.
Qed.

(** A delay of seven milliseconds from the start reads as six. *)
Lemma delay_and_tick_witness :
  HAL_Delay (Some 30000000) 7 0 = 7000 ∧ HAL_GetTick no_delay 7000 = Some 6 ∧
  ∃ k, HAL_GetTick no_delay (HAL_Delay (Some 30000000) 7 0) = Some k ∧
       (k = 7 ∨ 7000 mod 1000 = 0 ∧ k = 7 - 1).
Proof.
  split; [reflexivity|]. split; [reflexivity|].
  apply (delay_and_tick 30000000 7 0); lia.
Defined.

(** ** stm32wlxx_hal_pwr.c *)

Definition PWR_GPIO_A : Z := 0.
Definition PWR_GPIO_B : Z := 1.
Definition PWR_GPIO_C : Z := 2.
Definition PWR_GPIO_H : Z := 7.

Definition GPIO_PIN_MASK : Z := 0xFFFF.

Definition IS_PWR_GPIO (GPIO : Z) : bool :=
  (GPIO =? PWR_GPIO_A) || (GPIO =? PWR_GPIO_B) || (GPIO =? PWR_GPIO_C) || (GPIO =? PWR_GPIO_H).

(** The status and the port in the error message, which is the same for a bad
    port and for a bad pin. *)
Definition sim_hal_stm32_pwr_gpio (GPIO GPIONumber : Z) : HAL_StatusTypeDef * option Z :=
  if negb (IS_PWR_GPIO GPIO) then (HAL_ERROR, Some GPIO)
  else if Z.land GPIONumber GPIO_PIN_MASK =? 0 then (HAL_ERROR, Some GPIO)
  else (HAL_OK, None).

Definition HAL_PWREx_EnableGPIOPullUp := sim_hal_stm32_pwr_gpio.
Definition HAL_PWREx_DisableGPIOPullUp := sim_hal_stm32_pwr_gpio.
Definition HAL_PWREx_EnableGPIOPullDown := sim_hal_stm32_pwr_gpio.
Definition HAL_PWREx_DisableGPIOPullDown := sim_hal_stm32_pwr_gpio.

Lemma mask_nonzero v :
  Z.land v GPIO_PIN_MASK ≠ 0 ↔ ∃ pin, 0 <= pin < 16 ∧ Z.testbit v pin = true.
Proof.
  change GPIO_PIN_MASK with (Z.ones 16). split.
  - intros Hne. set (p := Z.log2 (Z.land v (Z.ones 16))).
    assert (0 <= Z.land v (Z.ones 16)) by (rewrite Z.land_ones by lia; apply Z.mod_pos_bound; lia).
    assert (Z.testbit (Z.land v (Z.ones 16)) p = true) as Hp by (apply Z.bit_log2; lia).
    rewrite Z.land_spec in Hp. apply andb_prop in Hp as [Hv Ho].
    exists p. split; [split; [apply Z.log2_nonneg|]|done].
    destruct (Z.lt_ge_cases p 16); [done|]. now rewrite Z.ones_spec_high in Ho by lia.
  - intros (pin & Hpin & Hb) H0. apply (f_equal (λ z, Z.testbit z pin)) in H0.
    rewrite Z.land_spec, Z.ones_spec_low, Hb, Z.bits_0 in H0 by lia. done.
Qed.

(** Only ports A, B, C and H, and at least one of the pins 0 to 15. *)
Lemma pwr_gpio_ok GPIO GPIONumber :
  fst (sim_hal_stm32_pwr_gpio GPIO GPIONumber) = HAL_OK ↔
  GPIO ∈ [0; 1; 2; 7] ∧ ∃ pin, 0 <= pin < 16 ∧ Z.testbit GPIONumber pin = true.
Proof.
  rewrite <- mask_nonzero. unfold sim_hal_stm32_pwr_gpio.
  assert (IS_PWR_GPIO GPIO = true ↔ GPIO ∈ [0; 1; 2; 7]) as <-.
  { unfold IS_PWR_GPIO, PWR_GPIO_A, PWR_GPIO_B, PWR_GPIO_C, PWR_GPIO_H.
    rewrite !elem_of_cons, elem_of_nil. lia. }
  destruct (IS_PWR_GPIO GPIO); cbn [negb]; [|split; [discriminate|intros [[=] _]]].
  destruct (Z.eqb_spec (Z.land GPIONumber GPIO_PIN_MASK) 0); cbn [fst];
    (split; [discriminate || done|]); [intros [_ []]; done|done].
Qed.
