(* ===== verification/Cortex.v ===== *)
(** * The processor as the simulator provides it (cmsis_compiler.h, core_cm4.h)

    The firmware sees a Cortex-M4 through the CMSIS headers, whose special
    instructions and registers are replaced: PRIMASK by a variable, RBIT and CLZ
    by C code, the interrupt controller by a structure in memory.  The file
    models these replacements with the CMSIS functions on them.  A structure in
    memory keeps what is written to it, where the set and clear registers of the
    controller change single bits: the theorem on the enable bits says what
    the firmware then reads.  The structure is defined in hal_stubs.c, which the
    constructor of a node does not collect; a firmware that uses the controller
    has to add this file itself. *)

From S2P Require Import Prelude.

(** ** Bit instructions *)

Definition sim_rbit (x : Z) : Z :=
  let x := Z.lor (u32 (Z.shiftl (Z.land x 0x55555555) 1)) (Z.shiftr (Z.land x 0xAAAAAAAA) 1) in
  let x := Z.lor (u32 (Z.shiftl (Z.land x 0x33333333) 2)) (Z.shiftr (Z.land x 0xCCCCCCCC) 2) in
  let x := Z.lor (u32 (Z.shiftl (Z.land x 0x0F0F0F0F) 4)) (Z.shiftr (Z.land x 0xF0F0F0F0) 4) in
  let x := Z.lor (u32 (Z.shiftl (Z.land x 0x00FF00FF) 8)) (Z.shiftr (Z.land x 0xFF00FF00) 8) in
  Z.lor (u32 (Z.shiftl x 16)) (Z.shiftr x 16).

(** [__builtin_clz], the leading zeros of a non-zero [unsigned int]. *)
Definition builtin_clz (x : Z) : Z := 31 - Z.log2 x.

Definition CLZ (x : Z) : Z := if x =? 0 then 32 else u8 (builtin_clz x).

Definition POSITION_VAL (x : Z) : Z := CLZ (sim_rbit x).

Example rbit_1 : sim_rbit 1 = 0x80000000. Proof. reflexivity. Qed.
Example position_40 : POSITION_VAL 40 = 3. Proof. reflexivity. Qed.

(** One step exchanges neighbouring blocks of [k] bits. *)
Definition swap (k M M' x : Z) : Z :=
  Z.lor (u32 (Z.shiftl (Z.land x M) k)) (Z.shiftr (Z.land x M') k).

(** The masks select the lower and the upper blocks. *)
Definition masks_ok (k M M' : Z) : bool :=
  forallb (λ i,
    if Z.testbit i (Z.log2 k)
    then (Z.lxor i k =? i - k) && Z.testbit M (i - k) && negb (Z.testbit M' (i + k))
    else (Z.lxor i k =? i + k) && negb (Z.testbit M (i - k)) && Z.testbit M' (i + k))
    (seqZ 0 32).

Lemma swap_bit k M M' x i :
  masks_ok k M M' = true → 0 <= k → 0 <= i < 32 →
  Z.testbit (swap k M M' x) i = Z.testbit x (Z.lxor i k).
Proof.
  intros Hok Hk Hi. pose proof (range_cases _ _ Hok i Hi) as Hi'. cbv beta in Hi'. clear Hok.
  unfold swap, u32. rewrite Z.lor_spec, Z.mod_pow2_bits_low, Z.shiftl_spec, Z.shiftr_spec by lia.
  rewrite !Z.land_spec.
  destruct (Z.testbit i (Z.log2 k)); rewrite !andb_true_iff in Hi';
    destruct Hi' as [[->%Z.eqb_eq HM] HM'].
  - apply negb_true_iff in HM'. rewrite HM, HM', andb_true_r, andb_false_r. apply orb_false_r.
  - apply negb_true_iff in HM. rewrite HM, HM', andb_true_r, andb_false_r. done.
Qed.

Lemma lxor_reverse i :
  0 <= i < 32 →
  Z.lxor (Z.lxor (Z.lxor (Z.lxor (Z.lxor i 16) 8) 4) 2) 1 = 31 - i.
Proof.
  intros Hi. apply Z.eqb_eq. revert i Hi. apply (range_cases 32). reflexivity.
Qed.

Lemma lxor_below i k : 0 <= i < 32 → 0 <= k < 32 → 0 <= Z.lxor i k < 32.
Proof.
  intros Hi Hk. cut ((0 <=? Z.lxor i k) && (Z.lxor i k <? 32) = true); [lia|].
  revert k Hk. apply (range_cases 32). revert i Hi. apply (range_cases 32). reflexivity.
Qed.

Lemma swap_range k M M' x : 0 <= k → 0 <= M' < 2 ^ 32 → 0 <= swap k M M' x < 2 ^ 32.
Proof.
  intros Hk HM. unfold swap.
  assert (0 <= Z.shiftr (Z.land x M') k) by (apply Z.shiftr_nonneg, Z.land_nonneg; right; lia).
  assert (0 <= Z.lor (u32 (Z.shiftl (Z.land x M) k)) (Z.shiftr (Z.land x M') k))
    by (apply Z.lor_nonneg; split; [apply u32_range|done]).
  split; [done|]. apply (Z.bounded_iff_bits_nonneg 32); [lia|done|]. intros l Hl.
  rewrite Z.lor_spec, Z.shiftr_spec, Z.land_spec by lia. unfold u32.
  rewrite Z.mod_pow2_bits_high by lia. cbn [orb].
  rewrite (proj1 (Z.bounded_iff_bits_nonneg 32 M' ltac:(lia) ltac:(lia)) ltac:(lia)) by lia.
  apply andb_false_r.
Qed.

(** The halves: nothing is left of the 16 bits that the shifts move out. *)
Lemma swap_halves x :
  0 <= x < 2 ^ 32 →
  Z.lor (u32 (Z.shiftl x 16)) (Z.shiftr x 16) = swap 16 0x0000FFFF 0xFFFF0000 x.
Proof.
  intros Hx. unfold swap. rewrite Z.shiftr_land.
  change (Z.shiftr 0xFFFF0000 16) with (Z.ones 16). change 0x0000FFFF with (Z.ones 16).
  rewrite !Z.land_ones, !Z.shiftl_mul_pow2, !Z.shiftr_div_pow2 by lia.
  unfold u32. change (2 ^ 32) with (2 ^ 16 * 2 ^ 16) in *.
  rewrite !Z.mul_mod_distr_r, Z.mod_mod by lia. f_equal.
  symmetry. apply Z.mod_small. split; [apply Z.div_pos|apply Z.div_lt_upper_bound]; lia.
Qed.

(** The bits in reverse order. *)
Lemma sim_rbit_bit x i :
  0 <= x < 2 ^ 32 → 0 <= i < 32 → Z.testbit (sim_rbit x) i = Z.testbit x (31 - i).
Proof.
  intros Hx Hi. unfold sim_rbit. cbv zeta.
  fold (swap 1 0x55555555 0xAAAAAAAA x).
  set (x1 := swap 1 _ _ x). fold (swap 2 0x33333333 0xCCCCCCCC x1).
  set (x2 := swap 2 _ _ x1). fold (swap 4 0x0F0F0F0F 0xF0F0F0F0 x2).
  set (x4 := swap 4 _ _ x2). fold (swap 8 0x00FF00FF 0xFF00FF00 x4).
  rewrite swap_halves by (apply swap_range; lia). subst x4 x2 x1.
  rewrite !swap_bit by (reflexivity || lia || (repeat apply lxor_below; lia)).
  now rewrite lxor_reverse.
Qed.

Lemma sim_rbit_range x : 0 <= x < 2 ^ 32 → 0 <= sim_rbit x < 2 ^ 32.
Proof.
  intros Hx. unfold sim_rbit. cbv zeta. rewrite swap_halves; [apply swap_range; lia|].
  apply (swap_range 8 0x00FF00FF 0xFF00FF00); lia.
Qed.

(** C35: [sim_rbit], the five masked exchanges that replace the RBIT
    instruction, reverses the 32 bits of a word, and with it [POSITION_VAL] is
    the index of the lowest bit set, or 32 for no bit. *)
Theorem position_of_lowest_bit (x : Z) :
  0 <= x < 2 ^ 32 →
  (∀ i, 0 <= i < 32 → Z.testbit (sim_rbit x) i = Z.testbit x (31 - i)) ∧
  (x = 0 → POSITION_VAL x = 32) ∧
  (x ≠ 0 → 0 <= POSITION_VAL x < 32 ∧ Z.testbit x (POSITION_VAL x) = true ∧
           ∀ j, 0 <= j < POSITION_VAL x → Z.testbit x j = false).
Proof.
  intros Hx. split; [intros i Hi; now apply sim_rbit_bit|].
  split; [intros ->; reflexivity|]. intros Hne.
  pose proof (sim_rbit_range x Hx) as Hr.
  assert (∀ j, 0 <= j < 32 → Z.testbit x j = Z.testbit (sim_rbit x) (31 - j)) as Hbit.
  { intros j Hj. rewrite sim_rbit_bit by lia. f_equal. lia. }
  assert (sim_rbit x ≠ 0) as Hrne.
  { intros H0. apply Hne. apply Z.bits_inj_0. intros j.
    destruct (Z.lt_ge_cases j 0); [now apply Z.testbit_neg_r|].
    destruct (Z.lt_ge_cases j 32).
    - rewrite Hbit, H0 by lia. apply Z.bits_0.
    - apply (proj1 (Z.bounded_iff_bits_nonneg 32 x ltac:(lia) ltac:(lia))); lia. }
  set (l := Z.log2 (sim_rbit x)).
  assert (0 <= l < 32) as Hl by (split; [apply Z.log2_nonneg|apply Z.log2_lt_pow2; lia]).
  assert (POSITION_VAL x = 31 - l) as ->.
  { unfold POSITION_VAL, CLZ, builtin_clz. replace (sim_rbit x =? 0) with false by lia.
    fold l. apply u8_small. lia. }
  split; [lia|]. split.
  - rewrite Hbit by lia. replace (31 - (31 - l)) with l by lia. apply Z.bit_log2. lia.
  - intros j Hj. rewrite Hbit by lia. apply Z.bits_above_log2; fold l; lia.
Qed.

Lemma position_of_lowest_bit_witness :
  POSITION_VAL 0xA0 = 5 ∧ Z.testbit 0xA0 5 = true ∧ Z.testbit 0xA0 3 = false.
Proof.
  assert (POSITION_VAL 0xA0 = 5) as H5 by reflexivity.
  destruct (position_of_lowest_bit 0xA0 ltac:(lia)) as (_ & _ & Hp).
  destruct (Hp ltac:(discriminate)) as (_ & Hb & Hlow). rewrite H5 in *.
  split; [done|]. split; [done|]. apply Hlow. lia.
Defined.

(** ** PRIMASK and critical sections

    The state is [sim_primask]; a critical section saves it, masks the
    interrupts and restores it. *)

Definition sim_get_PRIMASK (sim_primask : Z) : Z := sim_primask.
Definition sim_set_PRIMASK (primask sim_primask : Z) : Z := primask.

Definition disable_irq : Z → Z := sim_set_PRIMASK 1.
Definition enable_irq : Z → Z := sim_set_PRIMASK 0.

(** The two macros of utilities_conf.h: the local [primask_bit] and the mask
    after entering, the mask after leaving. *)
Definition UTILS_ENTER_CRITICAL_SECTION (sim_primask : Z) : Z * Z :=
  let primask_bit := sim_get_PRIMASK sim_primask in (primask_bit, disable_irq sim_primask).
Definition UTILS_EXIT_CRITICAL_SECTION (primask_bit sim_primask : Z) : Z :=
  sim_set_PRIMASK primask_bit sim_primask.

(** Code with critical sections, in which other critical sections may be
    entered by the functions called. *)
Inductive code :=
| Done
| Access (rest : code)
| Section_ (body rest : code).

(** The mask at every access, with the depth of the section around it, and the
    mask at the end. *)
Fixpoint run_code (c : code) (depth : nat) (m : Z) : list (nat * Z) * Z :=
  match c with
  | Done => ([], m)
  | Access rest =>
      let '(seen, m') := run_code rest depth m in ((depth, m) :: seen, m')
  | Section_ body rest =>
      let '(primask_bit, m1) := UTILS_ENTER_CRITICAL_SECTION m in
      let '(seen1, m2) := run_code body (S depth) m1 in
      let m3 := UTILS_EXIT_CRITICAL_SECTION primask_bit m2 in
      let '(seen2, m4) := run_code rest depth m3 in (seen1 ++ seen2, m4)
  end.

(** Sections nest: inside them interrupts are masked, around them, and at the
    end, the mask is the one before. *)
Lemma critical_sections_nest c : ∀ depth m,
  snd (run_code c depth m) = m ∧
  Forall (λ '(d, seen), (depth <= d)%nat ∧ seen = if decide (d = depth) then m else 1)
    (fst (run_code c depth m)).
Proof.
  induction c as [|rest IH|body IHb rest IHr]; intros depth m; cbn [run_code].
  - auto.
  - destruct (IH depth m) as [Hend Hseen].
    destruct (run_code rest depth m) as [seen m']. cbn [fst snd] in *. split; [done|].
    constructor; [|done]. now rewrite decide_True.
  - cbn [UTILS_ENTER_CRITICAL_SECTION].
    destruct (IHb (S depth) (disable_irq m)) as [_ Hbody].
    destruct (run_code body (S depth) (disable_irq m)) as [seen1 m2]. cbn [fst snd] in *.
    change (UTILS_EXIT_CRITICAL_SECTION _ _) with m.
    destruct (IHr depth m) as [Hend Hrest].
    destruct (run_code rest depth m) as [seen2 m4]. cbn [fst snd] in *. split; [done|].
    apply Forall_app; split; [|done]. eapply Forall_impl; [exact Hbody|].
    intros [d seen] [Hd ->]. rewrite (decide_False (P := d = depth)) by lia.
    split; [lia|]. now case_decide.
Qed.

(** ** The interrupt controller

    [NVIC] is the structure [sim_nvic] in memory.  An [IRQn_Type] is its value;
    the functions index the registers for numbers from 0 on.  For a negative
    number, an exception of the processor, [__NVIC_SetPriority] and
    [__NVIC_GetPriority] use [SCB], which is not in memory (see below). *)

Record NVIC_Type := mkNVIC {
  ISER : list Z;
  ICER : list Z;
  ISPR : list Z;
  ICPR : list Z;
  IABR : list Z;
  IP : list Z }.

#[export] Instance eta_NVIC : Eta NVIC_Type := λ s,
  mkNVIC (ISER s) (ICER s) (ISPR s) (ICPR s) (IABR s) (IP s).

Definition sim_nvic : NVIC_Type :=
  mkNVIC (replicate 8 0) (replicate 8 0) (replicate 8 0) (replicate 8 0) (replicate 8 0)
    (replicate 240 0).

(** Element [i] of a register array; the indices used are within it. *)
Definition reg_read (reg : list Z) (i : Z) : Z := default 0 (reg !! Z.to_nat i).
Definition reg_write (reg : list Z) (i v : Z) : list Z := <[Z.to_nat i := v]> reg.

(** [( ( ( uint32_t )IRQn ) >> 5 )] and [1UL << ( ( ( uint32_t )IRQn ) & 0x1F )]. *)
Definition irq_word (IRQn : Z) : Z := Z.shiftr IRQn 5.
Definition irq_bit (IRQn : Z) : Z := u32 (Z.shiftl 1 (Z.land IRQn 0x1F)).

Definition bit_set (reg : list Z) (IRQn : Z) : Z :=
  if Z.land (reg_read reg (irq_word IRQn)) (irq_bit IRQn) =? 0 then 0 else 1.

Definition NVIC_EnableIRQ (IRQn : Z) (s : NVIC_Type) : NVIC_Type :=
  if 0 <=? IRQn then s <| ISER := reg_write (ISER s) (irq_word IRQn) (irq_bit IRQn) |> else s.

Definition NVIC_GetEnableIRQ (IRQn : Z) (s : NVIC_Type) : Z :=
  if 0 <=? IRQn then bit_set (ISER s) IRQn else 0.

Definition NVIC_DisableIRQ (IRQn : Z) (s : NVIC_Type) : NVIC_Type :=
  if 0 <=? IRQn then s <| ICER := reg_write (ICER s) (irq_word IRQn) (irq_bit IRQn) |> else s.

Definition NVIC_GetPendingIRQ (IRQn : Z) (s : NVIC_Type) : Z :=
  if 0 <=? IRQn then bit_set (ISPR s) IRQn else 0.

Definition NVIC_SetPendingIRQ (IRQn : Z) (s : NVIC_Type) : NVIC_Type :=
  if 0 <=? IRQn then s <| ISPR := reg_write (ISPR s) (irq_word IRQn) (irq_bit IRQn) |> else s.

Definition NVIC_ClearPendingIRQ (IRQn : Z) (s : NVIC_Type) : NVIC_Type :=
  if 0 <=? IRQn then s <| ICPR := reg_write (ICPR s) (irq_word IRQn) (irq_bit IRQn) |> else s.

Definition NVIC_GetActive (IRQn : Z) (s : NVIC_Type) : Z :=
  if 0 <=? IRQn then bit_set (IABR s) IRQn else 0.

(** The numbers of the interrupts, by the size of the registers. *)
Definition is_irq (i : Z) : Prop := 0 <= i < 240.

Inductive nvic_op := EnableIRQ (i : Z) | DisableIRQ (i : Z) | SetPendingIRQ (i : Z) | ClearPendingIRQ (i : Z).

Definition op_irq (op : nvic_op) : Z :=
  match op with EnableIRQ i | DisableIRQ i | SetPendingIRQ i | ClearPendingIRQ i => i end.

Definition nvic_step (s : NVIC_Type) (op : nvic_op) : NVIC_Type :=
  match op with
  | EnableIRQ i => NVIC_EnableIRQ i s
  | DisableIRQ i => NVIC_DisableIRQ i s
  | SetPendingIRQ i => NVIC_SetPendingIRQ i s
  | ClearPendingIRQ i => NVIC_ClearPendingIRQ i s
  end.

Definition nvic_run (ops : list nvic_op) : NVIC_Type := foldl nvic_step sim_nvic ops.

(** The interrupts that the operations enable, or set pending, in order. *)
Definition enables (op : nvic_op) : option Z :=
  match op with EnableIRQ i => Some i | _ => None end.
Definition sets_pending (op : nvic_op) : option Z :=
  match op with SetPendingIRQ i => Some i | _ => None end.

(** The last one of them with a number in a given register. *)
Definition last_in_word (sel : nvic_op → option Z) (ops : list nvic_op) (w : Z) : option Z :=
  last (filter (λ j, irq_word j = w) (omap sel ops)).

(** What the comments of the header promise: the enabled interrupts are a set. *)
Definition controller_step (enabled : gset Z) (op : nvic_op) : gset Z :=
  match op with
  | EnableIRQ i => {[i]} ∪ enabled
  | DisableIRQ i => enabled ∖ {[i]}
  | SetPendingIRQ _ | ClearPendingIRQ _ => enabled
  end.
Definition controller_run (ops : list nvic_op) : gset Z := foldl controller_step ∅ ops.

Example nvic_two : 
  map (λ i, NVIC_GetEnableIRQ i (nvic_run [EnableIRQ 15; EnableIRQ 50; EnableIRQ 11; DisableIRQ 11]))
    [11; 15; 50] = [1; 0; 1].
Proof. reflexivity. Qed.

Lemma irq_word_div i : is_irq i → irq_word i = i / 32.
Proof. intros _. apply Z.shiftr_div_pow2. lia. Qed.

Lemma irq_word_range i : is_irq i → 0 <= irq_word i < 8.
Proof. intros Hi. rewrite irq_word_div by done. unfold is_irq in Hi. split; [apply Z.div_pos|apply Z.div_lt_upper_bound]; lia. Qed.

Lemma irq_bit_pow i : is_irq i → irq_bit i = 2 ^ (i mod 32).
Proof. intros Hi. apply Z.eqb_eq. revert i Hi. apply (range_cases 240). reflexivity. Qed.

Lemma land_pow2_pow2 a b :
  0 <= a → 0 <= b → (Z.land (2 ^ a) (2 ^ b) =? 0) = negb (a =? b).
Proof.
  intros Ha Hb. destruct (Z.eqb_spec a b) as [->|Hne]; cbn [negb].
  - rewrite Z.land_diag. apply Z.eqb_neq. apply Z.pow_nonzero; lia.
  - apply Z.eqb_eq, Z.bits_inj_0. intros n. rewrite Z.land_spec, !Z.pow2_bits_eqb by done.
    destruct (Z.eqb_spec a n), (Z.eqb_spec b n); congruence || done.
Qed.

(** The bit of an interrupt in a register that was last written for another. *)
Lemma same_word_bit i j :
  is_irq i → is_irq j → irq_word i = irq_word j →
  (Z.land (irq_bit j) (irq_bit i) =? 0) = negb (i =? j).
Proof.
  intros Hi Hj Hw. rewrite !irq_word_div in Hw by done.
  rewrite !irq_bit_pow, land_pow2_pow2 by (done || (apply Z.mod_pos_bound; lia)).
  f_equal. pose proof (Z.div_mod i 32 ltac:(lia)). pose proof (Z.div_mod j 32 ltac:(lia)). lia.
Qed.

Lemma bit_set_write reg i j :
  length reg = 8%nat → is_irq i → is_irq j →
  bit_set (reg_write reg (irq_word j) (irq_bit j)) i =
  if irq_word i =? irq_word j then b2z (i =? j) else bit_set reg i.
Proof.
  intros Hlen Hi Hj. pose proof (irq_word_range i Hi). pose proof (irq_word_range j Hj).
  unfold bit_set, reg_read, reg_write. destruct (Z.eqb_spec (irq_word i) (irq_word j)) as [Hw|Hw].
  - rewrite Hw, list_lookup_insert_eq by lia. cbn [default from_option id].
    change (id (irq_bit j)) with (irq_bit j).
    rewrite same_word_bit by done. now destruct (i =? j).
  - rewrite list_lookup_insert_ne by lia. done.
Qed.

(** A register array that keeps what is written to it reads back the last
    interrupt of each register. *)
Definition records (reg : list Z) (sel : nvic_op → option Z) (ops : list nvic_op) : Prop :=
  length reg = 8%nat ∧
  ∀ i, is_irq i →
    bit_set reg i = b2z (bool_decide (last_in_word sel ops (irq_word i) = Some i)).

Lemma last_in_word_snoc sel ops op w :
  last_in_word sel (ops ++ [op]) w =
  match sel op with
  | Some j => if decide (irq_word j = w) then Some j else last_in_word sel ops w
  | None => last_in_word sel ops w
  end.
Proof.
  unfold last_in_word. rewrite omap_app. cbn [omap list_omap].
  destruct (sel op) as [j|]; [|now rewrite app_nil_r].
  rewrite filter_app, filter_cons, filter_nil. case_decide; [apply last_snoc|now rewrite app_nil_r].
Qed.

Lemma records_same reg sel ops op :
  sel op = None → records reg sel ops → records reg sel (ops ++ [op]).
Proof.
  intros Hs [Hlen Hb]. split; [done|]. intros i Hi. rewrite last_in_word_snoc, Hs. auto.
Qed.

Lemma records_write reg sel ops op j :
  sel op = Some j → is_irq j → records reg sel ops →
  records (reg_write reg (irq_word j) (irq_bit j)) sel (ops ++ [op]).
Proof.
  intros Hs Hj [Hlen Hb]. split; [unfold reg_write; now rewrite length_insert|].
  intros i Hi. rewrite bit_set_write by done. rewrite last_in_word_snoc, Hs.
  destruct (Z.eqb_spec (irq_word i) (irq_word j)) as [Hw|Hw].
  - rewrite decide_True by done. f_equal. case_bool_decide; [|]; destruct (Z.eqb_spec i j); congruence.
  - rewrite decide_False by congruence. auto.
Qed.

Lemma nvic_step_records s ops op :
  is_irq (op_irq op) →
  records (ISER s) enables ops ∧ records (ISPR s) sets_pending ops →
  records (ISER (nvic_step s op)) enables (ops ++ [op]) ∧
  records (ISPR (nvic_step s op)) sets_pending (ops ++ [op]).
Proof.
  intros Hi [He Hp]. assert ((0 <=? op_irq op) = true) as H0 by (unfold is_irq in Hi; lia).
  destruct op as [i|i|i|i]; cbn [op_irq] in *; cbn [nvic_step];
    unfold NVIC_EnableIRQ, NVIC_DisableIRQ, NVIC_SetPendingIRQ, NVIC_ClearPendingIRQ;
    rewrite H0; cbn; split;
    (now apply records_same) || (now apply records_write).
Qed.

Lemma records_init sel : records (replicate 8 0) sel [].
Proof.
  split; [done|]. intros i Hi. cbn. apply Z.eqb_eq. revert i Hi.
  apply (range_cases 240). reflexivity.
Qed.

Lemma nvic_run_records ops :
  Forall (is_irq ∘ op_irq) ops →
  records (ISER (nvic_run ops)) enables ops ∧ records (ISPR (nvic_run ops)) sets_pending ops.
Proof.
  induction ops as [|op ops IH] using rev_ind.
  - intros _. split; apply records_init.
  - rewrite Forall_app, Forall_singleton. intros [Hops Hop].
    unfold nvic_run. rewrite foldl_app. apply nvic_step_records; auto.
Qed.

(** C39: The bits that the firmware reads from the simulated controller. In memory,
    [NVIC_EnableIRQ] replaces the whole register and [NVIC_DisableIRQ] writes
    another one: after any sequence of operations an interrupt reads as enabled
    exactly when it is the last one that was enabled among the 32 of its
    register, whatever has been disabled; the same for pending interrupts. On the
    hardware, and by the comments of core_cm4.h, each operation concerns its own
    interrupt alone. *)
Theorem nvic_reads_last_write (ops : list nvic_op) (i : Z) :
  Forall (is_irq ∘ op_irq) ops → is_irq i →
  NVIC_GetEnableIRQ i (nvic_run ops) =
    b2z (bool_decide (last_in_word enables ops (irq_word i) = Some i)) ∧
  NVIC_GetPendingIRQ i (nvic_run ops) =
    b2z (bool_decide (last_in_word sets_pending ops (irq_word i) = Some i)).
Proof.
  intros Hops Hi. destruct (nvic_run_records ops Hops) as [[_ He] [_ Hp]].
  unfold NVIC_GetEnableIRQ, NVIC_GetPendingIRQ.
  replace (0 <=? i) with true by (unfold is_irq in Hi; lia). auto.
Qed.

(** DMA1_Channel5_IRQn, then DMA1_Channel1_IRQn, of the same register. *)
Lemma nvic_reads_last_write_witness :
  NVIC_GetEnableIRQ 15 (nvic_run [EnableIRQ 15; EnableIRQ 11]) = 0 ∧
  NVIC_GetEnableIRQ 11 (nvic_run [EnableIRQ 15; EnableIRQ 11]) = 1.
Proof.
  assert (Forall (is_irq ∘ op_irq) [EnableIRQ 15; EnableIRQ 11]) as Hops
    by (repeat constructor; cbn; lia).
  split.
  - apply (nvic_reads_last_write _ 15 Hops). unfold is_irq; lia.
  - apply (nvic_reads_last_write _ 11 Hops). unfold is_irq; lia.
Defined.

(** Where the simulated controller and the promised set part: enabling an
    interrupt forgets the others of its register, and disabling has no effect. *)
Lemma nvic_breaks_contract i j :
  is_irq i → is_irq j → i ≠ j → irq_word i = irq_word j →
  (i ∈ controller_run [EnableIRQ i; EnableIRQ j] ∧
   NVIC_GetEnableIRQ i (nvic_run [EnableIRQ i; EnableIRQ j]) = 0) ∧
  ((i ∉ controller_run [EnableIRQ i; DisableIRQ i]) ∧
   NVIC_GetEnableIRQ i (nvic_run [EnableIRQ i; DisableIRQ i]) = 1).
Proof.
  intros Hi Hj Hne Hw.
  assert (∀ op1 op2, is_irq (op_irq op1) → is_irq (op_irq op2) →
    bit_set (ISER (nvic_run [op1; op2])) i =
    b2z (bool_decide (last_in_word enables [op1; op2] (irq_word i) = Some i))) as Hread.
  { intros op1 op2 H1 H2. apply nvic_run_records; [|done].
    apply Forall_cons; split; [done|]. now apply Forall_singleton. }
  unfold NVIC_GetEnableIRQ. replace (0 <=? i) with true by (unfold is_irq in Hi; lia).
  rewrite !Hread by done. unfold controller_run, last_in_word. cbn [foldl controller_step omap list_omap enables].
  repeat split.
  - set_solver.
  - rewrite !filter_cons_True by congruence. cbn. rewrite bool_decide_false by congruence. done.
  - apply not_elem_of_difference; right; set_solver.
  - rewrite filter_cons_True by done. cbn. now rewrite bool_decide_true.
Qed.

(** ** Priorities *)

Definition NVIC_PRIO_BITS : Z := 4.

(** The byte that is stored. *)
Definition priority_byte (priority : Z) : Z :=
  u8 (Z.land (u32 (Z.shiftl priority (8 - NVIC_PRIO_BITS))) 0xFF).

(** [None] for an exception of the processor: the access to [SCB->SHP] is
    outside of every object. *)
Definition NVIC_SetPriority (IRQn priority : Z) (s : NVIC_Type) : option NVIC_Type :=
  if 0 <=? IRQn then Some (s <| IP := reg_write (IP s) IRQn (priority_byte priority) |>)
  else None.

Definition NVIC_GetPriority (IRQn : Z) (s : NVIC_Type) : option Z :=
  if 0 <=? IRQn then Some (Z.shiftr (reg_read (IP s) IRQn) (8 - NVIC_PRIO_BITS)) else None.

(** The two locals that [NVIC_EncodePriority] and [NVIC_DecodePriority] compute. *)
Definition priority_bits (PriorityGroup : Z) : Z * Z :=
  let PriorityGroupTmp := Z.land PriorityGroup 0x07 in
  (if NVIC_PRIO_BITS <? 7 - PriorityGroupTmp then NVIC_PRIO_BITS else 7 - PriorityGroupTmp,
   if PriorityGroupTmp + NVIC_PRIO_BITS <? 7 then 0 else PriorityGroupTmp - 7 + NVIC_PRIO_BITS).

Definition NVIC_EncodePriority (PriorityGroup PreemptPriority SubPriority : Z) : Z :=
  let '(PreemptPriorityBits, SubPriorityBits) := priority_bits PriorityGroup in
  Z.lor (u32 (Z.shiftl (Z.land PreemptPriority (Z.shiftl 1 PreemptPriorityBits - 1)) SubPriorityBits))
    (Z.land SubPriority (Z.shiftl 1 SubPriorityBits - 1)).

Definition NVIC_DecodePriority (Priority PriorityGroup : Z) : Z * Z :=
  let '(PreemptPriorityBits, SubPriorityBits) := priority_bits PriorityGroup in
  (Z.land (Z.shiftr Priority SubPriorityBits) (Z.shiftl 1 PreemptPriorityBits - 1),
   Z.land Priority (Z.shiftl 1 SubPriorityBits - 1)).

(** A property of all numbers of two ranges, by evaluation. *)
Lemma range_cases_2 m n (P : Z → Z → bool) :
  forallb (λ i, forallb (P i) (seqZ 0 n)) (seqZ 0 m) = true →
  ∀ i j, 0 <= i < m → 0 <= j < n → P i j = true.
Proof.
  intros H i j Hi. apply (range_cases n (P i)), (range_cases m (λ i, forallb (P i) (seqZ 0 n)) H i Hi).
Qed.

(** The split of the four bits only depends on the three bits of the group. *)
Lemma priority_bits_range g :
  let '(p, s) := priority_bits g in 0 <= p ∧ 0 <= s ∧ p + s = 4.
Proof.
  unfold priority_bits, NVIC_PRIO_BITS.
  assert (0 <= Z.land g 7 < 8).
  { change 7 with (Z.ones 3). rewrite Z.land_ones by lia. apply Z.mod_pos_bound. lia. }
  destruct (Z.ltb_spec 4 (7 - Z.land g 7)), (Z.ltb_spec (Z.land g 7 + 4) 7); lia.
Qed.

(** Encoding and decoding with given widths, on all values. *)
Definition fields_ok (p s pre sub : Z) : bool :=
  (Z.lor (u32 (Z.shiftl (Z.land pre (Z.shiftl 1 p - 1)) s)) (Z.land sub (Z.shiftl 1 s - 1))
     =? pre * 2 ^ s + sub) &&
  (Z.land (Z.shiftr (pre * 2 ^ s + sub) s) (Z.shiftl 1 p - 1) =? pre) &&
  (Z.land (pre * 2 ^ s + sub) (Z.shiftl 1 s - 1) =? sub).

Lemma fields_cases p s pre sub :
  0 <= p → 0 <= s → p + s = 4 → 0 <= pre < 2 ^ p → 0 <= sub < 2 ^ s →
  fields_ok p s pre sub = true ∧ 0 <= pre * 2 ^ s + sub < 16.
Proof.
  intros Hp Hs Hps Hpre Hsub. split.
  - assert (p = 0 ∨ p = 1 ∨ p = 2 ∨ p = 3 ∨ p = 4) as Hcases by lia.
    assert (s = 4 - p) as -> by lia.
    destruct Hcases as [->|[->|[->|[->| ->]]]]; revert pre sub Hpre Hsub;
      apply range_cases_2; reflexivity.
  - change 16 with (2 ^ 4). rewrite <- Hps, Z.pow_add_r by done. nia.
Qed.

Lemma encode_decode g pre sub :
  let '(p, s) := priority_bits g in
  0 <= pre < 2 ^ p → 0 <= sub < 2 ^ s →
  0 <= NVIC_EncodePriority g pre sub < 16 ∧
  NVIC_DecodePriority (NVIC_EncodePriority g pre sub) g = (pre, sub).
Proof.
  unfold NVIC_EncodePriority, NVIC_DecodePriority.
  pose proof (priority_bits_range g) as Hr. destruct (priority_bits g) as [p s].
  destruct Hr as (Hp & Hs & Hps). intros Hpre Hsub.
  destruct (fields_cases p s pre sub Hp Hs Hps Hpre Hsub) as [Hok Hlt].
  unfold fields_ok in Hok. rewrite !andb_true_iff, !Z.eqb_eq in Hok.
  destruct Hok as [[-> ->] ->]. auto.
Qed.

Lemma stored_priority v : 0 <= v < 16 → Z.shiftr (priority_byte v) (8 - NVIC_PRIO_BITS) = v.
Proof. intros Hv. apply Z.eqb_eq. revert v Hv. apply (range_cases 16). reflexivity. Qed.

Lemma get_set_priority i v s :
  length (IP s) = 240%nat → is_irq i → 0 <= v < 16 →
  ∃ s', NVIC_SetPriority i v s = Some s' ∧ NVIC_GetPriority i s' = Some v ∧
        ∀ j, is_irq j → j ≠ i → NVIC_GetPriority j s' = NVIC_GetPriority j s.
Proof.
  unfold is_irq, NVIC_SetPriority, NVIC_GetPriority. intros Hlen Hi Hv.
  replace (0 <=? i) with true by lia. eexists; split; [done|].
  unfold reg_read, reg_write; cbn. split.
  - rewrite list_lookup_insert_eq by lia. cbn. f_equal. now apply stored_priority.
  - intros j Hj Hne. rewrite list_lookup_insert_ne by lia. done.
Qed.

(** A priority that the firmware sets is the priority it gets: for every
    grouping and every pair of a preemption and a sub-priority in its range, what
    [NVIC_EncodePriority] packs and [NVIC_SetPriority] stores in the upper bits of
    a byte is, through [NVIC_GetPriority] and [NVIC_DecodePriority], the same pair;
    the priorities of the other interrupts stay. *)
Theorem priority_roundtrip (g pre sub i : Z) (s : NVIC_Type) :
  length (IP s) = 240%nat → is_irq i →
  0 <= pre < 2 ^ fst (priority_bits g) → 0 <= sub < 2 ^ snd (priority_bits g) →
  ∃ s' v, NVIC_SetPriority i (NVIC_EncodePriority g pre sub) s = Some s' ∧
          NVIC_GetPriority i s' = Some v ∧ NVIC_DecodePriority v g = (pre, sub) ∧
          ∀ j, is_irq j → j ≠ i → NVIC_GetPriority j s' = NVIC_GetPriority j s.
Proof.
  intros Hlen Hi Hpre Hsub. pose proof (encode_decode g pre sub) as Hed.
  destruct (priority_bits g) as [p q]. destruct (Hed Hpre Hsub) as [Hlt Hdec].
  destruct (get_set_priority i _ s Hlen Hi Hlt) as (s' & Hset & Hget & Hother).
  exists s', (NVIC_EncodePriority g pre sub). auto.
Qed.

(** NVIC_PRIORITYGROUP_2, two bits each. *)
Lemma priority_roundtrip_witness :
  ∃ s' v, NVIC_SetPriority 50 (NVIC_EncodePriority 5 2 1) sim_nvic = Some s' ∧
          NVIC_GetPriority 50 s' = Some v ∧ NVIC_DecodePriority v 5 = (2, 1) ∧
          ∀ j, is_irq j → j ≠ 50 → NVIC_GetPriority j s' = NVIC_GetPriority j sim_nvic.
Proof.
  apply (priority_roundtrip 5 2 1 50 sim_nvic); [reflexivity|unfold is_irq; lia|split; [lia|reflexivity]..].
Defined.

(** ** The core registers

    [&sim_stm32_core_hardware] is a pointer to the whole array, so that adding a
    register offset to it moves by as many arrays. *)

Definition sizeof_core_hardware : Z := 4 * 0x0F0000.

(** A base address as its distance in bytes from the array. *)
Definition core_base (offset : Z) : Z := offset * sizeof_core_hardware.

Definition SCS_BASE : Z := core_base 0x00E000.
Definition DWT_BASE : Z := core_base 0x001000.
Definition TPI_BASE : Z := core_base 0x040000.
Definition CoreDebug_BASE : Z := core_base 0x00EDF0.
Definition SysTick_BASE : Z := SCS_BASE + core_base 0x0010.
Definition NVIC_BASE : Z := SCS_BASE + core_base 0x0100.
Definition SCB_BASE : Z := SCS_BASE + core_base 0x0D00.
Definition FPU_BASE : Z := SCS_BASE + core_base 0x0F30.

Lemma core_registers_outside :
  Forall (λ base, sizeof_core_hardware <= base)
    [SCS_BASE; DWT_BASE; TPI_BASE; CoreDebug_BASE; SysTick_BASE; NVIC_BASE; SCB_BASE; FPU_BASE].
Proof. by_computation. Qed.
