(* ===== verification/NativeNode.v ===== *)
(** * native_node.c and radio_node.c: blocking calls between two threads.

    The C program of a node runs in one thread ([Main]); the simulator runs the
    asynchronous tasks in another ([Loop]) and reports their end with a
    callback.  Each blocking call waits for its callback with a flag, a mutex
    and a condition variable.  The functions are the sequences of their atomic
    actions on the shared variables, and a scheduler interleaves the two
    threads, the tasks and the spurious wake-ups that POSIX allows. *)

From S2P Require Import Prelude.

(** The three calls, each with its own flag, mutex and condition variable:
    [sim_sleep_*], [sim_tx_done_*] and [sim_rx_done_*]. *)
Inductive Flow := Sleep | Transmit | Receive.
Inductive Thread := Main | Loop.

#[export] Instance Flow_eq_dec : EqDecision Flow.
Proof. solve_decision. Defined.
#[export] Instance Thread_eq_dec : EqDecision Thread.
Proof. solve_decision. Defined.

(** The shared variables of one call: [sim_sleep_ready], [sim_tx_done_ready] or
    [sim_rx_done_ready], [sim_tx_err] or [sim_rx_err], [sim_rx_bytes_received],
    the mutex with its owner, and whether [Main] sleeps on the condition. *)
Record Chan := mkChan {
  ready : Z; err : Z; bytes : Z; mutex : option Thread; waiting : bool }.
#[export] Instance eta_Chan : Eta Chan := λ c, mkChan (ready c) (err c) (bytes c) (mutex c) (waiting c).

Definition SIM_ERR_ALREADY_TRANSMITTING : Z := -2.

(** ** Atomic actions *)

Inductive Instr :=
| Start (f : Flow)             (** call the simulator; a non-zero answer is returned *)
| ReturnIfTransmitting         (** [if (sim_already_transmitting()) return ...] *)
| Lock (f : Flow)              (** [pthread_mutex_lock] *)
| WaitReady (f : Flow)         (** [while (!ready) { pthread_cond_wait(...); }], with the mutex *)
| Blocked (f : Flow)           (** inside [pthread_cond_wait], the mutex released *)
| Unlock (f : Flow)            (** [pthread_mutex_unlock] *)
| SetReady (f : Flow) (v : Z)
| SetErr (f : Flow) (v : Z)
| SetBytes (f : Flow) (v : Z)
| Signal (f : Flow)            (** [pthread_cond_signal] *)
| LoadErr (f : Flow)           (** read the error variable into [acc] *)
| ReturnIfError                (** [if (err != 0) return err;] *)
| LoadBytes (f : Flow)
| Return.

(** Lock, wait, unlock and reset, as [sim_sleep], [sim_wait_transmit_finished]
    and [sim_wait_receive_finished] do; the flag is reset after the unlock. *)
Definition wait_code (f : Flow) : list Instr :=
  [Lock f; WaitReady f; Unlock f; SetReady f 0].

Definition sim_sleep : list Instr := Start Sleep :: wait_code Sleep ++ [Return].

Definition sim_wait_transmit_finished : list Instr :=
  ReturnIfTransmitting :: wait_code Transmit ++ [LoadErr Transmit; Return].

Definition sim_wait_receive_finished : list Instr := wait_code Receive ++ [LoadErr Receive].

Definition sim_transmit_blocking : list Instr := Start Transmit :: sim_wait_transmit_finished.

Definition sim_receive_blocking : list Instr :=
  Start Receive :: sim_wait_receive_finished ++ [ReturnIfError; LoadBytes Receive; Return].

(** The callbacks, run by [Loop]. *)
Definition sim_sleep_end : list Instr :=
  [Lock Sleep; SetReady Sleep 1; Signal Sleep; Unlock Sleep].
Definition sim_tx_done_callback (err : Z) : list Instr :=
  [Lock Transmit; SetReady Transmit 1; SetErr Transmit err; Signal Transmit; Unlock Transmit].
Definition sim_rx_done_callback (bytes_received err : Z) : list Instr :=
  [Lock Receive; SetBytes Receive bytes_received; SetReady Receive 1; SetErr Receive err;
   Signal Receive; Unlock Receive].

(** The time-out is an argument of the task only. *)
Definition sim_receive_blocking_no_timeout : list Instr := sim_receive_blocking.

Definition call (f : Flow) : list Instr :=
  match f with
  | Sleep => sim_sleep
  | Transmit => sim_transmit_blocking
  | Receive => sim_receive_blocking
  end.

Definition callback (f : Flow) (b e : Z) : list Instr :=
  match f with
  | Sleep => sim_sleep_end
  | Transmit => sim_tx_done_callback e
  | Receive => sim_rx_done_callback b e
  end.

(** ** The node *)

(** How a call ended for the simulator: refused with an error code, or its task
    reported [bytes] and [err]. *)
Inductive Ending := Refused (e : Z) | Reported (b e : Z).

Record Node := mkNode {
  chan : Flow → Chan;
  main : list Instr;           (** what is left of the call that [Main] executes *)
  current : Flow;              (** that call *)
  acc : Z;                     (** its local variable [err] *)
  calls : list Flow;           (** the calls the program will make *)
  results : list (Flow * Z);   (** the values returned so far *)
  loop : list Instr;           (** what is left of the callback that [Loop] executes *)
  tasks : list Flow;           (** the tasks started and not finished *)
  on_air : bool;               (** is the radio in the state TX? *)
  endings : list (Flow * Ending) (** the ends of the calls, for the simulator *) }.
#[export] Instance eta_Node : Eta Node := λ n, mkNode
  (chan n) (main n) (current n) (acc n) (calls n) (results n) (loop n) (tasks n) (on_air n)
  (endings n).

Definition boot_chan : Chan := mkChan 0 0 0 None false.
Definition node_boot (program : list Flow) : Node :=
  mkNode (λ _, boot_chan) [] Sleep 0 program [] [] [] false [].

Definition sim_is_transmit_finished (n : Node) : Z := ready (chan n Transmit).

Definition set_chan (f : Flow) (c : Chan) (n : Node) : Node :=
  n <| chan := λ g, if decide (g = f) then c else chan n g |>.

Definition set_code (t : Thread) (k : list Instr) (n : Node) : Node :=
  match t with Main => n <| main := k |> | Loop => n <| loop := k |> end.

(** [return v;] in thread [t] (only the calls, run by [Main], return values). *)
Definition finish (t : Thread) (v : Z) (n : Node) : Node :=
  set_code t [] n <| results := results n ++ [(current n, v)] |>.

(** One atomic action of thread [t], with [k] left after it; [None] when it is
    blocked.  [answer] is what the simulator answers a [Start]: it refuses to
    transmit during a transmission, with the error -2. *)
Definition exec (t : Thread) (answer : Z) (i : Instr) (k : list Instr) (n : Node) : option Node :=
  let cont n := Some (set_code t k n) in
  match i with
  | Start f =>
      let answer := match f with
                    | Sleep => 0
                    | Transmit => if on_air n then SIM_ERR_ALREADY_TRANSMITTING else answer
                    | Receive => answer
                    end in
      if answer =? 0 then cont (n <| tasks := tasks n ++ [f] |>)
      else Some (finish t answer (n <| endings := endings n ++ [(f, Refused answer)] |>))
  | ReturnIfTransmitting =>
      if on_air n then Some (finish t SIM_ERR_ALREADY_TRANSMITTING n) else cont n
  | Lock f =>
      match mutex (chan n f) with
      | None => cont (set_chan f (chan n f <| mutex := Some t |>) n)
      | Some _ => None
      end
  | WaitReady f =>
      if ready (chan n f) =? 0 then
        Some (set_code t (Blocked f :: WaitReady f :: k)
                (set_chan f (chan n f <| mutex := None |> <| waiting := true |>) n))
      else cont n
  | Blocked f => if waiting (chan n f) then None else Some (set_code t (Lock f :: k) n)
  | Unlock f => cont (set_chan f (chan n f <| mutex := None |>) n)
  | SetReady f v => cont (set_chan f (chan n f <| ready := v |>) n)
  | SetErr f v => cont (set_chan f (chan n f <| err := v |>) n)
  | SetBytes f v => cont (set_chan f (chan n f <| bytes := v |>) n)
  | Signal f => cont (set_chan f (chan n f <| waiting := false |>) n)
  | LoadErr f => cont (n <| acc := err (chan n f) |>)
  | LoadBytes f => cont (n <| acc := bytes (chan n f) |>)
  | ReturnIfError => if acc n =? 0 then cont n else Some (finish t (acc n) n)
  | Return => Some (finish t (acc n) n)
  end.

(** ** The scheduler *)

Inductive Choice :=
| MainStep (answer : Z)     (** [Main] executes an action, or begins its next call *)
| LoopStep                  (** [Loop] executes an action of its callback *)
| TaskOnAir                 (** the transmission task sets the radio to TX *)
| TaskEnds (i : nat) (b e : Z) (** task [i] ends and [Loop] enters the callback *)
| Spurious (f : Flow).      (** a spurious wake-up *)

Definition sched (c : Choice) (n : Node) : option Node :=
  match c with
  | MainStep answer =>
      match main n with
      | i :: k => exec Main answer i k n
      | [] =>
          match calls n with
          | f :: fs => Some (n <| calls := fs |> <| current := f |> <| acc := 0 |> <| main := call f |>)
          | [] => None
          end
      end
  | LoopStep => match loop n with i :: k => exec Loop 0 i k n | [] => None end
  | TaskOnAir =>
      if bool_decide (Transmit ∈ tasks n) && negb (on_air n) then Some (n <| on_air := true |>)
      else None
  | TaskEnds i b e =>
      match loop n, tasks n !! i with
      | [], Some f =>
          Some (n <| tasks := delete i (tasks n) |> <| loop := callback f b e |>
                  <| on_air := if decide (f = Transmit) then false else on_air n |>
                  <| endings := endings n ++ [(f, Reported b e)] |>)
      | _, _ => None
      end
  | Spurious f =>
      if waiting (chan n f) then Some (set_chan f (chan n f <| waiting := false |>) n) else None
  end.

Fixpoint run (cs : list Choice) (n : Node) : option Node :=
  match cs with
  | [] => Some n
  | c :: cs => n' ← sched c n; run cs n'
  end.

(** ** What the calls return *)

(** The value a call returns for its ending. *)
Definition value (f : Flow) (x : Ending) : Z :=
  match x with
  | Refused e => e
  | Reported b e =>
      match f with
      | Sleep => 0
      | Transmit => e
      | Receive => if e =? 0 then b else e
      end
  end.
Definition values (l : list (Flow * Ending)) : list (Flow * Z) :=
  (λ x, (x.1, value x.1 x.2)) <$> l.

(** [sim_wait_transmit_finished] is not about to find the radio in TX: the
    transmission task has not put it there yet. *)
Definition guard_free (c : Choice) (n : Node) : bool :=
  match c, main n with
  | MainStep _, ReturnIfTransmitting :: _ => negb (on_air n)
  | _, _ => true
  end.

Fixpoint guard_free_run (cs : list Choice) (n : Node) : bool :=
  match cs with
  | [] => true
  | c :: cs =>
      guard_free c n && match sched c n with Some n' => guard_free_run cs n' | None => true end
  end.

(** ** Control points of a call *)

(** Where [Main] is in the waiting part of a call, and where the task or its
    callback is. *)
Inductive MainPos := PGuard | PLock | PTest | PBlocked (w : bool) | PUnlock | PReset.
Inductive LoopPos := QPending | QEnter | QBytes | QReady | QErr | QSignal | QUnlock | QDone.

Definition after_wait (f : Flow) : list Instr :=
  match f with
  | Sleep => [Return]
  | Transmit => [LoadErr Transmit; Return]
  | Receive => [LoadErr Receive; ReturnIfError; LoadBytes Receive; Return]
  end.

Definition main_code (f : Flow) (p : MainPos) : list Instr :=
  let reset := SetReady f 0 :: after_wait f in
  let unlock := Unlock f :: reset in
  match p with
  | PGuard => ReturnIfTransmitting :: Lock f :: WaitReady f :: unlock
  | PLock => Lock f :: WaitReady f :: unlock
  | PTest => WaitReady f :: unlock
  | PBlocked _ => Blocked f :: WaitReady f :: unlock
  | PUnlock => unlock
  | PReset => reset
  end.

Definition loop_code (f : Flow) (b e : Z) (q : LoopPos) : list Instr :=
  let unlock := [Unlock f] in
  let signal := Signal f :: unlock in
  let err := match f with Sleep => signal | _ => SetErr f e :: signal end in
  let ready := SetReady f 1 :: err in
  match q with
  | QPending | QDone => []
  | QEnter => callback f b e
  | QBytes => SetBytes f b :: ready
  | QReady => ready
  | QErr => err
  | QSignal => signal
  | QUnlock => unlock
  end.

(** Which of the two owns the mutex, and the flag. *)
Definition mutex_at (p : MainPos) (q : LoopPos) : option Thread :=
  match p, q with
  | (PTest | PUnlock), _ => Some Main
  | _, (QBytes | QReady | QErr | QSignal | QUnlock) => Some Loop
  | _, _ => None
  end.
Definition ready_at (q : LoopPos) : Z :=
  match q with QErr | QSignal | QUnlock | QDone => 1 | _ => 0 end.

(** The pairs of positions that occur together. *)
Definition together (f : Flow) (p : MainPos) (q : LoopPos) : bool :=
  match q with QBytes => bool_decide (f = Receive) | QErr => bool_decide (f ≠ Sleep) | _ => true end
  && match p, q with
     | PGuard, _ => bool_decide (f = Transmit)
     | PBlocked true, (QUnlock | QDone) => false
     | PTest, (QPending | QEnter | QDone) => true
     | PTest, _ => false
     | (PUnlock | PReset), QDone => true
     | (PUnlock | PReset), _ => false
     | _, _ => true
     end.

Definition quiet (c : Chan) : Prop := ready c = 0 ∧ mutex c = None ∧ waiting c = false.

(** The invariant of the runs in which the guard does not fire. *)
Record waits (f : Flow) (b e : Z) (p : MainPos) (q : LoopPos) (n : Node) : Prop := {
  w_current : current n = f;
  w_main : main n = main_code f p;
  w_loop : loop n = loop_code f b e q;
  w_tasks : tasks n = match q with QPending => [f] | _ => [] end;
  w_air : on_air n = true → f = Transmit ∧ q = QPending;
  w_together : together f p q = true;
  w_mutex : mutex (chan n f) = mutex_at p q;
  w_ready : ready (chan n f) = ready_at q;
  w_waiting : waiting (chan n f) = match p with PBlocked w => w | _ => false end;
  w_bytes : f = Receive → match q with QPending | QEnter | QBytes => True | _ => bytes (chan n f) = b end;
  w_err : f ≠ Sleep →
    match q with QSignal | QUnlock | QDone => err (chan n f) = e | _ => True end;
  w_others : ∀ g, g ≠ f → quiet (chan n g);
  w_acc : acc n = 0;
  w_values : values (endings n) =
    results n ++ match q with QPending => [] | _ => values [(f, Reported b e)] end }.

Record at_rest (n : Node) : Prop := {
  r_loop : loop n = [];
  r_tasks : tasks n = [];
  r_air : on_air n = false;
  r_quiet : ∀ g, quiet (chan n g) }.

Inductive synced (n : Node) : Prop :=
| synced_idle :
    at_rest n → main n = [] → values (endings n) = results n → synced n
| synced_start :
    at_rest n → main n = call (current n) → acc n = 0 → values (endings n) = results n → synced n
| synced_wait f b e p q : waits f b e p q n → synced n
| synced_after f b e k :
    at_rest n → current n = f → main n = drop k (after_wait f) →
    main n ≠ [] →
    values (endings n) = results n ++ values [(f, Reported b e)] →
    (f = Receive → bytes (chan n f) = b) → (f ≠ Sleep → err (chan n f) = e) →
    acc n = match f, k with
            | Sleep, _ | _, O => 0
            | Receive, 3%nat => b
            | _, _ => e
            end →
    (f = Receive → (2 <= k)%nat → e = 0) → synced n.

(** ** Lemmas on the components of a node *)

Lemma values_app l x : values (l ++ x) = values l ++ values x.
Proof. apply fmap_app. Qed.

(** Evaluates the projections and updates of a node, and the scheduler. *)
Ltac node_simpl :=
  cbn [modify chan main current acc calls results loop tasks on_air endings
       ready err bytes mutex waiting set_chan set_code finish] in *.

(** Reads a channel of an updated node. *)
Ltac read_chan :=
  repeat first [ rewrite decide_True by congruence | rewrite decide_False by congruence ].

Lemma quiet_boot : quiet boot_chan.
Proof. repeat split. Qed.

Lemma synced_boot program : synced (node_boot program).
Proof. apply synced_idle; [split|..]; try done; intros; apply quiet_boot. Qed.

(** Each kind of step keeps the invariant. *)
Lemma waits_spurious f b e p q n g n' :
  waits f b e p q n → sched (Spurious g) n = Some n' → synced n'.
Proof.
  intros [] H. unfold sched in H. destruct (waiting (chan n g)) eqn:Hw; [|done]. injection H as <-.
  destruct (decide (g = f)) as [->|Hg].
  2: { destruct (w_others0 g Hg) as (_ & _ & H). congruence. }
  rewrite w_waiting0 in Hw. destruct p as [| | |[]| |]; try done.
  apply (synced_wait _ f b e (PBlocked false) q). split; node_simpl; read_chan; try done.
  - now destruct q.
  - intros h Hh. read_chan. now apply w_others0.
Qed.

Lemma waits_air f b e p q n n' :
  waits f b e p q n → sched TaskOnAir n = Some n' → synced n'.
Proof.
  intros [] H. unfold sched in H. case_match eqn:E; [|done]. injection H as <-.
  apply andb_true_iff in E as [E _]. apply bool_decide_eq_true in E. rewrite w_tasks0 in E.
  apply (synced_wait _ f b e p q). destruct q; try by inversion E.
  apply list_elem_of_singleton in E as <-. split; node_simpl; try done.
Qed.

Lemma waits_ends f b e p q n i b' e' n' :
  waits f b e p q n → sched (TaskEnds i b' e') n = Some n' → synced n'.
Proof.
  intros [] H. unfold sched in H. rewrite w_loop0, w_tasks0 in H.
  destruct q; try by destruct f. cbn [loop_code] in H.
  destruct i as [|i]; [|done]. cbn in H. injection H as <-.
  apply (synced_wait _ f b' e' p QEnter). split; node_simpl; try done.
  - intros Ha. case_decide as Hf; [done|]. now destruct (w_air0 Ha).
  - rewrite values_app, w_values0. now rewrite app_nil_r.
Qed.

(** The next positions. *)
Definition next_loop (f : Flow) (q : LoopPos) : LoopPos :=
  match q, f with
  | QEnter, Receive => QBytes
  | QEnter, _ => QReady
  | QBytes, _ => QReady
  | QReady, Sleep => QSignal
  | QReady, _ => QErr
  | QErr, _ => QSignal
  | QSignal, _ => QUnlock
  | QUnlock, _ => QDone
  | q, _ => q
  end.
Definition next_main (f : Flow) (p : MainPos) (q : LoopPos) : MainPos :=
  match p with
  | PGuard => PLock
  | PLock => PTest
  | PTest => if ready_at q =? 0 then PBlocked true else PUnlock
  | PBlocked _ => PLock
  | _ => PReset
  end.

Ltac waits_case :=
  split; node_simpl; read_chan; try done;
  try (intros h Hh; rewrite ?decide_False by congruence; auto; fail).

Lemma waits_loop f b e p q n n' :
  waits f b e p q n → sched LoopStep n = Some n' →
  waits f b e (match q, p with QSignal, PBlocked _ => PBlocked false | _, _ => p end)
    (next_loop f q) n'.
Proof.
  intros [] H. unfold sched in H. rewrite w_loop0 in H.
  assert (Hair : q ≠ QPending → on_air n = false).
  { destruct (on_air n); [|done]. now destruct (w_air0 eq_refl). }
  destruct f, q; try discriminate H; cbn in H, w_together0;
    rewrite ?w_mutex0 in H; destruct p as [| | |[]| |]; try discriminate w_together0;
    cbn in H; try discriminate H; injection H as <-;
    waits_case; try (cbn; rewrite ?w_bytes0, ?w_err0 by done; done);
    try (now rewrite Hair by done).
Qed.

Lemma waits_main f b e p q n a n' :
  waits f b e p q n → guard_free (MainStep a) n = true → p ≠ PReset →
  sched (MainStep a) n = Some n' → waits f b e (next_main f p q) q n'.
Proof.
  intros [] Hg Hp H. unfold sched in H. unfold guard_free in Hg. rewrite w_main0 in H, Hg.
  destruct f, p as [| | |[]| |]; try congruence; try discriminate w_together0; destruct q;
    try discriminate w_together0; cbn in H, Hg;
    rewrite ?w_mutex0, ?w_ready0, ?w_waiting0 in H; cbn in H; try discriminate H;
    try (destruct (on_air n) eqn:Ha; try discriminate Hg); injection H as <-;
    waits_case.
Qed.

(** The reset of the flag outside the mutex: the callback is over. *)
Lemma waits_reset f b e q n a n' :
  waits f b e PReset q n → sched (MainStep a) n = Some n' → synced n'.
Proof.
  intros [] H. unfold sched in H. rewrite w_main0 in H.
  destruct q; try (destruct f; discriminate).
  cbn in H. injection H as <-.
  assert (Hair : on_air n = false).
  { destruct (on_air n); [|done]. now destruct (w_air0 eq_refl). }
  apply (synced_after _ f b e 0); node_simpl; try done.
  - split; node_simpl; try done. intros g. destruct (decide (g = f)) as [->|Hne].
    + split; node_simpl; [done|]. now rewrite w_mutex0, w_waiting0.
    + auto.
  - now destruct f.
  - intros Hf. rewrite decide_True by done. auto.
  - intros Hf. rewrite decide_True by done. auto.
  - now destruct f.
  - lia.
Qed.

Lemma waits_step f b e p q n c n' :
  waits f b e p q n → guard_free c n = true → sched c n = Some n' → synced n'.
Proof.
  intros Hw Hg H. destruct c.
  - destruct p; try (eapply synced_wait, waits_main; eauto; done). eapply waits_reset; eauto.
  - eapply synced_wait, waits_loop; eauto.
  - eapply waits_air; eauto.
  - eapply waits_ends; eauto.
  - eapply waits_spurious; eauto.
Qed.

(** Away from the wait only [Main] moves. *)
Lemma at_rest_main n c n' :
  at_rest n → sched c n = Some n' → ∃ a, c = MainStep a.
Proof.
  intros [Hl Ht Ha Hq] H. destruct c; cbn in H; eauto; rewrite ?Hl, ?Ht in H; try discriminate H.
  destruct (Hq f) as (_ & _ & Hw). rewrite Hw in H. discriminate H.
Qed.

Lemma synced_start_step n a n' :
  at_rest n → main n = call (current n) → acc n = 0 → values (endings n) = results n →
  sched (MainStep a) n = Some n' → synced n'.
Proof.
  intros [Hl Ht Ha Hq] Hm Hacc Hv H. unfold sched in H. rewrite Hm in H.
  destruct (Hq (current n)) as (Hr & Hmu & Hw).
  assert (Hrest : ∀ g, g ≠ current n → quiet (chan n g)) by auto.
  destruct (current n) eqn:Hc; cbn in H; rewrite ?Ha in H; try case_match;
    injection H as <-.
  1, 2, 4: apply (synced_wait _ (current n) 0 0
                   (match current n with Transmit => PGuard | _ => PLock end) QPending);
           rewrite Hc; split; node_simpl; try done; rewrite ?Ht, ?Ha; try done; now rewrite app_nil_r.
  all: apply synced_idle; [split; node_simpl; auto | done |];
       node_simpl; rewrite values_app, Hv, Hc; done.
Qed.

Lemma synced_after_step n f b e k a n' :
  at_rest n → current n = f → main n = drop k (after_wait f) → main n ≠ [] →
  values (endings n) = results n ++ values [(f, Reported b e)] →
  (f = Receive → bytes (chan n f) = b) → (f ≠ Sleep → err (chan n f) = e) →
  acc n = match f, k with
          | Sleep, _ | _, O => 0 | Receive, 3%nat => b | _, _ => e
          end →
  (f = Receive → (2 <= k)%nat → e = 0) →
  sched (MainStep a) n = Some n' → synced n'.
Proof.
  intros [Hl Ht Ha Hq] Hc Hm Hne Hv Hb He Hacc He0 H. unfold sched in H. rewrite Hm in H, Hne.
  destruct f, k as [|[|[|[|k]]]]; cbn in H, Hne; try (now rewrite drop_nil in Hne); try congruence;
    try (rewrite Hacc in H; cbn in H); try case_match eqn:Ez; injection H as <-;
    first [ apply synced_idle; [by split | done |]; node_simpl; rewrite Hv, Hc; cbn;
            rewrite ?Ez; done
          | idtac ].
  - apply (synced_after _ Transmit b e 1); node_simpl; auto; try done; lia.
  - apply (synced_after _ Receive b e 1); node_simpl; auto; try done; lia.
  - apply (synced_after _ Receive b e 2); node_simpl; auto; try done; lia.
  - apply (synced_after _ Receive b e 3); node_simpl; auto; try done; lia.
  - apply synced_idle; [by split | done |]. node_simpl. rewrite Hv, Hc. cbn.
    rewrite He0 by (done || lia). done.
Qed.

(** The invariant holds throughout the runs in which the guard does not fire. *)
Lemma synced_step n c n' :
  synced n → guard_free c n = true → sched c n = Some n' → synced n'.
Proof.
  intros [Hr Hm Hv | Hr Hm Hacc Hv | f b e p q Hw | f b e k Hr Hc Hm Hne Hv Hb He Hacc He0] Hg H.
  - destruct (at_rest_main _ _ _ Hr H) as [a ->]. unfold sched in H. rewrite Hm in H.
    destruct (calls n) as [|f fs]; [done|]. injection H as <-.
    apply synced_start; node_simpl; try done. destruct Hr. by split.
  - destruct (at_rest_main _ _ _ Hr H) as [a ->]. eapply synced_start_step; eauto.
  - eapply waits_step; eauto.
  - destruct (at_rest_main _ _ _ Hr H) as [a ->]. eapply synced_after_step; eauto.
Qed.

Lemma synced_run cs : ∀ n n',
  synced n → guard_free_run cs n = true → run cs n = Some n' → synced n'.
Proof.
  induction cs as [|c cs IH]; intros n n' Hs Hg H; cbn in Hg, H.
  - now injection H as <-.
  - apply andb_true_iff in Hg as [Hg Hgs].
    destruct (sched c n) as [n1|] eqn:E; [|discriminate H].
    apply (IH n1); [by eapply synced_step|done|exact H].
Qed.

(** ** A measure of the work left

    A [Signal] pays for the second turn of the waiting loop, a task for its
    callback; only a spurious wake-up is not paid for. *)

Definition awake (c : Chan) : nat := if waiting c then 0 else 3.





Lemma awake_le c : (awake c <= 3)%nat.
Proof. unfold awake. destruct (waiting c); lia. Qed.



















(** ** Properties *)

(** C3: every call returns what its own task reported, and only after it: the
    values returned so far are those of the endings of the calls, in order, at
    most one ending is not returned yet, and between two calls nothing is left
    over: no task, no callback, no flag and no mutex, so that the next call
    cannot see the end of this one.  It holds in every interleaving and with
    spurious wake-ups, as long as the guard of [sim_wait_transmit_finished]
    does not fire. *)
Theorem calls_return_own_ending (program : list Flow) (cs : list Choice) (n : Node) :
  guard_free_run cs (node_boot program) = true → run cs (node_boot program) = Some n →
  (∃ due, values (endings n) = results n ++ due ∧ (length due <= 1)%nat) ∧
  (main n = [] → values (endings n) = results n ∧ tasks n = [] ∧ loop n = [] ∧
     ∀ f, quiet (chan n f)).
Proof.
  intros Hg Hrun. pose proof (synced_run cs _ _ (synced_boot program) Hg Hrun) as
    [[] Hm Hv | [] Hm Hacc Hv | f b e p q [] | f b e k [] Hc Hm Hne Hv].
  - split; [exists []; rewrite app_nil_r; auto | done].
  - split; [exists []; rewrite app_nil_r; auto | rewrite Hm; by destruct (current n)].
  - split; [rewrite w_values0; eexists; split; [done | destruct q; cbn; lia]
           | rewrite w_main0; by destruct p].
  - split; [rewrite Hv; eexists; split; [done | cbn; lia] | done].
Qed.

(** A sleep, a transmission and a reception; in the sleep, [Main] waits and is
    woken once without reason. *)
Definition schedule : list Choice :=
  replicate 4 (MainStep 0) ++ [Spurious Sleep; MainStep 0; MainStep 0; MainStep 0;
  TaskEnds 0 0 0] ++ replicate 4 LoopStep ++ replicate 6 (MainStep 0) ++
  replicate 5 (MainStep 0) ++ [TaskOnAir; TaskEnds 0 0 (-3)] ++ replicate 5 LoopStep ++
  replicate 7 (MainStep 0) ++
  replicate 2 (MainStep 0) ++ [TaskEnds 0 17 0] ++ replicate 6 LoopStep ++
  replicate 8 (MainStep 0).

(** A run, by evaluation of what is observed at its end. *)
Lemma run_observe {A} (obs : Node → A) cs n0 x :
  obs <$> run cs n0 = Some x → ∃ n, run cs n0 = Some n ∧ obs n = x.
Proof. destruct (run cs n0) as [n|]; [|done]. intros [= <-]. eauto. Qed.

Definition example_program : list Flow := [Sleep; Transmit; Receive].

Lemma calls_return_own_ending_witness :
  guard_free_run schedule (node_boot example_program) = true ∧
  ∃ n, run schedule (node_boot example_program) = Some n ∧
    results n = [(Sleep, 0); (Transmit, -3); (Receive, 17)] ∧
    values (endings n) = results n.
Proof.
  assert (guard_free_run schedule (node_boot example_program) = true) as Hg by (vm_compute; reflexivity).
  split; [exact Hg|].
  destruct (run_observe (λ n, (main n, results n)) schedule (node_boot example_program) _
              ltac:(vm_compute; reflexivity)) as (n & Hrun & [= Hm Hr]).
  exists n. split; [exact Hrun|]. split; [exact Hr|].
  exact (proj1 (proj2 (calls_return_own_ending example_program schedule n Hg Hrun) Hm)).
Defined.



(** The reset of a flag is done outside the mutex, but never while a
    callback could set the flag or a task is left that will run one. *)
Theorem reset_not_racing (program : list Flow) (cs : list Choice) (n : Node) f k :
  guard_free_run cs (node_boot program) = true → run cs (node_boot program) = Some n →
  main n = SetReady f 0 :: k →
  loop n = [] ∧ tasks n = [] ∧ ready (chan n f) = 1 ∧ mutex (chan n f) = None.
Proof.
  intros Hg Hrun Hmain. pose proof (synced_run cs _ _ (synced_boot program) Hg Hrun) as
    [[] Hm Hv | [] Hm Hacc Hv | g b e p q [] | g b e j [] Hc Hm Hne Hv].
  - congruence.
  - rewrite Hm in Hmain. by destruct (current n).
  - rewrite w_main0 in Hmain. destruct p; try discriminate Hmain. injection Hmain as -> _.
    by destruct q, f.
  - rewrite Hm in Hmain. destruct g, j as [|[|[|[|j]]]]; cbn in Hmain;
      rewrite ?drop_nil in Hmain; discriminate Hmain.
Qed.

Lemma reset_not_racing_witness :
  ∃ n, run (take 17 schedule) (node_boot example_program) = Some n ∧
    main n = [SetReady Sleep 0; Return] ∧ loop n = [].
Proof.
  destruct (run_observe main (take 17 schedule) (node_boot example_program) _
              ltac:(vm_compute; reflexivity)) as (n & Hrun & Hm).
  exists n. split; [exact Hrun|]. split; [exact Hm|].
  refine (proj1 (reset_not_racing example_program (take 17 schedule) n Sleep [Return] _ Hrun Hm)).
  vm_compute; reflexivity.
Defined.

(** ** The guard of [sim_wait_transmit_finished] *)

(** Results are only added. *)
Lemma exec_results t a i k n n' : exec t a i k n = Some n' → results n `prefix_of` results n'.
Proof.
  destruct i, t; cbn; unfold finish, set_code, set_chan; intros H; repeat case_match; simplify_eq;
    cbn; try done; by eexists.
Qed.

Lemma sched_results c n n' : sched c n = Some n' → results n `prefix_of` results n'.
Proof.
  destruct c; cbn; intros H; repeat case_match; simplify_eq; try (by eapply exec_results); cbn; done.
Qed.

Lemma run_results cs : ∀ n n', run cs n = Some n' → results n `prefix_of` results n'.
Proof.
  induction cs as [|c cs IH]; cbn; intros n n' H; [by simplify_eq|].
  destruct (sched c n) as [n1|] eqn:Hc; [|done]. apply sched_results in Hc. etrans; eauto.
Qed.

(** The radio leaves TX only when the task of the transmission ends. *)
Lemma exec_on_air t a i k n n' : exec t a i k n = Some n' → on_air n' = on_air n.
Proof.
  destruct i, t; cbn; unfold finish, set_code, set_chan; intros H; repeat case_match; by simplify_eq.
Qed.

Definition task_ends (c : Choice) : bool := match c with TaskEnds _ _ _ => true | _ => false end.
Definition main_steps (c : Choice) : bool := match c with MainStep _ => true | _ => false end.

Lemma sched_on_air c n n' :
  task_ends c = false → on_air n = true → sched c n = Some n' → on_air n' = true.
Proof.
  destruct c; cbn; intros Hc Hair H; try done; repeat case_match; simplify_eq; try done;
    apply exec_on_air in H; congruence.
Qed.

Lemma run_on_air cs : ∀ n n',
  existsb task_ends cs = false → on_air n = true → run cs n = Some n' → on_air n' = true.
Proof.
  induction cs as [|c cs IH]; cbn; intros n n' Hends Hair H; [by simplify_eq|].
  apply orb_false_iff in Hends as [Hc Hends].
  destruct (sched c n) as [n1|] eqn:Hn; [|done]. eauto using sched_on_air.
Qed.

(** With the radio in TX, [Main] leaves by the guard. *)
Lemma guard_returns cs : ∀ n n',
  main n = sim_wait_transmit_finished → loop n = [] → on_air n = true →
  existsb task_ends cs = false → run cs n = Some n' →
  if existsb main_steps cs
  then results n ++ [(current n, SIM_ERR_ALREADY_TRANSMITTING)] `prefix_of` results n'
  else results n' = results n ∧ main n' = main n.
Proof.
  induction cs as [|c cs IH]; cbn; intros n n' Hm Hl Hair Hends H; [by simplify_eq|].
  apply orb_false_iff in Hends as [Hc Hends].
  destruct (sched c n) as [n1|] eqn:Hn; [|done]. destruct c as [a| | |i b e|f]; cbn in Hc, Hn |- *; try done.
  - rewrite Hm in Hn. cbn in Hn. rewrite Hair in Hn. simplify_eq. by apply run_results in H.
  - by rewrite Hl in Hn.
  - rewrite Hair, andb_false_r in Hn. done.
  - case_match; simplify_eq. by apply IH in H.
Qed.

(** Without a transmission, [Main] is between the guard and the end of its wait. *)
Inductive waits_in_vain (n : Node) : Prop :=
| vain (k : list Instr) :
    (main n = sim_wait_transmit_finished ∨
     main n = WaitReady Transmit :: k ∨ main n = Lock Transmit :: WaitReady Transmit :: k ∨
     main n = Blocked Transmit :: WaitReady Transmit :: k) →
    loop n = [] → tasks n = [] → on_air n = false → ready (chan n Transmit) = 0 →
    waits_in_vain n.

Lemma vain_step c n n' :
  waits_in_vain n → sched c n = Some n' → waits_in_vain n' ∧ results n' = results n.
Proof.
  intros [k Hm Hl Ht Hair Hr] H. destruct c as [a| | |i b e|f]; cbn in H.
  - destruct Hm as [Hm|[Hm|[Hm|Hm]]]; rewrite Hm in H; cbn in H; rewrite ?Hair, ?Hr in H;
      repeat case_match; simplify_eq; (split; [|done]).
    + apply (vain _ [Unlock Transmit; SetReady Transmit 0; LoadErr Transmit; Return]); cbn; auto.
    + apply (vain _ k); cbn; auto.
    + apply (vain _ k); cbn; auto.
    + apply (vain _ k); cbn; auto.
  - by rewrite Hl in H.
  - by rewrite Ht in H.
  - by rewrite Hl, Ht in H.
  - case_match; simplify_eq. split; [|done]. apply (vain _ k); cbn; auto. by case_decide; subst.
Qed.

Lemma vain_run cs : ∀ n n',
  waits_in_vain n → run cs n = Some n' → waits_in_vain n' ∧ results n' = results n.
Proof.
  induction cs as [|c cs IH]; cbn; intros n n' Hn H; [by simplify_eq|].
  destruct (sched c n) as [n1|] eqn:Hc; [|done].
  destruct (vain_step c n n1 Hn Hc) as [H1 <-]. eauto.
Qed.

(** C38: the guard of [sim_wait_transmit_finished] is the wrong way round.  When the
    radio is transmitting, the situation that the function is to wait in, it does
    not wait: in every interleaving in which the transmission goes on, the call
    returns [SIM_ERR_ALREADY_TRANSMITTING] with its first step, while the radio
    stays in TX.  When nothing is transmitted and no result is left, where it is
    to return at once, it does not return: whatever is scheduled, it waits for
    ever. *)
Theorem transmit_guard_inverted (n : Node) (cs : list Choice) (n' : Node) :
  main n = sim_wait_transmit_finished → loop n = [] → run cs n = Some n' →
  (on_air n = true → existsb task_ends cs = false →
     on_air n' = true ∧
     if existsb main_steps cs
     then results n ++ [(current n, SIM_ERR_ALREADY_TRANSMITTING)] `prefix_of` results n'
     else results n' = results n ∧ main n' = main n) ∧
  (on_air n = false → tasks n = [] → sim_is_transmit_finished n = 0 →
     main n' ≠ [] ∧ results n' = results n).
Proof.
  intros Hm Hl Hrun. split.
  - intros Hair Hends. split; [by eapply run_on_air | by eapply guard_returns].
  - intros Hair Ht Hr. destruct (vain_run cs n n') as [[k Hm'] Hres]; [|done|].
    { apply (vain _ []); auto. }
    split; [|done]. intros Hnil. rewrite Hnil in Hm'. by destruct Hm' as [|[|[|]]].
Qed.

(** A transmission that reached the radio before the guard, and a wait without one. *)
Lemma transmit_guard_inverted_witness :
  (∃ n n', run [MainStep 0; MainStep 0; TaskOnAir] (node_boot [Transmit]) = Some n ∧
     run [MainStep 0] n = Some n' ∧ on_air n' = true ∧ tasks n' = [Transmit] ∧
     [(Transmit, SIM_ERR_ALREADY_TRANSMITTING)] `prefix_of` results n') ∧
  ∃ n', run [MainStep 0; MainStep 0; MainStep 0; Spurious Transmit; MainStep 0; MainStep 0]
          (node_boot [] <| main := sim_wait_transmit_finished |> <| current := Transmit |>) = Some n' ∧
     main n' ≠ [] ∧ results n' = [].
Proof.
  split.
  - set (n := node_boot [Transmit] <| calls := [] |> <| current := Transmit |>
                <| main := sim_wait_transmit_finished |> <| tasks := [Transmit] |> <| on_air := true |>).
    destruct (proj1 (transmit_guard_inverted n [MainStep 0] _ eq_refl eq_refl eq_refl) eq_refl eq_refl)
      as [Hair Hres].
    do 2 eexists. split; [reflexivity|]. split; [reflexivity|].
    split; [exact Hair|]. split; [reflexivity | exact Hres].
  - set (n := node_boot [] <| main := sim_wait_transmit_finished |> <| current := Transmit |>).
    eexists. split; [reflexivity|].
    exact (proj2 (transmit_guard_inverted n [MainStep 0; MainStep 0; MainStep 0; Spurious Transmit;
      MainStep 0; MainStep 0] _ eq_refl eq_refl eq_refl) eq_refl eq_refl eq_refl).
Defined.

(** What follows from it: after such a return, the next transmission takes the
    result of the first one, while it is itself on the air. *)
Example next_takes_result (e : Z) :
  ∃ cs n, run cs (node_boot [Transmit; Transmit]) = Some n ∧
    results n = [(Transmit, SIM_ERR_ALREADY_TRANSMITTING); (Transmit, e)] ∧
    endings n = [(Transmit, Reported 0 e)] ∧ tasks n = [Transmit] ∧ on_air n = true.
Proof.
  exists (replicate 2 (MainStep 0) ++ [TaskOnAir; MainStep 0; TaskEnds 0 0 e] ++
     replicate 5 LoopStep ++ replicate 3 (MainStep 0) ++ [TaskOnAir] ++ replicate 6 (MainStep 0)).
  match goal with |- ∃ n, run ?cs ?n0 = Some n ∧ _ =>
    destruct (run_observe (λ n, (results n, endings n, tasks n, on_air n)) cs n0 _
                ltac:(vm_compute; reflexivity)) as (n & Hrun & [= ? ? ? ?]) end.
  exists n. auto.
Qed.
