(* ===== verification/NodeBuild.v ===== *)
(** * stm32_node.py, radio_node.py, native_node.py: the sources of a node

    The constructor of a node joins C files into one translation unit.
    [STM32Node] starts from a list that is an attribute of the class: the local
    name [hal_files] is the list itself and not a copy, so that what one
    constructor appends is there for the next node.  The class attribute is a
    state that the constructor threads through; everything else is fresh. *)

From S2P Require Import Prelude.

#[local] Open Scope string_scope.
#[local] Open Scope list_scope.

(** The files of the node, which the three constructors add. *)
Definition native_node_c : string := "native_node.c".
Definition radio_node_c : string := "radio_node.c".

Section Build.
(** The order in which [list(set(...))] gives the elements of a set. *)
Context (list_of_set : gset string → list string).

(** [NativeNode.__init__]: [source_files]; an empty name and an empty list
    count as false. *)
Definition NativeNode_init (source_file : string) (extra_source_files : list string)
  : list string :=
  [native_node_c] ++ extra_source_files ++
  (if decide (source_file = "") then [] else [source_file]).

(** [RadioNode.__init__] *)
Definition RadioNode_init (source_file : string) (extra_source_files : list string)
  : list string :=
  NativeNode_init source_file (list_of_set (list_to_set extra_source_files) ++ [radio_node_c]).

(** [STM32Node.__init__]: the class attribute [_STM32_HAL_SOURCES] after the
    call and the files of the node. *)
Definition STM32Node_init (_STM32_HAL_SOURCES : list string) (source_file : string)
    (extra_source_files : list string) : list string * list string :=
  (** [hal_files = self._STM32_HAL_SOURCES], then [hal_files.extend] of the same list *)
  let hal_files := _STM32_HAL_SOURCES ++ _STM32_HAL_SOURCES in
  let hal_files := if decide (extra_source_files = []) then hal_files
                   else hal_files ++ extra_source_files in
  (hal_files, RadioNode_init source_file hal_files).

(** The nodes of a program, built one after the other. *)
Fixpoint build (_STM32_HAL_SOURCES : list string) (nodes : list (string * list string))
  : list (list string) :=
  match nodes with
  | [] => []
  | (source_file, extra) :: rest =>
      let '(hal, files) := STM32Node_init _STM32_HAL_SOURCES source_file extra in
      files :: build hal rest
  end.
End Build.

(** ** What a node is built from *)

Section Sources.
Context (list_of_set : gset string → list string).
(** Every element of the set is enumerated, in some order. *)
Context (list_of_set_elem : ∀ X f, f ∈ list_of_set X ↔ f ∈ X).

Lemma elem_of_files source extra f :
  f ∈ RadioNode_init list_of_set source extra ↔
  f ∈ [native_node_c; radio_node_c] ∨ f ∈ extra ∨ (f = source ∧ source ≠ "").
Proof.
  unfold RadioNode_init, NativeNode_init.
  rewrite !elem_of_app, list_of_set_elem, elem_of_list_to_set, !elem_of_cons, !elem_of_nil.
  case_decide; rewrite ?elem_of_cons, ?elem_of_nil; tauto.
Qed.

(** The class attribute grows by the files of the firmware. *)
Lemma elem_of_hal hal source extra f :
  f ∈ fst (STM32Node_init list_of_set hal source extra) ↔ f ∈ hal ∨ f ∈ extra.
Proof.
  cbn [STM32Node_init fst]. case_decide as He; rewrite !elem_of_app; [|tauto].
  rewrite He, elem_of_nil. tauto.
Qed.

Lemma elem_of_node hal source extra f :
  f ∈ snd (STM32Node_init list_of_set hal source extra) ↔
  f ∈ [native_node_c; radio_node_c] ∨ (f ∈ hal ∨ f ∈ extra) ∨ (f = source ∧ source ≠ "").
Proof.
  cbn [STM32Node_init snd]. rewrite elem_of_files, <- (elem_of_hal hal source extra). done.
Qed.

(** C29: The C files of the [k]-th node of a program, as a set: the two files of
    the native node, the HAL stubs, the source file of the node, and the extra
    files of this node and of all nodes built before it, since they share the list
    that the constructor extends. The radio driver stubs are only among them
    when a firmware names them itself. *)
Theorem node_sources (hal : list string) (nodes : list (string * list string))
    (k : nat) (source : string) (extra : list string) :
  nodes !! k = Some (source, extra) →
  ∃ files, build list_of_set hal nodes !! k = Some files ∧
    ∀ f, f ∈ files ↔
      f ∈ [native_node_c; radio_node_c] ∨ f ∈ hal ∨ (f = source ∧ source ≠ "") ∨
      ∃ j node, (j <= k)%nat ∧ nodes !! j = Some node ∧ f ∈ snd node.
Proof.
  revert hal k. induction nodes as [|[source0 extra0] nodes IH]; intros hal k Hk; [done|].
  cbn [build]. destruct (STM32Node_init list_of_set hal source0 extra0) as [hal' files0] eqn:Hinit.
  destruct k as [|k]; cbn in Hk.
  - injection Hk as -> ->. exists files0. split; [done|]. intros f.
    pose proof (elem_of_node hal source extra f) as Hf. rewrite Hinit in Hf. rewrite Hf.
    split; [intros [?|[[?|?]|?]]; auto; right; right; right; by exists 0%nat, (source, extra)|].
    intros [?|[?|[?|(j & node & Hj & Hn & ?)]]]; auto.
    destruct j; [|lia]. injection Hn as <-. auto.
  - destruct (IH hal' k Hk) as (files & Hfiles & Helem). exists files. split; [done|].
    intros f. rewrite Helem.
    pose proof (elem_of_hal hal source0 extra0 f) as Hh. rewrite Hinit in Hh. cbn [fst] in Hh.
    rewrite Hh. split.
    + intros [?|[[?|?]|[?|(j & node & Hj & Hn & ?)]]]; auto; right; right; right.
      * exists 0%nat, (source0, extra0). split; [lia|auto].
      * exists (S j), node. split; [lia|auto].
    + intros [?|[?|[?|(j & node & Hj & Hn & ?)]]]; auto.
      destruct j as [|j]; cbn in Hn; [injection Hn as <-; auto|].
      right; right; right. exists j, node. split; [lia|auto].
Qed.
End Sources.

(** Two nodes of the repository with different firmware: the second one is built
    with the application file of the first, and without radio_driver.c. *)
Lemma node_sources_witness :
  ∃ files,
    build elements ["stm32_mem.c"; "stm32wlxx_hal_subghz.c"]
      [("a/main.c", ["a/app.c"]); ("b/main.c", ["b/app.c"])] !! 1%nat = Some files ∧
    "a/app.c" ∈ files ∧ "radio_driver.c" ∉ files.
Proof.
  destruct (node_sources elements (λ X f, elem_of_elements X f)
    ["stm32_mem.c"; "stm32wlxx_hal_subghz.c"]
    [("a/main.c", ["a/app.c"]); ("b/main.c", ["b/app.c"])] 1 "b/main.c" ["b/app.c"] eq_refl)
    as (files & Hfiles & Helem).
  exists files. split; [done|]. split.
  - apply Helem. right; right; right. exists 0%nat, ("a/main.c", ["a/app.c"]).
    split; [lia|]. split; [done|]. apply list_elem_of_singleton. done.
  - rewrite Helem. intros [H|[H|[[H _]|(j & node & Hj & Hn & H)]]]; [..|
      destruct j as [|[|j]]; [injection Hn as <-|injection Hn as <-|lia]; cbn [snd] in H];
      rewrite ?elem_of_cons, ?elem_of_nil in H; intuition discriminate.
Defined.
