(* ===== verification/PingPong.v ===== *)
(** * native_ping_pong/firmware/main.c: a firmware on the blocking calls.

    The firmware of the native ping-pong example is an interaction tree over the
    calls that the simulator offers to a native node.  Two nodes run it, one with
    an even and one with an odd identifier, and the radios of the simulator
    (radio.py, radio_node.py) carry their packets, in every interleaving.  What a
    blocking call returns is its [value] of NativeNode, where the calls
    themselves are verified. *)

From ITree Require Import ITree.
From S2P Require Import Prelude NativeNode.

#[export] Instance itree_bind {E} : MBind (itree E) := λ A B f t, ITree.bind t f.

(** ** The program *)

(** An argument of [printf]; a string is the bytes up to its NUL. *)
Inductive Arg := AInt (z : Z) | AStr (s : list Z).

(** The calls of the firmware.  [SimReceiveBlocking] answers the result of the
    call and the contents of the buffer after it. *)
Variant simE : Type → Type :=
| SimRadioId : simE Z
| SimSetRxConfig (khz spreading_factor code_rate preamble_len max_payload_len symbols
    fixed_len crc_enabled iq_inverted rx_continuous : Z) : simE unit
| SimSetTxConfig (power khz spreading_factor code_rate preamble_len fixed_len crc_enabled
    freq_hop_period iq_inverted timeout : Z) : simE unit
| SimSleep (duration : Z) : simE unit
| SimTransmitBlocking (data : list Z) (len : Z) : simE Z
| SimReceiveBlocking (len : Z) : simE (Z * list Z)
| Printf (format : string) (args : list Arg) : simE unit.

(** The bytes of the two strings, and of any string up to its NUL. *)
Definition ping : list Z := [80; 105; 110; 103].
Definition pong : list Z := [80; 111; 110; 103].
Fixpoint c_string (buffer : list Z) : list Z :=
  match buffer with
  | [] => []
  | c :: buffer => if c =? 0 then [] else c :: c_string buffer
  end.

(** [printf] with [sim_radio_id()] as its first argument. *)
Definition say (format : string) (args : list Arg) : itree simE unit :=
  id ← ITree.trigger SimRadioId;
  ITree.trigger (Printf format (AInt id :: args)).

(** [wait_for] after its reception, and the function. *)
Definition check_received (msg : list Z) (answer : Z * list Z) : itree simE Z :=
  let res := answer.1 in
  let rx_data := answer.2 in
  if res <=? 0 then Ret 0
  else if (res =? 4) && bool_decide (take 4 rx_data = msg) then
    say "%d Received '%s'\n" [AStr msg];;
    Ret 1
  else
    say "%d Received unkown message: '%s' (len %d) \n" [AStr (c_string rx_data); AInt res];;
    Ret 0.
Definition wait_for (msg : list Z) : itree simE Z :=
  answer ← ITree.trigger (SimReceiveBlocking 256);
  check_received msg answer.

(** [send_msg] after its transmission, and the function. *)
Definition check_sent (msg : list Z) (err : Z) : itree simE Z :=
  if negb (err =? 0) then
    say "%d Error sending '%s': %d\n" [AStr msg; AInt err];;
    Ret err
  else Ret 0.
Definition send_msg (msg : list Z) : itree simE Z :=
  say "%d Sending  '%s'\n" [AStr msg];;
  err ← ITree.trigger (SimTransmitBlocking msg 4);
  check_sent msg err.

(** [while (wait_for(awaited)) { sim_sleep(pause); if (send_msg(reply) != 0) break; }] *)
Definition reply_sent (err : Z) : itree simE (unit + unit) :=
  if negb (err =? 0) then Ret (inr tt) else Ret (inl tt).
Definition answer_received (pause : Z) (reply : list Z) (received : Z) : itree simE (unit + unit) :=
  if received =? 0 then Ret (inr tt)
  else
    ITree.trigger (SimSleep pause);;
    err ← send_msg reply;
    reply_sent err.
Definition exchange_once (awaited : list Z) (pause : Z) (reply : list Z) (_ : unit)
    : itree simE (unit + unit) :=
  received ← wait_for awaited;
  answer_received pause reply received.
Definition exchange (awaited : list Z) (pause : Z) (reply : list Z) : itree simE unit :=
  ITree.iter (exchange_once awaited pause reply) tt.

Definition main : itree simE Z :=
  node_id ← ITree.trigger SimRadioId;
  ITree.trigger (Printf "%d Starting node\n" [AInt node_id]);;
  ITree.trigger (SimSetRxConfig 125 7 5 8 64 0 0 1 0 1);;
  ITree.trigger (SimSetTxConfig 10 125 7 5 8 0 1 0 0 3000);;
  (if Z.rem node_id 2 =? 0 then
     ITree.trigger (SimSleep 1);;
     send_msg ping;;
     exchange pong 4 ping
   else exchange ping 2 pong);;
  ITree.trigger (Printf "%d Sim done\n" [AInt node_id]);;
  Ret 0.

(** ** A node between two blocking calls *)

(** class LoraConfig, without the frequency, which the firmware does not set. *)
Record LoraConfig := mkLoraConfig {
  bandwidth : Z; spreading_factor : Z; code_rate : Z; preamble_len : Z; payload_len : Z;
  symbols : Z; fixed_payload_len : bool; crc_enabled : bool; iq_inverted : bool }.
#[export] Instance LoraConfig_eq_dec : EqDecision LoraConfig.
Proof. solve_decision. Defined.

Definition default_config : LoraConfig := mkLoraConfig 125 7 5 8 64 0 false true false.
Definition to_bool (z : Z) : bool := negb (z =? 0).

(** What the node has set and printed. *)
Record Local := mkLocal {
  stdout : list (string * list Arg);
  rx_config : LoraConfig;
  tx_config : LoraConfig;
  tx_power : Z;
  rx_continuous : bool }.
#[export] Instance eta_Local : Eta Local := λ l, mkLocal
  (stdout l) (rx_config l) (tx_config l) (tx_power l) (rx_continuous l).

Definition boot_local : Local := mkLocal [] default_config default_config 14 true.

(** A program at its next blocking call, with what it does with the answer. *)
Inductive Blocked :=
| AtSleep (duration : Z) (k : unit → itree simE Z)
| AtTransmit (data : list Z) (len : Z) (k : Z → itree simE Z)
| AtReceive (len : Z) (k : Z * list Z → itree simE Z)
| Finished (code : Z).

(** Run a program up to its next blocking call; the simulated time stands still. *)
Fixpoint settle (fuel : nat) (id : Z) (t : itree simE Z) (l : Local) : option (Blocked * Local) :=
  match fuel with
  | O => None
  | S fuel =>
      match observe t with
      | RetF r => Some (Finished r, l)
      | TauF t => settle fuel id t l
      | VisF e k =>
          match e in simE T return (T → itree simE Z) → option (Blocked * Local) with
          | SimRadioId => λ k, settle fuel id (k id) l
          | SimSetRxConfig khz sf cr pre pay sym fixed crc iq cont => λ k,
              settle fuel id (k tt)
                (l <| rx_config := mkLoraConfig khz sf cr pre pay sym
                       (to_bool fixed) (to_bool crc) (to_bool iq) |>
                   <| rx_continuous := to_bool cont |>)
          | SimSetTxConfig power khz sf cr pre fixed crc hop iq timeout => λ k,
              settle fuel id (k tt)
                (l <| tx_config := mkLoraConfig khz sf cr pre 64 0
                       (to_bool fixed) (to_bool crc) (to_bool iq) |>
                   <| tx_power := power |>)
          | Printf format args => λ k,
              settle fuel id (k tt) (l <| stdout := stdout l ++ [(format, args)] |>)
          | SimSleep d => λ k, Some (AtSleep d k, l)
          | SimTransmitBlocking data len => λ k, Some (AtTransmit data len k, l)
          | SimReceiveBlocking len => λ k, Some (AtReceive len k, l)
          end k
      end
  end.
Definition FUEL : nat := 20.

(** ** Two nodes on the air *)

Inductive Side := Even | Odd.
#[export] Instance Side_eq_dec : EqDecision Side.
Proof. solve_decision. Defined.
Definition other (i : Side) : Side := match i with Even => Odd | Odd => Even end.

Inductive RadioState := OFF | STANDBY | RX | TX.
#[export] Instance RadioState_eq_dec : EqDecision RadioState.
Proof. solve_decision. Defined.

(** Where the blocking call is: not begun, before the guard of
    [sim_wait_transmit_finished], or waiting for its flag. *)
Inductive Phase := Fresh | Guarding | Waiting.

(** The tasks that the calls started: [receive_task] before and after it waits for
    the queue, [transmit_task] before and after it puts the packet on the air;
    [heard] is whether the other radio received the start of the packet and
    nothing interrupted it. *)
Inductive RxTask := ToReceive | Receiving.
Inductive TxTask := ToSend (data : list Z) | OnAir (data : list Z) (heard : bool).

(** A node with its radio: [rx_queue] is [__rx_queue], [tx_done] is
    [sim_tx_done_ready] with [sim_tx_err]. *)
Record Station := mkStation {
  id : Z;
  at_call : Blocked;
  phase : Phase;
  local : Local;
  radio : RadioState;
  rx_queue : list (list Z);
  rx_task : option RxTask;
  tx_task : option TxTask;
  tx_done : option Z }.
#[export] Instance eta_Station : Eta Station := λ s, mkStation
  (id s) (at_call s) (phase s) (local s) (radio s) (rx_queue s) (rx_task s) (tx_task s) (tx_done s).

(** [aired] lists the packets whose transmission has ended: the sender, the
    payload, and whether the other radio received it. *)
Record System := mkSystem {
  station : Side → Station; ended : bool; aired : list (Side * list Z * bool) }.
#[export] Instance eta_System : Eta System := λ s, mkSystem (station s) (ended s) (aired s).

Definition set_station (i : Side) (x : Station) (s : System) : System :=
  s <| station := λ j, if decide (j = i) then x else station s j |>.

(** [__can_receive]: the configurations of a packet and of a receive chain agree. *)
Definition can_receive (c : RadioState) (packet rx : LoraConfig) (payload : list Z) : bool :=
  bool_decide (c = RX) && (bandwidth rx =? bandwidth packet) &&
  (code_rate packet =? code_rate rx) &&
  (spreading_factor packet =? spreading_factor rx) &&
  Bool.eqb (crc_enabled packet) (crc_enabled rx) &&
  Bool.eqb (fixed_payload_len packet) (fixed_payload_len rx) &&
  (preamble_len packet =? preamble_len rx) &&
  Bool.eqb (iq_inverted packet) (iq_inverted rx) &&
  (if fixed_payload_len rx then Z.of_nat (length payload) =? payload_len rx else true).

Definition receives (sender receiver : Station) (payload : list Z) : bool :=
  can_receive (radio receiver) (tx_config (local sender)) (rx_config (local receiver)) payload.

(** The call returns: the program goes on to its next one. *)
Definition resume (x : Station) (t : itree simE Z) : option Station :=
  match settle FUEL (id x) t (local x) with
  | Some (b, l) => Some (x <| at_call := b |> <| phase := Fresh |> <| local := l |>)
  | None => None
  end.

(** The buffer of [len] zero bytes into which the payload is copied, and the
    result of the call: the bytes copied. *)
Definition received_bytes (len : Z) (payload : list Z) : Z := Z.min (Z.of_nat (length payload)) len.
Definition rx_buffer (len : Z) (payload : list Z) : list Z :=
  let copied := take (Z.to_nat len) payload in
  copied ++ replicate (Z.to_nat len - length copied) 0.

(** [receive_task] reports the packet [payload], or an error with no bytes. *)
Definition receive_ends (x : Station) (payload : list Z) (e : Z) : option Station :=
  match at_call x with
  | AtReceive len k =>
      let x := x <| rx_task := None |> in
      let bytes := received_bytes len payload in
      resume x (k (value Receive (Reported bytes e), rx_buffer len payload))
  | _ => None
  end.

Definition SIM_ERR_SIM_ENDED : Z := -1.

Inductive Choice :=
| Starts (i : Side)          (** the call begins: it asks the simulator for its task *)
| Guards (i : Side)          (** the guard of [sim_wait_transmit_finished] *)
| ReceiveRuns (i : Side)     (** the receive task looks at the queue and turns to the radio *)
| TransmitRuns (i : Side)    (** the transmit task puts the radio in TX *)
| AirEnds (i : Side) (demodulated : bool) (** the packet of [i] ends *)
| Arrives (i : Side)         (** a queued packet is handed to the waiting task *)
| Returns (i : Side)         (** a sleep or a transmission is over *)
| Fails (i : Side) (f : Flow) (e : Z) (** after the end of the simulation a task fails *)
| SimEnds.

(** A task that was started runs before the next call can start one: it is next
    in the event loop, and the clock of the simulator stands still until then. *)
Definition starts (x : Station) (over : bool) : option Station :=
  match phase x, at_call x with
  | Fresh, AtSleep _ _ => Some (x <| phase := Waiting |>)
  | Fresh, AtTransmit data len k =>
      if bool_decide (radio x = TX) then resume x (k (value Transmit (Refused SIM_ERR_ALREADY_TRANSMITTING)))
      else if over then resume x (k (value Transmit (Refused SIM_ERR_SIM_ENDED)))
      else match tx_task x with
           | None => Some (x <| phase := Guarding |> <| tx_task := Some (ToSend (take (Z.to_nat len) data)) |>)
           | Some _ => None
           end
  | Fresh, AtReceive len k =>
      if bool_decide (radio x = TX) then resume x (k (value Receive (Refused 1), replicate (Z.to_nat len) 0))
      else Some (x <| phase := Waiting |> <| rx_task := Some ToReceive |>)
  | _, _ => None
  end.

Definition guards (x : Station) : option Station :=
  match phase x, at_call x with
  | Guarding, AtTransmit _ _ k =>
      if bool_decide (radio x = TX) then resume x (k SIM_ERR_ALREADY_TRANSMITTING)
      else Some (x <| phase := Waiting |>)
  | _, _ => None
  end.

Definition returns (x : Station) : option Station :=
  match phase x, at_call x with
  | Waiting, AtSleep _ k => resume x (k tt)
  | Waiting, AtTransmit _ _ k =>
      match tx_done x with
      | Some e => resume (x <| tx_done := None |>) (k (value Transmit (Reported 0 e)))
      | None => None
      end
  | _, _ => None
  end.

Definition SIM_ERR_UNKNOWN_ERR : Z := -4.

(** [receive_data_wait]: a queued packet at once, no reception during a
    transmission, else the radio is put in RX. *)
Definition receive_runs (x : Station) : option Station :=
  match rx_task x, rx_queue x with
  | Some ToReceive, packet :: queue => receive_ends (x <| rx_queue := queue |>) packet 0
  | Some ToReceive, [] =>
      if bool_decide (radio x = TX) then receive_ends x [] SIM_ERR_UNKNOWN_ERR
      else Some (x <| radio := RX |> <| rx_task := Some Receiving |>)
  | _, _ => None
  end.

Definition arrives (x : Station) : option Station :=
  match rx_task x, rx_queue x with
  | Some Receiving, packet :: queue => receive_ends (x <| rx_queue := queue |>) packet 0
  | _, _ => None
  end.

(** [transmit_data_blocking] up to the air: it interrupts what its own radio was
    receiving, and the other radio receives the start if it can. *)
Definition interrupt (x : Station) : Station :=
  match tx_task x with
  | Some (OnAir d _) => x <| tx_task := Some (OnAir d false) |>
  | _ => x
  end.

Definition transmit_runs (i : Side) (s : System) : option System :=
  let x := station s i in
  let y := station s (other i) in
  match tx_task x with
  | Some (ToSend data) =>
      let x' := x <| radio := TX |> <| tx_task := Some (OnAir data (receives x y data)) |> in
      Some (set_station (other i) (interrupt y) (set_station i x' s))
  | _ => None
  end.

(** [_on_receive_end] at the receiver, then the end of [transmit_data_blocking], of
    which nobody sees the tick between them.  [demodulated] stands for the signal
    strength and the collisions, which the path loss decides. *)
Definition air_ends (i : Side) (demodulated : bool) (s : System) : option System :=
  let x := station s i in
  let y := station s (other i) in
  match tx_task x with
  | Some (OnAir data heard) =>
      let delivered := heard && demodulated && receives x y data in
      let y' := if delivered then
                  y <| rx_queue := rx_queue y ++ [data] |>
                    <| radio := if rx_continuous (local y) then RX else OFF |>
                else y in
      let x' := x <| tx_task := None |> <| tx_done := Some 0 |>
                  <| radio := if rx_continuous (local x) then RX else STANDBY |> in
      Some (set_station (other i) y' (set_station i x'
              (s <| aired := aired s ++ [(i, data, delivered)] |>)))
  | _ => None
  end.

(** What a task reports when the simulation is over: the radio keeps its state. *)
Definition fails (x : Station) (f : Flow) (e : Z) : option Station :=
  match f, rx_task x, tx_task x with
  | Receive, Some _, _ => receive_ends x [] e
  | Transmit, _, Some _ => Some (x <| tx_task := None |> <| tx_done := Some e |>)
  | _, _, _ => None
  end.

Definition step (c : Choice) (s : System) : option System :=
  match c with
  | Starts i => x ← starts (station s i) (ended s); Some (set_station i x s)
  | Guards i => x ← guards (station s i); Some (set_station i x s)
  | ReceiveRuns i => x ← receive_runs (station s i); Some (set_station i x s)
  | TransmitRuns i => transmit_runs i s
  | AirEnds i demodulated => air_ends i demodulated s
  | Arrives i => x ← arrives (station s i); Some (set_station i x s)
  | Returns i => x ← returns (station s i); Some (set_station i x s)
  | Fails i f e =>
      if ended s && (e <? 0) then x ← fails (station s i) f e; Some (set_station i x s) else None
  | SimEnds => if ended s then None else Some (s <| ended := true |>)
  end.

Fixpoint run (cs : list Choice) (s : System) : option System :=
  match cs with
  | [] => Some s
  | c :: cs => s' ← step c s; run cs s'
  end.

(** Both nodes before their first call, with the radios off. *)
Definition boot_station (n : Z) : option Station :=
  resume (mkStation n (Finished 0) Fresh boot_local OFF [] None None None) main.
Definition boot (even odd : Z) : option System :=
  x ← boot_station even; y ← boot_station odd;
  Some (mkSystem (λ i, match i with Even => x | Odd => y end) false []).

(** The interleavings of interest: the guard does not find its own transmission,
    every packet can be demodulated, the simulation goes on, and the odd node,
    which starts to listen at once, has its radio on before the even node, which
    sleeps for a second, sends. *)
Definition regular (lossless : bool) (c : Choice) (s : System) : bool :=
  match c with
  | Guards i => bool_decide (radio (station s i) ≠ TX)
  | TransmitRuns Even => bool_decide (radio (station s Odd) ≠ OFF)
  | AirEnds _ demodulated => demodulated || negb lossless
  | SimEnds => false
  | _ => true
  end.

Fixpoint regular_run (lossless : bool) (cs : list Choice) (s : System) : bool :=
  match cs with
  | [] => true
  | c :: cs =>
      regular lossless c s && match step c s with Some s' => regular_run lossless cs s' | None => true end
  end.

(** The packets of a faultless exchange: ping, pong, ping, ... *)
Definition message (i : Side) : list Z := match i with Even => ping | Odd => pong end.
Fixpoint exchanged (n : nat) (i : Side) : list (Side * list Z * bool) :=
  match n with
  | O => []
  | S n => (i, message i, true) :: exchanged n (other i)
  end.
