(* ===== verification/PingPongProofs.v ===== *)
(** * The ping-pong firmware: the exchange of two nodes.

    In the regular runs of PingPong each node is at one of the control points of
    its loop, and one of the two has the packet.  The invariant gives the order of
    the packets, that the exchange goes on, and what a lost packet does. *)

From ITree Require Import ITree.
From S2P Require Import Prelude NativeNode PingPong.

(** ** Control points of a regular run *)

(** Where a node is: between the end of its packet and the next one it awaits,
    and from there to its own packet. *)
Inductive Pos :=
| SentGuard | Sent | ToListen | Turning | Listening
| ToSleep | Sleeping | ToTransmit | SendGuard | SendWait | AirGuard | AirWait.

Definition before_packet (p : Pos) : bool :=
  match p with SentGuard | Sent | ToListen | Turning | Listening => true | _ => false end.
Definition in_air (p : Pos) : bool := match p with AirGuard | AirWait => true | _ => false end.

(** The number of steps to [p] since the end of the last packet of the node. *)
Definition index (p : Pos) : nat :=
  match p with
  | SentGuard => 0 | Sent => 1 | ToListen => 2 | Turning => 3 | Listening => 4 | ToSleep => 5
  | Sleeping => 6 | ToTransmit => 7 | SendGuard => 8 | SendWait => 9 | AirGuard => 9 | AirWait => 10
  end.

Definition pause (i : Side) : Z := match i with Even => 4 | Odd => 2 end.

Definition point (n : Z) (t : itree simE Z) : Blocked :=
  match settle FUEL n t boot_local with Some (b, _) => b | None => Finished 0 end.
Definition listen_point (n : Z) (i : Side) : Blocked :=
  point n (exchange (message (other i)) (pause i) (message i);;
           ITree.trigger (Printf "%d Sim done\n" [AInt n]);; Ret 0).
Definition sleep_point (n : Z) (i : Side) : Blocked :=
  match listen_point n i with
  | AtReceive _ k => point n (k (4, rx_buffer 256 (message (other i))))
  | b => b
  end.
Definition send_point (n : Z) (i : Side) : Blocked :=
  match sleep_point n i with AtSleep _ k => point n (k tt) | b => b end.

(** The first sleep and the first packet of the even node, outside the loop. *)
Definition first_program (n : Z) : itree simE Z :=
  (ITree.trigger (SimSleep 1);; send_msg ping;; exchange pong 4 ping);;
  ITree.trigger (Printf "%d Sim done\n" [AInt n]);; Ret 0.
Definition first_sleep (n : Z) : Blocked := point n (first_program n).
Definition first_send (n : Z) : Blocked :=
  match first_sleep n with AtSleep _ k => point n (k tt) | b => b end.

Definition awaits (n : Z) (i : Side) (p : Pos) (b : Blocked) : Prop :=
  match p with
  | ToListen | Turning | Listening => b = listen_point n i
  | ToSleep | Sleeping => b = sleep_point n i ∨ i = Even ∧ b = first_sleep n
  | _ => b = send_point n i ∨ i = Even ∧ b = first_send n
  end.
Definition phase_at (p : Pos) : Phase :=
  match p with
  | ToListen | ToSleep | ToTransmit => Fresh
  | SendGuard | AirGuard | SentGuard => Guarding
  | _ => Waiting
  end.
Definition rx_task_at (p : Pos) : option RxTask :=
  match p with Turning => Some ToReceive | Listening => Some Receiving | _ => None end.
Definition tx_task_at (i : Side) (p : Pos) : option TxTask :=
  match p with
  | SendGuard | SendWait => Some (ToSend (message i))
  | AirGuard | AirWait => Some (OnAir (message i) true)
  | _ => None
  end.
Definition tx_done_at (p : Pos) : option Z :=
  match p with SentGuard | Sent => Some 0 | _ => None end.

(** Node [i] stands at [p].  The [active] node has the packet of the other one
    and will answer it; the other one awaits that answer. *)
Record stands (active : bool) (i : Side) (n : Z) (p : Pos) (x : Station) : Prop := {
  st_id : id x = n;
  st_call : awaits n i p (at_call x);
  st_phase : phase x = phase_at p;
  st_rx_config : rx_config (local x) = default_config;
  st_tx_config : tx_config (local x) = default_config;
  st_continuous : rx_continuous (local x) = true;
  st_queue : rx_queue x = if active && before_packet p then [message (other i)] else [];
  st_rx_task : rx_task x = rx_task_at p;
  st_tx_task : tx_task x = tx_task_at i p;
  st_tx_done : tx_done x = tx_done_at p;
  st_radio : if in_air p then radio x = TX
             else radio x = RX ∨ (active = true ∨ i = Odd) ∧ p ≠ Listening ∧ radio x = OFF;
  st_role : active = false → before_packet p = true }.

(** A program that goes on to the blocking call [b] whatever was set and printed
    before, and only prints on the way. *)
Definition settles (n : Z) (t : itree simE Z) (b : Blocked) : Prop :=
  ∀ l, ∃ out, settle FUEL n t l = Some (b, l <| stdout := out |>).

Lemma listens n i :
  ∃ k, listen_point n i = AtReceive 256 k ∧
    settles n (k (4, rx_buffer 256 (message (other i)))) (sleep_point n i).
Proof. destruct i; (eexists; split; [reflexivity|]; intros []; eexists; reflexivity). Qed.

Lemma sleeps n i :
  ∃ d k, sleep_point n i = AtSleep d k ∧ settles n (k tt) (send_point n i).
Proof. destruct i; (do 2 eexists; split; [reflexivity|]; intros []; eexists; reflexivity). Qed.

Lemma sends n i :
  ∃ k, send_point n i = AtTransmit (message i) 4 k ∧ settles n (k 0) (listen_point n i).
Proof. destruct i; (eexists; split; [reflexivity|]; intros []; eexists; reflexivity). Qed.

Lemma first_sleeps n : ∃ d k, first_sleep n = AtSleep d k ∧ settles n (k tt) (first_send n).
Proof. do 2 eexists. split; [reflexivity|]. intros []. eexists. reflexivity. Qed.

Lemma first_sends n :
  ∃ k, first_send n = AtTransmit ping 4 k ∧ settles n (k 0) (listen_point n Even).
Proof. eexists. split; [reflexivity|]. intros []. eexists. reflexivity. Qed.

(** ** Steps between control points *)

Lemma resume_settles x t b :
  settles (id x) t b →
  ∃ out, resume x t = Some (x <| at_call := b |> <| phase := Fresh |>
                              <| local := local x <| stdout := out |> |>).
Proof. intros H. destruct (H (local x)) as [out Hout]. exists out. unfold resume. by rewrite Hout. Qed.

(** The steps that concern one node only. *)
Definition own_step (c : Choice) (x : Station) : option Station :=
  match c with
  | Starts _ => starts x false
  | Guards _ => if bool_decide (radio x = TX) then None else guards x
  | ReceiveRuns _ => receive_runs x
  | Arrives _ => arrives x
  | Returns _ => returns x
  | _ => None
  end.

(** Where such a step leads, for a node that has a packet to receive or not. *)
Definition next (packet : bool) (c : Choice) (p : Pos) : option Pos :=
  match c, p with
  | Starts _, ToListen => Some Turning
  | Starts _, ToSleep => Some Sleeping
  | Starts _, ToTransmit => Some SendGuard
  | Guards _, SentGuard => Some Sent
  | Guards _, SendGuard => Some SendWait
  | ReceiveRuns _, Turning => Some (if packet then ToSleep else Listening)
  | Arrives _, Listening => if packet then Some ToSleep else None
  | Returns _, Sent => Some ToListen
  | Returns _, Sleeping => Some ToTransmit
  | _, _ => None
  end.

Lemma next_index packet c p p' : next packet c p = Some p' → (index p < index p')%nat.
Proof. destruct c, p, packet; cbn; intros [= <-]; cbn; lia. Qed.

(** The call of a control point, and the point to which it returns. *)
Lemma awaits_shape n i p b :
  awaits n i p b →
  match p with
  | ToListen | Turning | Listening =>
      ∃ k, b = AtReceive 256 k ∧ settles n (k (4, rx_buffer 256 (message (other i)))) (sleep_point n i)
  | ToSleep | Sleeping =>
      ∃ d k b', b = AtSleep d k ∧ settles n (k tt) b' ∧ awaits n i ToTransmit b'
  | _ => ∃ k, b = AtTransmit (message i) 4 k ∧ settles n (k 0) (listen_point n i)
  end.
Proof.
  destruct (listens n i) as (kl & Hl & Sl), (sleeps n i) as (ds & ks & Hs & Ss),
    (sends n i) as (kt & Ht & St), (first_sleeps n) as (df & kf & Hf & Sf),
    (first_sends n) as (kg & Hg & Sg).
  destruct p; cbn; intros Hc; first
    [ exists kl; rewrite Hc; by split
    | destruct Hc as [->|[-> ->]];
        [exists ds, ks, (send_point n i) | exists df, kf, (first_send n)]; auto
    | destruct Hc as [->|[-> ->]]; [exists kt | exists kg]; by split ].
Qed.

Lemma receive_message x j k :
  at_call x = AtReceive 256 k →
  receive_ends x (message j) 0 = resume (x <| rx_task := None |>) (k (4, rx_buffer 256 (message j))).
Proof. intros H. unfold receive_ends. rewrite H. by destruct j. Qed.

(** The first calls of the two nodes. *)
Definition booted (n : Z) : Local :=
  mkLocal [("%d Starting node\n", [AInt n])] default_config default_config 10 true.

(** A call that does not block. *)
Lemma settle_radio_id f n k l :
  settle (S (S f)) n (ITree.trigger SimRadioId ≫= k) l = settle (S f) n (k n) l.
Proof. reflexivity. Qed.

Lemma settle_printf f n s args k l :
  settle (S (S f)) n (ITree.trigger (Printf s args) ≫= k) l =
  settle (S f) n (k tt) (l <| stdout := stdout l ++ [(s, args)] |>).
Proof. reflexivity. Qed.

Lemma settle_set_rx_config f n khz sf cr pre pay sym fixed crc iq cont k l :
  settle (S (S f)) n
    (ITree.trigger (SimSetRxConfig khz sf cr pre pay sym fixed crc iq cont) ≫= k) l =
  settle (S f) n (k tt)
    (l <| rx_config := mkLoraConfig khz sf cr pre pay sym (to_bool fixed) (to_bool crc) (to_bool iq) |>
       <| rx_continuous := to_bool cont |>).
Proof. reflexivity. Qed.

Lemma settle_set_tx_config f n power khz sf cr pre fixed crc hop iq timeout k l :
  settle (S (S f)) n
    (ITree.trigger (SimSetTxConfig power khz sf cr pre fixed crc hop iq timeout) ≫= k) l =
  settle (S f) n (k tt)
    (l <| tx_config := mkLoraConfig khz sf cr pre 64 0 (to_bool fixed) (to_bool crc) (to_bool iq) |>
       <| tx_power := power |>).
Proof. reflexivity. Qed.

Lemma boot_settles n :
  settle FUEL n main boot_local =
  settle 16 n ((if Z.rem n 2 =? 0 then
                  ITree.trigger (SimSleep 1);; send_msg ping;; exchange pong 4 ping
                else exchange ping 2 pong);;
               ITree.trigger (Printf "%d Sim done\n" [AInt n]);; Ret 0) (booted n).
Proof.
  unfold FUEL, main. by rewrite settle_radio_id, settle_printf, settle_set_rx_config, settle_set_tx_config.
Qed.

Lemma boot_even n :
  Z.rem n 2 = 0 →
  boot_station n = Some (mkStation n (first_sleep n) Fresh (booted n) OFF [] None None None).
Proof. intros H. unfold boot_station, resume. cbn [id local]. rewrite boot_settles, H. reflexivity. Qed.

Lemma boot_odd n :
  Z.rem n 2 ≠ 0 →
  boot_station n = Some (mkStation n (listen_point n Odd) Fresh (booted n) OFF [] None None None).
Proof.
  intros H. unfold boot_station, resume. cbn [id local].
  rewrite boot_settles, (proj2 (Z.eqb_neq _ _) H). reflexivity.
Qed.

#[local] Opaque listen_point sleep_point send_point first_sleep first_send.

(** Take the step of a node and the point to which its call returns. *)
Ltac take_step :=
  cbn -[receive_ends resume];
  try (erewrite receive_message by (cbn; eassumption)); cbn -[receive_ends resume];
  try match goal with
    H : settles _ ?t ?b |- context [resume ?x ?t] =>
      destruct (resume_settles x t b H) as [? ->] end;
  cbn -[receive_ends resume].

Lemma own_step_next a i n p x c :
  stands a i n p x →
  match next a c p with
  | Some p' => ∃ x', own_step c x = Some x' ∧ stands a i n p' x'
  | None => own_step c x = None
  end.
Proof.
  intros [Hid Hc Hp Hrx Htx Hcont Hq Hrt Htt Hd Hr Hrole].
  pose proof (awaits_shape _ _ _ _ Hc) as Hs. destruct x as [xid b ph l r q rt tt' td].
  cbn -[receive_ends] in *. subst.
  assert (in_air p = false → r ≠ TX) as Hntx by (intros E; rewrite E in Hr; destruct Hr as [->|(_ & _ & ->)]; done).
  destruct c, p; cbn -[receive_ends resume] in *; try reflexivity;
    repeat match goal with H : ∃ _, _ |- _ => destruct H | H : _ ∧ _ |- _ => destruct H end; subst;
    try rewrite bool_decide_false by auto; try reflexivity.
  all: destruct a; [|try (specialize (Hrole eq_refl); discriminate)].
  all: take_step; try reflexivity.
  all: eexists; (split; [reflexivity|]); constructor; cbn; auto.
  all: try by destruct i.
  all: destruct Hr as [->|(? & _ & ->)]; auto.
Qed.

Lemma station_set i j x s :
  station (set_station i x s) j = if decide (j = i) then x else station s j.
Proof. done. Qed.
Lemma station_set_same i x s : station (set_station i x s) i = x.
Proof. rewrite station_set. by rewrite decide_True. Qed.
Lemma station_set_other i x s : station (set_station i x s) (other i) = station s (other i).
Proof. rewrite station_set. by destruct i. Qed.
Lemma station_set_this i x s : station (set_station (other i) x s) i = station s i.
Proof. rewrite station_set. by destruct i. Qed.
Ltac stations :=
  repeat first [rewrite station_set_same | rewrite station_set_this | rewrite station_set_other].

Lemma other_other i : other (other i) = i.
Proof. by destruct i. Qed.

(** Such a step does not turn the radio off. *)
Lemma resume_radio x t x' : resume x t = Some x' → radio x' = radio x.
Proof. unfold resume. by destruct (settle _ _ _ _) as [[b l]|]; [intros [= <-]|]. Qed.

Lemma receive_ends_radio x m e x' : receive_ends x m e = Some x' → radio x' = radio x.
Proof. unfold receive_ends. destruct (at_call x); try done. intros H. by apply resume_radio in H. Qed.

Lemma own_step_radio c x x' : own_step c x = Some x' → radio x = RX → radio x' = RX.
Proof.
  destruct c; cbn; try done; unfold starts, guards, receive_runs, arrives, returns; intros H Hr;
    repeat case_match; try done;
    first [by injection H as <- | apply resume_radio in H | apply receive_ends_radio in H];
    by rewrite H.
Qed.

(** The side of a step that concerns one node. *)
Definition own_side (c : Choice) : option Side :=
  match c with
  | Starts i | Guards i | ReceiveRuns i | Arrives i | Returns i => Some i
  | _ => None
  end.

Lemma step_own b c i s :
  own_side c = Some i → ended s = false → regular b c s = true →
  step c s = x ← own_step c (station s i); Some (set_station i x s).
Proof.
  destruct c; cbn; intros [= ->] He Hreg; rewrite ?He; try done.
  apply bool_decide_eq_true in Hreg. by rewrite bool_decide_false.
Qed.

(** The packet of a node reaches the air, and ends. *)
Definition airborne (p : Pos) : option Pos :=
  match p with SendGuard => Some AirGuard | SendWait => Some AirWait | _ => None end.
Definition landed (p : Pos) : option Pos :=
  match p with AirGuard => Some SentGuard | AirWait => Some Sent | _ => None end.

Lemma stands_airborne i n p p' x :
  stands true i n p x → airborne p = Some p' →
  stands true i n p' (x <| radio := TX |> <| tx_task := Some (OnAir (message i) true) |>).
Proof. intros [] Hp. destruct p; try done; injection Hp as <-; by constructor. Qed.

Lemma stands_landed i n p p' x :
  stands true i n p x → landed p = Some p' →
  stands false i n p' (x <| tx_task := None |> <| tx_done := Some 0 |>
                         <| radio := if rx_continuous (local x) then RX else STANDBY |>).
Proof. intros [] Hp. destruct p; try done; injection Hp as <-; constructor; cbn; auto; by rewrite st_continuous0; left. Qed.

Lemma stands_gets i n q y :
  stands false i n q y →
  stands true i n q (y <| rx_queue := rx_queue y ++ [message (other i)] |>
                       <| radio := if rx_continuous (local y) then RX else OFF |>).
Proof.
  intros []. specialize (st_role0 eq_refl). destruct q; try done; constructor; cbn; auto;
    rewrite ?st_queue0, ?st_continuous0; auto.
Qed.

Lemma stands_runs a i n p x c : stands a i n p x → at_call x ≠ Finished c.
Proof.
  intros []. pose proof (awaits_shape _ _ _ _ st_call0) as H.
  destruct p; repeat match goal with H : ∃ _, _ |- _ => destruct H | H : _ ∧ _ |- _ => destruct H end; congruence.
Qed.

Lemma stands_quiet i n q y : stands false i n q y → tx_task y = None.
Proof. intros []. specialize (st_role0 eq_refl). rewrite st_tx_task0. by destruct q. Qed.

Lemma stands_role i n q y : stands false i n q y → before_packet q = true.
Proof. intros []. by apply st_role0. Qed.

Lemma stands_on i n q y : stands false i n q y → radio y ≠ OFF → radio y = RX.
Proof.
  intros [] Hr. specialize (st_role0 eq_refl). destruct (in_air q) eqn:Hq; [by destruct q|].
  by destruct st_radio0 as [|(_ & _ & ?)].
Qed.

(** A node that awaits a packet hears the other one, when its radio is on. *)
Lemma stands_hears i n n' p q x y :
  stands true i n p x → stands false (other i) n' q y → radio y ≠ OFF →
  receives x y (message i) = true.
Proof.
  intros Hx Hy Hr. unfold receives, can_receive. rewrite (stands_on _ _ _ _ Hy Hr).
  destruct Hx, Hy. rewrite st_tx_config0, st_rx_config1. by destruct i.
Qed.

(** ** Regular runs *)

(** Who sends the next packet after [m] packets. *)
Fixpoint turn (m : nat) (i : Side) : Side := match m with O => i | S m => turn m (other i) end.

Lemma turn_S m : ∀ i, turn (S m) i = other (turn m i).
Proof. induction m as [|m IH]; intros i; [done|]. cbn [turn] in *. by rewrite IH. Qed.

Lemma exchanged_S m : ∀ i,
  exchanged (S m) i = exchanged m i ++ [(turn m i, message (turn m i), true)].
Proof. induction m as [|m IH]; intros i; [done|]. cbn [exchanged turn app] in *. by rewrite IH. Qed.

Lemma exchanged_length m : ∀ i, length (exchanged m i) = m.
Proof. induction m as [|m IH]; intros i; [done|]. cbn. by rewrite IH. Qed.

Lemma exchanged_delivered m : ∀ i j d, (j, d, false) ∉ exchanged m i.
Proof.
  induction m as [|m IH]; intros i j d; cbn; [apply not_elem_of_nil|].
  apply not_elem_of_cons. split; [congruence|apply IH].
Qed.

Section Exchange.
Context (even_id odd_id : Z).

Definition ids (i : Side) : Z := match i with Even => even_id | Odd => odd_id end.

(** Node [i] stands at [p] and the other one at [q], with its radio on while [i]
    sends. *)
Definition positions (i : Side) (a : bool) (p q : Pos) (s : System) : Prop :=
  ended s = false ∧ stands a i (ids i) p (station s i) ∧
  stands false (other i) (ids (other i)) q (station s (other i)) ∧
  (in_air p = true → radio (station s (other i)) = RX).

(** After [steps] steps [m] packets have been exchanged, and one node has the last
    of them, or the first one to send. *)
Definition exchanging (m steps : nat) (s : System) : Prop :=
  ∃ p q, positions (turn m Even) true p q s ∧ aired s = exchanged m Even ∧
    (steps + 7 <= 10 * m + index p + index q)%nat.

(** A packet was lost: both nodes wait for the other. *)
Definition silent (m steps : nat) (s : System) : Prop :=
  ∃ i p q, positions i false p q s ∧
    aired s = exchanged m Even ++ [(turn m Even, message (turn m Even), false)] ∧
    (steps <= index p + index q)%nat.

(** A step of one of the nodes on its own. *)
Lemma positions_own i a p q b c s s' j :
  positions i a p q s → own_side c = Some j → regular b c s = true → step c s = Some s' →
  ∃ p' q', positions i a p' q' s' ∧ aired s' = aired s ∧ (index p + index q < index p' + index q')%nat.
Proof.
  intros (He & Hi & Ho & Hair) Hc Hreg. rewrite (step_own _ _ _ _ Hc He Hreg).
  destruct (decide (j = i)) as [->|Hj].
  - pose proof (own_step_next _ _ _ _ _ c Hi) as H. destruct (next a c p) as [p'|] eqn:Hn; [|by rewrite H].
    destruct H as (x & Hs & Hx). rewrite Hs. intros [= <-]. pose proof (next_index _ _ _ _ Hn).
    exists p', q. unfold positions. stations. split_and!; [done..| |done|lia].
    intros Hin. apply Hair. by destruct c, p, a; try done; injection Hn as <-.
  - assert (j = other i) as -> by (by destruct i, j).
    pose proof (own_step_next _ _ _ _ _ c Ho) as H. destruct (next false c q) as [q'|] eqn:Hn; [|by rewrite H].
    destruct H as (x & Hs & Hx). rewrite Hs. intros [= <-]. pose proof (next_index _ _ _ _ Hn).
    exists p, q'. unfold positions. stations. split_and!; [done..| |done|lia].
    intros Hin. eauto using own_step_radio.
Qed.

(** A packet reaches the air. *)
Lemma positions_transmit i a p q b s s' j :
  positions i a p q s → regular b (TransmitRuns j) s = true → step (TransmitRuns j) s = Some s' →
  a = true ∧ ∃ p', positions i true p' q s' ∧ aired s' = aired s ∧ (index p < index p')%nat.
Proof.
  intros (He & Hi & Ho & Hair) Hreg Hstep. cbn [step] in Hstep. unfold transmit_runs in Hstep.
  destruct (decide (j = i)) as [->|Hj]; last first.
  { assert (j = other i) as -> by (by destruct i, j). by rewrite (stands_quiet _ _ _ _ Ho) in Hstep. }
  destruct a; [|by rewrite (stands_quiet _ _ _ _ Hi) in Hstep]. split; [done|].
  assert (radio (station s (other i)) ≠ OFF) as Hoff.
  { destruct i; [by apply bool_decide_eq_true in Hreg|]. intros H. destruct Ho.
    specialize (st_role0 eq_refl). destruct (in_air q) eqn:Hq; [by destruct q|].
    destruct st_radio0 as [|([|] & _ & _)]; [congruence|done..]. }
  rewrite (st_tx_task _ _ _ _ _ Hi) in Hstep.
  pose proof (stands_on _ _ _ _ Ho Hoff) as Hrx.
  destruct (airborne p) as [p'|] eqn:Hp; [|by destruct p].
  assert (tx_task_at i p = Some (ToSend (message i))) as Ht by (by destruct p).
  rewrite Ht, (stands_hears _ _ _ _ _ _ _ Hi Ho Hoff) in Hstep.
  unfold interrupt in Hstep. rewrite (stands_quiet _ _ _ _ Ho) in Hstep. injection Hstep as <-.
  exists p'. unfold positions. stations. split_and!; [done|by eapply stands_airborne|done..|].
  destruct p; try done; injection Hp as <-; cbn; lia.
Qed.

(** A packet ends: the other node has it, or both await one. *)
Lemma positions_end i a p q d s s' j :
  positions i a p q s → step (AirEnds j d) s = Some s' →
  a = true ∧ aired s' = aired s ++ [(i, message i, d)] ∧
  ∃ p', landed p = Some p' ∧ positions (other i) d q p' s'.
Proof.
  intros (He & Hi & Ho & Hair) Hstep. cbn [step] in Hstep. unfold air_ends in Hstep.
  destruct (decide (j = i)) as [->|Hj]; last first.
  { assert (j = other i) as -> by (by destruct i, j). by rewrite (stands_quiet _ _ _ _ Ho) in Hstep. }
  destruct a; [|by rewrite (stands_quiet _ _ _ _ Hi) in Hstep]. split; [done|].
  rewrite (st_tx_task _ _ _ _ _ Hi) in Hstep.
  destruct (landed p) as [p'|] eqn:Hp; [|by destruct p].
  assert (tx_task_at i p = Some (OnAir (message i) true)) as Ht by (by destruct p).
  rewrite Ht in Hstep.
  assert (radio (station s (other i)) ≠ OFF) as Hoff by (rewrite Hair; by destruct p).
  rewrite (stands_hears _ _ _ _ _ _ _ Hi Ho Hoff), andb_true_r in Hstep. cbn [andb] in Hstep.
  injection Hstep as <-. split; [by destruct d|]. exists p'. split; [done|].
  pose proof (stands_gets _ _ _ _ Ho) as Hg. pose proof (stands_landed _ _ _ _ _ Hi Hp) as Hl.
  rewrite other_other in Hg. unfold positions. rewrite other_other.
  pose proof (stands_role _ _ _ _ Ho) as Hq.
  assert (in_air q = false) as Hqa by (by destruct q).
  destruct d, i; cbn [other] in *; (split_and!; [done|assumption..|]); by rewrite Hqa.
Qed.

Lemma no_failure i f e s : ended s = false → step (Fails i f e) s = None.
Proof. intros H. cbn. by rewrite H. Qed.

Lemma exchanging_step b m k c s s' :
  exchanging m k s → regular b c s = true → step c s = Some s' →
  ∃ m', exchanging m' (S k) s' ∨ b = false ∧ silent m' 0 s'.
Proof.
  intros (p & q & Hpos & Haired & Hk) Hreg Hstep. destruct (own_side c) as [j|] eqn:Hc.
  - destruct (positions_own _ _ _ _ _ _ _ _ _ Hpos Hc Hreg Hstep) as (p' & q' & Hp' & Ha & Hi).
    exists m. left. exists p', q'. split_and!; [done|congruence|lia].
  - pose proof (proj1 Hpos) as He. destruct c as [| | |j|j d| | |i' f e|]; try done.
    + destruct (positions_transmit _ _ _ _ _ _ _ _ Hpos Hreg Hstep) as (_ & p' & Hp' & Ha & Hi).
      exists m. left. exists p', q. split_and!; [done|congruence|lia].
    + destruct (positions_end _ _ _ _ _ _ _ _ Hpos Hstep) as (_ & Ha & p' & Hl & Hp').
      destruct d.
      * exists (S m). left. exists q, p'. rewrite turn_S, exchanged_S, <- Haired.
        split_and!; [done..|]. revert Hl. destruct p; try done; intros [= <-]; cbn in *; lia.
      * exists m. right. split; [by destruct b|]. exists (other (turn m Even)), q, p'.
        rewrite <- Haired. split_and!; [done..|lia].
    + by rewrite no_failure in Hstep.
Qed.

Lemma silent_step b m k c s s' :
  silent m k s → regular b c s = true → step c s = Some s' → silent m (S k) s' ∧ aired s' = aired s.
Proof.
  intros (i & p & q & Hpos & Haired & Hk) Hreg Hstep. destruct (own_side c) as [j|] eqn:Hc.
  - destruct (positions_own _ _ _ _ _ _ _ _ _ Hpos Hc Hreg Hstep) as (p' & q' & Hp' & Ha & Hi).
    split; [|done]. exists i, p', q'. split_and!; [done|congruence|lia].
  - pose proof (proj1 Hpos) as He. destruct c as [| | |j|j d| | |i' f e|]; try done.
    + by destruct (positions_transmit _ _ _ _ _ _ _ _ Hpos Hreg Hstep).
    + by destruct (positions_end _ _ _ _ _ _ _ _ Hpos Hstep).
    + by rewrite no_failure in Hstep.
Qed.

Lemma silent_run b cs : ∀ m k s s',
  silent m k s → regular_run b cs s = true → run cs s = Some s' →
  silent m (length cs + k) s' ∧ aired s' = aired s.
Proof.
  induction cs as [|c cs IH]; intros m k s s' Hs Hreg Hrun; [by injection Hrun as <-|].
  cbn in Hreg, Hrun. apply andb_true_iff in Hreg as [Hc Hreg].
  destruct (step c s) as [s1|] eqn:Hstep; [|done].
  destruct (silent_step _ _ _ _ _ _ Hs Hc Hstep) as [H1 <-].
  cbn [length]. rewrite Nat.add_succ_l, <- Nat.add_succ_r. eauto.
Qed.

Lemma exchanging_run b cs : ∀ m k s s',
  exchanging m k s → regular_run b cs s = true → run cs s = Some s' →
  ∃ m', exchanging m' (length cs + k) s' ∨ b = false ∧ ∃ r, silent m' r s'.
Proof.
  induction cs as [|c cs IH]; intros m k s s' Hs Hreg Hrun; [injection Hrun as <-; exists m; by left|].
  cbn in Hreg, Hrun. apply andb_true_iff in Hreg as [Hc Hreg].
  destruct (step c s) as [s1|] eqn:Hstep; [|done].
  cbn [length]. rewrite Nat.add_succ_l, <- Nat.add_succ_r.
  destruct (exchanging_step _ _ _ _ _ _ Hs Hc Hstep) as (m1 & [H1|[-> H1]]); [eauto|].
  exists m1. right. split; [done|]. destruct (silent_run _ _ _ _ _ _ H1 Hreg Hrun). eauto.
Qed.

Context (Heven : Z.rem even_id 2 = 0) (Hodd : Z.rem odd_id 2 ≠ 0).

Lemma boot_exchanging s : boot even_id odd_id = Some s → exchanging 0 0 s.
Proof.
  unfold boot. rewrite (boot_even _ Heven), (boot_odd _ Hodd). intros [= <-].
  exists ToSleep, ToListen. split_and!; [|done|cbn; lia].
  split_and!; [done| | |done]; constructor; cbn; auto; done.
Qed.

(** Where a node can go on by itself. *)
Definition way (packet : bool) (p : Pos) (i : Side) : option Choice :=
  match p with
  | SentGuard | SendGuard => Some (Guards i)
  | Sent | Sleeping => Some (Returns i)
  | ToListen | ToSleep | ToTransmit => Some (Starts i)
  | Turning => Some (ReceiveRuns i)
  | Listening => if packet then Some (Arrives i) else None
  | _ => None
  end.

Definition can_step (s : System) : Prop := ∃ c s', regular true c s = true ∧ step c s = Some s'.

Lemma way_steps a i p c s :
  ended s = false → stands a i (ids i) p (station s i) → way a p i = Some c → can_step s.
Proof.
  intros He Hi Hw. pose proof (own_step_next _ _ _ _ _ c Hi) as H.
  assert (own_side c = Some i ∧ is_Some (next a c p)) as [Hc [p' Hn]]
    by (destruct p, a; try done; injection Hw as <-; by eauto).
  rewrite Hn in H. destruct H as (x & Hx & _).
  assert (regular true c s = true) as Hreg.
  { destruct c as [|j| | | | | | |]; try done. injection Hc as ->. cbn in Hx |- *.
    by destruct (bool_decide_reflect (radio (station s i) = TX)); [|apply bool_decide_eq_true]. }
  exists c. eexists. split; [done|]. by rewrite (step_own _ _ _ _ Hc He Hreg), Hx.
Qed.

Lemma exchanging_can_step m k s : exchanging m k s → can_step s.
Proof.
  intros (p & q & (He & Hi & Ho & Hair) & _). set (i := turn m Even) in *.
  destruct (way false q (other i)) as [c|] eqn:Hq; [eauto using way_steps|].
  destruct (way true p i) as [c|] eqn:Hp; [eauto using way_steps|].
  assert (q = Listening) as -> by (pose proof (stands_role _ _ _ _ Ho); by destruct q).
  pose proof (st_tx_task _ _ _ _ _ Hi) as Ht.
  destruct p; try done; cbn in Ht.
  - exists (TransmitRuns i). cbn. unfold transmit_runs. rewrite Ht. eexists. split; [|done].
    destruct i; [|done]. cbn in Ho. apply bool_decide_eq_true.
    by destruct (st_radio _ _ _ _ _ Ho) as [->|(_ & ? & _)].
  - exists (AirEnds i true). cbn. unfold air_ends. rewrite Ht. eauto.
  - exists (AirEnds i true). cbn. unfold air_ends. rewrite Ht. eauto.
Qed.

(** C9: the two firmwares exchange their messages for as long as the simulation
    lasts.  In every regular interleaving ([regular_run true]: no packet is lost,
    the guard of [sim_wait_transmit_finished] never finds its own transmission, the
    odd node has its radio on before the even node sends, and the simulation has
    not ended) the packets on the air are ping, pong, ping, ..., each received by
    the other node, from the even node in turn with the odd one; neither node
    stops, both go on (the number of steps bounds the number of packets from
    below), and there is always a next regular step.  When the guard does find its
    own transmission, a node can stop ([guard_race_stops_node]). *)
Theorem ping_pong_exchange cs s0 s :
  boot even_id odd_id = Some s0 → regular_run true cs s0 = true → run cs s0 = Some s →
  aired s = exchanged (length (aired s)) Even ∧
  (length cs <= 10 * length (aired s) + 7)%nat ∧
  (∀ i c, at_call (station s i) ≠ Finished c) ∧ can_step s.
Proof.
  intros H0 Hreg Hrun.
  destruct (exchanging_run _ _ _ _ _ _ (boot_exchanging _ H0) Hreg Hrun) as (m & [H|[[=] _]]).
  pose proof (exchanging_can_step _ _ _ H) as Hcan.
  destruct H as (p & q & (_ & Hi & Ho & _) & Ha & Hk).
  assert (length (exchanged m Even) = m) as Hm by apply exchanged_length.
  rewrite Ha, Hm. split_and!; [done| | |done].
  2:{ intros i c. destruct (decide (i = turn m Even)) as [->|Hi']; [by eapply stands_runs|].
    assert (i = other (turn m Even)) as -> by (by destruct i, (turn m Even)). by eapply stands_runs. }
  pose proof (stands_role _ _ _ _ Ho). assert (index p <= 10 ∧ index q <= 4)%nat as [] by
    (destruct p, q; cbn in *; try done; lia). lia.
Qed.

(** A node blocked in [sim_receive_blocking_no_timeout]: the radio listens, no
    packet is queued, and none of its own is to be sent. *)
Definition waits_for_packet (x : Station) : Prop :=
  (∃ len k, at_call x = AtReceive len k) ∧ phase x = Waiting ∧ rx_task x = Some Receiving ∧
  rx_queue x = [] ∧ tx_task x = None ∧ radio x = RX.

Lemma stands_waits i n x : stands false i n Listening x → waits_for_packet x.
Proof.
  intros []. pose proof (awaits_shape _ _ _ _ st_call0) as (k & Hk & _). split_and!; try done.
  - by exists 256, k.
  - by destruct st_radio0 as [|(_ & ? & _)].
Qed.

(** Without a packet a node goes on until it waits for one. *)
Lemma way_without_packet i n p x :
  stands false i n p x → way false p i = None → p = Listening.
Proof. intros H. pose proof (stands_role _ _ _ _ H). by destruct p. Qed.

Lemma silent_outcome m k s :
  silent m k s → can_step s ∨ ∀ i, waits_for_packet (station s i).
Proof.
  intros (i & p & q & (He & Hi & Ho & _) & _).
  destruct (way false p i) as [c|] eqn:Hp; [eauto using way_steps|].
  destruct (way false q (other i)) as [c|] eqn:Hq; [eauto using way_steps|].
  apply (way_without_packet _ _ _ _ Hi) in Hp as ->. apply (way_without_packet _ _ _ _ Ho) in Hq as ->.
  apply stands_waits in Hi, Ho. right. intros j. by destruct i, j.
Qed.

Lemma silent_ended m k s : silent m k s → ended s = false.
Proof. by intros (i & p & q & (? & _) & _). Qed.

Lemma silent_runs m k s i c : silent m k s → at_call (station s i) ≠ Finished c.
Proof.
  intros (j & p & q & (_ & Hi & Ho & _) & _).
  destruct (decide (i = j)) as [->|Hij]; [by eapply stands_runs|].
  assert (i = other j) as -> by (by destruct i, j). by eapply stands_runs.
Qed.

(** Two nodes that wait for a packet wait to the end of the simulation. *)
Lemma waiting_stuck s c s' :
  ended s = false → (∀ i, waits_for_packet (station s i)) → step c s = Some s' → c = SimEnds.
Proof.
  intros He Hw.
  destruct c as [i|i|i|i|i d|i|i|i f e|]; cbn [step]; rewrite ?He; try done;
    destruct (Hw i) as ((len & k & Hc) & Hp & Hr & Hq & Ht & _);
    unfold starts, guards, receive_runs, arrives, returns, transmit_runs, air_ends;
    by rewrite ?Hp, ?Hc, ?Hr, ?Hq, ?Ht.
Qed.

(** C37: a lost packet ends the exchange for good, in the regular runs with
    losses.  The lost packet is the last one on the air; after it neither program
    finishes, at most eight steps follow, and where no regular step is left both
    nodes are blocked in [sim_receive_blocking_no_timeout], each with its radio
    listening for the other, and the only step of all is the end of the
    simulation. *)
Theorem lost_packet_silences cs s0 s i d :
  boot even_id odd_id = Some s0 → regular_run false cs s0 = true → run cs s0 = Some s →
  (i, d, false) ∈ aired s →
  (∃ m, aired s = exchanged m Even ++ [(turn m Even, message (turn m Even), false)]) ∧
  ∀ cs' s', regular_run false cs' s = true → run cs' s = Some s' →
    (length cs' <= 8)%nat ∧ aired s' = aired s ∧
    (∀ j c, at_call (station s' j) ≠ Finished c) ∧
    (can_step s' ∨
     (∀ j, waits_for_packet (station s' j)) ∧ ∀ c s'', step c s' = Some s'' → c = SimEnds).
Proof.
  intros H0 Hreg Hrun Hin.
  destruct (exchanging_run _ _ _ _ _ _ (boot_exchanging _ H0) Hreg Hrun) as (m & [H|(_ & r & H)]).
  { destruct H as (p & q & _ & Ha & _). rewrite Ha in Hin. by apply exchanged_delivered in Hin. }
  split; [exists m; by destruct H as (? & ? & ? & ? & ? & ?)|].
  intros cs' s' Hreg' Hrun'. destruct (silent_run _ _ _ _ _ _ H Hreg' Hrun') as [H' Ha].
  split_and!; [|done|intros; by eapply silent_runs|].
  - destruct H' as (j & p & q & (_ & Hi & Ho & _) & _ & Hk).
    pose proof (stands_role _ _ _ _ Hi). pose proof (stands_role _ _ _ _ Ho).
    assert (index p <= 4 ∧ index q <= 4)%nat as [] by (destruct p, q; cbn in *; try done; lia). lia.
  - destruct (silent_outcome _ _ _ H') as [|Hw]; [by left|right]. split; [done|].
    intros c s''. apply waiting_stuck; [by eapply silent_ended|done].
Qed.
End Exchange.

(** A run, by evaluation of what is observed at its end. *)
Lemma system_observe {A} (obs : System → A) cs x y e o :
  (s0 ← boot e o; s ← run cs s0; Some (obs s0, obs s)) = Some (x, y) →
  ∃ s0 s, boot e o = Some s0 ∧ run cs s0 = Some s ∧ obs s = y.
Proof.
  destruct (boot e o) as [s0|]; [|done]. cbn. destruct (run cs s0) as [s|] eqn:Hs; [|done].
  intros [= _ <-]. exists s0, s. auto.
Qed.

(** The first ping and the pong that answers it; the pong waits in the queue. *)
Definition first_round : list Choice :=
  [Starts Odd; ReceiveRuns Odd; Starts Even; Returns Even; Starts Even; Guards Even;
   TransmitRuns Even; AirEnds Even true; Arrives Odd; Starts Odd; Returns Even; Returns Odd;
   Starts Odd; TransmitRuns Odd; AirEnds Odd true; Starts Even; ReceiveRuns Even].

Definition runs_regular (b : bool) (cs : list Choice) : bool :=
  match boot 2 1 with Some s0 => regular_run b cs s0 | None => false end.

Lemma runs_regular_at b cs s0 : runs_regular b cs = true → boot 2 1 = Some s0 → regular_run b cs s0 = true.
Proof. unfold runs_regular. intros H Hb. by rewrite Hb in H. Qed.

Lemma ping_pong_exchange_witness :
  ∃ s0 s, boot 2 1 = Some s0 ∧ run first_round s0 = Some s ∧
    aired s = [(Even, ping, true); (Odd, pong, true)] ∧ can_step s.
Proof.
  destruct (system_observe aired first_round _ _ 2 1 ltac:(vm_compute; reflexivity)) as (s0 & s & H0 & Hrun & Ha).
  exists s0, s. split; [exact H0|]. split; [exact Hrun|]. split; [exact Ha|].
  refine (proj2 (proj2 (proj2 (ping_pong_exchange 2 1 eq_refl _ first_round s0 s H0 _ Hrun)))); [discriminate|].
  apply runs_regular_at; [vm_compute; reflexivity | exact H0].
Defined.

(** The pong is lost. *)
Definition lossy_round : list Choice :=
  [Starts Odd; ReceiveRuns Odd; Starts Even; Returns Even; Starts Even; Guards Even;
   TransmitRuns Even; AirEnds Even true; Arrives Odd; Starts Odd; Returns Even; Returns Odd;
   Starts Odd; TransmitRuns Odd; AirEnds Odd false].

(** Six steps later both nodes wait. *)
Example silence_after_loss :
  ∃ s0 s, boot 2 1 = Some s0 ∧
    run (lossy_round ++ [Guards Odd; Returns Odd; Starts Odd; ReceiveRuns Odd; Starts Even;
           ReceiveRuns Even]) s0 = Some s ∧
    ∀ i, phase (station s i) = Waiting ∧ rx_task (station s i) = Some Receiving.
Proof.
  destruct (system_observe (λ s, (phase (station s Even), rx_task (station s Even),
      phase (station s Odd), rx_task (station s Odd)))
    (lossy_round ++ [Guards Odd; Returns Odd; Starts Odd; ReceiveRuns Odd; Starts Even; ReceiveRuns Even])
    _ _ 2 1 ltac:(vm_compute; reflexivity)) as (s0 & s & H0 & Hrun & [= H1 H2 H3 H4]).
  exists s0, s. split_and!; [done..|]. by intros [].
Qed.

Lemma lost_packet_silences_witness :
  ∃ s0 s, boot 2 1 = Some s0 ∧ run lossy_round s0 = Some s ∧
    aired s = [(Even, ping, true); (Odd, pong, false)] ∧
    ∀ cs' s', regular_run false cs' s = true → run cs' s = Some s' →
      aired s' = aired s ∧ (can_step s' ∨ ∀ j, waits_for_packet (station s' j)).
Proof.
  destruct (system_observe aired lossy_round _ _ 2 1 ltac:(vm_compute; reflexivity)) as (s0 & s & H0 & Hrun & Ha).
  exists s0, s. split; [exact H0|]. split; [exact Hrun|]. split; [exact Ha|].
  intros cs' s' Hreg Hrun'.
  destruct (proj2 (lost_packet_silences 2 1 eq_refl ltac:(discriminate) lossy_round s0 s Odd pong H0
    (runs_regular_at false lossy_round s0 ltac:(vm_compute; reflexivity) H0) Hrun
    ltac:(rewrite Ha; right; left)) cs' s' Hreg Hrun') as (_ & Haired & _ & Hw).
  split; [exact Haired|]. destruct Hw as [Hc|[Hw _]]; [left; exact Hc | right; exact Hw].
Defined.

(** When the transmission reaches the radio before the guard, the first
    transmission fails; the even node ignores that, its reception is refused with
    the error 1, which it takes for a message of one byte, and it stops, while its
    ping arrives. *)
Lemma guard_race_stops_node :
  ∃ s0 s, boot 2 1 = Some s0 ∧
    run [Starts Odd; ReceiveRuns Odd; Starts Even; Returns Even; Starts Even; TransmitRuns Even;
         Guards Even; Starts Even; AirEnds Even true] s0 = Some s ∧
    aired s = [(Even, ping, true)] ∧ at_call (station s Even) = Finished 0 ∧
    stdout (local (station s Even)) =
      [("%d Starting node\n", [AInt 2]); ("%d Sending  '%s'\n", [AInt 2; AStr ping]);
       ("%d Error sending '%s': %d\n", [AInt 2; AStr ping; AInt (-2)]);
       ("%d Received unkown message: '%s' (len %d) \n", [AInt 2; AStr []; AInt 1]);
       ("%d Sim done\n", [AInt 2])].
Proof.
  match goal with |- ∃ s0 s, _ ∧ run ?cs _ = _ ∧ _ =>
    destruct (system_observe (λ s, (aired s, match at_call (station s Even) with Finished c => Some c | _ => None end,
      stdout (local (station s Even)))) cs _ _ 2 1 ltac:(vm_compute; reflexivity)) as (s0 & s & H0 & Hrun & [= Ha Hc Ho]) end.
  exists s0, s. split_and!; try done. destruct (at_call (station s Even)); congruence.
Qed.
