(* ===== verification/PingPongEnd.v ===== *)
(** * The ping-pong firmware: the end of the simulation.

    What holds of the two nodes in every run, regular or not, and that both
    programs return when the simulation ends. *)

From ITree Require Import ITree.
From S2P Require Import Prelude NativeNode PingPong PingPongProofs.

(** ** The end of the simulation *)

(** The program after a reception and after a transmission of the loop. *)
Definition epilogue (n : Z) : itree simE Z := ITree.trigger (Printf "%d Sim done\n" [AInt n]);; Ret 0.
Definition loop_again (i : Side) (lr : unit + unit) : itree simE unit :=
  match lr with
  | inl l => Tau (ITree.iter (exchange_once (message (other i)) (pause i) (message i)) l)
  | inr r => Ret r
  end.
Definition received (n : Z) (i : Side) (t : itree simE Z) : itree simE Z :=
  ((t ≫= answer_received (pause i) (message i)) ≫= loop_again i) ≫= λ _, epilogue n.
Definition sent (n : Z) (i : Side) (t : itree simE Z) : itree simE Z :=
  ((t ≫= reply_sent) ≫= loop_again i) ≫= λ _, epilogue n.
Definition first_sent (n : Z) (t : itree simE Z) : itree simE Z :=
  (t ≫= λ _, exchange pong 4 ping) ≫= λ _, epilogue n.

(** The blocking calls of the program. *)
Inductive Point := PListen | PSleep | PSend | PFirstSleep | PFirstSend | PDone.
#[export] Instance Point_eq_dec : EqDecision Point.
Proof. solve_decision. Defined.

Definition blocked_at (n : Z) (i : Side) (pt : Point) : Blocked :=
  match pt with
  | PListen => listen_point n i
  | PSleep => sleep_point n i
  | PSend => send_point n i
  | PFirstSleep => first_sleep n
  | PFirstSend => first_send n
  | PDone => Finished 0
  end.

#[local] Transparent listen_point sleep_point send_point first_sleep first_send.
Lemma listen_then n i :
  blocked_at n i PListen = AtReceive 256 (λ r, received n i (Ret r ≫= check_received (message (other i)))).
Proof. reflexivity. Qed.

Lemma send_then n i :
  blocked_at n i PSend = AtTransmit (message i) 4 (λ e, sent n i (Ret e ≫= check_sent (message i))).
Proof. by destruct i. Qed.

Lemma first_send_then n i :
  blocked_at n i PFirstSend = AtTransmit ping 4 (λ e, first_sent n (Ret e ≫= check_sent ping)).
Proof. reflexivity. Qed.

Lemma settle_observe f n t1 t2 l : observe t1 = observe t2 → settle (S f) n t1 l = settle (S f) n t2 l.
Proof. intros H. cbn. by rewrite H. Qed.

Lemma settles_observe n t1 t2 b : observe t1 = observe t2 → settles n t2 b → settles n t1 b.
Proof. intros H Ht l. destruct (Ht l) as [out Hout]. exists out. by rewrite <- Hout; apply settle_observe. Qed.

Ltac settled := intros []; eexists; reflexivity.

(** Whatever a reception returns, the program stops or sleeps. *)
Lemma received_point n i r :
  ∃ pt, (pt = PDone ∨ pt = PSleep) ∧
    settles n (received n i (Ret r ≫= check_received (message (other i)))) (blocked_at n i pt).
Proof.
  enough (∃ pt, (pt = PDone ∨ pt = PSleep) ∧
    settles n (received n i (check_received (message (other i)) r)) (blocked_at n i pt)) as (pt & ? & H)
    by (exists pt; split; [done|]; by eapply settles_observe, H).
  unfold check_received. destruct (r.1 <=? 0); [exists PDone; split; [by left|settled]|].
  destruct (_ && _); [exists PSleep; split; [by right|destruct i; settled]|].
  exists PDone. split; [by left|settled].
Qed.

(** A transmission that fails stops it, but for the first one. *)
Lemma sent_point n i e :
  settles n (sent n i (Ret e ≫= check_sent (message i)))
    (blocked_at n i (if e =? 0 then PListen else PDone)).
Proof.
  apply (settles_observe _ _ (sent n i (check_sent (message i) e))); [done|].
  unfold check_sent. destruct (e =? 0) eqn:He; cbn [negb]; [destruct i; settled|].
  destruct e as [|e|e]; [done|settled|settled].
Qed.

Lemma first_sent_point n e :
  settles n (first_sent n (Ret e ≫= check_sent ping)) (blocked_at n Even PListen).
Proof.
  apply (settles_observe _ _ (first_sent n (check_sent ping e))); [done|].
  unfold check_sent. destruct (negb (e =? 0)); settled.
Qed.

#[local] Opaque listen_point sleep_point send_point first_sleep first_send received sent first_sent.

(** What holds of a node in every run, regular or not: its program is at one of its
    blocking calls, and a call that waits has a task, or the end of one, to wait
    for. *)
Record sound (n : Z) (i : Side) (pt : Point) (x : Station) : Prop := {
  so_id : id x = n;
  so_call : at_call x = blocked_at n i pt;
  so_first : match pt with PFirstSleep | PFirstSend => i = Even | _ => True end;
  so_phase : match pt, phase x with
             | (PSleep | PFirstSleep), Guarding | PListen, Guarding => False
             | PListen, Waiting => rx_task x ≠ None
             | (PSend | PFirstSend), (Guarding | Waiting) => tx_task x ≠ None ∨ tx_done x ≠ None
             | PDone, (Guarding | Waiting) => False
             | _, _ => True
             end;
  so_rx : rx_task x ≠ None → pt = PListen ∧ phase x = Waiting }.

(** The steps that are left to a node when the simulation has ended. *)
Definition steps_of_task (x : Station) : nat :=
  match tx_task x with Some (ToSend _) => 2 | Some (OnAir _ _) => 1 | None => 0 end.
Definition steps_of_call (pt : Point) (x : Station) : nat :=
  match pt, phase x with
  | PFirstSleep, Fresh => 14 | PFirstSleep, _ => 13
  | (PFirstSend | PSend), Guarding => 11 | (PFirstSend | PSend), Waiting => 10
  | PFirstSend, Fresh => 12
  | PListen, Fresh => 9
  | PListen, _ => match rx_task x with Some ToReceive => 8 | _ => 7 end
  | PSleep, Fresh => 6 | PSleep, _ => 5
  | PSend, Fresh => 4
  | PDone, _ => 0
  end.
Definition steps_left (pt : Point) (x : Station) : nat := (steps_of_call pt x + steps_of_task x)%nat.

(** A call returns to the blocking call [pt]. *)
Lemma resume_sound n i pt x t :
  id x = n → rx_task x = None → settles n t (blocked_at n i pt) →
  match pt with PFirstSleep | PFirstSend => i = Even | _ => True end →
  ∃ x', resume x t = Some x' ∧ sound n i pt x' ∧ phase x' = Fresh ∧ tx_task x' = tx_task x.
Proof.
  intros <- Hrx Hs Hf. destruct (resume_settles _ _ _ Hs) as [out ->]. eexists. split; [done|].
  split; [|done]. constructor; cbn; auto; by destruct pt || by rewrite Hrx.
Qed.

(** It has fewer steps left than [k]. *)
Definition went_on (n : Z) (i : Side) (k : nat) (r : option Station) : Prop :=
  ∃ x' pt, r = Some x' ∧ sound n i pt x' ∧ (steps_left pt x' < k)%nat.

Lemma resume_went_on n i pt x t k :
  id x = n → rx_task x = None → settles n t (blocked_at n i pt) →
  match pt with PFirstSleep | PFirstSend => i = Even | _ => True end →
  (steps_of_call pt (x <| phase := Fresh |>) + steps_of_task x < k)%nat →
  went_on n i k (resume x t).
Proof.
  intros Hid Hrx Hs Hf Hk. destruct (resume_sound _ _ _ _ _ Hid Hrx Hs Hf) as (x' & -> & Hx & Hp & Ht).
  exists x', pt. split_and!; [done..|]. unfold steps_left, steps_of_task in *. rewrite Ht.
  enough (steps_of_call pt x' = steps_of_call pt (x <| phase := Fresh |>)) by lia.
  unfold steps_of_call. rewrite Hp. by destruct pt.
Qed.

Lemma received_went_on n i x r k :
  id x = n → rx_task x = None → (6 + steps_of_task x < k)%nat →
  went_on n i k (resume x (received n i (Ret r ≫= check_received (message (other i))))).
Proof.
  intros Hid Hr Hk. destruct (received_point n i r) as (pt & Hpt & Hs).
  eapply resume_went_on; try done; destruct Hpt as [-> | ->]; try done; cbn; lia.
Qed.

Lemma receive_ends_went_on n i x m e k :
  id x = n → at_call x = blocked_at n i PListen → (6 + steps_of_task x < k)%nat →
  went_on n i k (receive_ends x m e).
Proof.
  intros Hid Hc Hk. unfold receive_ends. rewrite Hc, listen_then. by apply received_went_on.
Qed.

Lemma returned_went_on n i pt x :
  sound n i pt x → (pt = PSend ∨ pt = PFirstSend) →
  ∃ d k', at_call x = AtTransmit d 4 k' ∧ ∀ (y : Station) (e : Z) k,
    id y = n → rx_task y = rx_task x → tx_task y = tx_task x →
    ((match pt with PSend => if (e =? 0)%Z then 9 else 0 | _ => 9 end) + steps_of_task x < k)%nat →
    went_on n i k (resume y (k' e)).
Proof.
  intros [Hid Hc Hf Hp Hrx] Hpt.
  assert (rx_task x = None) as Hr.
  { destruct (rx_task x); [|done]. destruct Hrx as [-> _]; [done|]. by destruct Hpt. }
  rewrite Hr. unfold steps_of_task. destruct Hpt as [-> | ->].
  - rewrite Hc, send_then. eexists _, _. split; [done|]. intros y e k Hy Hry Hty Hk.
    eapply resume_went_on; [done..|apply sent_point| |]; unfold steps_of_task; rewrite ?Hty;
      destruct (e =? 0)%Z; try done; cbn; lia.
  - cbn in Hf. subst i. rewrite Hc, first_send_then. eexists _, _. split; [done|]. intros y e k Hy Hry Hty Hk.
    eapply resume_went_on; [done..|apply first_sent_point| |]; unfold steps_of_task; rewrite ?Hty;
      try done; cbn; lia.
Qed.

Lemma slept_went_on n i pt x k :
  sound n i pt x → (pt = PSleep ∨ pt = PFirstSleep) → (steps_left pt x <= k)%nat →
  ∃ d k', at_call x = AtSleep d k' ∧ went_on n i k (resume x (k' tt)).
Proof.
  intros [Hid Hc Hf Hp Hrx] Hpt Hk.
  assert (rx_task x = None) as Hr.
  { destruct (rx_task x); [|done]. destruct Hrx as [-> _]; [done|]. by destruct Hpt. }
  unfold steps_left in Hk.
  destruct Hpt as [-> | ->]; cbn in Hc.
  - destruct (sleeps n i) as (d & k' & Hs & Hk'). rewrite Hc, Hs. eexists _, _. split; [done|].
    eapply (resume_went_on _ _ PSend); try done; cbn in *. destruct (phase x); lia.
  - destruct (first_sleeps n) as (d & k' & Hs & Hk'). rewrite Hc, Hs. eexists _, _. split; [done|].
    eapply (resume_went_on _ _ PFirstSend); try done; cbn in *. destruct (phase x); lia.
Qed.

(** Every step of a node keeps this; when the simulation is over, it also uses up
    one of the steps that are left. *)
Definition goes_on (over : bool) (n : Z) (i : Side) (k : nat) (r : option Station) : Prop :=
  ∀ x', r = Some x' → ∃ pt, sound n i pt x' ∧ (over = true → (steps_left pt x' < k)%nat).

Lemma went_on_goes_on over n i k k' r :
  went_on n i k r → (over = true → (k <= k')%nat) → goes_on over n i k' r.
Proof.
  intros (x & pt & -> & Hs & Hlt) Hle x' [= <-]. exists pt. split; [done|].
  intros Ho. specialize (Hle Ho). lia.
Qed.

(** A step that stays at the same blocking call. *)
Ltac moves_to pt Hph :=
  intros ? [= <-]; exists pt; split;
  [constructor; cbn; auto; rewrite ?Hph; auto; intros; congruence | intros; unfold steps_left, steps_of_task; cbn; rewrite ?Hph; lia].

Lemma starts_goes_on over n i pt x :
  sound n i pt x → goes_on over n i (steps_left pt x) (starts x over).
Proof.
  intros Hx x'. pose proof Hx as [Hid Hc Hf Hp Hrx]. unfold starts.
  destruct (phase x) eqn:Hph; try done.
  assert (rx_task x = None) as Hr by (destruct (rx_task x); [|done]; by destruct Hrx).
  assert (pt = PSleep ∨ pt = PFirstSleep → ∃ d k, at_call x = AtSleep d k) as Hsleep.
  { intros Hpt. destruct (slept_went_on _ _ _ _ _ Hx Hpt (le_n _)) as (d & k & ? & _). eauto. }
  assert (pt = PSend ∨ pt = PFirstSend → goes_on over n i (steps_left pt x) (starts x over)) as Hsend.
  { intros Hpt y. unfold starts. rewrite Hph.
    destruct (returned_went_on _ _ _ _ Hx Hpt) as (d & k & -> & Hk). revert y.
    assert (∀ e, (e =? 0)%Z = false → went_on n i (steps_left pt x) (resume x (k e))) as Hfail.
    { intros e He. apply Hk; [done..|]. unfold steps_left. rewrite He.
      destruct Hpt as [-> | ->]; cbn; rewrite Hph; lia. }
    case_bool_decide; [by eapply went_on_goes_on; [apply Hfail|]|].
    destruct over; [by eapply went_on_goes_on; [apply Hfail|]|].
    destruct (tx_task x); [done|]. intros x1 [= <-]. exists pt. split; [|done].
    destruct Hpt as [-> | ->]; constructor; cbn; auto; by (left + rewrite Hr). }
  destruct pt.
  - rewrite Hc, listen_then. revert x'. case_bool_decide.
    + eapply went_on_goes_on; [|done]. apply received_went_on; [done..|]. unfold steps_left. cbn. rewrite Hph. lia.
    + moves_to PListen Hph.
  - destruct Hsleep as (d & k & ->); [by left|]. revert x'. moves_to PSleep Hph.
  - specialize (Hsend ltac:(by left) x'). unfold starts in Hsend. by rewrite Hph in Hsend.
  - destruct Hsleep as (d & k & ->); [by right|]. revert x'. moves_to PFirstSleep Hph.
  - specialize (Hsend ltac:(by right) x'). unfold starts in Hsend. by rewrite Hph in Hsend.
  - by rewrite Hc.
Qed.

Lemma guards_goes_on over n i pt x :
  sound n i pt x → goes_on over n i (steps_left pt x) (guards x).
Proof.
  intros Hx. pose proof Hx as [Hid Hc Hf Hp Hrx]. unfold guards.
  destruct (phase x) eqn:Hph; try (intros ?; done).
  assert (pt = PSend ∨ pt = PFirstSend) as Hpt by (destruct pt; auto; done).
  destruct (returned_went_on _ _ _ _ Hx Hpt) as (d & k & -> & Hk). case_bool_decide.
  - eapply went_on_goes_on; [apply Hk; [done..|]|done]. unfold steps_left.
    destruct Hpt as [-> | ->]; cbn; rewrite Hph; lia.
  - intros ? [= <-]. exists pt. split.
    + destruct Hpt as [-> | ->]; constructor; cbn; auto; intros Hr; by destruct (Hrx Hr).
    + intros _. unfold steps_left. destruct Hpt as [-> | ->]; cbn; rewrite Hph; unfold steps_of_task; cbn; lia.
Qed.

Lemma returns_goes_on over n i pt x :
  sound n i pt x → goes_on over n i (steps_left pt x) (returns x).
Proof.
  intros Hx. pose proof Hx as [Hid Hc Hf Hp Hrx]. unfold returns.
  destruct (phase x) eqn:Hph; try (intros ?; done).
  destruct (decide (pt = PSleep ∨ pt = PFirstSleep)) as [Hpt|Hns].
  { destruct (slept_went_on _ _ _ _ _ Hx Hpt (le_n _)) as (d & k & -> & Hk).
    by eapply went_on_goes_on. }
  destruct (decide (pt = PSend ∨ pt = PFirstSend)) as [Hpt|Hnt].
  - destruct (returned_went_on _ _ _ _ Hx Hpt) as (d & k & -> & Hk).
    destruct (tx_done x) as [e|]; [|intros ?; done].
    eapply went_on_goes_on; [apply Hk; [done..|]|done]. unfold steps_left.
    destruct Hpt as [-> | ->]; cbn; rewrite Hph; try destruct (_ =? _)%Z; lia.
  - assert (pt = PListen) as -> by (destruct pt; tauto).
    rewrite Hc, listen_then. intros ?; done.
Qed.

(** The receive task of a node that listens. *)
Lemma rx_task_went_on over n i pt x y m e :
  sound n i pt x → rx_task x ≠ None → id y = id x → at_call y = at_call x → tx_task y = tx_task x →
  goes_on over n i (steps_left pt x) (receive_ends y m e).
Proof.
  intros [Hid Hc Hf Hp Hrx] Hr Hy Hcy Hty. destruct (Hrx Hr) as [-> Hph].
  eapply went_on_goes_on; [apply receive_ends_went_on; [congruence..|]|done].
  unfold steps_left, steps_of_task. rewrite Hty. cbn. rewrite Hph. repeat case_match; lia.
Qed.

Lemma receive_runs_goes_on over n i pt x :
  sound n i pt x → goes_on over n i (steps_left pt x) (receive_runs x).
Proof.
  intros Hx. unfold receive_runs. destruct (rx_task x) as [[|]|] eqn:Hr; try (intros ?; done).
  assert (rx_task x ≠ None) as Hne by (by rewrite Hr).
  destruct (rx_queue x); [case_bool_decide|]; try by eapply rx_task_went_on.
  intros ? [= <-]. destruct Hx as [Hid Hc Hf Hp Hrx]. destruct (Hrx Hne) as [-> Hph].
  exists PListen. split; [constructor; cbn; auto; by rewrite Hph|].
  intros _. unfold steps_left, steps_of_task. cbn. rewrite Hph, Hr. lia.
Qed.

Lemma arrives_goes_on over n i pt x :
  sound n i pt x → goes_on over n i (steps_left pt x) (arrives x).
Proof.
  intros Hx. unfold arrives. destruct (rx_task x) as [[|]|] eqn:Hr; try (intros ?; done).
  assert (rx_task x ≠ None) as Hne by (by rewrite Hr).
  destruct (rx_queue x); [intros ?; done|]. by eapply rx_task_went_on.
Qed.

(** What the other node or the radio changes does not matter to the call. *)
Lemma sound_frame n i pt x y :
  sound n i pt x → id y = id x → at_call y = at_call x → phase y = phase x →
  rx_task y = rx_task x → (tx_task y ≠ None ∨ tx_done y ≠ None ∨ tx_task x = None ∧ tx_done y = tx_done x) →
  sound n i pt y.
Proof.
  intros [Hid Hc Hf Hp Hrx] Hi Hcy Hph Hr Ht. constructor; [congruence..|done| |by rewrite Hr, Hph].
  rewrite Hph, Hr. destruct pt, (phase x); try done; destruct Ht as [|[|[Ht ->]]]; auto; rewrite Ht in Hp; tauto.
Qed.

Lemma steps_frame pt x y :
  phase y = phase x → rx_task y = rx_task x → tx_task y = tx_task x →
  steps_left pt y = steps_left pt x.
Proof. intros Hp Hr Ht. unfold steps_left, steps_of_call, steps_of_task. by rewrite Hp, Hr, Ht. Qed.

Lemma steps_less pt x y :
  phase y = phase x → rx_task y = rx_task x → (steps_of_task y < steps_of_task x)%nat →
  (steps_left pt y < steps_left pt x)%nat.
Proof. intros Hp Hr. unfold steps_left, steps_of_call. rewrite Hp, Hr. lia. Qed.

Lemma fails_goes_on over n i pt x f e :
  sound n i pt x → goes_on over n i (steps_left pt x) (fails x f e).
Proof.
  intros Hx. unfold fails. destruct f; [intros ?; done| |].
  - destruct (tx_task x) as [t|] eqn:Ht; [|intros ?; by destruct (rx_task x)]. intros ? Hx'. exists pt.
    assert (x' = x <| tx_task := None |> <| tx_done := Some e |>) as -> by (by destruct (rx_task x); injection Hx' as <-).
    split; [eapply sound_frame; [done..|by right; left]|]. intros _.
    apply steps_less; [done..|]. unfold steps_of_task. rewrite Ht. destruct t; cbn; lia.
  - destruct (rx_task x) as [r|] eqn:Hr; [|intros ?; done]. eapply rx_task_went_on; [done|by rewrite Hr|done..].
Qed.

Section End.
Context (even_id odd_id : Z).

(** Both nodes, with the steps that are left to them. *)
Definition sound_system (k : nat) (s : System) : Prop :=
  ∃ pe po, sound even_id Even pe (station s Even) ∧ sound odd_id Odd po (station s Odd) ∧
    (steps_left pe (station s Even) + steps_left po (station s Odd) = k)%nat.

(** A step of one node. *)
Lemma sound_set i r s s' k :
  sound_system k s →
  (∀ pt, sound (ids even_id odd_id i) i pt (station s i) →
     goes_on (ended s) (ids even_id odd_id i) i (steps_left pt (station s i)) r) →
  (x ← r; Some (set_station i x s)) = Some s' →
  ended s' = ended s ∧ ∃ k', sound_system k' s' ∧ (ended s = true → (k' < k)%nat).
Proof.
  intros (pe & po & He & Ho & Hk) Hr Hs. destruct r as [x|]; [|done]. injection Hs as <-.
  split; [done|]. destruct i; cbn in Hr.
  - destruct (Hr pe He x eq_refl) as (pt & Hx & Hlt).
    exists (steps_left pt x + steps_left po (station s Odd))%nat.
    split; [by exists pt, po|]. intros H. specialize (Hlt H). lia.
  - destruct (Hr po Ho x eq_refl) as (pt & Hx & Hlt).
    exists (steps_left pe (station s Even) + steps_left pt x)%nat.
    split; [by exists pe, pt|]. intros H. specialize (Hlt H). lia.
Qed.

(** A step of the radio of [i], which the other node may notice. *)
Lemma sound_radio i s s' k :
  sound_system k s → ended s' = ended s →
  (∀ j n pt, sound n j pt (station s j) → sound n j pt (station s' j)) →
  (∀ pt, (steps_left pt (station s' i) < steps_left pt (station s i))%nat) →
  (∀ pt, steps_left pt (station s' (other i)) = steps_left pt (station s (other i))) →
  ∃ k', sound_system k' s' ∧ (ended s = true → ended s' = true ∧ (k' < k)%nat).
Proof.
  intros (pe & po & He & Ho & Hk) Hend Hall Hi Hj.
  exists (steps_left pe (station s' Even) + steps_left po (station s' Odd))%nat.
  split; [exists pe, po; auto|]. rewrite Hend. intros H. split; [done|].
  specialize (Hall Even). destruct i; cbn in Hj; [specialize (Hi pe) | specialize (Hi po)]; rewrite Hj; lia.
Qed.

Lemma interrupt_frame n i pt x :
  (sound n i pt x → sound n i pt (interrupt x)) ∧ steps_left pt (interrupt x) = steps_left pt x.
Proof.
  unfold interrupt. destruct (tx_task x) as [[|]|] eqn:Ht; try done. split.
  - intros H. eapply sound_frame; [done..|by left].
  - unfold steps_left, steps_of_task. by rewrite Ht.
Qed.

(** Both stations are replaced by ones that the calls cannot tell apart. *)
Lemma sound_pair i s k (x y : Station) s' :
  sound_system k s → ended s' = ended s → station s' i = x → station s' (other i) = y →
  (∀ n pt, sound n i pt (station s i) → sound n i pt x) →
  (∀ n pt, sound n (other i) pt (station s (other i)) → sound n (other i) pt y) →
  (∀ pt, (steps_left pt x < steps_left pt (station s i))%nat) →
  (∀ pt, steps_left pt y = steps_left pt (station s (other i))) →
  ∃ k', sound_system k' s' ∧ (ended s = true → ended s' = true ∧ (k' < k)%nat).
Proof.
  intros Hs He <- <- Hi Hj Hlt Heq. eapply sound_radio; eauto.
  intros j n pt. destruct (decide (j = i)) as [->|Hji]; [apply Hi|].
  assert (j = other i) as -> by (by destruct i, j). apply Hj.
Qed.

Lemma transmit_runs_sound i k s s' :
  sound_system k s → transmit_runs i s = Some s' →
  ∃ k', sound_system k' s' ∧ (ended s = true → ended s' = true ∧ (k' < k)%nat).
Proof.
  intros Hs. unfold transmit_runs. destruct (tx_task (station s i)) as [[d|]|] eqn:Ht; try done.
  intros [= <-]. eapply (sound_pair i); [done|done|by stations|by stations| | | |].
  - intros n pt Hx. eapply sound_frame; [done..|by left].
  - intros n pt. apply interrupt_frame.
  - intros pt. apply steps_less; [done..|]. unfold steps_of_task. rewrite Ht. cbn. lia.
  - intros pt. by eapply (interrupt_frame 0).
Qed.

Lemma air_ends_sound i d k s s' :
  sound_system k s → air_ends i d s = Some s' →
  ∃ k', sound_system k' s' ∧ (ended s = true → ended s' = true ∧ (k' < k)%nat).
Proof.
  intros Hs. unfold air_ends. destruct (tx_task (station s i)) as [[|data heard]|] eqn:Ht; try done.
  set (delivered := _ && _). intros [= <-].
  eapply (sound_pair i); [done|done|by stations|by stations| | | |].
  - intros n pt Hx. eapply sound_frame; [done..|by right; left].
  - intros n pt Hy. destruct delivered; [|done]. eapply sound_frame; [done..|].
    cbn. destruct (tx_task (station s (other i))); [by left|right; right; done].
  - intros pt. apply steps_less; [done..|]. unfold steps_of_task. rewrite Ht. cbn. lia.
  - intros pt. destruct delivered; [by apply steps_frame|done].
Qed.

Lemma sound_step k c s s' :
  sound_system k s → step c s = Some s' →
  ∃ k', sound_system k' s' ∧ (ended s = true → ended s' = true ∧ (k' < k)%nat).
Proof.
  intros Hs Hstep.
  assert (∀ i r,
    (∀ pt, sound (ids even_id odd_id i) i pt (station s i) →
       goes_on (ended s) (ids even_id odd_id i) i (steps_left pt (station s i)) r) →
    (x ← r; Some (set_station i x s)) = Some s' →
    ∃ k', sound_system k' s' ∧ (ended s = true → ended s' = true ∧ (k' < k)%nat)) as Hset.
  { intros i r Hr Hx. destruct (sound_set _ _ _ _ _ Hs Hr Hx) as (He & k' & Hk' & Hlt).
    exists k'. split; [done|]. intros H. by rewrite He, H; auto. }
  destruct c as [i|i|i|i|i d|i|i|i f e|]; cbn [step] in Hstep;
    try (eapply Hset; [|exact Hstep]; intros pt Hpt).
  - by apply starts_goes_on.
  - by apply guards_goes_on.
  - by apply receive_runs_goes_on.
  - by eapply transmit_runs_sound.
  - by eapply air_ends_sound.
  - by apply arrives_goes_on.
  - by apply returns_goes_on.
  - destruct (_ && _); [|done]. eapply Hset; [|exact Hstep]. intros pt Hpt. by apply fails_goes_on.
  - destruct (ended s) eqn:He; [done|]. injection Hstep as <-. exists k. split; [|done].
    destruct Hs as (pe & po & ?). by exists pe, po.
Qed.

Lemma sound_run cs : ∀ k s s',
  sound_system k s → run cs s = Some s' →
  ∃ k', sound_system k' s' ∧ (ended s = true → ended s' = true ∧ (length cs + k' <= k)%nat).
Proof.
  induction cs as [|c cs IH]; intros k s s' Hs Hrun.
  { injection Hrun as <-. exists k. split; [done|]. intros ->. cbn. auto with lia. }
  cbn in Hrun. destruct (step c s) as [s1|] eqn:Hstep; [|done].
  destruct (sound_step _ _ _ _ Hs Hstep) as (k1 & H1 & He1).
  destruct (IH _ _ _ H1 Hrun) as (k2 & H2 & He2). exists k2. split; [done|].
  intros He. destruct (He1 He) as [Hs1 Hlt]. destruct (He2 Hs1) as [? Hle]. cbn [length]. split; [done|lia].
Qed.

Lemma went_on_some n i k r : went_on n i k r → is_Some r.
Proof. intros (x & pt & -> & _). eauto. Qed.

(** Whether a node can go on when the simulation has ended, by itself or with the
    failure of a task. *)
Definition moves (x : Station) : Prop :=
  is_Some (starts x true) ∨ is_Some (guards x) ∨ is_Some (returns x) ∨ ∃ f, is_Some (fails x f (-1)).

Lemma moves_step i s : ended s = true → moves (station s i) → ∃ c s', step c s = Some s'.
Proof.
  intros He [[x H]|[[x H]|[[x H]|[f [x H]]]]];
    [exists (Starts i) | exists (Guards i) | exists (Returns i) | exists (Fails i f (-1))];
    cbn [step]; rewrite ?He; cbn; rewrite H; eauto.
Qed.

Lemma listening_moves n i x : sound n i PListen x → moves x.
Proof.
  intros [Hid Hc _ Hp Hrx]. destruct (phase x) eqn:Hph; [left|done|].
  - assert (rx_task x = None) as Hr by (destruct (rx_task x); [|done]; by destruct Hrx).
    unfold starts. rewrite Hph, Hc, listen_then. case_bool_decide; [|done].
    eapply went_on_some, (received_went_on n i _ _ (S _)); [done..|apply le_n].
  - right; right; right. exists Receive. unfold fails. destruct (rx_task x); [|done].
    eapply went_on_some, (receive_ends_went_on n i _ _ _ (S _)); [done..|apply le_n].
Qed.

Lemma sleeping_moves n i pt x : sound n i pt x → pt = PSleep ∨ pt = PFirstSleep → moves x.
Proof.
  intros Hx Hpt. destruct (slept_went_on _ _ _ _ _ Hx Hpt (le_n _)) as (d & k & Hc & Hk).
  apply went_on_some in Hk. destruct Hx as [_ _ _ Hp _]. destruct (phase x) eqn:Hph.
  - left. unfold starts. rewrite Hph, Hc. eauto.
  - by destruct Hpt as [-> | ->].
  - right; right; left. unfold returns. by rewrite Hph, Hc.
Qed.

Lemma sending_moves n i pt x : sound n i pt x → pt = PSend ∨ pt = PFirstSend → moves x.
Proof.
  intros Hx Hpt. destruct (returned_went_on _ _ _ _ Hx Hpt) as (d & k & Hc & Hk).
  assert (∀ y e, id y = id x → rx_task y = rx_task x → tx_task y = tx_task x → is_Some (resume y (k e))) as Hsome.
  { intros y e Hi Hr Ht. eapply went_on_some, (Hk y e (S _)); [|done..|apply le_n].
    rewrite Hi. by destruct Hx. }
  destruct Hx as [Hid _ _ Hp _]. destruct (phase x) eqn:Hph.
  - left. unfold starts. rewrite Hph, Hc. case_bool_decide; by apply Hsome.
  - right; left. unfold guards. rewrite Hph, Hc. case_bool_decide; [by apply Hsome|eauto].
  - right; right. destruct (tx_done x) as [e|] eqn:Hd.
    + left. unfold returns. rewrite Hph, Hc, Hd. by apply Hsome.
    + right. exists Transmit. unfold fails. assert (is_Some (tx_task x)) as [t Ht]
        by (destruct (tx_task x); [eauto|]; destruct Hpt as [-> | ->]; tauto).
      rewrite Ht. destruct (rx_task x); eauto.
Qed.

Lemma sound_moves n i pt x : sound n i pt x → pt ≠ PDone → moves x.
Proof.
  intros Hx Hpt. destruct pt; [by eapply listening_moves| | | | |done];
    first [by eapply sleeping_moves; eauto | by eapply sending_moves; eauto].
Qed.

Context (Heven : Z.rem even_id 2 = 0) (Hodd : Z.rem odd_id 2 ≠ 0).

Lemma boot_sound s : boot even_id odd_id = Some s → ∃ k, sound_system k s.
Proof.
  unfold boot. rewrite (boot_even _ Heven), (boot_odd _ Hodd). intros [= <-].
  eexists _, PFirstSleep, PListen. split_and!; [| |done]; constructor; cbn; auto; done.
Qed.

Lemma steps_left_bound pt x : (steps_left pt x <= 16)%nat.
Proof.
  unfold steps_left, steps_of_task, steps_of_call. repeat case_match; lia.
Qed.

(** C10: when the simulation ends, so do both programs, whatever happened before:
    also after lost packets, and when the guard of [sim_wait_transmit_finished]
    made calls fail.  They take at most 32 more steps, and as long as one of
    them has not returned from [main] there is a next step. *)
Theorem simulation_end_stops_nodes cs s0 s cs' s' :
  boot even_id odd_id = Some s0 → run cs s0 = Some s → ended s = true → run cs' s = Some s' →
  (length cs' <= 32)%nat ∧
  ((∀ i, at_call (station s' i) = Finished 0) ∨ ∃ c s'', step c s' = Some s'').
Proof.
  intros H0 Hrun He Hrun'. destruct (boot_sound _ H0) as [k0 Hs0].
  destruct (sound_run _ _ _ _ Hs0 Hrun) as (k & Hs & _).
  destruct (sound_run _ _ _ _ Hs Hrun') as (k' & (pe & po & Hse & Hso & _) & Hlt).
  destruct (Hlt He) as [He' Hle]. split.
  - destruct Hs as (qe & qo & _ & _ & Hk).
    pose proof (steps_left_bound qe (station s Even)). pose proof (steps_left_bound qo (station s Odd)). lia.
  - destruct (decide (pe = PDone)) as [->|Hpe]; [|right; exact (moves_step _ _ He' (sound_moves _ _ _ _ Hse Hpe))].
    destruct (decide (po = PDone)) as [->|Hpo]; [|right; exact (moves_step _ _ He' (sound_moves _ _ _ _ Hso Hpo))].
    left. intros []; [by destruct Hse|by destruct Hso].
Qed.
End End.

Lemma run_app a b s : run (a ++ b) s = s' ← run a s; run b s'.
Proof. revert s. induction a as [|c a IH]; intros s; [done|]. cbn. destruct (step c s); [apply IH|done]. Qed.

(** The ping is on the air when the simulation ends. *)
Definition cut_short : list Choice :=
  [Starts Odd; ReceiveRuns Odd; Starts Even; Returns Even; Starts Even; Guards Even;
   TransmitRuns Even; SimEnds].
Definition stopping : list Choice :=
  [Fails Odd Receive (-3); Fails Even Transmit (-1); Returns Even; Starts Even].

Lemma simulation_end_stops_nodes_witness :
  ∃ s0 s s', boot 2 1 = Some s0 ∧ run cut_short s0 = Some s ∧ run stopping s = Some s' ∧
    ((∀ i, at_call (station s' i) = Finished 0) ∨ ∃ c s'', step c s' = Some s'').
Proof.
  destruct (system_observe ended cut_short _ _ 2 1 ltac:(vm_compute; reflexivity)) as (s0 & s & H0 & Hrun & He).
  destruct (system_observe ended (cut_short ++ stopping) _ _ 2 1 ltac:(vm_compute; reflexivity))
    as (s1 & s' & H1 & Hrun' & _).
  assert (run stopping s = Some s') as Hstop.
  { rewrite H0 in H1. injection H1 as <-. by rewrite run_app, Hrun in Hrun'. }
  exists s0, s, s'. split; [exact H0|]. split; [exact Hrun|]. split; [exact Hstop|].
  refine (proj2 (simulation_end_stops_nodes 2 1 eq_refl _ cut_short s0 s stopping s' H0 Hrun He Hstop)).
  discriminate.
Defined.
