(* ===== verification/AdvTrace.v ===== *)
(** * stm32_adv_trace.c: the trace buffer of the STM32 ping-pong example.

    Messages are copied into a FIFO of 512 bytes that a DMA transfer empties; the
    interrupt at the end of a transfer starts the next one.  The build is that of
    utilities_conf.h: the conditional functions and the unchunk mode are
    enabled, the overrun mode is not.  One definition per function; a function
    that runs with interrupts enabled is cut at its critical sections, so that
    TraceModel.v can interleave the pieces with the interrupt.

    The low level driver is the one of usart_if.c: [vcom_Trace_DMA] hands the
    transfer to the UART, which is not part of the sources; the state keeps
    the calls it received.  The text that a format string produces is a
    parameter of the formatted sends, and the bytes a time stamp function
    writes are those of [timestamp]. *)

From S2P Require Import Prelude Effects Mem.

Definition UTIL_ADV_TRACE_FIFO_SIZE : Z := 512.
Definition UTIL_ADV_TRACE_TMP_BUF_SIZE : Z := 256.
Definition UTIL_ADV_TRACE_TMP_MAX_TIMESTMAP_SIZE : Z := 15.

Inductive UTIL_ADV_TRACE_Status_t :=
| UTIL_ADV_TRACE_OK | UTIL_ADV_TRACE_INVALID_PARAM | UTIL_ADV_TRACE_HW_ERROR
| UTIL_ADV_TRACE_MEM_FULL | UTIL_ADV_TRACE_UNKNOWN_ERROR | UTIL_ADV_TRACE_GIVEUP
| UTIL_ADV_TRACE_REGIONMASKED.

Inductive TRACE_UNCHUNK_STATUS :=
| TRACE_UNCHUNK_NONE | TRACE_UNCHUNK_DETECTED | TRACE_UNCHUNK_TRANSFER.

#[export] Instance UNCHUNK_STATUS_eq_dec : EqDecision TRACE_UNCHUNK_STATUS.
Proof. solve_decision. Defined.

Record ADV_TRACE_Context := mkContext {
  unchunk_enabled : Z;
  unchunk_status : TRACE_UNCHUNK_STATUS;
  timestamp_func : option Z;  (** a function, by its address *)
  CurrentVerboseLevel : Z;
  RegionMask : Z;
  TraceRdPtr : Z;
  TraceWrPtr : Z;
  TraceSentSize : Z;
  TraceLock : Z }.

(** The context, the two buffers of the file, the transfers handed to the UART
    ([transfers], as offset in the buffer and size), and whether the driver has
    been initialised with the callback of this file. *)
Record Trace := mkTrace {
  Ctx : ADV_TRACE_Context;
  ADV_TRACE_Buffer : list Z;
  sztmp : list Z;
  transfers : list (Z * Z);
  driver_ready : bool }.

#[export] Instance eta_Context : Eta ADV_TRACE_Context := λ c, mkContext
  (unchunk_enabled c) (unchunk_status c) (timestamp_func c) (CurrentVerboseLevel c)
  (RegionMask c) (TraceRdPtr c) (TraceWrPtr c) (TraceSentSize c) (TraceLock c).
#[export] Instance eta_Trace : Eta Trace := λ t, mkTrace
  (Ctx t) (ADV_TRACE_Buffer t) (sztmp t) (transfers t) (driver_ready t).

Definition zero_context : ADV_TRACE_Context :=
  mkContext 0 TRACE_UNCHUNK_NONE None 0 0 0 0 0 0.
Definition trace_boot : Trace := mkTrace zero_context (replicate 512 0) (replicate 256 0) [] false.

Definition upd_ctx (f : ADV_TRACE_Context → ADV_TRACE_Context) : M Trace unit :=
  update (λ t, t <| Ctx := f (Ctx t) |>).
Definition ctx : M Trace ADV_TRACE_Context := gets Ctx.

(** ** usart_if.c *)

Definition vcom_Init : M Trace UTIL_ADV_TRACE_Status_t :=
  update (λ t, t <| driver_ready := true |>);; mret UTIL_ADV_TRACE_OK.

Definition vcom_Trace_DMA (p_data size : Z) : M Trace UTIL_ADV_TRACE_Status_t :=
  update (λ t, t <| transfers := transfers t ++ [(p_data, size)] |>);; mret UTIL_ADV_TRACE_OK.

(** ** The lock *)

Definition TRACE_Lock : M Trace unit := upd_ctx (λ c, c <| TraceLock := u16 (TraceLock c + 1) |>).
Definition TRACE_UnLock : M Trace unit := upd_ctx (λ c, c <| TraceLock := u16 (TraceLock c - 1) |>).
Definition TRACE_IsLocked : M Trace Z := gets (λ t, if TraceLock (Ctx t) =? 0 then 0 else 1).

(** ** Allocation *)

(** A message that does not fit before the end of the buffer goes to its start. *)
Definition detect_unchunk (Size : Z) (c : ADV_TRACE_Context) : ADV_TRACE_Context * Z :=
  let freesize := u16 (UTIL_ADV_TRACE_FIFO_SIZE - TraceWrPtr c) in
  if (freesize <=? Size) && (Size <? TraceRdPtr c) then
    (c <| unchunk_status := TRACE_UNCHUNK_DETECTED |> <| unchunk_enabled := TraceWrPtr c |>
       <| TraceWrPtr := 0 |>, TraceRdPtr c)
  else (c, freesize).

(** The position to write at, or [None] for -1. *)
Definition TRACE_AllocateBufer (Size : Z) : M Trace (option Z) :=
  c ← ctx;
  let '(c, freesize) :=
    if TraceWrPtr c =? TraceRdPtr c then detect_unchunk Size c
    else if TraceRdPtr c <? TraceWrPtr c then detect_unchunk Size c
    else (c, u16 (TraceRdPtr c - TraceWrPtr c)) in
  upd_ctx (λ _, c);;
  if Size <? freesize then
    upd_ctx (λ c, c <| TraceWrPtr := (TraceWrPtr c + Size) mod UTIL_ADV_TRACE_FIFO_SIZE |>);;
    mret (Some (TraceWrPtr c))
  else mret None.

(** ** Transfers *)

(** The part of [TRACE_Send] and [TRACE_TxCpltCallback] that chooses the next
    transfer. *)
Definition next_transfer (c : ADV_TRACE_Context) : ADV_TRACE_Context :=
  let c :=
    if decide (unchunk_status c = TRACE_UNCHUNK_DETECTED) then
      let c := c <| TraceSentSize := u16 (unchunk_enabled c - TraceRdPtr c) |>
                 <| unchunk_status := TRACE_UNCHUNK_TRANSFER |> <| unchunk_enabled := 0 |> in
      if TraceSentSize c =? 0 then c <| unchunk_status := TRACE_UNCHUNK_NONE |> <| TraceRdPtr := 0 |>
      else c
    else c in
  if decide (unchunk_status c = TRACE_UNCHUNK_NONE) then
    if TraceRdPtr c <? TraceWrPtr c
    then c <| TraceSentSize := u16 (TraceWrPtr c - TraceRdPtr c) |>
    else c <| TraceSentSize := u16 (UTIL_ADV_TRACE_FIFO_SIZE - TraceRdPtr c) |>
  else c.

(** The choice, and the call of the driver. *)
Definition start_transfer : M Trace UTIL_ADV_TRACE_Status_t :=
  upd_ctx next_transfer;;
  c ← ctx;
  vcom_Trace_DMA (TraceRdPtr c) (TraceSentSize c).

Definition UTIL_ADV_TRACE_PreSendHook : M Trace unit := skip.
Definition UTIL_ADV_TRACE_PostSendHook : M Trace unit := skip.

Definition TRACE_Send : M Trace UTIL_ADV_TRACE_Status_t :=
  locked ← TRACE_IsLocked;
  if locked =? 0 then
    TRACE_Lock;;
    c ← ctx;
    if negb (TraceRdPtr c =? TraceWrPtr c) then
      upd_ctx next_transfer;;
      UTIL_ADV_TRACE_PreSendHook;;
      c ← ctx;
      vcom_Trace_DMA (TraceRdPtr c) (TraceSentSize c)
    else TRACE_UnLock;; mret UTIL_ADV_TRACE_OK
  else mret UTIL_ADV_TRACE_OK.

(** The read pointer after a transfer. *)
Definition transfer_done (c : ADV_TRACE_Context) : ADV_TRACE_Context :=
  if decide (unchunk_status c = TRACE_UNCHUNK_TRANSFER)
  then c <| unchunk_status := TRACE_UNCHUNK_NONE |> <| TraceRdPtr := 0 |>
  else c <| TraceRdPtr := (TraceRdPtr c + TraceSentSize c) mod UTIL_ADV_TRACE_FIFO_SIZE |>.

(** [TRACE_TxCpltCallback] up to the end of its critical section; the result
    says whether the callback continues after it. *)
Definition TRACE_TxCpltCallback_enter : M Trace bool :=
  upd_ctx transfer_done;;
  c ← ctx;
  if negb (TraceRdPtr c =? TraceWrPtr c) && (TraceLock c =? 1)
  then start_transfer;; mret false
  else mret true.
Definition TRACE_TxCpltCallback_exit : M Trace unit := UTIL_ADV_TRACE_PostSendHook;; TRACE_UnLock.
Definition TRACE_TxCpltCallback : M Trace unit :=
  continue ← TRACE_TxCpltCallback_enter; when continue TRACE_TxCpltCallback_exit.

(** usart_if.c: the end of a transmission of USART2; [TxCpltCallback] is
    [NULL] before [vcom_Init]. *)
Definition HAL_UART_TxCpltCallback (is_usart2 : bool) : M Trace unit :=
  if is_usart2 then
    ready ← gets driver_ready;
    if ready : bool then TRACE_TxCpltCallback else undefined "call of a null callback"
  else skip.

(** ** Exported functions *)

Definition UTIL_ADV_TRACE_Init : M Trace UTIL_ADV_TRACE_Status_t :=
  upd_ctx (λ _, zero_context);;
  update (λ t, t <| ADV_TRACE_Buffer := replicate 512 0 |>);;
  vcom_Init.

Definition UTIL_ADV_TRACE_IsBufferEmpty : M Trace Z :=
  c ← ctx; mret (b2z (TraceWrPtr c =? TraceRdPtr c)).

(** The loop that copies bytes into the FIFO; the new write position. *)
Definition copy_byte (writepos b : Z) : M Trace Z :=
  buf ← gets ADV_TRACE_Buffer;
  buf ← defined "write outside ADV_TRACE_Buffer" (buf_write buf writepos [b]);
  update (λ t, t <| ADV_TRACE_Buffer := buf |>);;
  mret ((writepos + 1) mod UTIL_ADV_TRACE_FIFO_SIZE).
Fixpoint copy_bytes (writepos : Z) (data : list Z) : M Trace Z :=
  match data with
  | [] => mret writepos
  | b :: data => pos ← copy_byte writepos b; copy_bytes pos data
  end.

(** [stamp], then the first [Length] bytes of [pData]; the allocated size is a
    [uint16_t]. *)
Definition send_bytes (stamp pData : list Z) (Length : Z) : M Trace UTIL_ADV_TRACE_Status_t :=
  TRACE_Lock;;
  pos ← TRACE_AllocateBufer (u16 (Length + Z.of_nat (length stamp)));
  match pos with
  | Some pos =>
      data ← defined "read outside pData" (buf_read pData 0 Length);
      copy_bytes pos (stamp ++ data);;
      TRACE_UnLock;;
      TRACE_Send
  | None => TRACE_UnLock;; mret UTIL_ADV_TRACE_MEM_FULL
  end.

Definition UTIL_ADV_TRACE_Send (pData : list Z) (Length : Z) : M Trace UTIL_ADV_TRACE_Status_t :=
  send_bytes [] pData Length.

Definition UTIL_ADV_TRACE_ZCSend_Allocation (Length : Z)
  : M Trace (UTIL_ADV_TRACE_Status_t * option (Z * Z)) :=
  TRACE_Lock;;
  pos ← TRACE_AllocateBufer Length;
  match pos with
  | Some pos => mret (UTIL_ADV_TRACE_OK, Some (UTIL_ADV_TRACE_FIFO_SIZE, pos))
  | None => TRACE_UnLock;; mret (UTIL_ADV_TRACE_MEM_FULL, None)
  end.

Definition UTIL_ADV_TRACE_ZCSend_Finalize : M Trace UTIL_ADV_TRACE_Status_t :=
  TRACE_UnLock;; TRACE_Send.
Definition UTIL_ADV_TRACE_COND_ZCSend_Finalize : M Trace UTIL_ADV_TRACE_Status_t :=
  UTIL_ADV_TRACE_ZCSend_Finalize.

(** ** Conditional functions *)

Section Conditional.
(** What the time stamp function at an address writes. *)
Variable timestamp : Z → Trace → list Z.

(** The test of the verbose level and of the region: [None] to go on. *)
Definition filter_trace (VerboseLevel Region : Z) (c : ADV_TRACE_Context)
  : option UTIL_ADV_TRACE_Status_t :=
  if CurrentVerboseLevel c <? VerboseLevel then Some UTIL_ADV_TRACE_GIVEUP
  else if negb (Z.land Region (RegionMask c) =? Region) then Some UTIL_ADV_TRACE_REGIONMASKED
  else None.

(** The stamp, in a buffer of 15 bytes on the stack. *)
Definition get_timestamp (TimeStampState : Z) : M Trace (list Z) :=
  c ← ctx;
  match timestamp_func c with
  | Some f =>
      if TimeStampState =? 0 then mret []
      else
        t ← get_state;
        let stamp := timestamp f t in
        if UTIL_ADV_TRACE_TMP_MAX_TIMESTMAP_SIZE <? Z.of_nat (length stamp)
        then undefined "time stamp longer than its buffer" else mret stamp
  | None => mret []
  end.

Definition UTIL_ADV_TRACE_COND_Send (VerboseLevel Region TimeStampState : Z) (pData : list Z)
    (Length : Z) : M Trace UTIL_ADV_TRACE_Status_t :=
  c ← ctx;
  match filter_trace VerboseLevel Region c with
  | Some status => mret status
  | None =>
      stamp ← get_timestamp TimeStampState;
      send_bytes stamp pData Length
  end.

Definition UTIL_ADV_TRACE_COND_ZCSend_Allocation (VerboseLevel Region TimeStampState length_ : Z)
  : M Trace (UTIL_ADV_TRACE_Status_t * option (Z * Z)) :=
  c ← ctx;
  match filter_trace VerboseLevel Region c with
  | Some status => mret (status, None)
  | None =>
      stamp ← get_timestamp TimeStampState;
      TRACE_Lock;;
      pos ← TRACE_AllocateBufer (u16 (length_ + Z.of_nat (length stamp)));
      match pos with
      | Some pos =>
          pos ← copy_bytes pos stamp;
          mret (UTIL_ADV_TRACE_OK, Some (UTIL_ADV_TRACE_FIFO_SIZE, pos))
      | None => TRACE_UnLock;; mret (UTIL_ADV_TRACE_MEM_FULL, None)
      end
  end.

(** stm32_tiny_vsnprintf.c: the bytes written for a format that produces
    [text], with the final zero, and the result, which is the size of the
    buffer. *)
Definition tiny_vsnprintf_like (size : Z) (text : list Z) : list Z * Z :=
  (if size =? 0 then [] else take (Z.to_nat (size - 1)) text ++ [0], size).

(** The format is evaluated twice with the same [va_list]: once to measure it,
    once into the FIFO; [text] and [text'] are what it produces. *)
Definition UTIL_ADV_TRACE_COND_FSend (VerboseLevel Region TimeStampState : Z)
    (text text' : list Z) : M Trace UTIL_ADV_TRACE_Status_t :=
  c ← ctx;
  match filter_trace VerboseLevel Region c with
  | Some status => mret status
  | None =>
      stamp ← get_timestamp TimeStampState;
      let '(written, size) := tiny_vsnprintf_like UTIL_ADV_TRACE_TMP_BUF_SIZE text in
      tmp ← gets sztmp;
      tmp ← defined "write outside sztmp" (buf_write tmp 0 written);
      update (λ t, t <| sztmp := tmp |>);;
      TRACE_Lock;;
      pos ← TRACE_AllocateBufer (u16 (u16 size + Z.of_nat (length stamp)));
      match pos with
      | Some pos =>
          buf ← gets ADV_TRACE_Buffer;
          buf ← defined "write outside ADV_TRACE_Buffer" (buf_write buf pos stamp);
          buf ← defined "write outside ADV_TRACE_Buffer"
                  (buf_write buf (pos + Z.of_nat (length stamp))
                     (fst (tiny_vsnprintf_like UTIL_ADV_TRACE_TMP_BUF_SIZE text')));
          update (λ t, t <| ADV_TRACE_Buffer := buf |>);;
          TRACE_UnLock;;
          TRACE_Send
      | None => TRACE_UnLock;; mret UTIL_ADV_TRACE_MEM_FULL
      end
  end.

(** The buffer on the stack holds [stack] before the call. *)
Definition UTIL_ADV_TRACE_FSend (stack text : list Z) : M Trace UTIL_ADV_TRACE_Status_t :=
  let '(written, size) := tiny_vsnprintf_like UTIL_ADV_TRACE_TMP_BUF_SIZE text in
  buf ← defined "write outside buf" (buf_write stack 0 written);
  UTIL_ADV_TRACE_Send buf (u16 size).
End Conditional.

Definition UTIL_ADV_TRACE_RegisterTimeStampFunction (cb : Z) : M Trace unit :=
  upd_ctx (λ c, c <| timestamp_func := Some cb |>).
Definition UTIL_ADV_TRACE_SetVerboseLevel (Level : Z) : M Trace unit :=
  upd_ctx (λ c, c <| CurrentVerboseLevel := u8 Level |>).
Definition UTIL_ADV_TRACE_GetVerboseLevel : M Trace Z := gets (λ t, CurrentVerboseLevel (Ctx t)).
Definition UTIL_ADV_TRACE_SetRegion (Region : Z) : M Trace unit :=
  upd_ctx (λ c, c <| RegionMask := Z.lor (RegionMask c) Region |>).
Definition UTIL_ADV_TRACE_GetRegion : M Trace Z := gets (λ t, RegionMask (Ctx t)).
Definition UTIL_ADV_TRACE_ResetRegion (Region : Z) : M Trace unit :=
  upd_ctx (λ c, c <| RegionMask := Z.land (RegionMask c) (u32 (Z.lnot Region)) |>).

Lemma TRACE_Lock_eq t :
  TRACE_Lock t = Ret tt (t <| Ctx := Ctx t <| TraceLock := u16 (TraceLock (Ctx t) + 1) |> |>).
Proof. reflexivity. Qed.
Lemma TRACE_UnLock_eq t :
  TRACE_UnLock t = Ret tt (t <| Ctx := Ctx t <| TraceLock := u16 (TraceLock (Ctx t) - 1) |> |>).
Proof. reflexivity. Qed.
