(* ===== verification/TraceModel.v ===== *)
(** * stm32_adv_trace.c: the trace buffer as an interleaved system.

    The pieces of AdvTrace.v between critical sections are the steps of one
    writer, inside [UTIL_ADV_TRACE_Send], and of the interrupt at the end of a
    transfer.  The UART transfers the bytes it was handed and raises one interrupt
    for every transfer; the scheduler at the end runs a list of steps. *)

From S2P Require Import Prelude Effects Mem AdvTrace.

(** ** The interleaved system *)

(** What the writer has still to do: [Locked data] after [TRACE_Lock],
    [Copying pos rest] in the copy loop, [Refused] after a failed allocation,
    [Unlocked] before [TRACE_Send]. *)
Inductive Writer :=
| Idle
| Locked (data : list Z)
| Copying (pos : Z) (rest : list Z)
| Refused
| Unlocked.

#[export] Instance Writer_eq_dec : EqDecision Writer.
Proof. solve_decision. Defined.

(** [done] transfers have ended and put their bytes on the [wire]; [accepted]
    are the bytes of the messages for which there was room. *)
Record Node := mkNode {
  mem : Trace;
  writer : Writer;
  in_callback : bool;
  done_ : nat;
  wire : list Z;
  accepted : list Z }.

#[export] Instance eta_Node : Eta Node := λ n, mkNode
  (mem n) (writer n) (in_callback n) (done_ n) (wire n) (accepted n).

Definition init_node : Node :=
  mkNode (final (UTIL_ADV_TRACE_Init trace_boot)) Idle false 0 [] [].

(** The steps of the writer inside [UTIL_ADV_TRACE_Send]; with [preempt], it
    may run (as a more urgent interrupt) between the critical section of the
    callback and its end. *)
Inductive writer_step : Node → Node → Prop :=
| step_alloc n data pos t :
    writer n = Locked data →
    TRACE_AllocateBufer (u16 (Z.of_nat (length data))) (mem n) = Ret (Some pos) t →
    writer_step n (n <| mem := t |> <| writer := Copying pos data |>
                     <| accepted := accepted n ++ data |>)
| step_refuse n data t :
    writer n = Locked data →
    TRACE_AllocateBufer (u16 (Z.of_nat (length data))) (mem n) = Ret None t →
    writer_step n (n <| mem := t |> <| writer := Refused |>)
| step_copy n pos b rest pos' t :
    writer n = Copying pos (b :: rest) → copy_byte pos b (mem n) = Ret pos' t →
    writer_step n (n <| mem := t |> <| writer := Copying pos' rest |>)
| step_copied n pos t :
    writer n = Copying pos [] → TRACE_UnLock (mem n) = Ret tt t →
    writer_step n (n <| mem := t |> <| writer := Unlocked |>)
| step_refused n t :
    writer n = Refused → TRACE_UnLock (mem n) = Ret tt t →
    writer_step n (n <| mem := t |> <| writer := Idle |>)
| step_send n st t :
    writer n = Unlocked → TRACE_Send (mem n) = Ret st t →
    writer_step n (n <| mem := t |> <| writer := Idle |>).

(** The interrupt at the end of a transfer: its bytes are read from the buffer
    as late as that. *)
Inductive interrupt_step : Node → Node → Prop :=
| step_TxCplt n ptr size bytes continue t :
    in_callback n = false → transfers (mem n) !! done_ n = Some (ptr, size) →
    buf_read (ADV_TRACE_Buffer (mem n)) ptr size = Some bytes →
    TRACE_TxCpltCallback_enter (mem n) = Ret continue t →
    interrupt_step n (n <| mem := t |> <| in_callback := continue |> <| done_ := S (done_ n) |>
                        <| wire := wire n ++ bytes |>)
| step_exit n t :
    in_callback n = true → TRACE_TxCpltCallback_exit (mem n) = Ret tt t →
    interrupt_step n (n <| mem := t |> <| in_callback := false |>).

(** A new message, of up to 65535 bytes. *)
Inductive start_step : Node → Node → Prop :=
| step_start n data t :
    writer n = Idle → Z.of_nat (length data) < 65536 → TRACE_Lock (mem n) = Ret tt t →
    start_step n (n <| mem := t |> <| writer := Locked data |>).

(** Everything but new messages. *)
Definition work (preempt : bool) (n n' : Node) : Prop :=
  interrupt_step n n' ∨ (writer_step n n' ∧ (in_callback n = true → preempt = true)).
Definition step (preempt : bool) (n n' : Node) : Prop :=
  work preempt n n' ∨ (start_step n n' ∧ (in_callback n = true → preempt = true)).

Inductive runs (preempt : bool) : Node → Prop :=
| runs_init : runs preempt init_node
| runs_step n n' : runs preempt n → step preempt n n' → runs preempt n'.

(** ** The bytes in the buffer *)

(** The addresses in use, in the order of the messages. *)
Definition region (c : ADV_TRACE_Context) : list Z :=
  match unchunk_status c with
  | TRACE_UNCHUNK_NONE => seqZ (TraceRdPtr c) (TraceWrPtr c - TraceRdPtr c)
  | TRACE_UNCHUNK_DETECTED =>
      seqZ (TraceRdPtr c) (unchunk_enabled c - TraceRdPtr c) ++ seqZ 0 (TraceWrPtr c)
  | TRACE_UNCHUNK_TRANSFER => seqZ (TraceRdPtr c) (TraceSentSize c) ++ seqZ 0 (TraceWrPtr c)
  end.

(** The bytes still to be copied, for which the last addresses are reserved. *)
Definition to_copy (w : Writer) : list Z := match w with Copying _ rest => rest | _ => [] end.

Definition content (buf : list Z) (addrs : list Z) : list Z := (λ a, buf !!! Z.to_nat a) <$> addrs.

(** What is accepted and not yet on the wire. *)
Definition queued (n : Node) : list Z :=
  let r := region (Ctx (mem n)) in
  let rest := to_copy (writer n) in
  content (ADV_TRACE_Buffer (mem n)) (take (length r - length rest) r) ++ rest.

Definition in_flight (n : Node) : bool := bool_decide (done_ n < length (transfers (mem n)))%nat.
Definition holds (w : Writer) : bool :=
  match w with Locked _ | Copying _ _ | Refused => true | _ => false end.

(** ** A scheduler *)

(** A new message, a piece of the writer, a piece of the interrupt. *)
Inductive Act := Start (data : list Z) | Write | Interrupt.

Definition act (a : Act) (n : Node) : option Node :=
  match a with
  | Start data =>
      match writer n with
      | Idle =>
          if negb (in_callback n) && (Z.of_nat (length data) <? 65536)
          then Some (n <| mem := final (TRACE_Lock (mem n)) |> <| writer := Locked data |>) else None
      | _ => None
      end
  | Write =>
      if in_callback n then None else
      match writer n with
      | Idle => None
      | Locked data =>
          match TRACE_AllocateBufer (u16 (Z.of_nat (length data))) (mem n) with
          | Ret (Some pos) t =>
              Some (n <| mem := t |> <| writer := Copying pos data |> <| accepted := accepted n ++ data |>)
          | Ret None t => Some (n <| mem := t |> <| writer := Refused |>)
          | _ => None
          end
      | Copying pos (b :: rest) =>
          match copy_byte pos b (mem n) with
          | Ret pos' t => Some (n <| mem := t |> <| writer := Copying pos' rest |>)
          | _ => None
          end
      | Copying pos [] => Some (n <| mem := final (TRACE_UnLock (mem n)) |> <| writer := Unlocked |>)
      | Refused => Some (n <| mem := final (TRACE_UnLock (mem n)) |> <| writer := Idle |>)
      | Unlocked =>
          match TRACE_Send (mem n) with
          | Ret _ t => Some (n <| mem := t |> <| writer := Idle |>)
          | _ => None
          end
      end
  | Interrupt =>
      if in_callback n then
        Some (n <| mem := final (TRACE_TxCpltCallback_exit (mem n)) |> <| in_callback := false |>)
      else
        match transfers (mem n) !! done_ n with
        | Some (ptr, size) =>
            match buf_read (ADV_TRACE_Buffer (mem n)) ptr size, TRACE_TxCpltCallback_enter (mem n) with
            | Some bytes, Ret continue t =>
                Some (n <| mem := t |> <| in_callback := continue |> <| done_ := S (done_ n) |>
                        <| wire := wire n ++ bytes |>)
            | _, _ => None
            end
        | None => None
        end
  end.

Lemma act_step a n n' : act a n = Some n' → step false n n'.
Proof.
  unfold act. destruct a as [data| |]; intros H.
  - destruct (writer n) eqn:Hw; try done. destruct (in_callback n) eqn:Hcb; [done|].
    destruct (_ <? _) eqn:Hl; [|done]. injection H as <-. right. split; [|by rewrite Hcb].
    eapply step_start; [exact Hw | lia | reflexivity].
  - destruct (in_callback n) eqn:Hcb; [done|]. left. right. split; [|by rewrite Hcb].
    destruct (writer n) as [|data|pos [|b rest]| |] eqn:Hw; try done.
    + destruct (TRACE_AllocateBufer _ _) as [[pos|] t| | |] eqn:E; try done; injection H as <-;
        [eapply step_alloc | eapply step_refuse]; eassumption.
    + injection H as <-. eapply step_copied; [exact Hw | reflexivity].
    + destruct (copy_byte _ _ _) eqn:E; try done. injection H as <-. eapply step_copy; eassumption.
    + injection H as <-. eapply step_refused; [exact Hw | reflexivity].
    + destruct (TRACE_Send _) eqn:E; try done. injection H as <-. eapply step_send; eassumption.
  - left. left. destruct (in_callback n) eqn:Hcb.
    + injection H as <-. eapply step_exit; [exact Hcb | reflexivity].
    + destruct (_ !! _) as [[ptr size]|] eqn:Hl; [|done].
      destruct (buf_read _ _ _) eqn:Hb; [|done].
      destruct (TRACE_TxCpltCallback_enter _) eqn:E; try done. injection H as <-.
      eapply step_TxCplt; eassumption.
Qed.

Definition acts (l : list Act) (n : Node) : option Node :=
  fold_left (λ o a, o ≫= act a) l (Some n).

Lemma acts_runs l n n' : runs false n → acts l n = Some n' → runs false n'.
Proof.
  revert n. induction l as [|a l IH]; intros n Hr H; [by injection H as <-|].
  unfold acts in H. cbn in H. destruct (act a n) as [n1|] eqn:E.
  - apply (IH n1); [|exact H]. by eapply runs_step, act_step.
  - exfalso. clear -H. induction l; [done | auto].
Qed.

(** A message of [k] bytes that goes through undisturbed. *)
Definition message (k : nat) : list Act := Start (replicate k 7) :: replicate (k + 3) Write.
