(* ===== verification/TraceFifo.v ===== *)
(** * stm32_adv_trace.c: the trace buffer is a FIFO that drains.

    The invariant of the pointers and of the bytes, its preservation by every
    step, and what follows: the order of the bytes, the integrity of the
    transfers, the absence of undefined behaviour and of lost wake-ups. *)

From S2P Require Import Prelude Effects Mem AdvTrace TraceModel.

(** ** The pointers *)

(** How the pointers and the unchunk status fit; [fl]: a transfer is going on. *)
Definition shape (c : ADV_TRACE_Context) (fl : bool) : Prop :=
  0 <= TraceRdPtr c < 512 ∧ 0 <= TraceWrPtr c < 512 ∧
  match unchunk_status c with
  | TRACE_UNCHUNK_NONE =>
      TraceRdPtr c <= TraceWrPtr c ∧ (fl = true → 0 < TraceSentSize c <= TraceWrPtr c - TraceRdPtr c)
  | TRACE_UNCHUNK_DETECTED =>
      0 < TraceWrPtr c < TraceRdPtr c ∧ TraceRdPtr c <= unchunk_enabled c < 512 ∧
      (fl = true → 0 < TraceSentSize c <= unchunk_enabled c - TraceRdPtr c)
  | TRACE_UNCHUNK_TRANSFER =>
      0 < TraceWrPtr c < TraceRdPtr c ∧ fl = true ∧ 0 < TraceSentSize c ∧
      TraceRdPtr c + TraceSentSize c < 512
  end.

Ltac destruct_ctx c := destruct c as [ue st ts lvl mask rd wr sent lock]; cbn in *.

(** Evaluates the tests of the unchunk status. *)
Ltac decide_status :=
  cbn; repeat first [rewrite decide_True by reflexivity | rewrite decide_False by discriminate]; cbn.

Lemma seqZ_snoc_region a b n : 0 <= a → 0 <= n → seqZ b (a + n) = seqZ b a ++ seqZ (b + a) n.
Proof. intros. by rewrite seqZ_app. Qed.

Lemma region_NoDup c fl : shape c fl → NoDup (region c).
Proof.
  unfold shape, region. destruct_ctx c. intros (Hr & Hw & H). destruct st; [apply NoDup_seqZ|..];
    (apply NoDup_app; split; [apply NoDup_seqZ|]; split; [|apply NoDup_seqZ];
     intros x Hx Hx'; apply elem_of_seqZ in Hx, Hx'; lia).
Qed.

Lemma region_bounds c fl a : shape c fl → a ∈ region c → 0 <= a < 512.
Proof.
  unfold shape, region. destruct_ctx c. intros (Hr & Hw & H). destruct st;
    rewrite ?elem_of_app, ?elem_of_seqZ; lia.
Qed.

Lemma region_empty c : shape c false → TraceRdPtr c = TraceWrPtr c ↔ region c = [].
Proof.
  unfold shape, region. destruct_ctx c. intros (Hr & Hw & H). destruct st.
  - split; [intros ->; by rewrite Z.sub_diag|]. intros E. apply (f_equal length) in E.
    rewrite length_seqZ in E. cbn in E. lia.
  - split; [lia|]. intros E. apply (f_equal length) in E.
    rewrite length_app, !length_seqZ in E. cbn in E. lia.
  - destruct H as (_ & H & _). done.
Qed.

(** ** The operations on the pointers *)

(** What does not concern the FIFO. *)
Definition same_config (c c' : ADV_TRACE_Context) : Prop :=
  TraceLock c' = TraceLock c ∧ timestamp_func c' = timestamp_func c ∧
  CurrentVerboseLevel c' = CurrentVerboseLevel c ∧ RegionMask c' = RegionMask c.

Lemma AllocateBufer_cases Size t fl :
  shape (Ctx t) fl → 0 <= Size < 65536 →
  (∃ pos c', TRACE_AllocateBufer Size t = Ret (Some pos) (t <| Ctx := c' |>) ∧ shape c' fl ∧
     region c' = region (Ctx t) ++ seqZ pos Size ∧ same_config (Ctx t) c' ∧
     TraceRdPtr c' = TraceRdPtr (Ctx t) ∧ TraceSentSize c' = TraceSentSize (Ctx t)) ∨
  TRACE_AllocateBufer Size t = Ret None t.
Proof.
  intros Hs HS. unfold TRACE_AllocateBufer, ctx, upd_ctx. erewrite bind_Ret by reflexivity.
  destruct t as [c buf tmp trs rdy]. cbn [Ctx] in *. unfold shape, region, detect_unchunk, same_config in *.
  destruct_ctx c. destruct Hs as (Hr & Hw & H).
  assert (Hbig : ∀ b, (if wr =? rd then b else if rd <? wr then b else
      (mkContext ue st ts lvl mask rd wr sent lock, u16 (rd - wr))) =
    if rd <=? wr then b else (mkContext ue st ts lvl mask rd wr sent lock, u16 (rd - wr))).
  { intros b. destruct (wr =? rd) eqn:E1, (rd <? wr) eqn:E2, (rd <=? wr) eqn:E3; try done; lia. }
  rewrite Hbig. rewrite (u16_small (UTIL_ADV_TRACE_FIFO_SIZE - wr)) by (unfold UTIL_ADV_TRACE_FIFO_SIZE; lia).
  unfold UTIL_ADV_TRACE_FIFO_SIZE. destruct (rd <=? wr) eqn:Ele.
  - assert (st = TRACE_UNCHUNK_NONE) as -> by (destruct st; [done|lia..]).
    destruct ((512 - wr <=? Size) && (Size <? rd)) eqn:Ed.
    + erewrite bind_Ret by reflexivity. rewrite (proj2 (Z.ltb_lt _ _)) by lia. left.
      eexists 0, _. erewrite bind_Ret by reflexivity. split; [reflexivity|]. cbn.
      rewrite Z.mod_small by lia. repeat split; lia.
    + erewrite bind_Ret by reflexivity. destruct (Size <? 512 - wr) eqn:El.
      * left. eexists wr, _. erewrite bind_Ret by reflexivity. split; [reflexivity|]. cbn.
        rewrite Z.mod_small by lia. repeat split; try lia.
        replace (wr + Size - rd) with ((wr - rd) + Size) by lia.
        rewrite seqZ_snoc_region by lia. f_equal. f_equal. lia.
      * right. reflexivity.
  - rewrite u16_small by lia. erewrite bind_Ret by reflexivity. destruct (Size <? rd - wr) eqn:El; [|right; reflexivity].
    left. eexists wr, _. erewrite bind_Ret by reflexivity. split; [reflexivity|]. cbn.
    rewrite Z.mod_small by lia.
    destruct st; [lia|..]; (repeat split; try lia;
      rewrite seqZ_snoc_region, Z.add_0_l, app_assoc by lia; reflexivity).
Qed.

Lemma next_transfer_shape c :
  shape c false → TraceRdPtr c ≠ TraceWrPtr c →
  shape (next_transfer c) true ∧ region (next_transfer c) = region c ∧
  same_config c (next_transfer c) ∧ TraceSentSize (next_transfer c) <= Z.of_nat (length (region c)).
Proof.
  unfold shape, region, next_transfer, same_config, UTIL_ADV_TRACE_FIFO_SIZE. destruct_ctx c.
  intros (Hr & Hw & H) Hne. destruct st; decide_status.
  - rewrite (proj2 (Z.ltb_lt _ _)) by lia. cbn. rewrite u16_small by lia.
    rewrite length_seqZ. repeat split; lia.
  - rewrite u16_small by lia. destruct (ue - rd =? 0) eqn:E; decide_status.
    + rewrite (proj2 (Z.ltb_lt _ _)) by lia. cbn. rewrite u16_small by lia.
      replace (ue - rd) with 0 by lia. rewrite Z.sub_0_r, (seqZ_nil rd 0), app_nil_l, length_seqZ by lia.
      repeat split; lia.
    + rewrite length_app, !length_seqZ. repeat split; lia.
  - destruct H as (_ & H & _). done.
Qed.

Lemma transfer_done_shape c :
  shape c true →
  shape (transfer_done c) false ∧ region (transfer_done c) = drop (Z.to_nat (TraceSentSize c)) (region c) ∧
  same_config c (transfer_done c) ∧
  take (Z.to_nat (TraceSentSize c)) (region c) = seqZ (TraceRdPtr c) (TraceSentSize c).
Proof.
  unfold shape, region, transfer_done, same_config, UTIL_ADV_TRACE_FIFO_SIZE. destruct_ctx c.
  intros (Hr & Hw & H). destruct st; decide_status.
  - destruct H as [H Hf]. specialize (Hf eq_refl). rewrite Z.mod_small by lia.
    replace (wr - rd) with (sent + (wr - (rd + sent))) by lia. rewrite seqZ_snoc_region by lia.
    rewrite drop_app_length', take_app_length' by (rewrite length_seqZ; lia). repeat split; lia || done.
  - destruct H as (H & H' & Hf). specialize (Hf eq_refl). rewrite Z.mod_small by lia.
    replace (ue - rd) with (sent + (ue - (rd + sent))) by lia. rewrite seqZ_snoc_region by lia.
    rewrite <- app_assoc.
    rewrite drop_app_length', take_app_length' by (rewrite length_seqZ; lia). repeat split; lia || done.
  - rewrite drop_app_length', take_app_length' by (rewrite length_seqZ; lia).
    rewrite Z.sub_0_r. repeat split; lia || done.
Qed.

(** ** The bytes of the buffer *)

Lemma content_app buf a b : content buf (a ++ b) = content buf a ++ content buf b.
Proof. apply fmap_app. Qed.
Lemma length_content buf a : length (content buf a) = length a.
Proof. apply length_fmap. Qed.

Lemma content_read buf ptr size :
  0 <= ptr → 0 <= size → ptr + size <= Z.of_nat (length buf) →
  buf_read buf ptr size = Some (content buf (seqZ ptr size)).
Proof.
  intros Hp Hs Hl. rewrite buf_read_Some by lia. f_equal. apply list_eq. intros i.
  unfold content. rewrite list_lookup_fmap. destruct (decide (i < Z.to_nat size)%nat) as [Hi|Hi].
  - rewrite lookup_take_lt, lookup_drop by done.
    rewrite (lookup_seqZ_lt _ _ _) by lia. cbn.
    replace (Z.to_nat (ptr + Z.of_nat i)) with (Z.to_nat ptr + i)%nat by lia.
    rewrite list_lookup_lookup_total_lt by lia. reflexivity.
  - rewrite lookup_take_ge, lookup_seqZ_ge by lia. reflexivity.
Qed.

(** [copy_byte] changes one byte. *)
Lemma copy_byte_eq pos b t :
  0 <= pos < Z.of_nat (length (ADV_TRACE_Buffer t)) →
  copy_byte pos b t = Ret ((pos + 1) mod UTIL_ADV_TRACE_FIFO_SIZE)
    (t <| ADV_TRACE_Buffer := <[Z.to_nat pos := b]> (ADV_TRACE_Buffer t) |>).
Proof.
  intros H. unfold copy_byte. erewrite bind_Ret by reflexivity.
  rewrite buf_write_Some by (cbn; lia). do 2 (erewrite bind_Ret by reflexivity).
  unfold mret, M_ret. do 2 f_equal. rewrite insert_take_drop by lia. cbn [length app].
  by rewrite Nat.add_1_r.
Qed.

Lemma content_insert_other buf pos b addrs :
  pos ∉ addrs → 0 <= pos → (∀ a, a ∈ addrs → 0 <= a) →
  content (<[Z.to_nat pos := b]> buf) addrs = content buf addrs.
Proof.
  intros Hn Hp Ha. unfold content. apply list_fmap_ext. intros i a Hi.
  apply list_elem_of_lookup_2 in Hi. apply list_lookup_total_insert_ne.
  specialize (Ha a Hi). intros E. apply Hn. replace pos with a by lia. done.
Qed.

(** ** The invariant *)

Definition reserved (w : Writer) : list Z :=
  match w with Copying pos rest => seqZ pos (Z.of_nat (length rest)) | _ => [] end.

Record inv (n : Node) : Prop := {
  i_shape : shape (Ctx (mem n)) (in_flight n);
  i_buf : length (ADV_TRACE_Buffer (mem n)) = 512%nat;
  i_lock : TraceLock (Ctx (mem n)) =
    b2z (in_flight n) + b2z (in_callback n) + b2z (holds (writer n));
  i_callback : in_callback n = true → in_flight n = false;
  i_done : (done_ n <= length (transfers (mem n)))%nat;
  i_flight : in_flight n = true → transfers (mem n) =
    take (done_ n) (transfers (mem n)) ++ [(TraceRdPtr (Ctx (mem n)), TraceSentSize (Ctx (mem n)))];
  i_message : match writer n with Locked data => Z.of_nat (length data) < 65536 | _ => True end;
  i_data : ∃ used, region (Ctx (mem n)) = used ++ reserved (writer n) ∧
    (in_flight n = true → TraceSentSize (Ctx (mem n)) <= Z.of_nat (length used)) ∧
    wire n ++ content (ADV_TRACE_Buffer (mem n)) used ++ to_copy (writer n) = accepted n }.

Lemma inv_init : inv init_node.
Proof.
  split; try done. by exists [].
Qed.

Lemma length_reserved w : length (reserved w) = length (to_copy w).
Proof. destruct w; cbn; rewrite ?length_seqZ; try done. lia. Qed.

(** The invariant is what [queued] says. *)
Lemma inv_fifo n : inv n → wire n ++ queued n = accepted n.
Proof.
  intros [_ _ _ _ _ _ _ (used & Hr & _ & Hd)]. unfold queued. rewrite Hr.
  rewrite length_app, length_reserved, Nat.add_sub, take_app_length. done.
Qed.

(** ** The steps keep the invariant *)

(** A node whose lock, writer and callback flag change. *)
Definition relocked (lock : Z) (w : Writer) (cb : bool) (n : Node) : Node :=
  n <| mem := mem n <| Ctx := Ctx (mem n) <| TraceLock := lock |> |> |>
    <| writer := w |> <| in_callback := cb |>.

Lemma inv_relocked lock w cb n :
  inv n → reserved w = reserved (writer n) → to_copy w = to_copy (writer n) →
  (cb = true → in_flight n = false) →
  lock = b2z (in_flight n) + b2z cb + b2z (holds w) →
  match w with Locked data => Z.of_nat (length data) < 65536 | _ => True end →
  inv (relocked lock w cb n).
Proof.
  intros [Hs Hb Hl Hc Hd Hf Hm (used & Hr & Hu & Ha)] Hres Hcopy Hcb Hlock Hw.
  split; try assumption. exists used. cbn. rewrite Hres, Hcopy. split; [exact Hr|]. by split.
Qed.

Lemma inv_start n n' : inv n → start_step n n' → inv n'.
Proof.
  intros Hi Hs. destruct Hs as [n data t Hw Hlen E]. rewrite TRACE_Lock_eq in E. injection E as <-.
  pose proof (i_lock n Hi) as Hl. rewrite Hw in Hl. cbn [holds b2z] in Hl.
  apply (inv_relocked (u16 _) (Locked data) (in_callback n) n Hi);
    rewrite ?Hw; try done; [apply (i_callback n Hi)|].
  cbn [holds b2z]. rewrite Hl. destruct (in_flight n), (in_callback n); reflexivity.
Qed.

Lemma copying_region n pos b rest used :
  inv n → writer n = Copying pos (b :: rest) →
  region (Ctx (mem n)) = used ++ reserved (writer n) →
  0 <= pos < 512 ∧ (pos ∉ used) ∧ (∀ a, a ∈ used → 0 <= a) ∧
  reserved (writer n) = pos :: seqZ (pos + 1) (Z.of_nat (length rest)) ∧
  (rest ≠ [] → pos + 1 < 512).
Proof.
  intros Hi Hw Hr. pose proof (region_NoDup _ _ (i_shape n Hi)) as Hnd.
  assert (Hb : ∀ a, a ∈ used ++ reserved (writer n) → 0 <= a < 512).
  { intros a Ha. rewrite <- Hr in Ha. by apply (region_bounds _ _ _ (i_shape n Hi)). }
  assert (Hres : reserved (writer n) = pos :: seqZ (pos + 1) (Z.of_nat (length rest))).
  { rewrite Hw. cbn [reserved length]. rewrite seqZ_cons by lia. f_equal; f_equal; lia. }
  rewrite Hr, Hres in Hnd. apply NoDup_app in Hnd as (_ & Hdis & _).
  assert (Hin : pos ∈ reserved (writer n)) by (rewrite Hres; apply elem_of_cons; auto).
  split; [apply Hb, elem_of_app; auto|].
  split; [intros Hu; apply (Hdis pos Hu), elem_of_cons; auto|].
  split; [intros a Ha; apply Hb, elem_of_app; auto|]. split; [exact Hres|].
  intros Hne. apply Hb, elem_of_app. right. rewrite Hres. apply elem_of_cons. right.
  apply elem_of_seqZ. destruct rest; [done | cbn; lia].
Qed.

Lemma inv_copy n pos b rest pos' t :
  inv n → writer n = Copying pos (b :: rest) → copy_byte pos b (mem n) = Ret pos' t →
  inv (n <| mem := t |> <| writer := Copying pos' rest |>).
Proof.
  intros Hi Hw E. pose proof Hi as [Hs Hb Hl Hc Hd Hf Hm (used & Hr & Hu & Ha)].
  destruct (copying_region n pos b rest used Hi Hw Hr) as (Hpos & Hnew & Hused & Hres & Hnext).
  rewrite copy_byte_eq in E by lia. injection E as <- <-.
  split; try assumption; cbn.
  - by rewrite length_insert.
  - rewrite Hl, Hw. reflexivity.
  - exact I.
  - exists (used ++ [pos]). split; [|split].
    + rewrite Hr, Hres, <- app_assoc. f_equal. cbn [app]. f_equal.
      destruct rest as [|b' rest]; [reflexivity|].
      rewrite Z.mod_small; [reflexivity|]. unfold UTIL_ADV_TRACE_FIFO_SIZE.
      split; [lia|]. apply Hnext. done.
    + intros H. specialize (Hu H). rewrite length_app. lia.
    + rewrite content_app, content_insert_other by (done || lia).
      rewrite <- Ha, Hw. cbn [to_copy content fmap list_fmap].
      rewrite list_lookup_total_insert_eq by lia. by rewrite <- app_assoc.
Qed.

Lemma inv_alloc n data pos t :
  inv n → writer n = Locked data →
  TRACE_AllocateBufer (u16 (Z.of_nat (length data))) (mem n) = Ret (Some pos) t →
  inv (n <| mem := t |> <| writer := Copying pos data |> <| accepted := accepted n ++ data |>).
Proof.
  intros Hi Hw E. pose proof Hi as [Hs Hb Hl Hc Hd Hf Hm (used & Hr & Hu & Ha)].
  rewrite Hw in Hm, Hl, Hr, Ha. cbn in Hr, Ha. rewrite app_nil_r in Hr, Ha.
  rewrite u16_small in E by lia.
  destruct (AllocateBufer_cases (Z.of_nat (length data)) (mem n) (in_flight n) Hs ltac:(lia))
    as [(p & c' & E' & Hs' & Hr' & (Hlk & _) & Hrd & Hsent)|E'];
    rewrite E' in E; [|done]. injection E as -> <-.
  split; try assumption; cbn.
  - rewrite Hlk. exact Hl.
  - rewrite Hrd, Hsent. exact Hf.
  - exact I.
  - exists used. rewrite Hr', Hr, Hsent. split; [reflexivity|]. split; [exact Hu|].
    by rewrite <- Ha, <- app_assoc.
Qed.

(** The transfer that [next_transfer] chooses is handed to the driver. *)
Definition transferring (n : Node) (c : ADV_TRACE_Context) : Trace :=
  mem n <| Ctx := c |>
        <| transfers := transfers (mem n) ++ [(TraceRdPtr c, TraceSentSize c)] |>.

Lemma flight_started n c : in_flight n = false → (done_ n <= length (transfers (mem n)))%nat →
  done_ n = length (transfers (mem n)) ∧
  bool_decide (done_ n < length (transfers (transferring n c)))%nat = true.
Proof.
  intros Hf Hd. apply bool_decide_eq_false in Hf. split; [lia|].
  apply bool_decide_eq_true. cbn. rewrite length_app. cbn. lia.
Qed.

(** A transfer is started when the writer has reserved nothing. *)
Lemma inv_started n w :
  inv n → in_flight n = false → reserved (writer n) = [] → holds w = false → to_copy w = [] →
  reserved w = [] → TraceRdPtr (Ctx (mem n)) ≠ TraceWrPtr (Ctx (mem n)) →
  let c := next_transfer (Ctx (mem n) <| TraceLock := 1 |>) in
  inv (n <| mem := transferring n c |> <| writer := w |> <| in_callback := false |>).
Proof.
  intros [Hs Hb Hl Hc Hd Hf Hm (used & Hr & Hu & Ha)] Hfl Hres Hw Hcw Hrw Hne c.
  destruct (flight_started n c Hfl Hd) as [Hdone Hfl'].
  assert (Hs1 : shape (Ctx (mem n) <| TraceLock := 1 |>) false) by (rewrite Hfl in Hs; exact Hs).
  destruct (next_transfer_shape _ Hs1 Hne) as (Hs' & Hr' & (Hlk & _) & Hsent).
  fold c in Hs', Hr', Hlk, Hsent.
  assert (Hcopy : to_copy (writer n) = []).
  { apply nil_length_inv. by rewrite <- length_reserved, Hres. }
  change (region (Ctx (mem n) <| TraceLock := 1 |>)) with (region (Ctx (mem n))) in Hr', Hsent.
  rewrite Hres, app_nil_r in Hr. rewrite Hcopy, app_nil_r in Ha.
  split; unfold in_flight; cbn -[transferring next_transfer]; rewrite ?Hfl'; try done.
  - rewrite Hw. exact Hlk.
  - cbn. rewrite length_app. lia.
  - intros _. cbn. by rewrite Hdone, take_app_length.
  - by destruct w.
  - exists used. rewrite Hrw, Hcw, !app_nil_r. split; [by rewrite <- Hr|].
    split; [intros _; rewrite Hr in Hsent; exact Hsent | exact Ha].
Qed.

Lemma TRACE_Send_cases t :
  (TraceLock (Ctx t) ≠ 0 ∧ TRACE_Send t = Ret UTIL_ADV_TRACE_OK t) ∨
  (TraceLock (Ctx t) = 0 ∧
   if TraceRdPtr (Ctx t) =? TraceWrPtr (Ctx t) then TRACE_Send t = Ret UTIL_ADV_TRACE_OK t
   else let c := next_transfer (Ctx t <| TraceLock := 1 |>) in
     TRACE_Send t = Ret UTIL_ADV_TRACE_OK
       (t <| Ctx := c |> <| transfers := transfers t ++ [(TraceRdPtr c, TraceSentSize c)] |>)).
Proof.
  unfold TRACE_Send. erewrite bind_Ret by reflexivity.
  destruct (TraceLock (Ctx t) =? 0) eqn:E0; [right | left; split; [lia | reflexivity]].
  split; [lia|]. change (0 =? 0) with true. cbn iota.
  erewrite bind_Ret by apply TRACE_Lock_eq. erewrite bind_Ret by reflexivity. cbn [Ctx modify TraceRdPtr TraceWrPtr].
  assert (HL : u16 (TraceLock (Ctx t) + 1) = 1) by (replace (TraceLock (Ctx t)) with 0 by lia; reflexivity).
  rewrite HL. destruct (TraceRdPtr (Ctx t) =? TraceWrPtr (Ctx t)); cbn [negb].
  - erewrite bind_Ret by apply TRACE_UnLock_eq. unfold mret, M_ret. f_equal.
    destruct t as [c buf tmp trs rdy]. cbn in *. destruct_ctx c. assert (lock = 0) as -> by lia. reflexivity.
  - do 3 (erewrite bind_Ret by reflexivity). reflexivity.
Qed.

Lemma inv_send n st t :
  inv n → writer n = Unlocked → TRACE_Send (mem n) = Ret st t →
  inv (n <| mem := t |> <| writer := Idle |>).
Proof.
  intros Hi Hw E. pose proof Hi as [Hs Hb Hl Hc Hd Hf Hm (used & Hr & Hu & Ha)].
  rewrite Hw in Hl, Hr, Ha. cbn in Hl, Hr, Ha.
  assert (Hidle : inv (n <| mem := mem n |> <| writer := Idle |>)).
  { split; try assumption; [exact I|]. by exists used. }
  destruct (TRACE_Send_cases (mem n)) as [[_ E']|[H0 E']].
  - rewrite E' in E. injection E as _ <-. exact Hidle.
  - destruct (TraceRdPtr (Ctx (mem n)) =? TraceWrPtr (Ctx (mem n))) eqn:Ee.
    + rewrite E' in E. injection E as _ <-. exact Hidle.
    + rewrite E' in E. injection E as _ <-.
      assert (Hfl : in_flight n = false) by (destruct (in_flight n), (in_callback n); cbn in Hl; lia || done).
      assert (Hcb : in_callback n = false) by (destruct (in_flight n), (in_callback n); cbn in Hl; lia || done).
      pose proof (inv_started n Idle Hi Hfl) as H. rewrite Hw in H.
      specialize (H eq_refl eq_refl eq_refl eq_refl ltac:(lia)).
      replace (n <| mem := _ |> <| writer := Idle |>)
        with (n <| mem := transferring n (next_transfer (Ctx (mem n) <| TraceLock := 1 |>)) |>
                <| writer := Idle |> <| in_callback := false |>); [exact H|].
      destruct n; cbn in *. by rewrite Hcb.
Qed.

Lemma TxCplt_enter_cases t :
  let c := transfer_done (Ctx t) in
  if negb (TraceRdPtr c =? TraceWrPtr c) && (TraceLock c =? 1) then
    let c' := next_transfer c in
    TRACE_TxCpltCallback_enter t = Ret false
      (t <| Ctx := c' |> <| transfers := transfers t ++ [(TraceRdPtr c', TraceSentSize c')] |>)
  else TRACE_TxCpltCallback_enter t = Ret true (t <| Ctx := c |>).
Proof.
  intros c. unfold TRACE_TxCpltCallback_enter. do 2 (erewrite bind_Ret by reflexivity).
  change (Ctx (t <| Ctx := transfer_done (Ctx t) |>)) with c. fold c.
  destruct (negb (TraceRdPtr c =? TraceWrPtr c) && (TraceLock c =? 1)); reflexivity.
Qed.

(** The end of a transfer, before the callback looks for another one. *)
Definition transferred (bytes : list Z) (n : Node) : Node :=
  n <| mem := mem n <| Ctx := transfer_done (Ctx (mem n)) |> |> <| in_callback := true |>
    <| done_ := S (done_ n) |> <| wire := wire n ++ bytes |>.

Lemma flight_transfer n ptr size :
  inv n → transfers (mem n) !! done_ n = Some (ptr, size) →
  in_flight n = true ∧ ptr = TraceRdPtr (Ctx (mem n)) ∧ size = TraceSentSize (Ctx (mem n)) ∧
  length (transfers (mem n)) = S (done_ n).
Proof.
  intros Hi Hl. assert (Hfl : in_flight n = true).
  { apply bool_decide_eq_true. by apply lookup_lt_Some in Hl. }
  pose proof (i_flight n Hi Hfl) as Hf. pose proof (i_done n Hi) as Hd.
  rewrite Hf in Hl. rewrite list_lookup_middle in Hl by (rewrite length_take; lia).
  injection Hl as <- <-. split; [done|]. do 2 (split; [done|]).
  rewrite Hf, length_app, length_take. cbn. lia.
Qed.

Lemma flight_bytes n ptr size bytes :
  inv n → transfers (mem n) !! done_ n = Some (ptr, size) →
  buf_read (ADV_TRACE_Buffer (mem n)) ptr size = Some bytes →
  bytes = content (ADV_TRACE_Buffer (mem n)) (take (Z.to_nat size) (region (Ctx (mem n)))).
Proof.
  intros Hi Hl Hb. destruct (flight_transfer n ptr size Hi Hl) as (Hfl & -> & -> & _).
  pose proof (i_shape n Hi) as Hs. rewrite Hfl in Hs.
  destruct (transfer_done_shape _ Hs) as (_ & _ & _ & Ht). rewrite Ht.
  pose proof (buf_read_length _ _ _ _ Hb) as Hlen.
  rewrite content_read in Hb; [by injection Hb|..].
  - destruct Hs as [[] _]. done.
  - lia.
  - unfold buf_read in Hb. case_match eqn:E; [lia | done].
Qed.

Lemma inv_transferred n ptr size bytes :
  inv n → in_callback n = false → transfers (mem n) !! done_ n = Some (ptr, size) →
  buf_read (ADV_TRACE_Buffer (mem n)) ptr size = Some bytes →
  inv (transferred bytes n) ∧ in_flight (transferred bytes n) = false.
Proof.
  intros Hi Hcb Hl Hb. pose proof (flight_bytes n ptr size bytes Hi Hl Hb) as ->.
  destruct (flight_transfer n ptr size Hi Hl) as (Hfl & -> & -> & Hlen).
  pose proof Hi as [Hs Hbuf Hlock Hc Hd Hf Hm (used & Hr & Hu & Ha)].
  rewrite Hfl in Hs. destruct (transfer_done_shape _ Hs) as (Hs' & Hr' & (Hlk & _) & _).
  specialize (Hu Hfl). set (sent := TraceSentSize (Ctx (mem n))) in *.
  assert (Hfl' : in_flight (transferred (content (ADV_TRACE_Buffer (mem n))
    (take (Z.to_nat sent) (region (Ctx (mem n))))) n) = false).
  { apply bool_decide_eq_false. cbn. lia. }
  split; [|exact Hfl']. split; rewrite ?Hfl'; try done.
  - cbn. rewrite Hlk, Hlock, Hfl, Hcb. done.
  - cbn. lia.
  - exists (drop (Z.to_nat sent) used). cbn. rewrite Hr', Hr.
    rewrite drop_app_le, take_app_le by lia. split; [done|]. split; [done|].
    rewrite <- Ha, <- !app_assoc. f_equal. rewrite !app_assoc. f_equal.
    rewrite <- content_app. by rewrite take_drop.
Qed.

Lemma inv_TxCplt n ptr size bytes continue t :
  inv n → in_callback n = false → transfers (mem n) !! done_ n = Some (ptr, size) →
  buf_read (ADV_TRACE_Buffer (mem n)) ptr size = Some bytes →
  TRACE_TxCpltCallback_enter (mem n) = Ret continue t →
  inv (n <| mem := t |> <| in_callback := continue |> <| done_ := S (done_ n) |>
         <| wire := wire n ++ bytes |>).
Proof.
  intros Hi Hcb Hl Hb E. destruct (inv_transferred n ptr size bytes Hi Hcb Hl Hb) as [Hi1 Hfl1].
  pose proof (TxCplt_enter_cases (mem n)) as Hcases. cbv zeta in Hcases.
  destruct (negb _ && _) eqn:Eb in Hcases; rewrite Hcases in E; injection E as <- <-; [|exact Hi1].
  apply andb_prop in Eb as [Ene E1]. apply negb_true_iff, Z.eqb_neq in Ene. apply Z.eqb_eq in E1.
  assert (Hhold : holds (writer n) = false).
  { pose proof (i_lock _ Hi1) as Hlock. rewrite Hfl1 in Hlock. cbn in Hlock. rewrite E1 in Hlock.
    destruct (holds (writer n)); [cbn in Hlock; lia | done]. }
  assert (Hw : reserved (writer n) = [] ∧ to_copy (writer n) = []) by (by destruct (writer n)).
  pose proof (inv_started (transferred bytes n) (writer n) Hi1 Hfl1 (proj1 Hw) Hhold (proj2 Hw)
    (proj1 Hw) Ene) as H.
  assert (Hlk : transfer_done (Ctx (mem n)) <| TraceLock := 1 |> = transfer_done (Ctx (mem n))).
  { destruct (transfer_done (Ctx (mem n))). cbn in E1. by rewrite E1. }
  change (Ctx (mem (transferred bytes n))) with (transfer_done (Ctx (mem n))) in H.
  rewrite Hlk in H. destruct n. exact H.
Qed.

Lemma inv_writer n n' : inv n → writer_step n n' → inv n'.
Proof.
  intros Hi Hs. destruct Hs as [n data pos t Hw E|n data t Hw E|n pos b rest pos' t Hw E|n pos t Hw E
    |n t Hw E|n st t Hw E].
  - eapply inv_alloc; eassumption.
  - pose proof (i_message n Hi) as Hm. rewrite Hw in Hm. rewrite u16_small in E by lia.
    destruct (AllocateBufer_cases _ (mem n) (in_flight n) (i_shape n Hi)
      (conj (Nat2Z.is_nonneg (length data)) Hm)) as [(p & c & E' & _)|E']; rewrite E' in E; [done|].
    injection E as <-.
    replace (n <| mem := mem n |> <| writer := Refused |>)
      with (relocked (TraceLock (Ctx (mem n))) Refused (in_callback n) n)
      by (by destruct n as [[[]]]).
    apply inv_relocked; rewrite ?Hw; try done; [apply (i_callback n Hi)|].
    rewrite (i_lock n Hi), Hw. done.
  - eapply inv_copy; eassumption.
  - rewrite TRACE_UnLock_eq in E. injection E as <-.
    apply (inv_relocked _ Unlocked (in_callback n) n Hi); rewrite ?Hw; try done; [apply (i_callback n Hi)|].
    rewrite (i_lock n Hi), Hw. destruct (in_flight n), (in_callback n); reflexivity.
  - rewrite TRACE_UnLock_eq in E. injection E as <-.
    apply (inv_relocked _ Idle (in_callback n) n Hi); rewrite ?Hw; try done; [apply (i_callback n Hi)|].
    rewrite (i_lock n Hi), Hw. destruct (in_flight n), (in_callback n); reflexivity.
  - eapply inv_send; eassumption.
Qed.

Lemma inv_interrupt n n' : inv n → interrupt_step n n' → inv n'.
Proof.
  intros Hi Hs. destruct Hs as [n ptr size bytes continue t Hcb Hl Hb E|n t Hcb E].
  - eapply inv_TxCplt; eassumption.
  - injection E as <-. pose proof (i_callback n Hi Hcb) as Hfl.
    apply (inv_relocked _ (writer n) false n Hi); try done.
    + rewrite (i_lock n Hi), Hcb, Hfl. destruct (holds (writer n)); reflexivity.
    + apply (i_message n Hi).
Qed.

Lemma inv_work p n n' : inv n → work p n n' → inv n'.
Proof. intros Hi [H|[H _]]; eauto using inv_interrupt, inv_writer. Qed.
Lemma runs_inv p n : runs p n → inv n.
Proof.
  induction 1 as [|n n' _ IH [H|[H _]]]; eauto using inv_init, inv_work, inv_start.
Qed.

(** ** No piece fails *)

Lemma flight_next n :
  inv n → in_flight n = true → ∃ ptr size bytes,
    transfers (mem n) !! done_ n = Some (ptr, size) ∧ 0 < size ∧
    buf_read (ADV_TRACE_Buffer (mem n)) ptr size = Some bytes ∧
    bytes = take (Z.to_nat size) (queued n).
Proof.
  intros Hi Hfl. pose proof (i_flight n Hi Hfl) as Hf. pose proof (i_done n Hi) as Hd.
  set (sent := TraceSentSize (Ctx (mem n))) in *. set (rd := TraceRdPtr (Ctx (mem n))) in *.
  assert (Hlook : transfers (mem n) !! done_ n = Some (rd, sent)).
  { rewrite Hf, list_lookup_middle by (rewrite length_take; lia). done. }
  pose proof (i_shape n Hi) as Hs. rewrite Hfl in Hs.
  assert (Hr : 0 < sent ∧ 0 <= rd ∧ rd + sent <= 512).
  { revert Hs. unfold shape, sent, rd. destruct (unchunk_status (Ctx (mem n))); intros (H1 & H2 & H3).
    - destruct H3 as [H3 H4]. specialize (H4 eq_refl). lia.
    - destruct H3 as (H3 & H4 & H5). specialize (H5 eq_refl). lia.
    - lia. }
  eexists rd, sent, _. split; [exact Hlook|]. split; [lia|].
  rewrite content_read by (rewrite ?(i_buf n Hi); lia). split; [reflexivity|].
  destruct (i_data n Hi) as (used & Hreg & Hu & _). specialize (Hu Hfl). fold sent in Hu.
  destruct (transfer_done_shape _ Hs) as (_ & _ & _ & Ht). fold sent rd in Ht. rewrite <- Ht.
  unfold queued. rewrite Hreg, length_app, length_reserved, Nat.add_sub, take_app_length.
  rewrite !take_app_le by (rewrite ?length_content; lia). unfold content. by rewrite fmap_take.
Qed.

Lemma writer_progress n : inv n → writer n ≠ Idle → ∃ n', writer_step n n'.
Proof.
  intros Hi Hw. destruct (writer n) as [|data|pos [|b rest]| |] eqn:E; [done|..].
  - destruct (TRACE_AllocateBufer (u16 (Z.of_nat (length data))) (mem n)) as [[pos|] t| | |] eqn:Ea;
      [eexists; eapply step_alloc; eassumption | eexists; eapply step_refuse; eassumption |..];
      (pose proof (i_message n Hi) as Hm; rewrite E in Hm; rewrite u16_small in Ea by lia;
       destruct (AllocateBufer_cases _ (mem n) (in_flight n) (i_shape n Hi)
         (conj (Nat2Z.is_nonneg (length data)) Hm)) as [(? & ? & E' & _)|E']; rewrite E' in Ea; done).
  - eexists. by eapply step_copied.
  - destruct (i_data n Hi) as (used & Hr & _).
    destruct (copying_region n pos b rest used Hi E Hr) as (Hp & _).
    eexists. eapply step_copy; [exact E|]. apply copy_byte_eq. rewrite (i_buf n Hi). lia.
  - eexists. by eapply step_refused.
  - destruct (TRACE_Send_cases (mem n)) as [[_ E']|[_ E']].
    + eexists. eapply step_send; eassumption.
    + destruct (_ =? _); eexists; (eapply step_send; [exact E | exact E']).
Qed.

Lemma interrupt_progress n :
  inv n → in_flight n = true ∨ in_callback n = true → ∃ n', interrupt_step n n'.
Proof.
  intros Hi [Hfl|Hcb].
  - destruct (flight_next n Hi Hfl) as (ptr & size & bytes & Hl & _ & Hb & _).
    assert (Hcb : in_callback n = false).
    { destruct (in_callback n) eqn:E; [|done]. by rewrite (i_callback n Hi E) in Hfl. }
    pose proof (TxCplt_enter_cases (mem n)) as Hc. cbv zeta in Hc.
    destruct (negb _ && _) in Hc; eexists; eapply step_TxCplt; eassumption.
  - eexists. by eapply step_exit.
Qed.

(** ** The FIFO *)

(** C4: the trace buffer is a FIFO, however the pieces of the writer and the
    interrupt are interleaved, even if the writer preempts the callback.  The
    bytes on the wire followed by those still queued are the bytes of the accepted
    messages, in order; at most one transfer is handed to the driver at a time;
    it is not empty, lies in the buffer, and at every moment until it ends its
    bytes in the buffer are the next ones of the queue; no piece of the writer or
    of the interrupt writes outside the buffer or gets stuck. *)
Theorem trace_fifo (preempt : bool) (n : Node) :
  runs preempt n →
  wire n ++ queued n = accepted n ∧ length (ADV_TRACE_Buffer (mem n)) = 512%nat ∧
  (length (transfers (mem n)) <= S (done_ n))%nat ∧
  (∀ ptr size, transfers (mem n) !! done_ n = Some (ptr, size) → 0 < size ∧
     buf_read (ADV_TRACE_Buffer (mem n)) ptr size = Some (take (Z.to_nat size) (queued n))) ∧
  (writer n ≠ Idle → ∃ n', writer_step n n') ∧
  (in_flight n = true ∨ in_callback n = true → ∃ n', interrupt_step n n').
Proof.
  intros Hr. pose proof (runs_inv preempt n Hr) as Hi. split; [by apply inv_fifo|].
  split; [by apply i_buf|]. split.
  { destruct (in_flight n) eqn:Hfl.
    - rewrite (i_flight n Hi Hfl), length_app, length_take. cbn. lia.
    - apply bool_decide_eq_false in Hfl. lia. }
  split; [|split; [by apply writer_progress | by apply interrupt_progress]].
  intros ptr size Hl. destruct (flight_transfer n ptr size Hi Hl) as (Hfl & -> & -> & _).
  destruct (flight_next n Hi Hfl) as (ptr & size & bytes & Hl' & Hs & Hb & ->).
  destruct (flight_transfer n ptr size Hi Hl') as (_ & -> & -> & _). auto.
Qed.

(** ** Draining *)

(** [P] holds sooner or later, whichever piece runs next, when no new message
    is started and the writer does not preempt the callback. *)
Inductive eventually (P : Node → Prop) (n : Node) : Prop :=
| eventually_now : P n → eventually P n
| eventually_later :
    (∃ n', work false n n') → (∀ n', work false n n' → eventually P n') → eventually P n.

(** The work that is left: the bytes in the buffer, the callback, the writer. *)
Definition writer_cost (w : Writer) : nat :=
  match w with Copying _ rest => length rest + 2 | Unlocked => 1 | _ => 0 end.
Definition cost (n : Node) : nat :=
  2 * length (region (Ctx (mem n))) + (if in_callback n then 1 else 0) + writer_cost (writer n).

Definition delivering (w : Writer) : Prop :=
  match w with Idle | Copying _ _ | Unlocked => True | _ => False end.
(** Something goes on as long as there are bytes: a message has been accepted, or
    a transfer is under way. *)
Record draining (n : Node) : Prop := {
  d_inv : inv n;
  d_writer : delivering (writer n);
  d_busy : writer n = Idle → region (Ctx (mem n)) = [] ∨ in_flight n = true }.

Lemma draining_writer n n' :
  draining n → in_callback n = false → writer_step n n' → draining n' ∧ (cost n' < cost n)%nat.
Proof.
  intros [Hi Hw Hb] Hcb Hs. pose proof (inv_writer n n' Hi Hs) as Hi'.
  destruct Hs as [n data pos t E Ea|n data t E Ea|n pos b rest pos' t E Ea|n pos t E Ea
    |n t E Ea|n st t E Ea]; rewrite E in Hw; try done.
  - destruct (i_data n Hi) as (used & Hr & _).
    destruct (copying_region n pos b rest used Hi E Hr) as (Hp & _).
    rewrite copy_byte_eq in Ea by (rewrite (i_buf n Hi); lia). injection Ea as <- <-.
    split; [split; done|]. unfold cost. cbn. rewrite E. cbn. lia.
  - injection Ea as <-. split; [split; done|]. unfold cost. cbn. rewrite E. cbn. unfold region. cbn. lia.
  - pose proof (i_lock n Hi) as Hl. rewrite E, Hcb in Hl. cbn in Hl.
    pose proof (i_shape n Hi) as Hsh.
    destruct (TRACE_Send_cases (mem n)) as [[Hne E']|[H0 E']].
    + rewrite E' in Ea. injection Ea as _ <-. split; [split; try done|].
      * intros _. right. change (in_flight n = true). destruct (in_flight n); [done | cbn in Hl; lia].
      * unfold cost. cbn. rewrite E. cbn. lia.
    + assert (Hfl : in_flight n = false) by (destruct (in_flight n); [cbn in Hl; lia | done]).
      rewrite Hfl in Hsh. destruct (_ =? _) eqn:Ee; rewrite E' in Ea; injection Ea as _ <-.
      * split; [split; try done|].
        -- intros _. left. apply (region_empty _ Hsh). lia.
        -- unfold cost. cbn. rewrite E. cbn. lia.
      * assert (Hsh1 : shape (Ctx (mem n) <| TraceLock := 1 |>) false) by exact Hsh.
        destruct (next_transfer_shape _ Hsh1) as (_ & Hreg & _); [cbn; lia|]. split; [split; try done|].
        -- intros _. right. apply (flight_started n _ Hfl (i_done n Hi)).
        -- unfold cost. cbn -[next_transfer]. rewrite E.
           change (mkContext _ _ _ _ _ _ _ _ 1) with (Ctx (mem n) <| TraceLock := 1 |>).
           rewrite Hreg. cbn. unfold region. cbn. lia.
Qed.

Lemma draining_interrupt n n' :
  draining n → interrupt_step n n' → draining n' ∧ (cost n' < cost n)%nat.
Proof.
  intros [Hi Hw Hb] Hs. pose proof (inv_interrupt n n' Hi Hs) as Hi'.
  destruct Hs as [n ptr size bytes continue t Hcb Hl Hbytes E|n t Hcb E].
  - destruct (flight_transfer n ptr size Hi Hl) as (Hfl & -> & -> & Hlen).
    pose proof (i_shape n Hi) as Hs. rewrite Hfl in Hs.
    destruct (transfer_done_shape _ Hs) as (Hs' & Hr' & (Hlk & _) & _).
    destruct (flight_next n Hi Hfl) as (ptr & size & bytes' & Hl' & Hsize & _ & _).
    destruct (flight_transfer n ptr size Hi Hl') as (_ & -> & -> & _).
    destruct (i_data n Hi) as (used & Hr & Hu & _). specialize (Hu Hfl).
    assert (Hshort : (length (region (transfer_done (Ctx (mem n)))) < length (region (Ctx (mem n))))%nat).
    { rewrite Hr', length_drop, Hr, length_app. lia. }
    pose proof (TxCplt_enter_cases (mem n)) as Hcases. cbv zeta in Hcases.
    destruct (negb _ && _) eqn:Eb in Hcases; rewrite Hcases in E; injection E as <- <-.
    + apply andb_prop in Eb as [Ene _]. apply negb_true_iff, Z.eqb_neq in Ene.
      destruct (next_transfer_shape _ Hs' Ene) as (_ & Hreg & _).
      split; [split; [exact Hi' | exact Hw|]|].
      * intros _. right. apply bool_decide_eq_true. cbn -[next_transfer transfer_done].
        rewrite length_app. cbn. lia.
      * unfold cost. cbn -[next_transfer transfer_done Nat.mul]. rewrite Hreg, Hcb. lia.
    + split; [split; [exact Hi' | exact Hw|]|].
      * intros Hidle. left. apply (region_empty _ Hs').
        pose proof (i_lock n Hi) as Hlock. cbn [writer modify] in Hidle.
        change (writer n = Idle) in Hidle. rewrite Hidle, Hfl, Hcb in Hlock. cbn in Hlock.
        rewrite Hlk, Hlock in Eb. change (1 =? 1) with true in Eb. rewrite andb_true_r in Eb.
        apply negb_false_iff in Eb. lia.
      * unfold cost. cbn -[transfer_done Nat.mul]. rewrite Hcb. lia.
  - injection E as <-. split; [split; [exact Hi' | exact Hw|]|].
    + intros Hidle. change (writer n = Idle) in Hidle. destruct (Hb Hidle) as [H|H]; [by left|].
      by rewrite (i_callback n Hi Hcb) in H.
    + unfold cost. cbn -[Nat.mul]. rewrite Hcb. unfold region. cbn. lia.
Qed.

Lemma draining_work n n' : draining n → work false n n' → draining n' ∧ (cost n' < cost n)%nat.
Proof.
  intros Hd [H|[H Hp]]; [by apply draining_interrupt|]. apply draining_writer; try done.
  destruct (in_callback n); [|done]. by specialize (Hp eq_refl).
Qed.

Lemma draining_progress n :
  draining n → (writer n = Idle ∧ wire n = accepted n) ∨ ∃ n', work false n n'.
Proof.
  intros [Hi Hw Hb]. destruct (in_callback n) eqn:Hcb.
  { right. destruct (interrupt_progress n Hi (or_intror Hcb)) as [n' H]. exists n'. by left. }
  destruct (decide (writer n = Idle)) as [Hidle|Hne].
  - destruct (Hb Hidle) as [Hr|Hfl].
    + left. split; [done|]. pose proof (inv_fifo n Hi) as Hf. unfold queued in Hf.
      rewrite Hr, Hidle in Hf. cbn in Hf. by rewrite app_nil_r in Hf.
    + right. destruct (interrupt_progress n Hi (or_introl Hfl)) as [n' H]. exists n'. by left.
  - right. destruct (writer_progress n Hi Hne) as [n' H]. exists n'. right. split; [done|].
    by rewrite Hcb.
Qed.

Lemma work_accepted n n' : delivering (writer n) → work false n n' → accepted n' = accepted n.
Proof. intros Hw [H|[H _]]; destruct H; try done. rewrite H in Hw. done. Qed.

Lemma drains n :
  draining n → eventually (λ m, writer m = Idle ∧ wire m = accepted n ∧ accepted m = accepted n) n.
Proof.
  remember (cost n) as k eqn:Hk. revert n Hk.
  induction k as [k IH] using lt_wf_ind. intros n -> Hd.
  destruct (draining_progress n Hd) as [[Hi Hw]|Hp]; [by apply eventually_now|].
  apply eventually_later; [done|]. intros n' Hs. destruct (draining_work n n' Hd Hs) as [Hd' Hc].
  rewrite <- (work_accepted n n' (d_writer n Hd) Hs). by apply (IH (cost n')).
Qed.

(** C8: once a message has been accepted, everything accepted so far reaches the
    wire: from the copy of the message on, if no new message is started and the
    writer does not preempt the callback of a finished transfer ([work false]), in
    every order of the remaining pieces and of the ends of the transfers, the
    writer finishes and the queue empties; no wake-up is lost.  With a new message
    that is refused, accepted bytes can stay for ever (TraceFaults). *)
Theorem accepted_trace_drains (n : Node) (pos : Z) (rest : list Z) :
  runs false n → writer n = Copying pos rest →
  eventually (λ m, writer m = Idle ∧ wire m = accepted n ∧ accepted m = accepted n) n.
Proof.
  intros Hr Hw. apply drains. split; [by apply (runs_inv false) | by rewrite Hw | by rewrite Hw].
Qed.

(** ** Concrete instances *)

Lemma trace_fifo_witness :
  ∃ n, runs false n ∧ wire n ++ queued n = replicate 400 7 ∧
    (length (transfers (mem n)) <= S (done_ n))%nat.
Proof.
  assert (Hacc : match acts (message 200 ++ message 200) init_node with
                 | Some n => accepted n = replicate 400 7 | None => False end)
    by (vm_compute; reflexivity).
  pose proof (acts_runs (message 200 ++ message 200) init_node) as Hruns.
  destruct (acts (message 200 ++ message 200) init_node) as [n|]; [|done].
  assert (Hr : runs false n) by (apply Hruns; [constructor | done]).
  destruct (trace_fifo false n Hr) as (Hf & _ & Ht & _). exists n. rewrite Hf. auto.
Defined.

Lemma accepted_trace_drains_witness :
  ∃ n, runs false n ∧ accepted n = replicate 400 7 ∧
    eventually (λ m, writer m = Idle ∧ wire m = accepted n ∧ accepted m = accepted n) n.
Proof.
  assert (Hacc : match acts (message 200 ++ [Start (replicate 200 7); Write]) init_node with
                 | Some n => accepted n = replicate 400 7 ∧ writer n = Copying 200 (replicate 200 7)
                 | None => False end) by (vm_compute; split; reflexivity).
  pose proof (acts_runs (message 200 ++ [Start (replicate 200 7); Write]) init_node) as Hruns.
  destruct (acts _ init_node) as [n|]; [|done]. destruct Hacc as [Ha Hw].
  assert (Hr : runs false n) by (apply Hruns; [constructor | done]).
  exists n. split; [exact Hr|]. split; [exact Ha|].
  exact (accepted_trace_drains n 200 (replicate 200 7) Hr Hw).
Defined.
