(* ===== verification/TraceFaults.v ===== *)
(** * stm32_adv_trace.c: how the trace buffer fails.

    A message that is refused while a transfer ends stops the buffer, and the
    formatted messages of the simulator fill it with one message. *)

From S2P Require Import Prelude Effects Mem AdvTrace TraceModel.

(** ** Stalling *)

(** The steps when every new message has at least 200 bytes. *)
Definition long_step (n n' : Node) : Prop :=
  work false n n' ∨
  (start_step n n' ∧ in_callback n = false ∧
   match writer n' with Locked data => (200 <= length data)%nat | _ => False end).

(** Two messages of 200 bytes; the first transfer ends while a third one is
    being refused. *)
Definition refusal : list Act :=
  message 200 ++ message 200 ++
  [Start (replicate 200 7); Interrupt; Interrupt; Write; Write].

Definition stalled (n : Node) : Prop :=
  in_callback n = false ∧ in_flight n = false ∧
  unchunk_status (Ctx (mem n)) = TRACE_UNCHUNK_NONE ∧
  TraceRdPtr (Ctx (mem n)) = 200 ∧ TraceWrPtr (Ctx (mem n)) = 400 ∧
  match writer n with
  | Idle | Refused => True
  | Locked data => (200 <= length data)%nat ∧ Z.of_nat (length data) < 65536
  | _ => False
  end.

Lemma stalled_refuses t Size :
  unchunk_status (Ctx t) = TRACE_UNCHUNK_NONE → TraceRdPtr (Ctx t) = 200 → TraceWrPtr (Ctx t) = 400 →
  200 <= Size → TRACE_AllocateBufer Size t = Ret None t.
Proof.
  intros Hu Hr Hw HS. unfold TRACE_AllocateBufer. erewrite bind_Ret by reflexivity.
  unfold detect_unchunk. rewrite Hw, Hr. change (400 =? 200) with false. change (200 <? 400) with true.
  cbn iota. change (u16 (UTIL_ADV_TRACE_FIFO_SIZE - 400)) with 112.
  rewrite (proj2 (Z.ltb_ge Size 200)), andb_false_r by lia. erewrite bind_Ret by reflexivity.
  rewrite (proj2 (Z.ltb_ge Size 112)) by lia. unfold mret, M_ret. by destruct t.
Qed.

Lemma stalled_step n n' :
  stalled n → long_step n n' → stalled n' ∧ wire n' = wire n ∧ accepted n' = accepted n.
Proof.
  intros (Hcb & Hfl & Hu & Hr & Hw & Hwr) [[H|[H _]]|[H [_ Hlong]]].
  - destruct H as [n ptr size bytes continue t _ Hl _ _|n t Hcb' _]; [|congruence].
    apply lookup_lt_Some in Hl. apply bool_decide_eq_false in Hfl. lia.
  - destruct H as [n data pos t E Ea|n data t E Ea|n pos b rest pos' t E Ea|n pos t E Ea
      |n t E Ea|n st t E Ea]; rewrite E in Hwr; try done.
    + rewrite stalled_refuses in Ea by (rewrite ?u16_small; lia || done). done.
    + rewrite stalled_refuses in Ea by (rewrite ?u16_small; lia || done). injection Ea as <-.
      by repeat split.
    + injection Ea as <-. by repeat split.
  - destruct H as [n data t E Hlen Ea]. injection Ea as <-. by repeat split.
Qed.

(** C36: a refusal can stop the buffer for good.  [UTIL_ADV_TRACE_Send] does not
    call [TRACE_Send] when the allocation fails; if the running transfer ends
    while the writer holds the lock, the callback does not start the next one
    either.  In the state reached, 200 accepted bytes are queued, nothing is
    running, and however many messages of 200 bytes or more follow, all are
    refused and no byte is sent. *)
Theorem refusal_stalls :
  ∃ n, runs false n ∧ writer n = Idle ∧ queued n = replicate 200 7 ∧ in_flight n = false ∧
    ∀ n', rtc long_step n n' → wire n' = wire n ∧ accepted n' = accepted n ∧ in_flight n' = false.
Proof.
  assert (Hsome : match acts refusal init_node with Some _ => true | None => false end = true)
    by (vm_compute; reflexivity).
  assert (Hst : match acts refusal init_node with
                | Some n => in_callback n = false ∧ in_flight n = false ∧
                    unchunk_status (Ctx (mem n)) = TRACE_UNCHUNK_NONE ∧
                    TraceRdPtr (Ctx (mem n)) = 200 ∧ TraceWrPtr (Ctx (mem n)) = 400 ∧
                    writer n = Idle ∧ queued n = replicate 200 7
                | None => True end) by (vm_compute; repeat split).
  pose proof (acts_runs refusal init_node) as Hruns.
  destruct (acts refusal init_node) as [n|]; [|done].
  destruct Hst as (Hcb & Hfl & Hu & Hr & Hw & Hidle & Hq). exists n.
  split; [apply Hruns; [constructor | done]|]. do 3 (split; [assumption|]).
  assert (Hst : stalled n) by (unfold stalled; rewrite Hidle; auto 10).
  clear -Hst. intros n' H. induction H as [n|n n1 n2 Hs _ IH]; [by destruct Hst as (_ & ? & _)|].
  destruct (stalled_step n n1 Hst Hs) as (Hst1 & <- & <-). by apply IH.
Qed.

(** ** Formatted messages *)

(** The FIFO is empty and starts at the beginning of the buffer. *)
Record fresh (t : Trace) : Prop := {
  fr_rd : TraceRdPtr (Ctx t) = 0;
  fr_wr : TraceWrPtr (Ctx t) = 0;
  fr_lock : TraceLock (Ctx t) = 0;
  fr_status : unchunk_status (Ctx t) = TRACE_UNCHUNK_NONE;
  fr_stamp : timestamp_func (Ctx t) = None;
  fr_buffer : length (ADV_TRACE_Buffer t) = 512%nat;
  fr_tmp : length (sztmp t) = 256%nat }.

Lemma written_length text :
  (length (fst (tiny_vsnprintf_like UTIL_ADV_TRACE_TMP_BUF_SIZE text)) <= 256)%nat.
Proof.
  change (fst _) with (take 255 text ++ [0]). rewrite length_app, length_take. cbn [length]. lia.
Qed.

(** The part of the function before the allocation. *)
Lemma COND_FSend_enter timestamp v r ts text text' t :
  filter_trace v r (Ctx t) = None → timestamp_func (Ctx t) = None → length (sztmp t) = 256%nat →
  ∃ tmp, length tmp = 256%nat ∧
  UTIL_ADV_TRACE_COND_FSend timestamp v r ts text text' t =
    (pos ← TRACE_AllocateBufer 256;
     match pos with
     | Some pos =>
         buf ← gets ADV_TRACE_Buffer;
         buf ← defined "write outside ADV_TRACE_Buffer" (buf_write buf pos []);
         buf ← defined "write outside ADV_TRACE_Buffer"
                 (buf_write buf (pos + 0) (fst (tiny_vsnprintf_like UTIL_ADV_TRACE_TMP_BUF_SIZE text')));
         update (λ t, t <| ADV_TRACE_Buffer := buf |>);;
         TRACE_UnLock;;
         TRACE_Send
     | None => TRACE_UnLock;; mret UTIL_ADV_TRACE_MEM_FULL
     end) (t <| sztmp := tmp |> <| Ctx := Ctx t <| TraceLock := u16 (TraceLock (Ctx t) + 1) |> |>).
Proof.
  intros Hf Hts Htmp. unfold UTIL_ADV_TRACE_COND_FSend. erewrite bind_Ret by reflexivity.
  rewrite Hf. unfold get_timestamp. erewrite bind_Ret; cycle 1.
  { erewrite bind_Ret by reflexivity. by rewrite Hts. }
  pose proof (written_length text) as Hl. unfold tiny_vsnprintf_like in *. cbn [fst] in Hl.
  change (UTIL_ADV_TRACE_TMP_BUF_SIZE =? 0) with false in *. cbv beta iota in *.
  erewrite bind_Ret by reflexivity. rewrite buf_write_Some by lia.
  do 2 (erewrite bind_Ret by reflexivity). erewrite bind_Ret by apply TRACE_Lock_eq.
  eexists. split; [|reflexivity]. rewrite take_0, app_nil_l, length_app, length_drop.
  change (Z.to_nat 0) with 0%nat. lia.
Qed.

(** A formatted message takes 256 bytes of the FIFO whatever its text, since
    [tiny_vsnprintf_like] returns the size of the buffer and not the number of
    bytes written.  From an empty FIFO the first message is accepted and a transfer
    of 256 bytes is started, of which the text and its final zero are the first;
    until it ends, every further formatted message is refused, whatever its text,
    and the FIFO keeps its state. *)
Theorem formatted_traces_fill_fifo (timestamp : Z → Trace → list Z) (v r ts v' r' ts' : Z)
    (text text' other other' : list Z) (t : Trace) :
  fresh t → filter_trace v r (Ctx t) = None → filter_trace v' r' (Ctx t) = None →
  ∃ t1 t2,
    UTIL_ADV_TRACE_COND_FSend timestamp v r ts text text' t = Ret UTIL_ADV_TRACE_OK t1 ∧
    transfers t1 = transfers t ++ [(0, 256)] ∧
    take (length (take 255 text' ++ [0])) (ADV_TRACE_Buffer t1) = take 255 text' ++ [0] ∧
    UTIL_ADV_TRACE_COND_FSend timestamp v' r' ts' other other' t1 = Ret UTIL_ADV_TRACE_MEM_FULL t2 ∧
    Ctx t2 = Ctx t1 ∧ transfers t2 = transfers t1 ∧ ADV_TRACE_Buffer t2 = ADV_TRACE_Buffer t1.
Proof.
  intros [Hrd Hwr Hlk Hst Hts Hbuf Htmp] Hf Hf'.
  destruct (COND_FSend_enter timestamp v r ts text text' t Hf Hts Htmp) as (tmp & Hltmp & E1).
  set (written := fst (tiny_vsnprintf_like UTIL_ADV_TRACE_TMP_BUF_SIZE text')) in *.
  assert (Hwl : (length written <= 256)%nat) by apply written_length.
  destruct t as [c buf tmp0 trs rdy]. cbn in Hrd, Hwr, Hlk, Hst, Hts, Hbuf, Htmp, Hf, Hf'.
  destruct c as [ue st stamp lvl mask rd wr sent lock]. cbn in Hrd, Hwr, Hlk, Hst, Hts. subst.
  set (c1 := mkContext ue TRACE_UNCHUNK_NONE None lvl mask 0 256 256 1).
  set (t1 := mkTrace c1 (written ++ drop (length written) buf) tmp (trs ++ [(0, 256)]) rdy).
  assert (E : UTIL_ADV_TRACE_COND_FSend timestamp v r ts text text'
      (mkTrace (mkContext ue TRACE_UNCHUNK_NONE None lvl mask 0 0 sent 0) buf tmp0 trs rdy) =
    Ret UTIL_ADV_TRACE_OK t1).
  { rewrite E1.
    erewrite (bind_Ret _ _ _ (Some 0) (mkTrace (mkContext ue TRACE_UNCHUNK_NONE None lvl mask 0 256 sent 1)
      buf tmp trs rdy)) by reflexivity. cbv beta iota.
    erewrite (bind_Ret _ _ _ buf) by reflexivity.
    assert (W0 : buf_write buf 0 [] = Some buf) by (rewrite buf_write_Some by (cbn; lia); reflexivity).
    rewrite W0. erewrite bind_Ret by reflexivity. fold written.
    rewrite (buf_write_Some buf (0 + 0) written) by lia.
    do 3 (erewrite bind_Ret by reflexivity). reflexivity. }
  destruct (COND_FSend_enter timestamp v' r' ts' other other' t1 Hf' eq_refl Hltmp) as (tmp2 & _ & E2).
  eexists t1, _. split; [exact E|]. split; [reflexivity|]. split; [apply take_app_length|].
  split. { rewrite E2. erewrite bind_Ret by reflexivity. reflexivity. }
  repeat split.
Qed.

Lemma formatted_traces_fill_fifo_witness :
  let t := final (UTIL_ADV_TRACE_Init trace_boot) in
  ∃ t1 t2, UTIL_ADV_TRACE_COND_FSend (λ _ _, []) 0 0 0 [79; 75] [79; 75] t = Ret UTIL_ADV_TRACE_OK t1 ∧
    transfers t1 = [(0, 256)] ∧
    UTIL_ADV_TRACE_COND_FSend (λ _ _, []) 0 0 0 [33] [33] t1 = Ret UTIL_ADV_TRACE_MEM_FULL t2.
Proof.
  intros t.
  destruct (formatted_traces_fill_fifo (λ _ _, []) 0 0 0 0 0 0 [79; 75] [79; 75] [33] [33] t)
    as (t1 & t2 & E1 & Ht & _ & E2 & _).
  { by split. }
  { reflexivity. }
  { reflexivity. }
  exists t1, t2. split; [exact E1|]. split; [rewrite Ht; reflexivity | exact E2].
Defined.
